(* ===== verification/_CoqProject ===== *)
-Q . S2P
Prelude.v
CString.v
CNumber.v
Writer.v
Base64.v
Url.v
Methods.v
SessionHeader.v
RtpInfo.v
Transport.v
AuthHeader.v
Auth.v
CFloat.v
TimeRange.v
Framing.v
HeaderLine.v
HeaderFields.v
Request.v
Response.v
Message.v
ObjList.v
StateMonad.v
Receiver.v
ServerState.v
ServerSession.v
ServerRequest.v
ServerReply.v
Server.v
ServerSample.v
ServerLogic.v
ServerInv.v
ServerTable.v
ServerExec.v
ServerAnswers.v
ServerEvents.v
ServerDisconnect.v
ServerStream.v
ServerScenarios.v
ClientState.v
ClientSession.v
ClientRequest.v
Client.v
ClientRun.v
ClientSocket.v
ClientSample.v
ClientLogic.v
ClientInv.v
ClientChannels.v
ClientStream.v
ClientCalls.v
ClientDisconnect.v
ClientReplies.v
ClientKeepAlive.v
ClientTimeouts.v
ClientAuth.v
ClientScenarios.v
Network.v
NetworkLife.v
