(* ===== verification/Prelude.v ===== *)
(** * librtsp: a verification development (root file)

    librtsp is a C library for both ends of RTSP 1.0 (RFC 2326): it reads and
    writes the messages, and runs a server and a client on an event loop.  This
    development models the messages, the server, the client, and a client and a
    server that talk to each other; the last section of this header says what is
    left out.

    ** Parts

    Texts and numbers.  [CString.v] has the [string.h] functions on lists of
    characters without NUL, [CNumber.v] [strtol], [strtoul] and the conversions of
    [printf], [CFloat.v] the [float] operations with [SpecFloat], [Writer.v]
    [rtsp_sprintf] on a [struct rtsp_string] of bounded length as a monad.
    [Base64.v] is [rtsp_base64.c], [Url.v] is [rtsp_url.c].

    Headers ([rtsp.c], [rtsp_auth.c]).  [Methods.v] (methods, status codes, Allow,
    Public), [SessionHeader.v], [RtpInfo.v], [Transport.v], [AuthHeader.v] (WWW-
    Authenticate and Authorization), [Auth.v] (the Basic and Digest responses),
    [TimeRange.v] (Range and the conversions of NPT times): for each one its data,
    its writer and its reader.

    Messages ([rtsp.c]).  [Framing.v] finds the end of a header and reads and
    builds interleaved packets; [HeaderLine.v] cuts a text in lines and
    [HeaderFields.v] has the copies; [Request.v] and [Response.v] write and read
    whole headers; [Message.v] is [rtsp_get_next_message] with its context, and the
    loop around it that takes messages out of a receive buffer.

    Server ([rtsp_server.c], [rtsp_server_session.c], [rtsp_server_request.c]).
    [StateMonad.v] has the monad of stateful code with the rules of a logic of
    triples, [ObjList.v] lists of objects with addresses, [ServerState.v] the
    structures of [rtsp_server_priv.h], [ServerSession.v] the
    sessions and their medias, [ServerRequest.v] the pending requests,
    [ServerReply.v] what is sent and the functions with which the application
    replies, [Server.v] one handler per method, the dispatch of the messages, the
    timers, forced teardown, creation and destruction, and the relation [step]
    between servers with [reachable].  The application is called in the middle of a
    handler and calls back: [ServerReply.callback] appends the call to the outputs and
    runs what [env_app] answers to the outputs so far.

    Client ([rtsp_client.c], [rtsp_client_session.c], [rtsp_client_priv.h]).
    [ClientState.v] has the structures and what leaves a client, [ClientSession.v] the
    table of the sessions, their medias and the interleaved channels,
    [ClientRequest.v] the eight requests of the application, their authorization and
    what sends them, and [ccallback], by which the application is called and makes
    requests in turn; [Client.v] has [request_complete] for every method, keep alive,
    the state of the connection, connection and disconnection; [ClientRun.v] the
    messages of the server, the timers, creation and destruction, and the relation
    [client_step] between clients with [client_reachable].  [ClientSocket.v] has the
    options of the socket and the callbacks that apply them; they keep nothing that
    the protocol depends on, and are no events of [client_step].

    Both.  [Receiver.v] is the interface that the receive paths of the two share: a
    class of operations with their laws, of which server and client are instances.
    [Network.v] connects a client and a server, [NetworkLife.v] executes them.

    ** Conventions

    A function that returns 0 or a negative error number is [res]: [Ok], [Err] with
    the positive number, or [Undef] where the execution has undefined behaviour.
    Operations on a server or a client return their [int] in the monads [SM] and
    [CM], which are state passing, and have no result ([None]) where the execution
    is undefined: an access to an object that was freed, a NULL dereference, a loop
    that never ends.  Pointers to objects
    are numbers that are never used again after [free]; [NULL] strings are [None].
    Allocation succeeds.  [int] has 32 bits, [size_t] and [long] 64, [char] is
    compared as the C locale does; sizes of machine integers are written out with
    [u8], [u16], [u32], [s32], [u64].

    Code outside the repository is a parameter: the time functions of futils with
    their documented laws ([LocalTime], [LocalTimeLaws] in [TimeRange.v]), MD5,
    random numbers and [inet_pton], for the server the class [Env] of
    [ServerState.v] (random numbers, timers, the results of sends, addresses of
    peers, and the application), for the client the class [ClientEnv] of
    [ClientState.v] (the results of the calls of the transport, the resolver, TLS and
    the timers, and the application).  [client_stop] says for each call of
    [tskt_client_stop] whether the transport raises the event of the disconnection
    before it returns.  Applications of a server are restricted to what the reply
    functions, [rtsp_server_announce] and [rtsp_server_send_interleaved] do when
    called from a callback; they may do these at any other time too, and may call
    [rtsp_server_force_teardown] then.  Applications of a client make requests and send
    interleaved packets in their callbacks; they connect, disconnect, cancel and
    remove sessions at other times only, so that for example a connection from the
    callback that tells a disconnection is outside the theorems.
    [pomp_loop_idle_remove] is taken to remove every registration of its argument.

    Three recursions have fuel.  [Message.process_messages] takes one unit per
    message: every message removed has at least one byte, so that the length of the
    buffer plus one, which [data_cb] gives it, is enough
    ([Message.process_stream]).  [ServerSession.new_session_id] draws at most
    [env_id_draws] numbers; one more than there are sessions is enough when the
    numbers differ ([ServerTable.new_session_id_terminates]).
    [ClientSession.next_channel_pair] takes 128 steps, one for each even channel; a
    loop that has not ended then never does
    ([ClientChannels.next_channel_pair_terminates]).

    ** Theorems

    Round trips: what each writer emits is read back, member by member, for every
    header ([*_roundtrip] of each file), with the exceptions stated as theorems of
    their own; [Request.rtsp_request_header_roundtrip] and its sister compose them.
    Streams: [Message.receive_any_chunks] shows that messages are delivered once,
    complete and in order, however the transport cuts the stream, and
    [ServerStream.server_any_chunks] that the server is not affected either.
    Both are instances of what [Receiver.v] proves of the interface, as is
    [ClientStream.client_any_chunks].  Reference definitions:
    [Base64.rtsp_base64_encode_spec] (RFC 4648), and [Auth.rfc2617_response] for
    [Auth.rtsp_auth_digest_response_rfc2617].

    Server.  [ServerLogic.v] has the invariant and its rules; [ServerInv.v] shows
    that every operation keeps it, hence [reachable_wf] and [reachable_waiting].
    [ServerTable.v] shows that the list of the sessions refines a finite map.
    [ServerExec.v] has the equations with which [ServerAnswers.v], [ServerEvents.v],
    [ServerDisconnect.v] and [ServerStream.v] execute the handlers on arbitrary
    servers: which responses are sent for which requests, what timers and forced
    teardowns do, and replies to requests of which the connection was closed.
    [ServerSample.v] is a concrete environment, on which [ServerScenarios.v] executes
    whole sessions and on which the hypotheses of the other theorems are shown to
    hold.

    Client.  [ClientLogic.v] and [ClientInv.v] have the invariant of a client and
    that every event keeps it: sessions and medias ([client_sessions_wf]), and that
    the application is told each change of the connection ([client_states_told]).
    [ClientCalls.v] is about the requests: one at a time, sent once or not at all,
    readable by a server.  [ClientAuth.v] shows that the requests of a challenged
    client carry the response to the challenge.  [ClientReplies.v] has what responses
    and requests of the server do, [ClientDisconnect.v] that a disconnection is
    complete, [ClientTimeouts.v] that the application is told the end of a request
    without a response, [ClientKeepAlive.v] that the sessions of a client that stays
    without a connection end, [ClientChannels.v] the allocation of channels,
    [ClientSocket.v] the options of the sockets.  [ClientSample.v] is a concrete
    environment, on which [ClientScenarios.v] executes runs.

    Client and server.  [Network.options_end_to_end] and
    [Network.describe_end_to_end] compose the results for the two ends: a request of
    one application reaches the other, and its answer comes back, whatever the
    environments are and however the streams are cut.  [NetworkLife.v] is an example:
    the life of a session, executed with both ends.

    Some theorems state what the code does where it is not what it means to do:
    an interleaved parameter without a value ([Transport.v]), transports with several
    channel pairs, a refused header that stalls the messages behind it and a
    negative Content-Length ([Message.v]), an error response that announces a body
    ([ServerAnswers.v]), a late reply to RECORD ([ServerEvents.v]), error replies
    for several medias and TEARDOWN of an unknown path ([ServerScenarios.v]),
    channels that are lost and an allocation that never ends ([ClientScenarios.v],
    [ClientChannels.v]), answers that are never told, a keep alive without a timer
    and a stale resolution ([ClientScenarios.v]), a TEARDOWN of the server without an
    answer and a keep alive period that wraps around ([ClientReplies.v]), a session
    and a connection that come back after a disconnection ([ClientScenarios.v]), a
    host that is not masked ([Url.v]).

    ** Not modelled

    The C++ wrapper of the URL, the tools and the tests.  Logging, memory that is
    leaked.
    [ServerStream.server_any_chunks] is about one connection at a time: the code
    has one receive buffer for all of them, and so has the model.

    ** This file

    Shared prelude: error numbers, the result type of fallible C functions,
    bytes and character classes, machine-width integers, tactics and hints. *)

From Stdlib Require Export ZArith Lia Ascii String.
From Stdlib Require Import ZifyNat.
From stdpp Require Export base tactics option list strings.
From stdpp Require Import options.

Set Default Proof Using "Type".
#[global] Set Warnings "-notation-overridden".

(** ** Error numbers ([errno.h], Linux values) *)

Definition EPERM : Z := 1.
Definition ENOENT : Z := 2.
Definition E2BIG : Z := 7.
Definition EAGAIN : Z := 11.
Definition ENOMEM : Z := 12.
Definition EACCES : Z := 13.
Definition EBUSY : Z := 16.
Definition EEXIST : Z := 17.
Definition EINVAL : Z := 22.
Definition EPIPE : Z := 32.
Definition ERANGE : Z := 34.
Definition ENAMETOOLONG : Z := 36.
Definition ENOSYS : Z := 38.
Definition EPROTO : Z := 71.
Definition EPROTONOSUPPORT : Z := 93.
Definition ECONNRESET : Z := 104.
Definition ENOBUFS : Z := 105.
Definition ETIMEDOUT : Z := 110.
Definition EALREADY : Z := 114.

(** ** Results of fallible functions

    [Ok a] is a return of 0 with the out-parameters holding [a]; [Err e] is a
    return of [-e]; [Undef] marks an execution whose behaviour the C standard
    leaves undefined (a read of an uninitialised pointer, an out-of-range
    floating-point to integer conversion). *)

Inductive res (A : Type) : Type :=
| Ok (a : A)
| Err (e : Z)
| Undef.
Arguments Ok {A} _.
Arguments Err {A} _.
Arguments Undef {A}.

#[export] Instance res_ret : MRet res := fun A a => Ok a.
#[export] Instance res_bind : MBind res := fun A B f m =>
  match m with Ok a => f a | Err e => Err e | Undef => Undef end.
#[export] Instance res_fmap : FMap res := fun A B f m =>
  match m with Ok a => Ok (f a) | Err e => Err e | Undef => Undef end.

#[export] Instance res_eq_dec {A} `{EqDecision A} : EqDecision (res A).
Proof. solve_decision. Defined.

(** The C macro [ULOG_ERRNO_RETURN_ERR_IF(cond, err)]. *)
Definition return_err_if (cond : bool) (err : Z) : res unit :=
  if cond then Err err else Ok tt.

(** The value an [int]-returning function gives its caller. *)
Definition ret_code {A} (r : res A) : option Z :=
  match r with Ok _ => Some 0%Z | Err e => Some (- e)%Z | Undef => None end.

(** ** Machine integers *)

Definition wrapu (w z : Z) : Z := (z mod 2 ^ w)%Z.
Definition wraps (w z : Z) : Z := ((z + 2 ^ (w - 1)) mod 2 ^ w - 2 ^ (w - 1))%Z.

Abbreviation u8 := (wrapu 8).
Abbreviation u16 := (wrapu 16).
Abbreviation u32 := (wrapu 32).
Abbreviation u64 := (wrapu 64).
Abbreviation s32 := (wraps 32).
Abbreviation s64 := (wraps 64).

Definition UINT16_MAX : Z := 65535.
Definition UINT_MAX : Z := 4294967295.
Definition INT_MAX : Z := 2147483647.
Definition INT64_MAX : Z := 9223372036854775807.
Definition INT64_MIN : Z := (-9223372036854775808)%Z.
Definition ULONG_MAX : Z := 18446744073709551615.

Lemma wrapu_small w z : (0 <= z < 2 ^ w)%Z → wrapu w z = z.
Proof. intros; unfold wrapu; by apply Z.mod_small. Qed.

Lemma wrapu_range w z : (0 <= w)%Z → (0 <= wrapu w z < 2 ^ w)%Z.
Proof. intros; apply Z.mod_pos_bound. lia. Qed.

Lemma wraps_small w z :
  (1 <= w)%Z → (- 2 ^ (w - 1) <= z < 2 ^ (w - 1))%Z → wraps w z = z.
Proof.
  intros Hw Hz. unfold wraps.
  assert (2 ^ w = 2 * 2 ^ (w - 1))%Z as E
    by (rewrite <- Z.pow_succ_r by lia; f_equal; lia).
  rewrite Z.mod_small; lia.
Qed.

Lemma wraps_range w z :
  (1 <= w)%Z → (- 2 ^ (w - 1) <= wraps w z < 2 ^ (w - 1))%Z.
Proof.
  intros Hw. unfold wraps.
  assert (2 ^ w = 2 * 2 ^ (w - 1))%Z as E
    by (rewrite <- Z.pow_succ_r by lia; f_equal; lia).
  pose proof (Z.mod_pos_bound (z + 2 ^ (w - 1)) (2 ^ w)). lia.
Qed.

(** ** Bytes and strings

    A C string is the list of its bytes before the terminating NUL; a byte
    buffer is a list of bytes of any value. *)

Abbreviation cstr := (list ascii).
Abbreviation bytes := (list ascii).

Definition cs (s : String.string) : cstr := list_ascii_of_string s.
Arguments cs _%_string.

Definition NUL : ascii := "000"%char.
Definition CR : ascii := "013"%char.
Definition LF : ascii := "010"%char.

Definition code (c : ascii) : Z := Z.of_N (N_of_ascii c).
Definition chr (z : Z) : ascii := ascii_of_N (Z.to_N (u8 z)).

Definition Zlen {A} (l : list A) : Z := Z.of_nat (length l).

Definition PATH_MAX : Z := 4096.

(** [char] classes of [ctype.h] in the C locale. *)
Definition in_range (c : ascii) (lo hi : Z) : bool :=
  (lo <=? code c)%Z && (code c <=? hi)%Z.
Definition isdigit (c : ascii) : bool := in_range c 48 57.
Definition isupper (c : ascii) : bool := in_range c 65 90.
Definition islower (c : ascii) : bool := in_range c 97 122.
Definition isalnum (c : ascii) : bool := isdigit c || isupper c || islower c.
Definition isxdigit (c : ascii) : bool :=
  isdigit c || in_range c 65 70 || in_range c 97 102.
Definition isspace (c : ascii) : bool := in_range c 9 13 || in_range c 32 32.
Definition tolower (c : ascii) : ascii :=
  if isupper c then chr (code c + 32) else c.

(** Every statement [P c = true] over a byte is decided by evaluation. *)
Definition all_bytes : list ascii := map ascii_of_nat (seq 0 256).

Lemma all_bytes_complete c : c ∈ all_bytes.
Proof.
  unfold all_bytes. rewrite list_elem_of_fmap. exists (nat_of_ascii c).
  split; [by rewrite ascii_nat_embedding|].
  rewrite elem_of_seq. pose proof (nat_ascii_bounded c). lia.
Qed.

Lemma bytes_forall (P : ascii → bool) :
  forallb P all_bytes = true → ∀ c, P c = true.
Proof.
  intros H c. rewrite forallb_forall in H. apply H, list_elem_of_In, all_bytes_complete.
Qed.

Lemma chr_code c : chr (code c) = c.
Proof.
  unfold chr, code. rewrite wrapu_small.
  - by rewrite N2Z.id, ascii_N_embedding.
  - pose proof (N_ascii_bounded c). lia.
Qed.

Lemma code_range c : (0 <= code c < 256)%Z.
Proof. unfold code. pose proof (N_ascii_bounded c). lia. Qed.

Lemma code_chr z : (0 <= z < 256)%Z → code (chr z) = z.
Proof.
  intros Hz. unfold chr, code. rewrite wrapu_small by lia.
  rewrite N_ascii_embedding by lia. lia.
Qed.

Lemma code_inj c d : code c = code d → c = d.
Proof. intros H. by rewrite <- (chr_code c), <- (chr_code d), H. Qed.

(** Case analysis on the 256 values of a byte. *)
Ltac byte_cases c := destruct c as [[] [] [] [] [] [] [] []].

Lemma Forall_cs (P : ascii → Prop) `{!∀ c, Decision (P c)} s :
  bool_decide (Forall P s) = true → Forall P s.
Proof. apply bool_decide_eq_true_1. Qed.

(** ** Tactics *)

(** Inverts a successful computation in the result monad. *)
Ltac res_step :=
  match goal with
  | H : context [mbind _ (return_err_if ?b _)] |- _ =>
      destruct b eqn:?; cbn [mbind res_bind return_err_if] in H
  | H : mbind _ ?m = Ok _ |- _ => destruct m eqn:?; cbn [mbind res_bind] in H
  | H : Ok _ = Ok _ |- _ => injection H as H
  | H : Err _ = Ok _ |- _ => discriminate H
  | H : Undef = Ok _ |- _ => discriminate H
  end.
Ltac res_inv := repeat res_step; subst.

Ltac bool_to_prop :=
  repeat match goal with
  | H : (_ && _)%bool = true |- _ => apply andb_true_iff in H as [? ?]
  | H : (_ || _)%bool = false |- _ => apply orb_false_iff in H as [? ?]
  | H : negb _ = true |- _ => apply negb_true_iff in H
  | H : negb _ = false |- _ => apply negb_false_iff in H
  | H : (_ <? _)%Z = true |- _ => apply Z.ltb_lt in H
  | H : (_ <? _)%Z = false |- _ => apply Z.ltb_ge in H
  | H : (_ <=? _)%Z = true |- _ => apply Z.leb_le in H
  | H : (_ <=? _)%Z = false |- _ => apply Z.leb_gt in H
  | H : (_ =? _)%Z = true |- _ => apply Z.eqb_eq in H
  | H : (_ =? _)%Z = false |- _ => apply Z.eqb_neq in H
  | H : bool_decide _ = true |- _ => apply bool_decide_eq_true_1 in H
  | H : bool_decide _ = false |- _ => apply bool_decide_eq_false_1 in H
  end.

(** Proves a closed decidable proposition by evaluation. *)
Ltac by_decide := refine (bool_decide_eq_true_1 _ _); vm_compute; reflexivity.

(** [lia] with division and remainder by constants. *)
Ltac dlia := zify; Z.to_euclidean_division_equations; lia.

(** ** Generic list lemmas *)

Lemma Zlen_nonneg {A} (l : list A) : (0 <= Zlen l)%Z.
Proof. unfold Zlen; lia. Qed.

Lemma Zlen_app {A} (l k : list A) : Zlen (l ++ k) = (Zlen l + Zlen k)%Z.
Proof. unfold Zlen. rewrite length_app. lia. Qed.

Lemma Zlen_cons {A} (x : A) l : Zlen (x :: l) = (1 + Zlen l)%Z.
Proof. unfold Zlen. simpl. lia. Qed.

Lemma Zlen_nil {A} : Zlen (@nil A) = 0%Z.
Proof. done. Qed.

Create HintDb rtsp.
Create HintDb writer.
Create Rewrite HintDb zlen.
#[export] Hint Resolve Zlen_nonneg code_range : rtsp.
#[export] Hint Rewrite @Zlen_app @Zlen_cons @Zlen_nil : zlen.

(** ** Bit operations as arithmetic *)

Lemma testbit_small b k i : (0 <= b < 2 ^ k)%Z → (0 <= k <= i)%Z → Z.testbit b i = false.
Proof.
  intros Hb Hi. rewrite <- (Z.mod_small b (2 ^ k)) by lia. apply Z.mod_pow2_bits_high. lia.
Qed.

Lemma lor_shiftl_add a b k :
  (0 <= k)%Z → (0 <= b < 2 ^ k)%Z → Z.lor (Z.shiftl a k) b = (a * 2 ^ k + b)%Z.
Proof.
  intros Hk Hb.
  assert (Z.land (Z.shiftl a k) b = 0%Z) as H0.
  { apply Z.bits_inj'. intros i Hi. rewrite Z.land_spec, Z.bits_0.
    destruct (Z.lt_ge_cases i k).
    - by rewrite Z.shiftl_spec_low.
    - rewrite (testbit_small b k i) by lia. apply andb_false_r. }
  rewrite <- Z.lxor_lor, <- Z.add_nocarry_lxor by done. by rewrite Z.shiftl_mul_pow2.
Qed.

Lemma land_ones_mod a k : (0 <= k)%Z → Z.land a (2 ^ k - 1) = (a mod 2 ^ k)%Z.
Proof. intros. rewrite <- Z.land_ones by done. f_equal. rewrite Z.ones_equiv. lia. Qed.
