(* ===== verification/CString.v ===== *)
(** * C strings

    The [string.h] and [strings.h] functions the library calls, on strings as
    byte lists: [strchr], [strrchr], [strtok_r], [strncmp], [strcasecmp],
    [strncasecmp], [strnlen].  A function that cuts a string in place by
    writing a NUL ([strtok_r], the [*strchr(..) = 0] idiom) is modelled by
    returning the two parts. *)

From S2P Require Import Prelude.
From stdpp Require Import options.

(** ** Spans *)

Fixpoint takep (p : ascii → bool) (s : cstr) : cstr :=
  match s with
  | [] => []
  | c :: s' => if p c then c :: takep p s' else []
  end.

Fixpoint dropp (p : ascii → bool) (s : cstr) : cstr :=
  match s with
  | [] => []
  | c :: s' => if p c then dropp p s' else s
  end.

(** All bytes of [s] satisfy [p]. *)
Abbreviation all p s := (forallb (A:=ascii) p s = true).

Lemma all_app p s t : all p (s ++ t) ↔ all p s ∧ all p t.
Proof. rewrite forallb_app, andb_true_iff. done. Qed.

Lemma all_cons p c s : all p (c :: s) ↔ p c = true ∧ all p s.
Proof. simpl. by rewrite andb_true_iff. Qed.

Lemma all_impl (p q : ascii → bool) s :
  (∀ c, p c = true → q c = true) → all p s → all q s.
Proof.
  intros Hpq. induction s as [|c s IH]; simpl; [done|].
  rewrite !andb_true_iff. intros [??]; auto.
Qed.

(** [all_impl] with the byte implication decided by evaluation. *)
Lemma all_impl_dec (p q : ascii → bool) s :
  forallb (fun c => implb (p c) (q c)) all_bytes = true → all p s → all q s.
Proof.
  intros H. apply all_impl. intros c Hp.
  pose proof (bytes_forall _ H c) as Hc. simpl in Hc. by rewrite Hp in Hc.
Qed.

Lemma byte_impl_dec (p q : ascii → bool) c :
  forallb (fun c => implb (p c) (q c)) all_bytes = true → p c = true → q c = true.
Proof. intros H Hp. pose proof (bytes_forall _ H c) as Hc. simpl in Hc. by rewrite Hp in Hc. Qed.

Lemma takep_all p s : all p (takep p s).
Proof. induction s as [|c s IH]; simpl; [done|]. destruct (p c) eqn:E; simpl; [by rewrite E|done]. Qed.

Lemma takep_dropp p s : takep p s ++ dropp p s = s.
Proof. induction s as [|c s IH]; simpl; [done|]. destruct (p c); simpl; [by f_equal|done]. Qed.

Lemma takep_app_all p s t : all p s → takep p (s ++ t) = s ++ takep p t.
Proof.
  induction s as [|c s IH]; [done|]. rewrite all_cons. intros [Hc Hs]. simpl.
  rewrite Hc. f_equal. auto.
Qed.

Lemma dropp_app_all p s t : all p s → dropp p (s ++ t) = dropp p t.
Proof.
  induction s as [|c s IH]; [done|]. rewrite all_cons. intros [Hc Hs]. simpl.
  rewrite Hc. auto.
Qed.

Lemma takep_id p s : all p s → takep p s = s.
Proof. intros H. rewrite <- (app_nil_r s) at 1. rewrite takep_app_all by done. simpl. by rewrite app_nil_r. Qed.

Lemma dropp_nil p s : all p s → dropp p s = [].
Proof. intros H. rewrite <- (app_nil_r s). by rewrite dropp_app_all. Qed.

Lemma takep_stop p c s : p c = false → takep p (c :: s) = [].
Proof. simpl. by intros ->. Qed.

Lemma dropp_stop p c s : p c = false → dropp p (c :: s) = c :: s.
Proof. simpl. by intros ->. Qed.

Lemma dropp_head p s c t : dropp p s = c :: t → p c = false.
Proof. induction s as [|d s IH]; simpl; [done|]. destruct (p d) eqn:E; [auto|]. by intros [= <- <-]. Qed.

Lemma length_dropp p s : length (dropp p s) ≤ length s.
Proof. rewrite <- (takep_dropp p s) at 2. rewrite length_app. lia. Qed.

(** A byte list with no occurrence of [c]. *)
Definition isnot (c : ascii) (d : ascii) : bool := negb (Ascii.eqb c d).
Definition oneof (delims : cstr) (c : ascii) : bool := existsb (Ascii.eqb c) delims.
Definition noneof (delims : cstr) (c : ascii) : bool := negb (oneof delims c).
Arguments isnot : simpl never.
Arguments oneof : simpl never.
Arguments noneof : simpl never.

(** ** [strchr], [strrchr]

    [strchr c s = Some (a, b)] when the first [c] of [s] is between [a] and
    [b]; [strrchr] is the same with the last one. *)
Fixpoint strchr (c : ascii) (s : cstr) : option (cstr * cstr) :=
  match s with
  | [] => None
  | d :: s' =>
      if Ascii.eqb c d then Some ([], s')
      else match strchr c s' with Some (a, b) => Some (d :: a, b) | None => None end
  end.

Fixpoint strrchr (c : ascii) (s : cstr) : option (cstr * cstr) :=
  match s with
  | [] => None
  | d :: s' =>
      match strrchr c s' with
      | Some (a, b) => Some (d :: a, b)
      | None => if Ascii.eqb c d then Some ([], s') else None
      end
  end.

Lemma strchr_Some c s a b : strchr c s = Some (a, b) ↔ s = a ++ c :: b ∧ all (isnot c) a.
Proof.
  revert a b. induction s as [|d s IH]; intros a b; simpl.
  - split; [done|]. intros [H _]. by destruct a.
  - unfold isnot in *. destruct (Ascii.eqb c d) eqn:E.
    + apply Ascii.eqb_eq in E as <-. split.
      * by intros [= <- <-].
      * intros [H Ha]. destruct a as [|x a]; simplify_eq/=; [done|].
        by rewrite Ascii.eqb_refl in Ha.
    + destruct (strchr c s) as [[a' b']|] eqn:Es.
      * split.
        -- intros [= <- <-].
           destruct (proj1 (IH a' b') eq_refl) as [-> Ha]. simpl. by rewrite E.
        -- intros [H Ha]. destruct a as [|x a]; simplify_eq/=.
           { by rewrite Ascii.eqb_refl in E. }
           apply andb_true_iff in Ha as [_ Ha].
           assert (Some (a', b') = Some (a, b)) as [= -> ->]; [|done].
           by apply IH.
      * split; [done|]. intros [H Ha]. destruct a as [|x a]; simplify_eq/=.
        { by rewrite Ascii.eqb_refl in E. }
        apply andb_true_iff in Ha as [_ Ha].
        by assert (None = Some (a, b)) by (apply IH; done).
Qed.

Lemma strchr_None c s : strchr c s = None ↔ all (isnot c) s.
Proof.
  induction s as [|d s IH]; simpl; [done|]. unfold isnot in *.
  destruct (Ascii.eqb c d); simpl; [done|].
  destruct (strchr c s) as [[a b]|]; rewrite <- IH; done.
Qed.

Lemma strchr_app c a b : all (isnot c) a → strchr c (a ++ c :: b) = Some (a, b).
Proof. intros H. by apply strchr_Some. Qed.

Lemma strrchr_None c s : strrchr c s = None ↔ all (isnot c) s.
Proof.
  induction s as [|d s IH]; simpl; [done|]. unfold isnot in *.
  destruct (strrchr c s) as [[a b]|].
  - split; [done|]. rewrite andb_true_iff. intros [_ H]. by apply IH in H.
  - destruct (Ascii.eqb c d); simpl; [done|]. by rewrite <- IH.
Qed.

Lemma strrchr_app c a b : all (isnot c) b → strrchr c (a ++ c :: b) = Some (a, b).
Proof.
  intros Hb. induction a as [|d a IH]; simpl.
  - apply strrchr_None in Hb. rewrite Hb. by rewrite Ascii.eqb_refl.
  - by rewrite IH.
Qed.

Lemma strrchr_Some c s a b : strrchr c s = Some (a, b) → s = a ++ c :: b ∧ all (isnot c) b.
Proof.
  revert a b. induction s as [|d s IH]; intros a b; simpl; [done|].
  destruct (strrchr c s) as [[a' b']|] eqn:Es.
  - intros [= <- <-]. destruct (IH a' b' eq_refl) as [-> ?]. done.
  - destruct (Ascii.eqb c d) eqn:E; [|done]. apply Ascii.eqb_eq in E as <-.
    intros [= <- <-]. split; [done|]. by apply strrchr_None.
Qed.

(** ** Comparisons *)

(** [strcmp(s, t) == 0] *)
Definition streq (s t : cstr) : bool := bool_decide (s = t).

(** [strncmp(s, prefix, strlen(prefix)) == 0] *)
Fixpoint starts_with (prefix s : cstr) : bool :=
  match prefix, s with
  | [], _ => true
  | c :: p', d :: s' => Ascii.eqb c d && starts_with p' s'
  | _ :: _, [] => false
  end.

(** [strncmp(s, t, n) == 0] *)
Definition strneq (n : nat) (s t : cstr) : bool := streq (take n s) (take n t).

Definition lower (s : cstr) : cstr := map tolower s.

(** [strcasecmp(s, t) == 0] *)
Definition strcaseeq (s t : cstr) : bool := streq (lower s) (lower t).

(** [strncasecmp(s, prefix, strlen(prefix)) == 0] *)
Definition starts_with_case (prefix s : cstr) : bool :=
  starts_with (lower prefix) (lower s).

Lemma streq_refl s : streq s s = true.
Proof. by apply bool_decide_eq_true. Qed.

Lemma streq_true s t : streq s t = true ↔ s = t.
Proof. apply bool_decide_eq_true. Qed.

Lemma streq_false s t : streq s t = false ↔ s ≠ t.
Proof. apply bool_decide_eq_false. Qed.

Lemma starts_with_app p s : starts_with p (p ++ s) = true.
Proof. induction p as [|c p IH]; simpl; [done|]. by rewrite Ascii.eqb_refl. Qed.

Lemma starts_with_stop p l c s :
  all (isnot c) p → starts_with p (l ++ c :: s) = starts_with p l.
Proof.
  revert l. induction p as [|d p IH]; intros l Hp; [done|]. apply all_cons in Hp as [Hd Hp].
  destruct l as [|x l]; cbn [app starts_with]; [|by rewrite IH].
  unfold isnot in Hd. apply negb_true_iff in Hd.
  assert (Ascii.eqb d c = false) as ->; [|done]. first [done|by rewrite Ascii.eqb_sym].
Qed.

Lemma starts_with_true p s : starts_with p s = true ↔ ∃ t, s = p ++ t.
Proof.
  split.
  - revert s. induction p as [|c p IH]; intros [|d s]; simpl; try done; try (by eauto).
    rewrite andb_true_iff, Ascii.eqb_eq. intros [<- H].
    apply IH in H as [t ->]. by exists t.
  - intros [t ->]. apply starts_with_app.
Qed.

Lemma starts_with_case_app p s : starts_with_case p (p ++ s) = true.
Proof. unfold starts_with_case, lower. rewrite map_app. apply starts_with_app. Qed.

(** [strnlen(s, max)] *)
Definition strnlen (s : cstr) (max : Z) : Z := Z.min (Zlen s) max.

(** ** [strtok_r]

    [strtok_r delims s] is the first token of [s] and the string the next call
    continues with.  [strtok_r [] s], as in [strtok_r(NULL, "", &save)], takes
    all of a non-empty [s]. *)
Definition strtok_r (delims : cstr) (s : cstr) : option (cstr * cstr) :=
  match dropp (oneof delims) s with
  | [] => None
  | s' => Some (takep (noneof delims) s', tail (dropp (noneof delims) s'))
  end.

(** The rest [strtok_r] leaves; the empty string after a failed call. *)
Definition strtok_rest (delims : cstr) (s : cstr) : cstr :=
  match strtok_r delims s with Some (_, r) => r | None => [] end.

Definition strtok_tok (delims : cstr) (s : cstr) : option cstr :=
  fst <$> strtok_r delims s.

Lemma length_tail_lt (s : cstr) n : length s ≤ n → 0 < n → length (tail s) < n.
Proof. destruct s; simpl; lia. Qed.

Lemma strtok_r_shorter d s t r : strtok_r d s = Some (t, r) → length r < length s.
Proof.
  unfold strtok_r. pose proof (length_dropp (oneof d) s) as H.
  destruct (dropp (oneof d) s) as [|c s']; [done|].
  remember (c :: s') as u eqn:Hu. intros [= _ <-].
  pose proof (length_dropp (noneof d) u).
  apply length_tail_lt; [lia|]. subst u. simpl in *. lia.
Qed.

(** All tokens of a string, in order: what a loop
    [for (p = strtok_r(s, d, &t); p; p = strtok_r(NULL, d, &t))] goes through. *)
Fixpoint tokens_fuel (n : nat) (delims s : cstr) : list cstr :=
  match n with
  | O => []
  | S n' => match strtok_r delims s with
            | None => []
            | Some (t, r) => t :: tokens_fuel n' delims r
            end
  end.

Definition tokens (delims s : cstr) : list cstr := tokens_fuel (S (length s)) delims s.

Lemma tokens_fuel_enough n m d s :
  length s < n → length s < m → tokens_fuel n d s = tokens_fuel m d s.
Proof.
  revert m s. induction n as [|n IH]; intros [|m] s Hn Hm; try lia. simpl.
  destruct (strtok_r d s) as [[t r]|] eqn:E; [|done].
  apply strtok_r_shorter in E. f_equal. apply IH; lia.
Qed.

Lemma tokens_unfold d s :
  tokens d s = match strtok_r d s with
               | None => []
               | Some (t, r) => t :: tokens d r
               end.
Proof.
  unfold tokens at 1. cbn [tokens_fuel].
  destruct (strtok_r d s) as [[t r]|] eqn:E; [|done].
  f_equal. apply strtok_r_shorter in E. apply tokens_fuel_enough; lia.
Qed.

Lemma strtok_r_nil d : strtok_r d [] = None.
Proof. done. Qed.

Lemma oneof_noneof d t : t ≠ [] → all (noneof d) t → dropp (oneof d) t = t.
Proof.
  destruct t as [|c t]; [done|]. rewrite all_cons. unfold noneof.
  rewrite negb_true_iff. intros _ [H _]. by apply dropp_stop.
Qed.

Lemma strtok_r_last d t : t ≠ [] → all (noneof d) t → strtok_r d t = Some (t, []).
Proof.
  intros Hne Ht. unfold strtok_r. rewrite oneof_noneof by done.
  destruct t as [|c t]; [done|]. by rewrite takep_id, dropp_nil.
Qed.

Lemma strtok_r_app d t c r :
  t ≠ [] → all (noneof d) t → oneof d c = true → strtok_r d (t ++ c :: r) = Some (t, r).
Proof.
  intros Hne Ht Hc. unfold strtok_r. destruct t as [|x t]; [done|].
  assert (noneof d c = false) as Hn by (unfold noneof; by rewrite Hc).
  apply all_cons in Ht as Ht'. destruct Ht' as [Hx _]. unfold noneof in Hx.
  apply negb_true_iff in Hx. rewrite <- app_comm_cons, dropp_stop by done.
  rewrite app_comm_cons, takep_app_all, dropp_app_all by done.
  rewrite takep_stop, dropp_stop by done. rewrite app_nil_r. done.
Qed.

Lemma strtok_r_skip d c s : oneof d c = true → strtok_r d (c :: s) = strtok_r d s.
Proof. intros H. unfold strtok_r. simpl. by rewrite H. Qed.

Lemma strtok_r_all d s : all (oneof d) s → strtok_r d s = None.
Proof. intros H. unfold strtok_r. by rewrite dropp_nil. Qed.

Lemma strtok_r_Some d s t r :
  strtok_r d s = Some (t, r) → t ≠ [] ∧ all (noneof d) t.
Proof.
  unfold strtok_r. destruct (dropp (oneof d) s) as [|c s'] eqn:E; [done|].
  apply dropp_head in E. intros [= <- _].
  assert (noneof d c = true) as Hc by (unfold noneof; by rewrite E).
  simpl. rewrite Hc. split; [done|]. simpl. rewrite Hc. apply takep_all.
Qed.

Lemma strtok_empty_delims s : s ≠ [] → strtok_r [] s = Some (s, []).
Proof. intros H. apply strtok_r_last; [done|].
  clear H. induction s as [|c s IH]; [done|]. by apply all_cons. Qed.

Lemma tokens_cons d t c r :
  t ≠ [] → all (noneof d) t → oneof d c = true →
  tokens d (t ++ c :: r) = t :: tokens d r.
Proof. intros. rewrite tokens_unfold. by rewrite strtok_r_app. Qed.

Lemma tokens_last d t : t ≠ [] → all (noneof d) t → tokens d t = [t].
Proof. intros. rewrite tokens_unfold, strtok_r_last by done. done. Qed.

Lemma tokens_nil d : tokens d [] = [].
Proof. done. Qed.

Lemma tokens_skip d c s : oneof d c = true → tokens d (c :: s) = tokens d s.
Proof. intros H. rewrite !tokens_unfold, strtok_r_skip by done. done. Qed.

(** The text with its tokens separated by one delimiter. *)
Fixpoint join (sep : cstr) (l : list cstr) : cstr :=
  match l with
  | [] => []
  | [t] => t
  | t :: l' => t ++ sep ++ join sep l'
  end.

Lemma join_cons sep t l : l ≠ [] → join sep (t :: l) = t ++ sep ++ join sep l.
Proof. by destruct l. Qed.

Lemma join_concat sep n l : join sep (n :: l) = n ++ concat (map (fun m => sep ++ m) l).
Proof.
  revert n. induction l as [|m l IH]; intros n; [by rewrite app_nil_r|].
  rewrite join_cons by done. cbn [map concat]. by rewrite IH, !app_assoc.
Qed.

Lemma all_join p sep l : all p sep → Forall (fun t => all p t) l → all p (join sep l).
Proof.
  intros Hs. induction 1 as [|t l Ht Hl IH]; [done|].
  destruct l; [done|]. rewrite join_cons by done. rewrite !all_app. by split_and!.
Qed.

Lemma tokens_join d c l :
  oneof d c = true → Forall (λ t, t ≠ [] ∧ all (noneof d) t) l →
  tokens d (join [c] l) = l.
Proof.
  intros Hc Hl. induction Hl as [|t l [Hne Ht] Hl IH]; [done|].
  destruct l as [|u l]; [by apply tokens_last|].
  rewrite join_cons by done. cbn [app]. rewrite tokens_cons by done. by rewrite IH.
Qed.

Lemma tokens_wf d s : Forall (λ t, t ≠ [] ∧ all (noneof d) t) (tokens d s).
Proof.
  remember (length s) as n eqn:Hn. revert s Hn.
  induction (lt_wf n) as [n _ IH]. intros s ->. rewrite tokens_unfold.
  destruct (strtok_r d s) as [[t r]|] eqn:E; [|constructor].
  constructor; [by eapply strtok_r_Some|].
  eapply IH; [by eapply strtok_r_shorter|done].
Qed.

#[export] Hint Resolve streq_refl starts_with_app starts_with_case_app : rtsp.

(** ** [key=value] parameters

    [key = strtok_r(param, "=", &temp); val = strtok_r(NULL, "", &temp)]: the
    key, and the value when there is one. *)
Definition split_key_val (param : cstr) : option (cstr * option cstr) :=
  match strtok_r (cs "=") param with
  | None => None
  | Some (key, rest) => Some (key, strtok_tok [] rest)
  end.

Lemma split_key_val_eq key val :
  key ≠ [] → all (noneof (cs "=")) key → val ≠ [] →
  split_key_val (key ++ cs "=" ++ val) = Some (key, Some val).
Proof.
  intros Hk Hn Hv. unfold split_key_val. cbn [cs list_ascii_of_string app].
  rewrite strtok_r_app by done. unfold strtok_tok. by rewrite strtok_empty_delims.
Qed.

Lemma split_key_val_alone key :
  key ≠ [] → all (noneof (cs "=")) key → split_key_val key = Some (key, None).
Proof. intros Hk Hn. unfold split_key_val. by rewrite strtok_r_last. Qed.

(** Replaces the comparisons of closed strings by their results. *)
Ltac eval_streq :=
  repeat match goal with
  | |- context [streq ?a ?b] =>
      let r := eval vm_compute in (streq a b) in
      lazymatch r with
      | true => change (streq a b) with true
      | false => change (streq a b) with false
      end
  end; cbv iota.

Lemma map_fmap_comp {A B C} (g : B → C) (f : A → B) (l : list A) :
  map g (f <$> l) = map (fun x => g (f x)) l.
Proof. induction l as [|x l IH]; [done|]. rewrite fmap_cons. cbn [map]. by rewrite IH. Qed.

Lemma takep_cons p c s : p c = true → takep p (c :: s) = c :: takep p s.
Proof. simpl. by intros ->. Qed.

Lemma strtok_r_head d c s :
  noneof d c = true → ∃ t r, strtok_r d (c :: s) = Some (c :: t, r).
Proof.
  intros Hc. unfold strtok_r. rewrite dropp_stop by (by apply negb_true_iff).
  rewrite takep_cons by done. eauto.
Qed.

Lemma tokens_head d c s :
  noneof d c = true → ∃ t r, tokens d (c :: s) = (c :: t) :: r.
Proof.
  intros Hc. destruct (strtok_r_head d c s Hc) as (t & r & E).
  rewrite tokens_unfold, E. eauto.
Qed.

Lemma strtok_tok_app d t c r :
  t ≠ [] → all (noneof d) t → oneof d c = true →
  strtok_tok d (t ++ c :: r) = Some t ∧ strtok_rest d (t ++ c :: r) = r.
Proof. intros. unfold strtok_tok, strtok_rest. by rewrite strtok_r_app. Qed.

Lemma strtok_tok_last d t : t ≠ [] → all (noneof d) t → strtok_tok d t = Some t.
Proof. intros. unfold strtok_tok. by rewrite strtok_r_last. Qed.

Lemma tokens_cons_inv d s t ts :
  tokens d s = t :: ts → ∃ r, strtok_r d s = Some (t, r) ∧ tokens d r = ts.
Proof.
  rewrite tokens_unfold. destruct (strtok_r d s) as [[t' r]|]; [|done].
  intros [= -> <-]. by exists r.
Qed.
