(* ===== verification/CNumber.v ===== *)
(** * Numbers in C strings

    What the library uses of [printf] (["%d"], ["%u"], ["%02u"], ["%08x"],
    ["%08X"], ["%02x"]), of [strtol], [strtoul], [atoi] and of [sscanf]
    (["%u"], ["%08X"]), on an LP64 platform: [int] has 32 bits, [long] 64, and
    out-of-range text saturates as [strtol] and [strtoul] specify.  The last
    section proves that scanning a printed number gives the number back. *)

From S2P Require Import Prelude CString.
From stdpp Require Import options.

Local Open Scope Z_scope.

(** ** Digits *)

(** The value of a digit in bases up to 16; 99 for any other byte. *)
Definition digit_val (c : ascii) : Z :=
  if isdigit c then code c - 48
  else if in_range c 65 70 then code c - 55
  else if in_range c 97 102 then code c - 87
  else 99.

Definition is_digit_of (base : Z) (c : ascii) : bool := digit_val c <? base.

Definition digit_char (upper : bool) (n : Z) : ascii :=
  if n <? 10 then chr (48 + n) else chr ((if upper then 55 else 87) + n).

(** The digits of [n] before [acc], most significant first; [fuel] bounds
    their number. *)
Fixpoint to_base_fuel (fuel : nat) (upper : bool) (base n : Z) (acc : cstr) : cstr :=
  match fuel with
  | O => acc
  | S fuel' =>
      let acc := digit_char upper (n mod base) :: acc in
      if n / base =? 0 then acc else to_base_fuel fuel' upper base (n / base) acc
  end.

Definition to_base (upper : bool) (base n : Z) : cstr :=
  to_base_fuel (S (Z.to_nat (Z.log2 n))) upper base n [].

Definition of_base (base : Z) (s : cstr) : Z :=
  fold_left (fun a c => a * base + digit_val c) s 0.

(** ** [printf] conversions *)

Definition zero_pad (width : nat) (s : cstr) : cstr :=
  replicate (width - length s) "0"%char ++ s.

Definition fmt_u (n : Z) : cstr := to_base false 10 n.
Definition fmt_d (n : Z) : cstr := if n <? 0 then "-"%char :: fmt_u (- n) else fmt_u n.
Definition fmt_02u (n : Z) : cstr := zero_pad 2 (fmt_u n).
Definition fmt_02x (n : Z) : cstr := zero_pad 2 (to_base false 16 n).
Definition fmt_08x (n : Z) : cstr := zero_pad 8 (to_base false 16 n).
Definition fmt_08X (n : Z) : cstr := zero_pad 8 (to_base true 16 n).

(** ** Scanning *)

(** The text [strtol] accepts: blanks, a sign, in base 16 an optional "0x"
    that a digit follows, then digits.  The result is the sign, the magnitude
    and what follows the number; [None] when there is no digit. *)
Definition scan_sign (s : cstr) : bool * cstr :=
  match s with
  | "-"%char :: s' => (true, s')
  | "+"%char :: s' => (false, s')
  | _ => (false, s)
  end.

Definition skip_0x (base : Z) (s : cstr) : cstr :=
  match s with
  | "0"%char :: x :: h :: s' =>
      if (base =? 16) && oneof (cs "xX") x && isxdigit h then h :: s' else s
  | _ => s
  end.

Definition scan_number (base : Z) (s : cstr) : option (bool * Z * cstr) :=
  let (neg, s1) := scan_sign (dropp isspace s) in
  let s2 := skip_0x base s1 in
  match takep (is_digit_of base) s2 with
  | [] => None
  | ds => Some (neg, of_base base ds, dropp (is_digit_of base) s2)
  end.

(** [strtol(s, &end, base)]: the value and the string at [end]. *)
Definition strtol (base : Z) (s : cstr) : Z * cstr :=
  match scan_number base s with
  | None => (0, s)
  | Some (neg, m, rest) =>
      (Z.max INT64_MIN (Z.min INT64_MAX (if neg then - m else m)), rest)
  end.

(** [strtoul(s, &end, base)]: the value, the string at [end] and [errno]. *)
Definition strtoul (base : Z) (s : cstr) : Z * cstr * Z :=
  match scan_number base s with
  | None => (0, s, 0)
  | Some (neg, m, rest) =>
      if ULONG_MAX <? m then (ULONG_MAX, rest, ERANGE)
      else (if neg then u64 (- m) else m, rest, 0)
  end.

Definition atoi (s : cstr) : Z := s32 (fst (strtol 10 s)).

(** A [sscanf] ["%u"]: the value stored and the rest of the input; [None] when
    the conversion fails. *)
Definition scanf_u (s : cstr) : option (Z * cstr) :=
  match scan_number 10 s with
  | None => None
  | Some _ => let '(v, rest, _) := strtoul 10 s in Some (u32 v, rest)
  end.

(** [sscanf(s, "%u-%u", &a, &b) == 2] *)
Definition scanf_u_u (s : cstr) : option (Z * Z) :=
  match scanf_u s with
  | Some (a, "-"%char :: s') =>
      match scanf_u s' with Some (b, _) => Some (a, b) | None => None end
  | _ => None
  end.

(** [sscanf(s, "%08X", &a) == 1] *)
Definition scanf_08X (s : cstr) : option Z :=
  let s' := take 8 (dropp isspace s) in
  match scan_number 16 s' with
  | None => None
  | Some _ => let '(v, _, _) := strtoul 16 s' in Some (u32 v)
  end.

(** ** Scanning a printed number *)

Lemma digit_val_char upper n : 0 <= n < 16 → digit_val (digit_char upper n) = n.
Proof.
  intros Hn. assert (n = 0 ∨ n = 1 ∨ n = 2 ∨ n = 3 ∨ n = 4 ∨ n = 5 ∨ n = 6 ∨ n = 7 ∨ n = 8
    ∨ n = 9 ∨ n = 10 ∨ n = 11 ∨ n = 12 ∨ n = 13 ∨ n = 14 ∨ n = 15) as Hc by lia.
  destruct upper; repeat destruct Hc as [->|Hc]; try subst n; reflexivity.
Qed.

Lemma of_base_app base s t :
  of_base base (s ++ t) = of_base base s * base ^ Zlen t + of_base base t.
Proof.
  assert (∀ t a, fold_left (fun a c => a * base + digit_val c) t a
    = a * base ^ Zlen t + of_base base t) as H.
  { clear. unfold of_base. induction t as [|c t IH]; intros a; cbn [fold_left].
    - rewrite Zlen_nil. lia.
    - rewrite IH, (IH (0 * base + digit_val c)), Zlen_cons.
      rewrite Z.pow_add_r by (pose proof (Zlen_nonneg t); lia). ring. }
  unfold of_base at 1. rewrite fold_left_app. by rewrite H.
Qed.

Lemma of_base_cons base c t :
  of_base base (c :: t) = digit_val c * base ^ Zlen t + of_base base t.
Proof. change (c :: t) with ([c] ++ t). rewrite of_base_app. unfold of_base at 1. simpl. lia. Qed.

Lemma of_base_zeros base k s : of_base base (replicate k "0"%char ++ s) = of_base base s.
Proof.
  induction k as [|k IH]; [done|]. cbn [replicate app]. rewrite of_base_cons, IH.
  change (digit_val "0") with 0. lia.
Qed.

Lemma of_base_nonneg base s : 0 < base → all (is_digit_of base) s → 0 <= of_base base s.
Proof.
  intros Hb. induction s as [|c s IH]; [done|]. rewrite all_cons, of_base_cons.
  intros [Hc Hs]. specialize (IH Hs).
  assert (0 <= digit_val c); [|pose proof (Z.pow_nonneg base (Zlen s)); nia].
  unfold digit_val, isdigit, in_range in *.
  repeat case_match; bool_to_prop; lia.
Qed.

Section to_base.
Context (upper : bool) (base : Z) (Hbase : 2 <= base <= 16).

Lemma to_base_fuel_acc fuel n acc :
  to_base_fuel fuel upper base n acc = to_base_fuel fuel upper base n [] ++ acc.
Proof.
  revert n acc. induction fuel as [|fuel IH]; intros n acc; [done|]. cbn [to_base_fuel].
  destruct (n / base =? 0); [done|]. rewrite IH, (IH _ [_]). by rewrite <- app_assoc.
Qed.

Lemma log2_div n : n / base ≠ 0 → 0 <= n → Z.log2 (n / base) < Z.log2 n.
Proof using Hbase.
  intros Hq Hn.
  assert (base <= n) as Hbn.
  { destruct (Z.le_gt_cases base n); [done|]. rewrite Z.div_small in Hq by lia. done. }
  assert (n / base <= Z.shiftr n 1).
  { rewrite Z.shiftr_div_pow2 by lia. apply Z.div_le_compat_l; simpl; lia. }
  apply Z.le_lt_trans with (Z.log2 (Z.shiftr n 1)); [by apply Z.log2_le_mono|].
  rewrite Z.log2_shiftr by lia.
  assert (1 <= Z.log2 n); [|lia]. apply Z.log2_le_pow2; lia.
Qed.

Lemma to_base_fuel_spec fuel n :
  0 <= n → Z.log2 n < Z.of_nat fuel →
  let t := to_base_fuel fuel upper base n [] in
  of_base base t = n ∧ all (is_digit_of base) t ∧ t ≠ [].
Proof using Hbase.
  revert n. induction fuel as [|fuel IH]; intros n Hn Hf.
  { pose proof (Z.log2_nonneg n). lia. }
  cbn [to_base_fuel]. pose proof (Z.mod_pos_bound n base) as Hm.
  assert (digit_val (digit_char upper (n mod base)) = n mod base) as Hd
    by (apply digit_val_char; lia).
  assert (is_digit_of base (digit_char upper (n mod base)) = true) as Hi.
  { unfold is_digit_of. rewrite Hd. apply Z.ltb_lt. lia. }
  pose proof (Z.div_mod n base) as Hdm.
  destruct (n / base =? 0) eqn:E; bool_to_prop.
  - cbn. rewrite Hd, Hi. split_and!; [lia|done..].
  - rewrite to_base_fuel_acc.
    destruct (IH (n / base)) as (H1 & H2 & H3).
    { apply Z.div_pos; lia. }
    { pose proof (log2_div n). lia. }
    rewrite of_base_app, H1. split_and!.
    + unfold of_base. cbn. rewrite Hd. change (Zlen [_]) with 1. lia.
    + apply all_app. split; [done|]. simpl. by rewrite Hi.
    + destruct (to_base_fuel fuel upper base (n / base) []); done.
Qed.

Lemma to_base_spec n :
  0 <= n →
  of_base base (to_base upper base n) = n ∧
  all (is_digit_of base) (to_base upper base n) ∧ to_base upper base n ≠ [].
Proof using Hbase.
  intros Hn. apply to_base_fuel_spec; [done|].
  rewrite Nat2Z.inj_succ, Z2Nat.id by apply Z.log2_nonneg. lia.
Qed.
End to_base.

(** What may follow a number so that scanning stops there. *)
Definition stops (base : Z) (rest : cstr) : Prop :=
  match rest with [] => True | c :: _ => is_digit_of base c = false ∧ oneof (cs "xX") c = false end.

Lemma digit_not_special base c : base <= 16 → is_digit_of base c = true →
  isspace c = false ∧ c ≠ "-"%char ∧ c ≠ "+"%char ∧ oneof (cs "xX") c = false.
Proof.
  unfold is_digit_of. intros Hb H. bool_to_prop. assert (digit_val c < 16) as H' by lia.
  clear -H'. revert H'. byte_cases c; vm_compute; intros H; try (split_and!; done); lia.
Qed.

Lemma scan_sign_digit base c s :
  base <= 16 → is_digit_of base c = true → scan_sign (c :: s) = (false, c :: s).
Proof.
  intros Hb H. destruct (digit_not_special base c Hb H) as (_ & H1 & H2 & _).
  clear H. byte_cases c; done.
Qed.

Lemma skip_0x_digits base c t rest :
  base <= 16 → all (is_digit_of base) (c :: t) → stops base rest →
  skip_0x base ((c :: t) ++ rest) = (c :: t) ++ rest.
Proof.
  intros Hb Ht Hs. apply all_cons in Ht as [Hc Ht].
  assert (match t ++ rest with x :: _ => oneof (cs "xX") x = false | [] => True end) as H.
  { destruct t as [|x t]; simpl.
    - destruct rest; [done|]. apply Hs.
    - apply all_cons in Ht as [Hx _]. by eapply digit_not_special. }
  rewrite <- app_comm_cons. destruct (t ++ rest) as [|x u]; [by byte_cases c|].
  unfold skip_0x. rewrite H, andb_false_r. simpl. byte_cases c; try done; by destruct u.
Qed.

Lemma scan_number_digits base t rest :
  2 <= base <= 16 → t ≠ [] → all (is_digit_of base) t → stops base rest →
  scan_number base (t ++ rest) = Some (false, of_base base t, rest).
Proof.
  intros Hb Hne Ht Hs. destruct t as [|c t]; [done|].
  apply all_cons in Ht as Ht'. destruct Ht' as [Hc _].
  destruct (digit_not_special base c) as (Hsp & _); [lia|done|].
  unfold scan_number. rewrite <- app_comm_cons, dropp_stop by done.
  rewrite (scan_sign_digit base) by (done || lia).
  rewrite app_comm_cons, skip_0x_digits by (done || lia).
  rewrite takep_app_all, dropp_app_all by done.
  replace (takep (is_digit_of base) rest) with (@nil ascii)
    by (destruct rest as [|x r]; [done|]; destruct Hs; by rewrite takep_stop).
  replace (dropp (is_digit_of base) rest) with rest
    by (destruct rest as [|x r]; [done|]; destruct Hs; by rewrite dropp_stop).
  by rewrite app_nil_r.
Qed.

Lemma zero_pad_spec base w s :
  2 <= base → s ≠ [] → all (is_digit_of base) s →
  of_base base (zero_pad w s) = of_base base s ∧
  all (is_digit_of base) (zero_pad w s) ∧ zero_pad w s ≠ [].
Proof.
  intros Hb Hne Hs. unfold zero_pad. split_and!.
  - apply of_base_zeros.
  - apply all_app. split; [|done]. induction (w - length s)%nat; [done|].
    apply all_cons. split; [|done]. unfold is_digit_of. apply Z.ltb_lt.
    change (digit_val "0") with 0. lia.
  - intros [_ ?]%app_nil. done.
Qed.

Lemma fmt_u_spec n :
  0 <= n → of_base 10 (fmt_u n) = n ∧ all (is_digit_of 10) (fmt_u n) ∧ fmt_u n ≠ [].
Proof. intros. by apply to_base_spec. Qed.

Lemma fmt_02u_spec n :
  0 <= n → of_base 10 (fmt_02u n) = n ∧ all (is_digit_of 10) (fmt_02u n) ∧ fmt_02u n ≠ [].
Proof.
  intros Hn. unfold fmt_02u. destruct (fmt_u_spec n Hn) as (H1 & H2 & H3).
  destruct (zero_pad_spec 10 2 (fmt_u n)) as (? & ? & ?); [lia|done..|]. split_and!; [lia|done..].
Qed.

Lemma fmt_hex_spec upper w n :
  0 <= n → let t := zero_pad w (to_base upper 16 n) in
  of_base 16 t = n ∧ all (is_digit_of 16) t ∧ t ≠ [].
Proof.
  intros Hn t. destruct (to_base_spec upper 16 ltac:(lia) n Hn) as (H1 & H2 & H3).
  destruct (zero_pad_spec 16 w (to_base upper 16 n)) as (? & ? & ?); [lia|done..|].
  unfold t. split_and!; [lia|done..].
Qed.

Lemma strtol_fmt_u n rest :
  0 <= n <= INT64_MAX → stops 10 rest → strtol 10 (fmt_u n ++ rest) = (n, rest).
Proof.
  intros Hn Hs. destruct (fmt_u_spec n ltac:(lia)) as (H1 & H2 & H3).
  unfold strtol. rewrite scan_number_digits by (done || lia). rewrite H1.
  unfold INT64_MAX, INT64_MIN in *. f_equal. lia.
Qed.

Lemma atoi_fmt_u n rest :
  0 <= n <= INT_MAX → stops 10 rest → atoi (fmt_u n ++ rest) = n.
Proof.
  intros Hn Hs. unfold atoi. unfold INT_MAX in Hn.
  rewrite strtol_fmt_u by (done || unfold INT64_MAX; lia).
  apply wraps_small; simpl; lia.
Qed.

Lemma atoi_fmt_d n rest :
  0 <= n <= INT_MAX → stops 10 rest → atoi (fmt_d n ++ rest) = n.
Proof.
  intros Hn Hs. unfold fmt_d. destruct (n <? 0) eqn:E; bool_to_prop; [lia|].
  by apply atoi_fmt_u.
Qed.

Lemma strtoul_digits base t rest :
  2 <= base <= 16 → t ≠ [] → all (is_digit_of base) t → stops base rest →
  of_base base t <= ULONG_MAX →
  strtoul base (t ++ rest) = (of_base base t, rest, 0).
Proof.
  intros Hb H1 H2 Hs Hm. unfold strtoul. rewrite scan_number_digits by done.
  destruct (ULONG_MAX <? of_base base t) eqn:E; bool_to_prop; [lia|done].
Qed.

Lemma strtoul_fmt_u n rest :
  0 <= n <= ULONG_MAX → stops 10 rest → strtoul 10 (fmt_u n ++ rest) = (n, rest, 0).
Proof.
  intros Hn Hs. destruct (fmt_u_spec n ltac:(lia)) as (H1 & H2 & H3).
  rewrite strtoul_digits by (done || lia). by rewrite H1.
Qed.

Lemma strtoul_fmt_hex upper w n rest :
  0 <= n <= ULONG_MAX → stops 16 rest →
  strtoul 16 (zero_pad w (to_base upper 16 n) ++ rest) = (n, rest, 0).
Proof.
  intros Hn Hs. destruct (fmt_hex_spec upper w n ltac:(lia)) as (H1 & H2 & H3).
  rewrite strtoul_digits by (done || lia). by rewrite H1.
Qed.

Lemma scanf_u_fmt_u n rest :
  0 <= n <= UINT_MAX → stops 10 rest → scanf_u (fmt_u n ++ rest) = Some (n, rest).
Proof.
  intros Hn Hs. destruct (fmt_u_spec n ltac:(lia)) as (H1 & H2 & H3).
  unfold scanf_u. unfold UINT_MAX in Hn.
  rewrite strtoul_fmt_u by (done || unfold ULONG_MAX; lia).
  rewrite scan_number_digits by (done || lia).
  rewrite wrapu_small by (simpl; lia). done.
Qed.

Lemma scanf_u_u_fmt a b rest :
  0 <= a <= UINT_MAX → 0 <= b <= UINT_MAX → stops 10 rest →
  scanf_u_u (fmt_u a ++ cs "-" ++ fmt_u b ++ rest) = Some (a, b).
Proof.
  intros Ha Hb Hs. unfold scanf_u_u. rewrite scanf_u_fmt_u by done. simpl.
  by rewrite scanf_u_fmt_u.
Qed.

(** ** Lengths: a printed number is no longer than any text it was read from *)

Lemma of_base_bound base s :
  2 <= base → all (is_digit_of base) s → 0 <= of_base base s < base ^ Zlen s.
Proof.
  intros Hb Hs. split; [apply of_base_nonneg; [lia|done]|].
  induction s as [|c s IH]; [done|]. apply all_cons in Hs as [Hc Hs].
  rewrite of_base_cons, Zlen_cons, Z.pow_add_r by (pose proof (Zlen_nonneg s); lia).
  specialize (IH Hs). apply Z.ltb_lt in Hc. rewrite Z.pow_1_r.
  assert (0 < base ^ Zlen s) by (apply Z.pow_pos_nonneg; [lia|apply Zlen_nonneg]). nia.
Qed.

Lemma to_base_fuel_length upper base fuel k n :
  2 <= base → 0 <= n < base ^ Z.of_nat (S k) →
  (length (to_base_fuel fuel upper base n []) ≤ S k)%nat.
Proof.
  intros Hb. revert k n. induction fuel as [|fuel IH]; intros k n Hn; [simpl; lia|].
  cbn [to_base_fuel]. destruct (n / base =? 0) eqn:E; [simpl; lia|]. bool_to_prop.
  rewrite to_base_fuel_acc, length_app. simpl length. rewrite Nat.add_1_r.
  destruct k as [|k].
  - exfalso. apply E. apply Z.div_small. by rewrite Z.pow_1_r in Hn.
  - apply le_n_S, IH. split; [apply Z.div_pos; lia|].
    apply Z.div_lt_upper_bound; [lia|]. rewrite <- Z.pow_succ_r by lia.
    replace (Z.succ (Z.of_nat (S k))) with (Z.of_nat (S (S k))) by lia. apply Hn.
Qed.

Lemma fmt_u_length_of_base ds :
  ds ≠ [] → all (is_digit_of 10) ds → Zlen (fmt_u (of_base 10 ds)) <= Zlen ds.
Proof.
  intros Hne Hds. pose proof (of_base_bound 10 ds ltac:(lia) Hds) as Hb.
  unfold Zlen in *. destruct ds as [|c ds]; [done|]. apply Nat2Z.inj_le.
  by apply to_base_fuel_length.
Qed.

Lemma scan_sign_length s : (length (snd (scan_sign s)) ≤ length s)%nat.
Proof. destruct s as [|c s]; [done|]. byte_cases c; simpl; lia. Qed.

Lemma skip_0x_length base s : (length (skip_0x base s) ≤ length s)%nat.
Proof.
  destruct s as [|c [|x [|h s]]]; [done|byte_cases c; simpl; lia..|].
  unfold skip_0x. destruct ((base =? 16) && oneof (cs "xX") x && isxdigit h).
  all: byte_cases c; simpl; lia.
Qed.

Lemma scan_number_inv base s neg m rest :
  scan_number base s = Some (neg, m, rest) →
  ∃ ds, ds ≠ [] ∧ all (is_digit_of base) ds ∧ m = of_base base ds ∧ Zlen ds + Zlen rest <= Zlen s.
Proof.
  unfold scan_number. destruct (scan_sign (dropp isspace s)) as [n1 s1] eqn:E1.
  destruct (takep (is_digit_of base) (skip_0x base s1)) as [|c ds] eqn:E2; [done|].
  intros [= -> <- <-]. exists (c :: ds). split_and!; [done| |done|].
  - rewrite <- E2. apply takep_all.
  - rewrite <- E2. pose proof (takep_dropp (is_digit_of base) (skip_0x base s1)) as Hs.
    apply (f_equal length) in Hs. rewrite length_app in Hs.
    pose proof (skip_0x_length base s1). pose proof (scan_sign_length (dropp isspace s)) as H1.
    rewrite E1 in H1. simpl in H1. pose proof (length_dropp isspace s). unfold Zlen. lia.
Qed.

(** ** Signed and fixed-width conversions *)

Lemma scan_number_minus base t rest :
  2 <= base <= 16 → t ≠ [] → all (is_digit_of base) t → stops base rest →
  scan_number base ("-"%char :: t ++ rest) = Some (true, of_base base t, rest).
Proof.
  intros Hb Hne Ht Hs. destruct t as [|c t]; [done|].
  unfold scan_number. rewrite dropp_stop by done. cbn [scan_sign].
  rewrite skip_0x_digits by (done || lia).
  rewrite takep_app_all, dropp_app_all by done.
  replace (takep (is_digit_of base) rest) with (@nil ascii)
    by (destruct rest as [|x r]; [done|]; destruct Hs; by rewrite takep_stop).
  replace (dropp (is_digit_of base) rest) with rest
    by (destruct rest as [|x r]; [done|]; destruct Hs; by rewrite dropp_stop).
  by rewrite app_nil_r.
Qed.

Lemma strtol_fmt_d n rest :
  - INT64_MAX <= n <= INT64_MAX → stops 10 rest → strtol 10 (fmt_d n ++ rest) = (n, rest).
Proof.
  intros Hn Hs. unfold fmt_d. destruct (n <? 0) eqn:E; bool_to_prop.
  - destruct (fmt_u_spec (- n) ltac:(lia)) as (H1 & H2 & H3).
    unfold strtol. rewrite <- app_comm_cons, scan_number_minus by (done || lia).
    rewrite H1. unfold INT64_MAX, INT64_MIN in *. f_equal. lia.
  - by apply strtol_fmt_u; [lia|].
Qed.

(** What is printed with ["%d"] is read back by [atoi]. *)
Lemma atoi_fmt_s32 n rest :
  - 2 ^ 31 <= n < 2 ^ 31 → stops 10 rest → atoi (fmt_d n ++ rest) = n.
Proof.
  intros Hn Hs. unfold atoi.
  rewrite strtol_fmt_d by (done || unfold INT64_MAX; simpl in Hn; lia).
  by apply wraps_small.
Qed.

Lemma wrapu_wraps w n : 0 <= w → wrapu w (wraps w n) = wrapu w n.
Proof.
  intros Hw. unfold wrapu, wraps.
  rewrite Zminus_mod, Zmod_mod, <- Zminus_mod. f_equal. lia.
Qed.

(** An [unsigned int] printed with ["%d"] and read back by [atoi]. *)
Lemma atoi_fmt_d_unsigned n rest :
  0 <= n <= UINT_MAX → stops 10 rest → u32 (atoi (fmt_d (s32 n) ++ rest)) = n.
Proof.
  intros Hn Hs. pose proof (wraps_range 32 n ltac:(lia)) as Hr.
  rewrite atoi_fmt_s32 by done. rewrite wrapu_wraps by lia.
  apply wrapu_small. unfold UINT_MAX in Hn. simpl. lia.
Qed.

Lemma fmt_08X_length n : 0 <= n <= UINT_MAX → length (fmt_08X n) = 8%nat.
Proof.
  intros Hn. unfold fmt_08X, zero_pad. rewrite length_app, length_replicate.
  assert (length (to_base true 16 n) ≤ 8)%nat; [|lia].
  unfold to_base. apply to_base_fuel_length; [lia|].
  unfold UINT_MAX in Hn. simpl. lia.
Qed.

Lemma scanf_08X_fmt n : 0 <= n <= UINT_MAX → scanf_08X (fmt_08X n) = Some n.
Proof.
  intros Hn. destruct (fmt_hex_spec true 8 n ltac:(lia)) as (H1 & H2 & H3).
  pose proof (fmt_08X_length n Hn) as Hl.
  assert (dropp isspace (fmt_08X n) = fmt_08X n) as Hsp.
  { unfold fmt_08X in *. destruct (zero_pad 8 (to_base true 16 n)) as [|c t]; [done|].
    apply all_cons in H2 as [Hc _]. apply dropp_stop.
    by destruct (digit_not_special 16 c ltac:(lia) Hc). }
  unfold scanf_08X. rewrite Hsp.
  rewrite take_ge by lia. unfold UINT_MAX in Hn.
  rewrite <- (app_nil_r (fmt_08X n)).
  unfold fmt_08X. rewrite scan_number_digits, strtoul_fmt_hex by (done || unfold ULONG_MAX; lia).
  by rewrite wrapu_small by (simpl; lia).
Qed.

(** Digits are none of the separators of the header syntax. *)
Lemma fmt_u_chars (p : ascii → bool) n :
  forallb (fun c => implb (is_digit_of 10 c) (p c)) all_bytes = true → 0 <= n → all p (fmt_u n).
Proof. intros Hp Hn. eapply all_impl_dec; [exact Hp|]. by apply fmt_u_spec. Qed.

Lemma fmt_d_chars (p : ascii → bool) n :
  forallb (fun c => implb (is_digit_of 10 c) (p c)) all_bytes = true → p "-"%char = true →
  all p (fmt_d n).
Proof.
  intros Hp Hm. unfold fmt_d. destruct (n <? 0) eqn:E; bool_to_prop;
    [apply all_cons; split; [done|]|]; apply fmt_u_chars; done || lia.
Qed.

Lemma fmt_hex_chars (p : ascii → bool) upper w n :
  forallb (fun c => implb (is_digit_of 16 c) (p c)) all_bytes = true → 0 <= n →
  all p (zero_pad w (to_base upper 16 n)).
Proof. intros Hp Hn. eapply all_impl_dec; [exact Hp|]. by apply fmt_hex_spec. Qed.

Lemma fmt_u_not_nil n : 0 <= n → fmt_u n ≠ [].
Proof. intros. by apply fmt_u_spec. Qed.

(** [atoi] of a text of digits. *)
Lemma atoi_digits t rest :
  t ≠ [] → all (is_digit_of 10) t → stops 10 rest → of_base 10 t <= INT_MAX →
  atoi (t ++ rest) = of_base 10 t.
Proof.
  intros Hne Ht Hs Hm. unfold atoi, strtol. rewrite scan_number_digits by (done || lia).
  assert (0 <= of_base 10 t) by (apply of_base_nonneg; [lia|done]).
  unfold INT_MAX, INT64_MAX, INT64_MIN in *. cbn [fst]. rewrite wraps_small by (simpl; lia). lia.
Qed.

Lemma atoi_fmt_02u n rest : 0 <= n <= INT_MAX → stops 10 rest → atoi (fmt_02u n ++ rest) = n.
Proof.
  intros Hn Hs. destruct (fmt_02u_spec n ltac:(lia)) as (H1 & H2 & H3).
  rewrite atoi_digits by (done || lia). done.
Qed.

Lemma fmt_u_length n k : 0 <= n < 10 ^ Z.of_nat (S k) → (length (fmt_u n) ≤ S k)%nat.
Proof. intros Hn. unfold fmt_u, to_base. apply to_base_fuel_length; lia. Qed.

Lemma zero_pad_length w s : length (zero_pad w s) = Nat.max w (length s).
Proof. unfold zero_pad. rewrite length_app, length_replicate. lia. Qed.
