(* ===== verification/Writer.v ===== *)
(** * The bounded output string

    [struct rtsp_string] and [rtsp_sprintf] of [rtsp_priv.h], the state monad
    in which the header writers of [rtsp.c] run, and the relation [emits] that
    specifies a writer completely: it appends exactly one given text when the
    text and its terminating NUL fit, and otherwise returns [-ENOBUFS] leaving
    a part of that text. *)

From S2P Require Import Prelude CString CNumber.
From stdpp Require Import options.

Local Open Scope Z_scope.

(** [str->str] up to [str->len], and [str->max_len].  The bytes past [len],
    which a truncated [vsnprintf] may change, are not represented. *)
Record rtsp_string := RtspString { rs_str : cstr; rs_max_len : Z }.

Definition rs_len (s : rtsp_string) : Z := Zlen (rs_str s).

Definition append (s : rtsp_string) (t : cstr) : rtsp_string :=
  RtspString (rs_str s ++ t) (rs_max_len s).

Definition writer (A : Type) : Type := rtsp_string → res A * rtsp_string.

#[export] Instance writer_ret : MRet writer := fun A a s => (Ok a, s).
#[export] Instance writer_bind : MBind writer := fun A B f w s =>
  match w s with
  | (Ok a, s') => f a s'
  | (Err e, s') => (Err e, s')
  | (Undef, s') => (Undef, s')
  end.

(** A check that reads no state. *)
Definition wlift {A} (r : res A) : writer A := fun s => (r, s).
Definition werr {A} (e : Z) : writer A := wlift (Err e).
Definition wreturn_err_if (b : bool) (e : Z) : writer unit := wlift (return_err_if b e).
Definition wskip : writer unit := mret tt.
Definition wwhen (b : bool) (w : writer unit) : writer unit := if b then w else wskip.

(** [out] is what [fmt] and its arguments format to. *)
Definition rtsp_sprintf (out : cstr) : writer unit := fun s =>
  if rs_max_len s <=? rs_len s then (Err ENOBUFS, s)
  else if s32 (rs_max_len s - rs_len s) <=? Zlen out then (Err ENOBUFS, s)
  else (Ok tt, append s out).

(** ** Specification of writers *)

(** A string with room for its NUL, of a length [int] arithmetic can hold. *)
Definition wf_string (s : rtsp_string) : Prop :=
  rs_len s < rs_max_len s <= INT_MAX.

Definition fits (s : rtsp_string) (t : cstr) : Prop := rs_len s + Zlen t < rs_max_len s.
#[export] Instance fits_dec s t : Decision (fits s t).
Proof. unfold fits. apply _. Defined.

Definition emits {A} (w : writer A) (t : cstr) (a : A) : Prop :=
  ∀ s, wf_string s →
    (fits s t ∧ w s = (Ok a, append s t)) ∨
    (¬ fits s t ∧ ∃ p, p `prefix_of` t ∧ fits s p ∧ w s = (Err ENOBUFS, append s p)).

Lemma append_nil s : append s [] = s.
Proof. destruct s. unfold append. simpl. by rewrite app_nil_r. Qed.

Lemma append_app s t u : append (append s t) u = append s (t ++ u).
Proof. unfold append. simpl. by rewrite app_assoc. Qed.

Lemma rs_len_append s t : rs_len (append s t) = rs_len s + Zlen t.
Proof. unfold rs_len, append. simpl. apply Zlen_app. Qed.

Lemma wf_append s t : wf_string s → fits s t → wf_string (append s t).
Proof. unfold wf_string, fits. rewrite rs_len_append. simpl. lia. Qed.

Lemma fits_nil s : wf_string s → fits s [].
Proof. unfold wf_string, fits. rewrite Zlen_nil. lia. Qed.

Lemma fits_app s t u : fits s (t ++ u) ↔ fits (append s t) u.
Proof. unfold fits. rewrite rs_len_append, Zlen_app. simpl. lia. Qed.

Lemma fits_prefix s t u : fits s (t ++ u) → fits s t.
Proof. unfold fits. rewrite Zlen_app. pose proof (Zlen_nonneg u). lia. Qed.

Lemma emits_sprintf t : emits (rtsp_sprintf t) t tt.
Proof.
  intros s Hwf. unfold rtsp_sprintf, fits, wf_string, INT_MAX in *.
  rewrite wraps_small by (unfold rs_len in *; pose proof (Zlen_nonneg (rs_str s)); simpl; lia).
  destruct (rs_max_len s <=? rs_len s) eqn:E1; bool_to_prop; [lia|].
  destruct (rs_max_len s - rs_len s <=? Zlen t) eqn:E2; bool_to_prop; [right|left; split; [lia|done]].
  split; [lia|]. exists []. rewrite append_nil, Zlen_nil.
  split_and!; [apply prefix_nil|lia|done].
Qed.

Lemma emits_ret {A} (a : A) : emits (mret a) [] a.
Proof. intros s Hwf. left. rewrite append_nil. split; [by apply fits_nil|done]. Qed.

Lemma emits_bind {A B} (w : writer A) (f : A → writer B) t u a b :
  emits w t a → emits (f a) u b → emits (w ≫= f) (t ++ u) b.
Proof.
  intros Hw Hf s Hwf. unfold mbind, writer_bind.
  destruct (Hw s Hwf) as [[Hfit ->]|(Hfit & p & Hp & Hpf & ->)].
  - destruct (Hf (append s t)) as [[Hfu ->]|(Hfu & p & [k ->] & Hpf & ->)].
    { by apply wf_append. }
    + left. rewrite append_app. split; [by apply fits_app|done].
    + right. split; [by rewrite fits_app|]. exists (t ++ p). rewrite append_app.
      split_and!; [|by apply fits_app|done].
      rewrite app_assoc. by eexists.
  - right. split; [intros H; by apply Hfit, (fits_prefix s t u)|].
    exists p. split_and!; [by apply prefix_app_r|done|done].
Qed.

Lemma emits_seq (w1 w2 : writer unit) t u :
  emits w1 t tt → emits w2 u tt → emits (w1;; w2) (t ++ u) tt.
Proof. intros. by apply (emits_bind w1 (fun _ => w2) t u tt). Qed.

Lemma emits_when b w t : emits w t tt → emits (wwhen b w) (if b then t else []) tt.
Proof. intros H. destruct b; simpl; [done|apply emits_ret]. Qed.

Lemma emits_check b e : b = false → emits (wreturn_err_if b e) [] tt.
Proof. intros ->. apply emits_ret. Qed.

(** A writer that emits a text succeeds exactly when the text fits. *)
Lemma emits_ok {A} (w : writer A) t a s :
  emits w t a → wf_string s → fits s t → w s = (Ok a, append s t).
Proof. intros H Hwf Hf. by destruct (H s Hwf) as [[_ ->]|[? _]]. Qed.

Lemma emits_only_ok {A} (w : writer A) t a s r s' :
  emits w t a → wf_string s → w s = (Ok r, s') → r = a ∧ s' = append s t ∧ fits s t.
Proof.
  intros H Hwf Hr. destruct (H s Hwf) as [[? He]|(_ & p & _ & _ & He)]; rewrite He in Hr.
  - by injection Hr as <- <-.
  - done.
Qed.

(** A writer never undoes nor overruns: it only appends, within the bound. *)
Definition appends {A} (w : writer A) : Prop :=
  ∀ s, wf_string s →
    ∃ t, snd (w s) = append s t ∧ wf_string (snd (w s)) ∧ fst (w s) ≠ Undef.

Lemma emits_appends {A} (w : writer A) t a : emits w t a → appends w.
Proof.
  intros H s Hwf. destruct (H s Hwf) as [[Hf ->]|(_ & p & _ & Hf & ->)];
    eexists; (split_and!; [done|by apply wf_append|done]).
Qed.

Lemma appends_sprintf t : appends (rtsp_sprintf t).
Proof. eapply emits_appends, emits_sprintf. Qed.

Lemma appends_lift {A} (r : res A) : r ≠ Undef → appends (wlift r).
Proof. intros Hr s Hwf. exists []. unfold wlift. simpl. rewrite append_nil. by split_and!. Qed.

Lemma appends_ret {A} (a : A) : appends (mret a : writer A).
Proof. by apply (appends_lift (Ok a)). Qed.

Lemma appends_check b e : appends (wreturn_err_if b e).
Proof. apply appends_lift. by destruct b. Qed.

Lemma appends_bind {A B} (w : writer A) (f : A → writer B) :
  appends w → (∀ a, appends (f a)) → appends (w ≫= f).
Proof.
  intros Hw Hf s Hwf. unfold mbind, writer_bind.
  destruct (Hw s Hwf) as (t & Ht & Hwf' & Hu).
  destruct (w s) as [[a|e|] s'] eqn:E; simpl in *; subst; [|by eauto|done].
  destruct (Hf a _ Hwf') as (u & ? & ? & ?). exists (t ++ u).
  rewrite <- append_app. by split_and!.
Qed.

Lemma appends_when b w : appends w → appends (wwhen b w).
Proof. intros. destruct b; [done|apply appends_ret]. Qed.

#[export] Hint Resolve appends_sprintf appends_ret appends_check appends_bind
  appends_when emits_sprintf emits_ret : writer.

(** Proves [appends w] by following the structure of [w]. *)
Ltac appends_tac :=
  repeat first
    [ apply appends_sprintf | apply appends_ret | apply appends_check
    | apply appends_when | (apply appends_bind; [|intros ?])
    | (apply appends_lift; done) | done
    | match goal with |- appends (match ?x with _ => _ end) => destruct x end ].

Lemma emits_eq {A} (w : writer A) t u a : emits w t a → t = u → emits w u a.
Proof. by intros ? ->. Qed.

Lemma emits_wlift {A} (a : A) : emits (wlift (Ok a)) [] a.
Proof. apply emits_ret. Qed.

Lemma emits_if (b : bool) (w1 w2 : writer unit) t1 t2 :
  (b = true → emits w1 t1 tt) → (b = false → emits w2 t2 tt) →
  emits (if b then w1 else w2) (if b then t1 else t2) tt.
Proof. destruct b; auto. Qed.

(** Equality of texts built with [++]. *)
Ltac text_eq :=
  repeat (rewrite ?app_nil_r, ?app_nil_l, <- ?app_assoc); done.

(** Proves [emits w ?t a], finding the text, by following the structure of [w]
    and using the [writer] hints for the writers it calls. *)
Ltac emits_tac :=
  repeat first
    [ apply emits_sprintf | apply emits_ret | (apply emits_check; done)
    | solve [eauto 3 with writer nocore] | eapply emits_when | eapply emits_seq ].

(** Proves [emits w t a] for a given text. *)
Ltac emits_text := eapply emits_eq; [emits_tac|try text_eq].
