(* ===== verification/Base64.v ===== *)
(** * Base64 ([rtsp_base64.c])

    [rtsp_base64_encode] and [rtsp_base64_decode] with their bit operations,
    their size limits and the 32-bit accumulator; a reference encoder that
    regroups the bits of the data; the encoder refines it and the decoder
    inverts it. *)

From S2P Require Import Prelude CString.
From stdpp Require Import options.

Local Open Scope Z_scope.

Definition MAX_RTSP_BASE64_LEN : Z := 4096.

Definition encode_char (val : Z) : ascii :=
  if val <=? 25 then chr (65 + val)
  else if val <=? 51 then chr (97 + val - 26)
  else if val <=? 61 then chr (48 + val - 52)
  else if val =? 62 then "+"%char
  else "/"%char.

(** The loop over whole groups of three bytes, then the [switch (size % 3)]. *)
Fixpoint encode_groups (data : bytes) : cstr :=
  match data with
  | c1 :: c2 :: c3 :: data' =>
      let x1 := code c1 in let x2 := code c2 in let x3 := code c3 in
      encode_char (Z.shiftr x1 2)
      :: encode_char (Z.land (Z.lor (Z.shiftl x1 4) (Z.shiftr x2 4)) 63)
      :: encode_char (Z.land (Z.lor (Z.shiftl x2 2) (Z.shiftr x3 6)) 63)
      :: encode_char (Z.land x3 63)
      :: encode_groups data'
  | [c1; c2] =>
      let x1 := code c1 in let x2 := code c2 in
      [encode_char (Z.shiftr x1 2);
       encode_char (Z.land (Z.lor (Z.shiftl x1 4) (Z.shiftr x2 4)) 63);
       encode_char (Z.land (Z.shiftl x2 2) 63);
       "="%char]
  | [c1] =>
      let x1 := code c1 in
      [encode_char (Z.shiftr x1 2);
       encode_char (Z.land (Z.shiftl x1 4) 63);
       "="%char; "="%char]
  | [] => []
  end.

(** [data] is [None] for a NULL pointer; [size] is the length of the data. *)
Definition rtsp_base64_encode (data : option bytes) : res cstr :=
  match data with
  | None => Err EINVAL
  | Some data =>
      return_err_if (Zlen data =? 0) EINVAL;;
      return_err_if (MAX_RTSP_BASE64_LEN / 4 * 3 <? Zlen data) EINVAL;;
      Ok (encode_groups data)
  end.

(** The count of trailing ['='], from the end of the string. *)
Definition count_padding (str : cstr) : Z :=
  Zlen (takep (Ascii.eqb "=") (reverse str)).

(** The value of the character at index [i]; [None] for [goto error]. *)
Definition decode_char (c : ascii) (i n padding : Z) : option Z :=
  if in_range c 65 90 then Some (code c - 65)
  else if in_range c 97 122 then Some (26 + code c - 97)
  else if in_range c 48 57 then Some (52 + code c - 48)
  else if Ascii.eqb c "+" then Some 62
  else if Ascii.eqb c "/" then Some 63
  else if negb (Ascii.eqb c "=") then None
  else if i <? n - padding then None
  else Some 0.

(** One optional store [if (j < out_len) _out[j++] = b]. *)
Definition store (out_len : Z) (out : bytes) (b : Z) : bytes :=
  if Zlen out <? out_len then out ++ [chr b] else out.

(** The loop over the characters; [out] holds the [j] bytes already stored.
    The first store of a group is not guarded in the code: outside the buffer
    it is undefined. *)
Fixpoint decode_loop (s : cstr) (i n padding out_len acc : Z) (out : bytes) : res bytes :=
  match s with
  | [] => Ok out
  | c :: s' =>
      match decode_char c i n padding with
      | None => Err EINVAL
      | Some value =>
          let acc := Z.lor (u32 (Z.shiftl acc 6)) value in
          if (i + 1) mod 4 =? 0 then
            if out_len <=? Zlen out then Undef
            else
              let out := out ++ [chr (Z.shiftr acc 16)] in
              let out := store out_len out (Z.land (Z.shiftr acc 8) 255) in
              let out := store out_len out (Z.land acc 255) in
              decode_loop s' (i + 1) n padding out_len 0 out
          else decode_loop s' (i + 1) n padding out_len acc out
      end
  end.

Definition rtsp_base64_decode (str : option cstr) : res bytes :=
  match str with
  | None => Err EINVAL
  | Some str =>
      return_err_if (streq str []) EINVAL;;
      let n := strnlen str (MAX_RTSP_BASE64_LEN + 1) in
      return_err_if (MAX_RTSP_BASE64_LEN <? n) EINVAL;;
      return_err_if ((n =? 0) || negb (n mod 4 =? 0)) EINVAL;;
      return_err_if (n <? 4) EINVAL;;
      let padding := count_padding str in
      return_err_if (2 <? padding) EINVAL;;
      let out_len := n / 4 * 3 - padding in
      out ← decode_loop str 0 n padding out_len 0 [];
      (* the buffer comes zeroed from calloc *)
      Ok (out ++ replicate (Z.to_nat (out_len - Zlen out)) NUL)
  end.

(** ** The reference encoder: the bits of the data, six at a time *)

Definition bits_of (c : ascii) : list bool :=
  let 'Ascii b0 b1 b2 b3 b4 b5 b6 b7 := c in [b7; b6; b5; b4; b3; b2; b1; b0].

Definition bit_value (l : list bool) : Z :=
  fold_left (fun a (b : bool) => 2 * a + Z.b2z b) l 0.

Definition alphabet : cstr :=
  cs "ABCDEFGHIJKLMNOPQRSTUVWXYZabcdefghijklmnopqrstuvwxyz0123456789+/".

Fixpoint sextets (l : list bool) : cstr :=
  match l with
  | a :: b :: c :: d :: e :: f :: l' =>
      nth (Z.to_nat (bit_value [a; b; c; d; e; f])) alphabet NUL :: sextets l'
  | _ => []
  end.

(** Zero bits up to a multiple of six, and ['='] up to a multiple of four
    characters (RFC 4648). *)
Definition base64_spec (data : bytes) : cstr :=
  let bits := concat (map bits_of data) in
  match (length data mod 3)%nat with
  | 1%nat => sextets (bits ++ replicate 4 false) ++ cs "=="
  | 2%nat => sextets (bits ++ replicate 2 false) ++ cs "="
  | _ => sextets bits
  end.

(** ** Lemmas *)

(** Induction over a byte list three bytes at a time. *)
Lemma bytes_ind3 (P : bytes → Prop) :
  P [] → (∀ a, P [a]) → (∀ a b, P [a; b]) →
  (∀ a b c l, P l → P (a :: b :: c :: l)) → ∀ l, P l.
Proof.
  intros H0 H1 H2 H3 l.
  enough (P l ∧ (∀ a, P (a :: l)) ∧ (∀ a b, P (a :: b :: l))) by tauto.
  induction l as [|x l (IH0 & IH1 & IH2)]; [done|].
  split_and!; [auto|auto|intros; by apply H3].
Qed.

Definition all_pairs (P : ascii → ascii → bool) : bool :=
  forallb (fun a => forallb (P a) all_bytes) all_bytes.

Lemma pairs_forall P : all_pairs P = true → ∀ a b, P a b = true.
Proof.
  intros H a b. unfold all_pairs in H. apply (bytes_forall (P a)).
  by apply (bytes_forall (fun a => forallb (P a) all_bytes)).
Qed.

Definition sextet1 c1 : ascii := encode_char (Z.shiftr (code c1) 2).
Definition sextet2 c1 c2 : ascii :=
  encode_char (Z.land (Z.lor (Z.shiftl (code c1) 4) (Z.shiftr (code c2) 4)) 63).
Definition sextet3 c2 c3 : ascii :=
  encode_char (Z.land (Z.lor (Z.shiftl (code c2) 2) (Z.shiftr (code c3) 6)) 63).
Definition sextet4 c3 : ascii := encode_char (Z.land (code c3) 63).

Definition spec_char (l : list bool) : ascii :=
  nth (Z.to_nat (bit_value l)) alphabet NUL.

Lemma sextet1_spec c : sextet1 c = spec_char (take 6 (bits_of c)).
Proof.
  apply Ascii.eqb_eq. revert c.
  apply (bytes_forall (fun c => Ascii.eqb (sextet1 c) (spec_char (take 6 (bits_of c))))).
  vm_compute. reflexivity.
Qed.

Lemma sextet2_spec a b :
  sextet2 a b = spec_char (drop 6 (bits_of a) ++ take 4 (bits_of b)).
Proof.
  apply Ascii.eqb_eq. revert a b.
  apply (pairs_forall (fun a b =>
    Ascii.eqb (sextet2 a b) (spec_char (drop 6 (bits_of a) ++ take 4 (bits_of b))))).
  vm_compute. reflexivity.
Qed.

Lemma sextet3_spec a b :
  sextet3 a b = spec_char (drop 4 (bits_of a) ++ take 2 (bits_of b)).
Proof.
  apply Ascii.eqb_eq. revert a b.
  apply (pairs_forall (fun a b =>
    Ascii.eqb (sextet3 a b) (spec_char (drop 4 (bits_of a) ++ take 2 (bits_of b))))).
  vm_compute. reflexivity.
Qed.

Lemma sextet4_spec c : sextet4 c = spec_char (drop 2 (bits_of c)).
Proof.
  apply Ascii.eqb_eq. revert c.
  apply (bytes_forall (fun c => Ascii.eqb (sextet4 c) (spec_char (drop 2 (bits_of c))))).
  vm_compute. reflexivity.
Qed.

Lemma encode_groups_3 a b c l :
  encode_groups (a :: b :: c :: l)
  = sextet1 a :: sextet2 a b :: sextet3 b c :: sextet4 c :: encode_groups l.
Proof. done. Qed.

Lemma encode_groups_1 a : encode_groups [a] = [sextet1 a; sextet2 a NUL; "="%char; "="%char].
Proof. cbn. unfold sextet1, sextet2. by rewrite Z.lor_0_r. Qed.

Lemma encode_groups_2 a b :
  encode_groups [a; b] = [sextet1 a; sextet2 a b; sextet3 b NUL; "="%char].
Proof. cbn. unfold sextet1, sextet2, sextet3. by rewrite Z.lor_0_r. Qed.

Lemma sextets_app6 a b c d e f l :
  sextets (a :: b :: c :: d :: e :: f :: l) = spec_char [a; b; c; d; e; f] :: sextets l.
Proof. done. Qed.

Lemma encode_groups_spec data : encode_groups data = base64_spec data.
Proof.
  induction data as [|a|a b|a b c l IH] using bytes_ind3; [done| | |].
  - rewrite encode_groups_1, sextet1_spec, sextet2_spec. by destruct a.
  - rewrite encode_groups_2, sextet1_spec, sextet2_spec, sextet3_spec. by destruct a, b.
  - rewrite encode_groups_3, sextet1_spec, sextet2_spec, sextet3_spec, sextet4_spec, IH.
    unfold base64_spec. cbn [length].
    replace (S (S (S (length l))) mod 3)%nat with (length l mod 3)%nat
      by dlia.
    cbn [map concat]. destruct a, b, c.
    destruct (length l mod 3)%nat as [|[|[|k]]]; reflexivity.
Qed.

Lemma decode_char_encode v i n p : 0 <= v < 64 → decode_char (encode_char v) i n p = Some v.
Proof.
  intros Hv.
  assert (v = Z.of_nat (Z.to_nat v)) as -> by lia.
  assert (Z.to_nat v < 64)%nat as H by lia. revert H. generalize (Z.to_nat v). clear.
  intros k Hk. do 64 (destruct k as [|k]; [reflexivity|]). lia.
Qed.

Lemma sextet1_decode a i n p : decode_char (sextet1 a) i n p = Some (code a / 4).
Proof.
  unfold sextet1. rewrite Z.shiftr_div_pow2 by lia. change (2 ^ 2) with 4.
  pose proof (code_range a). apply decode_char_encode. dlia.
Qed.

Lemma mix_bits x y k : 0 <= k <= 8 → 0 <= y < 256 →
  Z.land (Z.lor (Z.shiftl x k) (Z.shiftr y (8 - k))) 63 = (x * 2 ^ k + y / 2 ^ (8 - k)) mod 64.
Proof.
  intros Hk Hy.
  assert (256 = 2 ^ k * 2 ^ (8 - k)) as E.
  { rewrite <- Z.pow_add_r by lia. by replace (k + (8 - k)) with 8 by lia. }
  assert (0 < 2 ^ (8 - k)) by (apply Z.pow_pos_nonneg; lia).
  assert (0 <= y / 2 ^ (8 - k) < 2 ^ k).
  { split; [apply Z.div_pos; lia|]. apply Z.div_lt_upper_bound; lia. }
  change 63 with (2 ^ 6 - 1). rewrite land_ones_mod by lia.
  by rewrite Z.shiftr_div_pow2, lor_shiftl_add by lia.
Qed.

Lemma sextet2_decode a b i n p :
  decode_char (sextet2 a b) i n p = Some ((code a * 16 + code b / 16) mod 64).
Proof.
  unfold sextet2. pose proof (code_range b). rewrite (mix_bits _ _ 4) by lia.
  apply decode_char_encode. apply Z.mod_pos_bound. lia.
Qed.

Lemma sextet3_decode b c i n p :
  decode_char (sextet3 b c) i n p = Some ((code b * 4 + code c / 64) mod 64).
Proof.
  unfold sextet3. pose proof (code_range c). rewrite (mix_bits _ _ 2) by lia.
  apply decode_char_encode. apply Z.mod_pos_bound. lia.
Qed.

Lemma sextet4_decode c i n p : decode_char (sextet4 c) i n p = Some (code c mod 64).
Proof.
  unfold sextet4. change 63 with (2 ^ 6 - 1). rewrite land_ones_mod by lia.
  apply decode_char_encode. apply Z.mod_pos_bound. lia.
Qed.

Definition store3 (out_len : Z) (out : bytes) (acc : Z) : bytes :=
  store out_len
    (store out_len (out ++ [chr (Z.shiftr acc 16)]) (Z.land (Z.shiftr acc 8) 255))
    (Z.land acc 255).

Lemma acc_step acc v : 0 <= acc < 2 ^ 18 → 0 <= v < 64 →
  Z.lor (u32 (Z.shiftl acc 6)) v = acc * 64 + v.
Proof.
  intros Ha Hv. rewrite wrapu_small.
  - by rewrite lor_shiftl_add by lia.
  - rewrite Z.shiftl_mul_pow2 by lia. simpl in *. lia.
Qed.

Lemma decode_char_range c i n p v : decode_char c i n p = Some v → 0 <= v < 64.
Proof.
  unfold decode_char, in_range. intros H.
  repeat case_match; simplify_eq; bool_to_prop; lia.
Qed.

(** One group of four characters of the loop. *)
Lemma decode_group c1 c2 c3 c4 v1 v2 v3 v4 s i n p out_len out :
  i mod 4 = 0 →
  decode_char c1 i n p = Some v1 → decode_char c2 (i + 1) n p = Some v2 →
  decode_char c3 (i + 2) n p = Some v3 → decode_char c4 (i + 3) n p = Some v4 →
  Zlen out < out_len →
  decode_loop (c1 :: c2 :: c3 :: c4 :: s) i n p out_len 0 out
  = decode_loop s (i + 4) n p out_len 0
      (store3 out_len out (((v1 * 64 + v2) * 64 + v3) * 64 + v4)).
Proof.
  intros Hi H1 H2 H3 H4 Hlen.
  apply decode_char_range in H1 as R1, H2 as R2, H3 as R3, H4 as R4.
  cbn [decode_loop]. rewrite H1.
  rewrite (acc_step 0), Z.mul_0_l, Z.add_0_l by (simpl; lia).
  replace ((i + 1) mod 4) with 1 by dlia. simpl Z.eqb. cbv iota.
  replace (i + 1 + 1) with (i + 2) by lia.
  rewrite H2, acc_step by (simpl; lia). replace ((i + 2) mod 4) with 2 by dlia. simpl Z.eqb.
  cbv iota. replace (i + 2 + 1) with (i + 3) by lia.
  rewrite H3, acc_step by (simpl; lia). replace ((i + 3) mod 4) with 3 by dlia. simpl Z.eqb.
  cbv iota. replace (i + 3 + 1) with (i + 4) by lia.
  rewrite H4, acc_step by (simpl; lia). replace ((i + 4) mod 4) with 0 by dlia. simpl Z.eqb.
  cbv iota. destruct (out_len <=? Zlen out) eqn:E; [bool_to_prop; lia|done].
Qed.

Lemma store3_length out_len out acc :
  Zlen out < out_len → Zlen (store3 out_len out acc) = Z.min out_len (Zlen out + 3).
Proof.
  intros H. unfold store3, store. autorewrite with zlen.
  repeat (case_match; bool_to_prop; autorewrite with zlen in *); lia.
Qed.

Lemma store3_value out_len out a b c :
  Zlen out < out_len →
  store3 out_len out (code a * 65536 + code b * 256 + code c)
  = out ++ take (Z.to_nat (out_len - Zlen out)) [a; b; c].
Proof.
  intros H. pose proof (code_range a). pose proof (code_range b). pose proof (code_range c).
  unfold store3. change 255 with (2 ^ 8 - 1). rewrite !land_ones_mod, !Z.shiftr_div_pow2 by lia.
  change (2 ^ 8) with 256. change (2 ^ 16) with 65536.
  replace ((code a * 65536 + code b * 256 + code c) / 65536) with (code a) by dlia.
  replace ((code a * 65536 + code b * 256 + code c) / 256 mod 256) with (code b) by dlia.
  replace ((code a * 65536 + code b * 256 + code c) mod 256) with (code c) by dlia.
  rewrite !chr_code. unfold store. autorewrite with zlen.
  destruct (Z.to_nat (out_len - Zlen out)) as [|[|[|k]]] eqn:Ek; [lia|..];
    repeat (case_match; bool_to_prop; autorewrite with zlen in *); try lia;
    cbn [take]; rewrite <- ?app_assoc, ?chr_code, ?take_nil; done.
Qed.

(** The loop never stores outside the buffer and fills it: at a group boundary
    it holds [min out_len (3 * groups)] bytes. *)
Definition at_boundary (i n padding out_len : Z) (out : bytes) (s : cstr) : Prop :=
  i mod 4 = 0 ∧ i + Zlen s = n ∧ n mod 4 = 0 ∧ 0 <= i ∧ 0 <= padding <= 2 ∧
  out_len = n / 4 * 3 - padding ∧ Zlen out = Z.min out_len (i / 4 * 3).

Lemma at_boundary_room i n p out_len out s :
  at_boundary i n p out_len out s → s ≠ [] → Zlen out < out_len ∧ 4 <= Zlen s.
Proof.
  intros (H1 & H2 & H3 & H4 & H5 & -> & H7) Hs.
  assert (0 < Zlen s) by (destruct s; [done|]; rewrite Zlen_cons; pose proof (Zlen_nonneg s); lia).
  dlia.
Qed.

Lemma at_boundary_step i n p out_len out c1 c2 c3 c4 s acc :
  at_boundary i n p out_len out (c1 :: c2 :: c3 :: c4 :: s) →
  at_boundary (i + 4) n p out_len (store3 out_len out acc) s.
Proof.
  intros H. destruct (at_boundary_room _ _ _ _ _ _ H) as [Hr _]; [done|].
  destruct H as (H1 & H2 & H3 & H4 & H5 & -> & H7). unfold at_boundary.
  rewrite store3_length by done. autorewrite with zlen in H2. split_and!; dlia.
Qed.

Lemma list_ge4 {A} (s : list A) : 4 <= Zlen s →
  ∃ a b c d s', s = a :: b :: c :: d :: s'.
Proof.
  intros H. destruct s as [|a [|b [|c [|d s]]]]; autorewrite with zlen in H; try lia.
  by repeat eexists.
Qed.

(** A group whose four characters are not all accepted stops the loop. *)
Lemma decode_group_cases c1 c2 c3 c4 s i n p out_len out :
  i mod 4 = 0 →
  (∃ v1 v2 v3 v4, decode_char c1 i n p = Some v1 ∧ decode_char c2 (i + 1) n p = Some v2 ∧
     decode_char c3 (i + 2) n p = Some v3 ∧ decode_char c4 (i + 3) n p = Some v4) ∨
  decode_loop (c1 :: c2 :: c3 :: c4 :: s) i n p out_len 0 out = Err EINVAL.
Proof.
  intros Hi. cbn [decode_loop].
  destruct (decode_char c1 i n p) as [v1|]; [|by right].
  replace ((i + 1) mod 4 =? 0) with false by (symmetry; apply Z.eqb_neq; dlia).
  replace (i + 1 + 1) with (i + 2) by lia.
  destruct (decode_char c2 (i + 1) n p) as [v2|]; [|by right].
  replace ((i + 2) mod 4 =? 0) with false by (symmetry; apply Z.eqb_neq; dlia).
  replace (i + 2 + 1) with (i + 3) by lia.
  destruct (decode_char c3 (i + 2) n p) as [v3|]; [|by right].
  replace ((i + 3) mod 4 =? 0) with false by (symmetry; apply Z.eqb_neq; dlia).
  destruct (decode_char c4 (i + 3) n p) as [v4|]; [|by right].
  left. by exists v1, v2, v3, v4.
Qed.

Lemma decode_loop_safe s i n p out_len out :
  at_boundary i n p out_len out s →
  match decode_loop s i n p out_len 0 out with
  | Ok out' => Zlen out' = out_len
  | Err e => e = EINVAL
  | Undef => False
  end.
Proof.
  remember (length s) as k eqn:Hk. revert s i out Hk.
  induction (lt_wf k) as [k _ IH]. intros s i out -> Hb.
  destruct (decide (s = [])) as [->|Hs].
  { destruct Hb as (? & H2 & ? & ? & ? & -> & H7). simpl. rewrite Zlen_nil in H2. dlia. }
  destruct (at_boundary_room _ _ _ _ _ _ Hb Hs) as [Hroom Hlen].
  destruct (list_ge4 s Hlen) as (c1 & c2 & c3 & c4 & s' & ->).
  destruct (decode_group_cases c1 c2 c3 c4 s' i n p out_len out)
    as [(v1 & v2 & v3 & v4 & ? & ? & ? & ?)| ->]; [apply Hb| |done].
  erewrite decode_group by (done || apply Hb).
  eapply IH; [|done|by eapply at_boundary_step]. simpl. lia.
Qed.

Lemma decode_char_pad i n p : n - p <= i → decode_char "=" i n p = Some 0.
Proof. intros H. unfold decode_char. simpl. case_match; [bool_to_prop; lia|done]. Qed.

(** One group of characters whose values spell three bytes. *)
Lemma decode_group_bytes a b c c1 c2 c3 c4 v1 v2 v3 v4 s i n p out_len out :
  i mod 4 = 0 →
  decode_char c1 i n p = Some v1 → decode_char c2 (i + 1) n p = Some v2 →
  decode_char c3 (i + 2) n p = Some v3 → decode_char c4 (i + 3) n p = Some v4 →
  ((v1 * 64 + v2) * 64 + v3) * 64 + v4 = code a * 65536 + code b * 256 + code c →
  Zlen out < out_len →
  decode_loop (c1 :: c2 :: c3 :: c4 :: s) i n p out_len 0 out
  = decode_loop s (i + 4) n p out_len 0
      (out ++ take (Z.to_nat (out_len - Zlen out)) [a; b; c]).
Proof.
  intros Hi H1 H2 H3 H4 Hv Hlen. erewrite decode_group by done.
  by rewrite Hv, store3_value.
Qed.

(** The three groups the encoder writes: whole, two bytes, one byte. *)
Lemma decode_group_3 a b c s i n p out_len out :
  i mod 4 = 0 → Zlen out + 3 <= out_len →
  decode_loop (sextet1 a :: sextet2 a b :: sextet3 b c :: sextet4 c :: s) i n p out_len 0 out
  = decode_loop s (i + 4) n p out_len 0 (out ++ [a; b; c]).
Proof.
  intros Hi Hlen. pose proof (code_range a). pose proof (code_range b). pose proof (code_range c).
  erewrite (decode_group_bytes a b c); [|done|apply sextet1_decode|apply sextet2_decode
    |apply sextet3_decode|apply sextet4_decode|dlia|lia].
  destruct (Z.to_nat (out_len - Zlen out)) as [|[|[|k]]] eqn:E; try lia. cbn [take].
  by rewrite take_nil.
Qed.

Lemma decode_group_2 a b i n out :
  i mod 4 = 0 → n = i + 4 →
  decode_loop [sextet1 a; sextet2 a b; sextet3 b NUL; "="%char] i n 1 (Zlen out + 2) 0 out
  = Ok (out ++ [a; b]).
Proof.
  intros Hi ->. pose proof (code_range a). pose proof (code_range b).
  erewrite (decode_group_bytes a b NUL); [|done|apply sextet1_decode|apply sextet2_decode
    |apply sextet3_decode|apply decode_char_pad; lia|change (code NUL) with 0; dlia|lia].
  by replace (Z.to_nat (Zlen out + 2 - Zlen out)) with 2%nat by lia.
Qed.

Lemma decode_group_1 a i n out :
  i mod 4 = 0 → n = i + 4 →
  decode_loop [sextet1 a; sextet2 a NUL; "="%char; "="%char] i n 2 (Zlen out + 1) 0 out
  = Ok (out ++ [a]).
Proof.
  intros Hi ->. pose proof (code_range a).
  erewrite (decode_group_bytes a NUL NUL); [|done|apply sextet1_decode|apply sextet2_decode
    |apply decode_char_pad; lia|apply decode_char_pad; lia|change (code NUL) with 0; dlia|lia].
  by replace (Z.to_nat (Zlen out + 1 - Zlen out)) with 1%nat by lia.
Qed.

(** The number of ['='] the encoder writes for [len] bytes. *)
Definition padding_of (len : Z) : Z := (3 - len mod 3) mod 3.

(** Decoding the groups the encoder writes. *)
Lemma decode_loop_groups data i n out :
  i mod 4 = 0 → n = i + Zlen (encode_groups data) →
  decode_loop (encode_groups data) i n (padding_of (Zlen data)) (Zlen out + Zlen data) 0 out
  = Ok (out ++ data).
Proof.
  revert i out. induction data as [|a|a b|a b c l IH] using bytes_ind3; intros i out Hi Hn.
  - simpl. by rewrite app_nil_r.
  - rewrite encode_groups_1 in *. by apply decode_group_1.
  - rewrite encode_groups_2 in *. by apply decode_group_2.
  - rewrite encode_groups_3 in *. autorewrite with zlen in *.
    pose proof (Zlen_nonneg l). rewrite decode_group_3 by lia.
    replace (padding_of (1 + (1 + (1 + Zlen l)))) with (padding_of (Zlen l))
      by (unfold padding_of; dlia).
    replace (Zlen out + (1 + (1 + (1 + Zlen l)))) with (Zlen (out ++ [a; b; c]) + Zlen l)
      by (autorewrite with zlen; lia).
    rewrite IH; [|dlia|lia]. by rewrite <- app_assoc.
Qed.

(** The shape of an encoding: its length and its padding. *)
Lemma encode_groups_length data : Zlen (encode_groups data) = (Zlen data + 2) / 3 * 4.
Proof.
  induction data as [|a|a b|a b c l IH] using bytes_ind3;
    [done|done|done|]. rewrite encode_groups_3. autorewrite with zlen. rewrite IH. dlia.
Qed.

Lemma encode_char_not_pad v : 0 <= v < 64 → Ascii.eqb "=" (encode_char v) = false.
Proof.
  intros Hv. pose proof (decode_char_encode v 0 1 0 Hv) as H.
  destruct (Ascii.eqb "=" (encode_char v)) eqn:E; [|done].
  apply Ascii.eqb_eq in E. by rewrite <- E in H.
Qed.

Lemma takep_reverse_app p s t x :
  all p t → p x = false → takep p (reverse (s ++ x :: t)) = reverse t.
Proof.
  intros Ht Hx. rewrite reverse_app, reverse_cons, <- app_assoc.
  rewrite takep_app_all; [simpl; rewrite Hx; apply app_nil_r|].
  apply forallb_forall. intros y Hy. rewrite forallb_forall in Ht. apply Ht.
  apply list_elem_of_In. apply list_elem_of_In in Hy. by rewrite elem_of_reverse in Hy.
Qed.

Lemma count_padding_app s t x :
  all (Ascii.eqb "=") t → Ascii.eqb "=" x = false → count_padding (s ++ x :: t) = Zlen t.
Proof. intros Ht Hx. unfold count_padding. rewrite takep_reverse_app by done. unfold Zlen. by rewrite length_reverse. Qed.

Lemma count_padding_in s u t x :
  all (Ascii.eqb "=") t → Ascii.eqb "=" x = false → count_padding (s ++ u ++ x :: t) = Zlen t.
Proof. intros. rewrite app_assoc. by apply count_padding_app. Qed.

Lemma sextets_not_pad a b :
  Ascii.eqb "=" (sextet2 a b) = false ∧ Ascii.eqb "=" (sextet3 a b) = false ∧
  Ascii.eqb "=" (sextet4 a) = false.
Proof.
  pose proof (code_range a). pose proof (code_range b).
  unfold sextet2, sextet3, sextet4. rewrite (mix_bits _ _ 4), (mix_bits _ _ 2) by lia.
  change 63 with (2 ^ 6 - 1). rewrite land_ones_mod by lia. change (2 ^ 6) with 64.
  split_and!; apply encode_char_not_pad; dlia.
Qed.

Lemma encode_groups_padding data :
  data ≠ [] → count_padding (encode_groups data) = padding_of (Zlen data).
Proof.
  assert (∀ s, ∀ data, data ≠ [] →
    count_padding (s ++ encode_groups data) = padding_of (Zlen data)) as H;
    [|by apply (H [])].
  clear data. intros s data. revert s.
  induction data as [|a|a b|a b c l IH] using bytes_ind3; intros s Hne; [done|..].
  - rewrite encode_groups_1.
    apply (count_padding_in s [sextet1 a] ["="%char; "="%char]); [done|apply sextets_not_pad].
  - rewrite encode_groups_2.
    apply (count_padding_in s [sextet1 a; sextet2 a b] ["="%char]);
      [done|apply sextets_not_pad].
  - rewrite encode_groups_3. destruct (decide (l = [])) as [->|Hl].
    + apply (count_padding_in s [sextet1 a; sextet2 a b; sextet3 b c] []);
        [done|by apply (sextets_not_pad c c)].
    + etrans; [|etrans; [apply (IH (s ++ [sextet1 a; sextet2 a b; sextet3 b c; sextet4 c]) Hl)|]].
      { by rewrite <- app_assoc. }
      autorewrite with zlen. unfold padding_of. dlia.
Qed.

(** ** Properties *)

(** C27: [rtsp_base64_encode] computes the RFC 4648 encoding of every buffer of
    1 to 3072 bytes (the bits of the data taken six at a time, padded with
    ['=']), and returns [-EINVAL] for any other size. *)
Theorem rtsp_base64_encode_spec data :
  rtsp_base64_encode (Some data)
  = if (Zlen data =? 0) || (3072 <? Zlen data) then Err EINVAL else Ok (base64_spec data).
Proof.
  unfold rtsp_base64_encode. change (MAX_RTSP_BASE64_LEN / 4 * 3) with 3072.
  rewrite encode_groups_spec.
  by destruct (Zlen data =? 0), (3072 <? Zlen data).
Qed.

Lemma base64_encode_decode data :
  0 < Zlen data <= 3072 →
  rtsp_base64_encode (Some data) = Ok (encode_groups data) ∧
  Zlen (encode_groups data) <= MAX_RTSP_BASE64_LEN ∧
  rtsp_base64_decode (Some (encode_groups data)) = Ok data.
Proof.
  intros Hlen. pose proof (encode_groups_length data) as Hl.
  assert (data ≠ []) as Hne by (intros E; rewrite E in Hlen; unfold Zlen in Hlen; simpl in Hlen; lia).
  unfold rtsp_base64_encode, rtsp_base64_decode, MAX_RTSP_BASE64_LEN, strnlen.
  rewrite Z.min_l, encode_groups_padding by (done || dlia).
  destruct (Zlen data =? 0) eqn:E1; [bool_to_prop; lia|].
  destruct (4096 / 4 * 3 <? Zlen data) eqn:E2; [bool_to_prop; dlia|].
  assert (streq (encode_groups data) [] = false) as E3.
  { apply streq_false. intros E. rewrite E, Zlen_nil in Hl. dlia. }
  destruct (4096 <? Zlen (encode_groups data)) eqn:E4; [bool_to_prop; dlia|].
  assert ((Zlen (encode_groups data) =? 0) = false) as E5 by (apply Z.eqb_neq; dlia).
  assert ((Zlen (encode_groups data) mod 4 =? 0) = true) as E6 by (apply Z.eqb_eq; dlia).
  assert ((Zlen (encode_groups data) <? 4) = false) as E7 by (apply Z.ltb_ge; dlia).
  assert ((2 <? padding_of (Zlen data)) = false) as E8
    by (apply Z.ltb_ge; unfold padding_of; dlia).
  cbn [mbind res_bind return_err_if]. rewrite E3, E5, E6, E7, E8.
  cbn [mbind res_bind return_err_if orb negb].
  split_and!; [done|bool_to_prop; lia|].
  replace (Zlen (encode_groups data) / 4 * 3 - padding_of (Zlen data))
    with (Zlen (@nil ascii) + Zlen data) by (rewrite Hl, Zlen_nil; unfold padding_of; dlia).
  rewrite decode_loop_groups by done. cbn [mbind res_bind app].
  rewrite Zlen_nil. replace (Z.to_nat (0 + Zlen data - Zlen data)) with 0%nat by lia.
  simpl. by rewrite app_nil_r.
Qed.

(** The characters of an encoding. *)
Definition is_base64_char (c : ascii) : bool := isalnum c || oneof (cs "+/=") c.

Lemma encode_char_chars v : 0 <= v < 64 → is_base64_char (encode_char v) = true.
Proof.
  intros Hv.
  assert (forallb (fun n => is_base64_char (encode_char (Z.of_nat n))) (seq 0 64) = true) as H
    by (vm_compute; reflexivity).
  rewrite forallb_forall in H. rewrite <- (Z2Nat.id v) by lia. apply H, in_seq. lia.
Qed.

Lemma sextet_range x : 0 <= Z.land x 63 < 64.
Proof. change 63 with (2 ^ 6 - 1). rewrite land_ones_mod by lia. apply Z.mod_pos_bound. lia. Qed.

Lemma shiftr_code_range c : 0 <= Z.shiftr (code c) 2 < 64.
Proof. pose proof (code_range c). rewrite Z.shiftr_div_pow2 by lia. dlia. Qed.

Lemma encode_groups_chars data : all is_base64_char (encode_groups data).
Proof.
  induction data as [|a|a b|a b c l IH] using bytes_ind3; [done|..];
    cbn [encode_groups]; rewrite !all_cons; split_and!;
    try apply encode_char_chars; try apply sextet_range; try apply shiftr_code_range; done.
Qed.

(** The sixth character of an encoding is never a ['=']. *)
Lemma encode_groups_nth5 data c : nth_error (encode_groups data) 5 = Some c → c ≠ "="%char.
Proof.
  destruct data as [|a [|b [|d data]]]; cbn; try discriminate.
  intros H ->. destruct data as [|a' [|b' [|c' l]]]; cbn in H; [discriminate|..];
    injection H as H;
    match type of H with encode_char ?v = _ =>
      pose proof (encode_char_not_pad v (sextet_range _)) as Hn end;
    by rewrite H in Hn.
Qed.

(** C26: every buffer the encoder accepts is encoded into a string that the
    decoder accepts (at most [MAX_RTSP_BASE64_LEN] characters) and decodes to
    the same bytes. *)
Theorem rtsp_base64_roundtrip data :
  0 < Zlen data <= 3072 →
  ∃ s, rtsp_base64_encode (Some data) = Ok s ∧ Zlen s <= MAX_RTSP_BASE64_LEN ∧
       rtsp_base64_decode (Some s) = Ok data.
Proof. intros H. exists (encode_groups data). by apply base64_encode_decode. Qed.

Lemma rtsp_base64_roundtrip_witness :
  0 < Zlen (cs "user:pass") <= 3072 ∧
  ∃ s, rtsp_base64_encode (Some (cs "user:pass")) = Ok s ∧ Zlen s <= MAX_RTSP_BASE64_LEN ∧
       rtsp_base64_decode (Some s) = Ok (cs "user:pass").
Proof.
  split; [vm_compute; done|]. apply rtsp_base64_roundtrip. vm_compute. done.
Defined.

(** C28: on any string whatsoever the decoder either returns [-EINVAL], or
    accepts a string of at most 4096 characters, in whole groups of four with
    at most two ['='] at the end, and fills a buffer of exactly
    [3 * groups - padding] bytes; it never stores outside that buffer. *)
Theorem rtsp_base64_decode_safe str :
  match rtsp_base64_decode (Some str) with
  | Undef => False
  | Err e => e = EINVAL
  | Ok out =>
      0 < Zlen str <= MAX_RTSP_BASE64_LEN ∧ Zlen str mod 4 = 0 ∧ count_padding str <= 2 ∧
      Zlen out = Zlen str / 4 * 3 - count_padding str
  end.
Proof.
  unfold rtsp_base64_decode, strnlen.
  destruct (streq str []) eqn:E1; [done|]. cbn [mbind res_bind return_err_if].
  destruct (MAX_RTSP_BASE64_LEN <? _) eqn:E2; [done|]. cbn [mbind res_bind return_err_if].
  bool_to_prop. assert (Zlen str <= MAX_RTSP_BASE64_LEN) by lia. rewrite Z.min_l by lia.
  destruct (_ || _) eqn:E3; [done|]. cbn [mbind res_bind return_err_if]. bool_to_prop.
  destruct (Zlen str <? 4) eqn:E4; [done|]. cbn [mbind res_bind return_err_if]. bool_to_prop.
  destruct (2 <? count_padding str) eqn:E5; [done|]. cbn [mbind res_bind return_err_if].
  bool_to_prop. assert (0 <= count_padding str) by apply Zlen_nonneg.
  assert (at_boundary 0 (Zlen str) (count_padding str)
            (Zlen str / 4 * 3 - count_padding str) [] str) as Hb
    by (unfold at_boundary; change (Zlen []) with 0; split_and!; dlia).
  apply decode_loop_safe in Hb.
  destruct (decode_loop _ _ _ _ _ _ _) as [out|e|]; cbn [mbind res_bind]; [|done..].
  rewrite <- Hb, Z.sub_diag. simpl. rewrite app_nil_r. split_and!; lia.
Qed.
