(* ===== verification/Url.v ===== *)
(** * RTSP URLs ([rtsp_url.c])

    The URL parser ([rtsp_url_parse] and the static functions it is made of),
    the printer, copy, comparison, the accessors, and the two rewriting
    functions [rtsp_url_strip_credentials] and [rtsp_url_anonymize].

    [inet_pton] is not code of the library: the section is parametric in the
    two predicates it decides.  Destination pointers are results here, so the
    NULL checks on them have no counterpart; [strdup] and [calloc] succeed. *)

From S2P Require Import Prelude CString CNumber.
From stdpp Require Import options.

Local Open Scope Z_scope.

Inductive rtsp_url_scheme :=
| RTSP_URL_SCHEME_UNKNOWN
| RTSP_URL_SCHEME_TCP
| RTSP_URL_SCHEME_UDP
| RTSP_URL_SCHEME_TCP_TLS.

#[export] Instance rtsp_url_scheme_eq_dec : EqDecision rtsp_url_scheme.
Proof. solve_decision. Defined.

Record rtsp_url := RtspUrl {
  url_scheme : rtsp_url_scheme;
  url_user : option cstr;
  url_pass : option cstr;
  url_host : option cstr;
  url_resolved_host : option cstr;
  url_port : Z;
  url_port_explicit : bool;
  url_path : option cstr
}.

#[export] Instance rtsp_url_eq_dec : EqDecision rtsp_url.
Proof. solve_decision. Defined.

Definition RTSP_DEFAULT_PORT : Z := 554.
Definition RTSPS_DEFAULT_PORT : Z := 322.

Record scheme_entry := SchemeEntry {
  se_scheme : rtsp_url_scheme; se_default_port : Z; se_str : cstr }.

Definition rtsp_url_scheme_map : list scheme_entry :=
  [ SchemeEntry RTSP_URL_SCHEME_TCP RTSP_DEFAULT_PORT (cs "rtsp://");
    SchemeEntry RTSP_URL_SCHEME_UDP RTSP_DEFAULT_PORT (cs "rtspu://");
    SchemeEntry RTSP_URL_SCHEME_TCP_TLS RTSPS_DEFAULT_PORT (cs "rtsps://") ].

(** The first entry of the map that satisfies [p]. *)
Fixpoint find_entry (p : scheme_entry → bool) (l : list scheme_entry) : option scheme_entry :=
  match l with [] => None | e :: l' => if p e then Some e else find_entry p l' end.

Definition rtsp_url_scheme_str (val : rtsp_url_scheme) : option cstr :=
  se_str <$> find_entry (fun e => bool_decide (val = se_scheme e)) rtsp_url_scheme_map.

Definition rtsp_url_scheme_from_str (str : option cstr) : rtsp_url_scheme :=
  match str with
  | None => RTSP_URL_SCHEME_UNKNOWN
  | Some s =>
      match find_entry (fun e => strcaseeq s (se_str e)) rtsp_url_scheme_map with
      | Some e => se_scheme e
      | None => RTSP_URL_SCHEME_UNKNOWN
      end
  end.

Definition rtsp_url_scheme_default_port (val : rtsp_url_scheme) : Z :=
  match find_entry (fun e => bool_decide (val = se_scheme e)) rtsp_url_scheme_map with
  | Some e => se_default_port e
  | None => 0
  end.

Definition is_valid_rtsp_path_char (c : ascii) : bool :=
  isalnum c || oneof (cs "-._~!$&'()*+,;=:@/") c.

Definition is_ipv6_char (c : ascii) : bool := isxdigit c || oneof (cs ":.") c.
Definition is_host_char (c : ascii) : bool := isalnum c || oneof (cs ".-") c.

(** [host[:port]], or [[address][:port]]: the host and the port, 0 without one. *)
Definition split_host_and_port (host : cstr) : res (cstr * option cstr) :=
  if starts_with (cs "[") host then
    match strchr "]" host with
    | None => Err EINVAL
    | Some (before, after) =>
        let addr := tail before in
        if streq addr [] then Err EINVAL
        else match after with
             | ":"%char :: p => Ok (addr, Some p)
             | [] => Ok (addr, None)
             | _ => Err EINVAL
             end
    end
  else
    let '(h, port_str) := match strchr ":" host with
                          | Some (h, p) => (h, Some p)
                          | None => (host, None)
                          end in
    if streq h [] then Err EINVAL else Ok (h, port_str).

Definition parse_port (port_str : option cstr) : res Z :=
  match port_str with
  | None | Some [] => Ok 0
  | Some p =>
      let (val, end_) := strtol 10 p in
      if negb (streq end_ []) || (val <? 0) || (UINT16_MAX <? val)
      then Err EINVAL else Ok (u16 val)
  end.

Definition parse_host_and_port (host : cstr) : res (cstr * Z) :=
  '(h, port_str) ← split_host_and_port host;
  port ← parse_port port_str;
  return_err_if (negb (forallb (if starts_with (cs "[") host then is_ipv6_char
                                else is_host_char) h)) EINVAL;;
  Ok (h, port).

(** The user, the password, the host and the port of an authority. *)
Definition parse_authority (authority : cstr)
    : res (option cstr * option cstr * cstr * Z) :=
  let '(userpass, hostpart) := match strrchr "@" authority with
                               | Some (u, h) => (Some u, h)
                               | None => (None, authority)
                               end in
  let '(user, pass) := match userpass with
                       | None => (None, None)
                       | Some up => match strchr ":" up with
                                    | Some (u, p) => (Some u, Some p)
                                    | None => (Some up, None)
                                    end
                       end in
  return_err_if (bool_decide (user = Some [])) EINVAL;;
  '(host, port) ← parse_host_and_port hostpart;
  Ok (user, pass, host, port).

(** [while (len > 0 && path[len - 1] == '/') path[--len] = 0] *)
Definition strip_trailing_slashes (path : cstr) : cstr :=
  reverse (dropp (Ascii.eqb "/") (reverse path)).

Definition parse_path (path : cstr) : res (option cstr) :=
  if PATH_MAX <=? strnlen path PATH_MAX then Err ENAMETOOLONG
  else
    let path := strip_trailing_slashes path in
    if streq path [] then Ok None
    else if forallb is_valid_rtsp_path_char path then Ok (Some path) else Err EINVAL.

Record parsed_url := ParsedUrl {
  pu_scheme : rtsp_url_scheme; pu_username : option cstr; pu_password : option cstr;
  pu_host : cstr; pu_port : Z; pu_port_explicit : bool; pu_path : option cstr }.

Definition find_scheme (url : cstr) : option scheme_entry :=
  find_entry (fun e => starts_with (se_str e) url) rtsp_url_scheme_map.

Definition rtsp_url_parse_internal (url : option cstr) : res parsed_url :=
  match url with
  | None => Err EINVAL
  | Some url =>
      return_err_if (streq url []) EINVAL;;
      let url_len := strnlen url PATH_MAX in
      return_err_if ((url_len =? 0) || (PATH_MAX <=? url_len)) EINVAL;;
      match find_scheme url with
      | None => Err EINVAL
      | Some e =>
          let host := drop (length (se_str e)) url in
          return_err_if (streq host [] || starts_with (cs "/") host) EINVAL;;
          match strtok_r (cs "/") host with
          | None => Err EINVAL
          | Some (p, temp) =>
              '(user, pass, host, port) ← parse_authority p;
              path ← match strtok_tok [] temp with
                     | None => Ok None
                     | Some path => parse_path path
                     end;
              Ok (ParsedUrl (se_scheme e) user pass host
                    (if port =? 0 then se_default_port e else port)
                    (negb (port =? 0)) path)
          end
      end
  end.

Definition rtsp_url_parse_host_and_path (url : option cstr) : res (cstr * option cstr) :=
  u ← rtsp_url_parse_internal url; Ok (pu_host u, pu_path u).

Definition rtsp_url_parse_path (url : option cstr) : res (option cstr) :=
  u ← rtsp_url_parse_internal url; Ok (pu_path u).

Section inet.
Context (inet_pton_ipv4 inet_pton_ipv6 : cstr → bool).

Definition is_valid_ipv4_or_ipv6 (str : option cstr) : bool :=
  match str with
  | None => false
  | Some s => if inet_pton_ipv4 s then true else if inet_pton_ipv6 s then true else false
  end.

Definition rtsp_url_parse (url : option cstr) : res rtsp_url :=
  return_err_if (bool_decide (url = None)) EINVAL;;
  u ← rtsp_url_parse_internal url;
  let host := Some (pu_host u) in
  Ok (RtspUrl (pu_scheme u) (pu_username u) (pu_password u) host
        (if is_valid_ipv4_or_ipv6 host then host else None)
        (pu_port u) (pu_port_explicit u) (pu_path u)).

Definition opt_str (o : option cstr) : cstr := default [] o.

(** [asprintf] with a NULL host is undefined. *)
Definition rtsp_url_to_str_internal (url : option rtsp_url) (resolved include_path : bool)
    : res cstr :=
  match url with
  | None => Err EINVAL
  | Some url =>
      let host_to_use :=
        if resolved
        then match url_resolved_host url with Some h => Some h | None => url_host url end
        else url_host url in
      let path_to_use := if include_path then url_path url else None in
      match rtsp_url_scheme_str (url_scheme url) with
      | None => Err EINVAL
      | Some scheme_str =>
          let port_str := if negb (url_port url =? 0) && url_port_explicit url
                          then cs ":" ++ fmt_u (url_port url) else [] in
          match host_to_use with
          | None => Undef
          | Some host =>
              let is_ipv6 := match strchr ":" host with Some _ => true | None => false end in
              Ok (scheme_str
                  ++ opt_str (url_user url)
                  ++ (match url_user url, url_pass url with Some _, Some _ => cs ":" | _, _ => [] end)
                  ++ opt_str (url_pass url)
                  ++ (match url_user url with Some _ => cs "@" | None => [] end)
                  ++ (if is_ipv6 then cs "[" else [])
                  ++ host
                  ++ (if is_ipv6 then cs "]" else [])
                  ++ port_str
                  ++ (match path_to_use with Some _ => cs "/" | None => [] end)
                  ++ opt_str path_to_use)
          end
      end
  end.

Definition rtsp_url_to_str (url : option rtsp_url) : res cstr :=
  rtsp_url_to_str_internal url false true.
Definition rtsp_url_to_str_resolved (url : option rtsp_url) : res cstr :=
  rtsp_url_to_str_internal url true true.
Definition rtsp_url_to_str_no_path (url : option rtsp_url) : res cstr :=
  rtsp_url_to_str_internal url false false.
Definition rtsp_url_to_str_no_path_resolved (url : option rtsp_url) : res cstr :=
  rtsp_url_to_str_internal url true false.

Definition rtsp_url_copy (src : option rtsp_url) : res rtsp_url :=
  match src with
  | None => Err EINVAL
  | Some s =>
      Ok (RtspUrl (url_scheme s) (url_user s) (url_pass s) (url_host s)
            (url_resolved_host s) (url_port s) (url_port_explicit s) (url_path s))
  end.

(** 0 exactly when the strings are equal or both NULL. *)
Definition nullsafe_strcmp_eq (s1 s2 : option cstr) : bool :=
  match s1, s2 with
  | None, None => true
  | None, _ | _, None => false
  | Some a, Some b => streq a b
  end.

Definition rtsp_url_cmp (url1 url2 : option rtsp_url) : bool :=
  match url1, url2 with
  | None, None => true
  | None, _ | _, None => false
  | Some a, Some b =>
      bool_decide (url_scheme a = url_scheme b)
      && nullsafe_strcmp_eq (url_user a) (url_user b)
      && nullsafe_strcmp_eq (url_pass a) (url_pass b)
      && nullsafe_strcmp_eq (url_host a) (url_host b)
      && nullsafe_strcmp_eq (url_resolved_host a) (url_resolved_host b)
      && (url_port a =? url_port b)
      && Bool.eqb (url_port_explicit a) (url_port_explicit b)
      && nullsafe_strcmp_eq (url_path a) (url_path b)
  end.

Definition rtsp_url_get_scheme (url : option rtsp_url) : rtsp_url_scheme :=
  match url with Some u => url_scheme u | None => RTSP_URL_SCHEME_UNKNOWN end.
Definition rtsp_url_get_user (url : option rtsp_url) : option cstr := url ≫= url_user.
Definition rtsp_url_get_pass (url : option rtsp_url) : option cstr := url ≫= url_pass.
Definition rtsp_url_get_host (url : option rtsp_url) : option cstr := url ≫= url_host.
Definition rtsp_url_get_resolved_host (url : option rtsp_url) : option cstr :=
  url ≫= url_resolved_host.
Definition rtsp_url_has_resolved_host (url : option rtsp_url) : bool :=
  negb (bool_decide (rtsp_url_get_resolved_host url = None)).
Definition rtsp_url_get_port (url : option rtsp_url) : Z :=
  match url with Some u => url_port u | None => 0 end.
Definition rtsp_url_is_port_explicit (url : option rtsp_url) : bool :=
  match url with Some u => url_port_explicit u | None => false end.
Definition rtsp_url_get_path (url : option rtsp_url) : option cstr := url ≫= url_path.

Definition rtsp_url_set_resolved_host (url : option rtsp_url) (resolved_host : option cstr)
    : res rtsp_url :=
  match url, resolved_host with
  | Some u, Some h =>
      Ok (RtspUrl (url_scheme u) (url_user u) (url_pass u) (url_host u) (Some h)
            (url_port u) (url_port_explicit u) (url_path u))
  | _, _ => Err EINVAL
  end.

Definition with_credentials (u : rtsp_url) (user pass path : option cstr) : rtsp_url :=
  RtspUrl (url_scheme u) user pass (url_host u) (url_resolved_host u)
    (url_port u) (url_port_explicit u) path.

Definition rtsp_url_strip_credentials (url : option cstr) : res cstr :=
  match url with
  | None => Err EINVAL
  | Some _ =>
      parsed ← rtsp_url_parse url;
      rtsp_url_to_str (Some (with_credentials parsed None None (url_path parsed)))
  end.

(** The loop that stores ['*'] over [output[prefix .. len - prefix)]. *)
Definition anonymize_str (str : cstr) (keep_prefix_suffix : bool) : option cstr :=
  if PATH_MAX <=? strnlen str PATH_MAX then None
  else
    let n := if keep_prefix_suffix then 2%nat else 0%nat in
    let len := length str in
    if bool_decide (2 * n < len)%nat
    then Some (take n str ++ replicate (len - 2 * n) "*"%char ++ drop (len - n) str)
    else Some str.

Definition anonymize_field (field : option cstr) (is_path : bool) : res (option cstr) :=
  match field with
  | None => Ok None
  | Some s => match anonymize_str s is_path with
              | None => Err ENOMEM
              | Some tmp => Ok (Some tmp)
              end
  end.

Definition rtsp_url_anonymize (url : option cstr) : res cstr :=
  match url with
  | None => Err EINVAL
  | Some _ =>
      parsed ← rtsp_url_parse url;
      user ← anonymize_field (url_user parsed) false;
      pass ← anonymize_field (url_pass parsed) false;
      path ← anonymize_field (url_path parsed) true;
      rtsp_url_to_str (Some (with_credentials parsed user pass path))
  end.
End inet.

(** ** The URLs the parser builds *)

Definition has_char (c : ascii) (s : cstr) : bool := negb (forallb (isnot c) s).

Definition wf_host (h : cstr) : bool :=
  negb (streq h [])
  && forallb (if has_char ":" h then is_ipv6_char else is_host_char) h.

Definition wf_user (s : cstr) : bool :=
  negb (streq s []) && forallb (noneof (cs ":/")) s.

Definition wf_path (p : cstr) : bool :=
  negb (streq (strip_trailing_slashes p) []) && streq (strip_trailing_slashes p) p
  && forallb is_valid_rtsp_path_char p.

Definition wf_parsed (u : parsed_url) : bool :=
  negb (bool_decide (pu_scheme u = RTSP_URL_SCHEME_UNKNOWN))
  && match pu_username u with Some s => wf_user s | None => bool_decide (pu_password u = None) end
  && match pu_password u with Some s => forallb (isnot "/") s | None => true end
  && wf_host (pu_host u)
  && (0 <? pu_port u) && (pu_port u <=? UINT16_MAX)
  && (pu_port_explicit u || (pu_port u =? rtsp_url_scheme_default_port (pu_scheme u)))
  && match pu_path u with Some p => wf_path p | None => true end.

(** The text of a parsed URL. *)
Definition text_of_port (explicit : bool) (port : Z) : cstr :=
  if explicit then cs ":" ++ fmt_u port else [].
Definition text_of_host (h : cstr) : cstr :=
  if has_char ":" h then cs "[" ++ h ++ cs "]" else h.
Definition text_of_userinfo (user pass : option cstr) : cstr :=
  match user, pass with
  | Some u, Some p => u ++ cs ":" ++ p ++ cs "@"
  | Some u, None => u ++ cs "@"
  | None, _ => []
  end.
Definition text_of_path (path : option cstr) : cstr :=
  match path with Some p => cs "/" ++ p | None => [] end.
Definition text_of_url (u : parsed_url) : cstr :=
  default [] (rtsp_url_scheme_str (pu_scheme u))
  ++ text_of_userinfo (pu_username u) (pu_password u)
  ++ text_of_host (pu_host u) ++ text_of_port (pu_port_explicit u) (pu_port u)
  ++ text_of_path (pu_path u).

(** *** Parsing what was printed *)

Lemma has_char_strchr c s :
  (match strchr c s with Some _ => true | None => false end) = has_char c s.
Proof.
  unfold has_char. destruct (strchr c s) as [[a b]|] eqn:E.
  - apply strchr_Some in E as [-> _]. rewrite forallb_app. simpl. unfold isnot at 2.
    rewrite Ascii.eqb_refl. by rewrite andb_false_r.
  - apply strchr_None in E. by rewrite E.
Qed.

Lemma host_char_facts s : all is_host_char s →
  all (isnot ":") s ∧ all (noneof (cs "@/")) s ∧ starts_with (cs "[") s = false.
Proof.
  intros H. split_and!; [by eapply all_impl_dec, H|by eapply all_impl_dec, H|].
  destruct s as [|c s]; [done|]. apply all_cons in H as [H _].
  destruct (starts_with (cs "[") (c :: s)) eqn:E; [|done].
  apply starts_with_true in E as [t Ht]. injection Ht as -> _. done.
Qed.

Lemma ipv6_char_facts s : all is_ipv6_char s → all (noneof (cs "@/[]")) s.
Proof. intros H. by eapply all_impl_dec, H. Qed.

Lemma parse_port_text (explicit : bool) port :
  0 < port <= UINT16_MAX →
  parse_port (if explicit then Some (fmt_u port) else None) = Ok (if explicit then port else 0).
Proof.
  intros Hp. destruct explicit; [|done]. unfold parse_port, UINT16_MAX in *.
  destruct (fmt_u_spec port) as (_ & _ & Hne); [lia|].
  destruct (fmt_u port) as [|c s] eqn:E; [done|].
  rewrite <- E, <- (app_nil_r (fmt_u port)), strtol_fmt_u by (done || unfold INT64_MAX; lia).
  rewrite streq_refl. simpl.
  destruct (port <? 0) eqn:E1; [bool_to_prop; lia|].
  destruct (65535 <? port) eqn:E2; [bool_to_prop; lia|]. simpl.
  by rewrite wrapu_small by (simpl; lia).
Qed.

Lemma split_text_host h (explicit : bool) port :
  wf_host h = true →
  split_host_and_port (text_of_host h ++ text_of_port explicit port)
  = Ok (h, if explicit then Some (fmt_u port) else None) ∧
  forallb (if starts_with (cs "[") (text_of_host h ++ text_of_port explicit port)
           then is_ipv6_char else is_host_char) h = true.
Proof.
  intros Hwf. unfold wf_host in Hwf. apply andb_true_iff in Hwf as [Hne Hwf].
  apply negb_true_iff in Hne. unfold text_of_host, split_host_and_port.
  destruct (has_char ":" h) eqn:Ec.
  - split; [|done]. apply ipv6_char_facts in Hwf.
    assert (all (isnot "]") (cs "[" ++ h)) as Ha.
    { apply all_app. split; [done|]. by eapply all_impl_dec, Hwf. }
    rewrite <- !app_assoc. rewrite (starts_with_app (cs "[")).
    rewrite (app_assoc (cs "[") h). change (cs "]" ++ ?x) with ("]"%char :: x).
    rewrite strchr_app by done. simpl tail. rewrite Hne. by destruct explicit.
  - apply host_char_facts in Hwf as Hf. destruct Hf as (Hf1 & _ & Hf3).
    assert (starts_with (cs "[") (h ++ text_of_port explicit port) = false) as E.
    { destruct h as [|c h]; [done|]. simpl in Hf3 |- *. by rewrite andb_true_r in *. }
    rewrite E. split; [|done]. destruct explicit; simpl.
    + rewrite strchr_app by done. by rewrite Hne.
    + rewrite app_nil_r. destruct (strchr ":" h) as [[a b]|] eqn:E'.
      * apply strchr_None in Hf1. congruence.
      * by rewrite Hne.
Qed.

Lemma parse_host_and_port_text h (explicit : bool) port :
  wf_host h = true → 0 < port <= UINT16_MAX →
  parse_host_and_port (text_of_host h ++ text_of_port explicit port)
  = Ok (h, if explicit then port else 0).
Proof.
  intros Hh Hp. destruct (split_text_host h explicit port Hh) as [E1 E2].
  unfold parse_host_and_port. rewrite E1. cbn [mbind res_bind].
  rewrite parse_port_text by done. cbn [mbind res_bind]. by rewrite E2.
Qed.

(** A host and port part has none of the characters that end an authority. *)
Lemma text_host_port_chars h (explicit : bool) port :
  wf_host h = true → 0 < port →
  all (noneof (cs "@/")) (text_of_host h ++ text_of_port explicit port).
Proof.
  intros Hwf Hp. unfold wf_host in Hwf. apply andb_true_iff in Hwf as [_ Hwf].
  apply all_app. split.
  - unfold text_of_host. destruct (has_char ":" h).
    + apply ipv6_char_facts in Hwf. rewrite !all_app. split_and!; [done| |done].
      by eapply all_impl_dec, Hwf.
    + by apply host_char_facts in Hwf as (_ & ? & _).
  - destruct explicit; [|done]. unfold text_of_port. apply all_app. split; [done|].
    destruct (fmt_u_spec port) as (_ & H & _); [lia|]. by eapply all_impl_dec, H.
Qed.

Definition wf_userinfo (user pass : option cstr) : bool :=
  match user with Some s => wf_user s | None => bool_decide (pass = None) end
  && match pass with Some s => forallb (isnot "/") s | None => true end.

Lemma parse_authority_text user pass h (explicit : bool) port :
  wf_userinfo user pass = true → wf_host h = true → 0 < port <= UINT16_MAX →
  parse_authority (text_of_userinfo user pass ++ text_of_host h ++ text_of_port explicit port)
  = Ok (user, pass, h, if explicit then port else 0).
Proof.
  intros Hu Hh Hp. pose proof (text_host_port_chars h explicit port Hh ltac:(lia)) as Hc.
  assert (all (isnot "@") (text_of_host h ++ text_of_port explicit port)) as Ha
    by (by eapply all_impl_dec, Hc).
  unfold parse_authority, wf_userinfo, wf_user in *.
  destruct user as [u|]; [|bool_to_prop; subst pass]; cbn [text_of_userinfo].
  - apply andb_true_iff in Hu as [[Hne Hs]%andb_true_iff Hpass].
    assert (all (isnot ":") u) as Hcol by (by eapply all_impl_dec, Hs).
    destruct pass as [p|].
    + rewrite <- !app_assoc. change (cs "@" ++ ?x) with ("@"%char :: x).
      rewrite (app_assoc u), (app_assoc (u ++ cs ":")), strrchr_app by done.
      rewrite <- (app_assoc u). change (cs ":" ++ ?x) with (":"%char :: x).
      rewrite strchr_app by done.
      destruct u as [|c u]; [done|]. cbn [bool_decide]. rewrite bool_decide_eq_false_2 by done.
      cbn [return_err_if mbind res_bind]. by rewrite parse_host_and_port_text.
    + rewrite <- !app_assoc. change (cs "@" ++ ?x) with ("@"%char :: x).
      rewrite strrchr_app by done. apply strchr_None in Hcol as ->.
      destruct u as [|c u]; [done|]. rewrite bool_decide_eq_false_2 by done.
      cbn [return_err_if mbind res_bind]. by rewrite parse_host_and_port_text.
  - cbn [app]. apply strrchr_None in Ha as ->.
    rewrite bool_decide_eq_false_2 by done.
    cbn [return_err_if mbind res_bind]. by rewrite parse_host_and_port_text.
Qed.

Lemma parse_path_text p : wf_path p = true → Zlen p < PATH_MAX → parse_path p = Ok (Some p).
Proof.
  unfold wf_path, parse_path, strnlen. intros Hp Hl. rewrite Z.min_l by lia.
  apply andb_true_iff in Hp as [[H1 H2]%andb_true_iff H3].
  destruct (PATH_MAX <=? Zlen p) eqn:E; [bool_to_prop; lia|].
  apply streq_true in H2. rewrite H2 in *. apply negb_true_iff in H1. by rewrite H1, H3.
Qed.

Lemma find_scheme_text sch rest :
  sch ≠ RTSP_URL_SCHEME_UNKNOWN →
  ∃ e, find_scheme (default [] (rtsp_url_scheme_str sch) ++ rest) = Some e ∧
    se_scheme e = sch ∧ se_default_port e = rtsp_url_scheme_default_port sch ∧
    drop (length (se_str e)) (default [] (rtsp_url_scheme_str sch) ++ rest) = rest.
Proof. destruct sch; [done|..]; intros _; eexists; by split_and!. Qed.

Definition authority_text (u : parsed_url) : cstr :=
  text_of_userinfo (pu_username u) (pu_password u)
  ++ text_of_host (pu_host u) ++ text_of_port (pu_port_explicit u) (pu_port u).

Lemma wf_parsed_elim u :
  wf_parsed u = true →
  pu_scheme u ≠ RTSP_URL_SCHEME_UNKNOWN ∧
  wf_userinfo (pu_username u) (pu_password u) = true ∧ wf_host (pu_host u) = true ∧
  0 < pu_port u <= UINT16_MAX ∧
  (pu_port_explicit u = true ∨ pu_port u = rtsp_url_scheme_default_port (pu_scheme u)) ∧
  (∀ p, pu_path u = Some p → wf_path p = true).
Proof.
  unfold wf_parsed, wf_userinfo. rewrite !andb_true_iff, orb_true_iff.
  intros [[[[[[[H1 H2] H3] H4] H5] H6] H7] H8]. bool_to_prop. split_and!; try done.
  - destruct H7; bool_to_prop; auto.
  - intros p E. by rewrite E in H8.
Qed.

Lemma authority_text_chars u :
  wf_parsed u = true → authority_text u ≠ [] ∧ all (noneof (cs "/")) (authority_text u).
Proof.
  intros Hwf. destruct (wf_parsed_elim u Hwf) as (_ & Hu & Hh & Hp & _).
  unfold authority_text. pose proof (text_host_port_chars (pu_host u) (pu_port_explicit u)
    (pu_port u) Hh ltac:(lia)) as Hc. split.
  - unfold wf_host in Hh. apply andb_true_iff in Hh as [Hh _].
    apply negb_true_iff, streq_false in Hh. intros [_ [E _]%app_nil]%app_nil.
    unfold text_of_host in E. by destruct (has_char ":" (pu_host u)).
  - apply all_app. split; [|by eapply all_impl_dec, Hc].
    unfold wf_userinfo, wf_user in Hu. apply andb_true_iff in Hu as [Hu Hpw].
    destruct (pu_username u) as [s|]; [|done]. apply andb_true_iff in Hu as [_ Hs].
    assert (all (noneof (cs "/")) s) as Hs' by (by eapply all_impl_dec, Hs).
    destruct (pu_password u) as [p|]; cbn [text_of_userinfo]; rewrite !all_app;
      [|by split_and!].
    split_and!; [done|done| |done]. by eapply all_impl_dec, Hpw.
Qed.

Lemma rtsp_url_parse_internal_text u :
  wf_parsed u = true → Zlen (text_of_url u) < PATH_MAX →
  rtsp_url_parse_internal (Some (text_of_url u)) = Ok u.
Proof.
  intros Hwf Hlen. destruct (authority_text_chars u Hwf) as [Hane Hac].
  destruct (wf_parsed_elim u Hwf) as (Hs & Hu & Hh & Hp & Hd & Hpath).
  destruct (find_scheme_text (pu_scheme u) (authority_text u ++ text_of_path (pu_path u)) Hs)
    as (e & He1 & He2 & He3 & He4).
  assert (text_of_url u = default [] (rtsp_url_scheme_str (pu_scheme u))
    ++ authority_text u ++ text_of_path (pu_path u)) as Et
    by (unfold text_of_url, authority_text; by rewrite <- !app_assoc).
  unfold rtsp_url_parse_internal, strnlen. rewrite Z.min_l by lia.
  assert (text_of_url u ≠ []) as Hne by (rewrite Et; by destruct (pu_scheme u)).
  rewrite (proj2 (streq_false _ _) Hne). cbn [return_err_if mbind res_bind].
  destruct ((Zlen (text_of_url u) =? 0) || _) eqn:E0.
  { apply orb_true_iff in E0 as [E0|E0]; bool_to_prop; [|lia].
    destruct (text_of_url u); [done|]. rewrite Zlen_cons in E0.
    pose proof (Zlen_nonneg l). lia. }
  cbn [return_err_if mbind res_bind]. rewrite Et, He1, He4.
  assert (strtok_r (cs "/") (authority_text u ++ text_of_path (pu_path u))
    = Some (authority_text u, default [] (pu_path u))) as Etok.
  { destruct (pu_path u) as [p|]; simpl.
    - by rewrite strtok_r_app.
    - rewrite app_nil_r. by apply strtok_r_last. }
  rewrite Etok.
  destruct (streq _ [] || starts_with (cs "/") _) eqn:E1.
  { destruct (authority_text u) as [|c a]; [done|]. apply all_cons in Hac as [Hc _].
    simpl in E1. clear -Hc E1. by byte_cases c. }
  cbn [return_err_if mbind res_bind].
  unfold authority_text. rewrite parse_authority_text by done. cbn [mbind res_bind].
  assert (match strtok_tok [] (default [] (pu_path u)) with
          | None => Ok None | Some path => parse_path path end = Ok (pu_path u)) as Epath.
  { destruct (pu_path u) as [p|] eqn:Ep; [|done]. specialize (Hpath p eq_refl).
    cbn [default from_option]. unfold strtok_tok. rewrite strtok_empty_delims; simpl.
    - apply parse_path_text; [done|]. rewrite Et in Hlen.
      rewrite !Zlen_app in Hlen. cbn [text_of_path] in Hlen. rewrite Zlen_app in Hlen.
      unfold Zlen in *. lia.
    - intros ->. done. }
  rewrite Epath. cbn [mbind res_bind]. rewrite He2, He3. f_equal.
  destruct u as [sch us pw h port expl path]; simpl in *. destruct expl.
  - destruct (port =? 0) eqn:E; [bool_to_prop; lia|done].
  - simpl. by destruct Hd as [?| ->].
Qed.

(** *** What parsing yields *)

Lemma parse_port_inv port_str port :
  parse_port port_str = Ok port →
  0 <= port <= UINT16_MAX ∧
  (port ≠ 0 → ∃ p, port_str = Some p ∧ Zlen (fmt_u port) <= Zlen p).
Proof.
  destruct port_str as [[|c p]|]; simpl; [by intros [= <-]| |by intros [= <-]].
  unfold strtol. destruct (scan_number 10 (c :: p)) as [[[neg m] rest]|] eqn:E.
  2:{ by destruct (negb _ || _ || _) eqn:E'. }
  apply scan_number_inv in E as (ds & Hne & Hds & -> & Hlen).
  pose proof (of_base_bound 10 ds ltac:(lia) Hds) as Hb.
  destruct (_ || _) eqn:E'; [done|]. intros [= <-]. bool_to_prop.
  rewrite wrapu_small by (unfold UINT16_MAX in *; simpl; lia).
  split; [lia|]. intros Hp. exists (c :: p). split; [done|].
  unfold INT64_MAX, INT64_MIN, UINT16_MAX in *.
  assert (Z.max (-9223372036854775808) (Z.min 9223372036854775807
    (if neg then - of_base 10 ds else of_base 10 ds)) = of_base 10 ds) as ->
    by (destruct neg; lia).
  pose proof (fmt_u_length_of_base ds Hne Hds). pose proof (Zlen_nonneg rest). lia.
Qed.

Lemma wf_host_ipv6 addr : addr ≠ [] → all is_ipv6_char addr → wf_host addr = true.
Proof.
  intros Hne Ha. unfold wf_host. apply streq_false in Hne. rewrite Hne. simpl.
  destruct (has_char ":" addr) eqn:E; [done|]. unfold has_char in E.
  apply negb_false_iff in E. clear Hne. induction addr as [|c a IH]; [done|].
  apply all_cons in Ha as [Hc Ha]. apply all_cons in E as [Ec E].
  apply all_cons. split; [|auto]. clear -Hc Ec. revert Hc Ec. by byte_cases c.
Qed.

Lemma wf_host_name h : h ≠ [] → all is_host_char h → wf_host h = true.
Proof.
  intros Hne Hh. unfold wf_host. apply streq_false in Hne. rewrite Hne. simpl.
  apply host_char_facts in Hh as Hf. destruct Hf as (Hc & _).
  unfold has_char. rewrite Hc. done.
Qed.

Definition port_text (port : Z) : cstr := text_of_port (negb (port =? 0)) port.

Lemma port_text_length port_str port :
  parse_port port_str = Ok port →
  Zlen (port_text port) <= match port_str with Some p => 1 + Zlen p | None => 0 end.
Proof.
  intros H. apply parse_port_inv in H as [_ H]. unfold port_text.
  destruct (port =? 0) eqn:E; bool_to_prop; simpl.
  - destruct port_str; [pose proof (Zlen_nonneg l)|]; change (Zlen []) with 0; lia.
  - destruct (H E) as (p & -> & Hp). rewrite Zlen_cons. lia.
Qed.

Lemma text_of_host_length h : Zlen (text_of_host h) <= Zlen h + 2.
Proof.
  unfold text_of_host. destruct (has_char ":" h); [|lia].
  rewrite !Zlen_app. change (Zlen (cs "[")) with 1. change (Zlen (cs "]")) with 1. lia.
Qed.

Lemma parse_host_and_port_inv host h port :
  parse_host_and_port host = Ok (h, port) →
  wf_host h = true ∧ 0 <= port <= UINT16_MAX ∧
  Zlen (text_of_host h ++ port_text port) <= Zlen host.
Proof.
  unfold parse_host_and_port. intros H.
  destruct (split_host_and_port host) as [[h' ps]| |] eqn:Es; try done. cbn [mbind res_bind] in H.
  destruct (parse_port ps) as [p| |] eqn:Ep; try done. cbn [mbind res_bind] in H.
  destruct (forallb _ h') eqn:Ec; [|done]. cbn [mbind res_bind negb return_err_if] in H.
  injection H as -> ->.
  apply port_text_length in Ep as Hl. apply parse_port_inv in Ep as [Hr _].
  rewrite Zlen_app. unfold split_host_and_port in Es.
  destruct (starts_with (cs "[") host) eqn:Eb; try rewrite Eb in Ec.
  - apply starts_with_true in Eb as [t ->]. simpl in Es.
    destruct (strchr "]" t) as [[addr after]|] eqn:Et; [|done].
    apply strchr_Some in Et as [-> _]. simpl in Es.
    destruct (streq addr []) eqn:En; [done|]. apply streq_false in En.
    pose proof (text_of_host_length h). rewrite !Zlen_app, Zlen_cons.
    change (Zlen (cs "[")) with 1.
    assert (h = addr ∧ (after = [] ∧ ps = None ∨ ∃ p', after = ":"%char :: p' ∧ ps = Some p'))
      as (-> & Hps).
    { destruct after as [|c a]; [by injection Es as <- <-; auto|].
      clear -Es. byte_cases c; try discriminate Es. injection Es as <- <-. eauto. }
    split_and!; [by apply wf_host_ipv6|lia|lia|].
    destruct Hps as [[-> ->]|(p' & -> & ->)]; autorewrite with zlen in *; lia.
  - assert (∃ q, host = h ++ q ∧ h ≠ [] ∧ 
      match ps with Some p => Zlen q = 1 + Zlen p | None => q = [] end) as (q & -> & Hne & Hq).
    { destruct (strchr ":" host) as [[a b]|] eqn:E.
      - apply strchr_Some in E as [-> _]. destruct (streq a []) eqn:En; [done|].
        injection Es as <- <-. apply streq_false in En. exists (":"%char :: b).
        split_and!; [done..|]. by rewrite Zlen_cons.
      - destruct (streq host []) eqn:En; [done|]. injection Es as <- <-.
        apply streq_false in En. exists []. by rewrite app_nil_r. }
    assert (text_of_host h = h) as ->.
    { unfold text_of_host, has_char. by apply host_char_facts in Ec as (-> & _). }
    split_and!; [by apply wf_host_name|lia|lia|]. rewrite Zlen_app.
    destruct ps; [lia|]. subst q. change (Zlen []) with 0. lia.
Qed.

Lemma parse_authority_inv a user pass h port :
  all (noneof (cs "/")) a → parse_authority a = Ok (user, pass, h, port) →
  wf_userinfo user pass = true ∧ wf_host h = true ∧ 0 <= port <= UINT16_MAX ∧
  Zlen (text_of_userinfo user pass ++ text_of_host h ++ port_text port) <= Zlen a.
Proof.
  intros Ha. unfold parse_authority.
  destruct (strrchr "@" a) as [[up hp]|] eqn:Eat.
  - apply strrchr_Some in Eat as [-> _]. apply all_app in Ha as [Hup _].
    assert (all (isnot "/") up) as Hsl by (by eapply all_impl_dec, Hup).
    intros H. destruct (strchr ":" up) as [[u p]|] eqn:Ec.
    + apply strchr_Some in Ec as [-> Hu]. apply all_app in Hup as [Hu' _].
      apply all_app in Hsl as [_ Hp]. apply all_cons in Hp as [_ Hp].
      destruct (bool_decide (Some u = Some [])) eqn:Ed; [done|].
      cbn [mbind res_bind return_err_if] in H.
      destruct (parse_host_and_port hp) as [[h' p']| |] eqn:Ep; try done.
      injection H as <- <- -> ->. apply parse_host_and_port_inv in Ep as (? & ? & Hl).
      apply bool_decide_eq_false_1 in Ed. split_and!; [|done|lia|lia|].
      * unfold wf_userinfo, wf_user. rewrite Hp. rewrite andb_true_r.
        apply andb_true_iff. split; [apply negb_true_iff, streq_false; congruence|].
        apply forallb_forall. intros c Hc. rewrite forallb_forall in Hu, Hu'.
        specialize (Hu c Hc). specialize (Hu' c Hc). clear -Hu Hu'. revert Hu Hu'. by byte_cases c.
      * cbn [text_of_userinfo]. rewrite !Zlen_app in *. rewrite !Zlen_cons.
        change (Zlen (cs ":")) with 1. change (Zlen (cs "@")) with 1. lia.
    + apply strchr_None in Ec. destruct (bool_decide (Some up = Some [])) eqn:Ed; [done|].
      cbn [mbind res_bind return_err_if] in H.
      destruct (parse_host_and_port hp) as [[h' p']| |] eqn:Ep; try done.
      injection H as <- <- -> ->. apply parse_host_and_port_inv in Ep as (? & ? & Hl).
      apply bool_decide_eq_false_1 in Ed. split_and!; [|done|lia|lia|].
      * unfold wf_userinfo, wf_user. rewrite andb_true_r.
        apply andb_true_iff. split; [apply negb_true_iff, streq_false; congruence|].
        apply forallb_forall. intros c Hc. rewrite forallb_forall in Ec, Hsl.
        specialize (Ec c Hc). specialize (Hsl c Hc). clear -Ec Hsl. revert Ec Hsl. by byte_cases c.
      * cbn [text_of_userinfo]. rewrite !Zlen_app in *. rewrite !Zlen_cons.
        change (Zlen (cs "@")) with 1. lia.
  - intros H. rewrite bool_decide_eq_false_2 in H by done. cbn [mbind res_bind return_err_if] in H.
    destruct (parse_host_and_port a) as [[h' p']| |] eqn:Ep; try done.
    injection H as <- <- -> ->. apply parse_host_and_port_inv in Ep as (? & ? & Hl).
    split_and!; [done|done|lia|lia|done].
Qed.

Lemma strip_trailing_prefix p : strip_trailing_slashes p `prefix_of` p.
Proof.
  exists (reverse (takep (Ascii.eqb "/") (reverse p))). unfold strip_trailing_slashes.
  by rewrite <- reverse_app, takep_dropp, reverse_involutive.
Qed.

Lemma strip_trailing_idem p :
  strip_trailing_slashes (strip_trailing_slashes p) = strip_trailing_slashes p.
Proof.
  unfold strip_trailing_slashes. rewrite reverse_involutive. f_equal.
  destruct (dropp _ (reverse p)) as [|c s] eqn:E; [done|]. apply dropp_stop.
  by apply dropp_head in E.
Qed.

Lemma parse_path_inv path r :
  parse_path path = Ok r → ∀ p, r = Some p → wf_path p = true ∧ Zlen p <= Zlen path.
Proof.
  unfold parse_path. destruct (_ <=? _); [done|].
  destruct (streq _ []) eqn:E1; [by intros [= <-]|].
  destruct (forallb _ _) eqn:E2; [|done]. intros [= <-] p [= <-]. split.
  - unfold wf_path. by rewrite strip_trailing_idem, E1, E2, streq_refl.
  - destruct (strip_trailing_prefix path) as [k Hk].
    rewrite Hk at 2. rewrite Zlen_app. pose proof (Zlen_nonneg k). lia.
Qed.

Lemma find_scheme_inv url e :
  find_scheme url = Some e →
  se_scheme e ≠ RTSP_URL_SCHEME_UNKNOWN ∧ 0 < se_default_port e <= UINT16_MAX ∧
  se_default_port e = rtsp_url_scheme_default_port (se_scheme e) ∧
  default [] (rtsp_url_scheme_str (se_scheme e)) = se_str e ∧
  url = se_str e ++ drop (length (se_str e)) url.
Proof.
  unfold find_scheme, rtsp_url_scheme_map. cbn [find_entry se_str].
  destruct (starts_with (cs "rtsp://") url) eqn:E1; [|
    destruct (starts_with (cs "rtspu://") url) eqn:E2; [|
      destruct (starts_with (cs "rtsps://") url) eqn:E3; [|done]]];
    intros H; inversion_clear H.
  - apply starts_with_true in E1 as [t ->]. by split_and!.
  - apply starts_with_true in E2 as [t ->]. by split_and!.
  - apply starts_with_true in E3 as [t ->]. by split_and!.
Qed.

Lemma strtok_slash_inv host p temp :
  starts_with (cs "/") host = false → strtok_r (cs "/") host = Some (p, temp) →
  all (noneof (cs "/")) p ∧ (Zlen p + Zlen temp = Zlen host - 1 ∨ host = p ∧ temp = []).
Proof.
  intros Hs H. split; [by eapply strtok_r_Some|]. unfold strtok_r in H.
  assert (dropp (oneof (cs "/")) host = host) as Hd.
  { destruct host as [|c h]; [done|]. apply dropp_stop. clear -Hs. revert Hs. by byte_cases c. }
  rewrite Hd in H. destruct host as [|c h]; [done|].
  assert (p = takep (noneof (cs "/")) (c :: h)
    ∧ temp = tail (dropp (noneof (cs "/")) (c :: h))) as [-> ->] by (by injection H as <- <-).
  clear H. pose proof (takep_dropp (noneof (cs "/")) (c :: h)) as E.
  destruct (dropp (noneof (cs "/")) (c :: h)) as [|x t].
  - right. rewrite app_nil_r in E. done.
  - left. apply (f_equal Zlen) in E. rewrite Zlen_app, (Zlen_cons x t) in E.
    cbn [tail]. lia.
Qed.

Lemma rtsp_url_parse_internal_inv url u :
  rtsp_url_parse_internal (Some url) = Ok u →
  wf_parsed u = true ∧ Zlen (text_of_url u) <= Zlen url < PATH_MAX.
Proof.
  unfold rtsp_url_parse_internal, strnlen.
  destruct (streq url []); [done|]. cbn [mbind res_bind return_err_if].
  destruct (_ || _) eqn:E0; [done|]. cbn [mbind res_bind return_err_if]. bool_to_prop.
  destruct (find_scheme url) as [e|] eqn:Ee; [|done].
  apply find_scheme_inv in Ee as (Hs1 & Hs2 & Hs3 & Hs4 & Hurl).
  set (host := drop (length (se_str e)) url) in *.
  destruct (_ || starts_with _ _) eqn:E1; [done|]. cbn [mbind res_bind return_err_if].
  bool_to_prop. destruct (strtok_r (cs "/") host) as [[p temp]|] eqn:Et; [|done].
  apply strtok_slash_inv in Et as [Hp Hlen]; [|done].
  destruct (parse_authority p) as [[[[user pass] h] port]| |] eqn:Ea; try done.
  cbn [mbind res_bind]. apply parse_authority_inv in Ea as (Hu & Hh & Hport & Hl); [|done].
  destruct (match strtok_tok [] temp with None => _ | Some path => _ end)
    as [path| |] eqn:Epath; try done. cbn [mbind res_bind]. intros [= <-].
  assert (∀ q, path = Some q → wf_path q = true ∧ Zlen q <= Zlen temp) as Hpath.
  { destruct (decide (temp = [])) as [->|Hne]; [by injection Epath as <-|].
    unfold strtok_tok in Epath. rewrite strtok_empty_delims in Epath by done.
    by eapply parse_path_inv. }
  split.
  - unfold wf_parsed. cbn. unfold wf_userinfo in Hu. rewrite Hh.
    apply andb_true_iff in Hu as [-> ->].
    rewrite bool_decide_eq_false_2 by done. simpl.
    assert ((match path with Some p0 => wf_path p0 | None => true end) = true) as ->
      by (destruct path as [q|]; [by apply Hpath|done]).
    rewrite andb_true_r. unfold UINT16_MAX in *.
    destruct (port =? 0) eqn:E; bool_to_prop; simpl.
    + rewrite <- Hs3, Z.eqb_refl, andb_true_r.
      apply andb_true_iff; split; [apply Z.ltb_lt|apply Z.leb_le]; lia.
    + rewrite andb_true_r. apply andb_true_iff; split; [apply Z.ltb_lt|apply Z.leb_le]; lia.
  - split; [|lia]. unfold text_of_url.
    cbn [pu_scheme pu_username pu_password pu_host pu_port pu_port_explicit pu_path].
    rewrite Hs4, !Zlen_app. apply (f_equal Zlen) in Hurl. rewrite Zlen_app in Hurl.
    replace (text_of_port (negb (port =? 0)) (if port =? 0 then se_default_port e else port))
      with (port_text port) by (unfold port_text; by destruct (port =? 0)).
    rewrite !Zlen_app in Hl.
    assert (Zlen (text_of_path path) <= Zlen host - Zlen p); [|lia].
    destruct path as [q|]; simpl.
    + destruct (Hpath q eq_refl) as [Hq Hq']. rewrite Zlen_cons.
      destruct Hlen as [?|[-> ->]]; [lia|]. rewrite Zlen_nil in Hq'.
      destruct q; [done|]. rewrite Zlen_cons in Hq'. pose proof (Zlen_nonneg q). lia.
    + change (Zlen []) with 0. destruct Hlen as [?|[-> ->]]; [|lia].
      pose proof (Zlen_nonneg temp). lia.
Qed.

(** *** Masked fields *)

Definition stars (s : cstr) : cstr := replicate (length s) "*"%char.

(** A path with all but its first and last two characters starred. *)
Definition mask_path (p : cstr) : cstr :=
  if bool_decide (4 < length p)%nat
  then take 2 p ++ replicate (length p - 4) "*"%char ++ drop (length p - 2) p
  else p.

Lemma strip_trailing_snoc a c :
  Ascii.eqb "/" c = false → strip_trailing_slashes (a ++ [c]) = a ++ [c].
Proof.
  intros Hc. unfold strip_trailing_slashes. rewrite reverse_snoc, dropp_stop by done.
  by rewrite reverse_cons, reverse_involutive.
Qed.

Lemma wf_path_snoc a c :
  Ascii.eqb "/" c = false → all is_valid_rtsp_path_char (a ++ [c]) → wf_path (a ++ [c]) = true.
Proof.
  intros Hc Ha. unfold wf_path. rewrite strip_trailing_snoc, streq_refl, Ha by done.
  by destruct a.
Qed.

Lemma wf_path_inv p : wf_path p = true →
  ∃ a c, p = a ++ [c] ∧ Ascii.eqb "/" c = false ∧ all is_valid_rtsp_path_char p.
Proof.
  unfold wf_path. rewrite !andb_true_iff. intros [[H1 H2] H3].
  apply negb_true_iff, streq_false in H1. apply streq_true in H2.
  destruct p as [|c a _] using rev_ind; [done|]. exists a, c. split_and!; [done| |done].
  destruct (Ascii.eqb "/" c) eqn:E; [|done]. exfalso. apply Ascii.eqb_eq in E as <-.
  apply (f_equal length) in H2. unfold strip_trailing_slashes in H2.
  rewrite reverse_snoc in H2. simpl in H2. rewrite length_reverse, length_app in H2.
  pose proof (length_dropp (Ascii.eqb "/") (reverse a)) as Hl.
  rewrite length_reverse in Hl. simpl in H2, Hl. lia.
Qed.

Lemma all_replicate p n c : p c = true → all p (replicate n c).
Proof. intros H. induction n; simpl; [done|]. by rewrite H. Qed.

Lemma all_take_drop p s n : all p s → all p (take n s) ∧ all p (drop n s).
Proof. intros H. rewrite <- (take_drop n s) in H. by apply all_app in H. Qed.

Lemma length_mask_path p : length (mask_path p) = length p.
Proof.
  unfold mask_path. case_bool_decide; [|done].
  rewrite !length_app, length_take, length_replicate, length_drop. lia.
Qed.

Lemma wf_path_mask p : wf_path p = true → wf_path (mask_path p) = true.
Proof.
  intros Hwf. destruct (wf_path_inv p Hwf) as (a & c & Hp & Hc & Hv).
  unfold mask_path. case_bool_decide as Hlen; [|done].
  assert (drop (length p - 2) p = drop (length p - 2) a ++ [c]) as Hd.
  { rewrite Hp at 2. rewrite drop_app_le; [done|].
    rewrite Hp, length_app in *. simpl in *. lia. }
  rewrite Hd, !app_assoc. apply wf_path_snoc; [done|].
  rewrite <- !app_assoc, <- Hd, !all_app.
  split_and!; [by apply all_take_drop|by apply all_replicate|by apply all_take_drop].
Qed.

Lemma wf_user_stars s : wf_user s = true → wf_user (stars s) = true.
Proof.
  unfold wf_user. rewrite !andb_true_iff. intros [H _]. split; [|by apply all_replicate].
  by destruct s.
Qed.

Lemma anonymize_str_stars s : Zlen s < PATH_MAX → anonymize_str s false = Some (stars s).
Proof.
  intros Hl. unfold anonymize_str, strnlen. rewrite Z.min_l by lia.
  destruct (_ <=? _) eqn:E; [bool_to_prop; lia|]. simpl Nat.mul.
  case_bool_decide as H.
  - rewrite !Nat.sub_0_r, drop_all. simpl. by rewrite app_nil_r.
  - destruct s; [done|]. simpl in H. lia.
Qed.

Lemma anonymize_str_path s : Zlen s < PATH_MAX → anonymize_str s true = Some (mask_path s).
Proof.
  intros Hl. unfold anonymize_str, strnlen, mask_path. rewrite Z.min_l by lia.
  destruct (_ <=? _) eqn:E; [bool_to_prop; lia|]. simpl Nat.mul. by case_bool_decide.
Qed.

(** *** Printing *)

Section theorems.
Context (inet_pton_ipv4 inet_pton_ipv6 : cstr → bool).

(** The [struct rtsp_url] that [rtsp_url_parse] fills from the parsed parts. *)
Definition url_of_parsed (u : parsed_url) : rtsp_url :=
  RtspUrl (pu_scheme u) (pu_username u) (pu_password u) (Some (pu_host u))
    (if is_valid_ipv4_or_ipv6 inet_pton_ipv4 inet_pton_ipv6 (Some (pu_host u))
     then Some (pu_host u) else None)
    (pu_port u) (pu_port_explicit u) (pu_path u).

Lemma rtsp_url_parse_eq s :
  rtsp_url_parse inet_pton_ipv4 inet_pton_ipv6 (Some s)
  = (u ← rtsp_url_parse_internal (Some s); Ok (url_of_parsed u)).
Proof. done. Qed.

Lemma parse_inv s u :
  rtsp_url_parse inet_pton_ipv4 inet_pton_ipv6 (Some s) = Ok u →
  ∃ p, u = url_of_parsed p ∧ wf_parsed p = true ∧ Zlen (text_of_url p) <= Zlen s < PATH_MAX.
Proof.
  rewrite rtsp_url_parse_eq. destruct (rtsp_url_parse_internal (Some s)) as [p| |] eqn:E; try done.
  intros [= <-]. exists p. split; [done|]. by apply rtsp_url_parse_internal_inv.
Qed.

Lemma parse_text p :
  wf_parsed p = true → Zlen (text_of_url p) < PATH_MAX →
  rtsp_url_parse inet_pton_ipv4 inet_pton_ipv6 (Some (text_of_url p)) = Ok (url_of_parsed p).
Proof. intros. by rewrite rtsp_url_parse_eq, rtsp_url_parse_internal_text. Qed.

Lemma to_str_parsed p : wf_parsed p = true → 
  rtsp_url_to_str (Some (url_of_parsed p)) = Ok (text_of_url p).
Proof.
  intros Hwf. destruct (wf_parsed_elim p Hwf) as (Hs & Hu & Hh & Hp & _).
  unfold rtsp_url_to_str, rtsp_url_to_str_internal.
  cbn [url_of_parsed url_scheme url_user url_pass url_host url_port url_port_explicit url_path].
  destruct (rtsp_url_scheme_str (pu_scheme p)) as [sch|] eqn:Es; [|by destruct (pu_scheme p)].
  rewrite has_char_strchr. unfold text_of_url. rewrite Es. f_equal.
  assert (negb (pu_port p =? 0) = true) as -> by (apply negb_true_iff, Z.eqb_neq; lia).
  cbn [default from_option andb]. unfold id. f_equal.
  unfold wf_userinfo in Hu. apply andb_true_iff in Hu as [Hu _].
  unfold text_of_host, text_of_port, text_of_path, opt_str.
  destruct (pu_username p) as [us|], (pu_password p) as [pw|], (has_char ":" (pu_host p)),
    (pu_port_explicit p), (pu_path p) as [pa|]; try (by bool_to_prop);
    cbn [default from_option text_of_userinfo]; unfold id;
    rewrite <- ?app_assoc, ?app_nil_r; try done; by rewrite ?app_nil_l, <- ?app_assoc.
Qed.

(** C29: every URL string that [rtsp_url_parse] accepts prints back, with
    [rtsp_url_to_str], to a string that is no longer and that parses to the same
    URL: parsing only normalises. *)
Theorem rtsp_url_parse_print_parse s u :
  rtsp_url_parse inet_pton_ipv4 inet_pton_ipv6 (Some s) = Ok u →
  ∃ t, rtsp_url_to_str (Some u) = Ok t ∧ Zlen t <= Zlen s ∧
       rtsp_url_parse inet_pton_ipv4 inet_pton_ipv6 (Some t) = Ok u.
Proof.
  intros H. apply parse_inv in H as (p & -> & Hwf & Hl).
  exists (text_of_url p). split_and!; [by apply to_str_parsed|lia|].
  apply parse_text; [done|lia].
Qed.

(** [rtsp_url_strip_credentials] succeeds on every URL that parses, and
    its result parses to the same URL without user and password. *)
Theorem rtsp_url_strip_credentials_spec s u :
  rtsp_url_parse inet_pton_ipv4 inet_pton_ipv6 (Some s) = Ok u →
  ∃ t, rtsp_url_strip_credentials inet_pton_ipv4 inet_pton_ipv6 (Some s) = Ok t ∧
       rtsp_url_parse inet_pton_ipv4 inet_pton_ipv6 (Some t)
       = Ok (with_credentials u None None (url_path u)).
Proof.
  intros H. pose proof H as H'. apply parse_inv in H as (p & -> & Hwf & Hl).
  unfold rtsp_url_strip_credentials. rewrite H'. cbn [mbind res_bind].
  set (q := ParsedUrl (pu_scheme p) None None (pu_host p) (pu_port p) (pu_port_explicit p)
              (pu_path p)).
  change (with_credentials (url_of_parsed p) None None (url_path (url_of_parsed p)))
    with (url_of_parsed q).
  assert (wf_parsed q = true) as Hq.
  { unfold wf_parsed in *. cbn. rewrite !andb_true_iff in *. by intuition auto. }
  exists (text_of_url q). split; [by apply to_str_parsed|]. apply parse_text; [done|].
  unfold text_of_url in *. subst q.
  cbn [pu_scheme pu_username pu_password pu_host pu_port pu_port_explicit pu_path text_of_userinfo].
  rewrite !Zlen_app in *. change (Zlen []) with 0.
  pose proof (Zlen_nonneg (text_of_userinfo (pu_username p) (pu_password p))). lia.
Qed.

(** C30: [rtsp_url_anonymize] succeeds on every URL that parses (its allocation
    error for over-long fields cannot occur), and its result parses to the same
    URL with the user and password starred out and the path keeping only its
    first two and last two characters.  The rest stays as it is; in particular the
    host is not masked, where the comment of [rtsp_url.h] says that it is. *)
Theorem rtsp_url_anonymize_spec s u :
  rtsp_url_parse inet_pton_ipv4 inet_pton_ipv6 (Some s) = Ok u →
  ∃ t, rtsp_url_anonymize inet_pton_ipv4 inet_pton_ipv6 (Some s) = Ok t ∧
       rtsp_url_parse inet_pton_ipv4 inet_pton_ipv6 (Some t)
       = Ok (with_credentials u (stars <$> url_user u) (stars <$> url_pass u)
               (mask_path <$> url_path u)).
Proof.
  intros H. pose proof H as H'. apply parse_inv in H as (p & -> & Hwf & Hl).
  set (q := ParsedUrl (pu_scheme p) (stars <$> pu_username p) (stars <$> pu_password p)
              (pu_host p) (pu_port p) (pu_port_explicit p) (mask_path <$> pu_path p)).
  assert (wf_parsed q = true) as Hq.
  { unfold wf_parsed in *. cbn. rewrite !andb_true_iff in *.
    destruct Hwf as [[[[[[[H1 H2] H3] H4] H5] H6] H7] H8]. split_and!; try done.
    - destruct (pu_username p) as [us|]; simpl; [by apply wf_user_stars|].
      bool_to_prop. by destruct (pu_password p).
    - destruct (pu_password p) as [pw|]; [|done]. by apply all_replicate.
    - destruct (pu_path p) as [pa|]; [|done]. by apply wf_path_mask. }
  assert (Zlen (text_of_url q) = Zlen (text_of_url p)) as Hlen.
  { unfold text_of_url, q. cbn [pu_scheme pu_username pu_password pu_host pu_port
      pu_port_explicit pu_path]. rewrite !Zlen_app.
    assert (∀ s, Zlen (stars s) = Zlen s) as Hst
      by (intros; unfold Zlen, stars; by rewrite length_replicate).
    assert (∀ s, Zlen (mask_path s) = Zlen s) as Hmp
      by (intros; unfold Zlen; by rewrite length_mask_path).
    destruct (pu_username p), (pu_password p), (pu_path p); cbn [fmap option_fmap option_map
      text_of_userinfo text_of_path]; by rewrite ?Zlen_app, ?Hst, ?Hmp. }
  exists (text_of_url q). split; [|by apply parse_text; [|lia]].
  assert (∀ s, (pu_username p = Some s ∨ pu_password p = Some s ∨ pu_path p = Some s) →
    Zlen s < PATH_MAX) as Hf.
  { intros x Hx. apply Z.le_lt_trans with (Zlen (text_of_url p)); [|lia].
    destruct (wf_parsed_elim p Hwf) as (_ & Hu & _).
    unfold text_of_url, wf_userinfo in *. rewrite !Zlen_app.
    destruct (pu_username p) as [us|], (pu_password p) as [pw|], (pu_path p) as [pa|];
      try (by bool_to_prop); destruct Hx as [Hx|[Hx|Hx]]; try done; injection Hx as <-;
      cbn [text_of_userinfo text_of_path]; rewrite ?Zlen_app; unfold Zlen; lia. }
  unfold rtsp_url_anonymize. rewrite H'. cbn [mbind res_bind].
  cbn [url_of_parsed url_user url_pass url_path].
  assert (anonymize_field (pu_username p) false = Ok (stars <$> pu_username p)) as ->.
  { destruct (pu_username p); [|done]. simpl. rewrite anonymize_str_stars; auto. }
  assert (anonymize_field (pu_password p) false = Ok (stars <$> pu_password p)) as ->.
  { destruct (pu_password p); [|done]. simpl. rewrite anonymize_str_stars; auto. }
  assert (anonymize_field (pu_path p) true = Ok (mask_path <$> pu_path p)) as ->.
  { destruct (pu_path p); [|done]. simpl. rewrite anonymize_str_path; auto. }
  cbn [mbind res_bind]. by apply (to_str_parsed q).
Qed.
End theorems.

Lemma nullsafe_strcmp_eq_true s1 s2 : nullsafe_strcmp_eq s1 s2 = true ↔ s1 = s2.
Proof.
  destruct s1 as [a|], s2 as [b|]; simpl; try done.
  rewrite streq_true. split; congruence.
Qed.

(** [rtsp_url_cmp] decides equality of two URLs field by field, and
    [rtsp_url_copy] of a URL compares equal to its source. *)
Theorem rtsp_url_cmp_spec (url1 url2 : option rtsp_url) :
  (rtsp_url_cmp url1 url2 = true ↔ url1 = url2) ∧
  match url1 with
  | Some u => ∃ d, rtsp_url_copy url1 = Ok d ∧ rtsp_url_cmp (Some d) (Some u) = true
  | None => rtsp_url_copy url1 = Err EINVAL
  end.
Proof.
  assert (∀ a b : rtsp_url, rtsp_url_cmp (Some a) (Some b) = true ↔ a = b) as Hc.
  { intros a b. unfold rtsp_url_cmp.
    rewrite !andb_true_iff, bool_decide_eq_true, !nullsafe_strcmp_eq_true,
      Z.eqb_eq, Bool.eqb_true_iff.
    destruct a, b; simpl. split; [by intros [[[[[[[-> ->] ->] ->] ->] ->] ->] ->]|].
    by intros [= -> -> -> -> -> -> -> ->]. }
  split.
  - destruct url1 as [a|], url2 as [b|]; try done.
    rewrite Hc. split; congruence.
  - destruct url1 as [u|]; [|done]. exists u. split; [by destruct u|]. by apply Hc.
Qed.

Definition no_inet (s : cstr) : bool := false.
Definition sample_url : cstr := cs "rtsp://user:pass@[2001:db8::1]:08554/live/stream//".
Definition sample_parsed : rtsp_url :=
  RtspUrl RTSP_URL_SCHEME_TCP (Some (cs "user")) (Some (cs "pass"))
    (Some (cs "2001:db8::1")) None 8554 true (Some (cs "live/stream")).

Lemma rtsp_url_parse_print_parse_witness :
  rtsp_url_parse no_inet no_inet (Some sample_url) = Ok sample_parsed ∧
  ∃ t, rtsp_url_to_str (Some sample_parsed) = Ok t ∧ Zlen t <= Zlen sample_url ∧
       rtsp_url_parse no_inet no_inet (Some t) = Ok sample_parsed.
Proof.
  split; [vm_compute; reflexivity|].
  apply (rtsp_url_parse_print_parse no_inet no_inet sample_url). vm_compute. reflexivity.
Defined.

Lemma rtsp_url_strip_credentials_witness :
  rtsp_url_parse no_inet no_inet (Some sample_url) = Ok sample_parsed ∧
  ∃ t, rtsp_url_strip_credentials no_inet no_inet (Some sample_url) = Ok t ∧
       rtsp_url_parse no_inet no_inet (Some t)
       = Ok (with_credentials sample_parsed None None (url_path sample_parsed)).
Proof.
  split; [vm_compute; reflexivity|].
  apply (rtsp_url_strip_credentials_spec no_inet no_inet sample_url). vm_compute. reflexivity.
Defined.

Lemma rtsp_url_anonymize_witness :
  rtsp_url_parse no_inet no_inet (Some sample_url) = Ok sample_parsed ∧
  ∃ t, rtsp_url_anonymize no_inet no_inet (Some sample_url) = Ok t ∧
       rtsp_url_parse no_inet no_inet (Some t)
       = Ok (with_credentials sample_parsed (stars <$> url_user sample_parsed)
               (stars <$> url_pass sample_parsed) (mask_path <$> url_path sample_parsed)).
Proof.
  split; [vm_compute; reflexivity|].
  apply (rtsp_url_anonymize_spec no_inet no_inet sample_url). vm_compute. reflexivity.
Defined.
