(* ===== verification/Methods.v ===== *)
(** * Enumerations, status codes and method sets ([rtsp.c])

    The string tables of the enumerations, the mapping between RTSP status
    codes and error numbers, and the comma-separated method lists of the
    [Allow] and [Public] headers. *)

From S2P Require Import Prelude CString CNumber Writer.
From stdpp Require Import options.

Local Open Scope Z_scope.

(** ** Enumerations

    A C [enum] variable can hold values with no enumerator; the functions below
    that have a default case for those take the integer. *)

Inductive rtsp_method_type :=
| RTSP_METHOD_TYPE_UNKNOWN
| RTSP_METHOD_TYPE_OPTIONS
| RTSP_METHOD_TYPE_DESCRIBE
| RTSP_METHOD_TYPE_ANNOUNCE
| RTSP_METHOD_TYPE_SETUP
| RTSP_METHOD_TYPE_PLAY
| RTSP_METHOD_TYPE_PAUSE
| RTSP_METHOD_TYPE_TEARDOWN
| RTSP_METHOD_TYPE_GET_PARAMETER
| RTSP_METHOD_TYPE_SET_PARAMETER
| RTSP_METHOD_TYPE_REDIRECT
| RTSP_METHOD_TYPE_RECORD.

#[export] Instance rtsp_method_type_eq_dec : EqDecision rtsp_method_type.
Proof. solve_decision. Defined.

Inductive rtsp_lower_transport :=
| RTSP_LOWER_TRANSPORT_UDP | RTSP_LOWER_TRANSPORT_TCP | RTSP_LOWER_TRANSPORT_MUX.
#[export] Instance rtsp_lower_transport_eq_dec : EqDecision rtsp_lower_transport.
Proof. solve_decision. Defined.

Inductive rtsp_delivery := RTSP_DELIVERY_MULTICAST | RTSP_DELIVERY_UNICAST.
#[export] Instance rtsp_delivery_eq_dec : EqDecision rtsp_delivery.
Proof. solve_decision. Defined.

Inductive rtsp_transport_method :=
| RTSP_TRANSPORT_METHOD_UNKNOWN | RTSP_TRANSPORT_METHOD_PLAY | RTSP_TRANSPORT_METHOD_RECORD.
#[export] Instance rtsp_transport_method_eq_dec : EqDecision rtsp_transport_method.
Proof. solve_decision. Defined.

Inductive rtsp_time_format :=
| RTSP_TIME_FORMAT_UNKNOWN | RTSP_TIME_FORMAT_NPT | RTSP_TIME_FORMAT_SMPTE
| RTSP_TIME_FORMAT_ABSOLUTE.
#[export] Instance rtsp_time_format_eq_dec : EqDecision rtsp_time_format.
Proof. solve_decision. Defined.

Inductive rtsp_client_conn_state :=
| RTSP_CLIENT_CONN_STATE_DISCONNECTED | RTSP_CLIENT_CONN_STATE_CONNECTING
| RTSP_CLIENT_CONN_STATE_CONNECTED | RTSP_CLIENT_CONN_STATE_DISCONNECTING.
#[export] Instance rtsp_client_conn_state_eq_dec : EqDecision rtsp_client_conn_state.
Proof. solve_decision. Defined.

Inductive rtsp_client_req_status :=
| RTSP_CLIENT_REQ_STATUS_OK | RTSP_CLIENT_REQ_STATUS_CANCELED
| RTSP_CLIENT_REQ_STATUS_FAILED | RTSP_CLIENT_REQ_STATUS_ABORTED
| RTSP_CLIENT_REQ_STATUS_TIMEOUT.
#[export] Instance rtsp_client_req_status_eq_dec : EqDecision rtsp_client_req_status.
Proof. solve_decision. Defined.

Definition rtsp_lower_transport_str (val : rtsp_lower_transport) : cstr :=
  match val with
  | RTSP_LOWER_TRANSPORT_UDP => cs "UDP"
  | RTSP_LOWER_TRANSPORT_TCP => cs "TCP"
  | RTSP_LOWER_TRANSPORT_MUX => cs "MUX"
  end.

Definition rtsp_delivery_str (val : rtsp_delivery) : cstr :=
  match val with
  | RTSP_DELIVERY_MULTICAST => cs "MULTICAST"
  | RTSP_DELIVERY_UNICAST => cs "UNICAST"
  end.

Definition rtsp_time_format_str (val : rtsp_time_format) : cstr :=
  match val with
  | RTSP_TIME_FORMAT_UNKNOWN => cs "UNKNOWN"
  | RTSP_TIME_FORMAT_NPT => cs "NPT"
  | RTSP_TIME_FORMAT_SMPTE => cs "SMPTE"
  | RTSP_TIME_FORMAT_ABSOLUTE => cs "ABSOLUTE"
  end.

Definition rtsp_client_conn_state_str (val : rtsp_client_conn_state) : cstr :=
  match val with
  | RTSP_CLIENT_CONN_STATE_DISCONNECTED => cs "DISCONNECTED"
  | RTSP_CLIENT_CONN_STATE_CONNECTING => cs "CONNECTING"
  | RTSP_CLIENT_CONN_STATE_CONNECTED => cs "CONNECTED"
  | RTSP_CLIENT_CONN_STATE_DISCONNECTING => cs "DISCONNECTING"
  end.

Definition rtsp_client_req_status_str (val : rtsp_client_req_status) : cstr :=
  match val with
  | RTSP_CLIENT_REQ_STATUS_OK => cs "OK"
  | RTSP_CLIENT_REQ_STATUS_CANCELED => cs "CANCELED"
  | RTSP_CLIENT_REQ_STATUS_FAILED => cs "FAILED"
  | RTSP_CLIENT_REQ_STATUS_ABORTED => cs "ABORTED"
  | RTSP_CLIENT_REQ_STATUS_TIMEOUT => cs "TIMEOUT"
  end.

Definition rtsp_method_type_str (val : rtsp_method_type) : cstr :=
  match val with
  | RTSP_METHOD_TYPE_OPTIONS => cs "OPTIONS"
  | RTSP_METHOD_TYPE_DESCRIBE => cs "DESCRIBE"
  | RTSP_METHOD_TYPE_ANNOUNCE => cs "ANNOUNCE"
  | RTSP_METHOD_TYPE_SETUP => cs "SETUP"
  | RTSP_METHOD_TYPE_PLAY => cs "PLAY"
  | RTSP_METHOD_TYPE_PAUSE => cs "PAUSE"
  | RTSP_METHOD_TYPE_TEARDOWN => cs "TEARDOWN"
  | RTSP_METHOD_TYPE_GET_PARAMETER => cs "GET_PARAMETER"
  | RTSP_METHOD_TYPE_SET_PARAMETER => cs "SET_PARAMETER"
  | RTSP_METHOD_TYPE_REDIRECT => cs "REDIRECT"
  | RTSP_METHOD_TYPE_RECORD => cs "RECORD"
  | RTSP_METHOD_TYPE_UNKNOWN => cs "UNKNOWN"
  end.

(** The comparisons of [rtsp_method_type_enum], in their order. *)
Definition method_types : list rtsp_method_type :=
  [ RTSP_METHOD_TYPE_OPTIONS; RTSP_METHOD_TYPE_DESCRIBE; RTSP_METHOD_TYPE_ANNOUNCE;
    RTSP_METHOD_TYPE_SETUP; RTSP_METHOD_TYPE_PLAY; RTSP_METHOD_TYPE_PAUSE;
    RTSP_METHOD_TYPE_TEARDOWN; RTSP_METHOD_TYPE_GET_PARAMETER;
    RTSP_METHOD_TYPE_SET_PARAMETER; RTSP_METHOD_TYPE_REDIRECT; RTSP_METHOD_TYPE_RECORD ].

Fixpoint find_method (l : list rtsp_method_type) (val : cstr) : rtsp_method_type :=
  match l with
  | [] => RTSP_METHOD_TYPE_UNKNOWN
  | m :: l' => if streq val (rtsp_method_type_str m) then m else find_method l' val
  end.

Definition rtsp_method_type_enum (val : option cstr) : rtsp_method_type :=
  match val with
  | None => RTSP_METHOD_TYPE_UNKNOWN
  | Some val => find_method method_types val
  end.

(** ** Status codes *)

Definition status_table : list (Z * cstr) :=
  [ (100, cs "Continue");
    (200, cs "OK");
    (201, cs "Created");
    (250, cs "Low On Storage Space");
    (300, cs "Multiple Choices");
    (301, cs "Moved Permanently");
    (302, cs "Moved Temporarily");
    (303, cs "See Other");
    (304, cs "Not Modified");
    (305, cs "Use Proxy");
    (400, cs "Bad Request");
    (401, cs "Unauthorized");
    (402, cs "Payment Required");
    (403, cs "Forbidden");
    (404, cs "Not Found");
    (405, cs "Method Not Allowed");
    (406, cs "Not Acceptable");
    (407, cs "Proxy Authentication Required");
    (408, cs "Request Time-out");
    (410, cs "Gone");
    (411, cs "Length Required");
    (412, cs "Precondition Failed");
    (413, cs "Request Entity Too Large");
    (414, cs "Request-URI Too Large");
    (415, cs "Unsupported Media Type");
    (451, cs "Parameter Not Understood");
    (452, cs "Conference Not Found");
    (453, cs "Not Enough Bandwidth");
    (454, cs "Session Not Found");
    (455, cs "Method Not Valid In This State");
    (456, cs "Header Field Not Valid For Resource");
    (457, cs "Invalid Range");
    (458, cs "Parameter Is Read-Only");
    (459, cs "Aggregate Operation Not Allowed");
    (460, cs "Only Aggregate Operation Allowed");
    (461, cs "Unsupported Transport");
    (462, cs "Destination Unreachable");
    (500, cs "Internal Server Error");
    (501, cs "Not Implemented");
    (502, cs "Bad Gateway");
    (503, cs "Service Unavailable");
    (504, cs "Gateway Time-out");
    (505, cs "RTSP Version Not Supported");
    (551, cs "Option Not Supported") ].

Fixpoint find_status (l : list (Z * cstr)) (status : Z) : option (Z * cstr) :=
  match l with
  | [] => None
  | (c, s) :: l' => if status =? c then Some (c, s) else find_status l' status
  end.

(** [*code] and [*str] of [rtsp_status_get] with non-NULL pointers. *)
Definition rtsp_status_get (status : Z) : Z * cstr :=
  match find_status status_table status with
  | Some e => e
  | None =>
      if status =? 0 then (200, cs "OK")
      else if status =? - EPROTO then (400, cs "Bad Request")
      else if status =? - EPERM then (401, cs "Unauthorized")
      else if status =? - EACCES then (403, cs "Forbidden")
      else if status =? - ENOENT then (404, cs "Not Found")
      else if status =? - ETIMEDOUT then (408, cs "Request Time-out")
      else if status =? - ENOSYS then (501, cs "Not Implemented")
      else if (status =? - EBUSY) || (status =? - EAGAIN) then (503, cs "Service Unavailable")
      else if status =? - EPROTONOSUPPORT then (461, cs "Unsupported Transport")
      else (500, cs "Internal Server Error")
  end.

Definition rtsp_status_str (status : Z) : cstr := snd (rtsp_status_get status).

(** The returned [int], 0 or a negative error number. *)
Definition rtsp_status_to_errno (status : Z) : Z :=
  if status <? 0 then status
  else if status =? 200 then 0
  else if status =? 400 then - EPROTO
  else if status =? 401 then - EPERM
  else if status =? 403 then - EACCES
  else if status =? 404 then - ENOENT
  else if status =? 408 then - ETIMEDOUT
  else if status =? 501 then - ENOSYS
  else if status =? 503 then - EBUSY
  else if status =? 461 then - EPROTONOSUPPORT
  else - EPROTO.

(** ** Method sets *)

Definition RTSP_METHOD_FLAG_OPTIONS : Z := 0x1.
Definition RTSP_METHOD_FLAG_DESCRIBE : Z := 0x2.
Definition RTSP_METHOD_FLAG_ANNOUNCE : Z := 0x4.
Definition RTSP_METHOD_FLAG_SETUP : Z := 0x8.
Definition RTSP_METHOD_FLAG_PLAY : Z := 0x10.
Definition RTSP_METHOD_FLAG_PAUSE : Z := 0x20.
Definition RTSP_METHOD_FLAG_TEARDOWN : Z := 0x40.
Definition RTSP_METHOD_FLAG_GET_PARAMETER : Z := 0x80.
Definition RTSP_METHOD_FLAG_SET_PARAMETER : Z := 0x100.
Definition RTSP_METHOD_FLAG_REDIRECT : Z := 0x200.
Definition RTSP_METHOD_FLAG_RECORD : Z := 0x400.

(** The flags and names, in the order both functions go through them. *)
Definition method_flags : list (Z * cstr) :=
  [ (RTSP_METHOD_FLAG_OPTIONS, cs "OPTIONS");
    (RTSP_METHOD_FLAG_DESCRIBE, cs "DESCRIBE");
    (RTSP_METHOD_FLAG_ANNOUNCE, cs "ANNOUNCE");
    (RTSP_METHOD_FLAG_SETUP, cs "SETUP");
    (RTSP_METHOD_FLAG_PLAY, cs "PLAY");
    (RTSP_METHOD_FLAG_PAUSE, cs "PAUSE");
    (RTSP_METHOD_FLAG_TEARDOWN, cs "TEARDOWN");
    (RTSP_METHOD_FLAG_GET_PARAMETER, cs "GET_PARAMETER");
    (RTSP_METHOD_FLAG_SET_PARAMETER, cs "SET_PARAMETER");
    (RTSP_METHOD_FLAG_REDIRECT, cs "REDIRECT");
    (RTSP_METHOD_FLAG_RECORD, cs "RECORD") ].

Definition has_flag (methods flag : Z) : bool := negb (Z.land methods flag =? 0).

(** The sequence of [if (methods & FLAG) { write; first = 0; }]. *)
Fixpoint write_flags (l : list (Z * cstr)) (methods : Z) (first : bool) : writer unit :=
  match l with
  | [] => wskip
  | (flag, name) :: l' =>
      if has_flag methods flag then
        rtsp_sprintf ((if first then [] else cs ",") ++ name);;
        write_flags l' methods false
      else write_flags l' methods first
  end.

Definition rtsp_methods_write (methods : Z) : writer unit :=
  wreturn_err_if (methods =? 0) EINVAL;;
  write_flags method_flags methods true.

Fixpoint flag_of_name (l : list (Z * cstr)) (method : cstr) : Z :=
  match l with
  | [] => 0
  | (flag, name) :: l' => if streq method name then flag else flag_of_name l' method
  end.

Definition skip_spaces (s : cstr) : cstr := dropp (Ascii.eqb " ") s.

Definition rtsp_methods_read (str : option cstr) : res Z :=
  match str with
  | None => Err EINVAL
  | Some str =>
      Ok (fold_left (fun acc m => Z.lor acc (flag_of_name method_flags (skip_spaces m)))
            (tokens (cs ",") str) 0)
  end.

Definition rtsp_allow_header_write (methods : Z) : writer unit :=
  wreturn_err_if (methods =? 0) EINVAL;;
  rtsp_sprintf (cs "Allow" ++ cs ": ");;
  rtsp_methods_write methods;;
  rtsp_sprintf [CR; LF].

Definition rtsp_allow_header_read (str : option cstr) : res Z := rtsp_methods_read str.

Definition rtsp_public_header_write (methods : Z) : writer unit :=
  wreturn_err_if (methods =? 0) EINVAL;;
  rtsp_sprintf (cs "Public" ++ cs ": ");;
  rtsp_methods_write methods;;
  rtsp_sprintf [CR; LF].

Definition rtsp_public_header_read (str : option cstr) : res Z := rtsp_methods_read str.

(** ** Enumerations: lemmas and theorems *)

(** [rtsp_method_type_enum] is the inverse of [rtsp_method_type_str]: a
    string names the method [m] exactly when it is the string of [m]; every
    other string, and NULL, is [RTSP_METHOD_TYPE_UNKNOWN]. *)
Theorem rtsp_method_type_enum_spec (val : option cstr) :
  let m := rtsp_method_type_enum val in
  (m ≠ RTSP_METHOD_TYPE_UNKNOWN ∧ val = Some (rtsp_method_type_str m)) ∨
  (m = RTSP_METHOD_TYPE_UNKNOWN ∧
   ∀ m', m' ≠ RTSP_METHOD_TYPE_UNKNOWN → val ≠ Some (rtsp_method_type_str m')).
Proof.
  destruct val as [s|]; [|right; done]. cbn [rtsp_method_type_enum]. cbv zeta.
  destruct (decide (find_method method_types s = RTSP_METHOD_TYPE_UNKNOWN)) as [Hu|Hu].
  - right. split; [done|]. intros m Hm [= ->]. revert Hu Hm. by destruct m.
  - left. split; [done|]. f_equal. revert Hu. induction method_types as [|m l IH]; [done|].
    cbn [find_method]. destruct (streq s (rtsp_method_type_str m)) eqn:E; [|done].
    intros _. by apply streq_true in E.
Qed.

(** ** Status codes: theorems *)

Lemma find_status_spec l status e :
  find_status l status = Some e → e ∈ l ∧ fst e = status.
Proof.
  induction l as [|[c s] l IH]; [done|]. cbn [find_status].
  destruct (status =? c) eqn:E; bool_to_prop.
  - intros [= <-]. split; [left|done].
  - intros H. destruct (IH H). split; [by right|done].
Qed.

Lemma find_status_table e : e ∈ status_table → find_status status_table (fst e) = Some e.
Proof.
  revert e. refine (proj1 (list.Forall_forall _ _) _). by_decide.
Qed.

Lemma rtsp_status_get_in_table status : rtsp_status_get status ∈ status_table.
Proof.
  unfold rtsp_status_get. destruct (find_status status_table status) as [e|] eqn:E.
  { by apply find_status_spec in E as [? _]. }
  repeat match goal with |- context [if ?b then _ else _] => destruct b end;
    by_decide.
Qed.

(** The error numbers [rtsp_status_get] has a case for, and the one each
    comes back as on the other side. *)
Definition mapped_errnos : list (Z * Z) :=
  [ (0, 0); (- EPROTO, - EPROTO); (- EPERM, - EPERM); (- EACCES, - EACCES);
    (- ENOENT, - ENOENT); (- ETIMEDOUT, - ETIMEDOUT); (- ENOSYS, - ENOSYS);
    (- EBUSY, - EBUSY); (- EAGAIN, - EBUSY); (- EPROTONOSUPPORT, - EPROTONOSUPPORT) ].

(** Every status a server handler returns becomes a status code of the
    table with that code's reason phrase; a code of the table is left unchanged;
    and the error numbers with a case of their own reach the client as the same
    error number (-EAGAIN as -EBUSY), any other failure as -EPROTO. *)
Theorem rtsp_status_errno_spec (status : Z) :
  let '(c, str) := rtsp_status_get status in
  (c, str) ∈ status_table ∧ rtsp_status_get c = (c, str) ∧
  (c = status ∨ status ∉ fst <$> status_table) ∧
  (∀ e, (status, e) ∈ mapped_errnos → rtsp_status_to_errno c = e) ∧
  (status ∉ fst <$> mapped_errnos → status ∉ fst <$> status_table →
   c = 500 ∧ rtsp_status_to_errno c = - EPROTO).
Proof.
  pose proof (rtsp_status_get_in_table status) as Hin.
  destruct (rtsp_status_get status) as [c str] eqn:E. split_and!; [done| | | |].
  - unfold rtsp_status_get. apply find_status_table in Hin. cbn [fst] in Hin. by rewrite Hin.
  - unfold rtsp_status_get in E. destruct (find_status status_table status) as [e|] eqn:Ef.
    + apply find_status_spec in Ef as [_ <-]. left. by subst.
    + right. intros (e & -> & He)%list_elem_of_fmap. by rewrite (find_status_table _ He) in Ef.
  - intros e He.
    assert (Forall (fun p => rtsp_status_to_errno (fst (rtsp_status_get (fst p))) = snd p)
              mapped_errnos) as HF by (by_decide).
    rewrite list.Forall_forall in HF. apply HF in He. simpl in He. by rewrite E in He.
  - intros Hm Ht. unfold rtsp_status_get in E.
    destruct (find_status status_table status) as [e|] eqn:Ef.
    { destruct Ht. apply find_status_spec in Ef as [? <-]. by apply list_elem_of_fmap_2. }
    repeat match type of E with context [if ?b then _ else _] =>
      destruct b eqn:?; [exfalso; apply Hm; bool_to_prop; subst;
        try match goal with H : (_ || _)%bool = true |- _ =>
          apply orb_true_iff in H as [H|H]; bool_to_prop; subst end;
        by_decide|] end.
    injection E as <- <-. done.
Qed.

(** ** Method sets: lemmas and theorems *)

Definition method_names (l : list (Z * cstr)) (methods : Z) : list cstr :=
  snd <$> filter (fun e => has_flag methods (fst e) = true) l.

Definition text_of_methods (methods : Z) : cstr :=
  join (cs ",") (method_names method_flags methods).

Lemma write_flags_rest l methods :
  emits (write_flags l methods false)
    (concat (map (fun n => cs "," ++ n) (method_names l methods))) tt.
Proof.
  induction l as [|[flag name] l IH]; [apply emits_ret|].
  unfold method_names in *. cbn [write_flags]. rewrite filter_cons. cbn [fst].
  destruct (has_flag methods flag); [|by rewrite decide_False].
  rewrite decide_True by done. cbn [fmap list_fmap map concat snd].
  apply emits_seq; [apply emits_sprintf|done].
Qed.

Lemma write_flags_emits l methods :
  emits (write_flags l methods true) (join (cs ",") (method_names l methods)) tt.
Proof.
  induction l as [|[flag name] l IH]; [apply emits_ret|].
  unfold method_names in *. cbn [write_flags]. rewrite filter_cons. cbn [fst].
  destruct (has_flag methods flag); [|by rewrite decide_False].
  rewrite decide_True by done. cbn [fmap list_fmap]. rewrite join_concat.
  apply emits_seq; [apply emits_sprintf|apply write_flags_rest].
Qed.

Lemma land_pow2 m k : 0 <= k → Z.land m (2 ^ k) = if Z.testbit m k then 2 ^ k else 0.
Proof.
  intros Hk. apply Z.bits_inj'. intros i Hi. rewrite Z.land_spec, Z.pow2_bits_eqb by done.
  destruct (Z.eqb_spec k i) as [<-|]; [|rewrite andb_false_r; destruct (Z.testbit m k);
    [rewrite Z.pow2_bits_eqb by done; by destruct (Z.eqb_spec k i)|by rewrite Z.bits_0]].
  rewrite andb_true_r. destruct (Z.testbit m k) eqn:E; [|by rewrite Z.bits_0].
  rewrite Z.pow2_bits_eqb by done. by rewrite Z.eqb_refl.
Qed.

(** The union of the flags of [l]. *)
Definition flags_mask (l : list (Z * cstr)) : Z := fold_right (fun e m => Z.lor (fst e) m) 0 l.

Lemma fold_flags_land l methods acc :
  Forall (fun e => fst e = 2 ^ Z.log2 (fst e) ∧
            flag_of_name method_flags (skip_spaces (snd e)) = fst e) l →
  fold_left (fun acc m => Z.lor acc (flag_of_name method_flags (skip_spaces m)))
    (method_names l methods) acc
  = Z.lor acc (Z.land methods (flags_mask l)).
Proof.
  intros Hl. revert acc. unfold method_names.
  induction Hl as [|[flag name] l [Hp Hn] Hl IH]; intros acc.
  { cbn [flags_mask fold_right]. by rewrite Z.land_0_r, Z.lor_0_r. }
  cbn [flags_mask fold_right]. fold (flags_mask l). cbn [fst snd] in *.
  rewrite filter_cons. cbn [fst]. rewrite Z.land_lor_distr_r, Z.lor_assoc.
  assert (has_flag methods flag = Z.testbit methods (Z.log2 flag) ∧
          Z.land methods flag = if Z.testbit methods (Z.log2 flag) then flag else 0) as [Hf Hv].
  { unfold has_flag. rewrite Hp at 1 3. rewrite land_pow2 by apply Z.log2_nonneg.
    rewrite <- Hp. destruct (Z.testbit methods (Z.log2 flag)) eqn:E; [|done].
    split; [|done]. apply negb_true_iff, Z.eqb_neq. rewrite Hp.
    pose proof (Z.pow_pos_nonneg 2 (Z.log2 flag)). pose proof (Z.log2_nonneg flag). lia. }
  rewrite Hv, Hf. destruct (Z.testbit methods (Z.log2 flag)).
  - rewrite decide_True by done. cbn [fmap list_fmap fold_left snd]. by rewrite Hn, IH.
  - rewrite decide_False by done. by rewrite Z.lor_0_r, IH.
Qed.

Lemma method_flags_ok :
  Forall (fun e => fst e = 2 ^ Z.log2 (fst e) ∧
            flag_of_name method_flags (skip_spaces (snd e)) = fst e) method_flags.
Proof. by_decide. Qed.

Lemma method_names_wf methods :
  Forall (λ t, t ≠ [] ∧ all (noneof (cs ",")) t) (method_names method_flags methods).
Proof.
  unfold method_names. apply Forall_fmap. rewrite list.Forall_forall.
  intros e [_ He]%list_elem_of_filter. revert e He. refine (proj1 (list.Forall_forall _ _) _).
  unfold compose. by_decide.
Qed.

Lemma rtsp_methods_read_text methods :
  rtsp_methods_read (Some (text_of_methods methods)) = Ok (Z.land methods 0x7FF).
Proof.
  unfold rtsp_methods_read, text_of_methods.
  change (cs ",") with [","%char] at 2.
  rewrite tokens_join by (done || apply method_names_wf).
  by rewrite (fold_flags_land _ methods 0 method_flags_ok), Z.lor_0_l.
Qed.

Lemma rtsp_methods_write_emits methods :
  methods ≠ 0 → emits (rtsp_methods_write methods) (text_of_methods methods) tt.
Proof.
  intros H. unfold rtsp_methods_write. rewrite <- (app_nil_l (text_of_methods _)).
  apply emits_seq; [apply emits_check; by apply Z.eqb_neq|apply write_flags_emits].
Qed.

#[export] Hint Resolve rtsp_methods_write_emits : writer.

(** The text the [Allow] ([name] = "Allow") and [Public] headers have. *)
Definition text_of_methods_header (name : cstr) (methods : Z) : cstr :=
  name ++ cs ": " ++ text_of_methods methods ++ [CR; LF].

Lemma methods_header_emits name methods :
  methods ≠ 0 →
  emits (wreturn_err_if (methods =? 0) EINVAL;; rtsp_sprintf (name ++ cs ": ");;
         rtsp_methods_write methods;; rtsp_sprintf [CR; LF])
    (text_of_methods_header name methods) tt.
Proof.
  intros H. apply Z.eqb_neq in H as Hb. unfold text_of_methods_header.
  emits_text.
Qed.

(** For a non-empty set of methods the [Allow] and [Public] writers emit
    the header line listing the set's known methods, and reading that list back
    gives the set restricted to the eleven known methods; the empty set is
    rejected with -EINVAL. *)
Theorem rtsp_methods_header_roundtrip (methods : Z) :
  rtsp_allow_header_read (Some (text_of_methods methods)) = Ok (Z.land methods 0x7FF) ∧
  rtsp_public_header_read (Some (text_of_methods methods)) = Ok (Z.land methods 0x7FF) ∧
  (if methods =? 0 then
     ∀ s, rtsp_allow_header_write methods s = (Err EINVAL, s) ∧
          rtsp_public_header_write methods s = (Err EINVAL, s)
   else
     emits (rtsp_allow_header_write methods) (text_of_methods_header (cs "Allow") methods) tt ∧
     emits (rtsp_public_header_write methods) (text_of_methods_header (cs "Public") methods) tt).
Proof.
  split_and!; [apply rtsp_methods_read_text..|].
  destruct (Z.eqb_spec methods 0) as [->|H]; [by intros s|].
  split; by apply methods_header_emits.
Qed.
