(* ===== verification/SessionHeader.v ===== *)
(** * The Session header ([rtsp_session_header_*] of [rtsp.c]) *)

From S2P Require Import Prelude CString CNumber Writer.
From stdpp Require Import options.

Local Open Scope Z_scope.

(** The timeout is an [unsigned int] printed with ["%d"]. *)
Definition rtsp_session_header_write (session_id : option cstr) (session_timeout : Z)
    : writer unit :=
  match session_id with
  | None | Some [] => werr EINVAL
  | Some id =>
      rtsp_sprintf (cs "Session: " ++ id);;
      wwhen (0 <? session_timeout)
        (rtsp_sprintf (cs ";timeout=" ++ fmt_d (s32 session_timeout)));;
      rtsp_sprintf [CR; LF]
  end.

(** The session id and the timeout, 0 without one. *)
Definition rtsp_session_header_read (str : option cstr) : res (cstr * Z) :=
  match str with
  | None => Err EINVAL
  | Some str =>
      let '(id, timeout_str) := match strchr ";" str with
                                | Some (id, t) => (id, Some t)
                                | None => (str, None)
                                end in
      let session_timeout :=
        match timeout_str with
        | None => 0
        | Some t =>
            if starts_with (cs "timeout") t then
              match strchr "=" t with Some (_, v) => u32 (atoi v) | None => 0 end
            else 0
        end in
      Ok (id, session_timeout)
  end.

(** The value of the header. *)
Definition text_of_session (id : cstr) (timeout : Z) : cstr :=
  id ++ (if 0 <? timeout then cs ";timeout=" ++ fmt_d (s32 timeout) else []).

Definition text_of_session_header (id : cstr) (timeout : Z) : cstr :=
  cs "Session: " ++ text_of_session id timeout ++ [CR; LF].

Lemma rtsp_session_header_write_emits id timeout :
  id ≠ [] →
  emits (rtsp_session_header_write (Some id) timeout) (text_of_session_header id timeout) tt.
Proof.
  intros Hid. destruct id as [|c id]; [done|].
  unfold text_of_session_header, text_of_session. cbn [rtsp_session_header_write].
  emits_text.
Qed.

Lemma rtsp_session_header_read_text id timeout :
  all (isnot ";") id → 0 <= timeout <= UINT_MAX →
  rtsp_session_header_read (Some (text_of_session id timeout)) = Ok (id, timeout).
Proof.
  intros Hid Ht. unfold text_of_session. cbn [rtsp_session_header_read].
  destruct (0 <? timeout) eqn:E; bool_to_prop.
  - change (cs ";timeout=" ++ fmt_d (s32 timeout))
      with (";"%char :: cs "timeout" ++ "="%char :: fmt_d (s32 timeout)).
    rewrite strchr_app, starts_with_app, strchr_app by done.
    do 2 f_equal. rewrite <- (app_nil_r (fmt_d _)). by apply atoi_fmt_d_unsigned.
  - rewrite app_nil_r. apply strchr_None in Hid. rewrite Hid. do 2 f_equal. lia.
Qed.

(** A session id without [;] and any timeout of an [unsigned int] (even
    above [INT_MAX], printed as a negative number) written to a Session header
    are read back; an absent or empty id is refused with -EINVAL. *)
Theorem rtsp_session_header_roundtrip (session_id : option cstr) (timeout : Z) :
  0 <= timeout <= UINT_MAX →
  match session_id with
  | None | Some [] =>
      ∀ s, rtsp_session_header_write session_id timeout s = (Err EINVAL, s)
  | Some id =>
      emits (rtsp_session_header_write session_id timeout)
        (text_of_session_header id timeout) tt ∧
      (all (isnot ";") id →
       rtsp_session_header_read (Some (text_of_session id timeout)) = Ok (id, timeout))
  end.
Proof.
  intros Ht. destruct session_id as [[|c id]|]; [done| |done].
  split; [by apply rtsp_session_header_write_emits|].
  intros Hid. by apply rtsp_session_header_read_text.
Qed.

Lemma rtsp_session_header_roundtrip_witness :
  0 <= 4294967295 <= UINT_MAX ∧
  emits (rtsp_session_header_write (Some (cs "A1b2")) 4294967295)
    (cs "Session: A1b2;timeout=-1" ++ [CR; LF]) tt ∧
  (all (isnot ";") (cs "A1b2") →
   rtsp_session_header_read (Some (cs "A1b2;timeout=-1")) = Ok (cs "A1b2", 4294967295)).
Proof.
  assert (0 <= 4294967295 <= UINT_MAX) as H by (unfold UINT_MAX; lia).
  split; [exact H|].
  exact (rtsp_session_header_roundtrip (Some (cs "A1b2")) 4294967295 H).
Defined.

#[export] Hint Resolve rtsp_session_header_write_emits : writer.
