(* ===== verification/RtpInfo.v ===== *)
(** * The RTP-Info header ([rtsp_rtp_info_header_*] of [rtsp.c])

    The out-array and [*count] are the list of the entries read; the [int]
    returned comes with it, because the entries read before an error are
    stored.  The [int] flags [seq_valid] and [rtptime_valid] are booleans. *)

From S2P Require Import Prelude CString CNumber Writer.
From stdpp Require Import options.

Local Open Scope Z_scope.

Definition RTSP_RTP_INFO_MAX_COUNT : Z := 10.

Record rtsp_rtp_info_header := RtpInfo {
  ri_url : option cstr;
  ri_seq_valid : bool;
  ri_seq : Z;
  ri_rtptime_valid : bool;
  ri_rtptime : Z
}.

#[export] Instance rtsp_rtp_info_header_eq_dec : EqDecision rtsp_rtp_info_header.
Proof. solve_decision. Defined.

Definition rtsp_rtp_info_header_new : rtsp_rtp_info_header := RtpInfo None false 0 false 0.

Definition rtsp_rtp_info_header_copy (src : option rtsp_rtp_info_header)
    : res rtsp_rtp_info_header :=
  match src with
  | None => Err EINVAL
  | Some s => Ok (RtpInfo (ri_url s) (ri_seq_valid s) (ri_seq s) (ri_rtptime_valid s)
                    (ri_rtptime s))
  end.

(** The body of the writing loop for one entry; [more] is [i != count - 1]. *)
Definition rtp_info_write_one (rtpi : option rtsp_rtp_info_header) (more : bool)
    : writer unit :=
  match rtpi with
  | None => wskip
  | Some r =>
      match ri_url r with
      | None | Some [] => wskip
      | Some url =>
          rtsp_sprintf (cs "url=" ++ url);;
          wwhen (ri_seq_valid r) (rtsp_sprintf (cs ";seq=" ++ fmt_d (ri_seq r)));;
          wwhen (ri_rtptime_valid r) (rtsp_sprintf (cs ";rtptime=" ++ fmt_u (ri_rtptime r)));;
          wwhen more (rtsp_sprintf (cs ","))
      end
  end.

Definition nonempty {A} (l : list A) : bool := match l with [] => false | _ => true end.

Fixpoint rtp_info_write_loop (l : list (option rtsp_rtp_info_header)) : writer unit :=
  match l with
  | [] => wskip
  | r :: l' => rtp_info_write_one r (nonempty l');; rtp_info_write_loop l'
  end.

(** [rtp_info] is the array of [count] pointers. *)
Definition rtsp_rtp_info_header_write (rtp_info : list (option rtsp_rtp_info_header))
    : writer unit :=
  wreturn_err_if (Zlen rtp_info =? 0) EINVAL;;
  rtsp_sprintf (cs "RTP-Info: ");;
  rtp_info_write_loop rtp_info;;
  rtsp_sprintf [CR; LF].

(** The loop on the parameters after the URL; [inr ret] is [goto exit] with
    [ret] (0 or a negative error number). *)
Fixpoint rtp_info_params (params : list cstr) (rtpi : rtsp_rtp_info_header)
    : rtsp_rtp_info_header + Z :=
  match params with
  | [] => inl rtpi
  | param :: params' =>
      match split_key_val param with
      | None => inr (- EINVAL)
      | Some (key, val) =>
          let rtpi :=
            match val with
            | Some v =>
                if streq key (cs "seq")
                then RtpInfo (ri_url rtpi) true (u16 (atoi v)) (ri_rtptime_valid rtpi)
                       (ri_rtptime rtpi)
                else rtpi
            | None => rtpi
            end in
          match val with
          | Some v =>
              if streq key (cs "rtptime") then
                let '(parsed, endptr, errno) := strtoul 10 v in
                if streq v [] || negb (streq endptr []) || negb (errno =? 0)
                then inr (- errno)
                else rtp_info_params params'
                       (RtpInfo (ri_url rtpi) (ri_seq_valid rtpi) (ri_seq rtpi) true
                          (u32 parsed))
              else rtp_info_params params' rtpi
          | None => rtp_info_params params' rtpi
          end
      end
  end.

(** One entry of the list, from its [;]-separated parameters. *)
Definition rtp_info_entry (param : cstr) (params : list cstr) : rtsp_rtp_info_header + Z :=
  match split_key_val param with
  | Some (key, Some val) =>
      if streq key (cs "url")
      then rtp_info_params params (RtpInfo (Some val) false 0 false 0)
      else inr (- EPROTO)
  | _ => inr (- EPROTO)
  end.

(** The loop on the [,]-separated entries. *)
Fixpoint rtp_info_read_loop (entries : list cstr) (max_count : Z)
    (acc : list rtsp_rtp_info_header) : list rtsp_rtp_info_header * Z :=
  match entries with
  | [] => (acc, 0)
  | e :: entries' =>
      if Zlen acc <? max_count then
        match tokens (cs ";") e with
        | [] => rtp_info_read_loop entries' max_count acc
        | param :: params =>
            match rtp_info_entry param params with
            | inl rtpi => rtp_info_read_loop entries' max_count (acc ++ [rtpi])
            | inr ret => (acc, ret)
            end
        end
      else (acc, 0)
  end.

(** [Ok (l, ret)]: [*count] is the length of [l] and [ret] is returned; [Err e]:
    [-e] is returned before [*count] is set. *)
Definition rtsp_rtp_info_header_read (str : option cstr) (max_count : Z)
    : res (list rtsp_rtp_info_header * Z) :=
  match str with
  | None => Err EINVAL
  | Some str =>
      if max_count =? 0 then Err EINVAL
      else Ok (rtp_info_read_loop (tokens (cs ",") str) max_count [])
  end.

(** ** Round trip *)

Definition wf_rtp_info (r : rtsp_rtp_info_header) : bool :=
  match ri_url r with
  | Some url => negb (streq url []) && forallb (noneof (cs ",;")) url
  | None => false
  end
  && (0 <=? ri_seq r) && (ri_seq r <=? UINT16_MAX)
  && (0 <=? ri_rtptime r) && (ri_rtptime r <=? UINT_MAX).

(** What the header carries: a field that is not valid is read back as 0. *)
Definition rtp_info_on_wire (r : rtsp_rtp_info_header) : rtsp_rtp_info_header :=
  RtpInfo (ri_url r) (ri_seq_valid r) (if ri_seq_valid r then ri_seq r else 0)
    (ri_rtptime_valid r) (if ri_rtptime_valid r then ri_rtptime r else 0).

Definition rtp_info_fields (r : rtsp_rtp_info_header) : list cstr :=
  (if ri_seq_valid r then [cs "seq=" ++ fmt_d (ri_seq r)] else [])
  ++ (if ri_rtptime_valid r then [cs "rtptime=" ++ fmt_u (ri_rtptime r)] else []).

Definition text_of_rtp_info (r : rtsp_rtp_info_header) : cstr :=
  join (cs ";") ((cs "url=" ++ default [] (ri_url r)) :: rtp_info_fields r).

Definition text_of_rtp_infos (l : list rtsp_rtp_info_header) : cstr :=
  join (cs ",") (text_of_rtp_info <$> l).

Lemma wf_rtp_info_elim r :
  wf_rtp_info r = true →
  (∃ url, ri_url r = Some url ∧ url ≠ [] ∧ all (noneof (cs ",;")) url) ∧
  0 <= ri_seq r <= UINT16_MAX ∧ 0 <= ri_rtptime r <= UINT_MAX.
Proof.
  unfold wf_rtp_info. intros H. bool_to_prop. destruct (ri_url r) as [url|]; [|done].
  bool_to_prop. split_and!; try done. exists url. split_and!; [done| |done].
  by apply streq_false.
Qed.

Lemma rtp_info_write_one_emits r more :
  wf_rtp_info r = true →
  emits (rtp_info_write_one (Some r) more)
    (text_of_rtp_info r ++ (if more then cs "," else [])) tt.
Proof.
  intros Hwf. destruct (wf_rtp_info_elim r Hwf) as ((url & Hu & Hne & _) & _).
  unfold rtp_info_write_one, text_of_rtp_info, rtp_info_fields. rewrite Hu.
  destruct url as [|c url]; [done|]. cbn [default from_option].
  eapply emits_eq; [emits_tac|].
  unfold id. destruct (ri_seq_valid r), (ri_rtptime_valid r); cbn [app]; rewrite ?join_cons by done;
    cbn [join]; change (cs ";seq=") with (cs ";" ++ cs "seq=");
    change (cs ";rtptime=") with (cs ";" ++ cs "rtptime="); text_eq.
Qed.

Lemma rtp_info_write_loop_emits l :
  Forall (fun r => wf_rtp_info r = true) l →
  emits (rtp_info_write_loop (Some <$> l)) (text_of_rtp_infos l) tt.
Proof.
  induction 1 as [|r l Hr Hl IH]; [apply emits_ret|].
  cbn [fmap list_fmap rtp_info_write_loop].
  eapply emits_eq; [apply emits_seq; [by apply rtp_info_write_one_emits|exact IH]|].
  unfold text_of_rtp_infos. destruct l as [|r' l]; [by rewrite !app_nil_r|].
  rewrite !fmap_cons. cbn [nonempty]. rewrite (join_cons _ (text_of_rtp_info r)) by done. text_eq.
Qed.

Lemma text_of_rtp_info_wf r :
  wf_rtp_info r = true →
  text_of_rtp_info r ≠ [] ∧ all (noneof (cs ",")) (text_of_rtp_info r) ∧
  tokens (cs ";") (text_of_rtp_info r)
  = (cs "url=" ++ default [] (ri_url r)) :: rtp_info_fields r.
Proof.
  intros Hwf. destruct (wf_rtp_info_elim r Hwf) as ((url & Hu & Hne & Hc) & Hs & Ht).
  assert (Forall (λ t, t ≠ [] ∧ all (noneof (cs ";")) t ∧ all (noneof (cs ",")) t)
            ((cs "url=" ++ default [] (ri_url r)) :: rtp_info_fields r)) as HF.
  { rewrite Hu. constructor.
    - split_and!; [done|apply all_app; split; [done|]..]; by eapply all_impl_dec, Hc.
    - unfold rtp_info_fields. apply Forall_app. split.
      + destruct (ri_seq_valid r); repeat constructor; [done|apply all_app; split; [done|]..];
          by apply fmt_d_chars.
      + destruct (ri_rtptime_valid r); repeat constructor; [done|apply all_app; split; [done|]..];
          (apply fmt_u_chars; [done|lia]). }
  unfold text_of_rtp_info. split_and!.
  - rewrite join_concat. done.
  - apply all_join; [done|]. eapply Forall_impl; [exact HF|]. by intros ? (_ & _ & ?).
  - apply (tokens_join (cs ";") ";"); [done|]. eapply Forall_impl; [exact HF|]. by intros ? (?&?&_).
Qed.

Lemma rtp_info_entry_fields r :
  wf_rtp_info r = true →
  rtp_info_entry (cs "url=" ++ default [] (ri_url r)) (rtp_info_fields r)
  = inl (rtp_info_on_wire r).
Proof.
  intros Hwf. destruct (wf_rtp_info_elim r Hwf) as ((url & Hu & Hne & _) & Hs & Ht).
  unfold rtp_info_entry. rewrite Hu. change (cs "url=") with (cs "url" ++ cs "=").
  rewrite <- app_assoc, split_key_val_eq by done. eval_streq.
  unfold rtp_info_fields, rtp_info_on_wire. rewrite Hu. unfold UINT16_MAX in Hs.
  assert (split_key_val (cs "seq=" ++ fmt_d (ri_seq r)) = Some (cs "seq", Some (fmt_d (ri_seq r)))) as Es.
  { change (cs "seq=") with (cs "seq" ++ cs "="). rewrite <- app_assoc.
    apply split_key_val_eq; [done..|]. unfold fmt_d.
    destruct (ri_seq r <? 0) eqn:E; [done|]. apply fmt_u_not_nil. lia. }
  assert (split_key_val (cs "rtptime=" ++ fmt_u (ri_rtptime r))
          = Some (cs "rtptime", Some (fmt_u (ri_rtptime r)))) as Et.
  { change (cs "rtptime=") with (cs "rtptime" ++ cs "="). rewrite <- app_assoc.
    apply split_key_val_eq; [done..|]. apply fmt_u_not_nil. lia. }
  assert (u16 (atoi (fmt_d (ri_seq r))) = ri_seq r) as Vs.
  { rewrite <- (app_nil_r (fmt_d _)), atoi_fmt_s32 by (done || simpl; lia).
    apply wrapu_small. simpl. lia. }
  assert (strtoul 10 (fmt_u (ri_rtptime r)) = (ri_rtptime r, [], 0)) as Vt.
  { rewrite <- (app_nil_r (fmt_u _)) at 1. unfold UINT_MAX in Ht.
    apply strtoul_fmt_u; [unfold ULONG_MAX; lia|done]. }
  assert (u32 (ri_rtptime r) = ri_rtptime r) as Wt
    by (apply wrapu_small; unfold UINT_MAX in Ht; simpl; lia).
  assert (streq (fmt_u (ri_rtptime r)) [] = false) as Nt
    by (apply streq_false, fmt_u_not_nil; lia).
  destruct (ri_seq_valid r), (ri_rtptime_valid r); cbn [app rtp_info_params];
    repeat (rewrite ?Es, ?Et, ?Vs, ?Vt, ?Wt, ?Nt; eval_streq; cbn [rtp_info_params
      ri_url ri_seq_valid ri_seq ri_rtptime_valid ri_rtptime orb negb Z.eqb]); done.
Qed.

Lemma rtp_info_read_loop_text l n acc :
  Forall (fun r => wf_rtp_info r = true) l →
  rtp_info_read_loop (text_of_rtp_info <$> l) n acc
  = (acc ++ (rtp_info_on_wire <$> take (Z.to_nat (n - Zlen acc)) l), 0).
Proof.
  intros Hl. revert acc. induction Hl as [|r l Hr Hl IH]; intros acc.
  { cbn. by rewrite take_nil, app_nil_r. }
  rewrite fmap_cons. cbn [rtp_info_read_loop].
  destruct (Zlen acc <? n) eqn:E; bool_to_prop.
  - destruct (text_of_rtp_info_wf r Hr) as (_ & _ & ->).
    rewrite rtp_info_entry_fields by done. rewrite IH, Zlen_app, Zlen_cons, Zlen_nil.
    replace (Z.to_nat (n - Zlen acc)) with (S (Z.to_nat (n - (Zlen acc + (1 + 0))))) by lia.
    cbn [take]. by rewrite fmap_cons, <- app_assoc.
  - replace (Z.to_nat (n - Zlen acc)) with 0%nat by lia. by rewrite app_nil_r.
Qed.

(** The text of the header line. *)
Definition text_of_rtp_info_header (l : list rtsp_rtp_info_header) : cstr :=
  cs "RTP-Info: " ++ text_of_rtp_infos l ++ [CR; LF].

Lemma rtsp_rtp_info_header_write_emits l :
  l ≠ [] → Forall (fun r => wf_rtp_info r = true) l →
  emits (rtsp_rtp_info_header_write (Some <$> l)) (text_of_rtp_info_header l) tt.
Proof.
  intros Hne Hl. unfold rtsp_rtp_info_header_write, text_of_rtp_info_header.
  assert ((Zlen (Some <$> l) =? 0) = false) as Hn.
  { apply Z.eqb_neq. destruct l; [done|]. unfold Zlen. cbn. lia. }
  pose proof (rtp_info_write_loop_emits l Hl). emits_text.
Qed.

Lemma rtsp_rtp_info_header_read_text l n :
  0 < n → Forall (fun r => wf_rtp_info r = true) l →
  rtsp_rtp_info_header_read (Some (text_of_rtp_infos l)) n
  = Ok (rtp_info_on_wire <$> take (Z.to_nat n) l, 0).
Proof.
  intros Hn Hl. unfold rtsp_rtp_info_header_read, text_of_rtp_infos.
  destruct (n =? 0) eqn:E; bool_to_prop; [lia|].
  change (cs ",") with [","%char] at 2.
  rewrite tokens_join; [|done|].
  - rewrite rtp_info_read_loop_text by done. rewrite Zlen_nil. by rewrite Z.sub_0_r.
  - apply Forall_fmap. eapply Forall_impl; [exact Hl|]. intros r Hr.
    destruct (text_of_rtp_info_wf r Hr) as (? & ? & _). done.
Qed.

(** A list of RTP-Info entries with URLs free of [,] and [;] is written as
    one header line; reading its value with room for [n] entries gives the first
    [n] of them, each field that was marked valid with its value. *)
Theorem rtsp_rtp_info_header_roundtrip l n :
  l ≠ [] → 0 < n → Forall (fun r => wf_rtp_info r = true) l →
  emits (rtsp_rtp_info_header_write (Some <$> l)) (text_of_rtp_info_header l) tt ∧
  rtsp_rtp_info_header_read (Some (text_of_rtp_infos l)) n
  = Ok (rtp_info_on_wire <$> take (Z.to_nat n) l, 0).
Proof.
  intros. split; [by apply rtsp_rtp_info_header_write_emits
                 |by apply rtsp_rtp_info_header_read_text].
Qed.

Definition sample_rtp_infos : list rtsp_rtp_info_header :=
  [ RtpInfo (Some (cs "rtsp://h/a=1")) true 65535 true 4294967295;
    RtpInfo (Some (cs "rtsp://h/b")) false 0 true 12 ].

Lemma rtsp_rtp_info_header_roundtrip_witness :
  (sample_rtp_infos ≠ [] ∧ 0 < 2 ∧ Forall (fun r => wf_rtp_info r = true) sample_rtp_infos) ∧
  emits (rtsp_rtp_info_header_write (Some <$> sample_rtp_infos))
    (text_of_rtp_info_header sample_rtp_infos) tt ∧
  rtsp_rtp_info_header_read (Some (text_of_rtp_infos sample_rtp_infos)) 2
  = Ok (rtp_info_on_wire <$> take (Z.to_nat 2) sample_rtp_infos, 0).
Proof.
  assert (Forall (fun r => wf_rtp_info r = true) sample_rtp_infos) as H
    by (repeat constructor; vm_compute; reflexivity).
  split; [split; [discriminate|split; [reflexivity|exact H]]|].
  apply (rtsp_rtp_info_header_roundtrip sample_rtp_infos 2); [discriminate|reflexivity|exact H].
Defined.

(** An [rtptime] that is not a number ends the parsing of the header with
    the entry dropped but with a return value of 0, because [errno], which
    [strtoul] leaves at 0 for such a text, is used as the error. *)
Theorem rtp_info_bad_rtptime_accepted :
  rtsp_rtp_info_header_read (Some (cs "url=rtsp://h/a;seq=1;rtptime=12x,url=rtsp://h/b")) 10
  = Ok ([], 0).
Proof. vm_compute. reflexivity. Qed.

#[export] Hint Resolve rtsp_rtp_info_header_write_emits : writer.
