(* ===== verification/Transport.v ===== *)
(** * The Transport header ([rtsp_transport_header_*] of [rtsp.c])

    The array of interleaved channel pairs and [interleaved_count] are one
    list: no code reads the array past the count.  As for RTP-Info, the reader
    yields the list it stores and the [int] it returns. *)

From S2P Require Import Prelude CString CNumber Writer Methods RtpInfo.
From stdpp Require Import options.

Local Open Scope Z_scope.

Definition RTSP_TRANSPORT_MAX_COUNT : Z := 5.
Definition RTSP_MAX_INTERLEAVED_MEDIA : Z := 10.

Record rtsp_channel_pair := ChannelPair { ch_rtp : Z; ch_rtcp : Z }.
#[export] Instance rtsp_channel_pair_eq_dec : EqDecision rtsp_channel_pair.
Proof. solve_decision. Defined.

Record rtsp_transport_header := Transport {
  tr_transport_protocol : option cstr;
  tr_transport_profile : option cstr;
  tr_lower_transport : rtsp_lower_transport;
  tr_interleaved : list rtsp_channel_pair;
  tr_delivery : rtsp_delivery;
  tr_destination : option cstr;
  tr_source : option cstr;
  tr_layers : Z;
  tr_method : rtsp_transport_method;
  tr_append : bool;
  tr_ttl : Z;
  tr_src_stream_port : Z;
  tr_src_control_port : Z;
  tr_dst_stream_port : Z;
  tr_dst_control_port : Z;
  tr_ssrc_valid : bool;
  tr_ssrc : Z
}.

#[export] Instance rtsp_transport_header_eq_dec : EqDecision rtsp_transport_header.
Proof. solve_decision. Defined.

(** [calloc]: every field zero. *)
Definition rtsp_transport_header_new : rtsp_transport_header :=
  Transport None None RTSP_LOWER_TRANSPORT_UDP [] RTSP_DELIVERY_MULTICAST None None 0
    RTSP_TRANSPORT_METHOD_UNKNOWN false 0 0 0 0 0 false 0.

Definition rtsp_transport_header_copy (src : option rtsp_transport_header)
    : res rtsp_transport_header :=
  match src with
  | None => Err EINVAL
  | Some s =>
      Ok (Transport (tr_transport_protocol s) (tr_transport_profile s) (tr_lower_transport s)
            (tr_interleaved s) (tr_delivery s) (tr_destination s) (tr_source s) (tr_layers s)
            (tr_method s) (tr_append s) (tr_ttl s) (tr_src_stream_port s)
            (tr_src_control_port s) (tr_dst_stream_port s) (tr_dst_control_port s)
            (tr_ssrc_valid s) (tr_ssrc s))
  end.

(** ** Writer *)

(** The control port written for a pair: [uint16_t] arithmetic. *)
Definition control_port_of (stream control : Z) : Z :=
  if control =? 0 then u16 (stream + 1) else control.

Definition write_ports (name : cstr) (stream control : Z) : writer unit :=
  wwhen (negb (stream =? 0))
    (rtsp_sprintf (cs ";" ++ name ++ cs "=" ++ fmt_u stream ++ cs "-"
                   ++ fmt_u (control_port_of stream control))).

(** The loop on the channel pairs; [first] is [j == 0]. *)
Fixpoint write_pairs (l : list rtsp_channel_pair) (first : bool) : writer unit :=
  match l with
  | [] => wskip
  | p :: l' =>
      wwhen (negb first) (rtsp_sprintf (cs ","));;
      rtsp_sprintf (fmt_u (ch_rtp p) ++ cs "-" ++ fmt_u (ch_rtcp p));;
      write_pairs l' false
  end.

Definition is_unicast (t : rtsp_transport_header) : bool :=
  bool_decide (tr_delivery t = RTSP_DELIVERY_UNICAST).
Definition is_tcp (t : rtsp_transport_header) : bool :=
  bool_decide (tr_lower_transport t = RTSP_LOWER_TRANSPORT_TCP).
Definition has_method (t : rtsp_transport_header) : bool :=
  negb (bool_decide (tr_method t = RTSP_TRANSPORT_METHOD_UNKNOWN)).

Definition write_opt (prefix : cstr) (o : option cstr) : writer unit :=
  match o with Some s => rtsp_sprintf (prefix ++ s) | None => wskip end.

(** The parameters after the first [rtsp_sprintf] of the loop body. *)
Definition transport_write_params (t : rtsp_transport_header) : writer unit :=
  write_opt (cs ";destination=") (tr_destination t);;
  write_opt (cs ";source=") (tr_source t);;
  wwhen (tr_append t) (rtsp_sprintf (cs ";append"));;
  wwhen (negb (tr_ttl t =? 0)) (rtsp_sprintf (cs ";ttl=" ++ fmt_d (s32 (tr_ttl t))));;
  wwhen (negb (tr_layers t =? 0)) (rtsp_sprintf (cs ";layers=" ++ fmt_d (s32 (tr_layers t))));;
  (if is_unicast t then
     write_ports (cs "client_port") (tr_dst_stream_port t) (tr_dst_control_port t);;
     write_ports (cs "server_port") (tr_src_stream_port t) (tr_src_control_port t)
   else write_ports (cs "port") (tr_dst_stream_port t) (tr_dst_control_port t));;
  wwhen (is_tcp t && nonempty (tr_interleaved t))
    (rtsp_sprintf (cs ";interleaved=");; write_pairs (tr_interleaved t) true);;
  wwhen (tr_ssrc_valid t) (rtsp_sprintf (cs ";ssrc=" ++ fmt_08X (tr_ssrc t)));;
  wwhen (has_method t)
    (rtsp_sprintf (cs ";mode=" ++ (if bool_decide (tr_method t = RTSP_TRANSPORT_METHOD_RECORD)
                                   then cs "RECORD" else cs "PLAY"))).

(** The loop body; [more] is [i != count - 1]. *)
Definition transport_write_one (trsp : option rtsp_transport_header) (more : bool)
    : writer unit :=
  match trsp with
  | None => wskip
  | Some t =>
      match tr_transport_protocol t, tr_transport_profile t with
      | None, _ | Some [], _ | _, None | _, Some [] => wskip
      | Some protocol, Some profile =>
          rtsp_sprintf (protocol ++ cs "/" ++ profile ++ cs "/"
                        ++ rtsp_lower_transport_str (tr_lower_transport t) ++ cs ";"
                        ++ (if is_unicast t then cs "unicast" else cs "multicast"));;
          transport_write_params t;;
          wwhen more (rtsp_sprintf (cs ","))
      end
  end.

Fixpoint transport_write_loop (l : list (option rtsp_transport_header)) : writer unit :=
  match l with
  | [] => wskip
  | t :: l' => transport_write_one t (nonempty l');; transport_write_loop l'
  end.

Definition rtsp_transport_header_write (transport : list (option rtsp_transport_header))
    : writer unit :=
  wreturn_err_if (Zlen transport =? 0) EINVAL;;
  rtsp_sprintf (cs "Transport: ");;
  transport_write_loop transport;;
  rtsp_sprintf [CR; LF].

(** ** Reader *)

(** Field updates. *)
Definition set_delivery (d : rtsp_delivery) (t : rtsp_transport_header) :=
  Transport (tr_transport_protocol t) (tr_transport_profile t) (tr_lower_transport t)
    (tr_interleaved t) d (tr_destination t) (tr_source t) (tr_layers t) (tr_method t)
    (tr_append t) (tr_ttl t) (tr_src_stream_port t) (tr_src_control_port t)
    (tr_dst_stream_port t) (tr_dst_control_port t) (tr_ssrc_valid t) (tr_ssrc t).
Definition set_destination (d : cstr) (t : rtsp_transport_header) :=
  Transport (tr_transport_protocol t) (tr_transport_profile t) (tr_lower_transport t)
    (tr_interleaved t) (tr_delivery t) (Some d) (tr_source t) (tr_layers t) (tr_method t)
    (tr_append t) (tr_ttl t) (tr_src_stream_port t) (tr_src_control_port t)
    (tr_dst_stream_port t) (tr_dst_control_port t) (tr_ssrc_valid t) (tr_ssrc t).
Definition set_source (s : cstr) (t : rtsp_transport_header) :=
  Transport (tr_transport_protocol t) (tr_transport_profile t) (tr_lower_transport t)
    (tr_interleaved t) (tr_delivery t) (tr_destination t) (Some s) (tr_layers t) (tr_method t)
    (tr_append t) (tr_ttl t) (tr_src_stream_port t) (tr_src_control_port t)
    (tr_dst_stream_port t) (tr_dst_control_port t) (tr_ssrc_valid t) (tr_ssrc t).
Definition set_append (t : rtsp_transport_header) :=
  Transport (tr_transport_protocol t) (tr_transport_profile t) (tr_lower_transport t)
    (tr_interleaved t) (tr_delivery t) (tr_destination t) (tr_source t) (tr_layers t)
    (tr_method t) true (tr_ttl t) (tr_src_stream_port t) (tr_src_control_port t)
    (tr_dst_stream_port t) (tr_dst_control_port t) (tr_ssrc_valid t) (tr_ssrc t).
Definition set_ttl (n : Z) (t : rtsp_transport_header) :=
  Transport (tr_transport_protocol t) (tr_transport_profile t) (tr_lower_transport t)
    (tr_interleaved t) (tr_delivery t) (tr_destination t) (tr_source t) (tr_layers t)
    (tr_method t) (tr_append t) n (tr_src_stream_port t) (tr_src_control_port t)
    (tr_dst_stream_port t) (tr_dst_control_port t) (tr_ssrc_valid t) (tr_ssrc t).
Definition set_layers (n : Z) (t : rtsp_transport_header) :=
  Transport (tr_transport_protocol t) (tr_transport_profile t) (tr_lower_transport t)
    (tr_interleaved t) (tr_delivery t) (tr_destination t) (tr_source t) n (tr_method t)
    (tr_append t) (tr_ttl t) (tr_src_stream_port t) (tr_src_control_port t)
    (tr_dst_stream_port t) (tr_dst_control_port t) (tr_ssrc_valid t) (tr_ssrc t).
Definition set_dst_ports (stream control : Z) (t : rtsp_transport_header) :=
  Transport (tr_transport_protocol t) (tr_transport_profile t) (tr_lower_transport t)
    (tr_interleaved t) (tr_delivery t) (tr_destination t) (tr_source t) (tr_layers t)
    (tr_method t) (tr_append t) (tr_ttl t) (tr_src_stream_port t) (tr_src_control_port t)
    stream control (tr_ssrc_valid t) (tr_ssrc t).
Definition set_src_ports (stream control : Z) (t : rtsp_transport_header) :=
  Transport (tr_transport_protocol t) (tr_transport_profile t) (tr_lower_transport t)
    (tr_interleaved t) (tr_delivery t) (tr_destination t) (tr_source t) (tr_layers t)
    (tr_method t) (tr_append t) (tr_ttl t) stream control
    (tr_dst_stream_port t) (tr_dst_control_port t) (tr_ssrc_valid t) (tr_ssrc t).
Definition set_ssrc (n : Z) (t : rtsp_transport_header) :=
  Transport (tr_transport_protocol t) (tr_transport_profile t) (tr_lower_transport t)
    (tr_interleaved t) (tr_delivery t) (tr_destination t) (tr_source t) (tr_layers t)
    (tr_method t) (tr_append t) (tr_ttl t) (tr_src_stream_port t) (tr_src_control_port t)
    (tr_dst_stream_port t) (tr_dst_control_port t) true n.
Definition set_method (m : rtsp_transport_method) (t : rtsp_transport_header) :=
  Transport (tr_transport_protocol t) (tr_transport_profile t) (tr_lower_transport t)
    (tr_interleaved t) (tr_delivery t) (tr_destination t) (tr_source t) (tr_layers t) m
    (tr_append t) (tr_ttl t) (tr_src_stream_port t) (tr_src_control_port t)
    (tr_dst_stream_port t) (tr_dst_control_port t) (tr_ssrc_valid t) (tr_ssrc t).
Definition set_interleaved (l : list rtsp_channel_pair) (t : rtsp_transport_header) :=
  Transport (tr_transport_protocol t) (tr_transport_profile t) (tr_lower_transport t)
    l (tr_delivery t) (tr_destination t) (tr_source t) (tr_layers t) (tr_method t)
    (tr_append t) (tr_ttl t) (tr_src_stream_port t) (tr_src_control_port t)
    (tr_dst_stream_port t) (tr_dst_control_port t) (tr_ssrc_valid t) (tr_ssrc t).

(** [<stream>[-<control>]], the two ports of a pair. *)
Definition read_ports (val : cstr) : Z * Z :=
  let stream := u16 (atoi val) in
  (stream, match strchr "-" val with
           | Some (_, val2) => u16 (atoi val2)
           | None => u16 (stream + 1)
           end).

(** The pairs the [strtok_r] loop stores: it stops at an invalid one, and at
    the eleventh. *)
Fixpoint read_pairs (pairs : list cstr) (int_idx : Z) : list rtsp_channel_pair :=
  match pairs with
  | [] => []
  | p :: pairs' =>
      if RTSP_MAX_INTERLEAVED_MEDIA <=? int_idx then []
      else match scanf_u_u p with
           | None => []
           | Some (rtp, rtcp) =>
               ChannelPair (u8 rtp) (u8 rtcp) :: read_pairs pairs' (int_idx + 1)
           end
  end.

(** With a NULL value, the [strtok_r(val, ",", &temp)] of the [interleaved] key
    reads the uninitialised [temp].  A key whose first pair is invalid leaves
    the pairs as they were. *)
Definition process_interleaved (val : option cstr) (trsp : rtsp_transport_header)
    : res rtsp_transport_header :=
  match val with
  | None => Undef
  | Some v =>
      match read_pairs (tokens (cs ",") v) 0 with
      | [] => Ok trsp
      | l => Ok (set_interleaved l trsp)
      end
  end.

Definition process_transport_key_val (trsp : rtsp_transport_header) (key : cstr)
    (val : option cstr) : res rtsp_transport_header :=
  let with_val f := match val with Some v => f v | None => trsp end in
  if streq key (cs "unicast") then Ok (set_delivery RTSP_DELIVERY_UNICAST trsp)
  else if streq key (cs "multicast") then Ok (set_delivery RTSP_DELIVERY_MULTICAST trsp)
  else if streq key (cs "destination") then Ok (with_val (fun v => set_destination v trsp))
  else if streq key (cs "source") then Ok (with_val (fun v => set_source v trsp))
  else if streq key (cs "append") then Ok (set_append trsp)
  else if streq key (cs "ttl") then Ok (with_val (fun v => set_ttl (u32 (atoi v)) trsp))
  else if streq key (cs "layers") then Ok (with_val (fun v => set_layers (u32 (atoi v)) trsp))
  else if streq key (cs "port") then
    Ok (with_val (fun v => let '(s, c) := read_ports v in set_dst_ports s c trsp))
  else if streq key (cs "client_port") then
    Ok (with_val (fun v => let '(s, c) := read_ports v in set_dst_ports s c trsp))
  else if streq key (cs "server_port") then
    Ok (with_val (fun v => let '(s, c) := read_ports v in set_src_ports s c trsp))
  else if streq key (cs "ssrc") then
    Ok (with_val (fun v => match scanf_08X v with Some n => set_ssrc n trsp | None => trsp end))
  else if streq key (cs "mode") then
    Ok (with_val (fun v =>
      if starts_with_case (cs "PLAY") v then set_method RTSP_TRANSPORT_METHOD_PLAY trsp
      else if starts_with_case (cs "RECORD") v then set_method RTSP_TRANSPORT_METHOD_RECORD trsp
      else trsp))
  else if streq key (cs "interleaved") then process_interleaved val trsp
  else Ok trsp.

Fixpoint transport_params (params : list cstr) (trsp : rtsp_transport_header)
    : res rtsp_transport_header :=
  match params with
  | [] => Ok trsp
  | param :: params' =>
      trsp ← match split_key_val param with
             | None => Ok trsp
             | Some (key, val) => process_transport_key_val trsp key val
             end;
      transport_params params' trsp
  end.

(** [RTP/AVP[/lower]], from its three [strtok_r] calls. *)
Definition transport_spec (param : cstr) : res rtsp_transport_header :=
  match strtok_r (cs "/") param with
  | None => Err EPROTO
  | Some (protocol, rest) =>
      return_err_if (negb (streq protocol (cs "RTP"))) EPROTO;;
      match strtok_r (cs "/") rest with
      | None => Err EPROTO
      | Some (profile, rest') =>
          return_err_if (negb (streq profile (cs "AVP"))) EPROTO;;
          lower ← match strtok_tok (cs "/") rest' with
                  | None => Ok RTSP_LOWER_TRANSPORT_UDP
                  | Some v =>
                      if streq v (cs "UDP") then Ok RTSP_LOWER_TRANSPORT_UDP
                      else if streq v (cs "TCP") then Ok RTSP_LOWER_TRANSPORT_TCP
                      else if streq v (cs "MUX") then Ok RTSP_LOWER_TRANSPORT_MUX
                      else Err EPROTO
                  end;
          Ok (Transport (Some protocol) (Some profile) lower [] RTSP_DELIVERY_MULTICAST
                None None 0 RTSP_TRANSPORT_METHOD_UNKNOWN false 0 0 0 0 0 false 0)
      end
  end.

Definition transport_entry (param : cstr) (params : list cstr) : res rtsp_transport_header :=
  trsp ← transport_spec param; transport_params params trsp.

Fixpoint transport_read_loop (entries : list cstr) (max_count : Z)
    (acc : list rtsp_transport_header) : res (list rtsp_transport_header * Z) :=
  match entries with
  | [] => Ok (acc, 0)
  | e :: entries' =>
      if Zlen acc <? max_count then
        match tokens (cs ";") e with
        | [] => transport_read_loop entries' max_count acc
        | param :: params =>
            match transport_entry param params with
            | Ok trsp => transport_read_loop entries' max_count (acc ++ [trsp])
            | Err e => Ok (acc, - e)
            | Undef => Undef
            end
        end
      else Ok (acc, 0)
  end.

(** [Ok (l, ret)]: [*count] is the length of [l] and [ret] is returned; [Err e]:
    [-e] is returned before [*count] is set. *)
Definition rtsp_transport_header_read (str : option cstr) (max_count : Z)
    : res (list rtsp_transport_header * Z) :=
  match str with
  | None => Err EINVAL
  | Some str =>
      if max_count =? 0 then Err EINVAL
      else transport_read_loop (tokens (cs ",") str) max_count []
  end.

(** ** Parameters as key-value pairs *)

Definition kv_text (kv : cstr * option cstr) : cstr :=
  match snd kv with Some v => fst kv ++ cs "=" ++ v | None => fst kv end.

Definition kvs_text (l : list (cstr * option cstr)) : cstr :=
  concat (map (fun kv => cs ";" ++ kv_text kv) l).

Definition wf_kv (kv : cstr * option cstr) : bool :=
  nonempty (fst kv) && forallb (noneof (cs "=,;")) (fst kv)
  && match snd kv with Some v => nonempty v && forallb (noneof (cs ",;")) v | None => true end.

Lemma nonempty_true {A} (l : list A) : nonempty l = true ↔ l ≠ [].
Proof. by destruct l. Qed.

Lemma kvs_text_app l k : kvs_text (l ++ k) = kvs_text l ++ kvs_text k.
Proof. unfold kvs_text. by rewrite map_app, concat_app. Qed.

Lemma wf_kv_text kv : wf_kv kv = true →
  kv_text kv ≠ [] ∧ all (noneof (cs ";")) (kv_text kv) ∧ all (noneof (cs ",")) (kv_text kv) ∧
  split_key_val (kv_text kv) = Some kv.
Proof.
  destruct kv as [k [v|]]; unfold wf_kv, kv_text; cbn [fst snd];
    rewrite !andb_true_iff, !nonempty_true.
  - intros [[Hk Hc] [Hv Hvc]]. split_and!.
    + intros [? _]%app_nil. done.
    + rewrite !all_app. split_and!; [by eapply all_impl_dec, Hc|done|by eapply all_impl_dec, Hvc].
    + rewrite !all_app. split_and!; [by eapply all_impl_dec, Hc|done|by eapply all_impl_dec, Hvc].
    + apply split_key_val_eq; [done| |done]. by eapply all_impl_dec, Hc.
  - intros [[Hk Hc] _]. split_and!; [done|by eapply all_impl_dec, Hc|by eapply all_impl_dec, Hc|].
    apply split_key_val_alone; [done|]. by eapply all_impl_dec, Hc.
Qed.

(** The reader's loop on pairs already split. *)
Fixpoint process_all (l : list (cstr * option cstr)) (t : rtsp_transport_header)
    : res rtsp_transport_header :=
  match l with
  | [] => Ok t
  | (k, v) :: l' => t ← process_transport_key_val t k v; process_all l' t
  end.

Lemma transport_params_kvs l t :
  Forall (fun kv => wf_kv kv = true) l →
  transport_params (kv_text <$> l) t = process_all l t.
Proof.
  intros Hl. revert t. induction Hl as [|[k v] l Hkv Hl IH]; intros t; [done|].
  rewrite fmap_cons. cbn [transport_params process_all].
  destruct (wf_kv_text _ Hkv) as (_ & _ & _ & ->).
  destruct (process_transport_key_val t k v); cbn [mbind res_bind]; [apply IH|done..].
Qed.

Lemma process_all_app l k t :
  process_all (l ++ k) t = (t ← process_all l t; process_all k t).
Proof.
  revert t. induction l as [|[key v] l IH]; intros t; [done|].
  cbn [app process_all]. destruct (process_transport_key_val t key v); cbn [mbind res_bind];
    [apply IH|done..].
Qed.

(** The parameters of a transport, in the order they are written. *)
Definition kv_opt (k : cstr) (o : option cstr) : list (cstr * option cstr) :=
  match o with Some v => [(k, Some v)] | None => [] end.
Definition kv_when (b : bool) (k v : cstr) : list (cstr * option cstr) :=
  if b then [(k, Some v)] else [].
Definition ports_text (stream control : Z) : cstr :=
  fmt_u stream ++ cs "-" ++ fmt_u (control_port_of stream control).
Definition pair_text (p : rtsp_channel_pair) : cstr :=
  fmt_u (ch_rtp p) ++ cs "-" ++ fmt_u (ch_rtcp p).
Definition mode_text (m : rtsp_transport_method) : cstr :=
  if bool_decide (m = RTSP_TRANSPORT_METHOD_RECORD) then cs "RECORD" else cs "PLAY".

Definition transport_kvs (t : rtsp_transport_header) : list (cstr * option cstr) :=
  kv_opt (cs "destination") (tr_destination t)
  ++ kv_opt (cs "source") (tr_source t)
  ++ (if tr_append t then [(cs "append", None)] else [])
  ++ kv_when (negb (tr_ttl t =? 0)) (cs "ttl") (fmt_d (s32 (tr_ttl t)))
  ++ kv_when (negb (tr_layers t =? 0)) (cs "layers") (fmt_d (s32 (tr_layers t)))
  ++ (if is_unicast t then
        kv_when (negb (tr_dst_stream_port t =? 0)) (cs "client_port")
          (ports_text (tr_dst_stream_port t) (tr_dst_control_port t))
        ++ kv_when (negb (tr_src_stream_port t =? 0)) (cs "server_port")
             (ports_text (tr_src_stream_port t) (tr_src_control_port t))
      else kv_when (negb (tr_dst_stream_port t =? 0)) (cs "port")
             (ports_text (tr_dst_stream_port t) (tr_dst_control_port t)))
  ++ kv_when (is_tcp t && nonempty (tr_interleaved t)) (cs "interleaved")
       (join (cs ",") (pair_text <$> tr_interleaved t))
  ++ kv_when (tr_ssrc_valid t) (cs "ssrc") (fmt_08X (tr_ssrc t))
  ++ kv_when (has_method t) (cs "mode") (mode_text (tr_method t)).

Definition delivery_kv (t : rtsp_transport_header) : cstr * option cstr :=
  (if is_unicast t then cs "unicast" else cs "multicast", None).

Definition transport_spec_text (t : rtsp_transport_header) : cstr :=
  default [] (tr_transport_protocol t) ++ cs "/" ++ default [] (tr_transport_profile t)
  ++ cs "/" ++ rtsp_lower_transport_str (tr_lower_transport t).

Definition text_of_transport (t : rtsp_transport_header) : cstr :=
  transport_spec_text t ++ kvs_text (delivery_kv t :: transport_kvs t).

Definition text_of_transports (l : list rtsp_transport_header) : cstr :=
  join (cs ",") (text_of_transport <$> l).

Definition text_of_transport_header (l : list rtsp_transport_header) : cstr :=
  cs "Transport: " ++ text_of_transports l ++ [CR; LF].

(** *** Writing *)

Lemma emits_kv_when b k v w :
  w = rtsp_sprintf (cs ";" ++ k ++ cs "=" ++ v) →
  emits (wwhen b w) (kvs_text (kv_when b k v)) tt.
Proof.
  intros ->. unfold kv_when. eapply emits_eq; [apply emits_when, emits_sprintf|].
  destruct b; [|done]. unfold kvs_text. cbn [map concat]. by rewrite app_nil_r.
Qed.

Lemma emits_kv_opt k o : emits (write_opt (cs ";" ++ k ++ cs "=") o) (kvs_text (kv_opt k o)) tt.
Proof.
  destruct o as [v|]; [|apply emits_ret]. unfold kvs_text. cbn [kv_opt map concat write_opt].
  eapply emits_eq; [apply emits_sprintf|]. unfold kv_text. cbn [fst snd]. text_eq.
Qed.

Lemma emits_kv_ports k stream control :
  emits (write_ports k stream control)
    (kvs_text (kv_when (negb (stream =? 0)) k (ports_text stream control))) tt.
Proof. by apply emits_kv_when. Qed.

Lemma write_pairs_rest l :
  emits (write_pairs l false) (concat (map (fun n => cs "," ++ n) (pair_text <$> l))) tt.
Proof.
  induction l as [|p l IH]; [apply emits_ret|]. rewrite fmap_cons. cbn [write_pairs map concat].
  eapply emits_eq; [apply emits_seq; [apply emits_when, emits_sprintf|apply emits_seq;
    [apply emits_sprintf|exact IH]]|]. cbn [negb]. unfold pair_text at 2. text_eq.
Qed.

Lemma write_pairs_emits l :
  emits (write_pairs l true) (join (cs ",") (pair_text <$> l)) tt.
Proof.
  destruct l as [|p l]; [apply emits_ret|]. rewrite fmap_cons, join_concat. cbn [write_pairs].
  eapply emits_eq; [apply emits_seq; [apply emits_when, emits_sprintf|apply emits_seq;
    [apply emits_sprintf|apply write_pairs_rest]]|]. done.
Qed.

Lemma transport_write_params_emits t :
  emits (transport_write_params t) (kvs_text (transport_kvs t)) tt.
Proof.
  unfold transport_write_params, transport_kvs. rewrite !kvs_text_app.
  repeat apply emits_seq.
  - apply (emits_kv_opt (cs "destination")).
  - apply (emits_kv_opt (cs "source")).
  - destruct (tr_append t); [apply emits_sprintf|apply emits_ret].
  - by apply (emits_kv_when _ (cs "ttl")).
  - by apply (emits_kv_when _ (cs "layers")).
  - destruct (is_unicast t); [rewrite kvs_text_app; apply emits_seq|]; apply emits_kv_ports.
  - unfold kv_when. destruct (is_tcp t && nonempty (tr_interleaved t)); [|apply emits_ret].
    eapply emits_eq; [apply emits_seq; [apply emits_sprintf|apply write_pairs_emits]|].
    unfold kvs_text. cbn [map concat]. by rewrite app_nil_r.
  - by apply (emits_kv_when _ (cs "ssrc")).
  - by apply (emits_kv_when _ (cs "mode")).
Qed.

Lemma transport_write_one_emits t protocol profile more :
  tr_transport_protocol t = Some protocol → protocol ≠ [] →
  tr_transport_profile t = Some profile → profile ≠ [] →
  emits (transport_write_one (Some t) more)
    (text_of_transport t ++ (if more then cs "," else [])) tt.
Proof.
  intros Hp Hpn Hq Hqn. unfold transport_write_one, text_of_transport, transport_spec_text.
  rewrite Hp, Hq. destruct protocol as [|c p]; [done|]. destruct profile as [|d q]; [done|].
  pose proof (transport_write_params_emits t) as Hw.
  eapply emits_eq; [apply emits_seq; [apply emits_sprintf|apply emits_seq;
    [exact Hw|apply emits_when, emits_sprintf]]|].
  cbn [default from_option]. unfold id, kvs_text. cbn [map concat]. unfold delivery_kv, kv_text.
  cbn [fst snd]. destruct (is_unicast t); text_eq.
Qed.

(** *** Reading *)

Definition wf_pair (p : rtsp_channel_pair) : bool :=
  (0 <=? ch_rtp p) && (ch_rtp p <? 256) && (0 <=? ch_rtcp p) && (ch_rtcp p <? 256).
Definition wf_port (n : Z) : bool := (0 <=? n) && (n <=? UINT16_MAX).
Definition wf_u32 (n : Z) : bool := (0 <=? n) && (n <=? UINT_MAX).
Definition wf_opt_str (o : option cstr) : bool :=
  match o with Some s => nonempty s && forallb (noneof (cs ",;")) s | None => true end.

(** A transport the reader supports: RTP/AVP, strings without [,] and [;],
    fields in the range of their C types, and no more than one channel pair
    when they are written. *)
Definition wf_transport (t : rtsp_transport_header) : bool :=
  bool_decide (tr_transport_protocol t = Some (cs "RTP"))
  && bool_decide (tr_transport_profile t = Some (cs "AVP"))
  && wf_opt_str (tr_destination t) && wf_opt_str (tr_source t)
  && wf_u32 (tr_ttl t) && wf_u32 (tr_layers t)
  && wf_port (tr_dst_stream_port t) && wf_port (tr_dst_control_port t)
  && wf_port (tr_src_stream_port t) && wf_port (tr_src_control_port t)
  && forallb wf_pair (tr_interleaved t) && (negb (is_tcp t) || (Zlen (tr_interleaved t) <=? 1))
  && wf_u32 (tr_ssrc t).

(** What the header carries. *)
Definition port_on_wire (stream control : Z) : Z :=
  if stream =? 0 then 0 else control_port_of stream control.
Definition transport_on_wire (t : rtsp_transport_header) : rtsp_transport_header :=
  Transport (tr_transport_protocol t) (tr_transport_profile t) (tr_lower_transport t)
    (if is_tcp t then tr_interleaved t else []) (tr_delivery t) (tr_destination t) (tr_source t)
    (tr_layers t) (tr_method t) (tr_append t) (tr_ttl t)
    (if is_unicast t then tr_src_stream_port t else 0)
    (if is_unicast t then port_on_wire (tr_src_stream_port t) (tr_src_control_port t) else 0)
    (tr_dst_stream_port t) (port_on_wire (tr_dst_stream_port t) (tr_dst_control_port t))
    (tr_ssrc_valid t) (if tr_ssrc_valid t then tr_ssrc t else 0).

Record transport_ok (t : rtsp_transport_header) : Prop := TransportOk {
  ok_protocol : tr_transport_protocol t = Some (cs "RTP");
  ok_profile : tr_transport_profile t = Some (cs "AVP");
  ok_destination : wf_opt_str (tr_destination t) = true;
  ok_source : wf_opt_str (tr_source t) = true;
  ok_ttl : 0 <= tr_ttl t <= UINT_MAX;
  ok_layers : 0 <= tr_layers t <= UINT_MAX;
  ok_dst_stream : 0 <= tr_dst_stream_port t <= UINT16_MAX;
  ok_dst_control : 0 <= tr_dst_control_port t <= UINT16_MAX;
  ok_src_stream : 0 <= tr_src_stream_port t <= UINT16_MAX;
  ok_src_control : 0 <= tr_src_control_port t <= UINT16_MAX;
  ok_pairs : forallb wf_pair (tr_interleaved t) = true;
  ok_one_pair : is_tcp t = true → Zlen (tr_interleaved t) <= 1;
  ok_ssrc : 0 <= tr_ssrc t <= UINT_MAX
}.

Lemma wf_transport_ok t : wf_transport t = true → transport_ok t.
Proof.
  unfold wf_transport, wf_u32, wf_port. intros H. bool_to_prop. constructor; try done.
  intros Ht. rewrite Ht in *. cbn [negb orb] in *. bool_to_prop. done.
Qed.

Lemma control_port_of_range stream control :
  0 <= control <= UINT16_MAX → 0 <= control_port_of stream control <= UINT16_MAX.
Proof.
  intros Hc. unfold control_port_of. destruct (control =? 0); [|done].
  pose proof (wrapu_range 16 (stream + 1) ltac:(lia)). unfold UINT16_MAX. simpl in *. lia.
Qed.

Lemma read_ports_text stream control :
  0 <= stream <= UINT16_MAX → 0 <= control <= UINT16_MAX →
  read_ports (ports_text stream control) = (stream, control_port_of stream control).
Proof.
  intros Hs Hc. pose proof (control_port_of_range stream control Hc) as Hr.
  unfold UINT16_MAX in *. unfold read_ports, ports_text.
  change (cs "-" ++ ?x) with ("-"%char :: x).
  rewrite strchr_app by (apply fmt_u_chars; done || lia).
  rewrite atoi_fmt_u by (done || unfold INT_MAX; lia).
  rewrite <- (app_nil_r (fmt_u (control_port_of _ _))).
  rewrite atoi_fmt_u by (done || unfold INT_MAX; lia).
  rewrite !wrapu_small by (simpl; lia). done.
Qed.

Lemma ports_text_wf stream control :
  0 <= stream <= UINT16_MAX → 0 <= control <= UINT16_MAX →
  ports_text stream control ≠ [] ∧ all (noneof (cs ",;")) (ports_text stream control).
Proof.
  intros Hs Hc. pose proof (control_port_of_range stream control Hc). unfold ports_text. split.
  - intros [_ ?]%app_nil. done.
  - rewrite !all_app. split_and!; [|done|]; apply fmt_u_chars; done || lia.
Qed.

(** One step of the reader for each kind of parameter; a parameter that is not
    written leaves the zero of the fresh record. *)
Section steps.
Implicit Types t : rtsp_transport_header.

Local Ltac kv_step := cbn [process_all]; unfold process_transport_key_val; eval_streq;
  cbn [mbind res_bind].

Lemma step_destination t o :
  process_all (kv_opt (cs "destination") o) t
  = Ok (match o with Some d => set_destination d t | None => t end).
Proof. destruct o; [|done]. unfold kv_opt. by kv_step. Qed.

Lemma step_source t o :
  process_all (kv_opt (cs "source") o) t
  = Ok (match o with Some d => set_source d t | None => t end).
Proof. destruct o; [|done]. unfold kv_opt. by kv_step. Qed.

Lemma step_append t (b : bool) :
  process_all (if b then [(cs "append", None)] else []) t = Ok (if b then set_append t else t).
Proof. destruct b; [|done]. by kv_step. Qed.

Lemma step_ttl t n :
  0 <= n <= UINT_MAX → tr_ttl t = 0 →
  process_all (kv_when (negb (n =? 0)) (cs "ttl") (fmt_d (s32 n))) t = Ok (set_ttl n t).
Proof.
  intros Hn Ht. unfold kv_when. destruct (n =? 0) eqn:E; bool_to_prop.
  - subst n. destruct t; cbn in *; by subst.
  - cbn [negb]. kv_step. rewrite <- (app_nil_r (fmt_d _)). by rewrite atoi_fmt_d_unsigned.
Qed.

Lemma step_layers t n :
  0 <= n <= UINT_MAX → tr_layers t = 0 →
  process_all (kv_when (negb (n =? 0)) (cs "layers") (fmt_d (s32 n))) t = Ok (set_layers n t).
Proof.
  intros Hn Ht. unfold kv_when. destruct (n =? 0) eqn:E; bool_to_prop.
  - subst n. destruct t; cbn in *; by subst.
  - cbn [negb]. kv_step. rewrite <- (app_nil_r (fmt_d _)). by rewrite atoi_fmt_d_unsigned.
Qed.

Lemma step_dst_ports t k stream control :
  k = cs "port" ∨ k = cs "client_port" →
  0 <= stream <= UINT16_MAX → 0 <= control <= UINT16_MAX →
  tr_dst_stream_port t = 0 → tr_dst_control_port t = 0 →
  process_all (kv_when (negb (stream =? 0)) k (ports_text stream control)) t
  = Ok (set_dst_ports stream (port_on_wire stream control) t).
Proof.
  intros Hk Hs Hc H1 H2. unfold kv_when, port_on_wire. destruct (stream =? 0) eqn:E; bool_to_prop.
  - subst stream. destruct t; cbn in *; by subst.
  - cbn [negb]. destruct Hk as [-> | ->]; kv_step; by rewrite read_ports_text.
Qed.

Lemma step_src_ports t stream control :
  0 <= stream <= UINT16_MAX → 0 <= control <= UINT16_MAX →
  tr_src_stream_port t = 0 → tr_src_control_port t = 0 →
  process_all (kv_when (negb (stream =? 0)) (cs "server_port") (ports_text stream control)) t
  = Ok (set_src_ports stream (port_on_wire stream control) t).
Proof.
  intros Hs Hc H1 H2. unfold kv_when, port_on_wire. destruct (stream =? 0) eqn:E; bool_to_prop.
  - subst stream. destruct t; cbn in *; by subst.
  - cbn [negb]. kv_step. by rewrite read_ports_text.
Qed.

Lemma step_interleaved t (b : bool) l :
  forallb wf_pair l = true → (b = true → Zlen l <= 1) → tr_interleaved t = [] →
  process_all (kv_when (b && nonempty l) (cs "interleaved") (join (cs ",") (pair_text <$> l))) t
  = Ok (set_interleaved (if b then l else []) t).
Proof.
  intros Hl Hb Ht. unfold kv_when.
  destruct b; [|by destruct t; cbn in *; subst]. cbn [andb].
  destruct l as [|p l]; [by destruct t; cbn in *; subst|]. cbn [nonempty].
  destruct l as [|q l]; [|specialize (Hb eq_refl); unfold Zlen in Hb; cbn in Hb; lia].
  cbn [forallb] in Hl. rewrite andb_true_r in Hl. unfold wf_pair in Hl. bool_to_prop.
  kv_step. unfold process_interleaved. cbn [fmap list_fmap join].
  assert (tokens (cs ",") (pair_text p) = [pair_text p]) as ->.
  { apply tokens_last; unfold pair_text.
    - intros [Hn _]%app_nil. revert Hn. apply fmt_u_not_nil. lia.
    - rewrite !all_app. split_and!; [|done|]; apply fmt_u_chars; done || lia. }
  cbn [read_pairs]. change (RTSP_MAX_INTERLEAVED_MEDIA <=? 0) with false. cbn iota.
  unfold pair_text. rewrite <- (app_nil_r (fmt_u (ch_rtcp p))).
  rewrite scanf_u_u_fmt by (done || unfold UINT_MAX; lia).
  rewrite !wrapu_small by (simpl; lia). by destruct p.
Qed.

Lemma step_ssrc t (b : bool) n :
  0 <= n <= UINT_MAX →
  process_all (kv_when b (cs "ssrc") (fmt_08X n)) t = Ok (if b then set_ssrc n t else t).
Proof.
  intros Hn. unfold kv_when. destruct b; [|done]. kv_step. by rewrite scanf_08X_fmt.
Qed.

Lemma step_mode t m :
  tr_method t = RTSP_TRANSPORT_METHOD_UNKNOWN →
  process_all (kv_when (negb (bool_decide (m = RTSP_TRANSPORT_METHOD_UNKNOWN))) (cs "mode")
                 (mode_text m)) t = Ok (set_method m t).
Proof.
  intros Ht. destruct m; [by destruct t; cbn in *; subst|vm_compute; reflexivity..].
Qed.

Lemma step_ports t w :
  transport_ok w → tr_dst_stream_port t = 0 → tr_dst_control_port t = 0 →
  tr_src_stream_port t = 0 → tr_src_control_port t = 0 →
  process_all (if is_unicast w then
      kv_when (negb (tr_dst_stream_port w =? 0)) (cs "client_port")
        (ports_text (tr_dst_stream_port w) (tr_dst_control_port w))
      ++ kv_when (negb (tr_src_stream_port w =? 0)) (cs "server_port")
           (ports_text (tr_src_stream_port w) (tr_src_control_port w))
    else kv_when (negb (tr_dst_stream_port w =? 0)) (cs "port")
           (ports_text (tr_dst_stream_port w) (tr_dst_control_port w))) t
  = Ok (set_src_ports (if is_unicast w then tr_src_stream_port w else 0)
         (if is_unicast w then port_on_wire (tr_src_stream_port w) (tr_src_control_port w)
          else 0)
         (set_dst_ports (tr_dst_stream_port w)
            (port_on_wire (tr_dst_stream_port w) (tr_dst_control_port w)) t)).
Proof.
  intros [_ _ _ _ _ _ Hds Hdc Hss Hsc _ _ _] H1 H2 H3 H4. destruct (is_unicast w).
  - rewrite process_all_app, step_dst_ports by (done || by right). cbn [mbind res_bind].
    by rewrite step_src_ports.
  - rewrite step_dst_ports by (done || by left).
    unfold set_src_ports, set_dst_ports. cbn. f_equal. by f_equal.
Qed.
End steps.

Lemma process_transport_kvs t :
  transport_ok t →
  process_all (delivery_kv t :: transport_kvs t)
    (Transport (Some (cs "RTP")) (Some (cs "AVP")) (tr_lower_transport t) []
       RTSP_DELIVERY_MULTICAST None None 0 RTSP_TRANSPORT_METHOD_UNKNOWN false 0 0 0 0 0 false 0)
  = Ok (transport_on_wire t).
Proof.
  intros Hok. pose proof Hok as [Hp Hq Hd Hsr Httl Hlay _ _ _ _ Hpairs Hone Hssrc].
  set (t0 := Transport _ _ _ _ _ _ _ _ _ _ _ _ _ _ _ _ _).
  change (delivery_kv t :: transport_kvs t) with ([delivery_kv t] ++ transport_kvs t).
  rewrite process_all_app.
  assert (process_all [delivery_kv t] t0 = Ok (set_delivery (tr_delivery t) t0)) as ->.
  { unfold delivery_kv, is_unicast. by destruct (tr_delivery t). }
  cbn [mbind res_bind]. unfold transport_kvs, has_method. subst t0. unfold set_delivery.
  cbn [tr_transport_protocol tr_transport_profile tr_lower_transport tr_interleaved
    tr_destination tr_source tr_layers tr_method tr_append tr_ttl tr_src_stream_port
    tr_src_control_port tr_dst_stream_port tr_dst_control_port tr_ssrc_valid tr_ssrc].
  do 5 (rewrite process_all_app, ?step_destination, ?step_source, ?step_append, ?step_ttl,
    ?step_layers by (done || by destruct (tr_destination t), (tr_source t), (tr_append t));
    cbn [mbind res_bind]).
  rewrite process_all_app.
  set (t1 := set_layers _ _).
  rewrite (step_ports t1 t) by
    (done || (subst t1; by destruct (tr_destination t), (tr_source t), (tr_append t))).
  cbn [mbind res_bind]. rewrite process_all_app, step_interleaved;
    [|done|done|subst t1; by destruct (tr_destination t), (tr_source t), (tr_append t)].
  cbn [mbind res_bind]. rewrite process_all_app, step_ssrc by done. cbn [mbind res_bind].
  rewrite step_mode by (subst t1;
    by destruct (tr_destination t), (tr_source t), (tr_append t), (tr_ssrc_valid t)).
  unfold transport_on_wire. rewrite Hp, Hq. subst t1.
  by destruct (tr_destination t), (tr_source t), (tr_append t), (tr_ssrc_valid t).
Qed.

Lemma wf_kv_opt k o :
  wf_kv (k, None) = true → wf_opt_str o = true → Forall (fun kv => wf_kv kv = true) (kv_opt k o).
Proof.
  intros Hk Ho. destruct o as [v|]; [|constructor]. repeat constructor.
  unfold wf_kv in *. cbn [fst snd] in *. rewrite andb_true_r in Hk. by rewrite Hk.
Qed.

Lemma wf_kv_when (b : bool) k v :
  wf_kv (k, None) = true → (b = true → v ≠ [] ∧ all (noneof (cs ",;")) v) →
  Forall (fun kv => wf_kv kv = true) (kv_when b k v).
Proof.
  intros Hk Hv. destruct b; [|constructor]. apply (wf_kv_opt k (Some v)); [done|].
  destruct (Hv eq_refl) as [Hne Hc]. unfold wf_opt_str. rewrite Hc. by destruct v.
Qed.

Lemma pair_list_text_wf l :
  forallb wf_pair l = true → Zlen l <= 1 → nonempty l = true →
  join (cs ",") (pair_text <$> l) ≠ [] ∧ all (noneof (cs ",;")) (join (cs ",") (pair_text <$> l)).
Proof.
  intros Hl H1 Hne. destruct l as [|p [|q l]]; [done| |unfold Zlen in H1; cbn in H1; lia].
  cbn [forallb] in Hl. rewrite andb_true_r in Hl. unfold wf_pair in Hl. bool_to_prop.
  cbn [fmap list_fmap join]. unfold pair_text. split.
  - intros [_ ?]%app_nil. done.
  - rewrite !all_app. split_and!; [|done|]; apply fmt_u_chars; done || lia.
Qed.

Lemma fmt_d_wf n : fmt_d n ≠ [] ∧ all (noneof (cs ",;")) (fmt_d n).
Proof.
  split; [|by apply fmt_d_chars]. unfold fmt_d. destruct (n <? 0) eqn:E; [done|].
  bool_to_prop. apply fmt_u_not_nil. lia.
Qed.

Lemma transport_kvs_wf t :
  transport_ok t → Forall (fun kv => wf_kv kv = true) (delivery_kv t :: transport_kvs t).
Proof.
  intros [_ _ Hd Hs _ _ Hds Hdc Hss Hsc Hpairs Hone Hssrc].
  constructor; [by unfold delivery_kv; destruct (is_unicast t)|].
  unfold transport_kvs. repeat (apply Forall_app; split).
  - by apply wf_kv_opt.
  - by apply wf_kv_opt.
  - destruct (tr_append t); by repeat constructor.
  - apply wf_kv_when; [done|]. intros _. apply fmt_d_wf.
  - apply wf_kv_when; [done|]. intros _. apply fmt_d_wf.
  - destruct (is_unicast t); [apply Forall_app; split|];
      (apply wf_kv_when; [done|]; intros _; by apply ports_text_wf).
  - apply wf_kv_when; [done|]. rewrite andb_true_iff. intros [Ht Hne].
    apply pair_list_text_wf; auto.
  - apply wf_kv_when; [done|]. intros _. split.
    + intros E. pose proof (fmt_08X_length _ Hssrc) as Hl. by rewrite E in Hl.
    + apply fmt_hex_chars; [done|lia].
  - apply wf_kv_when; [done|]. intros _. unfold mode_text. by destruct (bool_decide _).
Qed.

Lemma text_of_transport_tokens t :
  transport_ok t →
  text_of_transport t ≠ [] ∧ all (noneof (cs ",")) (text_of_transport t) ∧
  tokens (cs ";") (text_of_transport t)
  = transport_spec_text t :: (kv_text <$> (delivery_kv t :: transport_kvs t)).
Proof.
  intros Hok. pose proof (transport_kvs_wf t Hok) as Hkv.
  set (params := delivery_kv t :: transport_kvs t) in *.
  assert (text_of_transport t = join (cs ";") (transport_spec_text t :: (kv_text <$> params)))
    as ->.
  { rewrite join_concat. unfold text_of_transport, kvs_text. fold params. f_equal.
    by rewrite map_fmap_comp. }
  assert (Forall (λ u, u ≠ [] ∧ all (noneof (cs ";")) u ∧ all (noneof (cs ",")) u)
            (transport_spec_text t :: (kv_text <$> params))) as HF.
  { constructor.
    - unfold transport_spec_text. rewrite (ok_protocol _ Hok), (ok_profile _ Hok).
      by destruct (tr_lower_transport t).
    - apply Forall_fmap. eapply Forall_impl; [exact Hkv|]. intros kv Hw.
      by destruct (wf_kv_text kv Hw) as (? & ? & ? & _). }
  split_and!.
  - rewrite join_concat. apply Forall_cons in HF as [(Hne & _) _]. by intros [? _]%app_nil.
  - apply all_join; [done|]. eapply Forall_impl; [exact HF|]. by intros ? (_ & _ & ?).
  - apply (tokens_join (cs ";") ";"); [done|]. eapply Forall_impl; [exact HF|].
    by intros ? (? & ? & _).
Qed.

(** The protocol, profile and lower transport are read back. *)
Lemma transport_spec_text_read t :
  transport_ok t →
  transport_spec (transport_spec_text t)
  = Ok (Transport (Some (cs "RTP")) (Some (cs "AVP")) (tr_lower_transport t) []
       RTSP_DELIVERY_MULTICAST None None 0 RTSP_TRANSPORT_METHOD_UNKNOWN false 0 0 0 0 0 false 0).
Proof.
  intros Hok. unfold transport_spec_text. rewrite (ok_protocol _ Hok), (ok_profile _ Hok).
  destruct (tr_lower_transport t); vm_compute; reflexivity.
Qed.

Lemma transport_entry_text t :
  transport_ok t →
  transport_entry (transport_spec_text t) (kv_text <$> (delivery_kv t :: transport_kvs t))
  = Ok (transport_on_wire t).
Proof.
  intros Hok. unfold transport_entry. rewrite transport_spec_text_read by done.
  cbn [mbind res_bind]. rewrite transport_params_kvs by (by apply transport_kvs_wf).
  by apply process_transport_kvs.
Qed.

Lemma transport_read_loop_text l n acc :
  Forall transport_ok l →
  transport_read_loop (text_of_transport <$> l) n acc
  = Ok (acc ++ (transport_on_wire <$> take (Z.to_nat (n - Zlen acc)) l), 0).
Proof.
  intros Hl. revert acc. induction Hl as [|t l Ht Hl IH]; intros acc.
  { cbn. by rewrite take_nil, app_nil_r. }
  rewrite fmap_cons. cbn [transport_read_loop].
  destruct (Zlen acc <? n) eqn:E; bool_to_prop.
  - destruct (text_of_transport_tokens t Ht) as (_ & _ & ->).
    rewrite transport_entry_text by done. rewrite IH, Zlen_app, Zlen_cons, Zlen_nil.
    replace (Z.to_nat (n - Zlen acc)) with (S (Z.to_nat (n - (Zlen acc + (1 + 0))))) by lia.
    cbn [take]. by rewrite fmap_cons, <- app_assoc.
  - replace (Z.to_nat (n - Zlen acc)) with 0%nat by lia. by rewrite app_nil_r.
Qed.

Lemma wf_transports_ok l :
  forallb wf_transport l = true → Forall transport_ok l.
Proof.
  intros H. apply list.Forall_forall. intros t Ht. apply wf_transport_ok.
  rewrite forallb_forall in H. by apply H, list_elem_of_In.
Qed.

Lemma rtsp_transport_header_write_emits l :
  l ≠ [] → Forall transport_ok l →
  emits (rtsp_transport_header_write (Some <$> l)) (text_of_transport_header l) tt.
Proof.
  intros Hne Hl. unfold rtsp_transport_header_write, text_of_transport_header.
  assert ((Zlen (Some <$> l) =? 0) = false) as Hn.
  { apply Z.eqb_neq. destruct l; [done|]. unfold Zlen. cbn. lia. }
  assert (emits (transport_write_loop (Some <$> l)) (text_of_transports l) tt) as Hloop.
  { clear Hne Hn. induction Hl as [|t l Ht Hl IH]; [apply emits_ret|].
    rewrite fmap_cons. cbn [transport_write_loop].
    eapply emits_eq; [apply emits_seq; [eapply transport_write_one_emits;
      [apply Ht|done|apply Ht|done]|exact IH]|].
    unfold text_of_transports. destruct l as [|t' l]; [by rewrite !app_nil_r|].
    rewrite !fmap_cons. cbn [nonempty]. rewrite (join_cons _ (text_of_transport t)) by done.
    text_eq. }
  emits_text.
Qed.

Lemma rtsp_transport_header_read_text l n :
  0 < n → Forall transport_ok l →
  rtsp_transport_header_read (Some (text_of_transports l)) n
  = Ok (transport_on_wire <$> take (Z.to_nat n) l, 0).
Proof.
  intros Hn Hl. unfold rtsp_transport_header_read, text_of_transports.
  destruct (n =? 0) eqn:E; bool_to_prop; [lia|].
  change (cs ",") with [","%char] at 2.
  rewrite tokens_join; [|done|].
  - rewrite transport_read_loop_text by done. rewrite Zlen_nil. by rewrite Z.sub_0_r.
  - apply Forall_fmap. eapply Forall_impl; [exact Hl|]. intros t Ht.
    destruct (text_of_transport_tokens t Ht) as (? & ? & _). done.
Qed.

(** C31: supported transports are written as one [Transport] line; reading its
    value with room for [n] gives the first [n] of them, every parameter that
    the header carries with its value: ports with the control port the writer
    supplies (stream + 1 on 16 bits), a TTL or layer count above [INT_MAX], the
    SSRC in hexadecimal, the channel pair of a TCP transport. *)
Theorem rtsp_transport_header_roundtrip l n :
  l ≠ [] → 0 < n → forallb wf_transport l = true →
  emits (rtsp_transport_header_write (Some <$> l)) (text_of_transport_header l) tt ∧
  rtsp_transport_header_read (Some (text_of_transports l)) n
  = Ok (transport_on_wire <$> take (Z.to_nat n) l, 0).
Proof.
  intros Hne Hn Hl%wf_transports_ok. split;
    [by apply rtsp_transport_header_write_emits|by apply rtsp_transport_header_read_text].
Qed.

Definition sample_transports : list rtsp_transport_header :=
  [ Transport (Some (cs "RTP")) (Some (cs "AVP")) RTSP_LOWER_TRANSPORT_UDP []
      RTSP_DELIVERY_UNICAST (Some (cs "10.0.0.1")) None 4294967295 RTSP_TRANSPORT_METHOD_RECORD
      true 3 5004 0 65535 0 true 0xdeadbeef;
    Transport (Some (cs "RTP")) (Some (cs "AVP")) RTSP_LOWER_TRANSPORT_TCP [ChannelPair 0 255]
      RTSP_DELIVERY_UNICAST None (Some (cs "h")) 0 RTSP_TRANSPORT_METHOD_PLAY
      false 0 0 0 0 0 false 0 ].

Lemma rtsp_transport_header_roundtrip_witness :
  (sample_transports ≠ [] ∧ 0 < 5 ∧ forallb wf_transport sample_transports = true) ∧
  emits (rtsp_transport_header_write (Some <$> sample_transports))
    (text_of_transport_header sample_transports) tt ∧
  rtsp_transport_header_read (Some (text_of_transports sample_transports)) 5
  = Ok (transport_on_wire <$> take (Z.to_nat 5) sample_transports, 0).
Proof.
  assert (forallb wf_transport sample_transports = true) as H by (vm_compute; reflexivity).
  split; [split; [discriminate|split; [reflexivity|exact H]]|].
  apply (rtsp_transport_header_roundtrip sample_transports 5); [discriminate|reflexivity|exact H].
Defined.

(** *** Several channel pairs *)

(** What is left of [t] when it is read with its first pair only. *)
Definition first_pair_only (t : rtsp_transport_header) (p : rtsp_channel_pair) :=
  Transport (tr_transport_protocol t) (tr_transport_profile t) (tr_lower_transport t) [p]
    (tr_delivery t) (tr_destination t) (tr_source t) (tr_layers t)
    RTSP_TRANSPORT_METHOD_UNKNOWN (tr_append t) (tr_ttl t) (tr_src_stream_port t)
    (tr_src_control_port t) (tr_dst_stream_port t) (tr_dst_control_port t) false 0.

(** The text up to the channel pairs. *)
Definition transport_text_head (t : rtsp_transport_header) : cstr :=
  transport_spec_text t ++ kvs_text (delivery_kv t :: kv_opt (cs "destination") (tr_destination t)
  ++ kv_opt (cs "source") (tr_source t)
  ++ (if tr_append t then [(cs "append", None)] else [])
  ++ kv_when (negb (tr_ttl t =? 0)) (cs "ttl") (fmt_d (s32 (tr_ttl t)))
  ++ kv_when (negb (tr_layers t =? 0)) (cs "layers") (fmt_d (s32 (tr_layers t)))
  ++ (if is_unicast t then
        kv_when (negb (tr_dst_stream_port t =? 0)) (cs "client_port")
          (ports_text (tr_dst_stream_port t) (tr_dst_control_port t))
        ++ kv_when (negb (tr_src_stream_port t =? 0)) (cs "server_port")
             (ports_text (tr_src_stream_port t) (tr_src_control_port t))
      else kv_when (negb (tr_dst_stream_port t =? 0)) (cs "port")
             (ports_text (tr_dst_stream_port t) (tr_dst_control_port t)))).

Lemma text_of_transport_split t :
  text_of_transport t = transport_text_head t
    ++ kvs_text (kv_when (is_tcp t && nonempty (tr_interleaved t)) (cs "interleaved")
         (join (cs ",") (pair_text <$> tr_interleaved t)))
    ++ kvs_text (kv_when (tr_ssrc_valid t) (cs "ssrc") (fmt_08X (tr_ssrc t)))
    ++ kvs_text (kv_when (has_method t) (cs "mode") (mode_text (tr_method t))).
Proof.
  unfold text_of_transport, transport_text_head, transport_kvs.
  rewrite <- app_assoc, <- !kvs_text_app, <- app_comm_cons, <- !app_assoc. reflexivity.
Qed.

Lemma text_of_transport_pairs t p q ps :
  is_tcp t = true → tr_interleaved t = p :: q :: ps → wf_pair q = true →
  ∃ c rest, is_digit_of 10 c = true ∧
    text_of_transport t = text_of_transport (first_pair_only t p) ++ ","%char :: c :: rest.
Proof.
  intros Ht Hp Hq. unfold wf_pair in Hq. bool_to_prop.
  destruct (fmt_u_spec (ch_rtp q) ltac:(lia)) as (_ & Hd & Hne).
  destruct (fmt_u (ch_rtp q)) as [|c u] eqn:Eq; [done|].
  apply all_cons in Hd as [Hc _]. exists c.
  assert (pair_text q = c :: u ++ cs "-" ++ fmt_u (ch_rtcp q)) as Epq
    by (unfold pair_text; by rewrite Eq).
  eexists. split; [exact Hc|].
  rewrite !text_of_transport_split, <- !app_assoc.
  change (transport_text_head (first_pair_only t p)) with (transport_text_head t). f_equal.
  change (is_tcp (first_pair_only t p)) with (is_tcp t). rewrite Ht, Hp.
  cbn [andb nonempty kv_when first_pair_only tr_interleaved tr_ssrc_valid].
  change (has_method (first_pair_only t p)) with false. cbn [kv_when].
  change (kvs_text [(?k, Some ?v)]) with ((cs ";" ++ k ++ cs "=" ++ v) ++ []).
  change (kvs_text []) with (@nil ascii).
  rewrite !app_nil_r, <- !app_assoc, !fmap_cons, join_concat. cbn [map concat fmap list_fmap join].
  rewrite <- !app_assoc. do 4 f_equal. rewrite Epq. reflexivity.
Qed.

Lemma transport_spec_digit c s : is_digit_of 10 c = true → transport_spec (c :: s) = Err EPROTO.
Proof.
  intros Hc. unfold transport_spec.
  assert (noneof (cs "/") c = true ∧ c ≠ "R"%char) as [Hn Hr].
  { clear s. revert Hc. by byte_cases c. }
  destruct (strtok_r_head (cs "/") c s Hn) as (u & r & ->).
  assert (streq (c :: u) (cs "RTP") = false) as ->; [|done].
  apply streq_false. by intros [= ->].
Qed.

(** The writer separates the channel pairs of one transport with the comma
    that also separates transports, and the reader splits at commas first: a TCP
    transport with two pairs or more, once written, is read as a transport that
    has its first pair only and lacks the SSRC and the mode, followed by an
    error -EPROTO for what it takes to be a second transport. *)
Theorem transport_pairs_not_read_back t p q ps n :
  is_tcp t = true → tr_interleaved t = p :: q :: ps → wf_pair q = true →
  wf_transport (first_pair_only t p) = true → 1 < n →
  emits (rtsp_transport_header_write [Some t]) (text_of_transport_header [t]) tt ∧
  rtsp_transport_header_read (Some (text_of_transport t)) n
  = Ok ([transport_on_wire (first_pair_only t p)], - EPROTO).
Proof.
  intros Ht Hp Hq Hwf%wf_transport_ok Hn. split.
  { unfold rtsp_transport_header_write, text_of_transport_header, text_of_transports.
    pose proof (transport_write_one_emits t (cs "RTP") (cs "AVP") false (ok_protocol _ Hwf)
      ltac:(done) (ok_profile _ Hwf) ltac:(done)) as Hw.
    cbn [transport_write_loop nonempty]. emits_text. }
  destruct (text_of_transport_pairs t p q ps Ht Hp Hq) as (c & rest & Hc & E).
  destruct (text_of_transport_tokens _ Hwf) as (Hne & Hnc & Htok).
  unfold rtsp_transport_header_read. destruct (n =? 0) eqn:E0; bool_to_prop; [lia|].
  rewrite E, tokens_cons by done.
  assert (noneof (cs ",") c = true ∧ noneof (cs ";") c = true) as [Hn1 Hn2]
    by (clear -Hc; revert Hc; by byte_cases c).
  destruct (tokens_head (cs ",") c rest Hn1) as (u & r & ->).
  cbn [transport_read_loop]. change (Zlen [] <? n) with (0 <? n).
  destruct (0 <? n) eqn:E1; bool_to_prop; [|lia].
  rewrite Htok, transport_entry_text by done. cbn [app].
  change (Zlen [_] <? n) with (1 <? n). destruct (1 <? n) eqn:E2; bool_to_prop; [|lia].
  destruct (tokens_head (cs ";") c u Hn2) as (u' & r' & ->).
  unfold transport_entry. by rewrite transport_spec_digit.
Qed.

Definition two_pairs : rtsp_transport_header :=
  Transport (Some (cs "RTP")) (Some (cs "AVP")) RTSP_LOWER_TRANSPORT_TCP
    [ChannelPair 0 1; ChannelPair 2 3] RTSP_DELIVERY_UNICAST None None 0
    RTSP_TRANSPORT_METHOD_PLAY false 0 0 0 0 0 true 77.

Lemma transport_pairs_not_read_back_witness :
  emits (rtsp_transport_header_write [Some two_pairs]) (text_of_transport_header [two_pairs]) tt ∧
  rtsp_transport_header_read (Some (text_of_transport two_pairs)) 5
  = Ok ([transport_on_wire (first_pair_only two_pairs (ChannelPair 0 1))], - EPROTO).
Proof.
  apply (transport_pairs_not_read_back two_pairs (ChannelPair 0 1) (ChannelPair 2 3) [] 5);
    reflexivity.
Defined.

(** An [interleaved] parameter without a value makes the reader use an
    uninitialised pointer; every other transport parameter, with or without a
    value, is processed without undefined behaviour. *)
Theorem process_transport_key_val_undef trsp key val :
  process_transport_key_val trsp key val = Undef ↔ key = cs "interleaved" ∧ val = None.
Proof.
  split.
  - unfold process_transport_key_val.
    repeat match goal with |- context [if streq key ?s then _ else _] =>
      destruct (streq key s) eqn:?; [try discriminate|] end; [|discriminate].
    match goal with H : streq key (cs "interleaved") = true |- _ => apply streq_true in H end.
    destruct val as [v|]; [|done]. unfold process_interleaved. by destruct (read_pairs _ _).
  - by intros [-> ->].
Qed.

#[export] Hint Resolve rtsp_transport_header_write_emits : writer.
