(* ===== verification/AuthHeader.v ===== *)
(** * Authorization headers ([rtsp_authorization_header_*] of [rtsp.c] and the
    string tables of [rtsp_auth.c])

    A string field is [None] for a NULL pointer.  [strdup] and [malloc]
    succeed. *)

From S2P Require Import Prelude CString CNumber Writer.
From stdpp Require Import options.

Local Open Scope Z_scope.

Inductive rtsp_auth_type :=
| RTSP_AUTH_TYPE_UNKNOWN | RTSP_AUTH_TYPE_BASIC | RTSP_AUTH_TYPE_DIGEST.
#[export] Instance rtsp_auth_type_eq_dec : EqDecision rtsp_auth_type.
Proof. solve_decision. Defined.

Inductive rtsp_auth_algorithm :=
| RTSP_AUTH_ALGORITHM_UNKNOWN | RTSP_AUTH_ALGORITHM_UNSPECIFIED
| RTSP_AUTH_ALGORITHM_MD5 | RTSP_AUTH_ALGORITHM_MD5_SESS.
#[export] Instance rtsp_auth_algorithm_eq_dec : EqDecision rtsp_auth_algorithm.
Proof. solve_decision. Defined.

Inductive rtsp_auth_qop :=
| RTSP_AUTH_QOP_UNKNOWN | RTSP_AUTH_QOP_UNSPECIFIED | RTSP_AUTH_QOP_AUTH
| RTSP_AUTH_QOP_AUTH_INT.
#[export] Instance rtsp_auth_qop_eq_dec : EqDecision rtsp_auth_qop.
Proof. solve_decision. Defined.

Record rtsp_authorization_header := Auth {
  au_type : rtsp_auth_type;
  au_algorithm : rtsp_auth_algorithm;
  au_username : option cstr;
  au_uri : option cstr;
  au_response : option cstr;
  au_cnonce : option cstr;
  au_nc : Z;
  au_credentials : option cstr;
  au_realm : option cstr;
  au_nonce : option cstr;
  au_opaque : option cstr;
  au_qop : rtsp_auth_qop
}.
#[export] Instance rtsp_authorization_header_eq_dec : EqDecision rtsp_authorization_header.
Proof. solve_decision. Defined.

(** ** String tables *)

Definition rtsp_auth_type_str (val : rtsp_auth_type) : option cstr :=
  match val with
  | RTSP_AUTH_TYPE_BASIC => Some (cs "Basic")
  | RTSP_AUTH_TYPE_DIGEST => Some (cs "Digest")
  | RTSP_AUTH_TYPE_UNKNOWN => None
  end.

Definition rtsp_auth_type_from_str (str : option cstr) : rtsp_auth_type :=
  match str with
  | None => RTSP_AUTH_TYPE_UNKNOWN
  | Some s =>
      if strcaseeq s (cs "Basic") then RTSP_AUTH_TYPE_BASIC
      else if strcaseeq s (cs "Digest") then RTSP_AUTH_TYPE_DIGEST
      else RTSP_AUTH_TYPE_UNKNOWN
  end.

Definition rtsp_auth_algorithm_str (val : rtsp_auth_algorithm) : option cstr :=
  match val with
  | RTSP_AUTH_ALGORITHM_MD5 => Some (cs "MD5")
  | RTSP_AUTH_ALGORITHM_MD5_SESS => Some (cs "MD5-sess")
  | _ => None
  end.

Definition rtsp_auth_algorithm_from_str (str : option cstr) : rtsp_auth_algorithm :=
  match str with
  | None | Some [] => RTSP_AUTH_ALGORITHM_UNSPECIFIED
  | Some s =>
      if strcaseeq s (cs "MD5") then RTSP_AUTH_ALGORITHM_MD5
      else if strcaseeq s (cs "MD5-sess") then RTSP_AUTH_ALGORITHM_MD5_SESS
      else RTSP_AUTH_ALGORITHM_UNKNOWN
  end.

Definition rtsp_auth_qop_str (val : rtsp_auth_qop) : option cstr :=
  match val with
  | RTSP_AUTH_QOP_AUTH => Some (cs "auth")
  | RTSP_AUTH_QOP_AUTH_INT => Some (cs "auth-int")
  | _ => None
  end.

Definition rtsp_auth_qop_from_str (str : option cstr) : rtsp_auth_qop :=
  match str with
  | None | Some [] => RTSP_AUTH_QOP_UNSPECIFIED
  | Some s =>
      if strcaseeq s (cs "auth") then RTSP_AUTH_QOP_AUTH
      else if strcaseeq s (cs "auth-int") then RTSP_AUTH_QOP_AUTH_INT
      else RTSP_AUTH_QOP_UNKNOWN
  end.

(** The text of the request counter, for a buffer of [len] bytes. *)
Definition rtsp_auth_nc_str (len nc : Z) : res cstr :=
  if len <? 9 then Err EINVAL
  else if len <=? Zlen (fmt_08x nc) then Err ENOBUFS
  else Ok (fmt_08x nc).

(** ** Allocation and copies *)

Definition rtsp_authorization_header_new : rtsp_authorization_header :=
  Auth RTSP_AUTH_TYPE_UNKNOWN RTSP_AUTH_ALGORITHM_UNSPECIFIED None None None None 0 None
    None None None RTSP_AUTH_QOP_UNSPECIFIED.

Definition rtsp_authorization_header_copy (src dst : option rtsp_authorization_header)
    : res rtsp_authorization_header :=
  match src, dst with
  | Some s, Some d =>
      Ok (Auth (au_type s) (au_algorithm s) (au_username s) (au_uri s) (au_response s)
            (au_cnonce s) (au_nc s) (au_credentials s) (au_realm s) (au_nonce s)
            (au_opaque s) (au_qop s))
  | _, _ => Err EINVAL
  end.

Definition rtsp_authorization_header_copy_server_fields
    (src dst : option rtsp_authorization_header) : res rtsp_authorization_header :=
  match src, dst with
  | Some s, Some d =>
      Ok (Auth (au_type s) (au_algorithm s) (au_username d) (au_uri d) (au_response d)
            (au_cnonce d) (au_nc d) (au_credentials d) (au_realm s) (au_nonce s)
            (au_opaque s) (au_qop s))
  | _, _ => Err EINVAL
  end.

Definition rtsp_authorization_header_copy_client_fields
    (src dst : option rtsp_authorization_header) : res rtsp_authorization_header :=
  match src, dst with
  | Some s, Some d =>
      Ok (Auth (au_type d) (au_algorithm d) (au_username s) (au_uri s) (au_response s)
            (au_cnonce s) (au_nc s) (au_credentials s) (au_realm d) (au_nonce d)
            (au_opaque d) (au_qop d))
  | _, _ => Err EINVAL
  end.

(** ** Writer *)

Definition DQUOTE : ascii := "034"%char.
Definition quoted (s : cstr) : cstr := DQUOTE :: s ++ [DQUOTE].

(** A sequence of [APPEND_FIELD(name, value)]. *)
Fixpoint append_fields (fields : list (cstr * option cstr)) (first : bool) : writer unit :=
  match fields with
  | [] => wskip
  | (name, None) :: fields' => append_fields fields' first
  | (name, Some value) :: fields' =>
      wwhen (negb first) (rtsp_sprintf (cs ", "));;
      rtsp_sprintf (name ++ cs "=" ++ quoted value);;
      append_fields fields' false
  end.

Definition when_nonempty (o : option cstr) : option cstr :=
  match o with Some [] => None | _ => o end.

(** The value of an [option] under a condition. *)
Definition opt_when {A} (b : bool) (o : option A) : option A := if b then o else None.

(** [algorithm] and [qop] are appended only when they are neither UNKNOWN nor
    UNSPECIFIED, the values without a string; [cnonce] and [nc] only with a
    [qop]; an error of [rtsp_auth_nc_str] drops the field. *)
Definition digest_fields (auth : rtsp_authorization_header) : list (cstr * option cstr) :=
  let has_algorithm := negb (bool_decide (au_algorithm auth = RTSP_AUTH_ALGORITHM_UNKNOWN))
                       && negb (bool_decide (au_algorithm auth = RTSP_AUTH_ALGORITHM_UNSPECIFIED)) in
  let has_qop := negb (bool_decide (au_qop auth = RTSP_AUTH_QOP_UNKNOWN))
                 && negb (bool_decide (au_qop auth = RTSP_AUTH_QOP_UNSPECIFIED)) in
  [ (cs "username", au_username auth);
    (cs "realm", au_realm auth);
    (cs "nonce", au_nonce auth);
    (cs "uri", au_uri auth);
    (cs "response", au_response auth);
    (cs "algorithm", opt_when has_algorithm (rtsp_auth_algorithm_str (au_algorithm auth)));
    (cs "opaque", when_nonempty (au_opaque auth));
    (cs "qop", opt_when has_qop (rtsp_auth_qop_str (au_qop auth)));
    (cs "cnonce", opt_when has_qop (au_cnonce auth));
    (cs "nc", opt_when has_qop
                (match rtsp_auth_nc_str 9 (au_nc auth) with Ok s => Some s | _ => None end)) ].

Definition rtsp_authorization_header_write (auth : option rtsp_authorization_header)
    : writer unit :=
  match auth with
  | None => werr EINVAL
  | Some auth =>
      rtsp_sprintf (cs "Authorization: ");;
      match au_type auth with
      | RTSP_AUTH_TYPE_BASIC =>
          match au_credentials auth with
          | None | Some [] => werr EPROTO
          | Some credentials =>
              rtsp_sprintf (cs "Basic" ++ cs " " ++ credentials);;
              rtsp_sprintf [CR; LF]
          end
      | RTSP_AUTH_TYPE_DIGEST =>
          match au_response auth with
          | None | Some [] => wskip
          | Some _ =>
              rtsp_sprintf (cs "Digest" ++ cs " ");;
              append_fields (digest_fields auth) true;;
              rtsp_sprintf [CR; LF]
          end
      | RTSP_AUTH_TYPE_UNKNOWN => werr EPROTO
      end
  end.

(** ** Reader *)

Definition strip_quotes (s : option cstr) : option cstr :=
  match s with
  | None => None
  | Some s =>
      let len := strnlen s PATH_MAX in
      if PATH_MAX <=? len then None
      else if (2 <=? len) && Ascii.eqb (hd NUL s) DQUOTE && Ascii.eqb (List.last s NUL) DQUOTE
      then Some (removelast (tail s))
      else Some s
  end.

(** [strtoul(val2, &endptr, 16)] with its checks; [None] leaves [nc] unchanged.
    [endptr == val2] is a text with no number. *)
Definition read_nc (val2 : cstr) : option Z :=
  let '(parsed, endptr, errno) := strtoul 16 val2 in
  if (errno =? ERANGE) || (UINT_MAX <? parsed)
     || bool_decide (scan_number 16 val2 = None) || negb (streq endptr [])
  then None else Some parsed.

Definition process_authorization_key_val (auth : rtsp_authorization_header) (key : cstr)
    (val : option cstr) : rtsp_authorization_header :=
  let 'Auth ty al us ur re cn nc cr rl no op qo := auth in
  if streq key (cs "username") then Auth ty al (strip_quotes val) ur re cn nc cr rl no op qo
  else if streq key (cs "realm") then Auth ty al us ur re cn nc cr (strip_quotes val) no op qo
  else if streq key (cs "nonce") then Auth ty al us ur re cn nc cr rl (strip_quotes val) op qo
  else if streq key (cs "uri") then Auth ty al us (strip_quotes val) re cn nc cr rl no op qo
  else if streq key (cs "response") then Auth ty al us ur (strip_quotes val) cn nc cr rl no op qo
  else if streq key (cs "algorithm") then
    Auth ty (rtsp_auth_algorithm_from_str (strip_quotes val)) us ur re cn nc cr rl no op qo
  else if streq key (cs "opaque") then Auth ty al us ur re cn nc cr rl no (strip_quotes val) qo
  else if streq key (cs "qop") then
    Auth ty al us ur re cn nc cr rl no op (rtsp_auth_qop_from_str (strip_quotes val))
  else if streq key (cs "cnonce") then Auth ty al us ur re (strip_quotes val) nc cr rl no op qo
  else if streq key (cs "nc") then
    match strip_quotes val with
    | None => auth
    | Some val2 =>
        match read_nc val2 with
        | None => auth
        | Some n => Auth ty al us ur re cn n cr rl no op qo
        end
    end
  else auth.

Definition skip_blanks (s : cstr) : cstr := dropp (Ascii.eqb " ") s.

Definition parse_digest_auth_param (auth : rtsp_authorization_header) (param : cstr)
    : rtsp_authorization_header :=
  match split_key_val param with
  | None => auth
  | Some (key, val) =>
      process_authorization_key_val auth (skip_blanks key) (skip_blanks <$> val)
  end.

Definition with_type (ty : rtsp_auth_type) (a : rtsp_authorization_header) :=
  Auth ty (au_algorithm a) (au_username a) (au_uri a) (au_response a) (au_cnonce a) (au_nc a)
    (au_credentials a) (au_realm a) (au_nonce a) (au_opaque a) (au_qop a).
Definition with_auth_credentials (c : option cstr) (a : rtsp_authorization_header) :=
  Auth (au_type a) (au_algorithm a) (au_username a) (au_uri a) (au_response a) (au_cnonce a)
    (au_nc a) c (au_realm a) (au_nonce a) (au_opaque a) (au_qop a).

Definition rtsp_authorization_header_read (str : option cstr) : res rtsp_authorization_header :=
  match str with
  | None => Err EINVAL
  | Some str =>
      let auth := rtsp_authorization_header_new in
      match strtok_r (cs " ") str with
      | None => Err EPROTO
      | Some (token, temp) =>
          if strcaseeq token (cs "Basic") then
            let auth := with_type RTSP_AUTH_TYPE_BASIC auth in
            match strtok_tok (cs " ") temp with
            | None => Err EPROTO
            | Some param =>
                if starts_with_case (cs "realm=") param then
                  match split_key_val param with
                  | Some (key, val) => Ok (process_authorization_key_val auth key val)
                  | None => Undef
                  end
                else Ok (with_auth_credentials (Some param) auth)
            end
          else if strcaseeq token (cs "Digest") then
            Ok (fold_left parse_digest_auth_param (tokens (cs ",") temp)
                  (with_type RTSP_AUTH_TYPE_DIGEST auth))
          else Err EPROTO
      end
  end.

(** ** String tables: theorem *)

(** Every authentication type, algorithm and qop the library knows is
    recovered from its own name, whatever the case of its letters, and the
    others have no name. *)
Theorem rtsp_auth_tables_roundtrip :
  (∀ t s, rtsp_auth_type_from_str (Some s) = t → t ≠ RTSP_AUTH_TYPE_UNKNOWN →
     ∃ s', rtsp_auth_type_str t = Some s' ∧ strcaseeq s s' = true) ∧
  (∀ t s, rtsp_auth_type_str t = Some s → rtsp_auth_type_from_str (Some s) = t) ∧
  (∀ a s, rtsp_auth_algorithm_str a = Some s → rtsp_auth_algorithm_from_str (Some s) = a) ∧
  (∀ q s, rtsp_auth_qop_str q = Some s → rtsp_auth_qop_from_str (Some s) = q) ∧
  (rtsp_auth_type_str RTSP_AUTH_TYPE_UNKNOWN = None ∧
   rtsp_auth_algorithm_str RTSP_AUTH_ALGORITHM_UNKNOWN = None ∧
   rtsp_auth_algorithm_str RTSP_AUTH_ALGORITHM_UNSPECIFIED = None ∧
   rtsp_auth_qop_str RTSP_AUTH_QOP_UNKNOWN = None ∧
   rtsp_auth_qop_str RTSP_AUTH_QOP_UNSPECIFIED = None).
Proof.
  split_and!; try done.
  - intros t s <-. unfold rtsp_auth_type_from_str.
    destruct (strcaseeq s (cs "Basic")) eqn:E1; [by intros _; eexists|].
    destruct (strcaseeq s (cs "Digest")) eqn:E2; [by intros _; eexists|done].
  - intros [] s [= <-]; vm_compute; reflexivity.
  - intros [] s [= <-]; vm_compute; reflexivity.
  - intros [] s [= <-]; vm_compute; reflexivity.
Qed.

(** ** Copies: theorem *)

(** The server-provided and the client-provided fields partition the
    header: copying both sets, in either order, is the full copy, whatever the
    destination held, and each leaves the other's fields of the destination. *)
Theorem rtsp_authorization_header_copy_split (src dst : rtsp_authorization_header) :
  let server d := rtsp_authorization_header_copy_server_fields (Some src) (Some d) in
  let client d := rtsp_authorization_header_copy_client_fields (Some src) (Some d) in
  rtsp_authorization_header_copy (Some src) (Some dst) = Ok src ∧
  (server dst ≫= client) = Ok src ∧ (client dst ≫= server) = Ok src ∧
  (∃ d, client dst = Ok d ∧
     (au_type d, au_algorithm d, au_realm d, au_nonce d, au_opaque d, au_qop d)
     = (au_type dst, au_algorithm dst, au_realm dst, au_nonce dst, au_opaque dst, au_qop dst)) ∧
  (∃ d, server dst = Ok d ∧
     (au_username d, au_uri d, au_response d, au_cnonce d, au_nc d, au_credentials d)
     = (au_username dst, au_uri dst, au_response dst, au_cnonce dst, au_nc dst,
        au_credentials dst)).
Proof. destruct src, dst. split_and!; [done..|by eexists|by eexists]. Qed.

(** ** Digest header round trip *)

Definition short_field (s : cstr) : bool :=
  forallb (noneof (cs ",")) s && (Zlen s <? PATH_MAX - 2).
Definition short_opt (o : option cstr) : bool :=
  match o with Some s => short_field s | None => true end.

Definition wf_digest (a : rtsp_authorization_header) : bool :=
  bool_decide (au_type a = RTSP_AUTH_TYPE_DIGEST)
  && match au_response a with None | Some [] => false | Some _ => true end
  && short_opt (au_username a) && short_opt (au_realm a) && short_opt (au_nonce a)
  && short_opt (au_uri a) && short_opt (au_response a) && short_opt (au_opaque a)
  && short_opt (au_cnonce a) && (0 <=? au_nc a) && (au_nc a <=? UINT_MAX).

Definition qop_on_wire (q : rtsp_auth_qop) : bool :=
  negb (bool_decide (q = RTSP_AUTH_QOP_UNKNOWN))
  && negb (bool_decide (q = RTSP_AUTH_QOP_UNSPECIFIED)).
Definition algorithm_on_wire (a : rtsp_auth_algorithm) : bool :=
  negb (bool_decide (a = RTSP_AUTH_ALGORITHM_UNKNOWN))
  && negb (bool_decide (a = RTSP_AUTH_ALGORITHM_UNSPECIFIED)).

(** What a Digest header carries. *)
Definition digest_on_wire (a : rtsp_authorization_header) : rtsp_authorization_header :=
  Auth RTSP_AUTH_TYPE_DIGEST
    (if algorithm_on_wire (au_algorithm a) then au_algorithm a
     else RTSP_AUTH_ALGORITHM_UNSPECIFIED)
    (au_username a) (au_uri a) (au_response a)
    (opt_when (qop_on_wire (au_qop a)) (au_cnonce a))
    (if qop_on_wire (au_qop a) then au_nc a else 0)
    None (au_realm a) (au_nonce a) (when_nonempty (au_opaque a))
    (if qop_on_wire (au_qop a) then au_qop a else RTSP_AUTH_QOP_UNSPECIFIED).

Definition field_text (f : cstr * cstr) : cstr := fst f ++ cs "=" ++ quoted (snd f).
Definition present (f : cstr * option cstr) : option (cstr * cstr) :=
  v ← snd f; Some (fst f, v).
Definition fields_text (fields : list (cstr * option cstr)) : cstr :=
  join (cs ", ") (field_text <$> omap present fields).

Definition text_of_digest (a : rtsp_authorization_header) : cstr :=
  cs "Digest " ++ fields_text (digest_fields a).

Lemma append_fields_rest fields :
  emits (append_fields fields false)
    (concat (map (fun t => cs ", " ++ t) (field_text <$> omap present fields))) tt.
Proof.
  induction fields as [|[name [v|]] fields IH]; [apply emits_ret| |exact IH].
  cbn [append_fields omap list_omap present snd fst mbind option_bind].
  rewrite fmap_cons. cbn [map concat].
  eapply emits_eq; [apply emits_seq; [apply emits_when, emits_sprintf|apply emits_seq;
    [apply emits_sprintf|exact IH]]|].
  cbn [negb]. reflexivity.
Qed.

Lemma append_fields_emits fields :
  emits (append_fields fields true) (fields_text fields) tt.
Proof.
  induction fields as [|[name [v|]] fields IH]; [apply emits_ret| |exact IH].
  unfold fields_text. cbn [append_fields omap list_omap present snd fst mbind option_bind].
  rewrite fmap_cons, join_concat.
  eapply emits_eq; [apply emits_seq; [apply emits_when, emits_sprintf|apply emits_seq;
    [apply emits_sprintf|apply append_fields_rest]]|]. done.
Qed.

Lemma strip_quotes_quoted v :
  Zlen v < PATH_MAX - 2 → strip_quotes (Some (quoted v)) = Some v.
Proof.
  intros Hl. unfold strip_quotes, strnlen, quoted.
  assert (Zlen (DQUOTE :: v ++ [DQUOTE]) = Zlen v + 2) as ->
    by (rewrite Zlen_cons, Zlen_app, Zlen_cons, Zlen_nil; lia).
  pose proof (Zlen_nonneg v). rewrite Z.min_l by lia.
  destruct (PATH_MAX <=? Zlen v + 2) eqn:E1; bool_to_prop; [lia|].
  destruct (2 <=? Zlen v + 2) eqn:E2; bool_to_prop; [|lia].
  cbn [hd]. rewrite app_comm_cons, last_last. cbn [andb Ascii.eqb].
  change (Ascii.eqb DQUOTE DQUOTE) with true. cbn iota. cbn [app tail].
  by rewrite removelast_last.
Qed.

(** One parameter of the reader, with or without the blank after the comma. *)
Lemma parse_digest_auth_param_field a k v (blank : bool) :
  k ≠ [] → all (noneof (cs "= ")) k →
  parse_digest_auth_param a ((if blank then cs " " else []) ++ field_text (k, v))
  = process_authorization_key_val a k (Some (quoted v)).
Proof.
  intros Hk Hc. unfold parse_digest_auth_param, field_text. cbn [fst snd]. rewrite app_assoc.
  rewrite split_key_val_eq.
  - cbn [fmap option_fmap option_map].
    assert (skip_blanks ((if blank then cs " " else []) ++ k) = k) as ->; [|done].
    unfold skip_blanks. destruct k as [|c k]; [done|].
    apply all_cons in Hc as [Hc _]. assert (Ascii.eqb " " c = false)
      by (apply negb_true_iff; by apply (byte_impl_dec (noneof (cs "= ")) (isnot " "))).
    destruct blank; cbn [cs list_ascii_of_string app]; [|by rewrite dropp_stop].
    change (dropp (Ascii.eqb " ") (" "%char :: c :: k)) with (dropp (Ascii.eqb " ") (c :: k)).
    by rewrite dropp_stop.
  - intros [_ ?]%app_nil. done.
  - apply all_app. split; [by destruct blank|]. by eapply all_impl_dec, Hc.
  - done.
Qed.

Definition read_field (a : rtsp_authorization_header) (f : cstr * option cstr)
    : rtsp_authorization_header :=
  match snd f with
  | Some v => process_authorization_key_val a (fst f) (Some (quoted v))
  | None => a
  end.

Definition field_ok (f : cstr * option cstr) : Prop :=
  fst f ≠ [] ∧ all (noneof (cs "=, ")) (fst f) ∧ short_opt (snd f) = true.

Lemma join_blank t l :
  join (cs ", ") (t :: l) = join (cs ",") (t :: map (fun u => cs " " ++ u) l).
Proof.
  rewrite !join_concat. f_equal. rewrite map_map. f_equal.
Qed.

Lemma read_fields fields a :
  Forall field_ok fields →
  fold_left parse_digest_auth_param (tokens (cs ",") (fields_text fields)) a
  = fold_left read_field fields a.
Proof.
  intros Hok. unfold fields_text.
  assert (∀ l, Forall (fun f => fst f ≠ [] ∧ all (noneof (cs "=, ")) (fst f) ∧
              short_field (snd f) = true) l →
    tokens (cs ",") (join (cs ", ") (field_text <$> l))
    = match field_text <$> l with t :: u => t :: map (fun x => cs " " ++ x) u | [] => [] end) as Htok.
  { intros l Hl. assert (Forall (fun t => t ≠ [] ∧ all (noneof (cs ",")) t) (field_text <$> l)) as HF.
    { apply Forall_fmap. eapply Forall_impl; [exact Hl|]. intros [k v] (Hk & Hkc & Hv).
      cbn [fst snd] in *. unfold short_field in Hv. apply andb_true_iff in Hv as [Hv _].
      unfold compose, field_text. cbn [fst snd]. split; [by destruct k|].
      rewrite !all_app. split_and!; [by eapply all_impl_dec, Hkc|done|].
      unfold quoted. apply all_cons. split; [done|]. by rewrite all_app. }
    destruct (field_text <$> l) as [|t u]; [done|]. rewrite join_blank.
    apply (tokens_join (cs ",") ","); [done|]. apply Forall_cons in HF as [Ht Hu].
    constructor; [done|]. change (map (fun x => cs " " ++ x) u) with ((fun x => cs " " ++ x) <$> u).
    apply Forall_fmap.
    eapply Forall_impl; [exact Hu|]. intros x [? ?]. unfold compose. split; [done|].
    by rewrite all_app. }
  rewrite Htok.
  2:{ clear -Hok. induction Hok as [|[k [v|]] l (Hk & Hc & Hv) _ IH]; [constructor| |exact IH].
      cbn. constructor; [|exact IH]. done. }
  assert (∀ l a, Forall field_ok l →
    fold_left parse_digest_auth_param
      (map (fun x => cs " " ++ x) (field_text <$> omap present l)) a
    = fold_left read_field l a) as Hrest.
  { clear. intros l a Hl. revert a. induction Hl as [|[k [v|]] l (Hk & Hc & _) Hl IH];
      intros a; [done| |by apply IH].
    cbn [omap list_omap present snd fst mbind option_bind]. rewrite fmap_cons.
    cbn [map fold_left]. rewrite IH.
    rewrite (parse_digest_auth_param_field a k v true); [done|done|]. by eapply all_impl_dec, Hc. }
  induction Hok as [|[k [v|]] l (Hk & Hc & _) Hl IH]; [done| |by apply IH].
  cbn [omap list_omap present snd fst mbind option_bind]. rewrite fmap_cons.
  cbn [fold_left]. rewrite Hrest by done.
  f_equal. apply (parse_digest_auth_param_field a k v false); [done|]. by eapply all_impl_dec, Hc.
Qed.

Lemma wf_digest_elim a : wf_digest a = true →
  au_type a = RTSP_AUTH_TYPE_DIGEST ∧ (∃ c r, au_response a = Some (c :: r)) ∧
  Forall (fun o => short_opt o = true)
    [au_username a; au_realm a; au_nonce a; au_uri a; au_response a; au_opaque a; au_cnonce a] ∧
  0 <= au_nc a <= UINT_MAX.
Proof.
  unfold wf_digest. intros H. bool_to_prop. split_and!; try done.
  - destruct (au_response a) as [[|c r]|]; [done|eauto|done].
  - repeat constructor; done.
Qed.

Lemma nc_str_ok n :
  0 <= n <= UINT_MAX →
  rtsp_auth_nc_str 9 n = Ok (fmt_08x n) ∧ short_field (fmt_08x n) = true ∧
  read_nc (fmt_08x n) = Some n.
Proof.
  intros Hn. destruct (fmt_hex_spec false 8 n ltac:(lia)) as (H1 & H2 & H3).
  fold (fmt_08x n) in H1, H2, H3.
  assert (length (fmt_08x n) = 8%nat) as Hl.
  { unfold fmt_08x, zero_pad. rewrite length_app, length_replicate.
    assert (length (to_base false 16 n) ≤ 8)%nat; [|lia].
    unfold to_base. apply to_base_fuel_length; [lia|]. unfold UINT_MAX in Hn. simpl. lia. }
  unfold rtsp_auth_nc_str, short_field, Zlen. rewrite Hl. split_and!; [done| |].
  - apply andb_true_iff. split; [|done]. by eapply all_impl_dec, H2.
  - unfold UINT_MAX in Hn.
    unfold read_nc. rewrite <- (app_nil_r (fmt_08x n)).
    assert (scan_number 16 (fmt_08x n ++ []) = Some (false, n, [])) as E.
    { rewrite scan_number_digits by (done || lia). by rewrite H1. }
    rewrite E, bool_decide_eq_false_2 by done. unfold fmt_08x.
    rewrite strtoul_fmt_hex by (done || unfold ULONG_MAX; lia).
    change (streq [] []) with true. change (0 =? ERANGE) with false.
    destruct (UINT_MAX <? n) eqn:E2; [|done]. bool_to_prop. unfold UINT_MAX in *. lia.
Qed.

Lemma strip_quotes_short v : short_field v = true → strip_quotes (Some (quoted v)) = Some v.
Proof. intros H. apply strip_quotes_quoted. unfold short_field in H. by bool_to_prop. Qed.

Lemma digest_fields_ok a : wf_digest a = true → Forall field_ok (digest_fields a).
Proof.
  intros Hwf. destruct (wf_digest_elim a Hwf) as (_ & _ & HF & Hn).
  destruct (nc_str_ok _ Hn) as (En & Hns & _). unfold digest_fields. rewrite En.
  repeat match goal with H : Forall _ (_ :: _) |- _ => apply Forall_cons in H as [? H] end.
  assert (∀ b (o : option cstr), short_opt o = true → short_opt (opt_when b o) = true) as Hw
    by (by intros [] o).
  repeat constructor; cbn [fst snd]; try done; try (by apply Hw).
  - apply Hw. by destruct (au_algorithm a).
  - by destruct (au_opaque a) as [[|? ?]|].
  - apply Hw. by destruct (au_qop a).
Qed.

(** The effect of each field on a header that does not have it yet. *)
Section fields.
Context (ty : rtsp_auth_type) (al : rtsp_auth_algorithm) (us ur re cn : option cstr) (nc : Z)
  (cr rl no op : option cstr) (qo : rtsp_auth_qop).

Local Ltac field_step v := intros H;
  unfold read_field; cbn [fst snd]; unfold process_authorization_key_val; eval_streq;
  rewrite (strip_quotes_short v H).

Lemma field_username o : short_opt o = true →
  read_field (Auth ty al None ur re cn nc cr rl no op qo) (cs "username", o)
  = Auth ty al o ur re cn nc cr rl no op qo.
Proof. destruct o as [v|]; [|done]. by field_step v. Qed.

Lemma field_realm o : short_opt o = true →
  read_field (Auth ty al us ur re cn nc cr None no op qo) (cs "realm", o)
  = Auth ty al us ur re cn nc cr o no op qo.
Proof. destruct o as [v|]; [|done]. by field_step v. Qed.

Lemma field_nonce o : short_opt o = true →
  read_field (Auth ty al us ur re cn nc cr rl None op qo) (cs "nonce", o)
  = Auth ty al us ur re cn nc cr rl o op qo.
Proof. destruct o as [v|]; [|done]. by field_step v. Qed.

Lemma field_uri o : short_opt o = true →
  read_field (Auth ty al us None re cn nc cr rl no op qo) (cs "uri", o)
  = Auth ty al us o re cn nc cr rl no op qo.
Proof. destruct o as [v|]; [|done]. by field_step v. Qed.

Lemma field_response o : short_opt o = true →
  read_field (Auth ty al us ur None cn nc cr rl no op qo) (cs "response", o)
  = Auth ty al us ur o cn nc cr rl no op qo.
Proof. destruct o as [v|]; [|done]. by field_step v. Qed.

Lemma field_opaque o : short_opt o = true →
  read_field (Auth ty al us ur re cn nc cr rl no None qo) (cs "opaque", o)
  = Auth ty al us ur re cn nc cr rl no o qo.
Proof. destruct o as [v|]; [|done]. by field_step v. Qed.

Lemma field_cnonce o : short_opt o = true →
  read_field (Auth ty al us ur re None nc cr rl no op qo) (cs "cnonce", o)
  = Auth ty al us ur re o nc cr rl no op qo.
Proof. destruct o as [v|]; [|done]. by field_step v. Qed.

Lemma field_algorithm a :
  read_field (Auth ty RTSP_AUTH_ALGORITHM_UNSPECIFIED us ur re cn nc cr rl no op qo)
    (cs "algorithm", opt_when (algorithm_on_wire a) (rtsp_auth_algorithm_str a))
  = Auth ty (if algorithm_on_wire a then a else RTSP_AUTH_ALGORITHM_UNSPECIFIED)
      us ur re cn nc cr rl no op qo.
Proof. destruct a; vm_compute; reflexivity. Qed.

Lemma field_qop q :
  read_field (Auth ty al us ur re cn nc cr rl no op RTSP_AUTH_QOP_UNSPECIFIED)
    (cs "qop", opt_when (qop_on_wire q) (rtsp_auth_qop_str q))
  = Auth ty al us ur re cn nc cr rl no op
      (if qop_on_wire q then q else RTSP_AUTH_QOP_UNSPECIFIED).
Proof. destruct q; vm_compute; reflexivity. Qed.

Lemma field_nc (b : bool) n :
  0 <= n <= UINT_MAX →
  read_field (Auth ty al us ur re cn 0 cr rl no op qo)
    (cs "nc", opt_when b (match rtsp_auth_nc_str 9 n with Ok s => Some s | _ => None end))
  = Auth ty al us ur re cn (if b then n else 0) cr rl no op qo.
Proof.
  intros Hn. destruct b; [|done]. destruct (nc_str_ok n Hn) as (En & Hs & Er). rewrite En.
  revert Hs. cbn [opt_when]. field_step (fmt_08x n). by rewrite Er.
Qed.
End fields.

Lemma read_digest_fields a :
  wf_digest a = true →
  fold_left read_field (digest_fields a)
    (with_type RTSP_AUTH_TYPE_DIGEST rtsp_authorization_header_new) = digest_on_wire a.
Proof.
  intros Hwf. destruct (wf_digest_elim a Hwf) as (_ & _ & HF & Hn).
  repeat match goal with H : Forall _ (_ :: _) |- _ => apply Forall_cons in H as [? H] end.
  unfold digest_on_wire, with_type, rtsp_authorization_header_new, digest_fields. cbv zeta.
  fold (qop_on_wire (au_qop a)) (algorithm_on_wire (au_algorithm a)).
  cbn [fold_left au_algorithm au_username au_uri au_response au_cnonce au_nc au_credentials
    au_realm au_nonce au_opaque au_qop].
  assert (short_opt (when_nonempty (au_opaque a)) = true)
    by (by destruct (au_opaque a) as [[|? ?]|]).
  assert (short_opt (opt_when (qop_on_wire (au_qop a)) (au_cnonce a)) = true)
    by (by destruct (qop_on_wire (au_qop a))).
  rewrite field_username, field_realm, field_nonce, field_uri, field_response, field_algorithm,
    field_opaque, field_qop, field_cnonce, field_nc by done. done.
Qed.

Lemma rtsp_authorization_header_read_digest a :
  wf_digest a = true →
  rtsp_authorization_header_read (Some (text_of_digest a)) = Ok (digest_on_wire a).
Proof.
  intros Hwf. unfold text_of_digest. cbn [rtsp_authorization_header_read].
  change (cs "Digest " ++ ?x) with (cs "Digest" ++ " "%char :: x).
  rewrite strtok_r_app by done.
  change (strcaseeq (cs "Digest") (cs "Basic")) with false.
  change (strcaseeq (cs "Digest") (cs "Digest")) with true. cbn iota.
  rewrite read_fields by (by apply digest_fields_ok). by rewrite read_digest_fields.
Qed.

Definition text_of_digest_header (a : rtsp_authorization_header) : cstr :=
  cs "Authorization: " ++ text_of_digest a ++ [CR; LF].

Lemma rtsp_authorization_header_write_digest a c r :
  au_type a = RTSP_AUTH_TYPE_DIGEST → au_response a = Some (c :: r) →
  emits (rtsp_authorization_header_write (Some a)) (text_of_digest_header a) tt.
Proof.
  intros Ht Hr. cbn [rtsp_authorization_header_write]. rewrite Ht, Hr.
  pose proof (append_fields_emits (digest_fields a)).
  unfold text_of_digest_header, text_of_digest. emits_text.
Qed.

(** ** A header that can be written and read back *)

Definition wf_basic (a : rtsp_authorization_header) : bool :=
  bool_decide (au_type a = RTSP_AUTH_TYPE_BASIC)
  && match au_credentials a with
     | Some c => negb (streq c []) && forallb (isnot " ") c && negb (starts_with_case (cs "realm=") c)
     | None => false
     end.

Definition wf_authorization (a : rtsp_authorization_header) : bool := wf_digest a || wf_basic a.

Definition authorization_on_wire (a : rtsp_authorization_header) : rtsp_authorization_header :=
  match au_type a with
  | RTSP_AUTH_TYPE_DIGEST => digest_on_wire a
  | _ => with_auth_credentials (au_credentials a)
           (with_type RTSP_AUTH_TYPE_BASIC rtsp_authorization_header_new)
  end.

Definition text_of_authorization (a : rtsp_authorization_header) : cstr :=
  match au_type a with
  | RTSP_AUTH_TYPE_DIGEST => text_of_digest a
  | _ => cs "Basic " ++ default [] (au_credentials a)
  end.

Definition text_of_authorization_header (a : rtsp_authorization_header) : cstr :=
  cs "Authorization: " ++ text_of_authorization a ++ [CR; LF].

Lemma wf_basic_elim a : wf_basic a = true →
  au_type a = RTSP_AUTH_TYPE_BASIC ∧ ∃ c, au_credentials a = Some c ∧ c ≠ [] ∧
    all (isnot " ") c ∧ starts_with_case (cs "realm=") c = false.
Proof.
  unfold wf_basic. intros H. bool_to_prop. split; [done|].
  destruct (au_credentials a) as [c|]; [|done]. bool_to_prop. exists c.
  split_and!; try done. by apply streq_false.
Qed.

Lemma rtsp_authorization_header_write_emits a :
  wf_authorization a = true →
  emits (rtsp_authorization_header_write (Some a)) (text_of_authorization_header a) tt.
Proof.
  unfold wf_authorization, text_of_authorization_header, text_of_authorization.
  intros [Hd|Hb]%orb_true_iff.
  - destruct (wf_digest_elim a Hd) as (Ht & (c & r & Hr) & _). rewrite Ht.
    by eapply rtsp_authorization_header_write_digest.
  - destruct (wf_basic_elim a Hb) as (Ht & c & Hc & Hne & _).
    cbn [rtsp_authorization_header_write]. rewrite Ht, Hc. destruct c; [done|]. emits_text.
Qed.

Lemma rtsp_authorization_header_read_text a :
  wf_authorization a = true →
  rtsp_authorization_header_read (Some (text_of_authorization a)) = Ok (authorization_on_wire a).
Proof.
  unfold wf_authorization, text_of_authorization, authorization_on_wire.
  intros [Hd|Hb]%orb_true_iff.
  - destruct (wf_digest_elim a Hd) as (Ht & _). rewrite Ht.
    by apply rtsp_authorization_header_read_digest.
  - destruct (wf_basic_elim a Hb) as (Ht & c & Hc & Hne & Hsp & Hre). rewrite Ht, Hc.
    change (default [] (Some c)) with c. cbn [rtsp_authorization_header_read].
    change (cs "Basic " ++ c) with (cs "Basic" ++ " "%char :: c).
    rewrite strtok_r_app by done. change (strcaseeq (cs "Basic") (cs "Basic")) with true.
    cbn iota. unfold strtok_tok. rewrite strtok_r_last;
      [|done|by eapply all_impl_dec, Hsp].
    cbn [fmap option_fmap option_map fst]. by rewrite Hre.
Qed.

#[export] Hint Resolve rtsp_authorization_header_write_emits : writer.

(** C32: a Digest header with a response, whose string fields have no comma and
    are shorter than [PATH_MAX - 2], is written as one [Authorization] line that
    the reader parses back to the same fields: [cnonce] and [nc] travel only
    with a [qop], the request counter as eight hexadecimal digits. *)
Theorem rtsp_authorization_digest_roundtrip a :
  wf_digest a = true →
  emits (rtsp_authorization_header_write (Some a)) (text_of_digest_header a) tt ∧
  rtsp_authorization_header_read (Some (text_of_digest a)) = Ok (digest_on_wire a).
Proof.
  intros Hwf. split; [|by apply rtsp_authorization_header_read_digest].
  destruct (wf_digest_elim a Hwf) as (Ht & (c & r & Hr) & _).
  by eapply rtsp_authorization_header_write_digest.
Qed.

Definition sample_digest : rtsp_authorization_header :=
  Auth RTSP_AUTH_TYPE_DIGEST RTSP_AUTH_ALGORITHM_MD5_SESS (Some (cs "us=er")) (Some (cs "rtsp://h/p"))
    (Some (cs "6629fae49393a05397450978507c4ef1")) (Some (cs "0a4f113b")) 17 None
    (Some (cs "my realm")) (Some (cs "dcd98b")) (Some []) RTSP_AUTH_QOP_AUTH.

Lemma rtsp_authorization_digest_roundtrip_witness :
  wf_digest sample_digest = true ∧
  emits (rtsp_authorization_header_write (Some sample_digest))
    (text_of_digest_header sample_digest) tt ∧
  rtsp_authorization_header_read (Some (text_of_digest sample_digest))
  = Ok (digest_on_wire sample_digest).
Proof.
  split; [vm_compute; reflexivity|].
  apply (rtsp_authorization_digest_roundtrip sample_digest). vm_compute. reflexivity.
Defined.

(** What the authorization writer does with a header it cannot write: a
    Basic header without credentials and a header of unknown type fail with
    -EPROTO after the header name has been written; a Digest header without a
    response succeeds, leaving an [Authorization] line without value and
    without end of line. *)
Theorem rtsp_authorization_header_write_incomplete a s :
  wf_string s → fits s (cs "Authorization: ") →
  let s' := append s (cs "Authorization: ") in
  match au_type a with
  | RTSP_AUTH_TYPE_UNKNOWN =>
      rtsp_authorization_header_write (Some a) s = (Err EPROTO, s')
  | RTSP_AUTH_TYPE_BASIC =>
      default [] (au_credentials a) = [] →
      rtsp_authorization_header_write (Some a) s = (Err EPROTO, s')
  | RTSP_AUTH_TYPE_DIGEST =>
      default [] (au_response a) = [] →
      rtsp_authorization_header_write (Some a) s = (Ok tt, s')
  end.
Proof.
  intros Hwf Hf s'. assert (rtsp_sprintf (cs "Authorization: ") s = (Ok tt, s')) as E
    by (by apply (emits_ok _ _ _ _ (emits_sprintf _))).
  unfold rtsp_authorization_header_write. unfold mbind, writer_bind. rewrite E.
  destruct (au_type a); [done| |].
  - by destruct (au_credentials a) as [[|? ?]|].
  - by destruct (au_response a) as [[|? ?]|].
Qed.

Lemma rtsp_authorization_header_write_incomplete_witness :
  rtsp_authorization_header_write (Some (with_type RTSP_AUTH_TYPE_DIGEST
    rtsp_authorization_header_new)) (RtspString [] 64)
  = (Ok tt, RtspString (cs "Authorization: ") 64).
Proof.
  apply (rtsp_authorization_header_write_incomplete
    (with_type RTSP_AUTH_TYPE_DIGEST rtsp_authorization_header_new) (RtspString [] 64));
    vm_compute; done.
Defined.

(** A [qop] list in a Digest challenge and a Basic realm with a blank are
    cut at the comma and at the blank inside their quotes: the first is read as
    an unknown [qop], which the response generation refuses, the second as a
    realm that starts with a quote. *)
Theorem rtsp_authorization_quoted_separators :
  (∃ a, rtsp_authorization_header_read
          (Some (cs "Digest realm=" ++ quoted (cs "r") ++ cs ", qop=" ++ quoted (cs "auth,auth-int")))
        = Ok a ∧ au_realm a = Some (cs "r") ∧ au_qop a = RTSP_AUTH_QOP_UNKNOWN) ∧
  (∃ a, rtsp_authorization_header_read (Some (cs "Basic realm=" ++ quoted (cs "My Camera"))) = Ok a ∧
        au_realm a = Some (DQUOTE :: cs "My")).
Proof. split; eexists; (split_and!; [vm_compute; reflexivity..]). Qed.
