(* ===== verification/Auth.v ===== *)
(** * Generation of the authorization responses ([rtsp_auth.c])

    [rtsp_auth_generate_basic_response] and
    [rtsp_auth_generate_digest_response].  Both modify the header in place and
    can fail halfway: the model returns the [int] result with the header as it
    is left.  MD5 (OpenSSL's [EVP_*] calls, [None] when one of them fails) and
    the random string of [futils_random_base16] are parameters. *)

From S2P Require Import Prelude CString CNumber Writer Base64 Methods AuthHeader.
From stdpp Require Import options.

Local Open Scope Z_scope.

(** ** Basic *)

(** [asprintf] gives at least the colon, so its result is positive. *)
Definition rtsp_auth_generate_basic_response (auth : option rtsp_authorization_header)
    (password : option cstr) : res unit * option rtsp_authorization_header :=
  match auth, password with
  | Some a, Some pw =>
      if negb (bool_decide (au_type a = RTSP_AUTH_TYPE_BASIC)) then (Err EINVAL, auth)
      else match au_username a with
           | None => (Err EINVAL, auth)
           | Some username =>
               match rtsp_base64_encode (Some (username ++ cs ":" ++ pw)) with
               | Ok credentials => (Ok tt, Some (with_auth_credentials (Some credentials) a))
               | Err e => (Err e, auth)
               | Undef => (Undef, auth)
               end
           end
  | _, _ => (Err EINVAL, auth)
  end.

(** ** Digest *)

Definition with_cnonce (c : option cstr) (a : rtsp_authorization_header) :=
  Auth (au_type a) (au_algorithm a) (au_username a) (au_uri a) (au_response a) c (au_nc a)
    (au_credentials a) (au_realm a) (au_nonce a) (au_opaque a) (au_qop a).
Definition with_nc (n : Z) (a : rtsp_authorization_header) :=
  Auth (au_type a) (au_algorithm a) (au_username a) (au_uri a) (au_response a) (au_cnonce a) n
    (au_credentials a) (au_realm a) (au_nonce a) (au_opaque a) (au_qop a).
Definition with_response (r : option cstr) (a : rtsp_authorization_header) :=
  Auth (au_type a) (au_algorithm a) (au_username a) (au_uri a) r (au_cnonce a) (au_nc a)
    (au_credentials a) (au_realm a) (au_nonce a) (au_opaque a) (au_qop a).

Section md5.
(** The MD5 digest of a buffer; the result of [futils_random_base16(.., 17, 8)];
    the string a fresh [malloc] buffer happens to hold. *)
Context (md5 : bytes → option bytes) (random_base16 : res cstr) (uninit : cstr).

(** [buf] holds 1024 bytes; [text] is what the format expands to. *)
Definition md5_hex_fmt (text : cstr) : res cstr :=
  if 1024 <=? Zlen text then Err EINVAL
  else match md5 text with
       | None => Err EPROTO
       | Some digest => Ok (concat (map (fun c => fmt_02x (code c)) (take 16 digest)))
       end.

(** ["%s:%s:..."] *)
Definition colons (l : list cstr) : cstr := join (cs ":") l.

(** The checks that come before anything is modified. *)
Definition digest_checks (a : rtsp_authorization_header)
    : res (cstr * cstr * cstr * cstr) :=
  return_err_if (negb (bool_decide (au_type a = RTSP_AUTH_TYPE_DIGEST))) EINVAL;;
  match au_username a, au_realm a, au_uri a, au_nonce a with
  | Some username, Some realm, Some uri, Some nonce =>
      let nonce_len := strnlen nonce 256 in
      return_err_if ((nonce_len =? 0) || (256 <? nonce_len)) EINVAL;;
      return_err_if (bool_decide (au_algorithm a = RTSP_AUTH_ALGORITHM_UNKNOWN)) EINVAL;;
      return_err_if (bool_decide (au_qop a = RTSP_AUTH_QOP_UNKNOWN)) EINVAL;;
      return_err_if (bool_decide (au_qop a = RTSP_AUTH_QOP_AUTH_INT)) ENOSYS;;
      Ok (username, realm, uri, nonce)
  | _, _, _, _ => Err EINVAL
  end.

(** The client nonce, drawn only when there is none. *)
Definition digest_cnonce (a : rtsp_authorization_header) : res cstr :=
  match au_cnonce a with
  | None | Some [] => random_base16
  | Some c =>
      let cnonce_len := strnlen c 64 in
      if (cnonce_len <? 4) || (64 <? cnonce_len) then Err EINVAL else Ok c
  end.

Definition next_nc (nc : Z) : Z :=
  let nc := u32 (nc + 1) in if nc =? 0 then 1 else nc.

Definition digest_ha1 (username realm password nonce cnonce : cstr)
    (algorithm : rtsp_auth_algorithm) : res cstr :=
  ha1 ← md5_hex_fmt (colons [username; realm; password]);
  if bool_decide (algorithm = RTSP_AUTH_ALGORITHM_MD5_SESS)
  then md5_hex_fmt (colons [ha1; nonce; cnonce]) else Ok ha1.

(** The final [switch (auth->qop)]. *)
Definition digest_final (ha1 ha2 nonce nc_str cnonce : cstr) (qop : rtsp_auth_qop) : res cstr :=
  match qop with
  | RTSP_AUTH_QOP_UNSPECIFIED => md5_hex_fmt (colons [ha1; nonce; ha2])
  | RTSP_AUTH_QOP_AUTH => md5_hex_fmt (colons [ha1; nonce; nc_str; cnonce; cs "auth"; ha2])
  | _ => Err ENOSYS
  end.

(** The 33 bytes of a response over a string of [old] characters, whose buffer
    has one byte more: [Undef] when they do not fit. *)
Definition store_response (fresh : bool) (old response : cstr) : res cstr :=
  if negb fresh && (Zlen old <? 32) then Undef else Ok response.

(** From the hashes on; [a] has its client nonce and counter. *)
Definition digest_compute (a : rtsp_authorization_header)
    (username realm password uri nonce cnonce nc_str method : cstr)
    : res unit * rtsp_authorization_header :=
  match (ha1 ← digest_ha1 username realm password nonce cnonce (au_algorithm a);
         ha2 ← md5_hex_fmt (colons [method; uri]); Ok (ha1, ha2)) with
  | Err e => (Err e, a)
  | Undef => (Undef, a)
  | Ok (ha1, ha2) =>
      let fresh := bool_decide (au_response a = None) in
      let old := default uninit (au_response a) in
      let a := with_response (Some old) a in
      match (response ← digest_final ha1 ha2 nonce nc_str cnonce (au_qop a);
             store_response fresh old response) with
      | Ok response => (Ok tt, with_response (Some response) a)
      | Err e => (Err e, a)
      | Undef => (Undef, a)
      end
  end.

Definition rtsp_auth_generate_digest_response (auth : option rtsp_authorization_header)
    (password : option cstr) (method_type : rtsp_method_type)
    : res unit * option rtsp_authorization_header :=
  match auth, password with
  | Some a, Some pw =>
      match (fields ← digest_checks a; cnonce ← digest_cnonce a; Ok (fields, cnonce)) with
      | Err e => (Err e, auth)
      | Undef => (Undef, auth)
      | Ok ((username, realm, uri, nonce), cnonce) =>
          let a := with_nc (next_nc (au_nc a)) (with_cnonce (Some cnonce) a) in
          match rtsp_auth_nc_str 9 (au_nc a) with
          | Err e => (Err e, Some a)
          | Undef => (Undef, Some a)
          | Ok nc_str =>
              let '(r, a) := digest_compute a username realm pw uri nonce cnonce nc_str
                               (rtsp_method_type_str method_type) in
              (r, Some a)
          end
      end
  | _, _ => (Err EINVAL, auth)
  end.
End md5.

(** ** Basic: theorem *)

Lemma tolower_not_eq c : tolower c = "="%char → c = "="%char.
Proof. by byte_cases c. Qed.

(** The comment in [rtsp_authorization_header_read]: encoded credentials never
    look like the [realm=] of a challenge. *)
Lemma encode_groups_not_realm data : starts_with_case (cs "realm=") (encode_groups data) = false.
Proof.
  destruct (starts_with_case (cs "realm=") (encode_groups data)) eqn:E; [|done]. exfalso.
  unfold starts_with_case in E. apply starts_with_true in E as [t E].
  assert (nth_error (lower (encode_groups data)) 5 = Some "="%char) as Hn by (by rewrite E).
  unfold lower in Hn. rewrite nth_error_map in Hn.
  destruct (nth_error (encode_groups data) 5) as [c|] eqn:Ec; [|done].
  injection Hn as Hn. by eapply encode_groups_nth5, tolower_not_eq.
Qed.

Definition text_of_basic_header (credentials : cstr) : cstr :=
  cs "Authorization: " ++ (cs "Basic " ++ credentials) ++ [CR; LF].

(** For a Basic header with a user name, and up to 3072 bytes of
    [user:password], the generated credentials decode to [user:password], are
    written in the Authorization line, and are what the reader of that line
    gets: they are never taken for the [realm=] parameter of a challenge. *)
Theorem rtsp_auth_basic_end_to_end a username password :
  au_type a = RTSP_AUTH_TYPE_BASIC → au_username a = Some username →
  Zlen (username ++ cs ":" ++ password) <= 3072 →
  ∃ c, let a' := with_auth_credentials (Some c) a in
    rtsp_auth_generate_basic_response (Some a) (Some password) = (Ok tt, Some a') ∧
    rtsp_base64_decode (Some c) = Ok (username ++ cs ":" ++ password) ∧
    emits (rtsp_authorization_header_write (Some a')) (text_of_basic_header c) tt ∧
    rtsp_authorization_header_read (Some (cs "Basic " ++ c))
    = Ok (with_auth_credentials (Some c)
            (with_type RTSP_AUTH_TYPE_BASIC rtsp_authorization_header_new)).
Proof.
  intros Ht Hu Hl. set (data := username ++ cs ":" ++ password) in *.
  assert (0 < Zlen data) as Hpos.
  { subst data. rewrite !Zlen_app. change (Zlen (cs ":")) with 1.
    pose proof (Zlen_nonneg username). pose proof (Zlen_nonneg password). lia. }
  destruct (base64_encode_decode data ltac:(lia)) as (He & _ & Hd).
  pose proof (encode_groups_chars data) as Hc. pose proof (encode_groups_length data) as Hg.
  exists (encode_groups data). intros a'. split_and!; [|done| |].
  - unfold rtsp_auth_generate_basic_response. rewrite Ht, Hu. cbn [negb].
    rewrite bool_decide_eq_true_2 by done. fold data. by rewrite He.
  - cbn [rtsp_authorization_header_write]. subst a'. unfold text_of_basic_header.
    cbn [with_auth_credentials au_type au_credentials]. rewrite Ht.
    destruct (encode_groups data) as [|c s]; [rewrite Zlen_nil in Hg; dlia|]. emits_text.
  - cbn [rtsp_authorization_header_read].
    change (cs "Basic " ++ ?x) with (cs "Basic" ++ " "%char :: x).
    rewrite strtok_r_app by done. change (strcaseeq (cs "Basic") (cs "Basic")) with true.
    cbn iota. unfold strtok_tok. rewrite strtok_r_last.
    + cbn [fmap option_fmap option_map fst]. by rewrite encode_groups_not_realm.
    + intros E. rewrite E, Zlen_nil in Hg. dlia.
    + by eapply all_impl_dec, Hc.
Qed.

Definition sample_basic : rtsp_authorization_header :=
  Auth RTSP_AUTH_TYPE_BASIC RTSP_AUTH_ALGORITHM_UNSPECIFIED (Some (cs "admin")) None None None 0
    None None None None RTSP_AUTH_QOP_UNSPECIFIED.

Lemma rtsp_auth_basic_end_to_end_witness :
  ∃ c, let a' := with_auth_credentials (Some c) sample_basic in
    rtsp_auth_generate_basic_response (Some sample_basic) (Some (cs "secret"))
    = (Ok tt, Some a') ∧
    rtsp_base64_decode (Some c) = Ok (cs "admin" ++ cs ":" ++ cs "secret") ∧
    emits (rtsp_authorization_header_write (Some a')) (text_of_basic_header c) tt ∧
    rtsp_authorization_header_read (Some (cs "Basic " ++ c))
    = Ok (with_auth_credentials (Some c)
            (with_type RTSP_AUTH_TYPE_BASIC rtsp_authorization_header_new)).
Proof.
  apply (rtsp_auth_basic_end_to_end sample_basic (cs "admin") (cs "secret"));
    [reflexivity|reflexivity|vm_compute; discriminate].
Defined.

(** ** Digest: theorems *)

Lemma fmt_02x_length n : 0 <= n < 256 → length (fmt_02x n) = 2%nat.
Proof.
  intros Hn. unfold fmt_02x, zero_pad. rewrite length_app, length_replicate.
  assert (length (to_base false 16 n) ≤ 2)%nat; [|lia].
  unfold to_base. apply to_base_fuel_length; [lia|]. simpl. lia.
Qed.

Lemma hex_length (l : bytes) :
  length (concat (map (fun c => fmt_02x (code c)) l)) = (2 * length l)%nat.
Proof.
  induction l as [|c l IH]; [done|]. cbn [map concat]. rewrite length_app, IH.
  rewrite fmt_02x_length by apply code_range. simpl. lia.
Qed.

Lemma next_nc_range n : 0 <= n <= UINT_MAX → 1 <= next_nc n <= UINT_MAX.
Proof.
  intros Hn. unfold next_nc. pose proof (wrapu_range 32 (n + 1) ltac:(lia)) as Hr.
  unfold UINT_MAX in *. simpl in Hr.
  destruct (u32 (n + 1) =? 0) eqn:E; bool_to_prop; lia.
Qed.

(** The fields that have to be set, and bounds that keep the hashed texts
    within their buffer of 1024 bytes. *)
Record digest_ready (a : rtsp_authorization_header) (password : cstr) : Prop := DigestReady {
  dr_type : au_type a = RTSP_AUTH_TYPE_DIGEST;
  dr_username : is_Some (au_username a);
  dr_realm : is_Some (au_realm a);
  dr_uri : is_Some (au_uri a);
  dr_nonce : is_Some (au_nonce a) ∧ au_nonce a ≠ Some [];
  dr_algorithm : au_algorithm a ≠ RTSP_AUTH_ALGORITHM_UNKNOWN;
  dr_qop : au_qop a = RTSP_AUTH_QOP_UNSPECIFIED ∨ au_qop a = RTSP_AUTH_QOP_AUTH;
  dr_cnonce : default [] (au_cnonce a) = [] ∨ 4 <= Zlen (default [] (au_cnonce a));
  dr_nc : 0 <= au_nc a <= UINT_MAX;
  dr_a1 : Zlen (default [] (au_username a)) + Zlen (default [] (au_realm a))
          + Zlen password <= 1000;
  dr_a2 : Zlen (default [] (au_uri a)) <= 1000;
  dr_nonces : Zlen (default [] (au_nonce a)) <= 800 ∧ Zlen (default [] (au_cnonce a)) <= 100;
  dr_response : au_response a = None ∨ 32 <= Zlen (default [] (au_response a))
}.

(** The client nonce in use: the one the header has, or the random one. *)
Definition used_cnonce (a : rtsp_authorization_header) (random : cstr) : cstr :=
  match au_cnonce a with None | Some [] => random | Some c => c end.

Section digest.
Context (md5 : bytes → option bytes).

(** [H(data)] of RFC 2617: the digest in lower-case hexadecimal. *)
Definition H_hex (s : cstr) : cstr :=
  concat (map (fun c => fmt_02x (code c)) (default [] (md5 s))).

(** The [request-digest] of RFC 2617, section 3.2.2, for [qop] absent or
    [auth]. *)
Definition rfc2617_response (a : rtsp_authorization_header) (password method : cstr) : cstr :=
  let get := default [] in
  let a1 := join (cs ":") [get (au_username a); get (au_realm a); password] in
  let ha1 := if bool_decide (au_algorithm a = RTSP_AUTH_ALGORITHM_MD5_SESS)
             then H_hex (join (cs ":") [H_hex a1; get (au_nonce a); get (au_cnonce a)])
             else H_hex a1 in
  let ha2 := H_hex (join (cs ":") [method; get (au_uri a)]) in
  if bool_decide (au_qop a = RTSP_AUTH_QOP_AUTH)
  then H_hex (join (cs ":") [ha1; get (au_nonce a); fmt_08x (au_nc a); get (au_cnonce a);
                             cs "auth"; ha2])
  else H_hex (join (cs ":") [ha1; get (au_nonce a); ha2]).

(** MD5 digests have 16 bytes and OpenSSL computes them. *)
Context (md5_16 : ∀ s, ∃ d, md5 s = Some d ∧ length d = 16%nat).

Lemma H_hex_length s : Zlen (H_hex s) = 32.
Proof using md5_16.
  unfold H_hex, Zlen. destruct (md5_16 s) as (d & -> & Hd). cbn [default from_option]. unfold id.
  rewrite hex_length, Hd. done.
Qed.

Lemma md5_hex_fmt_ok s : Zlen s < 1024 → md5_hex_fmt md5 s = Ok (H_hex s).
Proof using md5_16.
  intros Hl. unfold md5_hex_fmt, H_hex. destruct (1024 <=? Zlen s) eqn:E; bool_to_prop; [lia|].
  destruct (md5_16 s) as (d & -> & Hd). cbn [default from_option]. unfold id.
  by rewrite take_ge by lia.
Qed.

Lemma digest_checks_ok a password :
  digest_ready a password →
  digest_checks a = Ok (default [] (au_username a), default [] (au_realm a),
                        default [] (au_uri a), default [] (au_nonce a)).
Proof using Type.
  intros [Ht [us Hus] [rl Hrl] [ur Hur] [[no Hno] Hne] Hal Hqo _ _ _ _ _ _].
  unfold digest_checks. rewrite Hus, Hrl, Hur, Hno. rewrite Hno in Hne.
  rewrite (bool_decide_eq_true_2 (au_type a = RTSP_AUTH_TYPE_DIGEST)) by done.
  rewrite (bool_decide_eq_false_2 (au_algorithm a = RTSP_AUTH_ALGORITHM_UNKNOWN)) by done.
  rewrite (bool_decide_eq_false_2 (au_qop a = RTSP_AUTH_QOP_UNKNOWN)) by (destruct Hqo; congruence).
  rewrite (bool_decide_eq_false_2 (au_qop a = RTSP_AUTH_QOP_AUTH_INT)) by (destruct Hqo; congruence).
  assert (((strnlen no 256 =? 0) || (256 <? strnlen no 256)) = false) as ->; [|done].
  unfold strnlen. apply orb_false_iff.
  destruct no as [|c no]; [done|]. rewrite Zlen_cons. pose proof (Zlen_nonneg no).
  split; [apply Z.eqb_neq|apply Z.ltb_ge]; lia.
Qed.

Lemma digest_cnonce_ok a password random :
  digest_ready a password → digest_cnonce (Ok random) a = Ok (used_cnonce a random).
Proof using Type.
  intros Hr. pose proof (dr_cnonce _ _ Hr) as Hc. unfold digest_cnonce, used_cnonce.
  destruct (au_cnonce a) as [[|c s]|]; [done| |done].
  cbn [default from_option] in Hc. unfold id in Hc. destruct Hc as [|Hc]; [done|].
  unfold strnlen. assert (((Z.min (Zlen (c :: s)) 64 <? 4) || (64 <? Z.min (Zlen (c :: s)) 64))
    = false) as ->; [|done].
  apply orb_false_iff. split; apply Z.ltb_ge; lia.
Qed.

Lemma Zlen_colons2 s t : Zlen (colons [s; t]) = Zlen s + Zlen t + 1.
Proof using Type. unfold colons. cbn [join]. autorewrite with zlen. change (Zlen (cs ":")) with 1. lia. Qed.

Lemma Zlen_colons3 s t u : Zlen (colons [s; t; u]) = Zlen s + Zlen t + Zlen u + 2.
Proof using Type. unfold colons. cbn [join]. autorewrite with zlen. change (Zlen (cs ":")) with 1. lia. Qed.

Lemma Zlen_colons6 s t u v w x :
  Zlen (colons [s; t; u; v; w; x]) = Zlen s + Zlen t + Zlen u + Zlen v + Zlen w + Zlen x + 5.
Proof using Type. unfold colons. cbn [join]. autorewrite with zlen. change (Zlen (cs ":")) with 1. lia. Qed.

Lemma method_str_length m : Zlen (rtsp_method_type_str m) <= 13.
Proof using Type. destruct m; vm_compute; discriminate. Qed.

(** The computation on a header that has its client nonce and counter. *)
Lemma digest_compute_ok uninit a password cnonce method :
  digest_ready a password → au_cnonce a = Some cnonce →
  digest_compute md5 uninit a (default [] (au_username a)) (default [] (au_realm a)) password
    (default [] (au_uri a)) (default [] (au_nonce a)) cnonce (fmt_08x (au_nc a))
    (rtsp_method_type_str method)
  = (Ok tt, with_response
       (Some (rfc2617_response a password (rtsp_method_type_str method))) a).
Proof using md5_16.
  intros [Ht _ _ _ _ Hal Hqo _ Hnc H1 H2 H3 Hre] Hcn.
  pose proof (method_str_length method) as Hm. rewrite Hcn in H3.
  change (default [] (Some cnonce)) with cnonce in H3. pose proof (Zlen_nonneg cnonce). pose proof (Zlen_nonneg (default [] (au_nonce a))).
  assert (Zlen (fmt_08x (au_nc a)) = 8) as Hn8.
  { destruct (nc_str_ok _ Hnc) as (E & _). unfold rtsp_auth_nc_str in E.
    unfold Zlen, fmt_08x, zero_pad. rewrite length_app, length_replicate.
    assert (length (to_base false 16 (au_nc a)) ≤ 8)%nat; [|lia].
    unfold to_base. apply to_base_fuel_length; [lia|]. unfold UINT_MAX in Hnc. simpl. lia. }
  unfold digest_compute, digest_ha1.
  rewrite (md5_hex_fmt_ok (colons [default [] (au_username a); default [] (au_realm a); password]))
    by (rewrite Zlen_colons3; lia). cbn [mbind res_bind].
  unfold rfc2617_response. rewrite Hcn. change (default [] (Some cnonce)) with cnonce.
  fold (colons [default [] (au_username a); default [] (au_realm a); password]).
  set (A1 := H_hex (colons [default [] (au_username a); default [] (au_realm a); password])).
  assert ((if bool_decide (au_algorithm a = RTSP_AUTH_ALGORITHM_MD5_SESS)
    then md5_hex_fmt md5 (colons [A1; default [] (au_nonce a); cnonce]) else Ok A1)
    = Ok (if bool_decide (au_algorithm a = RTSP_AUTH_ALGORITHM_MD5_SESS)
          then H_hex (colons [A1; default [] (au_nonce a); cnonce]) else A1)) as ->.
  { destruct (bool_decide _); [|done]. apply md5_hex_fmt_ok. rewrite Zlen_colons3.
    subst A1. rewrite H_hex_length. lia. }
  cbn [mbind res_bind]. set (HA1 := if bool_decide _ then _ else A1).
  assert (Zlen HA1 = 32) as HL
    by (subst HA1 A1; destruct (bool_decide _); apply H_hex_length).
  rewrite (md5_hex_fmt_ok (colons [_; _])) by (rewrite Zlen_colons2; lia). cbn [mbind res_bind].
  set (HA2 := H_hex (colons [_; _])).
  assert (Zlen HA2 = 32) as HL2 by (apply H_hex_length).
  assert (∀ r, store_response (bool_decide (au_response a = None))
    (default uninit (au_response a)) r = Ok r) as Hst.
  { intros r. unfold store_response. destruct Hre as [-> |Hre]; [done|].
    destruct (au_response a) as [old|]; [|done]. cbn [default from_option] in *. unfold id in *.
    destruct (Zlen old <? 32) eqn:E; bool_to_prop; [lia|]. by rewrite andb_false_r. }
  unfold digest_final. change (au_qop (with_response _ a)) with (au_qop a).
  destruct Hqo as [-> | ->].
  - rewrite (md5_hex_fmt_ok (colons [_; _; _])) by (rewrite Zlen_colons3; lia). cbn [mbind res_bind].
    rewrite Hst. by destruct a.
  - rewrite (md5_hex_fmt_ok (colons [_; _; _; _; _; _])) by (rewrite Zlen_colons6; change (Zlen (cs "auth")) with 4; lia).
    cbn [mbind res_bind]. rewrite Hst. by destruct a.
Qed.

Lemma rfc2617_response_length a password method : Zlen (rfc2617_response a password method) = 32.
Proof using md5_16. unfold rfc2617_response. cbv zeta. case_bool_decide; apply H_hex_length. Qed.

(** The header of the next request, before its response. *)
Definition next_request (random : cstr) (a : rtsp_authorization_header) : rtsp_authorization_header :=
  with_nc (next_nc (au_nc a)) (with_cnonce (Some (used_cnonce a random)) a).

Lemma next_request_ready random a password :
  digest_ready a password → Zlen random = 16 → digest_ready (next_request random a) password.
Proof using Type.
  intros Hr Hrnd. pose proof (next_nc_range _ (dr_nc _ _ Hr)) as Hnx.
  destruct Hr as [? ? ? ? ? ? ? Hcn ? ? ? Hn ?]. constructor; try done; cbn in *.
  - unfold used_cnonce. destruct (au_cnonce a) as [[|c s]|]; cbn in *; [by right; lia| |by right; lia].
    by right; destruct Hcn.
  - lia.
  - unfold used_cnonce. destruct (au_cnonce a) as [[|c s]|]; cbn in *; lia.
Qed.

(** On a Digest header whose fields are set and of bounded length, the
    generation succeeds: it stores the request-digest of RFC 2617 for the user
    name, realm, password, method, URI, nonce, client nonce and request counter;
    the client nonce is the header's own or, without one, the random one; the
    counter is the next one, wrapping to 1 and never 0; nothing else changes. *)
Lemma rtsp_auth_digest_response_rfc2617 random uninit a password method :
  digest_ready a password → Zlen random = 16 →
  let a' := next_request random a in
  rtsp_auth_generate_digest_response md5 (Ok random) uninit (Some a) (Some password) method
  = (Ok tt, Some (with_response
       (Some (rfc2617_response a' password (rtsp_method_type_str method))) a')) ∧
  1 <= au_nc a' <= UINT_MAX.
Proof using md5_16.
  intros Hr Hrnd a'. pose proof (next_nc_range _ (dr_nc _ _ Hr)) as Hnx. split; [|exact Hnx].
  unfold rtsp_auth_generate_digest_response.
  rewrite (digest_checks_ok _ _ Hr), (digest_cnonce_ok _ _ _ Hr). cbn [mbind res_bind].
  change (with_nc _ (with_cnonce _ a)) with a'. destruct (nc_str_ok (au_nc a') ltac:(cbn; lia)) as (-> & _).
  pose proof (next_request_ready random a password Hr Hrnd) as Hr'.
  pose proof (digest_compute_ok uninit a' password (used_cnonce a random) method Hr' eq_refl) as E.
  subst a'. cbn [next_request with_nc with_cnonce au_username au_realm au_uri au_nonce] in E. by rewrite E.
Qed.
End digest.

Definition md5_stub (s : bytes) : option bytes := Some (take 16 (s ++ replicate 16 NUL)).

Lemma md5_stub_16 s : ∃ d, md5_stub s = Some d ∧ length d = 16%nat.
Proof.
  eexists. split; [done|]. rewrite length_take, length_app, length_replicate. lia.
Qed.

Definition sample_challenge : rtsp_authorization_header :=
  Auth RTSP_AUTH_TYPE_DIGEST RTSP_AUTH_ALGORITHM_MD5_SESS (Some (cs "admin")) (Some (cs "rtsp://h/p"))
    None None UINT_MAX None (Some (cs "realm")) (Some (cs "dcd98b")) None RTSP_AUTH_QOP_AUTH.
