(* ===== verification/CFloat.v ===== *)
(** * [float] and [double]

    IEEE 754 binary32 and binary64 values as the Standard Library's
    [spec_float], with the conversions the library uses: [atof], the casts to
    and from integers, and the ["%.2f"] and ["%.3f"] conversions of [printf].
    Rounding is to nearest, ties to even. *)

From S2P Require Import Prelude CString CNumber.
From Stdlib Require Export Floats.SpecFloat.
From stdpp Require Import options.

Local Open Scope Z_scope.

#[export] Instance spec_float_eq_dec : EqDecision spec_float.
Proof. solve_decision. Defined.

(** ** Arithmetic *)

(** The value of a [double] rounded to [float]. *)
Definition float_of_double (x : spec_float) : spec_float :=
  match x with S754_finite s m e => binary_round 24 128 s m e | _ => x end.

Definition float_of_Z (n : Z) : spec_float := binary_normalize 24 128 n 0 false.
Definition double_of_Z (n : Z) : spec_float := binary_normalize 53 1024 n 0 false.

Definition float_sub := SFsub 24 128.
Definition float_mul := SFmul 24 128.
Definition double_sub := SFsub 53 1024.
Definition double_div := SFdiv 53 1024.

(** The integer part; [None] for infinities and NaN. *)
Definition truncate (x : spec_float) : option Z :=
  match x with
  | S754_zero _ => Some 0
  | S754_finite s m e =>
      let n := if 0 <=? e then Zpos m * 2 ^ e else Zpos m / 2 ^ (- e) in
      Some (if s then - n else n)
  | _ => None
  end.

(** A cast to an unsigned integer of [w] bits, undefined out of its range. *)
Definition cast_u (w : Z) (x : spec_float) : res Z :=
  match truncate x with
  | Some n => if (0 <=? n) && (n <? 2 ^ w) then Ok n else Undef
  | None => Undef
  end.

Definition is_zero (x : spec_float) : bool :=
  match x with S754_zero _ => true | _ => false end.

(** ** [atof] *)

(** [m * 10 ^ e] and [m * 2 ^ e] as a [double]. *)
Definition double_of_decimal (neg : bool) (m e : Z) : spec_float :=
  match m with
  | Zpos p =>
      if 0 <=? e then binary_round 53 1024 neg (p * Z.to_pos (10 ^ e)) 0
      else SFdiv 53 1024 (S754_finite neg p 0) (S754_finite false (Z.to_pos (10 ^ (- e))) 0)
  | _ => S754_zero neg
  end.

Definition double_of_hex (neg : bool) (m e : Z) : spec_float :=
  match m with Zpos p => binary_round 53 1024 neg p e | _ => S754_zero neg end.

(** Digits with an optional point: the mantissa, the number of digits after
    the point and what follows. *)
Definition scan_frac (base : Z) (s : cstr) : option (Z * Z * cstr) :=
  let int := takep (is_digit_of base) s in
  let '(frac, rest) := match dropp (is_digit_of base) s with
                       | "."%char :: r => (takep (is_digit_of base) r, dropp (is_digit_of base) r)
                       | r => ([], r)
                       end in
  match int ++ frac with
  | [] => None
  | ds => Some (of_base base ds, Zlen frac, rest)
  end.

(** An exponent after one of the characters [marks], 0 without one. *)
Definition scan_exp (marks s : cstr) : Z :=
  match s with
  | c :: s' =>
      if oneof marks c then
        let (neg, s'') := scan_sign s' in
        let n := of_base 10 (takep isdigit s'') in
        if neg then - n else n
      else 0
  | [] => 0
  end.

Definition atof (s : cstr) : spec_float :=
  let (neg, s1) := scan_sign (dropp isspace s) in
  if starts_with_case (cs "inf") s1 then S754_infinity neg
  else if starts_with_case (cs "nan") s1 then S754_nan
  else if starts_with_case (cs "0x") s1 then
    match scan_frac 16 (drop 2 s1) with
    | Some (m, k, rest) => double_of_hex neg m (scan_exp (cs "pP") rest - 4 * k)
    | None => S754_zero neg
    end
  else
    match scan_frac 10 s1 with
    | Some (m, k, rest) => double_of_decimal neg m (scan_exp (cs "eE") rest - k)
    | None => S754_zero neg
    end.

(** ** [printf] *)

(** [num / den] to the nearest integer, ties to even. *)
Definition div_nearest_even (num den : Z) : Z :=
  let q := num / den in
  let r := num mod den in
  if (den <? 2 * r) || ((den =? 2 * r) && Z.odd q) then q + 1 else q.

(** ["%.<d>f"] *)
Definition fmt_f (d : nat) (x : spec_float) : cstr :=
  let sign (s : bool) := if s then cs "-" else [] in
  let fixed (n : Z) :=
    fmt_u (n / 10 ^ Z.of_nat d) ++ cs "." ++ zero_pad d (fmt_u (n mod 10 ^ Z.of_nat d)) in
  match x with
  | S754_zero s => sign s ++ fixed 0
  | S754_infinity s => sign s ++ cs "inf"
  | S754_nan => cs "nan"
  | S754_finite s m e =>
      let scaled := Zpos m * 10 ^ Z.of_nat d in
      sign s ++ fixed (if 0 <=? e then scaled * 2 ^ e else div_nearest_even scaled (2 ^ (- e)))
  end.

Definition fmt_2f : spec_float → cstr := fmt_f 2.
Definition fmt_3f : spec_float → cstr := fmt_f 3.

(** ** Values with two decimals *)

(** The [float] nearest to [k / 100]. *)
Definition hundredths (k : Z) : spec_float :=
  float_of_double (double_of_decimal (k <? 0) (Z.abs k) (-2)).

Example atof_pi : float_of_double (atof (cs " -3.14159e0x")) = S754_finite true 13176784 (-22).
Proof. vm_compute. reflexivity. Qed.
Example fmt_2f_tie : fmt_2f (S754_finite false 1 (-3)) = cs "0.12".
Proof. vm_compute. reflexivity. Qed.

(** Printed with ["%.2f"], a scale of up to 5.00 in hundredths has only
    characters of numbers and reads back as the same [float]. *)
Definition scale_char (c : ascii) : bool := isdigit c || oneof (cs ".-") c.

Definition scale_reads_back (k : Z) : bool :=
  bool_decide (float_of_double (atof (fmt_2f (hundredths k))) = hundredths k)
  && forallb scale_char (fmt_2f (hundredths k)) && negb (streq (fmt_2f (hundredths k)) []).

Lemma hundredths_read_back k : -500 <= k <= 500 → scale_reads_back k = true.
Proof.
  intros Hk.
  assert (forallb (fun n => scale_reads_back (Z.of_nat n - 500)) (seq 0 1001) = true) as H
    by (vm_compute; reflexivity).
  rewrite forallb_forall in H. specialize (H (Z.to_nat (k + 500))).
  rewrite Z2Nat.id in H by lia. replace (k + 500 - 500) with k in H by lia.
  apply H, in_seq. lia.
Qed.

Lemma hundredths_zero k : -500 <= k <= 500 → is_zero (hundredths k) = true → k = 0.
Proof.
  intros Hk.
  assert (forallb (fun n => implb (is_zero (hundredths (Z.of_nat n - 500))) (Nat.eqb n 500))
            (seq 0 1001) = true) as H by (vm_compute; reflexivity).
  rewrite forallb_forall in H. specialize (H (Z.to_nat (k + 500))).
  rewrite Z2Nat.id in H by lia. replace (k + 500 - 500) with k in H by lia.
  intros Hz. rewrite Hz in H. specialize (H ltac:(apply in_seq; lia)). simpl in H.
  apply Nat.eqb_eq in H. lia.
Qed.

(** The whole seconds of a minute, printed with ["%u"] or ["%02u"]. *)
Definition second_reads_back (n : Z) (text : cstr) : bool :=
  let f := float_of_double (atof text) in
  bool_decide (cast_u 64 f = Ok n) && bool_decide (cast_u 32 f = Ok n)
  && bool_decide (cast_u 32 (float_mul (float_sub f (float_of_Z n)) (float_of_Z 1000000)) = Ok 0).

Lemma seconds_read_back n :
  0 <= n < 60 → second_reads_back n (fmt_u n) = true ∧ second_reads_back n (fmt_02u n) = true.
Proof.
  intros Hn.
  assert (forallb (fun n => second_reads_back (Z.of_nat n) (fmt_u (Z.of_nat n))
            && second_reads_back (Z.of_nat n) (fmt_02u (Z.of_nat n))) (seq 0 60) = true) as H
    by (vm_compute; reflexivity).
  rewrite forallb_forall in H. specialize (H (Z.to_nat n)).
  rewrite Z2Nat.id in H by lia. apply andb_true_iff, H, in_seq. lia.
Qed.
