(* ===== verification/TimeRange.v ===== *)
(** * Normal play time and the Range header ([rtsp_time_*], [rtsp_range_*] of
    [rtsp.c], the conversions of [common.h])

    [struct rtsp_time] is a format and a union: here a tagged union, whose
    UNKNOWN case stands for the zeroed union the code leaves behind it.  The
    date conversions of futils are an interface, [LocalTime], with the laws the
    round trip relies on. *)

From S2P Require Import Prelude CString CNumber Writer CFloat.
From stdpp Require Import options.

Local Open Scope Z_scope.

(** ** Data *)

Record rtsp_time_npt := TimeNpt { npt_now : Z; npt_infinity : Z; npt_sec : Z; npt_usec : Z }.
Record rtsp_time_smpte :=
  TimeSmpte { smpte_infinity : Z; smpte_sec : Z; smpte_frames : Z }.
Record rtsp_time_absolute :=
  TimeAbsolute { absolute_infinity : Z; absolute_sec : Z; absolute_usec : Z }.

Inductive rtsp_time :=
| FormatUnknown
| FormatNpt (npt : rtsp_time_npt)
| FormatSmpte (smpte : rtsp_time_smpte)
| FormatAbsolute (absolute : rtsp_time_absolute).

Record rtsp_range := Range { rg_start : rtsp_time; rg_stop : rtsp_time; rg_time : Z }.

#[export] Instance rtsp_time_npt_eq_dec : EqDecision rtsp_time_npt.
Proof. solve_decision. Defined.
#[export] Instance rtsp_time_smpte_eq_dec : EqDecision rtsp_time_smpte.
Proof. solve_decision. Defined.
#[export] Instance rtsp_time_absolute_eq_dec : EqDecision rtsp_time_absolute.
Proof. solve_decision. Defined.
#[export] Instance rtsp_time_eq_dec : EqDecision rtsp_time.
Proof. solve_decision. Defined.
#[export] Instance rtsp_range_eq_dec : EqDecision rtsp_range.
Proof. solve_decision. Defined.

Definition npt_zero : rtsp_time_npt := TimeNpt 0 0 0 0.

(** [time->npt], as read where the format is NPT or the union is zeroed. *)
Definition npt_of (t : rtsp_time) : rtsp_time_npt :=
  match t with FormatNpt n => n | _ => npt_zero end.
Definition is_npt (t : rtsp_time) : bool := match t with FormatNpt _ => true | _ => false end.
Definition is_unknown (t : rtsp_time) : bool :=
  match t with FormatUnknown => true | _ => false end.
Definition same_format (t u : rtsp_time) : bool :=
  match t, u with
  | FormatUnknown, FormatUnknown | FormatNpt _, FormatNpt _ | FormatSmpte _, FormatSmpte _
  | FormatAbsolute _, FormatAbsolute _ => true
  | _, _ => false
  end.

Definition truthy (n : Z) : bool := negb (n =? 0).

(** ** Conversions of [common.h] *)

Definition rtsp_time_us_to_npt (time_us : Z) : rtsp_time_npt :=
  let sec := time_us / 1000000 in
  TimeNpt 0 0 sec (u32 (u64 (time_us - u64 (sec * 1000000)))).

Definition rtsp_time_npt_to_us (t : option rtsp_time_npt) : res Z :=
  match t with
  | None => Err EINVAL
  | Some t =>
      if truthy (npt_now t) || truthy (npt_infinity t) then Err EINVAL
      else Ok (u64 (npt_sec t * 1000000 + npt_usec t))
  end.

(** ** Dates: the interface to futils *)

Inductive time_fmt := TIME_FMT_RFC1123 | TIME_FMT_ISO8601_SHORT.

(** [time_local_format(epoch_sec, 0, fmt, buf, size)] and the seconds of
    [time_local_parse]. *)
Class LocalTime := {
  time_local_format : time_fmt → Z → Z → res cstr;
  time_local_parse : cstr → res Z
}.

(** The two characters that end the ISO 8601 text in UTC are replaced by [Z]. *)
Definition iso8601_utc (time_str : cstr) : cstr :=
  if Zlen time_str <? 15 then time_str else take 15 time_str ++ cs "Z".

(** Characters of a date in a header line. *)
Definition date_char (c : ascii) : bool := isalnum c || oneof (cs " ,:+-") c.

Definition DATE_MAX : Z := 253402300799.

(** What the round trips rely on, for dates up to the end of year 9999: a date
    fits its buffer, has no character of the header syntax, and is parsed back. *)
Class LocalTimeLaws `(T : LocalTime) : Prop := {
  rfc1123_parse : ∀ t, 0 < t <= DATE_MAX → ∃ s,
    time_local_format TIME_FMT_RFC1123 t 32 = Ok s ∧ all date_char s ∧
    head s ≠ Some " "%char ∧ time_local_parse s = Ok t;
  iso8601_parse : ∀ t, 0 < t <= DATE_MAX → ∃ s,
    time_local_format TIME_FMT_ISO8601_SHORT t 22 = Ok s ∧ all date_char (iso8601_utc s) ∧
    time_local_parse (iso8601_utc s) = Ok t
}.

(** ** Times *)

(** The fraction of a second as ["%.3f"] in a buffer of 6 bytes, without its
    first character; empty when it is zero. *)
Definition usec_fraction (usec : Z) : spec_float :=
  let f := float_of_double
             (double_sub (double_div (float_of_Z usec) (double_of_Z 1000000))
                (double_of_Z (usec / 1000000))) in
  let limit := SFdiv 24 128 (S754_finite false 999 0) (S754_finite false 1000 0) in
  if SFleb limit f then limit else f.

Definition fraction_text (usec : Z) : cstr :=
  let f := usec_fraction usec in
  if is_zero f then [] else tail (take 5 (fmt_3f f)).

Definition rtsp_time_write (time : rtsp_time) : writer unit :=
  match time with
  | FormatNpt npt =>
      if truthy (npt_now npt) then rtsp_sprintf (cs "now")
      else
        wreturn_err_if (truthy (npt_infinity npt)) EINVAL;;
        let sec := u32 (u64 (npt_sec npt + npt_usec npt / 1000000)) in
        let hrs := sec / 3600 in
        let min := u32 (sec / 60 - u32 (hrs * 60)) in
        let sec := u32 (sec - u32 (min * 60) - u32 (hrs * 3600)) in
        if (0 <? min) || (0 <? hrs) then
          rtsp_sprintf (fmt_u hrs ++ cs ":" ++ fmt_02u min ++ cs ":" ++ fmt_02u sec
                        ++ fraction_text (npt_usec npt))
        else rtsp_sprintf (fmt_u sec ++ fraction_text (npt_usec npt))
  | FormatSmpte _ | FormatAbsolute _ => werr ENOSYS
  | FormatUnknown => werr EINVAL
  end.

(** [rtsp_time_read] on a zeroed time whose format is NPT, the only one it is
    called with. *)
Definition rtsp_time_read (str : cstr) : res rtsp_time_npt :=
  match strchr ":" str with
  | Some (hrs_str, min_sec) =>
      match strchr ":" min_sec with
      | None => Err EINVAL
      | Some (min_str, sec_str) =>
          let hrs := u32 (atoi hrs_str) in
          let min := u32 (atoi min_str) in
          let sec_f := float_of_double (atof sec_str) in
          sec ← cast_u 64 sec_f;
          int_sec ← cast_u 32 sec_f;
          usec ← cast_u 32 (float_mul (float_sub sec_f (float_of_Z int_sec))
                              (float_of_Z 1000000));
          Ok (TimeNpt 0 0 (u64 (sec + u32 (min * 60 + hrs * 60 * 60))) usec)
      end
  | None =>
      if streq str (cs "now") then Ok (TimeNpt 1 0 0 0)
      else
        let sec := float_of_double (atof str) in
        n ← cast_u 64 sec;
        usec ← cast_u 32 (float_mul (float_sub sec (float_of_Z n)) (float_of_Z 1000000));
        Ok (TimeNpt 0 0 n usec)
  end.

(** ** The Range header *)

Section range.
Context `{T : LocalTime}.

Definition rtsp_range_header_write (range : rtsp_range) : writer unit :=
  let start := rg_start range in
  let stop := rg_stop range in
  wreturn_err_if (negb (same_format start stop) && negb (is_unknown stop)) EINVAL;;
  rtsp_sprintf (cs "Range: ");;
  match start with
  | FormatNpt npt =>
      rtsp_sprintf (cs "npt=");;
      wwhen (negb (truthy (npt_infinity npt))) (rtsp_time_write start);;
      wwhen (is_npt stop)
        (wreturn_err_if (truthy (npt_infinity npt)
                         && (npt_infinity npt =? npt_infinity (npt_of stop))) EINVAL;;
         wreturn_err_if (truthy (npt_now (npt_of stop))) EINVAL;;
         rtsp_sprintf (cs "-");;
         wwhen (negb (truthy (npt_infinity (npt_of stop)))) (rtsp_time_write stop))
  | FormatSmpte _ | FormatAbsolute _ => werr ENOSYS
  | FormatUnknown => werr EINVAL
  end;;
  wwhen (0 <? rg_time range)
    (time_str ← wlift (time_local_format TIME_FMT_ISO8601_SHORT (rg_time range) 22);
     rtsp_sprintf (cs ";time=" ++ iso8601_utc time_str));;
  rtsp_sprintf [CR; LF].

(** A bound of the range; the empty text is infinity. *)
Definition read_bound (str : cstr) : res rtsp_time_npt :=
  match str with
  | [] => Ok (TimeNpt 0 1 0 0)
  | _ => rtsp_time_read str
  end.

Definition rtsp_range_header_read (str : option cstr) : res rtsp_range :=
  match str with
  | None => Err EINVAL
  | Some str =>
      return_err_if (PATH_MAX <=? strnlen str PATH_MAX) ENAMETOOLONG;;
      let '(str, time_str) := match strchr ";" str with
                              | Some (s, t) => (s, Some t)
                              | None => (str, None)
                              end in
      match strchr "=" str with
      | None => Err EINVAL
      | Some (unit_, start_str) =>
          let '(start_str, stop_str) := match strchr "-" start_str with
                                        | Some (a, b) => (a, Some b)
                                        | None => (start_str, None)
                                        end in
          '(start, stop) ←
            (if streq unit_ (cs "npt") then
               start ← read_bound start_str;
               stop ← match stop_str with
                      | None => Ok FormatUnknown
                      | Some s => FormatNpt <$> read_bound s
                      end;
               Ok (FormatNpt start, stop)
             else if streq unit_ (cs "smpte") then Err ENOSYS
             else if streq unit_ (cs "clock") then Err ENOSYS
             else Err EINVAL);
          return_err_if (negb (is_unknown stop) && negb (same_format stop start)) EINVAL;;
          (if negb (is_npt stop) then
             return_err_if (truthy (npt_infinity (npt_of start))
                            && (npt_infinity (npt_of start) =? npt_infinity (npt_of stop))) EINVAL;;
             return_err_if (truthy (npt_now (npt_of stop))) EINVAL
           else Ok tt);;
          time ← match time_str with
                 | None => Ok 0
                 | Some t =>
                     if starts_with (cs "time") t then
                       match strchr "=" t with
                       | None => Err EINVAL
                       | Some (_, v) => time_local_parse v
                       end
                     else Ok 0
                 end;
          Ok (Range start stop time)
      end
  end.
End range.

(** ** Duration and comparison *)

(** A signed 64-bit result, undefined on overflow. *)
Definition int64 (n : Z) : res Z :=
  if (INT64_MIN <=? n) && (n <=? INT64_MAX) then Ok n else Undef.

(** The products and the difference with the start are [uint64_t] operations
    converted to [int64_t]; the microseconds are added and subtracted as
    [int64_t]. *)
Definition rtsp_range_get_duration_us (range : option rtsp_range) : res Z :=
  match range with
  | None => Err EINVAL
  | Some r =>
      match rg_start r, rg_stop r with
      | FormatNpt start, FormatNpt stop =>
          if truthy (npt_infinity stop) then Ok INT64_MAX
          else if truthy (npt_infinity start) then Ok INT64_MIN
          else if truthy (npt_now start) || truthy (npt_now stop) then Err EINVAL
          else
            diff ← int64 (s64 (npt_sec stop * 1000000) + npt_usec stop);
            int64 (s64 (diff - npt_sec start * 1000000) - npt_usec start)
      | _, _ => Err EINVAL
      end
  end.

Definition rtsp_time_cmp (time1 time2 : rtsp_time) : bool :=
  match time1, time2 with
  | FormatUnknown, FormatUnknown => true
  | FormatNpt a, FormatNpt b =>
      (npt_now a =? npt_now b) && (npt_infinity a =? npt_infinity b)
      && (npt_sec a =? npt_sec b) && (npt_usec a =? npt_usec b)
  | FormatSmpte a, FormatSmpte b =>
      (smpte_infinity a =? smpte_infinity b) && (smpte_sec a =? smpte_sec b)
      && (smpte_frames a =? smpte_frames b)
  | FormatAbsolute a, FormatAbsolute b =>
      (absolute_infinity a =? absolute_infinity b) && (absolute_sec a =? absolute_sec b)
      && (absolute_usec a =? absolute_usec b)
  | _, _ => false
  end.

Definition rtsp_range_cmp (range1 range2 : option rtsp_range) : bool :=
  match range1, range2 with
  | None, None => true
  | None, _ | _, None => false
  | Some a, Some b =>
      if negb (rtsp_time_cmp (rg_start a) (rg_start b)) then false
      else if negb (rtsp_time_cmp (rg_stop a) (rg_stop b)) then false
      else rg_time a =? rg_time b
  end.

(** ** Theorems *)

(** A time in microseconds converted to normal play time is normalised (less
    than a million microseconds) and converts back to the same number; [now] and
    [infinity] have no number. *)
Theorem rtsp_time_us_npt_roundtrip (us : Z) (t : rtsp_time_npt) :
  0 <= us < 2 ^ 64 →
  (let n := rtsp_time_us_to_npt us in
   npt_now n = 0 ∧ npt_infinity n = 0 ∧ 0 <= npt_usec n < 1000000 ∧
   npt_sec n * 1000000 + npt_usec n = us ∧ rtsp_time_npt_to_us (Some n) = Ok us) ∧
  (npt_now t ≠ 0 ∨ npt_infinity t ≠ 0 → rtsp_time_npt_to_us (Some t) = Err EINVAL).
Proof.
  intros Hus. split.
  - assert (rtsp_time_us_to_npt us = TimeNpt 0 0 (us / 1000000) (us mod 1000000)) as ->.
    { unfold rtsp_time_us_to_npt.
      assert (us mod 1000000 = us - us / 1000000 * 1000000) as -> by dlia.
      rewrite (wrapu_small 64 (us / 1000000 * 1000000)) by dlia.
      rewrite (wrapu_small 64) by dlia. rewrite (wrapu_small 32) by dlia. done. }
    cbn. split_and!; try dlia. rewrite wrapu_small by dlia. f_equal. dlia.
  - intros H. unfold rtsp_time_npt_to_us, truthy.
    destruct (npt_now t =? 0) eqn:E1, (npt_infinity t =? 0) eqn:E2; try done.
    bool_to_prop. lia.
Qed.

Lemma rtsp_time_us_npt_roundtrip_witness :
  (let n := rtsp_time_us_to_npt 18446744073709551615 in
   npt_now n = 0 ∧ npt_infinity n = 0 ∧ 0 <= npt_usec n < 1000000 ∧
   npt_sec n * 1000000 + npt_usec n = 18446744073709551615 ∧
   rtsp_time_npt_to_us (Some n) = Ok 18446744073709551615) ∧
  (npt_now (TimeNpt 1 0 0 0) ≠ 0 ∨ npt_infinity (TimeNpt 1 0 0 0) ≠ 0 →
   rtsp_time_npt_to_us (Some (TimeNpt 1 0 0 0)) = Err EINVAL).
Proof. apply (rtsp_time_us_npt_roundtrip 18446744073709551615 (TimeNpt 1 0 0 0)). done. Defined.

(** A time of at most a billion seconds in microseconds. *)
Definition npt_us (n : rtsp_time_npt) : Z := npt_sec n * 1000000 + npt_usec n.
Definition wf_npt (n : rtsp_time_npt) : bool :=
  (0 <=? npt_sec n) && (npt_sec n <=? 1000000000) && (0 <=? npt_usec n) && (npt_usec n <=? UINT_MAX).

(** The duration of a range in normal play time is the difference of its
    bounds, computed without overflow for times up to a billion seconds (also
    when the range runs backwards); an infinite stop gives the largest duration,
    an infinite start the smallest; [now] and the other formats are refused. *)
Theorem rtsp_range_get_duration_us_spec start stop time :
  wf_npt start = true → wf_npt stop = true →
  rtsp_range_get_duration_us (Some (Range (FormatNpt start) (FormatNpt stop) time))
  = (if truthy (npt_infinity stop) then Ok INT64_MAX
     else if truthy (npt_infinity start) then Ok INT64_MIN
     else if truthy (npt_now start) || truthy (npt_now stop) then Err EINVAL
     else Ok (npt_us stop - npt_us start)).
Proof.
  unfold wf_npt. intros H1 H2. bool_to_prop. unfold UINT_MAX in *.
  cbn [rtsp_range_get_duration_us rg_start rg_stop].
  destruct (truthy (npt_infinity stop)), (truthy (npt_infinity start)),
    (truthy (npt_now start) || truthy (npt_now stop)); try done.
  assert (∀ n, INT64_MIN <= n <= INT64_MAX → int64 n = Ok n) as Hi.
  { intros n Hn. unfold int64. destruct (INT64_MIN <=? n) eqn:E1, (n <=? INT64_MAX) eqn:E2;
      bool_to_prop; try done; lia. }
  unfold INT64_MIN, INT64_MAX in Hi. unfold npt_us.
  rewrite (wraps_small 64 (npt_sec stop * 1000000)) by (simpl; lia).
  rewrite Hi by lia. cbn [mbind res_bind]. rewrite wraps_small by (simpl; lia).
  rewrite Hi by lia. f_equal. lia.
Qed.

Lemma rtsp_range_get_duration_us_spec_witness :
  rtsp_range_get_duration_us
    (Some (Range (FormatNpt (TimeNpt 0 0 1000000000 0)) (FormatNpt (TimeNpt 0 0 2 500000)) 0))
  = Ok (-999999997500000).
Proof.
  apply (rtsp_range_get_duration_us_spec (TimeNpt 0 0 1000000000 0) (TimeNpt 0 0 2 500000) 0);
    vm_compute; reflexivity.
Defined.

Lemma rtsp_time_cmp_eq a b : rtsp_time_cmp a b = true ↔ a = b.
Proof.
  destruct a as [|[] |[]|[]], b as [|[]|[]|[]]; cbn; try done;
    rewrite !andb_true_iff, !Z.eqb_eq; (split; [intros; f_equal; f_equal; tauto|]);
    intros H; injection H; intros; by split_and!.
Qed.

(** [rtsp_range_cmp] is equality of ranges, NULL included. *)
Theorem rtsp_range_cmp_spec (range1 range2 : option rtsp_range) :
  rtsp_range_cmp range1 range2 = true ↔ range1 = range2.
Proof.
  destruct range1 as [[a1 b1 t1]|], range2 as [[a2 b2 t2]|]; cbn; try done.
  pose proof (rtsp_time_cmp_eq a1 a2) as Ha. pose proof (rtsp_time_cmp_eq b1 b2) as Hb.
  destruct (rtsp_time_cmp a1 a2); cbn; [|split; [done|intros [= H _ _]; tauto]].
  destruct (rtsp_time_cmp b1 b2); cbn; [|split; [done|intros [= _ H _]; tauto]].
  rewrite Z.eqb_eq. destruct Ha as [-> _]; [|done]. destruct Hb as [-> _]; [|done].
  split; [by intros ->|by intros [=]].
Qed.

(** *** The round trip of the Range header *)

(** A bound the header carries exactly: now, infinity, or whole seconds. *)
Definition plain_npt (n : rtsp_time_npt) : bool :=
  bool_decide (n = TimeNpt 1 0 0 0) || bool_decide (n = TimeNpt 0 1 0 0)
  || (bool_decide (n = TimeNpt 0 0 (npt_sec n) 0) && (0 <=? npt_sec n) && (npt_sec n <=? UINT_MAX)).

Definition wf_range (r : rtsp_range) : bool :=
  match rg_start r with
  | FormatNpt start =>
      plain_npt start
      && match rg_stop r with
         | FormatUnknown => true
         | FormatNpt stop =>
             plain_npt stop && negb (truthy (npt_now stop))
             && negb (truthy (npt_infinity start) && truthy (npt_infinity stop))
         | _ => false
         end
  | _ => false
  end && (0 <=? rg_time r) && (rg_time r <=? DATE_MAX).

Definition hms_text (sec : Z) : cstr :=
  let hrs := sec / 3600 in
  let min := sec / 60 mod 60 in
  if (0 <? min) || (0 <? hrs)
  then fmt_u hrs ++ cs ":" ++ fmt_02u min ++ cs ":" ++ fmt_02u (sec mod 60)
  else fmt_u (sec mod 60).

Definition bound_text (n : rtsp_time_npt) : cstr :=
  if truthy (npt_now n) then cs "now"
  else if truthy (npt_infinity n) then [] else hms_text (npt_sec n).

Inductive plain : rtsp_time_npt → Prop :=
| plain_now : plain (TimeNpt 1 0 0 0)
| plain_infinity : plain (TimeNpt 0 1 0 0)
| plain_sec sec : 0 <= sec <= UINT_MAX → plain (TimeNpt 0 0 sec 0).

Lemma plain_npt_plain n : plain_npt n = true → plain n.
Proof.
  unfold plain_npt. rewrite !orb_true_iff, !andb_true_iff, !bool_decide_eq_true.
  intros [[-> | ->]|[[-> H1] H2]]; [constructor..|]. cbn in *. bool_to_prop. by constructor.
Qed.

Lemma hms_bounds sec : 0 <= sec <= UINT_MAX →
  0 <= sec / 3600 <= 1193046 ∧ 0 <= sec / 60 mod 60 < 60 ∧ 0 <= sec mod 60 < 60 ∧
  sec = sec / 3600 * 3600 + sec / 60 mod 60 * 60 + sec mod 60.
Proof.
  unfold UINT_MAX. intros H.
  assert (sec / 60 / 60 = sec / 3600) as E by (by rewrite Z.div_div).
  dlia.
Qed.

Lemma fraction_text_0 : fraction_text 0 = [].
Proof. vm_compute. reflexivity. Qed.

Lemma rtsp_time_write_emits n :
  plain n → npt_infinity n = 0 → emits (rtsp_time_write (FormatNpt n)) (bound_text n) tt.
Proof.
  intros Hn Hi. destruct Hn as [| |sec Hs]; [apply emits_sprintf|done|].
  destruct (hms_bounds sec Hs) as (Hh & Hm & Hss & He). unfold UINT_MAX in Hs.
  unfold rtsp_time_write, bound_text, hms_text. cbn [npt_now npt_infinity npt_sec npt_usec].
  change (truthy 0) with false. cbv iota. rewrite fraction_text_0, !app_nil_r.
  change (0 / 1000000) with 0. rewrite Z.add_0_r, (wrapu_small 64), (wrapu_small 32 sec)
    by (simpl; lia).
  assert (u32 (sec / 60 - u32 (sec / 3600 * 60)) = sec / 60 mod 60) as ->.
  { rewrite (wrapu_small 32 (sec / 3600 * 60)) by (simpl; lia). rewrite wrapu_small; simpl; dlia. }
  assert (u32 (sec - u32 (sec / 60 mod 60 * 60) - u32 (sec / 3600 * 3600)) = sec mod 60) as ->.
  { rewrite !(wrapu_small 32 (_ * _)) by (simpl; lia). rewrite wrapu_small; simpl; lia. }
  eapply emits_eq; [apply emits_seq; [by apply emits_check|]|apply app_nil_l].
  destruct ((0 <? sec / 60 mod 60) || (0 <? sec / 3600)); apply emits_sprintf.
Qed.

Lemma second_elim n text :
  second_reads_back n text = true →
  let f := float_of_double (atof text) in
  cast_u 64 f = Ok n ∧ cast_u 32 f = Ok n ∧
  cast_u 32 (float_mul (float_sub f (float_of_Z n)) (float_of_Z 1000000)) = Ok 0.
Proof. unfold second_reads_back. intros H. by bool_to_prop. Qed.

Lemma read_hms sec :
  0 <= sec <= UINT_MAX → rtsp_time_read (hms_text sec) = Ok (TimeNpt 0 0 sec 0).
Proof.
  intros Hs. destruct (hms_bounds sec Hs) as (Hh & Hm & Hss & He).
  destruct (seconds_read_back (sec mod 60) Hss) as [Hu H02]. unfold hms_text, rtsp_time_read.
  destruct ((0 <? sec / 60 mod 60) || (0 <? sec / 3600)) eqn:E.
  - change (fmt_u ?h ++ cs ":" ++ fmt_02u ?m ++ cs ":" ++ ?x)
      with (fmt_u h ++ ":"%char :: fmt_02u m ++ ":"%char :: x).
    rewrite strchr_app by (apply fmt_u_chars; done || lia).
    rewrite strchr_app by (eapply (all_impl_dec (is_digit_of 10)); [done|apply fmt_02u_spec; lia]).
    destruct (second_elim _ _ H02) as (-> & -> & E3). cbn [mbind res_bind].
    rewrite E3. cbn [mbind res_bind].
    rewrite <- (app_nil_r (fmt_u _)), <- (app_nil_r (fmt_02u (sec / 60 mod 60))).
    rewrite atoi_fmt_u, atoi_fmt_02u by (done || unfold INT_MAX; lia).
    unfold UINT_MAX in Hs. do 2 f_equal.
    rewrite (wrapu_small 32 (sec / 60 mod 60)), (wrapu_small 32 (sec / 3600)) by (simpl; lia).
    rewrite (wrapu_small 32) by (simpl; lia). rewrite wrapu_small by (simpl; lia). lia.
  - apply orb_false_iff in E as [E1 E2]. bool_to_prop.
    assert (sec mod 60 = sec) as Es by lia. rewrite Es in *.
    assert (strchr ":" (fmt_u sec) = None) as ->
      by (apply strchr_None, fmt_u_chars; [vm_compute; done|lia]).
    assert (streq (fmt_u sec) (cs "now") = false) as ->.
    { apply streq_false. intros E. destruct (fmt_u_spec sec ltac:(lia)) as (_ & Hd & _).
      by rewrite E in Hd. }
    destruct (second_elim _ _ Hu) as (-> & _ & Hz). cbn [mbind res_bind]. by rewrite Hz.
Qed.

Lemma hms_text_wf sec : 0 <= sec <= UINT_MAX →
  hms_text sec ≠ [] ∧ all (fun c => isdigit c || Ascii.eqb c ":") (hms_text sec) ∧
  Zlen (hms_text sec) <= 30.
Proof.
  intros Hs. destruct (hms_bounds sec Hs) as (Hh & Hm & Hss & He).
  assert (∀ n, 0 <= n < 60 → Zlen (fmt_02u n) <= 2 ∧
            all (fun c => isdigit c || Ascii.eqb c ":") (fmt_02u n)) as H02.
  { intros n Hn. split.
    - unfold Zlen, fmt_02u. rewrite zero_pad_length.
      pose proof (fmt_u_length n 1 ltac:(simpl; lia)). lia.
    - eapply (all_impl_dec (is_digit_of 10)); [done|apply fmt_02u_spec; lia]. }
  assert (∀ n, 0 <= n < 10000000 → Zlen (fmt_u n) <= 7 ∧
            all (fun c => isdigit c || Ascii.eqb c ":") (fmt_u n)) as Hu.
  { intros n Hn. split.
    - unfold Zlen. pose proof (fmt_u_length n 6 ltac:(simpl; lia)). lia.
    - apply fmt_u_chars; [vm_compute; done|lia]. }
  unfold hms_text. destruct (_ || _).
  - destruct (Hu (sec / 3600) ltac:(lia)), (H02 (sec / 60 mod 60) Hm), (H02 (sec mod 60) Hss).
    split_and!.
    + intros [E _]%app_nil. revert E. apply fmt_u_not_nil. lia.
    + rewrite !all_app. by split_and!.
    + autorewrite with zlen. change (Zlen (cs ":")) with 1. lia.
  - destruct (Hu (sec mod 60) ltac:(lia)). split_and!; [apply fmt_u_not_nil; lia|done|lia].
Qed.

(** Characters of a bound. *)
Definition bound_char (c : ascii) : bool := isdigit c || Ascii.eqb c ":" || islower c.

Lemma bound_text_wf n : plain n → all bound_char (bound_text n) ∧ Zlen (bound_text n) <= 30.
Proof.
  intros [| |sec Hs]; [by split|by split|]. destruct (hms_text_wf sec Hs) as (_ & Ha & Hl).
  split; [|done]. eapply all_impl; [|exact Ha]. intros c Hc. unfold bound_char. by rewrite Hc.
Qed.

Lemma read_bound_text n : plain n → read_bound (bound_text n) = Ok n.
Proof.
  intros [| |sec Hs]; [vm_compute; reflexivity|done|].
  unfold bound_text. cbn [npt_now npt_infinity npt_sec]. change (truthy 0) with false. cbv iota.
  destruct (hms_text_wf sec Hs) as (Hne & _). unfold read_bound.
  destruct (hms_text sec) eqn:E; [done|]. rewrite <- E. by apply read_hms.
Qed.

Section roundtrip.
Context `{L : LocalTimeLaws}.

(** The text of the date parameter. *)
Definition date_text (time : Z) : cstr :=
  if 0 <? time then
    match time_local_format TIME_FMT_ISO8601_SHORT time 22 with
    | Ok s => cs ";time=" ++ iso8601_utc s
    | _ => []
    end
  else [].

Definition text_of_range (r : rtsp_range) : cstr :=
  cs "npt=" ++ bound_text (npt_of (rg_start r))
  ++ (if is_npt (rg_stop r) then cs "-" ++ bound_text (npt_of (rg_stop r)) else [])
  ++ date_text (rg_time r).

Definition text_of_range_header (r : rtsp_range) : cstr :=
  cs "Range: " ++ text_of_range r ++ [CR; LF].

(** The cases of a well-formed range. *)
Inductive range_ok : rtsp_range → Prop :=
| range_start_only start time :
    plain start → 0 <= time <= DATE_MAX → range_ok (Range (FormatNpt start) FormatUnknown time)
| range_start_stop start stop time :
    plain start → plain stop → npt_now stop = 0 →
    npt_infinity start = 0 ∨ npt_infinity stop = 0 → 0 <= time <= DATE_MAX →
    range_ok (Range (FormatNpt start) (FormatNpt stop) time).

Lemma wf_range_ok r : wf_range r = true → range_ok r.
Proof using Type.
  clear L. unfold wf_range. destruct r as [start stop time]. cbn [rg_start rg_stop rg_time].
  intros H. bool_to_prop. destruct start as [|start| |]; try done. bool_to_prop.
  match goal with H : plain_npt start = true |- _ => apply plain_npt_plain in H end.
  destruct stop as [|stop| |]; try done; [by constructor|]. bool_to_prop.
  match goal with H : plain_npt stop = true |- _ => apply plain_npt_plain in H end.
  unfold truthy in *. bool_to_prop. constructor; try done.
  match goal with H : (_ && _)%bool = false |- _ => apply andb_false_iff in H as [H|H] end;
    bool_to_prop; auto.
Qed.

Lemma bound_writer_emits n :
  plain n →
  emits (wwhen (negb (truthy (npt_infinity n))) (rtsp_time_write (FormatNpt n))) (bound_text n) tt.
Proof using Type.
  intros Hn. destruct (decide (npt_infinity n = 0)) as [E|E].
  - rewrite E. by apply rtsp_time_write_emits.
  - destruct Hn; try done. apply emits_ret.
Qed.

Lemma date_writer_emits time :
  0 <= time <= DATE_MAX →
  emits (wwhen (0 <? time)
    (time_str ← wlift (time_local_format TIME_FMT_ISO8601_SHORT time 22);
     rtsp_sprintf (cs ";time=" ++ iso8601_utc time_str))) (date_text time) tt.
Proof using L.
  intros Ht. unfold date_text. destruct (0 <? time) eqn:E; bool_to_prop; [|apply emits_ret].
  destruct (iso8601_parse time ltac:(lia)) as (s & -> & _ & _). cbn [wwhen].
  eapply emits_eq; [eapply emits_bind; [apply emits_wlift|apply emits_sprintf]|apply app_nil_l].
Qed.

Lemma rtsp_range_header_write_emits r :
  range_ok r → emits (rtsp_range_header_write r) (text_of_range_header r) tt.
Proof using L.
  intros Hr. unfold rtsp_range_header_write, text_of_range_header, text_of_range.
  destruct Hr as [start time Hs Ht|start stop time Hs Hp Hn Hi Ht];
    cbn [rg_start rg_stop rg_time npt_of is_npt same_format is_unknown negb andb wwhen];
    pose proof (bound_writer_emits start Hs); pose proof (date_writer_emits time Ht).
  - emits_text.
  - pose proof (bound_writer_emits stop Hp).
    assert (truthy (npt_infinity start) && (npt_infinity start =? npt_infinity stop) = false) as E.
    { unfold truthy. destruct (npt_infinity start =? 0) eqn:E1; [done|]. bool_to_prop.
      destruct Hi as [|Hi]; [done|]. rewrite Hi. by apply Z.eqb_neq. }
    assert (truthy (npt_now stop) = false) as E2 by (by rewrite Hn).
    emits_text.
Qed.

Lemma Zlen_iso8601_utc s : Zlen (iso8601_utc s) <= 16.
Proof using Type.
  unfold iso8601_utc. destruct (Zlen s <? 15) eqn:E; bool_to_prop; [lia|].
  autorewrite with zlen. change (Zlen (cs "Z")) with 1. unfold Zlen in *.
  rewrite length_take. lia.
Qed.

Lemma date_text_length time : Zlen (date_text time) <= 22.
Proof using Type.
  unfold date_text. destruct (0 <? time); [|done].
  destruct (time_local_format _ time 22) as [s| |]; [|done..].
  autorewrite with zlen. pose proof (Zlen_iso8601_utc s). change (Zlen (cs ";time=")) with 6. lia.
Qed.

(** The part before the date. *)
Definition range_bounds_text (r : rtsp_range) : cstr :=
  cs "npt=" ++ bound_text (npt_of (rg_start r))
  ++ (if is_npt (rg_stop r) then cs "-" ++ bound_text (npt_of (rg_stop r)) else []).

Lemma range_bounds_text_wf r :
  range_ok r → all (isnot ";") (range_bounds_text r) ∧ Zlen (range_bounds_text r) <= 65.
Proof using Type.
  intros Hr. unfold range_bounds_text. split.
  - destruct Hr as [start time Hs Ht|start stop time Hs Hp Hn Hi Ht]; cbn [rg_start rg_stop npt_of is_npt];
      rewrite !all_app; split_and!; try done; by eapply all_impl_dec, bound_text_wf.
  - destruct Hr as [start time Hs Ht|start stop time Hs Hp Hn Hi Ht]; cbn [rg_start rg_stop npt_of is_npt];
      destruct (bound_text_wf start Hs); autorewrite with zlen;
      change (Zlen (cs "npt=")) with 4; change (Zlen (cs "-")) with 1; [lia|].
    destruct (bound_text_wf stop Hp); lia.
Qed.

(** The two halves of the reader, on a text cut at its [;]. *)
Lemma range_read_bounds r :
  range_ok r →
  ∃ u s, strchr "=" (range_bounds_text r) = Some (u, s) ∧ u = cs "npt" ∧
    (let '(a, b) := match strchr "-" s with Some (a, b) => (a, Some b) | None => (s, None) end in
     read_bound a = Ok (npt_of (rg_start r)) ∧
     (match b with None => Ok FormatUnknown | Some b => FormatNpt <$> read_bound b end)
     = Ok (rg_stop r)).
Proof using Type.
  intros Hr. unfold range_bounds_text. eexists _, _.
  change (cs "npt=" ++ ?x) with (cs "npt" ++ "="%char :: x).
  rewrite strchr_app by done. split_and!; [done|done|].
  destruct Hr as [start time Hs Ht|start stop time Hs Hp Hn Hi Ht]; cbn [rg_start rg_stop npt_of is_npt].
  - rewrite app_nil_r. assert (strchr "-" (bound_text start) = None) as ->.
    { apply strchr_None. by eapply all_impl_dec, bound_text_wf. }
    split; [by apply read_bound_text|done].
  - change (cs "-" ++ ?x) with ("-"%char :: x).
    rewrite strchr_app by (by eapply all_impl_dec, bound_text_wf).
    split; [by apply read_bound_text|]. by rewrite read_bound_text.
Qed.

Lemma rtsp_range_header_read_text r :
  range_ok r → rtsp_range_header_read (Some (text_of_range r)) = Ok r.
Proof using L.
  intros Hr. destruct (range_bounds_text_wf r Hr) as [Hsemi Hlen].
  destruct (range_read_bounds r Hr) as (u & s & Hu & -> & Hb).
  assert (text_of_range r = range_bounds_text r ++ date_text (rg_time r)) as Et
    by (unfold text_of_range, range_bounds_text; by rewrite <- !app_assoc).
  unfold rtsp_range_header_read.
  assert ((PATH_MAX <=? strnlen (text_of_range r) PATH_MAX) = false) as ->.
  { apply Z.leb_gt. unfold strnlen. rewrite Et, Zlen_app. pose proof (date_text_length (rg_time r)).
    unfold PATH_MAX. lia. }
  cbn [mbind res_bind return_err_if].
  assert (0 <= rg_time r <= DATE_MAX) as Ht by (by destruct Hr).
  set (time_part := if 0 <? rg_time r then Some (tail (date_text (rg_time r))) else None).
  assert (match strchr ";" (text_of_range r) with Some (s, t) => (s, Some t)
          | None => (text_of_range r, None) end = (range_bounds_text r, time_part)) as ->.
  { subst time_part. rewrite Et. unfold date_text. destruct (0 <? rg_time r) eqn:E; bool_to_prop.
    - destruct (iso8601_parse (rg_time r) ltac:(lia)) as (d & -> & _).
      change (cs ";time=" ++ ?x) with (";"%char :: cs "time=" ++ x). by rewrite strchr_app.
    - rewrite app_nil_r. apply strchr_None in Hsemi. by rewrite Hsemi. }
  rewrite Hu.
  assert (match time_part with None => Ok 0 | Some t =>
     if starts_with (cs "time") t then
       match strchr "=" t with None => Err EINVAL | Some (_, v) => time_local_parse v end
     else Ok 0 end = Ok (rg_time r)) as Etime.
  { subst time_part. unfold date_text. destruct (0 <? rg_time r) eqn:E; bool_to_prop;
      [|f_equal; lia].
    destruct (iso8601_parse (rg_time r) ltac:(lia)) as (d & -> & _ & Hp). cbn [tail].
    change (tail (cs ";time=" ++ iso8601_utc d)) with (cs "time" ++ "="%char :: iso8601_utc d).
    by rewrite starts_with_app, strchr_app. }
  destruct (match strchr "-" s with Some (a, b) => (a, Some b) | None => (s, None) end) as [a b].
  destruct Hb as [Ha Hb]. change (streq (cs "npt") (cs "npt")) with true. cbv iota.
  rewrite Ha. cbn [mbind res_bind]. rewrite Hb. cbn [mbind res_bind].
  rewrite Etime. by destruct Hr as [start time []|start stop time Hs Hp Hn Hi _].
Qed.

(** C33: a range in normal play time whose bounds are now, infinity or whole
    seconds of a 32-bit count, with an optional date, is written as one [Range]
    line and read back unchanged, hours and minutes included. *)
Theorem rtsp_range_header_roundtrip r :
  wf_range r = true →
  emits (rtsp_range_header_write r) (text_of_range_header r) tt ∧
  rtsp_range_header_read (Some (text_of_range r)) = Ok r.
Proof using L.
  intros H%wf_range_ok. split; [by apply rtsp_range_header_write_emits
    |by apply rtsp_range_header_read_text].
Qed.
End roundtrip.

(** The reader skips, for stop times in normal play time, the checks the
    writer makes on them: a range infinite on both sides and one that stops
    [now] are read, and then refused with -EINVAL when they are written. *)
Theorem rtsp_range_read_unchecked `{T : LocalTime} s :
  let both_infinite := Range (FormatNpt (TimeNpt 0 1 0 0)) (FormatNpt (TimeNpt 0 1 0 0)) 0 in
  let stop_now := Range (FormatNpt (TimeNpt 0 0 0 0)) (FormatNpt (TimeNpt 1 0 0 0)) 0 in
  rtsp_range_header_read (Some (cs "npt=-")) = Ok both_infinite ∧
  rtsp_range_header_read (Some (cs "npt=0-now")) = Ok stop_now ∧
  (wf_string s → fits s (cs "Range: npt=0-") →
   fst (rtsp_range_header_write both_infinite s) = Err EINVAL ∧
   fst (rtsp_range_header_write stop_now s) = Err EINVAL).
Proof.
  split_and!; [vm_compute; reflexivity|vm_compute; reflexivity|].
  intros Hwf Hf.
  assert (∀ t : cstr, Zlen t <= 13 → rs_len s + Zlen t < rs_max_len s) as Hfit
    by (unfold fits in Hf; change (Zlen (cs "Range: npt=0-")) with 13 in Hf; lia).
  assert (∀ t u : cstr, Zlen t + Zlen u <= 13 →
    rtsp_sprintf u (append s t) = (Ok tt, append s (t ++ u))) as Hsp.
  { intros t u Htu. rewrite <- append_app. apply (emits_ok _ _ _ _ (emits_sprintf u)).
    - apply wf_append; [done|]. unfold fits. apply Hfit. pose proof (Zlen_nonneg u). lia.
    - apply fits_app. unfold fits. apply Hfit. rewrite Zlen_app. lia. }
  assert (rtsp_sprintf (cs "Range: ") s = (Ok tt, append s (cs "Range: "))) as H1.
  { rewrite <- (append_nil s) at 1. rewrite Hsp; [done|]. vm_compute. done. }
  assert (rtsp_sprintf (cs "npt=") (append s (cs "Range: "))
          = (Ok tt, append s (cs "Range: npt="))) as H2 by (rewrite Hsp; [done|vm_compute; done]).
  assert (rtsp_time_write (FormatNpt (TimeNpt 0 0 0 0)) (append s (cs "Range: npt="))
          = (Ok tt, append s (cs "Range: npt=0"))) as H3.
  { rewrite (emits_ok _ (cs "0") tt).
    - by rewrite append_app.
    - apply (rtsp_time_write_emits (TimeNpt 0 0 0 0)); [|done]. constructor. vm_compute. done.
    - apply wf_append; [done|]. unfold fits. by apply Hfit.
    - apply fits_app. unfold fits. by apply Hfit. }
  unfold rtsp_range_header_write.
  split; unfold mbind, writer_bind; cbn [wreturn_err_if wlift return_err_if same_format is_unknown
    rg_start rg_stop rg_time negb andb]; unfold wlift, return_err_if; rewrite H1, H2;
    cbn [npt_infinity npt_of wwhen is_npt]; change (truthy 1) with true;
    change (truthy 0) with false; cbn [negb wwhen wskip]; [done|].
  by rewrite H3.
Qed.

(** *** A concrete instance of the interface *)

(** Dates as plain numbers of seconds. *)
#[local] Instance stub_time : LocalTime := {
  time_local_format f t _ :=
    match f with
    | TIME_FMT_RFC1123 => Ok (fmt_u t)
    | TIME_FMT_ISO8601_SHORT => Ok (zero_pad 15 (fmt_u t) ++ cs "+0000")
    end;
  time_local_parse s := let (v, _) := strtol 10 s in Ok v
}.

#[local] Instance stub_time_laws : LocalTimeLaws stub_time.
Proof.
  split.
  - intros t Ht. exists (fmt_u t). unfold DATE_MAX in Ht.
    destruct (fmt_u_spec t ltac:(lia)) as (Hv & Hd & Hne). split_and!; [done|..].
    + by eapply all_impl_dec, Hd.
    + destruct (fmt_u t) as [|c u]; [done|]. apply all_cons in Hd as [Hc _].
      intros [= ->]. done.
    + cbn [time_local_parse stub_time]. rewrite <- (app_nil_r (fmt_u t)), strtol_fmt_u;
        [done|unfold INT64_MAX; lia|done].
  - intros t Ht. eexists. split; [done|]. unfold DATE_MAX in Ht.
    destruct (fmt_u_spec t ltac:(lia)) as (Hv & Hd & Hne).
    destruct (zero_pad_spec 10 15 (fmt_u t) ltac:(lia) Hne Hd) as (Hv' & Hd' & Hne').
    assert (length (zero_pad 15 (fmt_u t)) = 15%nat) as Hl.
    { rewrite zero_pad_length. pose proof (fmt_u_length t 14 ltac:(simpl; lia)). lia. }
    assert (iso8601_utc (zero_pad 15 (fmt_u t) ++ cs "+0000") = zero_pad 15 (fmt_u t) ++ cs "Z") as ->.
    { unfold iso8601_utc, Zlen. rewrite length_app, Hl. change (length (cs "+0000")) with 5%nat.
      change (Z.of_nat (15 + 5) <? 15) with false. cbv iota. f_equal.
      rewrite take_app_le by lia. by rewrite take_ge by lia. }
    split.
    + apply all_app. split; [by eapply all_impl_dec, Hd'|done].
    + cbn [time_local_parse stub_time]. unfold strtol.
      rewrite scan_number_digits by (done || lia). rewrite Hv', Hv.
      unfold INT64_MAX, INT64_MIN. f_equal. lia.
Qed.

Definition sample_range : rtsp_range :=
  Range (FormatNpt (TimeNpt 0 0 4294967295 0)) (FormatNpt (TimeNpt 0 1 0 0)) 1700000000.

Lemma rtsp_range_header_roundtrip_witness :
  wf_range sample_range = true ∧
  emits (rtsp_range_header_write sample_range) (text_of_range_header sample_range) tt ∧
  rtsp_range_header_read (Some (text_of_range sample_range)) = Ok sample_range.
Proof.
  split; [vm_compute; reflexivity|].
  apply (rtsp_range_header_roundtrip sample_range). vm_compute. reflexivity.
Defined.

Lemma rtsp_range_read_unchecked_witness :
  fst (rtsp_range_header_write (Range (FormatNpt (TimeNpt 0 1 0 0)) (FormatNpt (TimeNpt 0 1 0 0)) 0)
    (RtspString [] 64)) = Err EINVAL.
Proof. apply (rtsp_range_read_unchecked (RtspString [] 64)); vm_compute; done. Defined.
