(* ===== verification/Framing.v ===== *)
(** * Framing ([rtsp_strnstr], [find_double_newline], the interleaved packets
    and [rtsp_buffer_remove_first_bytes] of [rtsp.c])

    A buffer is the list of its bytes.  Positions are indices in it. *)

From S2P Require Import Prelude CString CNumber.
From stdpp Require Import options.

Local Open Scope Z_scope.

(** ** Search *)

(** The loop of [rtsp_strnstr]: [c] is the first byte searched and [rest] the
    others; the list is what is left of [s] within [slen]; [i] its position. *)
Fixpoint strnstr_loop (c : ascii) (rest : cstr) (s : bytes) (i : nat) : option nat :=
  match s with
  | [] => None
  | sc :: s' =>
      if (length rest <? length s)%nat then
        if Ascii.eqb sc c && starts_with rest s' then Some i
        else if Ascii.eqb sc NUL then None
        else strnstr_loop c rest s' (S i)
      else None
  end.

Definition rtsp_strnstr (s : bytes) (find : cstr) : option nat :=
  match find with
  | [] => Some 0%nat
  | c :: rest => if (length s <=? length rest)%nat then None else strnstr_loop c rest s 0
  end.

Definition CRLF : cstr := [CR; LF].

(** The position of the double line terminator, and its length. *)
Definition find_double_newline (s : bytes) : option (nat * nat) :=
  match rtsp_strnstr s [CR; LF; CR; LF] with
  | Some r => Some (r, 4%nat)
  | None =>
      match rtsp_strnstr s [LF; CR; LF; CR] with
      | Some r => Some (r, 4%nat)
      | None =>
          match rtsp_strnstr s [LF; LF] with
          | Some r => Some (r, 2%nat)
          | None =>
              match rtsp_strnstr s [CR; CR] with
              | Some r => Some (r, 2%nat)
              | None => None
              end
          end
      end
  end.

(** ** Interleaved packets *)

Record rtsp_interleaved_info := Interleaved { il_channel : Z; il_data : bytes; il_len : Z }.
#[export] Instance rtsp_interleaved_info_eq_dec : EqDecision rtsp_interleaved_info.
Proof. solve_decision. Defined.

(** A 16-bit number in network byte order. *)
Definition ntohs (hi lo : ascii) : Z := code hi * 256 + code lo.
Definition htons (n : Z) : bytes := [chr (n / 256); chr (n mod 256)].

(** The packet and its total length. *)
Definition rtsp_parse_interleaved (raw_data : bytes) : res (rtsp_interleaved_info * Z) :=
  match raw_data with
  | p0 :: p1 :: p2 :: p3 :: data =>
      if negb (code p0 =? 0x24) then Err EINVAL
      else
        let pkt_len := ntohs p2 p3 in
        if Zlen raw_data <? 4 + pkt_len then Err EAGAIN
        else Ok (Interleaved (code p1) (take (Z.to_nat pkt_len) data) pkt_len, 4 + pkt_len)
  | _ => Err EINVAL
  end.

(** [info] is NULL or a packet; its data is NULL or a buffer of at least
    [il_len] bytes. *)
Definition rtsp_build_interleaved (info : option (Z * option bytes * Z)) : res bytes :=
  match info with
  | None | Some (_, None, _) => Err EINVAL
  | Some (channel, Some data, len) =>
      return_err_if (len =? 0) EINVAL;;
      return_err_if (UINT16_MAX - 4 <? len) EINVAL;;
      Ok (chr 0x24 :: chr channel :: htons len ++ take (Z.to_nat len) data)
  end.

(** The content left in the buffer. *)
Definition rtsp_buffer_remove_first_bytes (buffer : bytes) (count : Z) : bytes :=
  if count =? 0 then buffer
  else
    let rem := s64 (Zlen buffer - count) in
    let rem := if rem <? 0 then 0 else rem in
    take (Z.to_nat rem) (drop (Z.to_nat count) buffer).

(** ** Search: what it finds *)

Lemma strnstr_loop_spec c rest s i r :
  strnstr_loop c rest s i = Some r →
  ∃ a b, s = a ++ (c :: rest) ++ b ∧ r = (i + length a)%nat ∧ all (isnot NUL) a.
Proof.
  revert i. induction s as [|sc s IH]; intros i; [done|]. cbn [strnstr_loop].
  destruct (length rest <? length (sc :: s))%nat; [|done].
  destruct (Ascii.eqb sc c && starts_with rest s) eqn:E.
  - intros [= <-]. apply andb_true_iff in E as [->%Ascii.eqb_eq [b ->]%starts_with_true].
    exists [], b. split_and!; [done|simpl; lia|done].
  - destruct (Ascii.eqb sc NUL) eqn:En; [done|]. intros (a & b & -> & -> & Ha)%IH.
    exists (sc :: a), b. split_and!; [done|simpl; lia|]. apply all_cons. split; [|done].
    unfold isnot. rewrite Ascii.eqb_sym. by rewrite En.
Qed.

(** No occurrence in a text without NUL: the search fails. *)
Lemma strnstr_loop_None c rest s i :
  (∀ a b, s ≠ a ++ (c :: rest) ++ b) → strnstr_loop c rest s i = None.
Proof.
  revert i. induction s as [|sc s IH]; intros i Hno; [done|]. cbn [strnstr_loop].
  destruct (length rest <? length (sc :: s))%nat; [|done].
  destruct (Ascii.eqb sc c && starts_with rest s) eqn:E.
  { apply andb_true_iff in E as [->%Ascii.eqb_eq [b ->]%starts_with_true]. by destruct (Hno [] b). }
  destruct (Ascii.eqb sc NUL); [done|]. apply IH. intros a b ->. by apply (Hno (sc :: a) b).
Qed.

(** *** The end of a header made of lines *)

(** A character of a line, and a line. *)
Definition line_char (c : ascii) : bool := noneof [CR; LF; NUL] c.
Definition line_ok (l : cstr) : bool := negb (streq l []) && forallb line_char l.

Definition lines_text (ls : list cstr) : cstr := concat (map (fun l => l ++ CRLF) ls).

Lemma lines_text_cons l ls : lines_text (l :: ls) = l ++ CRLF ++ lines_text ls.
Proof. unfold lines_text. cbn. by rewrite <- app_assoc. Qed.

Lemma line_ok_elim l : line_ok l = true → l ≠ [] ∧ all line_char l.
Proof. unfold line_ok. intros H. bool_to_prop. split; [by apply streq_false|done]. Qed.

Lemma strnstr_skip c rest d s i :
  Ascii.eqb d c && starts_with rest s = false → d ≠ NUL →
  strnstr_loop c rest (d :: s) i = strnstr_loop c rest s (S i).
Proof.
  intros Hm Hd. cbn [strnstr_loop]. rewrite Hm.
  assert (Ascii.eqb d NUL = false) as -> by (by apply Ascii.eqb_neq).
  destruct (length rest <? length (d :: s))%nat eqn:E; [done|].
  apply Nat.ltb_ge in E. destruct s as [|x s]; [done|]. cbn [strnstr_loop].
  assert ((length rest <? length (x :: s))%nat = false) as ->; [|done].
  apply Nat.ltb_ge. simpl in *. lia.
Qed.

Lemma strnstr_skip_line rest l s i :
  all line_char l →
  strnstr_loop CR rest (l ++ s) i = strnstr_loop CR rest s (i + length l)%nat.
Proof.
  revert i. induction l as [|d l IH]; intros i Hl; [by rewrite Nat.add_0_r|].
  apply all_cons in Hl as [Hd Hl]. cbn [app].
  assert (d ≠ CR ∧ d ≠ NUL) as [H1 H2] by (split; intros ->; done).
  rewrite strnstr_skip; [|by apply Ascii.eqb_neq in H1; rewrite H1|done].
  rewrite IH by done. f_equal. simpl. lia.
Qed.

Lemma strnstr_lines ls body i :
  ls ≠ [] → Forall (fun l => line_ok l = true) ls →
  strnstr_loop CR [LF; CR; LF] (lines_text ls ++ CRLF ++ body) i
  = Some (i + length (lines_text ls) - 2)%nat.
Proof.
  intros Hne Hls. revert i Hne. induction Hls as [|l ls Hl Hls IH]; intros i Hne; [done|].
  destruct (line_ok_elim l Hl) as [_ Hc]. unfold lines_text. cbn [map concat]. fold (lines_text ls).
  rewrite <- !app_assoc, strnstr_skip_line by done.
  destruct ls as [|l2 ls].
  - cbn [lines_text map concat app].
    assert (strnstr_loop CR [LF; CR; LF] (CRLF ++ CRLF ++ body) (i + length l)
            = Some (i + length l)%nat) as -> by done.
    f_equal. rewrite !length_app. simpl. lia.
  - cbn [app CRLF]. apply Forall_cons in Hls as [Hl2 Hls'].
    destruct (line_ok_elim l2 Hl2) as [Hne2 Hc2].
    rewrite strnstr_skip; [|unfold lines_text; cbn [map concat]|done].
    2:{ destruct l2 as [|x l2]; [done|]. apply all_cons in Hc2 as [Hx _].
        assert (x ≠ CR) by (intros ->; done).
        cbn [app starts_with]. assert (Ascii.eqb CR x = false) as -> by (apply Ascii.eqb_neq; done).
        by rewrite andb_false_r. }
    rewrite strnstr_skip by done. rewrite IH by done.
    f_equal. rewrite !length_app. simpl. lia.
Qed.

Lemma lines_text_join ls : ls ≠ [] → lines_text ls = join CRLF ls ++ CRLF.
Proof.
  induction ls as [|l ls IH]; [done|]. intros _. destruct ls as [|l2 ls].
  - unfold lines_text. cbn [map concat join]. by rewrite app_nil_r.
  - rewrite join_cons by done. unfold lines_text in *. cbn [map concat] in *.
    rewrite IH by done. by rewrite <- !app_assoc.
Qed.

Lemma tokens_lines ls :
  Forall (fun l => line_ok l = true) ls → tokens CRLF (join CRLF ls) = ls.
Proof.
  induction 1 as [|l ls Hl Hls IH]; [done|]. destruct (line_ok_elim l Hl) as [Hne Hc].
  assert (all (noneof CRLF) l) as Hn by (by eapply all_impl_dec, Hc).
  destruct ls as [|l2 ls]; [by apply tokens_last|].
  rewrite join_cons by done. change (CRLF ++ ?x) with (CR :: LF :: x).
  rewrite tokens_cons by done. by rewrite tokens_skip, IH.
Qed.

(** The end of a header made of non-empty lines is found at its empty line,
    whatever follows, and the text before is cut into these lines. *)
Lemma find_double_newline_lines ls body :
  ls ≠ [] → Forall (fun l => line_ok l = true) ls →
  let header := lines_text ls ++ CRLF in
  ∃ r, find_double_newline (header ++ body) = Some (r, 4%nat) ∧
       (r + 4)%nat = length header ∧ tokens CRLF (take r (header ++ body)) = ls.
Proof.
  intros Hne Hls header. subst header. exists (length (lines_text ls) - 2)%nat.
  pose proof (lines_text_join ls Hne) as Hj.
  assert (length (lines_text ls) = length (join CRLF ls) + 2)%nat as Hl
    by (rewrite Hj, length_app; done).
  unfold find_double_newline, rtsp_strnstr.
  assert ((length ((lines_text ls ++ CRLF) ++ body) <=? length [LF; CR; LF])%nat = false) as ->.
  { apply Nat.leb_gt. rewrite !length_app. simpl.
    destruct ls as [|l ls]; [done|]. apply Forall_cons in Hls as [[Hn _]%line_ok_elim _].
    unfold lines_text in *. cbn [map concat] in *. rewrite !length_app in *.
    destruct l; [done|]. simpl. lia. }
  rewrite <- (app_assoc _ CRLF), strnstr_lines by done. rewrite Nat.add_0_l.
  split_and!; [done|rewrite length_app; simpl; lia|].
  rewrite Hl, Hj, Nat.add_sub, <- app_assoc, take_app_length. by apply tokens_lines.
Qed.

(** *** A header that is not complete *)

Lemma occurs_skip_line pat l s a b :
  all line_char l → (∃ c pat', pat = c :: pat' ∧ line_char c = false) →
  l ++ s = a ++ pat ++ b → ∃ a', a = l ++ a' ∧ s = a' ++ pat ++ b.
Proof.
  intros Hl (c & pat' & -> & Hc). revert a. induction l as [|x l IH]; intros a; [by exists a|].
  apply all_cons in Hl as [Hx Hl]. destruct a as [|y a]; cbn [app].
  - intros [= -> _]. congruence.
  - intros [= <- H]. destruct (IH Hl a H) as (a' & -> & Hs). by exists a'.
Qed.

Definition terminators : list cstr := [[CR; LF; CR; LF]; [LF; CR; LF; CR]; [LF; LF]; [CR; CR]].

Lemma terminators_cases pat : pat ∈ terminators →
  pat = [CR; LF; CR; LF] ∨ pat = [LF; CR; LF; CR] ∨ pat = [LF; LF] ∨ pat = [CR; CR].
Proof.
  unfold terminators. intros [->|[->|[->|[->|[]%not_elem_of_nil]%elem_of_cons]%elem_of_cons]%elem_of_cons]%elem_of_cons;
    tauto.
Qed.

(** A text of lines starts neither with CR nor with LF. *)
Lemma lines_text_head ls c s :
  Forall (fun l => line_ok l = true) ls → lines_text ls ++ CRLF = c :: s →
  line_char c = true ∨ (c = CR ∧ s = [LF]).
Proof.
  intros Hls. destruct Hls as [|l ls [Hne Hc]%line_ok_elim _]; [intros [= <- <-]; by right|].
  destruct l as [|x l]; [done|]. apply all_cons in Hc as [Hx _].
  unfold lines_text. cbn [map concat app]. intros [= <- _]. by left.
Qed.

(** The only terminator in a header made of lines is its end. *)
Lemma lines_text_terminator ls pat a b :
  Forall (fun l => line_ok l = true) ls → pat ∈ terminators →
  lines_text ls ++ CRLF = a ++ pat ++ b → b = [].
Proof.
  intros Hls Hpat. revert a. induction Hls as [|l ls Hl Hls IH]; intros a H.
  { apply (f_equal length) in H as Hlen. rewrite !length_app in Hlen.
    destruct (terminators_cases _ Hpat) as [->|[->|[->| ->]]];
      cbn in Hlen; try lia; assert (a = []) as -> by (destruct a; [done|cbn in Hlen; lia]);
      cbn in H; by destruct b. }
  rewrite lines_text_cons, <- !app_assoc in H. destruct (line_ok_elim l Hl) as [_ Hc].
  apply occurs_skip_line in H as (a' & -> & H); [|done|].
  2:{ by destruct (terminators_cases _ Hpat) as [->|[->|[->| ->]]]; eexists _, _. }
  destruct a' as [|x [|y a']].
  - destruct (terminators_cases _ Hpat) as [->|[->|[->| ->]]]; try discriminate H.
    injection H as H. by destruct (lines_text_head ls _ _ Hls H) as [?|[_ [= ->]]].
  - destruct (terminators_cases _ Hpat) as [->|[->|[->| ->]]]; try discriminate H; injection H as <- H;
      by destruct (lines_text_head ls _ _ Hls H) as [?|[? ?]].
  - injection H as <- <- H. by apply (IH a').
Qed.

Lemma find_double_newline_prefix ls p q :
  Forall (fun l => line_ok l = true) ls → lines_text ls ++ CRLF = p ++ q → q ≠ [] →
  find_double_newline p = None.
Proof.
  intros Hls H Hq.
  assert (∀ pat, pat ∈ terminators → rtsp_strnstr p pat = None) as Hn.
  { intros pat Hpat. destruct pat as [|c rest]; [by destruct (terminators_cases _ Hpat) as [?|[?|[?|?]]]|].
    cbn [rtsp_strnstr]. destruct (_ <=? _)%nat; [done|]. apply strnstr_loop_None. intros a b ->.
    rewrite <- !app_assoc in H. apply lines_text_terminator in H; [|done|done].
    by apply app_nil in H as [_ ?]. }
  unfold find_double_newline. by rewrite !Hn by by_decide.
Qed.

Lemma rtsp_strnstr_sound s c rest r :
  rtsp_strnstr s (c :: rest) = Some r →
  (r + length (c :: rest) ≤ length s)%nat ∧ all (isnot NUL) (take r s) ∧
  take (length (c :: rest)) (drop r s) = c :: rest.
Proof.
  cbn [rtsp_strnstr]. destruct (_ <=? _)%nat; [done|].
  intros (a & b & -> & -> & Ha)%strnstr_loop_spec. rewrite Nat.add_0_l. split_and!.
  - rewrite !length_app. simpl. lia.
  - by rewrite take_app_length.
  - by rewrite drop_app_length, take_app_length.
Qed.

Lemma find_double_newline_cases s r nl_len :
  find_double_newline s = Some (r, nl_len) →
  ∃ pat, pat ∈ terminators ∧ rtsp_strnstr s pat = Some r ∧ nl_len = length pat.
Proof.
  unfold find_double_newline. intros Hf.
  destruct (rtsp_strnstr s [CR; LF; CR; LF]) eqn:E1;
    [|destruct (rtsp_strnstr s [LF; CR; LF; CR]) eqn:E2;
      [|destruct (rtsp_strnstr s [LF; LF]) eqn:E3;
        [|destruct (rtsp_strnstr s [CR; CR]) eqn:E4; [|done]]]];
    injection Hf as -> <-;
    match goal with E : rtsp_strnstr s ?pat = Some r |- _ => exists pat end;
    (split_and!; [by_decide|done|done]).
Qed.

Lemma find_double_newline_bound s r nl_len :
  find_double_newline s = Some (r, nl_len) → (r + nl_len ≤ length s)%nat ∧ (2 ≤ nl_len)%nat.
Proof.
  intros (pat & Hpat & Hs & ->)%find_double_newline_cases.
  destruct (terminators_cases _ Hpat) as [->|[->|[->| ->]]]; apply rtsp_strnstr_sound in Hs as [? _];
    cbn in *; lia.
Qed.

(** Whatever the buffer holds, the double line terminator found by
    [find_double_newline] lies within the buffer, before the first NUL byte, and
    is one of the four accepted ones. *)
Theorem find_double_newline_sound s r nl_len :
  find_double_newline s = Some (r, nl_len) →
  (r + nl_len ≤ length s)%nat ∧ all (isnot NUL) (take r s) ∧
  take nl_len (drop r s) ∈ [[CR; LF; CR; LF]; [LF; CR; LF; CR]; [LF; LF]; [CR; CR]].
Proof.
  intros (pat & Hpat & Hs & ->)%find_double_newline_cases.
  assert (∃ c rest, pat = c :: rest) as (c & rest & ->)
    by (destruct (terminators_cases _ Hpat) as [->|[->|[->| ->]]]; eauto).
  apply rtsp_strnstr_sound in Hs as (? & ? & Ht). split_and!; [done|done|]. by rewrite Ht.
Qed.

Lemma find_double_newline_sound_witness :
  let s := cs "OPTIONS" ++ [CR; LF; CR; LF] ++ cs "x" in
  (7 + 4 ≤ length s)%nat ∧ all (isnot NUL) (take 7 s) ∧
  take 4 (drop 7 s) ∈ [[CR; LF; CR; LF]; [LF; CR; LF; CR]; [LF; LF]; [CR; CR]].
Proof. apply find_double_newline_sound. vm_compute. reflexivity. Defined.

(** ** Interleaved packets: theorems *)

(** The packet of a payload of at most 65535 bytes. *)
Definition interleaved_packet (channel : Z) (data : bytes) : bytes :=
  chr 0x24 :: chr channel :: htons (Zlen data) ++ data.

Lemma interleaved_packet_length channel data :
  Zlen (interleaved_packet channel data) = 4 + Zlen data.
Proof. unfold interleaved_packet, htons. autorewrite with zlen. lia. Qed.

Lemma rtsp_build_interleaved_packet channel data :
  1 <= Zlen data <= UINT16_MAX - 4 →
  rtsp_build_interleaved (Some (channel, Some data, Zlen data))
  = Ok (interleaved_packet channel data).
Proof.
  intros Hl. cbn [rtsp_build_interleaved].
  destruct (Zlen data =? 0) eqn:E1; bool_to_prop; [lia|].
  destruct (UINT16_MAX - 4 <? Zlen data) eqn:E2; bool_to_prop; [lia|].
  cbn [mbind res_bind return_err_if]. by rewrite take_ge by (unfold Zlen; lia).
Qed.

Lemma ntohs_htons n : 0 <= n <= UINT16_MAX → ntohs (chr (n / 256)) (chr (n mod 256)) = n.
Proof. unfold UINT16_MAX. intros H. unfold ntohs. rewrite !code_chr by dlia. dlia. Qed.

Lemma rtsp_parse_interleaved_packet channel data rest :
  0 <= channel < 256 → Zlen data <= UINT16_MAX →
  rtsp_parse_interleaved (interleaved_packet channel data ++ rest)
  = Ok (Interleaved channel data (Zlen data), 4 + Zlen data).
Proof.
  intros Hc Hl. pose proof (Zlen_nonneg data). pose proof (Zlen_nonneg rest).
  unfold interleaved_packet, htons. cbn [app rtsp_parse_interleaved].
  rewrite ntohs_htons, !code_chr by lia. change (negb (36 =? 36)) with false. cbv iota.
  autorewrite with zlen. destruct (_ <? _) eqn:E; bool_to_prop; [lia|]. do 3 f_equal.
  rewrite take_app_le by (unfold Zlen; lia). by rewrite take_ge by (unfold Zlen; lia).
Qed.

(** A packet that is not complete is not recognised before its fourth byte. *)
Lemma rtsp_parse_interleaved_partial channel data p q :
  Zlen data <= UINT16_MAX → interleaved_packet channel data = p ++ q → q ≠ [] →
  rtsp_parse_interleaved p = Err (if Zlen p <? 4 then EINVAL else EAGAIN).
Proof.
  intros Hl H Hq. pose proof (Zlen_nonneg data).
  apply (f_equal Zlen) in H as Hlen. rewrite interleaved_packet_length, Zlen_app in Hlen.
  assert (1 <= Zlen q) by (destruct q; [done|]; rewrite Zlen_cons; pose proof (Zlen_nonneg q); lia).
  destruct p as [|p0 [|p1 [|p2 [|p3 p]]]]; [done..|].
  destruct (_ <? 4) eqn:E; bool_to_prop.
  { autorewrite with zlen in E. pose proof (Zlen_nonneg p). lia. }
  unfold interleaved_packet, htons in H. injection H as <- <- <- <- _.
  cbn [rtsp_parse_interleaved]. rewrite ntohs_htons by lia.
  change (negb (code (chr 36) =? 36)) with false. cbv iota.
  destruct (_ <? _) eqn:E2; bool_to_prop; [done|]. autorewrite with zlen in *. lia.
Qed.

Lemma rtsp_parse_interleaved_text c s : code c ≠ 0x24 → rtsp_parse_interleaved (c :: s) = Err EINVAL.
Proof.
  intros Hc. destruct s as [|? [|? [|? ?]]]; [done..|]. cbn [rtsp_parse_interleaved].
  destruct (code c =? 36) eqn:E; bool_to_prop; done.
Qed.

Lemma rtsp_buffer_remove_app a b :
  Zlen b <= INT64_MAX → rtsp_buffer_remove_first_bytes (a ++ b) (Zlen a) = b.
Proof.
  intros Hb. unfold rtsp_buffer_remove_first_bytes, INT64_MAX in *.
  pose proof (Zlen_nonneg a). pose proof (Zlen_nonneg b).
  destruct (Zlen a =? 0) eqn:E; bool_to_prop.
  { destruct a; [done|]. rewrite Zlen_cons in E. pose proof (Zlen_nonneg a0). lia. }
  rewrite Zlen_app. replace (Zlen a + Zlen b - Zlen a) with (Zlen b) by lia.
  rewrite wraps_small by (simpl; lia). destruct (Zlen b <? 0) eqn:E3; bool_to_prop; [lia|].
  unfold Zlen. rewrite !Nat2Z.id, drop_app_length. by rewrite take_ge.
Qed.

(** C34: a packet of 1 to 65531 bytes is built, and whatever data follows it in
    the buffer, parsing yields the same channel, data and length, and the total
    length of the packet; removing that many bytes leaves exactly what follows;
    any other size is refused. *)
Theorem rtsp_interleaved_roundtrip channel data rest :
  0 <= channel < 256 → Zlen rest <= INT64_MAX →
  if (Zlen data =? 0) || (UINT16_MAX - 4 <? Zlen data)
  then rtsp_build_interleaved (Some (channel, Some data, Zlen data)) = Err EINVAL
  else ∃ packet,
    rtsp_build_interleaved (Some (channel, Some data, Zlen data)) = Ok packet ∧
    rtsp_parse_interleaved (packet ++ rest)
    = Ok (Interleaved channel data (Zlen data), Zlen packet) ∧
    rtsp_buffer_remove_first_bytes (packet ++ rest) (Zlen packet) = rest.
Proof.
  intros Hc Hr. pose proof (Zlen_nonneg data). destruct (_ || _) eqn:E.
  - cbn [rtsp_build_interleaved]. destruct (Zlen data =? 0); [done|]. cbn in E. by rewrite E.
  - bool_to_prop. exists (interleaved_packet channel data). split_and!.
    + apply rtsp_build_interleaved_packet; lia.
    + rewrite interleaved_packet_length. apply rtsp_parse_interleaved_packet; lia.
    + by apply rtsp_buffer_remove_app.
Qed.

Lemma rtsp_interleaved_roundtrip_witness :
  (0 <= 3 < 256 ∧ Zlen (cs "$abc") <= INT64_MAX) ∧
  ∃ packet,
    rtsp_build_interleaved (Some (3, Some (cs "rtp"), 3)) = Ok packet ∧
    rtsp_parse_interleaved (packet ++ cs "$abc") = Ok (Interleaved 3 (cs "rtp") 3, Zlen packet) ∧
    rtsp_buffer_remove_first_bytes (packet ++ cs "$abc") (Zlen packet) = cs "$abc".
Proof.
  split; [split; [split; [discriminate|reflexivity]|discriminate]|].
  apply (rtsp_interleaved_roundtrip 3 (cs "rtp") (cs "$abc")); [split; [discriminate|reflexivity]|discriminate].
Defined.

(** On any buffer, a parsed packet is a prefix of it: its 4 bytes of header
    and as many bytes of data as its length says; -EINVAL means fewer than 4
    bytes or another first byte than [$], -EAGAIN an incomplete packet. *)
Theorem rtsp_parse_interleaved_spec raw_data :
  match rtsp_parse_interleaved raw_data with
  | Ok (info, total_len) =>
      total_len = 4 + il_len info ∧ Zlen (il_data info) = il_len info ∧
      total_len <= Zlen raw_data ∧ 0 <= il_len info <= UINT16_MAX ∧ 0 <= il_channel info < 256 ∧
      ∃ rest, raw_data = chr 0x24 :: chr (il_channel info) :: htons (il_len info)
                         ++ il_data info ++ rest
  | Err e =>
      (e = EINVAL ∧ (Zlen raw_data < 4 ∨ head raw_data ≠ Some (chr 0x24))) ∨
      (e = EAGAIN ∧ 4 <= Zlen raw_data ∧ head raw_data = Some (chr 0x24))
  | Undef => False
  end.
Proof.
  destruct raw_data as [|p0 [|p1 [|p2 [|p3 data]]]]; try (left; split; [done|by left]).
  cbn [rtsp_parse_interleaved].
  destruct (code p0 =? 36) eqn:E0; cbn [negb].
  2:{ left. split; [done|]. right. intros [= ->]. done. }
  bool_to_prop. assert (p0 = chr 0x24) as -> by (rewrite <- (chr_code p0); by f_equal).
  pose proof (code_range p1). pose proof (code_range p2). pose proof (code_range p3).
  destruct (_ <? _) eqn:E; bool_to_prop.
  { right. split_and!; [done| |done]. autorewrite with zlen. pose proof (Zlen_nonneg data). lia. }
  cbn [il_len il_data il_channel]. unfold ntohs in *. autorewrite with zlen in E.
  rewrite chr_code. split_and!; try lia.
  - unfold Zlen in *. rewrite length_take. lia.
  - autorewrite with zlen. lia.
  - unfold UINT16_MAX. lia.
  - exists (drop (Z.to_nat (code p2 * 256 + code p3)) data). unfold htons.
    rewrite take_drop. replace ((code p2 * 256 + code p3) / 256) with (code p2) by dlia.
    replace ((code p2 * 256 + code p3) mod 256) with (code p3) by dlia. by rewrite !chr_code.
Qed.
