(* ===== verification/HeaderLine.v ===== *)
(** * Header lines

    What the request and the response share: the ["Name: value"] lines they
    write, how a line is cut into field and value, the comparison of field
    names, the header extensions. *)

From S2P Require Import Prelude CString CNumber Writer Framing.
From stdpp Require Import options.

Local Open Scope Z_scope.

(** ** Header extensions *)

Record rtsp_header_ext := HeaderExt { ext_key : option cstr; ext_value : option cstr }.
#[export] Instance rtsp_header_ext_eq_dec : EqDecision rtsp_header_ext.
Proof. solve_decision. Defined.

(** ["%s: %s" CRLF] of each extension; a NULL string is undefined behaviour. *)
Fixpoint write_exts (l : list rtsp_header_ext) : writer unit :=
  match l with
  | [] => wskip
  | e :: l' =>
      match ext_key e, ext_value e with
      | Some k, Some v => rtsp_sprintf (k ++ cs ": " ++ v ++ CRLF)
      | _, _ => wlift Undef
      end;;
      write_exts l'
  end.

(** The extensions a header gets; [ext] is NULL or an array. *)
Definition copy_exts (old : list rtsp_header_ext) (ext : option (list rtsp_header_ext))
    (ext_count : Z) : res (list rtsp_header_ext) :=
  if ext_count =? 0 then Ok old
  else match ext with
       | None => Err EINVAL
       | Some l => Ok (map (fun e => HeaderExt (ext_key e) (ext_value e)) (take (Z.to_nat ext_count) l))
       end.

(** ** Lines *)

(** [name: value CRLF] *)
Definition write_line (name value : cstr) : writer unit :=
  rtsp_sprintf (name ++ cs ": " ++ value ++ CRLF).

(** The [if ((s != NULL) && (s[0] != 0))] lines. *)
Definition write_str_line (name : cstr) (s : option cstr) : writer unit :=
  match s with None | Some [] => wskip | Some v => write_line name v end.

(** The field and the value of a line with a colon: at most one blank after the
    colon is skipped. *)
Definition split_field (p : cstr) : option (cstr * cstr) :=
  match strchr ":" p with
  | None => None
  | Some (field, value) =>
      Some (field, match value with " "%char :: v => v | _ => value end)
  end.

(** [!strncasecmp(field, name, strlen(name))]: a prefix comparison. *)
Definition is_field (name field : cstr) : bool := starts_with_case name field.

(** The outcome of one line: go on, or return from the function. *)
Inductive step (A : Type) : Type :=
| Next (a : A)
| Return (r : res A).
Arguments Next {A} a.
Arguments Return {A} r.

(** [if (ret < 0) return ret] after a call that fills [set]. *)
Definition next_if {A B} (r : res B) (set : B → A) : step A :=
  match r with
  | Ok b => Next (set b)
  | Err e => Return (Err e)
  | Undef => Return Undef
  end.

(** The loop on the lines after the first; [field] is the chain of comparisons of
    the request or of the response. *)
Section fields.
Context {H : Type} (field : H → cstr → cstr → step H).

Fixpoint read_fields (lines : list cstr) (header : H) : res H :=
  match lines with
  | [] => Ok header
  | p :: lines' =>
      match split_field p with
      | None => read_fields lines' header
      | Some (f, value) =>
          match field header f value with
          | Next header' => read_fields lines' header'
          | Return r => r
          end
      end
  end.
End fields.

(** ** Round trip of lines *)

Definition header_line (l : cstr * cstr) : cstr := fst l ++ cs ": " ++ snd l.

Definition line_if (b : bool) (name value : cstr) : list (cstr * cstr) :=
  if b then [(name, value)] else [].
Definition str_line (name : cstr) (s : option cstr) : list (cstr * cstr) :=
  match s with None | Some [] => [] | Some v => [(name, v)] end.

Definition some_str (s : option cstr) : option cstr :=
  match s with Some [] => None | _ => s end.

Lemma split_field_line name value :
  all (isnot ":") name → split_field (header_line (name, value)) = Some (name, value).
Proof.
  intros Hn. unfold split_field, header_line. cbn [fst snd].
  change (cs ": " ++ value) with (":"%char :: " "%char :: value). by rewrite strchr_app.
Qed.

(** A line the reader can cut: no separator in the name, no line end. *)
Definition wf_line (l : cstr * cstr) : bool :=
  forallb (isnot ":") (fst l) && forallb line_char (fst l) && forallb line_char (snd l).

Lemma wf_line_ok l : wf_line l = true →
  line_ok (header_line l) = true ∧ split_field (header_line l) = Some l.
Proof.
  unfold wf_line. intros H. destruct l as [name value]. cbn [fst snd] in H. bool_to_prop. split.
  - unfold line_ok, header_line. cbn [fst snd]. apply andb_true_iff. split.
    + apply negb_true_iff, streq_false. by intros [_ ?]%app_nil.
    + rewrite !all_app. by split_and!.
  - by apply split_field_line.
Qed.

Lemma line_if_emits b name value :
  emits (wwhen b (write_line name value)) (lines_text (header_line <$> line_if b name value)) tt.
Proof.
  destruct b; [|apply emits_ret]. unfold lines_text. cbn. rewrite app_nil_r.
  eapply emits_eq; [apply emits_sprintf|]. unfold header_line. cbn [fst snd]. text_eq.
Qed.

Lemma str_line_emits name s :
  emits (write_str_line name s) (lines_text (header_line <$> str_line name s)) tt.
Proof.
  destruct s as [[|c v]|]; [apply emits_ret| |apply emits_ret].
  apply (line_if_emits true).
Qed.

Lemma lines_text_app l k : lines_text (l ++ k) = lines_text l ++ lines_text k.
Proof. unfold lines_text. by rewrite map_app, concat_app. Qed.

(** The extensions of a header, as lines. *)
Definition wf_ext (e : rtsp_header_ext) : bool :=
  match ext_key e, ext_value e with
  | Some k, Some v => is_field (cs "X-") k && wf_line (k, v)
  | _, _ => false
  end.
Definition ext_line (e : rtsp_header_ext) : cstr * cstr :=
  (default [] (ext_key e), default [] (ext_value e)).

Lemma write_exts_emits l :
  Forall (fun e => wf_ext e = true) l →
  emits (write_exts l) (lines_text (header_line <$> (ext_line <$> l))) tt.
Proof.
  induction 1 as [|[[k|] [v|]] l He Hl IH]; [apply emits_ret| |done..].
  cbn [write_exts ext_key ext_value]. eapply emits_eq; [apply emits_seq; [apply emits_sprintf|exact IH]|].
  rewrite !fmap_cons. unfold lines_text. cbn [map concat]. unfold header_line at 2.
  change (fst (ext_line _)) with k. change (snd (ext_line _)) with v. text_eq.
Qed.

(** The name of an extension is none of the other field names. *)
Lemma ext_not_field k name c name' :
  is_field (cs "X-") k = true → name = c :: name' → tolower c ≠ "x"%char →
  is_field name k = false.
Proof.
  intros Hk -> Hc. destruct k as [|d k]; [done|].
  unfold is_field, starts_with_case, lower in *. cbn [map cs list_ascii_of_string starts_with] in *.
  apply andb_true_iff in Hk as [Hd _]. apply Ascii.eqb_eq in Hd.
  change (tolower "X") with "x"%char in Hd. rewrite <- Hd.
  apply andb_false_iff. left. by apply Ascii.eqb_neq.
Qed.

Lemma forallb_Forall {A} (f : A → bool) l : forallb f l = true → Forall (fun x => f x = true) l.
Proof.
  rewrite forallb_forall, list.Forall_forall. intros H x Hx. by apply H, list_elem_of_In.
Qed.

(** [reads l h h']: the lines [l], if they can be cut, take the header [h] to [h']. *)
Section reads.
Context {H : Type} (field : H → cstr → cstr → step H).

Definition reads (l : list (cstr * cstr)) (h h' : H) : Prop :=
  Forall (fun x => wf_line x = true) l →
  ∀ k, read_fields field (map header_line l ++ k) h = read_fields field k h'.

Lemma reads_eq l h h1 h2 : reads l h h1 → h1 = h2 → reads l h h2.
Proof. by intros ? <-. Qed.

Lemma reads_nil h : reads [] h h.
Proof. by intros _ k. Qed.

Lemma reads_app l1 l2 h h1 h2 : reads l1 h h1 → reads l2 h1 h2 → reads (l1 ++ l2) h h2.
Proof.
  intros H1 H2 [Hl1 Hl2]%Forall_app k. rewrite map_app, <- app_assoc, H1 by done. by apply H2.
Qed.

Lemma reads_cons name v l h h1 h2 :
  field h name v = Next h1 → reads l h1 h2 → reads ((name, v) :: l) h h2.
Proof.
  intros Hf Hr [Hw Hl]%Forall_cons k. destruct (wf_line_ok _ Hw) as [_ Hs].
  cbn [map app read_fields]. rewrite Hs, Hf. by apply Hr.
Qed.

Lemma reads_one name v h h' : field h name v = Next h' → reads [(name, v)] h h'.
Proof. intros Hf. eapply reads_cons; [exact Hf|apply reads_nil]. Qed.

(** An optional line, whose member is [zero] when the line is absent. *)
Lemma reads_line_if {X} (set : X → H → H) b name v x zero h :
  set zero h = h → (b = true → field h name v = Next (set x h)) →
  reads (line_if b name v) h (set (if b then x else zero) h).
Proof.
  intros Hz Hf. destruct b; [by apply reads_one, Hf|]. rewrite Hz. apply reads_nil.
Qed.

Lemma reads_str_line (set : option cstr → H → H) name s h :
  set None h = h → (∀ v, field h name v = Next (set (Some v) h)) →
  reads (str_line name s) h (set (some_str s) h).
Proof.
  intros Hz Hf. destruct s as [[|c v]|]; cbn [str_line some_str];
    [rewrite Hz; apply reads_nil|by apply reads_one|rewrite Hz; apply reads_nil].
Qed.

Lemma reads_exts (get : H → list rtsp_header_ext) (set : list rtsp_header_ext → H → H) ext h :
  (∀ h, set (get h) h = h) → (∀ x h, get (set x h) = x) → (∀ x y h, set y (set x h) = set y h) →
  (∀ h k v, is_field (cs "X-") k = true →
     field h k v = Next (set (get h ++ [HeaderExt (Some k) (Some v)]) h)) →
  Forall (fun e => wf_ext e = true) ext →
  reads (map ext_line ext) h (set (get h ++ ext) h).
Proof.
  intros Hsg Hgs Hss Hf Hw. revert h.
  induction Hw as [|[[k|] [v|]] ext He _ IH]; intros h; try done.
  { rewrite app_nil_r, Hsg. apply reads_nil. }
  cbn [map]. unfold ext_line at 1. cbn [ext_key ext_value].
  unfold wf_ext in He. cbn [ext_key ext_value] in He. bool_to_prop.
  eapply reads_cons; [by apply Hf|].
  pose proof (IH (set (get h ++ [HeaderExt (Some k) (Some v)]) h)) as Hr.
  by rewrite Hgs, Hss, <- app_assoc in Hr.
Qed.

Lemma reads_all l h h' :
  Forall (fun x => wf_line x = true) l → reads l h h' →
  read_fields field (map header_line l) h = Ok h'.
Proof. intros Hw Hr. by rewrite <- (app_nil_r (map _ l)), Hr. Qed.
End reads.

(** Evaluates the comparisons of closed field names. *)
Ltac eval_field :=
  repeat match goal with
  | |- context [is_field ?a ?b] =>
      let r := eval vm_compute in (is_field a b) in
      lazymatch r with
      | true => change (is_field a b) with true
      | false => change (is_field a b) with false
      end
  end; cbv iota.
