(* ===== verification/HeaderFields.v ===== *)
(** * Lines common to requests and responses

    The members that both headers have: how they are copied, the lines they are
    written as, and what the lines carry. *)

From S2P Require Import Prelude CString CNumber Writer SessionHeader Transport AuthHeader CFloat.
From S2P Require Import TimeRange Framing HeaderLine.
From stdpp Require Import options.

Local Open Scope Z_scope.

Definition range_zero : rtsp_range := Range FormatUnknown FormatUnknown 0.

(** The copy of an array entry; a NULL one leaves a new, zeroed transport. *)
Definition copy_transport (t : option rtsp_transport_header) : option rtsp_transport_header :=
  match rtsp_transport_header_copy t with
  | Ok t' => Some t'
  | _ => Some rtsp_transport_header_new
  end.

Definition copy_authorization (src dst : option rtsp_authorization_header)
    : option rtsp_authorization_header :=
  match src with
  | None => dst
  | Some _ =>
      match rtsp_authorization_header_copy src (Some rtsp_authorization_header_new) with
      | Ok a => Some a
      | _ => Some rtsp_authorization_header_new
      end
  end.

Lemma copy_transport_some t : copy_transport (Some t) = Some t.
Proof. by destruct t. Qed.

Lemma copy_transports (ts : list rtsp_transport_header) : copy_transport <$> (Some <$> ts) = Some <$> ts.
Proof.
  rewrite <- list_fmap_compose. apply list_fmap_ext. intros i t _. apply copy_transport_some.
Qed.

Lemma copy_authorization_new a : copy_authorization a None = a.
Proof. destruct a as [[]|]; done. Qed.

(** Copying the extensions gives a header the same ones, and keeps the old ones
    when there is none to copy. *)
Lemma copy_exts_all old ext :
  copy_exts old (Some ext) (Zlen ext) = Ok (match ext with [] => old | _ => ext end).
Proof.
  unfold copy_exts. destruct ext as [|e ext]; [done|].
  destruct (Zlen (e :: ext) =? 0) eqn:E; bool_to_prop.
  { rewrite Zlen_cons in E. pose proof (Zlen_nonneg ext). lia. }
  unfold Zlen. rewrite Nat2Z.id, take_ge by done. f_equal.
  rewrite <- (map_id (e :: ext)) at 2. apply map_ext. by intros [].
Qed.

(** ** Lines *)

Section lines.
Context `{L : LocalTimeLaws}.

Definition date_value (date : Z) : cstr :=
  match time_local_format TIME_FMT_RFC1123 date 32 with Ok s => s | _ => [] end.

Definition session_lines (id : option cstr) (timeout : Z) : list (cstr * cstr) :=
  match id with
  | None | Some [] => []
  | Some s => [(cs "Session", text_of_session s timeout)]
  end.

Definition authorization_lines (a : option rtsp_authorization_header) : list (cstr * cstr) :=
  match a with None => [] | Some a => [(cs "Authorization", text_of_authorization a)] end.

Lemma date_value_ok t : 0 < t <= DATE_MAX →
  time_local_format TIME_FMT_RFC1123 t 32 = Ok (date_value t) ∧
  time_local_parse (date_value t) = Ok t.
Proof using L.
  intros Ht. destruct (rfc1123_parse t Ht) as (s & Hs & _ & _ & Hp).
  unfold date_value. by rewrite Hs.
Qed.

Lemma date_line_emits t : 0 <= t <= DATE_MAX →
  emits (wwhen (0 <? t) (time_str ← wlift (time_local_format TIME_FMT_RFC1123 t 32);
                         write_line (cs "Date") time_str))
    (lines_text (header_line <$> line_if (0 <? t) (cs "Date") (date_value t))) tt.
Proof using L.
  intros Ht. destruct (0 <? t) eqn:E; [|apply emits_ret]. bool_to_prop.
  destruct (date_value_ok t ltac:(lia)) as [-> _].
  apply (line_if_emits true (cs "Date") (date_value t)).
Qed.

Lemma session_lines_emits id timeout :
  emits (match id with
         | None | Some [] => wskip
         | Some id => rtsp_session_header_write (Some id) timeout
         end)
    (lines_text (header_line <$> session_lines id timeout)) tt.
Proof using Type.
  clear L. destruct id as [[|c s]|]; [apply emits_ret| |apply emits_ret].
  eapply emits_eq; [by apply rtsp_session_header_write_emits|].
  unfold lines_text, text_of_session_header. cbn [session_lines fmap list_fmap map concat].
  unfold header_line. cbn [fst snd]. text_eq.
Qed.

Lemma authorization_lines_emits a :
  (∀ x, a = Some x → wf_authorization x = true) →
  emits (match a with None => wskip | Some a => rtsp_authorization_header_write (Some a) end)
    (lines_text (header_line <$> authorization_lines a)) tt.
Proof using Type.
  clear L. intros Ha. destruct a as [a|]; [|apply emits_ret].
  eapply emits_eq; [by apply rtsp_authorization_header_write_emits, Ha|].
  unfold lines_text, text_of_authorization_header.
  cbn [authorization_lines fmap list_fmap map concat].
  unfold header_line. cbn [fst snd]. text_eq.
Qed.

Lemma transport_lines_emits ts : Forall transport_ok ts →
  emits (wwhen (0 <? Zlen (Some <$> ts)) (rtsp_transport_header_write (Some <$> ts)))
    (lines_text (header_line <$> line_if (0 <? Zlen (Some <$> ts)) (cs "Transport")
       (text_of_transports ts))) tt.
Proof using Type.
  clear L. intros Hts. destruct (0 <? Zlen _) eqn:E; [|apply emits_ret]. bool_to_prop.
  eapply emits_eq; [apply rtsp_transport_header_write_emits; [by intros ->|done]|].
  unfold lines_text, text_of_transport_header. cbn [line_if fmap list_fmap map concat].
  unfold header_line. cbn [fst snd]. text_eq.
Qed.

Lemma range_lines_emits r : is_unknown (rg_start r) = true ∨ range_ok r →
  emits (wwhen (negb (is_unknown (rg_start r))) (rtsp_range_header_write r))
    (lines_text (header_line <$> line_if (negb (is_unknown (rg_start r))) (cs "Range")
       (text_of_range r))) tt.
Proof using L.
  intros Hr. destruct (is_unknown (rg_start r)) eqn:E; [apply emits_ret|].
  destruct Hr as [Hr|Hr]; [done|].
  eapply emits_eq; [by apply rtsp_range_header_write_emits|].
  unfold lines_text, text_of_range_header. cbn [negb line_if fmap list_fmap map concat].
  unfold header_line. cbn [fst snd]. text_eq.
Qed.

Lemma scale_line_reads k :
  -500 <= k <= 500 → float_of_double (atof (fmt_2f (hundredths k))) = hundredths k.
Proof using Type.
  clear L. intros Hk. pose proof (hundredths_read_back k Hk) as H. unfold scale_reads_back in H.
  by bool_to_prop.
Qed.

Lemma zero_scale s k :
  s = hundredths k → -500 <= k <= 500 → (if negb (is_zero s) then s else S754_zero false) = s.
Proof using Type.
  clear L. intros -> Hk. destruct (is_zero (hundredths k)) eqn:E; [|done].
  apply hundredths_zero in E as ->; [done|lia].
Qed.

Lemma positive_or_zero z : 0 <= z → (if 0 <? z then z else 0) = z.
Proof using Type. clear L. intros Hz. destruct (0 <? z) eqn:E; bool_to_prop; lia. Qed.
End lines.
