(* ===== verification/Request.v ===== *)
(** * Request headers ([rtsp_request_header_*] of [rtsp.c])

    [cseq] and [content_length] are [int]s, [date] a [uint64_t],
    [session_timeout] an [unsigned int], [scale] a [float].  A header whose
    reading fails is discarded by every caller, so an error carries none. *)

From S2P Require Import Prelude CString CNumber Writer Methods SessionHeader Transport AuthHeader.
From S2P Require Import CFloat TimeRange Framing HeaderLine HeaderFields.
From stdpp Require Import options.

Local Open Scope Z_scope.

Record rtsp_request_header := ReqHeader {
  rq_method : rtsp_method_type;
  rq_uri : option cstr;
  rq_cseq : Z;
  rq_date : Z;
  rq_session_id : option cstr;
  rq_session_timeout : Z;
  rq_transport : list (option rtsp_transport_header);
  rq_authorization : option rtsp_authorization_header;
  rq_content_type : option cstr;
  rq_scale : spec_float;
  rq_user_agent : option cstr;
  rq_server : option cstr;
  rq_accept : option cstr;
  rq_range : rtsp_range;
  rq_content_length : Z;
  rq_ext : list rtsp_header_ext
}.

Definition set_rq_method (x : rtsp_method_type) (h : rtsp_request_header) : rtsp_request_header :=
  ReqHeader x (rq_uri h) (rq_cseq h) (rq_date h) (rq_session_id h) (rq_session_timeout h)
    (rq_transport h) (rq_authorization h) (rq_content_type h) (rq_scale h) (rq_user_agent h)
    (rq_server h) (rq_accept h) (rq_range h) (rq_content_length h) (rq_ext h).
Definition set_rq_uri (x : option cstr) (h : rtsp_request_header) : rtsp_request_header :=
  ReqHeader (rq_method h) x (rq_cseq h) (rq_date h) (rq_session_id h) (rq_session_timeout h)
    (rq_transport h) (rq_authorization h) (rq_content_type h) (rq_scale h) (rq_user_agent h)
    (rq_server h) (rq_accept h) (rq_range h) (rq_content_length h) (rq_ext h).
Definition set_rq_cseq (x : Z) (h : rtsp_request_header) : rtsp_request_header :=
  ReqHeader (rq_method h) (rq_uri h) x (rq_date h) (rq_session_id h) (rq_session_timeout h)
    (rq_transport h) (rq_authorization h) (rq_content_type h) (rq_scale h) (rq_user_agent h)
    (rq_server h) (rq_accept h) (rq_range h) (rq_content_length h) (rq_ext h).
Definition set_rq_date (x : Z) (h : rtsp_request_header) : rtsp_request_header :=
  ReqHeader (rq_method h) (rq_uri h) (rq_cseq h) x (rq_session_id h) (rq_session_timeout h)
    (rq_transport h) (rq_authorization h) (rq_content_type h) (rq_scale h) (rq_user_agent h)
    (rq_server h) (rq_accept h) (rq_range h) (rq_content_length h) (rq_ext h).
Definition set_rq_session_id (x : option cstr) (h : rtsp_request_header) : rtsp_request_header :=
  ReqHeader (rq_method h) (rq_uri h) (rq_cseq h) (rq_date h) x (rq_session_timeout h)
    (rq_transport h) (rq_authorization h) (rq_content_type h) (rq_scale h) (rq_user_agent h)
    (rq_server h) (rq_accept h) (rq_range h) (rq_content_length h) (rq_ext h).
Definition set_rq_session_timeout (x : Z) (h : rtsp_request_header) : rtsp_request_header :=
  ReqHeader (rq_method h) (rq_uri h) (rq_cseq h) (rq_date h) (rq_session_id h) x
    (rq_transport h) (rq_authorization h) (rq_content_type h) (rq_scale h) (rq_user_agent h)
    (rq_server h) (rq_accept h) (rq_range h) (rq_content_length h) (rq_ext h).
Definition set_rq_transport (x : list (option rtsp_transport_header)) (h : rtsp_request_header) : rtsp_request_header :=
  ReqHeader (rq_method h) (rq_uri h) (rq_cseq h) (rq_date h) (rq_session_id h)
    (rq_session_timeout h) x (rq_authorization h) (rq_content_type h) (rq_scale h)
    (rq_user_agent h) (rq_server h) (rq_accept h) (rq_range h) (rq_content_length h) (rq_ext h).
Definition set_rq_authorization (x : option rtsp_authorization_header) (h : rtsp_request_header) : rtsp_request_header :=
  ReqHeader (rq_method h) (rq_uri h) (rq_cseq h) (rq_date h) (rq_session_id h)
    (rq_session_timeout h) (rq_transport h) x (rq_content_type h) (rq_scale h) (rq_user_agent h)
    (rq_server h) (rq_accept h) (rq_range h) (rq_content_length h) (rq_ext h).
Definition set_rq_content_type (x : option cstr) (h : rtsp_request_header) : rtsp_request_header :=
  ReqHeader (rq_method h) (rq_uri h) (rq_cseq h) (rq_date h) (rq_session_id h)
    (rq_session_timeout h) (rq_transport h) (rq_authorization h) x (rq_scale h)
    (rq_user_agent h) (rq_server h) (rq_accept h) (rq_range h) (rq_content_length h) (rq_ext h).
Definition set_rq_scale (x : spec_float) (h : rtsp_request_header) : rtsp_request_header :=
  ReqHeader (rq_method h) (rq_uri h) (rq_cseq h) (rq_date h) (rq_session_id h)
    (rq_session_timeout h) (rq_transport h) (rq_authorization h) (rq_content_type h) x
    (rq_user_agent h) (rq_server h) (rq_accept h) (rq_range h) (rq_content_length h) (rq_ext h).
Definition set_rq_user_agent (x : option cstr) (h : rtsp_request_header) : rtsp_request_header :=
  ReqHeader (rq_method h) (rq_uri h) (rq_cseq h) (rq_date h) (rq_session_id h)
    (rq_session_timeout h) (rq_transport h) (rq_authorization h) (rq_content_type h)
    (rq_scale h) x (rq_server h) (rq_accept h) (rq_range h) (rq_content_length h) (rq_ext h).
Definition set_rq_server (x : option cstr) (h : rtsp_request_header) : rtsp_request_header :=
  ReqHeader (rq_method h) (rq_uri h) (rq_cseq h) (rq_date h) (rq_session_id h)
    (rq_session_timeout h) (rq_transport h) (rq_authorization h) (rq_content_type h)
    (rq_scale h) (rq_user_agent h) x (rq_accept h) (rq_range h) (rq_content_length h) (rq_ext h).
Definition set_rq_accept (x : option cstr) (h : rtsp_request_header) : rtsp_request_header :=
  ReqHeader (rq_method h) (rq_uri h) (rq_cseq h) (rq_date h) (rq_session_id h)
    (rq_session_timeout h) (rq_transport h) (rq_authorization h) (rq_content_type h)
    (rq_scale h) (rq_user_agent h) (rq_server h) x (rq_range h) (rq_content_length h) (rq_ext h).
Definition set_rq_range (x : rtsp_range) (h : rtsp_request_header) : rtsp_request_header :=
  ReqHeader (rq_method h) (rq_uri h) (rq_cseq h) (rq_date h) (rq_session_id h)
    (rq_session_timeout h) (rq_transport h) (rq_authorization h) (rq_content_type h)
    (rq_scale h) (rq_user_agent h) (rq_server h) (rq_accept h) x (rq_content_length h)
    (rq_ext h).
Definition set_rq_content_length (x : Z) (h : rtsp_request_header) : rtsp_request_header :=
  ReqHeader (rq_method h) (rq_uri h) (rq_cseq h) (rq_date h) (rq_session_id h)
    (rq_session_timeout h) (rq_transport h) (rq_authorization h) (rq_content_type h)
    (rq_scale h) (rq_user_agent h) (rq_server h) (rq_accept h) (rq_range h) x (rq_ext h).
Definition set_rq_ext (x : list rtsp_header_ext) (h : rtsp_request_header) : rtsp_request_header :=
  ReqHeader (rq_method h) (rq_uri h) (rq_cseq h) (rq_date h) (rq_session_id h)
    (rq_session_timeout h) (rq_transport h) (rq_authorization h) (rq_content_type h)
    (rq_scale h) (rq_user_agent h) (rq_server h) (rq_accept h) (rq_range h)
    (rq_content_length h) x.

#[export] Instance rtsp_request_header_eq_dec : EqDecision rtsp_request_header.
Proof. solve_decision. Defined.

(** [rtsp_request_header_clear]: everything freed and zeroed. *)
Definition rtsp_request_header_clear : rtsp_request_header :=
  ReqHeader RTSP_METHOD_TYPE_UNKNOWN None 0 0 None 0 [] None None (S754_zero false) None None
    None range_zero 0 [].

Definition rtsp_request_header_copy_ext (header : rtsp_request_header)
    (ext : option (list rtsp_header_ext)) (ext_count : Z) : res rtsp_request_header :=
  e ← copy_exts (rq_ext header) ext ext_count; Ok (set_rq_ext e header).

Definition rtsp_request_header_copy (src dst : option rtsp_request_header)
    : res rtsp_request_header :=
  match src, dst with
  | Some s, Some d =>
      let d := ReqHeader (rq_method s) (rq_uri s) (rq_cseq s) (rq_date s) (rq_session_id s)
                 (rq_session_timeout s) (copy_transport <$> rq_transport s)
                 (copy_authorization (rq_authorization s) (rq_authorization d))
                 (rq_content_type s) (rq_scale s) (rq_user_agent s) (rq_server s) (rq_accept s)
                 (rq_range s) (rq_content_length s) (rq_ext d) in
      rtsp_request_header_copy_ext d (Some (rq_ext s)) (Zlen (rq_ext s))
  | _, _ => Err EINVAL
  end.

(** A copy to a cleared header is the header itself, when its transports are
    not NULL. *)
Lemma rtsp_request_header_copy_clear s ts :
  rq_transport s = Some <$> ts →
  rtsp_request_header_copy (Some s) (Some rtsp_request_header_clear) = Ok s.
Proof.
  intros Hts. unfold rtsp_request_header_copy, rtsp_request_header_copy_ext.
  rewrite copy_exts_all, Hts. cbn [rq_authorization rtsp_request_header_clear].
  rewrite copy_authorization_new. destruct s. cbn in *. rewrite Hts.
  rewrite copy_transports. by destruct rq_ext0.
Qed.

(** ** Writer *)

Section request.
Context `{T : LocalTime}.

(** The headers in the order they are written. *)
Definition rtsp_request_header_write (header : rtsp_request_header) : writer unit :=
  match rq_uri header with
  | None | Some [] => werr EINVAL
  | Some uri =>
      let method := rtsp_method_type_str (rq_method header) in
      wreturn_err_if (streq method (cs "UNKNOWN")) EINVAL;;
      rtsp_sprintf (method ++ cs " " ++ uri ++ cs " RTSP/1.0" ++ CRLF);;
      wwhen (0 <=? rq_cseq header) (write_line (cs "CSeq") (fmt_d (rq_cseq header)));;
      wwhen (0 <? rq_date header)
        (time_str ← wlift (time_local_format TIME_FMT_RFC1123 (rq_date header) 32);
         write_line (cs "Date") time_str);;
      match rq_session_id header with
      | None | Some [] => wskip
      | Some id => rtsp_session_header_write (Some id) (rq_session_timeout header)
      end;;
      wwhen (0 <? Zlen (rq_transport header)) (rtsp_transport_header_write (rq_transport header));;
      match rq_authorization header with
      | None => wskip
      | Some a => rtsp_authorization_header_write (Some a)
      end;;
      write_str_line (cs "Content-Type") (rq_content_type header);;
      wwhen (negb (is_zero (rq_scale header)))
        (write_line (cs "Scale") (fmt_2f (rq_scale header)));;
      write_str_line (cs "User-Agent") (rq_user_agent header);;
      write_str_line (cs "Server") (rq_server header);;
      write_str_line (cs "Accept") (rq_accept header);;
      wwhen (negb (is_unknown (rg_start (rq_range header))))
        (rtsp_range_header_write (rq_range header));;
      wwhen (0 <? rq_content_length header)
        (write_line (cs "Content-Length") (fmt_d (rq_content_length header)));;
      write_exts (rq_ext header);;
      rtsp_sprintf CRLF
  end.

(** ** Reader *)

Definition request_field (header : rtsp_request_header) (field value : cstr)
    : step rtsp_request_header :=
  if is_field (cs "CSeq") field then Next (set_rq_cseq (atoi value) header)
  else if is_field (cs "Date") field then
    next_if (time_local_parse value) (fun d => set_rq_date d header)
  else if is_field (cs "Session") field then
    next_if (rtsp_session_header_read (Some value))
      (fun '(id, t) => set_rq_session_timeout t (set_rq_session_id (Some id) header))
  else if is_field (cs "Transport") field then
    match rtsp_transport_header_read (Some value) RTSP_TRANSPORT_MAX_COUNT with
    | Undef => Return Undef
    | Err e => Return (Err e)
    | Ok (l, ret) =>
        let header := set_rq_transport (Some <$> l) header in
        if ret <? 0 then Return (Err (- ret))
        else if Zlen l =? 0 then Return (Ok header)
        else Next header
    end
  else if is_field (cs "Content-Type") field then Next (set_rq_content_type (Some value) header)
  else if is_field (cs "Scale") field then
    Next (set_rq_scale (float_of_double (atof value)) header)
  else if is_field (cs "Authorization") field then
    next_if (rtsp_authorization_header_read (Some value))
      (fun a => set_rq_authorization (Some a) header)
  else if is_field (cs "User-Agent") field then Next (set_rq_user_agent (Some value) header)
  else if is_field (cs "Server") field then Next (set_rq_server (Some value) header)
  else if is_field (cs "Accept") field then Next (set_rq_accept (Some value) header)
  else if is_field (cs "Range") field then
    next_if (rtsp_range_header_read (Some value)) (fun r => set_rq_range r header)
  else if is_field (cs "Content-Length") field then
    Next (set_rq_content_length (atoi value) header)
  else if is_field (cs "X-") field then
    Next (set_rq_ext (rq_ext header ++ [HeaderExt (Some field) (Some value)]) header)
  else Next header.

Definition request_line (p : cstr) : res rtsp_request_header :=
  let method := strtok_tok (cs " ") p in
  let rest := strtok_rest (cs " ") p in
  let uri := strtok_tok (cs " ") rest in
  let version := strtok_tok CRLF (strtok_rest (cs " ") rest) in
  let m := rtsp_method_type_enum method in
  return_err_if (bool_decide (m = RTSP_METHOD_TYPE_UNKNOWN)) EPROTO;;
  match uri with
  | None | Some [] => Err EPROTO
  | Some uri =>
      return_err_if (negb (bool_decide (version = Some (cs "RTSP/1.0")))) EPROTO;;
      Ok (set_rq_uri (Some uri) (set_rq_method m rtsp_request_header_clear))
  end.

(** The header and the position of the body in the buffer. *)
Definition rtsp_request_header_read (str : bytes) : res (rtsp_request_header * nat) :=
  match find_double_newline str with
  | None => Err EPROTO
  | Some (r, nl_len) =>
      match strtok_r CRLF (take r str) with
      | None => Err EPROTO
      | Some (p, temp) =>
          header ← request_line p;
          header ← read_fields request_field (tokens CRLF temp) header;
          Ok (header, (r + nl_len)%nat)
      end
  end.
End request.

(** ** Round trip *)

Section roundtrip.
Context `{L : LocalTimeLaws}.

(** The transports of the array, whose pointers are not NULL. *)
Definition transports (l : list (option rtsp_transport_header)) : list rtsp_transport_header :=
  omap id l.

(** The lines after the first, in the order they are written. *)
Definition request_lines (h : rtsp_request_header) : list (cstr * cstr) :=
  line_if (0 <=? rq_cseq h) (cs "CSeq") (fmt_d (rq_cseq h))
  ++ line_if (0 <? rq_date h) (cs "Date") (date_value (rq_date h))
  ++ session_lines (rq_session_id h) (rq_session_timeout h)
  ++ line_if (0 <? Zlen (rq_transport h)) (cs "Transport")
       (text_of_transports (transports (rq_transport h)))
  ++ authorization_lines (rq_authorization h)
  ++ str_line (cs "Content-Type") (rq_content_type h)
  ++ line_if (negb (is_zero (rq_scale h))) (cs "Scale") (fmt_2f (rq_scale h))
  ++ str_line (cs "User-Agent") (rq_user_agent h)
  ++ str_line (cs "Server") (rq_server h)
  ++ str_line (cs "Accept") (rq_accept h)
  ++ line_if (negb (is_unknown (rg_start (rq_range h)))) (cs "Range") (text_of_range (rq_range h))
  ++ line_if (0 <? rq_content_length h) (cs "Content-Length") (fmt_d (rq_content_length h))
  ++ map ext_line (rq_ext h).

Definition request_line_text (h : rtsp_request_header) : cstr :=
  rtsp_method_type_str (rq_method h) ++ cs " " ++ default [] (rq_uri h) ++ cs " RTSP/1.0".

Definition request_all_lines (h : rtsp_request_header) : list cstr :=
  request_line_text h :: map header_line (request_lines h).

Definition text_of_request (h : rtsp_request_header) : cstr :=
  lines_text (request_all_lines h) ++ CRLF.

(** A request the library can write and read back; no value has a line end. *)
Definition wf_request (h : rtsp_request_header) : bool :=
  negb (bool_decide (rq_method h = RTSP_METHOD_TYPE_UNKNOWN))
  && match rq_uri h with
     | Some u => negb (streq u []) && forallb (fun c => line_char c && isnot " " c) u
     | None => false
     end
  && (- 2 ^ 31 <=? rq_cseq h) && (rq_cseq h <? 2 ^ 31)
  && (0 <=? rq_date h) && (rq_date h <=? DATE_MAX)
  && match rq_session_id h with Some s => forallb (isnot ";") s | None => true end
  && (0 <=? rq_session_timeout h) && (rq_session_timeout h <=? UINT_MAX)
  && forallb (fun t => match t with Some t => wf_transport t | None => false end) (rq_transport h)
  && (Zlen (rq_transport h) <=? RTSP_TRANSPORT_MAX_COUNT)
  && match rq_authorization h with Some a => wf_authorization a | None => true end
  && (is_unknown (rg_start (rq_range h)) || wf_range (rq_range h))
  && (rq_content_length h <=? INT_MAX)
  && forallb wf_ext (rq_ext h)
  && forallb wf_line (request_lines h).

(** What the text carries. *)
Definition request_on_wire (h : rtsp_request_header) : rtsp_request_header :=
  ReqHeader (rq_method h) (rq_uri h) (if 0 <=? rq_cseq h then rq_cseq h else 0) (rq_date h)
    (some_str (rq_session_id h))
    (match some_str (rq_session_id h) with Some _ => rq_session_timeout h | None => 0 end)
    (fmap (M:=option) transport_on_wire <$> rq_transport h)
    (authorization_on_wire <$> rq_authorization h)
    (some_str (rq_content_type h)) (rq_scale h) (some_str (rq_user_agent h))
    (some_str (rq_server h)) (some_str (rq_accept h))
    (if is_unknown (rg_start (rq_range h)) then range_zero else rq_range h)
    (if 0 <? rq_content_length h then rq_content_length h else 0) (rq_ext h).

Record request_ok (h : rtsp_request_header) (k : Z) : Prop := RequestOk {
  rok_method : rq_method h ≠ RTSP_METHOD_TYPE_UNKNOWN;
  rok_uri : ∃ u, rq_uri h = Some u ∧ u ≠ [] ∧ all (fun c => line_char c && isnot " " c) u;
  rok_cseq : - 2 ^ 31 <= rq_cseq h < 2 ^ 31;
  rok_date : 0 <= rq_date h <= DATE_MAX;
  rok_session : ∀ s, rq_session_id h = Some s → all (isnot ";") s;
  rok_timeout : 0 <= rq_session_timeout h <= UINT_MAX;
  rok_transport : ∃ ts, rq_transport h = Some <$> ts ∧ Forall transport_ok ts ∧
                        Zlen ts <= RTSP_TRANSPORT_MAX_COUNT;
  rok_authorization : ∀ a, rq_authorization h = Some a → wf_authorization a = true;
  rok_range : is_unknown (rg_start (rq_range h)) = true ∨ range_ok (rq_range h);
  rok_content_length : rq_content_length h <= INT_MAX;
  rok_ext : Forall (fun e => wf_ext e = true) (rq_ext h);
  rok_lines : Forall (fun l => wf_line l = true) (request_lines h);
  rok_scale : rq_scale h = hundredths k ∧ -500 <= k <= 500
}.

Lemma wf_transport_pointers l :
  forallb (fun t => match t with Some t => wf_transport t | None => false end) l = true →
  ∃ ts, l = Some <$> ts ∧ Forall transport_ok ts.
Proof using Type.
  clear L. induction l as [|[t|] l IH]; cbn [forallb]; [by exists []| |done].
  intros [Ht Hl]%andb_true_iff. destruct (IH Hl) as (ts & -> & Hts).
  exists (t :: ts). split; [done|]. constructor; [by apply wf_transport_ok|done].
Qed.

Lemma wf_request_ok h k :
  wf_request h = true → rq_scale h = hundredths k → -500 <= k <= 500 → request_ok h k.
Proof using Type.
  unfold wf_request. intros H Hs Hk. bool_to_prop.
  match goal with H : forallb _ (rq_transport h) = true |- _ =>
    apply wf_transport_pointers in H as (ts & Ets & Hts) end.
  constructor; try done.
  - destruct (rq_uri h) as [u|]; [|done]. bool_to_prop. exists u.
    split_and!; [done|by apply streq_false|done].
  - by destruct (rq_session_id h); intros ? [= <-].
  - exists ts. split_and!; [done|done|]. rewrite Ets in *.
    unfold Zlen in *. by rewrite length_fmap in *.
  - by destruct (rq_authorization h); intros ? [= <-].
  - match goal with H : (_ || _)%bool = true |- _ => apply orb_true_iff in H as [H|H] end;
      [by left|right; by apply wf_range_ok].
  - by apply forallb_Forall.
  - by apply forallb_Forall.
Qed.

(** *** Writing *)

Lemma transports_some ts : transports (Some <$> ts) = ts.
Proof using Type. clear L. induction ts as [|t ts IH]; [done|]. cbn. by f_equal. Qed.

Lemma rtsp_request_header_write_emits h k :
  request_ok h k → emits (rtsp_request_header_write h) (text_of_request h) tt.
Proof using L.
  intros [Hm (u & Hu & Hune & Hut) _ Hd _ _ (ts & Ets & Hts & _) Ha Hr _ Hx _ _].
  unfold rtsp_request_header_write, text_of_request, request_all_lines, request_line_text.
  unfold request_lines. rewrite Hu, Ets, transports_some. destruct u as [|c u]; [done|].
  rewrite lines_text_cons, !map_app, !lines_text_app.
  eapply emits_eq.
  { apply emits_seq; [apply emits_check; by destruct (rq_method h)|].
    apply emits_seq; [apply emits_sprintf|].
    repeat first
      [ apply line_if_emits | apply str_line_emits | by apply date_line_emits
      | apply session_lines_emits | by apply transport_lines_emits
      | by apply authorization_lines_emits | by apply range_lines_emits
      | by apply write_exts_emits | apply emits_seq ].
    apply emits_sprintf. }
  cbn [default]. text_eq.
Qed.

(** *** Reading *)

Lemma request_line_read h :
  rq_method h ≠ RTSP_METHOD_TYPE_UNKNOWN →
  (∃ u, rq_uri h = Some u ∧ u ≠ [] ∧ all (fun c => line_char c && isnot " " c) u) →
  request_line (request_line_text h)
  = Ok (set_rq_uri (rq_uri h) (set_rq_method (rq_method h) rtsp_request_header_clear)).
Proof using Type.
  clear L. intros Hm (u & Hu & Hne & Hc). unfold request_line, request_line_text.
  rewrite Hu. change (default [] (Some u)) with u. set (m := rtsp_method_type_str (rq_method h)).
  assert (m ≠ [] ∧ all (noneof (cs " ")) m ∧ rtsp_method_type_enum (Some m) = rq_method h)
    as (Hmn & Hmc & Hme) by (subst m; by destruct (rq_method h)).
  assert (all (noneof (cs " ")) u) as Huc by (by eapply all_impl_dec, Hc).
  change (cs " " ++ u ++ cs " RTSP/1.0") with (" "%char :: u ++ " "%char :: cs "RTSP/1.0").
  destruct (strtok_tok_app (cs " ") m " " (u ++ " "%char :: cs "RTSP/1.0")) as [-> ->]; [done..|].
  destruct (strtok_tok_app (cs " ") u " " (cs "RTSP/1.0")) as [-> ->]; [done..|].
  rewrite Hme, (bool_decide_eq_false_2 (rq_method h = _)) by done. by destruct u.
Qed.

Lemma session_lines_reads id timeout h :
  (∀ s, id = Some s → all (isnot ";") s) → 0 <= timeout <= UINT_MAX →
  set_rq_session_timeout 0 (set_rq_session_id None h) = h →
  reads request_field (session_lines id timeout) h
    (set_rq_session_timeout (match some_str id with Some _ => timeout | None => 0 end)
       (set_rq_session_id (some_str id) h)).
Proof using Type.
  clear L. intros Hid Ht Hz. destruct id as [[|c s]|]; cbn [session_lines some_str];
    [rewrite Hz; apply reads_nil| |rewrite Hz; apply reads_nil].
  apply reads_one. unfold request_field. eval_field.
  by rewrite rtsp_session_header_read_text by auto.
Qed.

Lemma transport_lines_reads ts h :
  Forall transport_ok ts → Zlen ts <= RTSP_TRANSPORT_MAX_COUNT → set_rq_transport [] h = h →
  reads request_field
    (line_if (0 <? Zlen (Some <$> ts)) (cs "Transport") (text_of_transports ts)) h
    (set_rq_transport (Some <$> (transport_on_wire <$> ts)) h).
Proof using Type.
  clear L. intros Hts Hn Hz.
  destruct ts as [|t ts]; [eapply reads_eq; [apply reads_nil|symmetry; exact Hz]|].
  apply reads_one. unfold request_field. eval_field.
  rewrite rtsp_transport_header_read_text by done.
  rewrite take_ge by (unfold Zlen, RTSP_TRANSPORT_MAX_COUNT in *; lia). done.
Qed.

Lemma authorization_lines_reads a h :
  (∀ x, a = Some x → wf_authorization x = true) → set_rq_authorization None h = h →
  reads request_field (authorization_lines a) h
    (set_rq_authorization (authorization_on_wire <$> a) h).
Proof using Type.
  clear L. intros Ha Hz. destruct a as [a|];
    [|eapply reads_eq; [apply reads_nil|symmetry; exact Hz]].
  apply reads_one. unfold request_field. eval_field.
  by rewrite rtsp_authorization_header_read_text by auto.
Qed.

Lemma request_field_ext h name v :
  is_field (cs "X-") name = true →
  request_field h name v = Next (set_rq_ext (rq_ext h ++ [HeaderExt (Some name) (Some v)]) h).
Proof using Type.
  clear L. intros Hx. unfold request_field. rewrite Hx.
  by do 12 (erewrite ext_not_field; [|exact Hx|reflexivity|done]).
Qed.

Lemma request_exts_reads ext h :
  Forall (fun e => wf_ext e = true) ext →
  reads request_field (map ext_line ext) h (set_rq_ext (rq_ext h ++ ext) h).
Proof using Type.
  clear L. apply (reads_exts request_field rq_ext set_rq_ext);
    [by intros []|done|done|apply request_field_ext].
Qed.

(** The header read so far as a record, and the step to the next kind of lines. *)
Ltac norm_request :=
  match goal with |- reads _ _ ?h _ =>
      let h' := eval cbv [rtsp_request_header_clear
      rq_method rq_uri rq_cseq rq_date rq_session_id rq_session_timeout rq_transport
      rq_authorization rq_content_type rq_scale rq_user_agent rq_server rq_accept rq_range
      rq_content_length rq_ext set_rq_method set_rq_uri set_rq_cseq set_rq_date
      set_rq_session_id set_rq_session_timeout set_rq_transport set_rq_authorization
      set_rq_content_type set_rq_scale set_rq_user_agent set_rq_server set_rq_accept
      set_rq_range set_rq_content_length set_rq_ext] in h in
      change h with h'
  end.
Ltac next_line tac := eapply reads_app; [tac|norm_request].

Lemma request_lines_reads h k :
  request_ok h k →
  reads request_field (request_lines h)
    (set_rq_uri (rq_uri h) (set_rq_method (rq_method h) rtsp_request_header_clear))
    (request_on_wire h).
Proof using L.
  intros [Hm Hu Hc Hd Hs Ht (ts & Ets & Hts & Hn) Ha Hr Hl Hx _ [Hsc Hk]].
  unfold request_lines. rewrite Ets, transports_some. eapply reads_eq.
  { next_line ltac:(apply (reads_line_if _ set_rq_cseq _ _ _ (rq_cseq h) 0); [done|]).
    { intros _. unfold request_field. eval_field. repeat f_equal.
      rewrite <- (app_nil_r (fmt_d _)). by apply atoi_fmt_s32. }
    next_line ltac:(apply (reads_line_if _ set_rq_date _ _ _ (rq_date h) 0); [done|]).
    { intros ?. bool_to_prop. unfold request_field. eval_field.
      by destruct (date_value_ok (rq_date h) ltac:(lia)) as [_ ->]. }
    next_line ltac:(by apply session_lines_reads).
    next_line ltac:(by apply transport_lines_reads).
    next_line ltac:(by apply authorization_lines_reads).
    next_line ltac:(by apply (reads_str_line _ set_rq_content_type)).
    next_line ltac:(apply (reads_line_if _ set_rq_scale _ _ _ (rq_scale h) (S754_zero false)); [done|]).
    { intros _. unfold request_field. eval_field. by rewrite Hsc, scale_line_reads. }
    next_line ltac:(by apply (reads_str_line _ set_rq_user_agent)).
    next_line ltac:(by apply (reads_str_line _ set_rq_server)).
    next_line ltac:(by apply (reads_str_line _ set_rq_accept)).
    next_line ltac:(apply (reads_line_if _ set_rq_range _ _ _ (rq_range h) range_zero); [done|]).
    { intros ?. bool_to_prop. destruct Hr as [Hr|Hr]; [congruence|].
      unfold request_field. eval_field. by rewrite rtsp_range_header_read_text. }
    next_line ltac:(apply (reads_line_if _ set_rq_content_length _ _ _ (rq_content_length h) 0); [done|]).
    { intros ?. bool_to_prop. unfold request_field. eval_field. repeat f_equal.
      rewrite <- (app_nil_r (fmt_d _)). apply atoi_fmt_d; [lia|done]. }
    by apply request_exts_reads. }
  unfold request_on_wire, set_rq_ext. f_equal; try done.
  - apply positive_or_zero; lia.
  - by rewrite Ets, <- !list_fmap_compose.
  - by apply (zero_scale (rq_scale h) k).
  - change (?r = _) with ((if negb (is_unknown (rg_start (rq_range h))) then rq_range h
                           else range_zero) = if is_unknown (rg_start (rq_range h))
                                              then range_zero else rq_range h).
    by destruct (is_unknown _).
Qed.

Lemma request_line_text_ok h :
  (∃ u, rq_uri h = Some u ∧ u ≠ [] ∧ all (fun c => line_char c && isnot " " c) u) →
  line_ok (request_line_text h) = true.
Proof using Type.
  clear L. intros (u & Hu & _ & Hc). unfold request_line_text, line_ok. rewrite Hu.
  change (default [] (Some u)) with u. apply andb_true_iff. split.
  - by destruct (rq_method h).
  - assert (all line_char (rtsp_method_type_str (rq_method h))) by by destruct (rq_method h).
    rewrite !all_app. split_and!; [done..|by eapply all_impl_dec, Hc|done].
Qed.

Lemma request_all_lines_ok h k :
  request_ok h k → Forall (fun l => line_ok l = true) (request_all_lines h).
Proof using Type.
  clear L. intros [_ Hu _ _ _ _ _ _ _ _ _ Hl _]. constructor; [by apply request_line_text_ok|].
  apply Forall_map. eapply Forall_impl; [exact Hl|]. intros l Hw. by apply wf_line_ok.
Qed.

Lemma rtsp_request_header_read_text h k body :
  request_ok h k →
  rtsp_request_header_read (text_of_request h ++ body)
  = Ok (request_on_wire h, length (text_of_request h)).
Proof using L.
  intros Hok. destruct (find_double_newline_lines (request_all_lines h) body) as (r & Hf & Hr & Ht);
    [done|by eapply request_all_lines_ok|]. fold (text_of_request h) in *.
  unfold rtsp_request_header_read. rewrite Hf.
  apply tokens_cons_inv in Ht as (temp & -> & ->).
  rewrite request_line_read by apply Hok. cbn [mbind res_bind].
  rewrite (reads_all _ _ _ _ (rok_lines h k Hok) (request_lines_reads h k Hok)).
  cbn [mbind res_bind]. by rewrite Hr.
Qed.

(** C18: a request header that the library can represent is written as its
    request line, one line per header that is set and an empty line, within any
    buffer that has room; and reading this text, with any body after it, gives
    back every member the text carries and the position of the body. *)
Theorem rtsp_request_header_roundtrip h k body :
  wf_request h = true → rq_scale h = hundredths k → -500 <= k <= 500 →
  emits (rtsp_request_header_write h) (text_of_request h) tt ∧
  rtsp_request_header_read (text_of_request h ++ body)
  = Ok (request_on_wire h, length (text_of_request h)).
Proof using L.
  intros Hw Hs Hk. pose proof (wf_request_ok h k Hw Hs Hk). split.
  - by eapply rtsp_request_header_write_emits.
  - by eapply rtsp_request_header_read_text.
Qed.
End roundtrip.

Definition sample_request : rtsp_request_header :=
  ReqHeader RTSP_METHOD_TYPE_SETUP (Some (cs "rtsp://192.168.42.1/live/track1")) 3 1700000000
    (Some (cs "47112344")) 60 (Some <$> sample_transports) (Some sample_digest) None
    (hundredths (-150)) (Some (cs "client")) None None sample_range 0
    [HeaderExt (Some (cs "X-com.parrot")) (Some (cs "a:b"))].

Lemma rtsp_request_header_roundtrip_witness :
  wf_request (T := stub_time) sample_request = true ∧
  emits (rtsp_request_header_write (T := stub_time) sample_request)
    (text_of_request (T := stub_time) sample_request) tt ∧
  rtsp_request_header_read (T := stub_time)
    (text_of_request (T := stub_time) sample_request ++ cs "body")
  = Ok (request_on_wire sample_request, length (text_of_request (T := stub_time) sample_request)).
Proof.
  assert (wf_request (T := stub_time) sample_request = true) as H by (vm_compute; reflexivity).
  split; [exact H|].
  exact (rtsp_request_header_roundtrip (L := stub_time_laws) sample_request (-150) (cs "body") H eq_refl
           ltac:(lia)).
Defined.

(** Field names are compared by prefix: the header [Accept-Encoding] of
    RFC 2326, like any header whose name extends ["Accept"], replaces the value
    of [Accept]. *)
Theorem request_field_accept_prefix `{LocalTime} h suffix value :
  request_field h (cs "Accept" ++ suffix) value = Next (set_rq_accept (Some value) h).
Proof.
  unfold request_field, is_field, starts_with_case, lower.
  rewrite map_app. reflexivity.
Qed.
