(* ===== verification/Response.v ===== *)
(** * Response headers ([rtsp_response_header_*] of [rtsp.c])

    [status_code], [cseq] and [content_length] are [int]s, the method sets
    [uint32_t]s.  As for requests, an error carries no header. *)

From S2P Require Import Prelude CString CNumber Writer Methods SessionHeader RtpInfo Transport.
From S2P Require Import AuthHeader CFloat TimeRange Framing HeaderLine HeaderFields.
From stdpp Require Import options.

Local Open Scope Z_scope.

Record rtsp_response_header := RespHeader {
  rp_status_code : Z;
  rp_status_string : option cstr;
  rp_cseq : Z;
  rp_date : Z;
  rp_session_id : option cstr;
  rp_session_timeout : Z;
  rp_transport : option rtsp_transport_header;
  rp_authenticate : option rtsp_authorization_header;
  rp_content_type : option cstr;
  rp_scale : spec_float;
  rp_public_methods : Z;
  rp_allowed_methods : Z;
  rp_rtp_info : list (option rtsp_rtp_info_header);
  rp_server : option cstr;
  rp_range : rtsp_range;
  rp_content_length : Z;
  rp_content_encoding : option cstr;
  rp_content_language : option cstr;
  rp_content_base : option cstr;
  rp_content_location : option cstr;
  rp_ext : list rtsp_header_ext
}.


Definition set_rp_status_code (x : Z) (h : rtsp_response_header) : rtsp_response_header :=
  RespHeader x (rp_status_string h) (rp_cseq h) (rp_date h) (rp_session_id h)
    (rp_session_timeout h) (rp_transport h) (rp_authenticate h) (rp_content_type h) (rp_scale h)
    (rp_public_methods h) (rp_allowed_methods h) (rp_rtp_info h) (rp_server h) (rp_range h)
    (rp_content_length h) (rp_content_encoding h) (rp_content_language h) (rp_content_base h)
    (rp_content_location h) (rp_ext h).
Definition set_rp_status_string (x : option cstr) (h : rtsp_response_header) : rtsp_response_header :=
  RespHeader (rp_status_code h) x (rp_cseq h) (rp_date h) (rp_session_id h)
    (rp_session_timeout h) (rp_transport h) (rp_authenticate h) (rp_content_type h) (rp_scale h)
    (rp_public_methods h) (rp_allowed_methods h) (rp_rtp_info h) (rp_server h) (rp_range h)
    (rp_content_length h) (rp_content_encoding h) (rp_content_language h) (rp_content_base h)
    (rp_content_location h) (rp_ext h).
Definition set_rp_cseq (x : Z) (h : rtsp_response_header) : rtsp_response_header :=
  RespHeader (rp_status_code h) (rp_status_string h) x (rp_date h) (rp_session_id h)
    (rp_session_timeout h) (rp_transport h) (rp_authenticate h) (rp_content_type h) (rp_scale h)
    (rp_public_methods h) (rp_allowed_methods h) (rp_rtp_info h) (rp_server h) (rp_range h)
    (rp_content_length h) (rp_content_encoding h) (rp_content_language h) (rp_content_base h)
    (rp_content_location h) (rp_ext h).
Definition set_rp_date (x : Z) (h : rtsp_response_header) : rtsp_response_header :=
  RespHeader (rp_status_code h) (rp_status_string h) (rp_cseq h) x (rp_session_id h)
    (rp_session_timeout h) (rp_transport h) (rp_authenticate h) (rp_content_type h) (rp_scale h)
    (rp_public_methods h) (rp_allowed_methods h) (rp_rtp_info h) (rp_server h) (rp_range h)
    (rp_content_length h) (rp_content_encoding h) (rp_content_language h) (rp_content_base h)
    (rp_content_location h) (rp_ext h).
Definition set_rp_session_id (x : option cstr) (h : rtsp_response_header) : rtsp_response_header :=
  RespHeader (rp_status_code h) (rp_status_string h) (rp_cseq h) (rp_date h) x
    (rp_session_timeout h) (rp_transport h) (rp_authenticate h) (rp_content_type h) (rp_scale h)
    (rp_public_methods h) (rp_allowed_methods h) (rp_rtp_info h) (rp_server h) (rp_range h)
    (rp_content_length h) (rp_content_encoding h) (rp_content_language h) (rp_content_base h)
    (rp_content_location h) (rp_ext h).
Definition set_rp_session_timeout (x : Z) (h : rtsp_response_header) : rtsp_response_header :=
  RespHeader (rp_status_code h) (rp_status_string h) (rp_cseq h) (rp_date h) (rp_session_id h) x
    (rp_transport h) (rp_authenticate h) (rp_content_type h) (rp_scale h) (rp_public_methods h)
    (rp_allowed_methods h) (rp_rtp_info h) (rp_server h) (rp_range h) (rp_content_length h)
    (rp_content_encoding h) (rp_content_language h) (rp_content_base h) (rp_content_location h)
    (rp_ext h).
Definition set_rp_transport (x : option rtsp_transport_header) (h : rtsp_response_header) : rtsp_response_header :=
  RespHeader (rp_status_code h) (rp_status_string h) (rp_cseq h) (rp_date h) (rp_session_id h)
    (rp_session_timeout h) x (rp_authenticate h) (rp_content_type h) (rp_scale h)
    (rp_public_methods h) (rp_allowed_methods h) (rp_rtp_info h) (rp_server h) (rp_range h)
    (rp_content_length h) (rp_content_encoding h) (rp_content_language h) (rp_content_base h)
    (rp_content_location h) (rp_ext h).
Definition set_rp_authenticate (x : option rtsp_authorization_header) (h : rtsp_response_header) : rtsp_response_header :=
  RespHeader (rp_status_code h) (rp_status_string h) (rp_cseq h) (rp_date h) (rp_session_id h)
    (rp_session_timeout h) (rp_transport h) x (rp_content_type h) (rp_scale h)
    (rp_public_methods h) (rp_allowed_methods h) (rp_rtp_info h) (rp_server h) (rp_range h)
    (rp_content_length h) (rp_content_encoding h) (rp_content_language h) (rp_content_base h)
    (rp_content_location h) (rp_ext h).
Definition set_rp_content_type (x : option cstr) (h : rtsp_response_header) : rtsp_response_header :=
  RespHeader (rp_status_code h) (rp_status_string h) (rp_cseq h) (rp_date h) (rp_session_id h)
    (rp_session_timeout h) (rp_transport h) (rp_authenticate h) x (rp_scale h)
    (rp_public_methods h) (rp_allowed_methods h) (rp_rtp_info h) (rp_server h) (rp_range h)
    (rp_content_length h) (rp_content_encoding h) (rp_content_language h) (rp_content_base h)
    (rp_content_location h) (rp_ext h).
Definition set_rp_scale (x : spec_float) (h : rtsp_response_header) : rtsp_response_header :=
  RespHeader (rp_status_code h) (rp_status_string h) (rp_cseq h) (rp_date h) (rp_session_id h)
    (rp_session_timeout h) (rp_transport h) (rp_authenticate h) (rp_content_type h) x
    (rp_public_methods h) (rp_allowed_methods h) (rp_rtp_info h) (rp_server h) (rp_range h)
    (rp_content_length h) (rp_content_encoding h) (rp_content_language h) (rp_content_base h)
    (rp_content_location h) (rp_ext h).
Definition set_rp_public_methods (x : Z) (h : rtsp_response_header) : rtsp_response_header :=
  RespHeader (rp_status_code h) (rp_status_string h) (rp_cseq h) (rp_date h) (rp_session_id h)
    (rp_session_timeout h) (rp_transport h) (rp_authenticate h) (rp_content_type h) (rp_scale h)
    x (rp_allowed_methods h) (rp_rtp_info h) (rp_server h) (rp_range h) (rp_content_length h)
    (rp_content_encoding h) (rp_content_language h) (rp_content_base h) (rp_content_location h)
    (rp_ext h).
Definition set_rp_allowed_methods (x : Z) (h : rtsp_response_header) : rtsp_response_header :=
  RespHeader (rp_status_code h) (rp_status_string h) (rp_cseq h) (rp_date h) (rp_session_id h)
    (rp_session_timeout h) (rp_transport h) (rp_authenticate h) (rp_content_type h) (rp_scale h)
    (rp_public_methods h) x (rp_rtp_info h) (rp_server h) (rp_range h) (rp_content_length h)
    (rp_content_encoding h) (rp_content_language h) (rp_content_base h) (rp_content_location h)
    (rp_ext h).
Definition set_rp_rtp_info (x : list (option rtsp_rtp_info_header)) (h : rtsp_response_header) : rtsp_response_header :=
  RespHeader (rp_status_code h) (rp_status_string h) (rp_cseq h) (rp_date h) (rp_session_id h)
    (rp_session_timeout h) (rp_transport h) (rp_authenticate h) (rp_content_type h) (rp_scale h)
    (rp_public_methods h) (rp_allowed_methods h) x (rp_server h) (rp_range h)
    (rp_content_length h) (rp_content_encoding h) (rp_content_language h) (rp_content_base h)
    (rp_content_location h) (rp_ext h).
Definition set_rp_server (x : option cstr) (h : rtsp_response_header) : rtsp_response_header :=
  RespHeader (rp_status_code h) (rp_status_string h) (rp_cseq h) (rp_date h) (rp_session_id h)
    (rp_session_timeout h) (rp_transport h) (rp_authenticate h) (rp_content_type h) (rp_scale h)
    (rp_public_methods h) (rp_allowed_methods h) (rp_rtp_info h) x (rp_range h)
    (rp_content_length h) (rp_content_encoding h) (rp_content_language h) (rp_content_base h)
    (rp_content_location h) (rp_ext h).
Definition set_rp_range (x : rtsp_range) (h : rtsp_response_header) : rtsp_response_header :=
  RespHeader (rp_status_code h) (rp_status_string h) (rp_cseq h) (rp_date h) (rp_session_id h)
    (rp_session_timeout h) (rp_transport h) (rp_authenticate h) (rp_content_type h) (rp_scale h)
    (rp_public_methods h) (rp_allowed_methods h) (rp_rtp_info h) (rp_server h) x
    (rp_content_length h) (rp_content_encoding h) (rp_content_language h) (rp_content_base h)
    (rp_content_location h) (rp_ext h).
Definition set_rp_content_length (x : Z) (h : rtsp_response_header) : rtsp_response_header :=
  RespHeader (rp_status_code h) (rp_status_string h) (rp_cseq h) (rp_date h) (rp_session_id h)
    (rp_session_timeout h) (rp_transport h) (rp_authenticate h) (rp_content_type h) (rp_scale h)
    (rp_public_methods h) (rp_allowed_methods h) (rp_rtp_info h) (rp_server h) (rp_range h) x
    (rp_content_encoding h) (rp_content_language h) (rp_content_base h) (rp_content_location h)
    (rp_ext h).
Definition set_rp_content_encoding (x : option cstr) (h : rtsp_response_header) : rtsp_response_header :=
  RespHeader (rp_status_code h) (rp_status_string h) (rp_cseq h) (rp_date h) (rp_session_id h)
    (rp_session_timeout h) (rp_transport h) (rp_authenticate h) (rp_content_type h) (rp_scale h)
    (rp_public_methods h) (rp_allowed_methods h) (rp_rtp_info h) (rp_server h) (rp_range h)
    (rp_content_length h) x (rp_content_language h) (rp_content_base h) (rp_content_location h)
    (rp_ext h).
Definition set_rp_content_language (x : option cstr) (h : rtsp_response_header) : rtsp_response_header :=
  RespHeader (rp_status_code h) (rp_status_string h) (rp_cseq h) (rp_date h) (rp_session_id h)
    (rp_session_timeout h) (rp_transport h) (rp_authenticate h) (rp_content_type h) (rp_scale h)
    (rp_public_methods h) (rp_allowed_methods h) (rp_rtp_info h) (rp_server h) (rp_range h)
    (rp_content_length h) (rp_content_encoding h) x (rp_content_base h) (rp_content_location h)
    (rp_ext h).
Definition set_rp_content_base (x : option cstr) (h : rtsp_response_header) : rtsp_response_header :=
  RespHeader (rp_status_code h) (rp_status_string h) (rp_cseq h) (rp_date h) (rp_session_id h)
    (rp_session_timeout h) (rp_transport h) (rp_authenticate h) (rp_content_type h) (rp_scale h)
    (rp_public_methods h) (rp_allowed_methods h) (rp_rtp_info h) (rp_server h) (rp_range h)
    (rp_content_length h) (rp_content_encoding h) (rp_content_language h) x
    (rp_content_location h) (rp_ext h).
Definition set_rp_content_location (x : option cstr) (h : rtsp_response_header) : rtsp_response_header :=
  RespHeader (rp_status_code h) (rp_status_string h) (rp_cseq h) (rp_date h) (rp_session_id h)
    (rp_session_timeout h) (rp_transport h) (rp_authenticate h) (rp_content_type h) (rp_scale h)
    (rp_public_methods h) (rp_allowed_methods h) (rp_rtp_info h) (rp_server h) (rp_range h)
    (rp_content_length h) (rp_content_encoding h) (rp_content_language h) (rp_content_base h) x
    (rp_ext h).
Definition set_rp_ext (x : list rtsp_header_ext) (h : rtsp_response_header) : rtsp_response_header :=
  RespHeader (rp_status_code h) (rp_status_string h) (rp_cseq h) (rp_date h) (rp_session_id h)
    (rp_session_timeout h) (rp_transport h) (rp_authenticate h) (rp_content_type h) (rp_scale h)
    (rp_public_methods h) (rp_allowed_methods h) (rp_rtp_info h) (rp_server h) (rp_range h)
    (rp_content_length h) (rp_content_encoding h) (rp_content_language h) (rp_content_base h)
    (rp_content_location h) x.

#[export] Instance rtsp_response_header_eq_dec : EqDecision rtsp_response_header.
Proof. solve_decision. Defined.

(** [rtsp_response_header_clear]: everything freed and zeroed. *)
Definition rtsp_response_header_clear : rtsp_response_header :=
  RespHeader 0 None 0 0 None 0 None None None (S754_zero false) 0 0 [] None range_zero 0
    None None None None [].

(** The copy of an RTP-Info entry; a NULL one leaves a new, zeroed entry. *)
Definition copy_rtp_info (r : option rtsp_rtp_info_header) : option rtsp_rtp_info_header :=
  match rtsp_rtp_info_header_copy r with
  | Ok r' => Some r'
  | _ => Some rtsp_rtp_info_header_new
  end.

Definition rtsp_response_header_copy_ext (header : rtsp_response_header)
    (ext : option (list rtsp_header_ext)) (ext_count : Z) : res rtsp_response_header :=
  e ← copy_exts (rp_ext header) ext ext_count; Ok (set_rp_ext e header).

Definition rtsp_response_header_copy (src dst : option rtsp_response_header)
    : res rtsp_response_header :=
  match src, dst with
  | Some s, Some d =>
      let d := RespHeader (rp_status_code s) (rp_status_string s) (rp_cseq s) (rp_date s)
                 (rp_session_id s) (rp_session_timeout s)
                 (match rp_transport s with
                  | Some t => copy_transport (Some t)
                  | None => None
                  end)
                 (copy_authorization (rp_authenticate s) (rp_authenticate d))
                 (rp_content_type s) (rp_scale s) (rp_public_methods s) (rp_allowed_methods s)
                 (copy_rtp_info <$> rp_rtp_info s) (rp_server s) (rp_range s)
                 (rp_content_length s) (rp_content_encoding s) (rp_content_language s)
                 (rp_content_base s) (rp_content_location s) (rp_ext d) in
      rtsp_response_header_copy_ext d (Some (rp_ext s)) (Zlen (rp_ext s))
  | _, _ => Err EINVAL
  end.

(** A copy to a cleared header is the header itself, when its RTP-Info entries
    are not NULL. *)
Lemma rtsp_response_header_copy_clear s rs :
  rp_rtp_info s = Some <$> rs →
  rtsp_response_header_copy (Some s) (Some rtsp_response_header_clear) = Ok s.
Proof.
  intros Hrs. unfold rtsp_response_header_copy, rtsp_response_header_copy_ext.
  rewrite copy_exts_all, Hrs. cbn [rp_authenticate rtsp_response_header_clear].
  rewrite copy_authorization_new. destruct s. cbn in *. rewrite Hrs.
  assert (copy_rtp_info <$> (Some <$> rs) = Some <$> rs) as ->
    by (rewrite <- list_fmap_compose; apply list_fmap_ext; by intros i [] _).
  by destruct rp_ext0, rp_transport0 as [[]|].
Qed.

(** ** Writer *)

Section response.
Context `{T : LocalTime}.

(** The headers in the order they are written; [authenticate] is not. *)
Definition rtsp_response_header_write (header : rtsp_response_header) : writer unit :=
  wreturn_err_if (rp_status_code header =? 0) EINVAL;;
  match rp_status_string header with
  | None | Some [] => werr EINVAL
  | Some status_string =>
      rtsp_sprintf (cs "RTSP/1.0 " ++ fmt_d (rp_status_code header) ++ cs " " ++ status_string
                    ++ CRLF);;
      wwhen (0 <=? rp_cseq header) (write_line (cs "CSeq") (fmt_d (rp_cseq header)));;
      wwhen (0 <? rp_date header)
        (time_str ← wlift (time_local_format TIME_FMT_RFC1123 (rp_date header) 32);
         write_line (cs "Date") time_str);;
      match rp_session_id header with
      | None | Some [] => wskip
      | Some id => rtsp_session_header_write (Some id) (rp_session_timeout header)
      end;;
      match rp_transport header with
      | None => wskip
      | Some t => rtsp_transport_header_write [Some t]
      end;;
      write_str_line (cs "Content-Type") (rp_content_type header);;
      wwhen (negb (is_zero (rp_scale header)))
        (write_line (cs "Scale") (fmt_2f (rp_scale header)));;
      wwhen (0 <? rp_public_methods header)
        (rtsp_public_header_write (rp_public_methods header));;
      wwhen (0 <? rp_allowed_methods header)
        (rtsp_allow_header_write (rp_allowed_methods header));;
      wwhen (0 <? Zlen (rp_rtp_info header)) (rtsp_rtp_info_header_write (rp_rtp_info header));;
      write_str_line (cs "Server") (rp_server header);;
      wwhen (negb (is_unknown (rg_start (rp_range header))))
        (rtsp_range_header_write (rp_range header));;
      write_line (cs "Content-Length") (fmt_d (rp_content_length header));;
      write_str_line (cs "Content-Encoding") (rp_content_encoding header);;
      write_str_line (cs "Content-Language") (rp_content_language header);;
      write_str_line (cs "Content-Base") (rp_content_base header);;
      write_str_line (cs "Content-Location") (rp_content_location header);;
      write_exts (rp_ext header);;
      rtsp_sprintf CRLF
  end.

(** ** Reader *)

Definition response_field (header : rtsp_response_header) (field value : cstr)
    : step rtsp_response_header :=
  if is_field (cs "CSeq") field then Next (set_rp_cseq (atoi value) header)
  else if is_field (cs "Date") field then
    next_if (time_local_parse value) (fun d => set_rp_date d header)
  else if is_field (cs "Session") field then
    next_if (rtsp_session_header_read (Some value))
      (fun '(id, t) => set_rp_session_timeout t (set_rp_session_id (Some id) header))
  else if is_field (cs "Transport") field then
    match rtsp_transport_header_read (Some value) 1 with
    | Undef => Return Undef
    | Err e => Return (Err e)
    | Ok (l, ret) =>
        let header := match l with
                      | [] => header
                      | t :: _ => set_rp_transport (Some t) header
                      end in
        if ret <? 0 then Return (Err (- ret))
        else if Zlen l =? 0 then Return (Ok header)
        else Next header
    end
  else if is_field (cs "WWW-Authenticate") field then
    next_if (rtsp_authorization_header_read (Some value))
      (fun a => set_rp_authenticate (Some a) header)
  else if is_field (cs "Content-Type") field then Next (set_rp_content_type (Some value) header)
  else if is_field (cs "Scale") field then
    Next (set_rp_scale (float_of_double (atof value)) header)
  else if is_field (cs "Public") field then
    next_if (rtsp_public_header_read (Some value)) (fun m => set_rp_public_methods m header)
  else if is_field (cs "Allow") field then
    next_if (rtsp_allow_header_read (Some value)) (fun m => set_rp_allowed_methods m header)
  else if is_field (cs "RTP-Info") field then
    match rtsp_rtp_info_header_read (Some value) 1 with
    | Undef => Return Undef
    | Err e => Return (Err e)
    | Ok (l, ret) =>
        let header := set_rp_rtp_info (Some <$> l) header in
        if ret <? 0 then Return (Err (- ret))
        else if Zlen l =? 0 then Return (Ok header)
        else Next header
    end
  else if is_field (cs "Server") field then Next (set_rp_server (Some value) header)
  else if is_field (cs "Range") field then
    next_if (rtsp_range_header_read (Some value)) (fun r => set_rp_range r header)
  else if is_field (cs "Content-Length") field then
    Next (set_rp_content_length (atoi value) header)
  else if is_field (cs "Content-Encoding") field then
    Next (set_rp_content_encoding (Some value) header)
  else if is_field (cs "Content-Language") field then
    Next (set_rp_content_language (Some value) header)
  else if is_field (cs "Content-Base") field then Next (set_rp_content_base (Some value) header)
  else if is_field (cs "Content-Location") field then
    Next (set_rp_content_location (Some value) header)
  else if is_field (cs "X-") field then
    Next (set_rp_ext (rp_ext header ++ [HeaderExt (Some field) (Some value)]) header)
  else Next header.

Definition status_line (p : cstr) : res rtsp_response_header :=
  let version := strtok_tok (cs " ") p in
  let rest := strtok_rest (cs " ") p in
  let status_code_str := strtok_tok (cs " ") rest in
  let status_string := strtok_tok CRLF (strtok_rest (cs " ") rest) in
  return_err_if (negb (bool_decide (version = Some (cs "RTSP/1.0")))) EPROTO;;
  match status_code_str, status_string with
  | Some code, Some status_string =>
      Ok (set_rp_status_string (Some status_string)
            (set_rp_status_code (atoi code) rtsp_response_header_clear))
  | _, _ => Err EPROTO
  end.

(** The header and the position of the body in the buffer. *)
Definition rtsp_response_header_read (msg : bytes) : res (rtsp_response_header * nat) :=
  match find_double_newline msg with
  | None => Err EPROTO
  | Some (r, nl_len) =>
      match strtok_r CRLF (take r msg) with
      | None => Err EPROTO
      | Some (p, temp) =>
          header ← status_line p;
          header ← read_fields response_field (tokens CRLF temp) header;
          Ok (header, (r + nl_len)%nat)
      end
  end.
End response.

(** ** Round trip *)

Section roundtrip.
Context `{L : LocalTimeLaws}.

(** The RTP-Info entries of the array, whose pointers are not NULL. *)
Definition rtp_infos (l : list (option rtsp_rtp_info_header)) : list rtsp_rtp_info_header :=
  omap id l.

Definition transport_lines (t : option rtsp_transport_header) : list (cstr * cstr) :=
  match t with None => [] | Some t => [(cs "Transport", text_of_transports [t])] end.

(** The lines after the first, in the order they are written. *)
Definition response_lines (h : rtsp_response_header) : list (cstr * cstr) :=
  line_if (0 <=? rp_cseq h) (cs "CSeq") (fmt_d (rp_cseq h))
  ++ line_if (0 <? rp_date h) (cs "Date") (date_value (rp_date h))
  ++ session_lines (rp_session_id h) (rp_session_timeout h)
  ++ transport_lines (rp_transport h)
  ++ str_line (cs "Content-Type") (rp_content_type h)
  ++ line_if (negb (is_zero (rp_scale h))) (cs "Scale") (fmt_2f (rp_scale h))
  ++ line_if (0 <? rp_public_methods h) (cs "Public") (text_of_methods (rp_public_methods h))
  ++ line_if (0 <? rp_allowed_methods h) (cs "Allow") (text_of_methods (rp_allowed_methods h))
  ++ line_if (0 <? Zlen (rp_rtp_info h)) (cs "RTP-Info")
       (text_of_rtp_infos (rtp_infos (rp_rtp_info h)))
  ++ str_line (cs "Server") (rp_server h)
  ++ line_if (negb (is_unknown (rg_start (rp_range h)))) (cs "Range") (text_of_range (rp_range h))
  ++ line_if true (cs "Content-Length") (fmt_d (rp_content_length h))
  ++ str_line (cs "Content-Encoding") (rp_content_encoding h)
  ++ str_line (cs "Content-Language") (rp_content_language h)
  ++ str_line (cs "Content-Base") (rp_content_base h)
  ++ str_line (cs "Content-Location") (rp_content_location h)
  ++ map ext_line (rp_ext h).

Definition status_line_text (h : rtsp_response_header) : cstr :=
  cs "RTSP/1.0 " ++ fmt_d (rp_status_code h) ++ cs " " ++ default [] (rp_status_string h).

Definition response_all_lines (h : rtsp_response_header) : list cstr :=
  status_line_text h :: map header_line (response_lines h).

Definition text_of_response (h : rtsp_response_header) : cstr :=
  lines_text (response_all_lines h) ++ CRLF.

(** A response the library can write and read back; no value has a line end. *)
Definition wf_response (h : rtsp_response_header) : bool :=
  negb (rp_status_code h =? 0)
  && (- 2 ^ 31 <=? rp_status_code h) && (rp_status_code h <? 2 ^ 31)
  && match rp_status_string h with
     | Some s => negb (streq s []) && forallb line_char s
     | None => false
     end
  && (- 2 ^ 31 <=? rp_cseq h) && (rp_cseq h <? 2 ^ 31)
  && (0 <=? rp_date h) && (rp_date h <=? DATE_MAX)
  && match rp_session_id h with Some s => forallb (isnot ";") s | None => true end
  && (0 <=? rp_session_timeout h) && (rp_session_timeout h <=? UINT_MAX)
  && match rp_transport h with Some t => wf_transport t | None => true end
  && (0 <=? rp_public_methods h) && (0 <=? rp_allowed_methods h)
  && forallb (fun r => match r with Some r => wf_rtp_info r | None => false end) (rp_rtp_info h)
  && (is_unknown (rg_start (rp_range h)) || wf_range (rp_range h))
  && (- 2 ^ 31 <=? rp_content_length h) && (rp_content_length h <? 2 ^ 31)
  && forallb wf_ext (rp_ext h)
  && forallb wf_line (response_lines h).

(** What the text carries, as far as it is read: the first RTP-Info entry, and
    no authentication. *)
Definition response_on_wire (h : rtsp_response_header) : rtsp_response_header :=
  RespHeader (rp_status_code h) (rp_status_string h)
    (if 0 <=? rp_cseq h then rp_cseq h else 0) (rp_date h)
    (some_str (rp_session_id h))
    (match some_str (rp_session_id h) with Some _ => rp_session_timeout h | None => 0 end)
    (transport_on_wire <$> rp_transport h) None (some_str (rp_content_type h)) (rp_scale h)
    (Z.land (rp_public_methods h) 0x7FF) (Z.land (rp_allowed_methods h) 0x7FF)
    (fmap (M:=option) rtp_info_on_wire <$> take 1 (rp_rtp_info h)) (some_str (rp_server h))
    (if is_unknown (rg_start (rp_range h)) then range_zero else rp_range h)
    (rp_content_length h) (some_str (rp_content_encoding h)) (some_str (rp_content_language h))
    (some_str (rp_content_base h)) (some_str (rp_content_location h)) (rp_ext h).

Record response_ok (h : rtsp_response_header) (k : Z) : Prop := ResponseOk {
  rpok_status : rp_status_code h ≠ 0 ∧ - 2 ^ 31 <= rp_status_code h < 2 ^ 31;
  rpok_string : ∃ s, rp_status_string h = Some s ∧ s ≠ [] ∧ all line_char s;
  rpok_cseq : - 2 ^ 31 <= rp_cseq h < 2 ^ 31;
  rpok_date : 0 <= rp_date h <= DATE_MAX;
  rpok_session : ∀ s, rp_session_id h = Some s → all (isnot ";") s;
  rpok_timeout : 0 <= rp_session_timeout h <= UINT_MAX;
  rpok_transport : ∀ t, rp_transport h = Some t → transport_ok t;
  rpok_methods : 0 <= rp_public_methods h ∧ 0 <= rp_allowed_methods h;
  rpok_rtp_info : ∃ rs, rp_rtp_info h = Some <$> rs ∧ Forall (fun r => wf_rtp_info r = true) rs;
  rpok_range : is_unknown (rg_start (rp_range h)) = true ∨ range_ok (rp_range h);
  rpok_content_length : - 2 ^ 31 <= rp_content_length h < 2 ^ 31;
  rpok_ext : Forall (fun e => wf_ext e = true) (rp_ext h);
  rpok_lines : Forall (fun l => wf_line l = true) (response_lines h);
  rpok_scale : rp_scale h = hundredths k ∧ -500 <= k <= 500
}.

Lemma wf_rtp_info_pointers l :
  forallb (fun r => match r with Some r => wf_rtp_info r | None => false end) l = true →
  ∃ rs, l = Some <$> rs ∧ Forall (fun r => wf_rtp_info r = true) rs.
Proof using Type.
  clear L. induction l as [|[r|] l IH]; cbn [forallb]; [by exists []| |done].
  intros [Hr Hl]%andb_true_iff. destruct (IH Hl) as (rs & -> & Hrs).
  exists (r :: rs). split; [done|]. by constructor.
Qed.

Lemma wf_response_ok h k :
  wf_response h = true → rp_scale h = hundredths k → -500 <= k <= 500 → response_ok h k.
Proof using Type.
  unfold wf_response. intros H Hs Hk. bool_to_prop. constructor; try done.
  - destruct (rp_status_string h) as [s|]; [|done]. bool_to_prop. exists s.
    split_and!; [done|by apply streq_false|done].
  - by destruct (rp_session_id h); intros ? [= <-].
  - destruct (rp_transport h); intros ? [= <-]. by apply wf_transport_ok.
  - by apply wf_rtp_info_pointers.
  - match goal with H : (_ || _)%bool = true |- _ => apply orb_true_iff in H as [H|H] end;
      [by left|right; by apply wf_range_ok].
  - by apply forallb_Forall.
  - by apply forallb_Forall.
Qed.

(** *** Writing *)

Lemma rtp_infos_some rs : rtp_infos (Some <$> rs) = rs.
Proof using Type. clear L. induction rs as [|r rs IH]; [done|]. cbn. by f_equal. Qed.

Lemma transport_line_emits t :
  (∀ x, t = Some x → transport_ok x) →
  emits (match t with None => wskip | Some t => rtsp_transport_header_write [Some t] end)
    (lines_text (header_line <$> transport_lines t)) tt.
Proof using Type.
  clear L. intros Ht. destruct t as [t|]; [|apply emits_ret].
  apply (transport_lines_emits [t]). constructor; [by apply Ht|done].
Qed.

Lemma methods_line_emits name m w :
  (m ≠ 0 → emits w (text_of_methods_header name m) tt) → 0 <= m →
  emits (wwhen (0 <? m) w)
    (lines_text (header_line <$> line_if (0 <? m) name (text_of_methods m))) tt.
Proof using Type.
  clear L. intros Hw Hm. destruct (0 <? m) eqn:E; [|apply emits_ret]. bool_to_prop.
  eapply emits_eq; [apply Hw; lia|]. unfold text_of_methods_header, lines_text.
  cbn [line_if fmap list_fmap map concat]. unfold header_line. cbn [fst snd].
  change CRLF with [CR; LF]. text_eq.
Qed.

Lemma rtp_info_lines_emits rs : Forall (fun r => wf_rtp_info r = true) rs →
  emits (wwhen (0 <? Zlen (Some <$> rs)) (rtsp_rtp_info_header_write (Some <$> rs)))
    (lines_text (header_line <$> line_if (0 <? Zlen (Some <$> rs)) (cs "RTP-Info")
       (text_of_rtp_infos rs))) tt.
Proof using Type.
  clear L. intros Hrs. destruct (0 <? Zlen _) eqn:E; [|apply emits_ret]. bool_to_prop.
  eapply emits_eq; [apply rtsp_rtp_info_header_write_emits; [by intros ->|done]|].
  unfold lines_text, text_of_rtp_info_header. cbn [line_if fmap list_fmap map concat].
  unfold header_line. cbn [fst snd]. text_eq.
Qed.

Lemma rtsp_response_header_write_emits h k :
  response_ok h k → emits (rtsp_response_header_write h) (text_of_response h) tt.
Proof using L.
  intros [[Hs _] (u & Hu & Hune & _) _ Hd _ _ Ht [Hp Ha] (rs & Ers & Hrs) Hr _ Hx _ _].
  unfold rtsp_response_header_write, text_of_response, response_all_lines, status_line_text.
  unfold response_lines. rewrite Hu, Ers, rtp_infos_some. destruct u as [|c u]; [done|].
  rewrite lines_text_cons, !map_app, !lines_text_app.
  eapply emits_eq.
  { apply emits_seq; [apply emits_check; by apply Z.eqb_neq|].
    apply emits_seq; [apply emits_sprintf|].
    repeat first
      [ apply line_if_emits | apply (line_if_emits true) | apply str_line_emits
      | by apply date_line_emits | apply session_lines_emits | by apply transport_line_emits
      | apply methods_line_emits; [apply methods_header_emits|done]
      | by apply rtp_info_lines_emits | by apply range_lines_emits
      | by apply write_exts_emits | apply emits_seq ].
    apply emits_sprintf. }
  cbn [default]. text_eq.
Qed.

(** *** Reading *)

Lemma status_line_read h :
  - 2 ^ 31 <= rp_status_code h < 2 ^ 31 →
  (∃ s, rp_status_string h = Some s ∧ s ≠ [] ∧ all line_char s) →
  status_line (status_line_text h)
  = Ok (set_rp_status_string (rp_status_string h)
          (set_rp_status_code (rp_status_code h) rtsp_response_header_clear)).
Proof using Type.
  clear L. intros Hc (u & Hu & Hne & Hl). unfold status_line, status_line_text.
  rewrite Hu. change (default [] (Some u)) with u. set (code := fmt_d (rp_status_code h)).
  assert (code ≠ [] ∧ all (noneof (cs " ")) code ∧ atoi code = rp_status_code h)
    as (Hcn & Hcc & Hca).
  { subst code. split_and!; [|by apply fmt_d_chars|].
    - unfold fmt_d. destruct (_ <? 0) eqn:E; [done|]. apply fmt_u_not_nil. bool_to_prop. lia.
    - rewrite <- (app_nil_r (fmt_d _)). by apply atoi_fmt_s32. }
  assert (all (noneof CRLF) u) as Huc by (by eapply all_impl_dec, Hl).
  change (cs "RTSP/1.0 " ++ code ++ cs " " ++ u)
    with (cs "RTSP/1.0" ++ " "%char :: code ++ " "%char :: u).
  destruct (strtok_tok_app (cs " ") (cs "RTSP/1.0") " " (code ++ " "%char :: u)) as [-> ->];
    [done..|].
  destruct (strtok_tok_app (cs " ") code " " u) as [-> ->]; [done..|].
  by rewrite strtok_tok_last, bool_decide_eq_true_2, Hca.
Qed.

Lemma response_session_reads id timeout h :
  (∀ s, id = Some s → all (isnot ";") s) → 0 <= timeout <= UINT_MAX →
  set_rp_session_timeout 0 (set_rp_session_id None h) = h →
  reads response_field (session_lines id timeout) h
    (set_rp_session_timeout (match some_str id with Some _ => timeout | None => 0 end)
       (set_rp_session_id (some_str id) h)).
Proof using Type.
  clear L. intros Hid Ht Hz. destruct id as [[|c s]|]; cbn [session_lines some_str];
    [rewrite Hz; apply reads_nil| |rewrite Hz; apply reads_nil].
  apply reads_one. unfold response_field. eval_field.
  by rewrite rtsp_session_header_read_text by auto.
Qed.

Lemma response_transport_reads t h :
  (∀ x, t = Some x → transport_ok x) → set_rp_transport None h = h →
  reads response_field (transport_lines t) h (set_rp_transport (transport_on_wire <$> t) h).
Proof using Type.
  clear L. intros Ht Hz. destruct t as [t|];
    [|eapply reads_eq; [apply reads_nil|symmetry; exact Hz]].
  apply reads_one. unfold response_field. eval_field.
  rewrite rtsp_transport_header_read_text; [done|done|]. constructor; [by apply Ht|done].
Qed.

Lemma response_rtp_info_reads rs h :
  Forall (fun r => wf_rtp_info r = true) rs → set_rp_rtp_info [] h = h →
  reads response_field
    (line_if (0 <? Zlen (Some <$> rs)) (cs "RTP-Info") (text_of_rtp_infos rs)) h
    (set_rp_rtp_info (Some <$> (rtp_info_on_wire <$> take 1 rs)) h).
Proof using Type.
  clear L. intros Hrs Hz. destruct rs as [|r rs];
    [eapply reads_eq; [apply reads_nil|symmetry; exact Hz]|].
  apply reads_one. unfold response_field. eval_field.
  by rewrite rtsp_rtp_info_header_read_text.
Qed.

Lemma response_methods_reads (set : Z → rtsp_response_header → rtsp_response_header) name m h :
  (∀ v, response_field h name v = next_if (rtsp_methods_read (Some v)) (fun m => set m h)) →
  0 <= m → set 0 h = h →
  reads response_field (line_if (0 <? m) name (text_of_methods m)) h (set (Z.land m 0x7FF) h).
Proof using Type.
  clear L. intros Hf Hm Hz. destruct (0 <? m) eqn:E; bool_to_prop.
  - apply reads_one. by rewrite Hf, rtsp_methods_read_text.
  - replace m with 0 by lia. eapply reads_eq; [apply reads_nil|symmetry; exact Hz].
Qed.

Lemma response_field_ext h name v :
  is_field (cs "X-") name = true →
  response_field h name v = Next (set_rp_ext (rp_ext h ++ [HeaderExt (Some name) (Some v)]) h).
Proof using Type.
  clear L. intros Hx. unfold response_field. rewrite Hx.
  by do 17 (erewrite ext_not_field; [|exact Hx|reflexivity|done]).
Qed.

Lemma response_exts_reads ext h :
  Forall (fun e => wf_ext e = true) ext →
  reads response_field (map ext_line ext) h (set_rp_ext (rp_ext h ++ ext) h).
Proof using Type.
  clear L. apply (reads_exts response_field rp_ext set_rp_ext);
    [by intros []|done|done|apply response_field_ext].
Qed.

(** The header read so far as a record, and the step to the next kind of lines. *)
Ltac norm_response :=
  match goal with |- reads _ _ ?h _ =>
      let h' := eval cbv [rtsp_response_header_clear
      rp_status_code rp_status_string rp_cseq rp_date rp_session_id rp_session_timeout
      rp_transport rp_authenticate rp_content_type rp_scale rp_public_methods
      rp_allowed_methods rp_rtp_info rp_server rp_range rp_content_length rp_content_encoding
      rp_content_language rp_content_base rp_content_location rp_ext set_rp_status_code
      set_rp_status_string set_rp_cseq set_rp_date set_rp_session_id set_rp_session_timeout
      set_rp_transport set_rp_authenticate set_rp_content_type set_rp_scale
      set_rp_public_methods set_rp_allowed_methods set_rp_rtp_info set_rp_server set_rp_range
      set_rp_content_length set_rp_content_encoding set_rp_content_language
      set_rp_content_base set_rp_content_location set_rp_ext] in h in
      change h with h'
  end.
Ltac next_line tac := eapply reads_app; [tac|norm_response].
Ltac str_line set := next_line ltac:(by apply (reads_str_line _ set)).

Lemma response_lines_reads h k :
  response_ok h k →
  reads response_field (response_lines h)
    (set_rp_status_string (rp_status_string h)
       (set_rp_status_code (rp_status_code h) rtsp_response_header_clear))
    (response_on_wire h).
Proof using L.
  intros [_ _ Hc Hd Hs Ht Htr [Hp Ha] (rs & Ers & Hrs) Hr Hl Hx _ [Hsc Hk]].
  unfold response_lines. rewrite Ers, rtp_infos_some. eapply reads_eq.
  { next_line ltac:(apply (reads_line_if _ set_rp_cseq _ _ _ (rp_cseq h) 0); [done|]).
    { intros _. unfold response_field. eval_field. repeat f_equal.
      rewrite <- (app_nil_r (fmt_d _)). by apply atoi_fmt_s32. }
    next_line ltac:(apply (reads_line_if _ set_rp_date _ _ _ (rp_date h) 0); [done|]).
    { intros ?. bool_to_prop. unfold response_field. eval_field.
      by destruct (date_value_ok (rp_date h) ltac:(lia)) as [_ ->]. }
    next_line ltac:(by apply response_session_reads).
    next_line ltac:(by apply response_transport_reads).
    str_line set_rp_content_type.
    next_line ltac:(apply (reads_line_if _ set_rp_scale _ _ _ (rp_scale h) (S754_zero false));
                    [done|]).
    { intros _. unfold response_field. eval_field. by rewrite Hsc, scale_line_reads. }
    next_line ltac:(by apply (response_methods_reads set_rp_public_methods)).
    next_line ltac:(by apply (response_methods_reads set_rp_allowed_methods)).
    next_line ltac:(by apply response_rtp_info_reads).
    str_line set_rp_server.
    next_line ltac:(apply (reads_line_if _ set_rp_range _ _ _ (rp_range h) range_zero); [done|]).
    { intros ?. bool_to_prop. destruct Hr as [Hr|Hr]; [congruence|].
      unfold response_field. eval_field. by rewrite rtsp_range_header_read_text. }
    next_line ltac:(apply (reads_line_if _ set_rp_content_length _ _ _ (rp_content_length h) 0);
                    [done|]).
    { intros _. unfold response_field. eval_field. repeat f_equal.
      rewrite <- (app_nil_r (fmt_d _)). by apply atoi_fmt_s32. }
    str_line set_rp_content_encoding. str_line set_rp_content_language.
    str_line set_rp_content_base. str_line set_rp_content_location.
    by apply response_exts_reads. }
  unfold response_on_wire, set_rp_ext. f_equal; try done.
  - apply positive_or_zero; lia.
  - by apply (zero_scale (rp_scale h) k).
  - rewrite Ers. by destruct rs.
  - change (?r = _) with ((if negb (is_unknown (rg_start (rp_range h))) then rp_range h
                           else range_zero) = if is_unknown (rg_start (rp_range h))
                                              then range_zero else rp_range h).
    by destruct (is_unknown _).
Qed.

Lemma status_line_text_ok h :
  (∃ s, rp_status_string h = Some s ∧ s ≠ [] ∧ all line_char s) →
  line_ok (status_line_text h) = true.
Proof using Type.
  clear L. intros (u & Hu & _ & Hc). unfold status_line_text, line_ok. rewrite Hu.
  change (default [] (Some u)) with u. apply andb_true_iff. split; [done|].
  rewrite !all_app. split_and!; [done|by apply fmt_d_chars|done..].
Qed.

Lemma response_all_lines_ok h k :
  response_ok h k → Forall (fun l => line_ok l = true) (response_all_lines h).
Proof using Type.
  clear L. intros [_ Hu _ _ _ _ _ _ _ _ _ _ Hl _]. constructor; [by apply status_line_text_ok|].
  apply Forall_map. eapply Forall_impl; [exact Hl|]. intros l Hw. by apply wf_line_ok.
Qed.

Lemma rtsp_response_header_read_text h k body :
  response_ok h k →
  rtsp_response_header_read (text_of_response h ++ body)
  = Ok (response_on_wire h, length (text_of_response h)).
Proof using L.
  intros Hok.
  destruct (find_double_newline_lines (response_all_lines h) body) as (r & Hf & Hr & Ht);
    [done|by eapply response_all_lines_ok|]. fold (text_of_response h) in *.
  unfold rtsp_response_header_read. rewrite Hf.
  apply tokens_cons_inv in Ht as (temp & -> & ->).
  rewrite status_line_read by apply Hok. cbn [mbind res_bind].
  rewrite (reads_all _ _ _ _ (rpok_lines h k Hok) (response_lines_reads h k Hok)).
  cbn [mbind res_bind]. by rewrite Hr.
Qed.

(** C19: a response header that the library can represent is written as its
    status line, one line per header that is set and an empty line, within any
    buffer that has room; and reading this text, with any body after it, gives
    back every member the text carries -- of several RTP-Info entries only the
    first, and never the authentication, which is not written -- and the position
    of the body. *)
Theorem rtsp_response_header_roundtrip h k body :
  wf_response h = true → rp_scale h = hundredths k → -500 <= k <= 500 →
  emits (rtsp_response_header_write h) (text_of_response h) tt ∧
  rtsp_response_header_read (text_of_response h ++ body)
  = Ok (response_on_wire h, length (text_of_response h)).
Proof using L.
  intros Hw Hs Hk. pose proof (wf_response_ok h k Hw Hs Hk). split.
  - by eapply rtsp_response_header_write_emits.
  - by eapply rtsp_response_header_read_text.
Qed.
End roundtrip.

Definition sample_response : rtsp_response_header :=
  RespHeader 200 (Some (cs "OK")) 3 1700000000 (Some (cs "47112344")) 60
    (head sample_transports) None (Some (cs "application/sdp")) (hundredths 100) 0x79D 0
    (Some <$> sample_rtp_infos) (Some (cs "server")) sample_range 4 None None
    (Some (cs "rtsp://h/p")) None [HeaderExt (Some (cs "X-com.parrot")) (Some (cs "a:b"))].

Lemma rtsp_response_header_roundtrip_witness :
  wf_response (T := stub_time) sample_response = true ∧
  emits (rtsp_response_header_write (T := stub_time) sample_response)
    (text_of_response (T := stub_time) sample_response) tt ∧
  rtsp_response_header_read (T := stub_time)
    (text_of_response (T := stub_time) sample_response ++ cs "body")
  = Ok (response_on_wire sample_response,
        length (text_of_response (T := stub_time) sample_response)).
Proof.
  assert (wf_response (T := stub_time) sample_response = true) as H by (vm_compute; reflexivity).
  split; [exact H|].
  exact (rtsp_response_header_roundtrip (L := stub_time_laws) sample_response 100 (cs "body") H eq_refl
           ltac:(lia)).
Defined.
