(* ===== verification/Message.v ===== *)
(** * Messages ([rtsp_message_clear] and [rtsp_get_next_message] of [rtsp.c],
    and the loop of the data callbacks of the server and of the client)

    A [size_t] is a 64-bit number.  The union of the two headers is a value with
    its own tag; zeroed memory has none.  [body] points into the receive buffer:
    it is the list of the bytes from there to the end of the buffer.

    Reading a text header overwrites its bytes in the receive buffer with NULs.
    They are never read again as long as the whole header is removed from the
    buffer with the message; [process_messages] has no result for the only case
    where it is not (a negative [Content-Length]). *)

From S2P Require Import Prelude CString CNumber Writer Methods Transport AuthHeader RtpInfo.
From S2P Require Import CFloat TimeRange Framing HeaderLine HeaderFields Request Response.
From stdpp Require Import options.

Local Open Scope Z_scope.

Inductive rtsp_message_type :=
| RTSP_MESSAGE_TYPE_UNKNOWN
| RTSP_MESSAGE_TYPE_REQUEST
| RTSP_MESSAGE_TYPE_RESPONSE
| RTSP_MESSAGE_TYPE_INTERLEAVED.
#[export] Instance rtsp_message_type_eq_dec : EqDecision rtsp_message_type.
Proof. solve_decision. Defined.

Inductive message_header :=
| HeaderNone
| HeaderReq (req : rtsp_request_header)
| HeaderResp (resp : rtsp_response_header).
#[export] Instance message_header_eq_dec : EqDecision message_header.
Proof. solve_decision. Defined.

Record rtsp_message := Message {
  msg_type : rtsp_message_type;
  msg_total_len : Z;
  msg_header : message_header;
  msg_body : option bytes;
  msg_body_len : Z;
  msg_interleaved : option rtsp_interleaved_info
}.
#[export] Instance rtsp_message_eq_dec : EqDecision rtsp_message.
Proof. solve_decision. Defined.

Record rtsp_message_parser_ctx := ParserCtx { ctx_msg : rtsp_message; ctx_header_len : Z }.
#[export] Instance rtsp_message_parser_ctx_eq_dec : EqDecision rtsp_message_parser_ctx.
Proof. solve_decision. Defined.

(** Everything freed and zeroed. *)
Definition rtsp_message_clear : rtsp_message :=
  Message RTSP_MESSAGE_TYPE_UNKNOWN 0 HeaderNone None 0 None.

Definition ctx_init : rtsp_message_parser_ctx := ParserCtx rtsp_message_clear 0.

(** A message of which only the length is set. *)
Definition length_only (total_len : Z) : rtsp_message :=
  Message RTSP_MESSAGE_TYPE_UNKNOWN total_len HeaderNone None 0 None.

Section message.
Context `{T : LocalTime}.

(** The header that [data] starts with, the length of the body it announces
    ([int] to [size_t]), and the type. *)
Definition read_text_header (data : bytes) (header_len : Z)
    : res (rtsp_message_type * message_header * Z) :=
  let header := take (Z.to_nat header_len) data in
  if (8 <=? header_len) && starts_with (cs "RTSP/1.0") data then
    '(h, _) ← rtsp_response_header_read header;
    Ok (RTSP_MESSAGE_TYPE_RESPONSE, HeaderResp h, u64 (rp_content_length h))
  else
    '(h, _) ← rtsp_request_header_read header;
    Ok (RTSP_MESSAGE_TYPE_REQUEST, HeaderReq h, u64 (rq_content_length h)).

(** The context once it holds a header, or what the function returns. *)
Definition text_header (data : bytes) (ctx : rtsp_message_parser_ctx)
    : rtsp_message_parser_ctx + (res unit * rtsp_message * rtsp_message_parser_ctx) :=
  match msg_type (ctx_msg ctx) with
  | RTSP_MESSAGE_TYPE_UNKNOWN =>
      match find_double_newline data with
      | None => inr (Err EAGAIN, rtsp_message_clear, ctx)
      | Some (r, nl_len) =>
          let header_len := Z.of_nat (r + nl_len) in
          match read_text_header data header_len with
          | Ok (type, header, body_len) =>
              inl (ParserCtx (Message type (msg_total_len (ctx_msg ctx)) header
                                (msg_body (ctx_msg ctx)) body_len
                                (msg_interleaved (ctx_msg ctx))) header_len)
          | Err e => inr (Err e, length_only header_len, ParserCtx rtsp_message_clear header_len)
          | Undef => inr (Undef, rtsp_message_clear, ctx)
          end
      end
  | _ => inl ctx
  end.

(** The copy given to the caller, whose message is cleared. *)
Definition copy_header (header : message_header) : message_header :=
  match header with
  | HeaderNone => HeaderNone
  | HeaderReq h =>
      match rtsp_request_header_copy (Some h) (Some rtsp_request_header_clear) with
      | Ok h' => HeaderReq h'
      | _ => HeaderReq rtsp_request_header_clear
      end
  | HeaderResp h =>
      match rtsp_response_header_copy (Some h) (Some rtsp_response_header_clear) with
      | Ok h' => HeaderResp h'
      | _ => HeaderResp rtsp_response_header_clear
      end
  end.

Definition text_body (data : bytes) (ctx : rtsp_message_parser_ctx)
    : res unit * rtsp_message * rtsp_message_parser_ctx :=
  let m := ctx_msg ctx in
  let total_len := u64 (msg_body_len m + ctx_header_len ctx) in
  if Zlen data <? total_len then
    (Err EAGAIN, rtsp_message_clear,
     ParserCtx (Message (msg_type m) total_len (msg_header m) (msg_body m) (msg_body_len m)
                  (msg_interleaved m)) (ctx_header_len ctx))
  else
    (Ok tt,
     Message (msg_type m) total_len (copy_header (msg_header m))
       (Some (drop (Z.to_nat (ctx_header_len ctx)) data)) (msg_body_len m) None,
     ParserCtx rtsp_message_clear (ctx_header_len ctx)).

(** The returned value, the message, and the new context. *)
Definition rtsp_get_next_message (data : bytes) (ctx : rtsp_message_parser_ctx)
    : res unit * rtsp_message * rtsp_message_parser_ctx :=
  match rtsp_parse_interleaved data with
  | Ok (info, total_len) =>
      (Ok tt, Message RTSP_MESSAGE_TYPE_INTERLEAVED total_len HeaderNone None 0 (Some info), ctx)
  | Undef => (Undef, rtsp_message_clear, ctx)
  | Err e =>
      if e =? EAGAIN then (Err EAGAIN, rtsp_message_clear, ctx)
      else if negb (e =? EINVAL) then (Err e, rtsp_message_clear, ctx)
      else match text_header data ctx with
           | inl ctx' => text_body data ctx'
           | inr r => r
           end
  end.

(** ** The data callbacks *)

(** What a callback hands over: the message, with the bytes of its body. *)
Record event := Event {
  ev_type : rtsp_message_type;
  ev_header : message_header;
  ev_body : bytes;
  ev_interleaved : option rtsp_interleaved_info
}.

Definition event_of (m : rtsp_message) : event :=
  Event (msg_type m) (msg_header m)
    (take (Z.to_nat (msg_body_len m)) (default [] (msg_body m))) (msg_interleaved m).

(** The loop on the complete messages, then the removal of what a failed call
    asks to skip; [Some (events, error, buffer, ctx)], or [None] without result. *)
Fixpoint process_messages (fuel : nat) (buf : bytes) (ctx : rtsp_message_parser_ctx)
    : option (list event * Z * bytes * rtsp_message_parser_ctx) :=
  match fuel with
  | O => None
  | S fuel =>
      match rtsp_get_next_message buf ctx with
      | (Ok _, msg, ctx') =>
          if (msg_total_len msg <? ctx_header_len ctx')
             && negb (bool_decide (msg_type msg = RTSP_MESSAGE_TYPE_INTERLEAVED))
          then None
          else
            '(evs, e, buf', ctx'') ←
              process_messages fuel (rtsp_buffer_remove_first_bytes buf (msg_total_len msg)) ctx';
            Some (event_of msg :: evs, e, buf', ctx'')
      | (Err e, msg, ctx') =>
          Some ([], e, rtsp_buffer_remove_first_bytes buf (msg_total_len msg), ctx')
      | (Undef, _, _) => None
      end
  end.

(** One call of [rtsp_server_pomp_cb] or [tskt_client_data_cb]: the data is
    appended to the receive buffer.  Every message removed is at least one byte
    long, so one unit of fuel per byte and one for the last call are enough. *)
Definition data_cb (buf : bytes) (ctx : rtsp_message_parser_ctx) (data : bytes)
    : option (list event * Z * bytes * rtsp_message_parser_ctx) :=
  process_messages (S (length (buf ++ data))) (buf ++ data) ctx.

Fixpoint receive (buf : bytes) (ctx : rtsp_message_parser_ctx) (chunks : list bytes)
    : option (list event * bytes * rtsp_message_parser_ctx) :=
  match chunks with
  | [] => Some ([], buf, ctx)
  | data :: chunks' =>
      '(evs, _, buf', ctx') ← data_cb buf ctx data;
      '(evs', buf'', ctx'') ← receive buf' ctx' chunks';
      Some (evs ++ evs', buf'', ctx'')
  end.
End message.

(** ** One text message *)

(** What the loop relies on of a header [txt] that announces a body of [n] bytes. *)
Record text_msg `{LocalTime} (type : rtsp_message_type) (hd : message_header) (txt : cstr) (n : Z)
    : Prop := TextMsg {
  tm_end : ∀ s, ∃ r nl, find_double_newline (txt ++ s) = Some (r, nl) ∧
                        (r + nl)%nat = length txt;
  tm_partial : ∀ p q, txt = p ++ q → q ≠ [] → find_double_newline p = None;
  tm_read : ∀ s, read_text_header (txt ++ s) (Zlen txt) = Ok (type, hd, n);
  tm_copy : copy_header hd = hd;
  tm_type : type = RTSP_MESSAGE_TYPE_REQUEST ∨ type = RTSP_MESSAGE_TYPE_RESPONSE;
  tm_first : ∃ c t, txt = c :: t ∧ code c ≠ 0x24;
  tm_len : 0 <= n <= INT_MAX ∧ Zlen txt <= INT64_MAX
}.

(** The context while the header [hd] of [txt] waits for its body. *)
Definition holds (type : rtsp_message_type) (hd : message_header) (txt : cstr) (n : Z)
    (ctx : rtsp_message_parser_ctx) : Prop :=
  ctx_header_len ctx = Zlen txt ∧
  ∃ total, ctx_msg ctx = Message type total hd None n None.

Definition idle (ctx : rtsp_message_parser_ctx) : Prop := ctx_msg ctx = rtsp_message_clear.

Section text.
Context `{T : LocalTime} {type hd txt n} (M : text_msg type hd txt n).

Lemma text_not_interleaved s : rtsp_parse_interleaved (txt ++ s) = Err EINVAL.
Proof using M. destruct (tm_first _ _ _ _ M) as (c & t & -> & Hc). by apply rtsp_parse_interleaved_text. Qed.

Lemma text_prefix_not_interleaved p q : txt = p ++ q → rtsp_parse_interleaved p = Err EINVAL.
Proof using M.
  destruct (tm_first _ _ _ _ M) as (c & t & -> & Hc). destruct p as [|d p]; [done|].
  intros [= <- _]. by apply rtsp_parse_interleaved_text.
Qed.

Lemma text_header_idle s ctx :
  idle ctx → text_header (txt ++ s) ctx
             = inl (ParserCtx (Message type 0 hd None n None) (Zlen txt)).
Proof using M.
  intros Hi. unfold text_header. rewrite Hi. cbn [msg_type rtsp_message_clear].
  destruct (tm_end _ _ _ _ M s) as (r & nl & -> & Hr).
  rewrite Hr. fold (Zlen txt). by rewrite (tm_read _ _ _ _ M).
Qed.

Lemma text_header_holds data ctx : holds type hd txt n ctx → text_header data ctx = inl ctx.
Proof using M.
  intros [_ [total Hc]]. unfold text_header. rewrite Hc. cbn [msg_type].
  by destruct (tm_type _ _ _ _ M) as [-> | ->].
Qed.

(** A complete message, whether or not its header was read before. *)
Lemma next_text_complete ctx body rest :
  idle ctx ∨ holds type hd txt n ctx → Zlen body = n →
  rtsp_get_next_message (txt ++ body ++ rest) ctx
  = (Ok tt, Message type (Zlen txt + n) hd (Some (body ++ rest)) n None,
     ParserCtx rtsp_message_clear (Zlen txt)).
Proof using M.
  intros Hctx Hn. unfold rtsp_get_next_message. rewrite text_not_interleaved.
  change (EINVAL =? EAGAIN) with false. change (negb (EINVAL =? EINVAL)) with false. cbv iota.
  assert (∃ ctx', text_header (txt ++ body ++ rest) ctx = inl ctx' ∧ holds type hd txt n ctx')
    as (ctx' & -> & Hh & total & Hm).
  { destruct Hctx as [Hi|Hh]; [|exists ctx; split; [by apply text_header_holds|done]].
    eexists. split; [by apply text_header_idle|]. by split; [|eexists]. }
  destruct (tm_len _ _ _ _ M) as [Hb Ht]. unfold INT_MAX, INT64_MAX in *.
  pose proof (Zlen_nonneg txt). pose proof (Zlen_nonneg rest).
  unfold text_body. rewrite Hm, Hh. cbn [msg_body_len msg_type msg_header msg_body msg_interleaved].
  rewrite wrapu_small by (simpl; lia). rewrite !Zlen_app.
  destruct (_ <? _) eqn:E; bool_to_prop; [lia|].
  rewrite (tm_copy _ _ _ _ M). unfold Zlen at 2. rewrite Nat2Z.id, drop_app_length.
  by rewrite (Z.add_comm n).
Qed.

(** A part of a message is left in the buffer. *)
Lemma next_text_partial ctx body p q :
  idle ctx ∨ holds type hd txt n ctx → Zlen body = n → txt ++ body = p ++ q → q ≠ [] →
  ∃ ctx', rtsp_get_next_message p ctx = (Err EAGAIN, rtsp_message_clear, ctx') ∧
          (idle ctx' ∨ holds type hd txt n ctx').
Proof using M.
  intros Hctx Hn Hpq Hq. unfold rtsp_get_next_message.
  destruct (tm_len _ _ _ _ M) as [Hb Ht]. unfold INT_MAX, INT64_MAX in *.
  pose proof (Zlen_nonneg txt).
  assert (Zlen p < Zlen txt + n) as Hlen.
  { apply (f_equal Zlen) in Hpq. rewrite !Zlen_app in Hpq.
    destruct q; [done|]. rewrite Zlen_cons in Hpq. pose proof (Zlen_nonneg q). lia. }
  assert (∀ c, holds type hd txt n c → ∃ c',
    text_body p c = (Err EAGAIN, rtsp_message_clear, c') ∧ holds type hd txt n c') as Hbody.
  { intros c [Hh [total Hm]]. unfold text_body. rewrite Hm, Hh.
    cbn [msg_body_len msg_type msg_header msg_body msg_interleaved].
    rewrite wrapu_small by (simpl; lia). destruct (_ <? _) eqn:E; bool_to_prop; [|lia].
    eexists. split; [done|]. split; [done|]. by eexists. }
  assert (rtsp_parse_interleaved p = Err EINVAL ∧
          ((∃ s, p = txt ++ s) ∨ find_double_newline p = None)) as [-> Hp].
  { destruct (app_eq_inv _ _ _ _ Hpq) as [(k & Hk & _)|(k & -> & _)].
    - split; [by eapply text_prefix_not_interleaved|]. destruct k as [|c k].
      + left. exists []. by rewrite app_nil_r in *.
      + right. by eapply (tm_partial _ _ _ _ M).
    - split; [apply text_not_interleaved|]. left. by eexists. }
  change (EINVAL =? EAGAIN) with false. change (negb (EINVAL =? EINVAL)) with false. cbv iota.
  destruct Hctx as [Hi|Hh].
  - destruct Hp as [[s ->]|Hp].
    + rewrite text_header_idle by done.
      destruct (Hbody (ParserCtx (Message type 0 hd None n None) (Zlen txt))) as (c' & -> & ?);
        [by split; [|eexists]|]. exists c'. split; [done|by right].
    + unfold text_header. rewrite Hi, Hp. cbn [msg_type rtsp_message_clear]. exists ctx. auto.
  - rewrite text_header_holds by done. destruct (Hbody ctx Hh) as (c' & -> & ?). eauto.
Qed.
End text.

(** ** Streams of messages *)

Section stream.
Context `{L : LocalTimeLaws}.

Lemma lines_end ls : ls ≠ [] → Forall (fun l => line_ok l = true) ls →
  ∀ s, ∃ r nl, find_double_newline ((lines_text ls ++ CRLF) ++ s) = Some (r, nl) ∧
               (r + nl)%nat = length (lines_text ls ++ CRLF).
Proof using Type.
  clear L. intros Hne Hls s. destruct (find_double_newline_lines ls s Hne Hls) as (r & Hf & Hr & _).
  by exists r, 4%nat.
Qed.

Lemma take_Zlen_app {A} (l k : list A) : take (Z.to_nat (Zlen l)) (l ++ k) = l.
Proof using Type. clear L. unfold Zlen. by rewrite Nat2Z.id, take_app_length. Qed.

Lemma text_of_request_msg h k n :
  request_ok h k → rq_content_length h = n → 0 <= n → Zlen (text_of_request h) <= INT64_MAX →
  text_msg RTSP_MESSAGE_TYPE_REQUEST (HeaderReq (request_on_wire h)) (text_of_request h) n.
Proof using L.
  intros Hok Hn Hn0 Hlen. pose proof (rok_content_length h k Hok) as Hmax.
  pose proof (request_all_lines_ok h k Hok) as Hls. constructor.
  - by apply lines_end.
  - intros p q. by apply find_double_newline_prefix.
  - intros s. unfold read_text_header. rewrite take_Zlen_app.
    assert (starts_with (cs "RTSP/1.0") (text_of_request h ++ s) = false) as ->.
    { unfold text_of_request, request_all_lines, request_line_text. rewrite lines_text_cons.
      pose proof (rok_method h k Hok). by destruct (rq_method h). }
    rewrite andb_false_r. pose proof (rtsp_request_header_read_text h k [] Hok) as Hr.
    rewrite app_nil_r in Hr. rewrite Hr. cbn [mbind res_bind rq_content_length request_on_wire].
    rewrite positive_or_zero by lia. rewrite wrapu_small by (unfold INT_MAX in *; simpl; lia).
    by rewrite Hn.
  - cbn [copy_header]. destruct (rok_transport h k Hok) as (ts & Hts & _).
    by rewrite (rtsp_request_header_copy_clear _ (transport_on_wire <$> ts))
      by (cbn; by rewrite Hts, <- !list_fmap_compose).
  - by left.
  - unfold text_of_request, request_all_lines, request_line_text. rewrite lines_text_cons.
    pose proof (rok_method h k Hok). destruct (rq_method h); [done|by eexists _, _..].
  - lia.
Qed.

Lemma text_of_response_msg h k n :
  response_ok h k → rp_content_length h = n → 0 <= n → Zlen (text_of_response h) <= INT64_MAX →
  text_msg RTSP_MESSAGE_TYPE_RESPONSE (HeaderResp (response_on_wire h)) (text_of_response h) n.
Proof using L.
  intros Hok Hn Hn0 Hlen. pose proof (rpok_content_length h k Hok) as Hmax.
  pose proof (response_all_lines_ok h k Hok) as Hls. constructor.
  - by apply lines_end.
  - intros p q. by apply find_double_newline_prefix.
  - intros s. unfold read_text_header. rewrite take_Zlen_app.
    assert (starts_with (cs "RTSP/1.0") (text_of_response h ++ s) = true) as -> by done.
    assert ((8 <=? Zlen (text_of_response h)) = true) as ->.
    { apply Z.leb_le. unfold text_of_response, response_all_lines, status_line_text.
      rewrite lines_text_cons. autorewrite with zlen. change (Zlen (cs "RTSP/1.0 ")) with 9.
      pose proof (Zlen_nonneg (fmt_d (rp_status_code h))).
      pose proof (Zlen_nonneg (default [] (rp_status_string h))).
      pose proof (Zlen_nonneg (lines_text (map header_line (response_lines h)))).
      pose proof (Zlen_nonneg CRLF). pose proof (Zlen_nonneg (cs " ")). lia. }
    pose proof (rtsp_response_header_read_text h k [] Hok) as Hr.
    rewrite app_nil_r in Hr. cbn [andb]. rewrite Hr.
    cbn [mbind res_bind rp_content_length response_on_wire].
    rewrite wrapu_small by (simpl; lia). by rewrite Hn.
  - cbn [copy_header]. destruct (rpok_rtp_info h k Hok) as (rs & Hrs & _).
    by rewrite (rtsp_response_header_copy_clear _ (rtp_info_on_wire <$> take 1 rs))
      by (cbn; rewrite Hrs; by destruct rs).
  - by right.
  - by eexists _, _.
  - unfold INT_MAX. lia.
Qed.

(** What a peer sends: messages the library can write, with their body, and
    interleaved packets. *)
Inductive packet :=
| PktRequest (h : rtsp_request_header) (body : bytes)
| PktResponse (h : rtsp_response_header) (body : bytes)
| PktInterleaved (channel : Z) (data : bytes).

Definition wire (m : packet) : bytes :=
  match m with
  | PktRequest h body => text_of_request h ++ body
  | PktResponse h body => text_of_response h ++ body
  | PktInterleaved channel data => interleaved_packet channel data
  end.

Definition delivered (m : packet) : event :=
  match m with
  | PktRequest h body =>
      Event RTSP_MESSAGE_TYPE_REQUEST (HeaderReq (request_on_wire h)) body None
  | PktResponse h body =>
      Event RTSP_MESSAGE_TYPE_RESPONSE (HeaderResp (response_on_wire h)) body None
  | PktInterleaved channel data =>
      Event RTSP_MESSAGE_TYPE_INTERLEAVED HeaderNone []
        (Some (Interleaved channel data (Zlen data)))
  end.

Definition scale_ok (s : spec_float) : Prop := ∃ k, s = hundredths k ∧ -500 <= k <= 500.

Lemma scale_ok_hundredths k : -500 <= k <= 500 → scale_ok (hundredths k).
Proof using Type. clear L. intros Hk. by exists k. Qed.

(** The three bytes that start a packet must not look like the end of a header. *)
Definition not_newlines (channel len : Z) : bool :=
  negb ((channel =? len / 256) && ((channel =? 10) || (channel =? 13))).

Definition wf_packet (m : packet) : Prop :=
  match m with
  | PktRequest h body =>
      wf_request h = true ∧ scale_ok (rq_scale h) ∧ rq_content_length h = Zlen body
  | PktResponse h body =>
      wf_response h = true ∧ scale_ok (rp_scale h) ∧ rp_content_length h = Zlen body
  | PktInterleaved channel data =>
      0 <= channel < 256 ∧ 1 <= Zlen data <= UINT16_MAX - 4 ∧
      not_newlines channel (Zlen data) = true
  end.

(** The states of the parser while [m] is the next message. *)
Definition waiting (m : option packet) (ctx : rtsp_message_parser_ctx) : Prop :=
  idle ctx ∨
  match m with
  | Some (PktRequest h body) =>
      holds RTSP_MESSAGE_TYPE_REQUEST (HeaderReq (request_on_wire h)) (text_of_request h)
        (Zlen body) ctx
  | Some (PktResponse h body) =>
      holds RTSP_MESSAGE_TYPE_RESPONSE (HeaderResp (response_on_wire h)) (text_of_response h)
        (Zlen body) ctx
  | _ => False
  end.

Lemma idle_waiting m ctx : idle ctx → waiting m ctx.
Proof using Type. by left. Qed.

Lemma packet_text_msg m :
  wf_packet m → Zlen (wire m) <= INT64_MAX →
  match m with
  | PktRequest h body =>
      text_msg RTSP_MESSAGE_TYPE_REQUEST (HeaderReq (request_on_wire h)) (text_of_request h)
        (Zlen body)
  | PktResponse h body =>
      text_msg RTSP_MESSAGE_TYPE_RESPONSE (HeaderResp (response_on_wire h)) (text_of_response h)
        (Zlen body)
  | _ => True
  end.
Proof using L.
  destruct m as [h body|h body|]; [| |done]; intros (Hw & (k & Hk & Hkr) & Hc) Hlen;
    cbn [wire] in Hlen; rewrite Zlen_app in Hlen; pose proof (Zlen_nonneg body).
  - apply (text_of_request_msg h k); [by apply wf_request_ok|done|lia|lia].
  - apply (text_of_response_msg h k); [by apply wf_response_ok|done|lia|lia].
Qed.

(** *** Interleaved packets in parts *)

Lemma no_terminator_3 a b :
  ¬ (a = b ∧ (a = LF ∨ a = CR)) → find_double_newline [chr 36; a; b] = None.
Proof using Type.
  clear L. intros H. unfold find_double_newline, rtsp_strnstr.
  assert (∀ c, c = LF ∨ c = CR → strnstr_loop c [c] [chr 36; a; b] 0 = None) as Hs.
  { intros c Hc. cbn [strnstr_loop length Nat.ltb Nat.leb starts_with].
    assert (Ascii.eqb (chr 36) c = false) as -> by (by destruct Hc as [-> | ->]).
    change (Ascii.eqb (chr 36) NUL) with false. cbn [andb]. cbv iota.
    destruct (Ascii.eqb a c && _) eqn:E; [|by destruct (Ascii.eqb a NUL)].
    rewrite andb_true_r in E. apply andb_true_iff in E as [->%Ascii.eqb_eq <-%Ascii.eqb_eq]. tauto. }
  cbn [length Nat.leb]. rewrite !Hs by tauto. done.
Qed.

Lemma not_newlines_ok channel len :
  0 <= channel < 256 → 0 <= len <= UINT16_MAX → not_newlines channel len = true →
  ¬ (chr channel = chr (len / 256) ∧ (chr channel = LF ∨ chr channel = CR)).
Proof using Type.
  clear L. unfold not_newlines, UINT16_MAX. intros Hc Hl Hn [He Hx].
  apply (f_equal code) in He. rewrite !code_chr in He by dlia.
  assert (channel = 10 ∨ channel = 13) as Hch.
  { destruct Hx as [Hx|Hx]; apply (f_equal code) in Hx; rewrite code_chr in Hx by done;
      [left|right]; done. }
  rewrite <- He in Hn. by destruct Hch as [-> | ->].
Qed.

Lemma next_interleaved_partial channel data p q ctx :
  0 <= channel < 256 → Zlen data <= UINT16_MAX → not_newlines channel (Zlen data) = true →
  interleaved_packet channel data = p ++ q → q ≠ [] → idle ctx →
  rtsp_get_next_message p ctx = (Err EAGAIN, rtsp_message_clear, ctx).
Proof using Type.
  clear L. intros Hc Hl Hn H Hq Hi. unfold rtsp_get_next_message. pose proof (Zlen_nonneg data).
  rewrite (rtsp_parse_interleaved_partial channel data p q) by done.
  destruct (Zlen p <? 4) eqn:E; bool_to_prop; [|done].
  change (EINVAL =? EAGAIN) with false. change (negb (EINVAL =? EINVAL)) with false. cbv iota.
  assert (find_double_newline p = None) as Hf; [|by unfold text_header; rewrite Hi, Hf].
  unfold interleaved_packet, htons in H.
  destruct p as [|p0 [|p1 [|p2 [|p3 p]]]].
  - done.
  - by injection H as <- _.
  - injection H as <- <- _. generalize (chr channel). intros a. by byte_cases a.
  - injection H as <- <- <- _. by apply no_terminator_3, not_newlines_ok.
  - autorewrite with zlen in E. pose proof (Zlen_nonneg p). lia.
Qed.

(** *** Any message *)

Lemma wire_pos m : wf_packet m → 1 <= Zlen (wire m).
Proof using Type.
  destruct m as [h body|h body|c d]; cbn [wire]; intros Hw; autorewrite with zlen.
  - pose proof (Zlen_nonneg body). unfold text_of_request. autorewrite with zlen.
    pose proof (Zlen_nonneg (lines_text (request_all_lines h))). change (Zlen CRLF) with 2. lia.
  - pose proof (Zlen_nonneg body). unfold text_of_response. autorewrite with zlen.
    pose proof (Zlen_nonneg (lines_text (response_all_lines h))). change (Zlen CRLF) with 2. lia.
  - rewrite interleaved_packet_length. pose proof (Zlen_nonneg d). lia.
Qed.

Lemma event_of_text type total hd body rest :
  event_of (Message type total hd (Some (body ++ rest)) (Zlen body) None)
  = Event type hd body None.
Proof using Type. clear L. unfold event_of. f_equal. apply (take_Zlen_app body rest). Qed.

Lemma next_complete m rest ctx :
  wf_packet m → Zlen (wire m) <= INT64_MAX → waiting (Some m) ctx →
  ∃ msg ctx', rtsp_get_next_message (wire m ++ rest) ctx = (Ok tt, msg, ctx') ∧
    event_of msg = delivered m ∧ msg_total_len msg = Zlen (wire m) ∧ idle ctx' ∧
    (msg_total_len msg <? ctx_header_len ctx')
    && negb (bool_decide (msg_type msg = RTSP_MESSAGE_TYPE_INTERLEAVED)) = false.
Proof using L.
  intros Hw Hlen Hctx. pose proof (packet_text_msg m Hw Hlen) as M.
  destruct m as [h body|h body|channel data]; cbn [waiting wire] in *.
  1,2: rewrite <- app_assoc, (next_text_complete M) by done; eexists _, _; split; [done|];
    cbn [msg_total_len ctx_header_len msg_type]; pose proof (Zlen_nonneg body);
    rewrite Zlen_app; split_and!;
    [by apply event_of_text
    |done|done|apply andb_false_iff; left; apply Z.ltb_ge; lia].
  destruct Hw as (Hc & Hd & _). destruct Hctx as [Hi|[]].
  unfold rtsp_get_next_message. rewrite rtsp_parse_interleaved_packet by lia.
  eexists _, _. split; [done|]. rewrite interleaved_packet_length. split_and!; [done..|].
  by rewrite andb_false_r.
Qed.

Lemma next_partial m p q ctx :
  wf_packet m → Zlen (wire m) <= INT64_MAX → waiting (Some m) ctx → wire m = p ++ q → q ≠ [] →
  ∃ ctx', rtsp_get_next_message p ctx = (Err EAGAIN, rtsp_message_clear, ctx') ∧
          waiting (Some m) ctx'.
Proof using L.
  intros Hw Hlen Hctx Hpq Hq. pose proof (packet_text_msg m Hw Hlen) as M.
  destruct m as [h body|h body|channel data]; cbn [waiting wire] in *.
  1,2: by apply (next_text_partial M ctx body p q).
  destruct Hw as (Hc & Hd & Hn). destruct Hctx as [Hi|[]].
  exists ctx. split; [|by left]. apply (next_interleaved_partial channel data p q); done || lia.
Qed.

Lemma next_empty ctx : idle ctx → rtsp_get_next_message [] ctx = (Err EAGAIN, rtsp_message_clear, ctx).
Proof using Type. clear L. intros Hi. unfold rtsp_get_next_message. cbn. unfold text_header. by rewrite Hi. Qed.

(** *** The loop *)

Lemma app_split {A} (s t w r : list A) :
  s ++ t = w ++ r → (∃ k, s = w ++ k ∧ r = k ++ t) ∨ (∃ q, w = s ++ q ∧ q ≠ [] ∧ t = q ++ r).
Proof using Type.
  clear L. intros H. apply app_eq_inv in H as [(k & -> & ->)|(k & -> & ->)].
  - left. by exists k.
  - destruct k as [|c k]; [|right; by exists (c :: k)].
    left. exists []. by rewrite !app_nil_r.
Qed.

(** With a buffer that starts a stream of messages, the loop delivers those that
    are complete and leaves a proper part of the next. *)
Lemma process_stream ms fuel s t ctx :
  Forall wf_packet ms → s ++ t = concat (map wire ms) → Zlen (s ++ t) <= INT64_MAX →
  (length s < fuel)%nat → waiting (head ms) ctx →
  ∃ ms1 ms2 s' ctx',
    process_messages fuel s ctx = Some (map delivered ms1, EAGAIN, s', ctx') ∧
    ms = ms1 ++ ms2 ∧ s' ++ t = concat (map wire ms2) ∧ waiting (head ms2) ctx' ∧
    (∀ m, head ms2 = Some m → (length s' < length (wire m))%nat).
Proof using L.
  revert s ctx ms. induction fuel as [|fuel IH]; intros s ctx ms Hms Hst Hlen Hfuel Hctx; [lia|].
  cbn [process_messages]. destruct ms as [|m ms].
  { apply app_nil in Hst as [-> ->]. destruct Hctx as [Hi|[]]. rewrite next_empty by done.
    exists [], [], [], ctx. split_and!; [done..|by left|done]. }
  apply Forall_cons in Hms as [Hm Hms]. cbn [map concat head] in *.
  assert (Zlen (wire m) <= INT64_MAX) as Hwl.
  { rewrite Hst, Zlen_app in Hlen. pose proof (Zlen_nonneg (concat (map wire ms))). lia. }
  apply app_split in Hst as [(k & -> & Hk)|(q & Hq & Hne & Ht)].
  - destruct (next_complete m k ctx Hm Hwl Hctx) as (msg & ctx1 & -> & He & -> & Hi & ->).
    rewrite rtsp_buffer_remove_app.
    2:{ rewrite !Zlen_app in Hlen. pose proof (Zlen_nonneg (wire m)). pose proof (Zlen_nonneg t). lia. }
    destruct (IH k ctx1 ms Hms (eq_sym Hk)) as (ms1 & ms2 & s' & ctx' & -> & -> & Hs & Hw & Hl).
    + rewrite !Zlen_app in *. pose proof (Zlen_nonneg (wire m)). lia.
    + pose proof (wire_pos m Hm). rewrite length_app in Hfuel. unfold Zlen in *. lia.
    + by left.
    + rewrite He. exists (m :: ms1), ms2, s', ctx'. by split_and!.
  - destruct (next_partial m s q ctx Hm Hwl Hctx Hq Hne) as (ctx1 & -> & Hw1).
    exists [], (m :: ms), s, ctx1. cbn [map concat app]. split_and!; try done.
    + by rewrite Hq, <- app_assoc, Ht.
    + intros m' [= <-]. rewrite Hq, length_app. destruct q; [done|]. cbn. lia.
Qed.

Lemma receive_stream chunks : ∀ ms buf ctx,
  Forall wf_packet ms → buf ++ concat chunks = concat (map wire ms) →
  Zlen (buf ++ concat chunks) <= INT64_MAX → waiting (head ms) ctx →
  (∀ m, head ms = Some m → (length buf < length (wire m))%nat) →
  ∃ ctx', receive buf ctx chunks = Some (map delivered ms, [], ctx') ∧ idle ctx'.
Proof using L.
  induction chunks as [|data chunks IH]; intros ms buf ctx Hms Hb Hlen Hctx Hp; cbn [concat] in *.
  - rewrite app_nil_r in Hb. destruct ms as [|m ms].
    + cbn in Hb. subst buf. exists ctx. split; [done|]. by destruct Hctx as [?|[]].
    + specialize (Hp m eq_refl). apply (f_equal length) in Hb. cbn [map concat] in Hb.
      rewrite length_app in Hb. lia.
  - rewrite app_assoc in Hb, Hlen. cbn [receive]. unfold data_cb.
    destruct (process_stream ms (S (length (buf ++ data))) (buf ++ data) (concat chunks) ctx)
      as (ms1 & ms2 & s' & ctx1 & -> & -> & Hs & Hw & Hl); [done..|lia|done|].
    apply Forall_app in Hms as [_ Hms2]. cbn [mbind option_bind].
    destruct (IH ms2 s' ctx1 Hms2 Hs) as (ctx' & -> & Hi); [|done|done|].
    + rewrite Hs. rewrite Hb, map_app, concat_app, Zlen_app in Hlen.
      pose proof (Zlen_nonneg (concat (map wire ms1))). lia.
    + exists ctx'. split; [|done]. cbn [mbind option_bind]. by rewrite map_app.
Qed.

(** C1: the framing is correct whatever the transport does: when a peer sends any
    sequence of requests, responses (each with its body) and interleaved packets,
    the bytes may arrive cut into chunks at any place; the callbacks together
    deliver exactly these messages, in order, with their headers, bodies and
    data, and end with an empty buffer and an idle parser.  A packet whose first
    three bytes would look like the end of a header is excluded. *)
Theorem receive_any_chunks ms chunks :
  Forall wf_packet ms → concat chunks = concat (map wire ms) →
  Zlen (concat chunks) <= INT64_MAX →
  ∃ ctx, receive [] ctx_init chunks = Some (map delivered ms, [], ctx) ∧ idle ctx.
Proof using L.
  intros Hms Hc Hlen. apply receive_stream; try done; [by left|].
  intros m Hm. cbn. destruct ms as [|m' ms]; [done|]. injection Hm as ->.
  apply Forall_cons in Hms as [Hm _]. pose proof (wire_pos m Hm). unfold Zlen in *. lia.
Qed.

(** *** Headers that are refused *)

(** C40: a request header of complete lines whose request line is refused is
    skipped, but the loop ends there: a complete message behind it stays in the
    buffer, undelivered, until more data arrives. *)
Theorem bad_header_stalls l ls m :
  Forall (fun l => line_ok l = true) (l :: ls) →
  request_line l = Err EPROTO → starts_with (cs "RTSP/1.0") l = false →
  head l ≠ Some (chr 0x24) → Zlen (lines_text (l :: ls)) < 2 ^ 62 →
  wf_packet m → Zlen (wire m) < 2 ^ 62 →
  ∃ ctx, data_cb [] ctx_init ((lines_text (l :: ls) ++ CRLF) ++ wire m)
         = Some ([], EPROTO, wire m, ctx) ∧ idle ctx.
Proof using Type.
  clear L. intros Hls Hr Hv H0 Hl1 Hm Hl2. set (bad := lines_text (l :: ls) ++ CRLF).
  destruct (find_double_newline_lines (l :: ls) (wire m)) as (r & Hf & Hlen & _); [done..|].
  destruct (find_double_newline_lines (l :: ls) []) as (r' & Hf' & Hlen' & Ht); [done..|].
  fold bad in Hf, Hlen, Hf', Hlen', Ht. rewrite app_nil_r in Hf', Ht.
  assert (∃ c t, l = c :: t ∧ code c ≠ 0x24) as (c & t & -> & Hc).
  { apply Forall_cons in Hls as [[Hne _]%line_ok_elim _]. destruct l as [|c t]; [done|].
    exists c, t. split; [done|]. intros Hc. apply H0. cbn. f_equal. by apply code_inj. }
  assert (rtsp_request_header_read bad = Err EPROTO) as Hbad.
  { unfold rtsp_request_header_read. rewrite Hf'.
    apply tokens_cons_inv in Ht as (temp & -> & _). by rewrite Hr. }
  unfold data_cb. cbn [app process_messages].
  assert (bad ++ wire m = c :: t ++ CR :: LF :: lines_text ls ++ CRLF ++ wire m) as Eb.
  { unfold bad. by rewrite lines_text_cons, <- !app_assoc. }
  assert (rtsp_get_next_message (bad ++ wire m) ctx_init
          = (Err EPROTO, length_only (Zlen bad), ParserCtx rtsp_message_clear (Zlen bad))) as ->.
  { unfold rtsp_get_next_message. rewrite Eb, rtsp_parse_interleaved_text, <- Eb by done.
    change (EINVAL =? EAGAIN) with false. change (negb (EINVAL =? EINVAL)) with false. cbv iota.
    unfold text_header. cbn [msg_type ctx_msg ctx_init rtsp_message_clear].
    rewrite Hf, Hlen. fold (Zlen bad). unfold read_text_header.
    assert (starts_with (cs "RTSP/1.0") (bad ++ wire m) = false) as ->.
    { rewrite Eb, app_comm_cons. by rewrite starts_with_stop. }
    by rewrite andb_false_r, take_Zlen_app, Hbad. }
  cbn [msg_total_len length_only]. rewrite rtsp_buffer_remove_app by (unfold INT64_MAX; lia).
  by eexists.
Qed.

(** *** A negative length *)

(** A request with a negative [Content-Length] is delivered at once, with a
    body length of almost [SIZE_MAX] bytes, and a total length that does not even
    cover its header. *)
Theorem next_negative_content_length data ctx r nl h pos ts :
  idle ctx → rtsp_parse_interleaved data = Err EINVAL →
  find_double_newline data = Some (r, nl) → starts_with (cs "RTSP/1.0") data = false →
  rtsp_request_header_read (take (r + nl) data) = Ok (h, pos) →
  rq_transport h = Some <$> ts →
  let header_len := Z.of_nat (r + nl) in
  - header_len <= rq_content_length h < 0 → header_len < 2 ^ 63 →
  rtsp_get_next_message data ctx
  = (Ok tt, Message RTSP_MESSAGE_TYPE_REQUEST (header_len + rq_content_length h) (HeaderReq h)
              (Some (drop (r + nl) data)) (2 ^ 64 + rq_content_length h) None,
     ParserCtx rtsp_message_clear header_len).
Proof using Type.
  clear L. intros Hi Hp Hf Hv Hr Ht header_len Hc Hh.
  destruct (find_double_newline_bound _ _ _ Hf) as [Hle _].
  unfold rtsp_get_next_message. rewrite Hp.
  change (EINVAL =? EAGAIN) with false. change (negb (EINVAL =? EINVAL)) with false. cbv iota.
  unfold text_header. rewrite Hi. cbn [msg_type rtsp_message_clear]. rewrite Hf.
  unfold read_text_header. rewrite Hv, andb_false_r, Nat2Z.id, Hr. cbn [mbind res_bind].
  assert (u64 (rq_content_length h) = 2 ^ 64 + rq_content_length h) as ->.
  { unfold wrapu. rewrite <- (Z.mod_unique _ _ (-1) (2 ^ 64 + rq_content_length h)); lia. }
  unfold text_body. cbn [ctx_msg ctx_header_len msg_body_len msg_type msg_header].
  fold header_len.
  assert (u64 (2 ^ 64 + rq_content_length h + header_len) = header_len + rq_content_length h) as ->.
  { unfold wrapu. rewrite <- (Z.mod_unique _ _ 1 (header_len + rq_content_length h)); lia. }
  destruct (Zlen data <? _) eqn:E; bool_to_prop; [unfold Zlen in *; lia|].
  unfold header_len. rewrite Nat2Z.id. do 3 f_equal. cbn [copy_header].
  by rewrite (rtsp_request_header_copy_clear _ ts).
Qed.

(** *** A packet in parts *)

(** When only the first three bytes of an interleaved packet have arrived,
    they are searched for the end of a text header: for channel 10 and a payload
    of 2560 to 2815 bytes they are taken for a bad header and dropped, and the
    packet is lost. *)
Theorem interleaved_start_dropped channel data rest :
  channel = 10 → 2560 <= Zlen data < 2816 →
  ∃ start ctx, interleaved_packet channel data ++ rest = start ++ drop 3 (interleaved_packet channel data) ++ rest ∧
    length start = 3%nat ∧ data_cb [] ctx_init start = Some ([], EPROTO, [], ctx).
Proof using Type.
  clear L. intros -> Hd. exists [chr 36; LF; LF], (ParserCtx rtsp_message_clear 3).
  assert (chr (Zlen data / 256) = LF) as Hc by (replace (Zlen data / 256) with 10 by dlia; done).
  split_and!; [|done|].
  - unfold interleaved_packet, htons. rewrite Hc. done.
  - vm_compute. reflexivity.
Qed.
End stream.

(** ** Witnesses *)

Definition sample_packets : list packet :=
  [PktRequest sample_request []; PktInterleaved 1 (cs "rtp"); PktResponse sample_response (cs "v=0;");
   PktInterleaved 0 (cs "$")].

Definition sample_stream : bytes := concat (map (wire (T := stub_time)) sample_packets).

Definition sample_chunks : list bytes :=
  [take 3 sample_stream; take 600 (drop 3 sample_stream); [];
   take 50 (drop 603 sample_stream); drop 653 sample_stream].

Lemma sample_packets_wf : Forall (wf_packet (T := stub_time)) sample_packets.
Proof.
  assert (wf_request (T := stub_time) sample_request = true) as H1 by (vm_compute; reflexivity).
  assert (wf_response (T := stub_time) sample_response = true) as H2 by (vm_compute; reflexivity).
  apply Forall_cons_2; [exact (conj H1 (conj (scale_ok_hundredths (-150) ltac:(lia)) eq_refl))|].
  apply Forall_cons_2; [cbn [wf_packet]; split_and!; by_decide|].
  apply Forall_cons_2; [exact (conj H2 (conj (scale_ok_hundredths 100 ltac:(lia)) eq_refl))|].
  apply Forall_cons_2; [cbn [wf_packet]; split_and!; by_decide|].
  apply Forall_nil_2.
Qed.

Lemma receive_any_chunks_witness :
  concat sample_chunks = sample_stream ∧
  ∃ ctx, receive (T := stub_time) [] ctx_init sample_chunks
         = Some (map delivered sample_packets, [], ctx) ∧ idle ctx.
Proof.
  assert (concat sample_chunks = sample_stream) as H by (vm_compute; reflexivity).
  assert (Zlen (concat sample_chunks) <= INT64_MAX) as Hl by by_decide.
  split; [exact H|].
  exact (receive_any_chunks (L := stub_time_laws) sample_packets sample_chunks sample_packets_wf H
           Hl).
Defined.

Lemma bad_header_stalls_witness :
  ∃ ctx, data_cb (T := stub_time) [] ctx_init
           ((lines_text [cs "PLAY2 * RTSP/1.0"; cs "CSeq: 1"] ++ CRLF)
            ++ wire (T := stub_time) (PktInterleaved 1 (cs "rtp")))
         = Some ([], EPROTO, wire (T := stub_time) (PktInterleaved 1 (cs "rtp")), ctx) ∧ idle ctx.
Proof.
  assert (wf_packet (T := stub_time) (PktInterleaved 1 (cs "rtp"))) as Hm
    by (cbn [wf_packet]; split_and!; by_decide).
  exact (bad_header_stalls (T := stub_time) (cs "PLAY2 * RTSP/1.0") [cs "CSeq: 1"]
           (PktInterleaved 1 (cs "rtp")) ltac:(repeat constructor) ltac:(by vm_compute)
           ltac:(by vm_compute) ltac:(discriminate) ltac:(by vm_compute) Hm ltac:(by vm_compute)).
Defined.

Definition negative_request : bytes :=
  lines_text [cs "OPTIONS * RTSP/1.0"; cs "Content-Length: -2"] ++ CRLF.

Lemma next_negative_content_length_witness :
  ∃ h, rtsp_get_next_message (T := stub_time) negative_request ctx_init
       = (Ok tt, Message RTSP_MESSAGE_TYPE_REQUEST 40 (HeaderReq h) (Some []) (2 ^ 64 - 2) None,
          ParserCtx rtsp_message_clear 42).
Proof.
  eexists.
  exact (next_negative_content_length (T := stub_time) negative_request ctx_init 38 4
    (set_rq_content_length (-2) (set_rq_uri (Some (cs "*")) (set_rq_method RTSP_METHOD_TYPE_OPTIONS
       rtsp_request_header_clear))) 42 []
    eq_refl ltac:(vm_compute; reflexivity) ltac:(vm_compute; reflexivity)
    ltac:(vm_compute; reflexivity) ltac:(vm_compute; reflexivity) ltac:(vm_compute; reflexivity)
    ltac:(vm_compute; split; [discriminate|reflexivity]) ltac:(vm_compute; reflexivity)).
Defined.

Lemma interleaved_start_dropped_witness :
  ∃ start ctx,
    interleaved_packet 10 (replicate 2600 NUL) ++ []
    = start ++ drop 3 (interleaved_packet 10 (replicate 2600 NUL)) ++ [] ∧
    length start = 3%nat ∧ data_cb (T := stub_time) [] ctx_init start = Some ([], EPROTO, [], ctx).
Proof.
  exact (interleaved_start_dropped (T := stub_time) 10 (replicate 2600 NUL) [] eq_refl
           ltac:(unfold Zlen; rewrite length_replicate; lia)).
Defined.
