(* ===== verification/ObjList.v ===== *)
(** * Linked objects

    The sessions, the medias and the pending requests of a server are allocated
    objects in intrusive lists ([struct list_node]).  A list is modelled by the
    objects it links, in order, each with its address: the accesses through a
    pointer go by address, and a pointer to an object that is in no list any
    more has no object. *)

From S2P Require Import Prelude.
From stdpp Require Import options.

(** Addresses, never reused: the allocator counts. *)
Abbreviation ptr := nat.

Section objlist.
Context {A : Type} (addr : A → ptr).
Implicit Types (p : ptr) (l : list A).

Fixpoint find_obj p l : option A :=
  match l with
  | [] => None
  | x :: l' => if decide (addr x = p) then Some x else find_obj p l'
  end.

Fixpoint update_obj p (f : A → A) l : list A :=
  match l with
  | [] => []
  | x :: l' => if decide (addr x = p) then f x :: l' else x :: update_obj p f l'
  end.

(** [list_del] *)
Fixpoint delete_obj p l : list A :=
  match l with
  | [] => []
  | x :: l' => if decide (addr x = p) then l' else x :: delete_obj p l'
  end.

Lemma find_obj_Some p l x : find_obj p l = Some x → x ∈ l ∧ addr x = p.
Proof.
  induction l as [|y l IH]; cbn; [done|]. case_decide; [intros [= ->]; split; [left|done]|].
  intros H'. destruct (IH H'). split; [by right|done].
Qed.

Lemma find_obj_None p l : find_obj p l = None ↔ p ∉ addr <$> l.
Proof.
  induction l as [|y l IH]; cbn; [split; [intros _ H; inversion H|done]|].
  rewrite not_elem_of_cons. case_decide; [|rewrite IH; intuition congruence].
  split; [done|]. by intros [? _].
Qed.

Lemma find_obj_elem l x : NoDup (addr <$> l) → x ∈ l → find_obj (addr x) l = Some x.
Proof.
  induction l as [|y l IH]; cbn; [intros _ H; inversion H|].
  rewrite NoDup_cons. intros [Hy Hl] [->|Hx]%elem_of_cons; [by rewrite decide_True|].
  rewrite decide_False; [by apply IH|]. intros Heq. apply Hy. rewrite Heq.
  by apply list_elem_of_fmap_2.
Qed.

(** Distinct addresses: an object is the one found at its address. *)
Lemma find_obj_unique p l x y :
  NoDup (addr <$> l) → find_obj p l = Some x → y ∈ l → addr y = p → y = x.
Proof. intros Hl Hx Hy <-. rewrite (find_obj_elem _ _ Hl Hy) in Hx. congruence. Qed.

Lemma find_obj_app p l k :
  find_obj p (l ++ k) = match find_obj p l with Some x => Some x | None => find_obj p k end.
Proof. induction l as [|y l IH]; cbn; [done|]. by case_decide. Qed.

Lemma update_obj_addr p f l :
  (∀ x, addr (f x) = addr x) → addr <$> update_obj p f l = addr <$> l.
Proof.
  intros Hf. induction l as [|y l IH]; cbn; [done|].
  case_decide; cbn; [by rewrite Hf|by rewrite IH].
Qed.

(** A projection that the update keeps. *)
Lemma update_obj_fmap {B} (g : A → B) p f l :
  (∀ x, g (f x) = g x) → g <$> update_obj p f l = g <$> l.
Proof.
  intros Hf. induction l as [|y l IH]; cbn; [done|].
  case_decide; cbn; [by rewrite Hf|by rewrite IH].
Qed.

Lemma update_obj_Forall (P : A → Prop) p f l :
  (∀ x, x ∈ l → addr x = p → P x → P (f x)) → Forall P l → Forall P (update_obj p f l).
Proof.
  induction l as [|y l IH]; cbn; [done|]. intros Hf [Hy Hl]%Forall_cons.
  case_decide; apply Forall_cons; split; auto.
  - apply Hf; [left|done|done].
  - apply IH; [|done]. intros x Hx. apply Hf. by right.
Qed.

(** With distinct addresses only the object at [p] is another one. *)
Lemma update_obj_Forall_at (P : A → Prop) p f l :
  NoDup (addr <$> l) → (∀ x, x ∈ l → addr x = p → P (f x)) → (∀ x, x ∈ l → addr x ≠ p → P x) →
  Forall P (update_obj p f l).
Proof.
  induction l as [|y l IH]; cbn; [by constructor|]. rewrite NoDup_cons. intros [Hy Hl] Hp Ho.
  case_decide as E; apply Forall_cons; split.
  - apply Hp; [left|done].
  - apply Forall_forall. intros x Hx. apply Ho; [by right|]. intros Ex. apply Hy.
    rewrite E, <- Ex. by apply list_elem_of_fmap_2.
  - apply Ho; [left|done].
  - apply IH; [done|..]; intros x Hx; [apply Hp|apply Ho]; by right.
Qed.

Lemma update_obj_length p f l : length (update_obj p f l) = length l.
Proof. induction l; cbn; [done|]. case_decide; cbn; congruence. Qed.

Lemma find_update_obj p f l :
  (∀ x, addr (f x) = addr x) → find_obj p (update_obj p f l) = f <$> find_obj p l.
Proof.
  intros Hf. induction l as [|y l IH]; cbn; [done|].
  case_decide; cbn; [rewrite decide_True; [done|by rewrite Hf]|by rewrite decide_False].
Qed.

Lemma find_update_obj_ne p q f l :
  (∀ x, addr (f x) = addr x) → p ≠ q → find_obj p (update_obj q f l) = find_obj p l.
Proof.
  intros Hf Hpq. induction l as [|y l IH]; cbn; [done|].
  destruct (decide (addr y = q)); cbn; [rewrite Hf, !decide_False by congruence; done|].
  case_decide; [done|apply IH].
Qed.

Lemma update_obj_id p l : update_obj p id l = l.
Proof. induction l as [|y l IH]; cbn; [done|]. case_decide; [done|by rewrite IH]. Qed.

Lemma update_obj_twice p f g l :
  (∀ x, addr (f x) = addr x) →
  update_obj p g (update_obj p f l) = update_obj p (fun x => g (f x)) l.
Proof.
  intros Hf. induction l as [|y l IH]; cbn; [done|].
  case_decide; cbn; [by rewrite decide_True by (by rewrite Hf)|by rewrite decide_False, IH].
Qed.

(** Only what is done to the object at [p] matters. *)
Lemma update_obj_ext p f g l x :
  find_obj p l = Some x → f x = g x → update_obj p f l = update_obj p g l.
Proof.
  induction l as [|y l IH]; cbn; [done|].
  case_decide; [by intros [= ->] ->|]. intros Hx Hfg. by rewrite IH.
Qed.

Lemma delete_update_obj p f l :
  (∀ x, addr (f x) = addr x) → delete_obj p (update_obj p f l) = delete_obj p l.
Proof.
  intros Hf. induction l as [|y l IH]; cbn; [done|].
  case_decide; cbn; [by rewrite decide_True by (by rewrite Hf)|by rewrite decide_False, IH].
Qed.

Lemma delete_obj_sublist p l : delete_obj p l `sublist_of` l.
Proof.
  induction l as [|y l IH]; cbn; [done|]. case_decide; [by apply sublist_cons|by apply sublist_skip].
Qed.

Lemma delete_obj_Forall (P : A → Prop) p l : Forall P l → Forall P (delete_obj p l).
Proof. intros H. induction H; cbn; [done|]. case_decide; [done|by constructor]. Qed.

Lemma delete_obj_NoDup {B} (g : A → B) p l : NoDup (g <$> l) → NoDup (g <$> delete_obj p l).
Proof.
  intros H. eapply sublist_NoDup; [exact H|]. apply fmap_sublist, delete_obj_sublist.
Qed.

Lemma delete_obj_elem p l x : x ∈ delete_obj p l → x ∈ l.
Proof. intros H. eapply elem_of_sublist; [exact H|apply delete_obj_sublist]. Qed.

Lemma delete_obj_length p l :
  p ∈ addr <$> l → Zlen (delete_obj p l) = (Zlen l - 1)%Z.
Proof.
  induction l as [|y l IH]; cbn; [intros H; inversion H|].
  case_decide as E; [intros _; rewrite Zlen_cons; lia|].
  intros [H|H]%elem_of_cons; [congruence|]. rewrite !Zlen_cons, IH by done. lia.
Qed.

(** With distinct addresses the deleted object is gone, and the others stay. *)
Lemma delete_obj_gone p l : NoDup (addr <$> l) → p ∉ addr <$> delete_obj p l.
Proof.
  induction l as [|y l IH]; cbn; [intros _ H; inversion H|].
  rewrite NoDup_cons. intros [Hy Hl]. case_decide as E; [by subst|]. cbn.
  rewrite not_elem_of_cons. split; [congruence|by apply IH].
Qed.

Lemma delete_obj_other p l x : x ∈ l → addr x ≠ p → x ∈ delete_obj p l.
Proof.
  induction l as [|y l IH]; cbn; [intros H; inversion H|].
  intros [->|Hx]%elem_of_cons Hp; case_decide; try done; [by left|by right; apply IH].
Qed.

Lemma find_delete_obj_ne p q l : p ≠ q → find_obj p (delete_obj q l) = find_obj p l.
Proof.
  intros Hpq. induction l as [|y l IH]; cbn; [done|].
  destruct (decide (addr y = q)); cbn; [rewrite decide_False by congruence; done|].
  case_decide; [done|apply IH].
Qed.

Lemma delete_obj_notin p l : p ∉ addr <$> l → delete_obj p l = l.
Proof.
  induction l as [|y l IH]; cbn; [done|]. rewrite not_elem_of_cons. intros [Hy Hl].
  rewrite decide_False by congruence. by rewrite IH.
Qed.
End objlist.

Lemma NoDup_snoc {A} (l : list A) x : NoDup l → x ∉ l → NoDup (l ++ [x]).
Proof.
  intros Hl Hx. apply NoDup_app. split_and!; [done| |apply NoDup_singleton].
  intros y Hy [->|H]%elem_of_cons; [done|inversion H].
Qed.
