(* ===== verification/StateMonad.v ===== *)
(** * Stateful code

    An operation on a state [S] is a function that returns a value and the new
    state; it has no result when the C execution is undefined: an access through a
    pointer to an object that was freed. *)

From S2P Require Import Prelude ObjList.
From stdpp Require Import options.

(** ** The monad *)

Definition ST (S A : Type) : Type := S → option (A * S).

Section monad.
Context {S : Type}.

#[export] Instance SM_ret : MRet (ST S) := fun A a s => Some (a, s).
#[export] Instance SM_bind : MBind (ST S) := fun A B f m s =>
  match m s with Some (a, s') => f a s' | None => None end.

Definition undefined {A} : ST S A := fun _ => None.
Definition gets {A} (f : S → A) : ST S A := fun s => Some (f s, s).
Definition modify (f : S → S) : ST S unit := fun s => Some (tt, f s).
Definition skip : ST S unit := mret tt.
Definition when (b : bool) (m : ST S unit) : ST S unit := if b then m else skip.

(** [m], of which the value is not used. *)
Definition ignore {A} (m : ST S A) : ST S unit := m;; skip.

Fixpoint for_each {A} (body : A → ST S unit) (l : list A) : ST S unit :=
  match l with
  | [] => skip
  | x :: l' => body x;; for_each body l'
  end.

(** What a pointer points to. *)
Definition deref {A} (o : option A) : ST S A :=
  match o with Some a => mret a | None => undefined end.

(** *** Loops on a list of objects

    [now] reads the addresses that are in the list.  The loops go through the
    addresses [l] that were in it when they started; objects are added to none
    of these lists while a loop is running. *)

(** [list_walk_entry_forward]: the next object is read in the current one after
    the body. *)
Definition list_walk (now : ST S (list ptr)) (body : ptr → ST S unit) (l : list ptr) : ST S unit :=
  for_each (fun p =>
    here ← now;
    when (bool_decide (p ∈ here))
      (body p;; here ← now; if bool_decide (p ∈ here) then skip else undefined)) l.

Definition first_of (l here : list ptr) : option ptr := head (filter (fun p => p ∈ here) l).

(** [list_walk_entry_forward_safe]: the next object [next] is read in the
    current one before the body. *)
Fixpoint list_walk_safe (now : ST S (list ptr)) (body : ptr → ST S unit) (l : list ptr)
    (next : option ptr) : ST S unit :=
  match l with
  | [] => skip
  | p :: l' =>
      if decide (next = Some p) then
        here ← now;
        if bool_decide (p ∈ here) then
          body p;; list_walk_safe now body l' (first_of l' here)
        else undefined
      else list_walk_safe now body l' next
  end.
End monad.

(** ** Execution *)

Lemma bind_eq {S A B} (m : ST S A) (f : A → ST S B) s a s1 :
  m s = Some (a, s1) → mbind f m s = f a s1.
Proof. intros H. unfold mbind, SM_bind. by rewrite H. Qed.

Lemma bind_intro {S A B} (m : ST S A) (f : A → ST S B) s a s1 res :
  m s = Some (a, s1) → f a s1 = res → mbind f m s = res.
Proof. intros H <-. by apply bind_eq. Qed.

Lemma ignore_eq {S A} (m : ST S A) s a s1 : m s = Some (a, s1) → ignore m s = Some (tt, s1).
Proof. intros H. unfold ignore. by rewrite (bind_eq _ _ _ _ _ H). Qed.

Lemma for_each_app {S A} (body : A → ST S unit) l1 l2 s :
  for_each body (l1 ++ l2) s = (for_each body l1;; for_each body l2) s.
Proof.
  revert s. induction l1 as [|x l1 IH]; intros s; cbn [app for_each]; [done|].
  unfold mbind, SM_bind in *. destruct (body x s) as [[[] s']|]; [|done]. apply IH.
Qed.

Lemma bind_inv {S A B} (m : ST S A) (f : A → ST S B) s b s' :
  mbind f m s = Some (b, s') → ∃ a s1, m s = Some (a, s1) ∧ f a s1 = Some (b, s').
Proof. unfold mbind, SM_bind. destruct (m s) as [[a s1]|]; [eauto|done]. Qed.

(** *** Executions that have a result

    [runs m s Q]: from [s] the operation has a result, and it satisfies [Q]. *)

Definition runs {S A} (m : ST S A) (s : S) (Q : A → S → Prop) : Prop :=
  ∃ a s', m s = Some (a, s') ∧ Q a s'.

Lemma runs_eq {S A} (m : ST S A) s a s' (Q : A → S → Prop) :
  m s = Some (a, s') → Q a s' → runs m s Q.
Proof. intros H HQ. by exists a, s'. Qed.

Lemma runs_ret {S A} (a : A) (s : S) (Q : A → S → Prop) : Q a s → runs (mret a) s Q.
Proof. by apply runs_eq. Qed.

Lemma runs_bind {S A B} (m : ST S A) (f : A → ST S B) s (R : A → S → Prop) (Q : B → S → Prop) :
  runs m s R → (∀ a s', R a s' → runs (f a) s' Q) → runs (mbind f m) s Q.
Proof.
  intros (a & s1 & H1 & HR) Hf. destruct (Hf a s1 HR) as (b & s2 & H2 & HQ).
  exists b, s2. split; [by eapply bind_intro|done].
Qed.

(** The first operation is known. *)
Lemma runs_step {S A B} (m : ST S A) (f : A → ST S B) s a s1 (Q : B → S → Prop) :
  m s = Some (a, s1) → runs (f a) s1 Q → runs (mbind f m) s Q.
Proof. intros H1 (b & s2 & H2 & HQ). exists b, s2. split; [by eapply bind_intro|done]. Qed.

Lemma runs_ignore {S A} (m : ST S A) s (Q : A → S → Prop) (R : unit → S → Prop) :
  runs m s Q → (∀ a s', Q a s' → R tt s') → runs (ignore m) s R.
Proof. intros H HQ. eapply runs_bind; [exact H|]. intros a s' Ha. apply runs_ret. by eapply HQ. Qed.

Lemma runs_weaken {S A} (m : ST S A) s (Q R : A → S → Prop) :
  runs m s Q → (∀ a s', Q a s' → R a s') → runs m s R.
Proof. intros (a & s' & H & HQ) HR. exists a, s'. auto. Qed.

(** A loop whose body has a result under an invariant. *)
Lemma runs_for_each {S A} (I : S → Prop) (body : A → ST S unit) l s :
  (∀ x s, I s → runs (body x) s (fun _ => I)) → I s → runs (for_each body l) s (fun _ => I).
Proof.
  intros Hb. revert s. induction l as [|x l IH]; intros s Hs; [by apply runs_ret|].
  eapply runs_bind; [by apply Hb|]. intros [] s' Hs'. by apply IH.
Qed.

(** The access went through: what it found. *)
Lemma deref_inv {S A} (o : option A) (s : S) a s' : deref o s = Some (a, s') → o = Some a ∧ s' = s.
Proof. destruct o; [by intros [= -> ->]|done]. Qed.

(** ** Rules

    [triple P m Q]: an execution of [m] from a state with [P] that has a result
    ends with [Q]. *)

Definition triple {S A} (P : S → Prop) (m : ST S A) (Q : A → S → Prop) : Prop :=
  ∀ s a s', P s → m s = Some (a, s') → Q a s'.

Definition preserves {S} (I : S → Prop) {A} (m : ST S A) : Prop := triple I m (fun _ => I).

Lemma preserves_run {S} (I : S → Prop) {A} (m : ST S A) s a s' :
  preserves I m → I s → m s = Some (a, s') → I s'.
Proof. intros H. apply H. Qed.

Create HintDb keeps discriminated.

Section rules.
Context {S : Type}.
Implicit Types (P I : S → Prop).

Lemma triple_bind {A B} P Q R (m : ST S A) (f : A → ST S B) :
  triple P m Q → (∀ a, triple (Q a) (f a) R) → triple P (mbind f m) R.
Proof. intros Hm Hf s b s' HP (a & s1 & H1 & H2)%bind_inv. by eapply Hf; [eapply Hm|]. Qed.

Lemma triple_weaken {A} P P' Q Q' (m : ST S A) :
  triple P m Q → (∀ s, P' s → P s) → (∀ a s, Q a s → Q' a s) → triple P' m Q'.
Proof. intros H HP HQ s a s' Hs Hm. apply HQ. eapply H; [by apply HP|done]. Qed.

Lemma triple_ret {A} P Q (a : A) : (∀ s, P s → Q a s) → triple P (mret a) Q.
Proof. intros H s b s' Hs [= <- <-]. by apply H. Qed.

Lemma triple_undefined {A} P (Q : A → _) : triple P undefined Q.
Proof. intros s a s' _ [=]. Qed.

Lemma triple_modify P Q f : (∀ s, P s → Q tt (f s)) → triple P (modify f) Q.
Proof. intros H s [] s' Hs [= <-]. by apply H. Qed.

(** The value read, with the state it was read in. *)
Lemma triple_gets {A B} P Q (f : S → A) (k : A → ST S B) :
  (∀ s, P s → ∀ b s', k (f s) s = Some (b, s') → Q b s') → triple P (x ← gets f; k x) Q.
Proof. intros H s b s' Hs Hk. by eapply H. Qed.

Lemma preserves_ret I {A} (a : A) : preserves I (mret a).
Proof. by apply triple_ret. Qed.

Lemma preserves_bind I {A B} (m : ST S A) (f : A → ST S B) :
  preserves I m → (∀ a, preserves I (f a)) → preserves I (mbind f m).
Proof. intros Hm Hf. by eapply triple_bind. Qed.

Lemma preserves_undefined I {A} : preserves I (@undefined S A).
Proof. apply triple_undefined. Qed.

Lemma preserves_gets I {A} (f : S → A) : preserves I (gets f).
Proof. by intros s a s' Hs [= <- <-]. Qed.

Lemma preserves_modify I f : (∀ s, I s → I (f s)) → preserves I (modify f).
Proof. intros H. by apply triple_modify. Qed.

Lemma preserves_deref I {A} (o : option A) : preserves I (deref o).
Proof. destruct o; [apply preserves_ret|apply preserves_undefined]. Qed.

Lemma preserves_and I J {A} (m : ST S A) :
  preserves I m → preserves J m → preserves (fun s => I s ∧ J s) m.
Proof. intros HI HJ s a s' [Hi Hj] Hm. split; [by eapply HI|by eapply HJ]. Qed.

Lemma preserves_impl (C : Prop) I {A} (m : ST S A) :
  preserves I m → preserves (fun s => C → I s) m.
Proof. intros HI s a s' Hs Hm HC. by eapply HI; [apply Hs|]. Qed.

Lemma preserves_skip I : preserves I skip.
Proof. apply preserves_ret. Qed.

Lemma preserves_when I b m : (b = true → preserves I m) → preserves I (when b m).
Proof. destruct b; cbn; [auto|intros; apply preserves_ret]. Qed.

Lemma preserves_ignore I {A} (m : ST S A) : preserves I m → preserves I (ignore m).
Proof. intros H. apply preserves_bind; [done|intros; apply preserves_ret]. Qed.

Lemma preserves_for_each I {A} (body : A → ST S unit) l :
  (∀ x, preserves I (body x)) → preserves I (for_each body l).
Proof.
  intros H. induction l as [|x l IH]; cbn; [apply preserves_ret|].
  by apply preserves_bind.
Qed.

Lemma preserves_list_walk I now body l :
  preserves I now → (∀ p, preserves I (body p)) → preserves I (list_walk now body l).
Proof.
  intros Hn Hb. apply preserves_for_each. intros p. apply preserves_bind; [done|]. intros here.
  apply preserves_when. intros _. apply preserves_bind; [done|]. intros _.
  apply preserves_bind; [done|]. intros here'. case_bool_decide;
    [apply preserves_ret|apply preserves_undefined].
Qed.

Lemma preserves_list_walk_safe I now body l next :
  preserves I now → (∀ p, preserves I (body p)) → preserves I (list_walk_safe now body l next).
Proof.
  intros Hn Hb. revert next. induction l as [|p l IH]; intros next; cbn; [apply preserves_ret|].
  case_decide; [|done]. apply preserves_bind; [done|]. intros here.
  case_bool_decide; [|apply preserves_undefined]. apply preserves_bind; [done|]. intros _. apply IH.
Qed.

End rules.

#[export] Hint Resolve preserves_ret preserves_undefined preserves_gets preserves_deref
  preserves_skip : keeps.

(** Goes through the code of an operation; the lemmas on the operations it
    calls are in the hint database. *)
Ltac keep_step :=
  first
    [ solve [auto with keeps nocore]
    | match goal with
      | |- ∀ _, _ => intros ?
      | |- preserves _ (mbind _ _) => apply preserves_bind
      | |- preserves _ (when _ _) => apply preserves_when; intros ?
      | |- preserves _ (ignore _) => apply preserves_ignore
      | |- preserves _ (for_each _ _) => apply preserves_for_each
      | |- preserves _ (list_walk _ _ _) => apply preserves_list_walk
      | |- preserves _ (list_walk_safe _ _ _ _) => apply preserves_list_walk_safe
      | |- preserves _ (let '(_, _) := ?x in _) => destruct x
      | |- preserves _ (let x := _ in _) => cbv zeta
      | |- preserves _ (if ?b then _ else _) => destruct b eqn:?
      | |- preserves _ (match ?x with _ => _ end) => destruct x eqn:?
      end ].
Ltac keep := repeat keep_step.

(** ** Change of a part of the state

    [m] neither reads nor changes what [g] changes. *)

Definition map_state {S A} (g : S → S) (r : option (A * S)) : option (A * S) :=
  match r with Some (a, s) => Some (a, g s) | None => None end.

Definition commutes {S} (g : S → S) {A} (m : ST S A) : Prop := ∀ s, m (g s) = map_state g (m s).

Create HintDb obl discriminated.

Section commutes.
Context {S : Type} (g : S → S).

Lemma obl_ret {A} (a : A) : commutes g (mret a).
Proof. done. Qed.

Lemma obl_undefined {A} : commutes g (@undefined S A).
Proof. done. Qed.

Lemma obl_bind {A B} (m : ST S A) (f : A → ST S B) :
  commutes g m → (∀ a, commutes g (f a)) → commutes g (mbind f m).
Proof.
  intros Hm Hf s. unfold mbind, SM_bind. rewrite Hm.
  destruct (m s) as [[a s']|]; cbn; [apply Hf|done].
Qed.

Lemma obl_gets {A} (f : S → A) : (∀ s, f (g s) = f s) → commutes g (gets f).
Proof. intros H s. unfold gets. cbn. by rewrite H. Qed.

Lemma obl_modify f : (∀ s, f (g s) = g (f s)) → commutes g (modify f).
Proof. intros H s. unfold modify. cbn. by rewrite H. Qed.

Lemma obl_when b m : commutes g m → commutes g (when b m).
Proof. intros H. by destruct b. Qed.

Lemma obl_ignore {A} (m : ST S A) : commutes g m → commutes g (ignore m).
Proof. intros H. by apply obl_bind. Qed.

Lemma obl_for_each {A} (body : A → ST S unit) l :
  (∀ x, commutes g (body x)) → commutes g (for_each body l).
Proof. intros H. induction l as [|x l IH]; cbn [for_each]; [apply obl_ret|by apply obl_bind]. Qed.

Lemma obl_deref {A} (o : option A) : commutes g (deref o).
Proof. by destruct o. Qed.

Lemma obl_list_walk now body l :
  commutes g now → (∀ p, commutes g (body p)) → commutes g (list_walk now body l).
Proof.
  intros Hn Hb. apply obl_for_each. intros p. apply obl_bind; [done|]. intros here.
  apply obl_when, obl_bind; [done|]. intros _. apply obl_bind; [done|]. intros here'.
  by case_bool_decide.
Qed.

Lemma obl_list_walk_safe now body l next :
  commutes g now → (∀ p, commutes g (body p)) → commutes g (list_walk_safe now body l next).
Proof.
  intros Hn Hb. revert next. induction l as [|p l IH]; intros next; cbn; [apply obl_ret|].
  case_decide; [|done]. apply obl_bind; [done|]. intros here.
  case_bool_decide; [|done]. apply obl_bind; [done|]. intros _. apply IH.
Qed.
End commutes.

#[export] Hint Resolve obl_ret obl_undefined obl_deref : obl.

Ltac obl_step :=
  first
    [ solve [auto with obl nocore]
    | match goal with
      | |- ∀ _, _ => intros ?
      | |- commutes _ (gets _) => apply obl_gets; reflexivity
      | |- commutes _ (modify _) => apply obl_modify; reflexivity
      | |- commutes _ skip => apply obl_ret
      | |- commutes _ (mbind _ _) => apply obl_bind
      | |- commutes _ (when _ _) => apply obl_when
      | |- commutes _ (ignore _) => apply obl_ignore
      | |- commutes _ (for_each _ _) => apply obl_for_each
      | |- commutes _ (list_walk _ _ _) => apply obl_list_walk
      | |- commutes _ (list_walk_safe _ _ _ _) => apply obl_list_walk_safe
      | |- commutes _ (let x := _ in _) => cbv zeta
      | |- commutes _ (if ?b then _ else _) => destruct b eqn:?
      | |- commutes _ (match ?x with _ => _ end) => destruct x eqn:?
      end ].
Ltac obl := repeat obl_step.
