(* ===== verification/Receiver.v ===== *)
(** * Receiving messages from a stream

    The server and the client put the data of a connection in a buffer and handle
    the complete messages in it.  [Receiver] is what this needs of them, with its
    laws; whatever chunks the transport delivers, a receiver then ends as if it
    had handled the messages of the stream one by one. *)

From S2P Require Import Prelude Framing HeaderLine HeaderFields Request Response Message ObjList StateMonad TimeRange.
From stdpp Require Import options.

Local Open Scope Z_scope.

(** The buffer and the parser, and what is done with data and with a message. *)
Class Receiver (S : Type) := {
  rx_buf : S → bytes;
  rx_ctx : S → rtsp_message_parser_ctx;
  put_rx : bytes → rtsp_message_parser_ctx → S → S;
  on_data : bytes → ST S unit;
  on_message : event → ST S unit
}.

(** Messages are handled without a look at the buffer, and data is handled as the
    messages that become complete. *)
Class ReceiverLaws `{T : LocalTime} {S : Type} (R : Receiver S) := {
  put_put buf ctx buf' ctx' s : put_rx buf ctx (put_rx buf' ctx' s) = put_rx buf ctx s;
  put_get s : put_rx (rx_buf s) (rx_ctx s) s = s;
  buf_put buf ctx s : rx_buf (put_rx buf ctx s) = buf;
  ctx_put buf ctx s : rx_ctx (put_rx buf ctx s) = ctx;
  on_message_commutes buf ctx e : commutes (put_rx buf ctx) (on_message e);
  on_data_messages data evs ret buf ctx s :
    data_cb (rx_buf s) (rx_ctx s) data = Some (evs, ret, buf, ctx) →
    on_data data s = for_each on_message evs (put_rx buf ctx s)
}.

Section stream.
Context `{T : LocalTime} {L : LocalTimeLaws T} {S : Type} (R : Receiver S) {RL : ReceiverLaws R}.

(** The chunks one after the other are handled like their messages. *)
Lemma chunks_messages chunks : ∀ buf ctx evs buf' ctx' s,
  receive buf ctx chunks = Some (evs, buf', ctx') →
  for_each on_data chunks (put_rx buf ctx s)
  = map_state (put_rx buf' ctx') (for_each on_message evs s).
Proof using RL.
  induction chunks as [|data chunks IH]; intros buf ctx evs buf' ctx' s Hr; cbn [receive] in Hr.
  - by injection Hr as <- <- <-.
  - destruct (data_cb buf ctx data) as [[[[evs1 ret] buf1] ctx1]|] eqn:Hd; [|done].
    cbn [mbind option_bind] in Hr.
    destruct (receive buf1 ctx1 chunks) as [[[evs2 buf2] ctx2]|] eqn:Hc; [|done].
    injection Hr as <- <- <-. cbn [for_each]. rewrite for_each_app.
    unfold mbind, SM_bind.
    rewrite (on_data_messages data evs1 ret buf1 ctx1) by by rewrite buf_put, ctx_put.
    rewrite put_put.
    rewrite (obl_for_each _ _ evs1 (on_message_commutes buf1 ctx1)).
    destruct (for_each on_message evs1 s) as [[[] s1]|]; [|done].
    cbn [map_state]. by apply IH.
Qed.

(** From an empty buffer, a stream of well-formed packets. *)
Lemma stream_messages ms chunks s :
  rx_buf s = [] → rx_ctx s = ctx_init →
  Forall wf_packet ms → concat chunks = concat (map wire ms) →
  Zlen (concat chunks) <= INT64_MAX →
  ∃ ctx, idle ctx ∧
    for_each on_data chunks s
    = map_state (put_rx [] ctx) (for_each on_message (map delivered ms) s).
Proof using L RL.
  intros Hb Hp Hms Hc Hlen.
  destruct (receive_stream chunks ms [] ctx_init Hms Hc Hlen) as (ctx & Hr & Hi).
  - by left.
  - intros m Hm. destruct ms as [|m' ms]; [done|]. injection Hm as ->.
    apply Forall_cons in Hms as [Hm _]. pose proof (wire_pos m Hm). unfold Zlen in *. cbn. lia.
  - exists ctx. split; [done|]. rewrite <- (chunks_messages chunks [] ctx_init _ _ _ s Hr).
    by rewrite <- (put_get s), Hb, Hp, put_put.
Qed.

(** A single packet. *)
Lemma stream_message m chunks s :
  rx_buf s = [] → rx_ctx s = ctx_init → wf_packet m →
  concat chunks = wire m → Zlen (wire m) <= INT64_MAX →
  ∃ ctx, idle ctx ∧
    for_each on_data chunks s = map_state (put_rx [] ctx) (on_message (delivered m) s).
Proof using L RL.
  intros Hb Hp Hm Hc Hlen.
  destruct (stream_messages [m] chunks s Hb Hp) as (ctx & Hi & H);
    [by apply Forall_singleton|cbn; by rewrite app_nil_r|by rewrite Hc|].
  exists ctx. split; [done|]. rewrite H. cbn [map for_each]. unfold mbind, SM_bind.
  by destruct (on_message _ s) as [[[] s1]|].
Qed.
End stream.
