(* ===== verification/ServerState.v ===== *)
(** * The state of the server ([rtsp_server_priv.h])

    The records are the structures of [rtsp_server_priv.h], without the
    handles of the event loop; [rtsp_server] also holds what the code finds
    around it: the monotonic clock, the next free address, the number of random
    numbers drawn, the sessions registered for removal when the loop is idle and
    everything that was sent or handed to the application. *)

From S2P Require Import Prelude CString CNumber Writer Methods Transport AuthHeader RtpInfo.
From S2P Require Import CFloat TimeRange HeaderLine HeaderFields Request Response Framing.
From S2P Require Import Message ObjList StateMonad.
From stdpp Require Import options.

Local Open Scope Z_scope.

(** ** Data *)

Record rtsp_server_session_media := SessionMedia {
  sm_ptr : ptr;
  sm_session : ptr;
  sm_uri : option cstr;
  sm_path : cstr;
  sm_userdata : Z;
  sm_is_tearing_down : bool
}.

Record rtsp_server_session := Session {
  ss_ptr : ptr;
  ss_id : cstr;
  ss_uri : option cstr;
  ss_timeout_ms : Z;
  ss_timer : option Z;
  ss_playing : Z;
  ss_recording : Z;
  ss_range : rtsp_range;
  ss_scale : spec_float;
  ss_op : rtsp_method_type;
  ss_media_count : Z;
  ss_medias : list rtsp_server_session_media
}.

Record rtsp_server_pending_request_media := PendingMedia {
  pm_ptr : ptr;
  pm_media : ptr;
  pm_replied : Z
}.

Record rtsp_server_pending_request := PendingRequest {
  pr_ptr : ptr;
  pr_conn : option Z;
  pr_header : rtsp_request_header;
  pr_response : rtsp_response_header;
  pr_timeout : Z;
  pr_first_reply : Z;
  pr_in_callback : Z;
  pr_replied : Z;
  pr_body : option bytes;
  pr_media_count : Z;
  pr_medias : list rtsp_server_pending_request_media
}.


Inductive rtsp_server_teardown_reason :=
| RTSP_SERVER_TEARDOWN_REASON_CLIENT_REQUEST
| RTSP_SERVER_TEARDOWN_REASON_SESSION_TIMEOUT
| RTSP_SERVER_TEARDOWN_REASON_FORCED_TEARDOWN.

(** What leaves the server: data on one connection, with the result of the
    call, or on all of them, and the calls of the application's callbacks. *)
Inductive output :=
| SendConn (conn : Z) (data : bytes) (ret : Z)
| SendAll (data : bytes) (ret : Z)
| CbDescribe (server_address : cstr) (path : option cstr) (ext : list rtsp_header_ext)
    (request_ctx : ptr)
| CbSetup (path : cstr) (session_id : cstr) (ext : list rtsp_header_ext)
    (request_ctx media_ctx : ptr) (delivery : rtsp_delivery)
    (lower_transport : rtsp_lower_transport) (src_address dst_address : cstr)
    (dst_stream_port dst_control_port : Z)
| CbPlay (session_id : cstr) (ext : list rtsp_header_ext) (request_ctx media_ctx : ptr)
    (range : rtsp_range) (scale : spec_float) (stream_userdata : Z)
| CbPause (session_id : cstr) (ext : list rtsp_header_ext) (request_ctx media_ctx : ptr)
    (range : rtsp_range) (stream_userdata : Z)
| CbTeardown (path : cstr) (session_id : cstr) (reason : rtsp_server_teardown_reason)
    (ext : list rtsp_header_ext) (request_ctx : option ptr) (media_ctx : ptr)
    (stream_userdata : Z)
| CbRequestTimeout (request_ctx : ptr) (method : rtsp_method_type)
| CbAnnounce (server_address : cstr) (path : option cstr) (sdp : option bytes)
    (ext : list rtsp_header_ext) (request_ctx : ptr)
| CbRecord (session_id : cstr) (ext : list rtsp_header_ext) (request_ctx media_ctx : ptr)
    (range : rtsp_range) (stream_userdata : Z)
| CbInterleavedData (conn : Z) (info : rtsp_interleaved_info).

Record rtsp_server := Server {
  sv_software_name : cstr;
  sv_max_msg_size : Z;
  sv_reply_timeout_ms : Z;
  sv_session_timeout_ms : Z;
  sv_session_count : Z;
  sv_sessions : list rtsp_server_session;
  sv_pending_count : Z;
  sv_pending : list rtsp_server_pending_request;
  sv_cseq : Z;
  sv_request_buf : bytes;
  sv_parser_ctx : rtsp_message_parser_ctx;
  sv_now : Z;
  sv_next_ptr : ptr;
  sv_draws : nat;
  sv_idle : list ptr;
  sv_out : list output
}.

Definition set_sm_userdata (x : Z) (r : rtsp_server_session_media) : rtsp_server_session_media :=
  SessionMedia (sm_ptr r) (sm_session r) (sm_uri r) (sm_path r) x (sm_is_tearing_down r).
Definition set_sm_is_tearing_down (x : bool) (r : rtsp_server_session_media) : rtsp_server_session_media :=
  SessionMedia (sm_ptr r) (sm_session r) (sm_uri r) (sm_path r) (sm_userdata r) x.
Definition set_ss_timer (x : option Z) (r : rtsp_server_session) : rtsp_server_session :=
  Session (ss_ptr r) (ss_id r) (ss_uri r) (ss_timeout_ms r) x (ss_playing r) (ss_recording r)
    (ss_range r) (ss_scale r) (ss_op r) (ss_media_count r) (ss_medias r).
Definition set_ss_playing (x : Z) (r : rtsp_server_session) : rtsp_server_session :=
  Session (ss_ptr r) (ss_id r) (ss_uri r) (ss_timeout_ms r) (ss_timer r) x (ss_recording r)
    (ss_range r) (ss_scale r) (ss_op r) (ss_media_count r) (ss_medias r).
Definition set_ss_recording (x : Z) (r : rtsp_server_session) : rtsp_server_session :=
  Session (ss_ptr r) (ss_id r) (ss_uri r) (ss_timeout_ms r) (ss_timer r) (ss_playing r) x
    (ss_range r) (ss_scale r) (ss_op r) (ss_media_count r) (ss_medias r).
Definition set_ss_range (x : rtsp_range) (r : rtsp_server_session) : rtsp_server_session :=
  Session (ss_ptr r) (ss_id r) (ss_uri r) (ss_timeout_ms r) (ss_timer r) (ss_playing r)
    (ss_recording r) x (ss_scale r) (ss_op r) (ss_media_count r) (ss_medias r).
Definition set_ss_scale (x : spec_float) (r : rtsp_server_session) : rtsp_server_session :=
  Session (ss_ptr r) (ss_id r) (ss_uri r) (ss_timeout_ms r) (ss_timer r) (ss_playing r)
    (ss_recording r) (ss_range r) x (ss_op r) (ss_media_count r) (ss_medias r).
Definition set_ss_op (x : rtsp_method_type) (r : rtsp_server_session) : rtsp_server_session :=
  Session (ss_ptr r) (ss_id r) (ss_uri r) (ss_timeout_ms r) (ss_timer r) (ss_playing r)
    (ss_recording r) (ss_range r) (ss_scale r) x (ss_media_count r) (ss_medias r).
Definition set_ss_media_count (x : Z) (r : rtsp_server_session) : rtsp_server_session :=
  Session (ss_ptr r) (ss_id r) (ss_uri r) (ss_timeout_ms r) (ss_timer r) (ss_playing r)
    (ss_recording r) (ss_range r) (ss_scale r) (ss_op r) x (ss_medias r).
Definition set_ss_medias (x : list rtsp_server_session_media) (r : rtsp_server_session) : rtsp_server_session :=
  Session (ss_ptr r) (ss_id r) (ss_uri r) (ss_timeout_ms r) (ss_timer r) (ss_playing r)
    (ss_recording r) (ss_range r) (ss_scale r) (ss_op r) (ss_media_count r) x.
Definition set_pm_replied (x : Z) (r : rtsp_server_pending_request_media) : rtsp_server_pending_request_media :=
  PendingMedia (pm_ptr r) (pm_media r) x.
Definition set_pr_conn (x : option Z) (r : rtsp_server_pending_request) : rtsp_server_pending_request :=
  PendingRequest (pr_ptr r) x (pr_header r) (pr_response r) (pr_timeout r) (pr_first_reply r)
    (pr_in_callback r) (pr_replied r) (pr_body r) (pr_media_count r) (pr_medias r).
Definition set_pr_header (x : rtsp_request_header) (r : rtsp_server_pending_request) : rtsp_server_pending_request :=
  PendingRequest (pr_ptr r) (pr_conn r) x (pr_response r) (pr_timeout r) (pr_first_reply r)
    (pr_in_callback r) (pr_replied r) (pr_body r) (pr_media_count r) (pr_medias r).
Definition set_pr_response (x : rtsp_response_header) (r : rtsp_server_pending_request) : rtsp_server_pending_request :=
  PendingRequest (pr_ptr r) (pr_conn r) (pr_header r) x (pr_timeout r) (pr_first_reply r)
    (pr_in_callback r) (pr_replied r) (pr_body r) (pr_media_count r) (pr_medias r).
Definition set_pr_first_reply (x : Z) (r : rtsp_server_pending_request) : rtsp_server_pending_request :=
  PendingRequest (pr_ptr r) (pr_conn r) (pr_header r) (pr_response r) (pr_timeout r) x
    (pr_in_callback r) (pr_replied r) (pr_body r) (pr_media_count r) (pr_medias r).
Definition set_pr_in_callback (x : Z) (r : rtsp_server_pending_request) : rtsp_server_pending_request :=
  PendingRequest (pr_ptr r) (pr_conn r) (pr_header r) (pr_response r) (pr_timeout r)
    (pr_first_reply r) x (pr_replied r) (pr_body r) (pr_media_count r) (pr_medias r).
Definition set_pr_replied (x : Z) (r : rtsp_server_pending_request) : rtsp_server_pending_request :=
  PendingRequest (pr_ptr r) (pr_conn r) (pr_header r) (pr_response r) (pr_timeout r)
    (pr_first_reply r) (pr_in_callback r) x (pr_body r) (pr_media_count r) (pr_medias r).
Definition set_pr_body (x : option bytes) (r : rtsp_server_pending_request) : rtsp_server_pending_request :=
  PendingRequest (pr_ptr r) (pr_conn r) (pr_header r) (pr_response r) (pr_timeout r)
    (pr_first_reply r) (pr_in_callback r) (pr_replied r) x (pr_media_count r) (pr_medias r).
Definition set_pr_media_count (x : Z) (r : rtsp_server_pending_request) : rtsp_server_pending_request :=
  PendingRequest (pr_ptr r) (pr_conn r) (pr_header r) (pr_response r) (pr_timeout r)
    (pr_first_reply r) (pr_in_callback r) (pr_replied r) (pr_body r) x (pr_medias r).
Definition set_pr_medias (x : list rtsp_server_pending_request_media) (r : rtsp_server_pending_request) : rtsp_server_pending_request :=
  PendingRequest (pr_ptr r) (pr_conn r) (pr_header r) (pr_response r) (pr_timeout r)
    (pr_first_reply r) (pr_in_callback r) (pr_replied r) (pr_body r) (pr_media_count r) x.
Definition set_sv_session_count (x : Z) (r : rtsp_server) : rtsp_server :=
  Server (sv_software_name r) (sv_max_msg_size r) (sv_reply_timeout_ms r)
    (sv_session_timeout_ms r) x (sv_sessions r) (sv_pending_count r) (sv_pending r)
    (sv_cseq r) (sv_request_buf r) (sv_parser_ctx r) (sv_now r) (sv_next_ptr r) (sv_draws r)
    (sv_idle r) (sv_out r).
Definition set_sv_sessions (x : list rtsp_server_session) (r : rtsp_server) : rtsp_server :=
  Server (sv_software_name r) (sv_max_msg_size r) (sv_reply_timeout_ms r)
    (sv_session_timeout_ms r) (sv_session_count r) x (sv_pending_count r) (sv_pending r)
    (sv_cseq r) (sv_request_buf r) (sv_parser_ctx r) (sv_now r) (sv_next_ptr r) (sv_draws r)
    (sv_idle r) (sv_out r).
Definition set_sv_pending_count (x : Z) (r : rtsp_server) : rtsp_server :=
  Server (sv_software_name r) (sv_max_msg_size r) (sv_reply_timeout_ms r)
    (sv_session_timeout_ms r) (sv_session_count r) (sv_sessions r) x (sv_pending r)
    (sv_cseq r) (sv_request_buf r) (sv_parser_ctx r) (sv_now r) (sv_next_ptr r) (sv_draws r)
    (sv_idle r) (sv_out r).
Definition set_sv_pending (x : list rtsp_server_pending_request) (r : rtsp_server) : rtsp_server :=
  Server (sv_software_name r) (sv_max_msg_size r) (sv_reply_timeout_ms r)
    (sv_session_timeout_ms r) (sv_session_count r) (sv_sessions r) (sv_pending_count r) x
    (sv_cseq r) (sv_request_buf r) (sv_parser_ctx r) (sv_now r) (sv_next_ptr r) (sv_draws r)
    (sv_idle r) (sv_out r).
Definition set_sv_cseq (x : Z) (r : rtsp_server) : rtsp_server :=
  Server (sv_software_name r) (sv_max_msg_size r) (sv_reply_timeout_ms r)
    (sv_session_timeout_ms r) (sv_session_count r) (sv_sessions r) (sv_pending_count r)
    (sv_pending r) x (sv_request_buf r) (sv_parser_ctx r) (sv_now r) (sv_next_ptr r)
    (sv_draws r) (sv_idle r) (sv_out r).
Definition set_sv_request_buf (x : bytes) (r : rtsp_server) : rtsp_server :=
  Server (sv_software_name r) (sv_max_msg_size r) (sv_reply_timeout_ms r)
    (sv_session_timeout_ms r) (sv_session_count r) (sv_sessions r) (sv_pending_count r)
    (sv_pending r) (sv_cseq r) x (sv_parser_ctx r) (sv_now r) (sv_next_ptr r) (sv_draws r)
    (sv_idle r) (sv_out r).
Definition set_sv_parser_ctx (x : rtsp_message_parser_ctx) (r : rtsp_server) : rtsp_server :=
  Server (sv_software_name r) (sv_max_msg_size r) (sv_reply_timeout_ms r)
    (sv_session_timeout_ms r) (sv_session_count r) (sv_sessions r) (sv_pending_count r)
    (sv_pending r) (sv_cseq r) (sv_request_buf r) x (sv_now r) (sv_next_ptr r) (sv_draws r)
    (sv_idle r) (sv_out r).
Definition set_sv_now (x : Z) (r : rtsp_server) : rtsp_server :=
  Server (sv_software_name r) (sv_max_msg_size r) (sv_reply_timeout_ms r)
    (sv_session_timeout_ms r) (sv_session_count r) (sv_sessions r) (sv_pending_count r)
    (sv_pending r) (sv_cseq r) (sv_request_buf r) (sv_parser_ctx r) x (sv_next_ptr r)
    (sv_draws r) (sv_idle r) (sv_out r).
Definition set_sv_next_ptr (x : ptr) (r : rtsp_server) : rtsp_server :=
  Server (sv_software_name r) (sv_max_msg_size r) (sv_reply_timeout_ms r)
    (sv_session_timeout_ms r) (sv_session_count r) (sv_sessions r) (sv_pending_count r)
    (sv_pending r) (sv_cseq r) (sv_request_buf r) (sv_parser_ctx r) (sv_now r) x (sv_draws r)
    (sv_idle r) (sv_out r).
Definition set_sv_draws (x : nat) (r : rtsp_server) : rtsp_server :=
  Server (sv_software_name r) (sv_max_msg_size r) (sv_reply_timeout_ms r)
    (sv_session_timeout_ms r) (sv_session_count r) (sv_sessions r) (sv_pending_count r)
    (sv_pending r) (sv_cseq r) (sv_request_buf r) (sv_parser_ctx r) (sv_now r) (sv_next_ptr r)
    x (sv_idle r) (sv_out r).
Definition set_sv_idle (x : list ptr) (r : rtsp_server) : rtsp_server :=
  Server (sv_software_name r) (sv_max_msg_size r) (sv_reply_timeout_ms r)
    (sv_session_timeout_ms r) (sv_session_count r) (sv_sessions r) (sv_pending_count r)
    (sv_pending r) (sv_cseq r) (sv_request_buf r) (sv_parser_ctx r) (sv_now r) (sv_next_ptr r)
    (sv_draws r) x (sv_out r).
Definition set_sv_out (x : list output) (r : rtsp_server) : rtsp_server :=
  Server (sv_software_name r) (sv_max_msg_size r) (sv_reply_timeout_ms r)
    (sv_session_timeout_ms r) (sv_session_count r) (sv_sessions r) (sv_pending_count r)
    (sv_pending r) (sv_cseq r) (sv_request_buf r) (sv_parser_ctx r) (sv_now r) (sv_next_ptr r)
    (sv_draws r) (sv_idle r) x.

(** ** Around the server *)

(** The calls that the application makes from a callback, with their
    arguments; [NULL] is [None]. *)
Inductive api_call :=
| ReplyToDescribe (request_ctx : option ptr) (status : Z) (ext : option (list rtsp_header_ext))
    (ext_count : Z) (session_description : option cstr)
| ReplyToSetup (request_ctx media_ctx : option ptr) (status src_stream_port src_control_port : Z)
    (ssrc_valid : bool) (ssrc : Z) (ext : option (list rtsp_header_ext)) (ext_count : Z)
    (stream_userdata : Z)
| ReplyToPlay (request_ctx media_ctx : option ptr) (status : Z) (range : option rtsp_range)
    (scale : spec_float) (seq_valid : bool) (seq : Z) (rtptime_valid : bool) (rtptime : Z)
    (ext : option (list rtsp_header_ext)) (ext_count : Z)
| ReplyToPause (request_ctx media_ctx : option ptr) (status : Z) (range : option rtsp_range)
    (ext : option (list rtsp_header_ext)) (ext_count : Z)
| ReplyToTeardown (request_ctx media_ctx : option ptr) (status : Z)
    (ext : option (list rtsp_header_ext)) (ext_count : Z)
| ReplyToAnnounce (request_ctx : option ptr) (status : Z) (ext : option (list rtsp_header_ext))
    (ext_count : Z)
| ReplyToRecord (request_ctx media_ctx : option ptr) (status : Z) (range : option rtsp_range)
    (ext : option (list rtsp_header_ext)) (ext_count : Z)
| Announce (uri : option cstr) (ext : option (list rtsp_header_ext)) (ext_count : Z)
    (session_description : option cstr)
| SendInterleaved (channel : Z) (data : option bytes).

(** The code outside the repository: the random numbers ([futils_random64]),
    the event loop and the connections of libpomp, and the application, which
    decides from everything that happened what it calls back. *)
Class Env := {
  env_random64 : nat → res Z;
  env_id_draws : nat;
  env_timer_set : option Z → Z → Z;
  env_send_conn : list output → Z → bytes → Z;
  env_send_all : list output → bytes → Z;
  env_peer_addr : Z → option cstr;
  env_app : list output → list api_call;
  env_has_announce : bool;
  env_has_record : bool;
  env_has_interleaved_data : bool
}.

(** Operations on a server. *)
Abbreviation SM := (ST rtsp_server).

(** ** Accesses *)

Definition session_at (p : ptr) : SM rtsp_server_session :=
  sessions ← gets sv_sessions; deref (find_obj ss_ptr p sessions).

Definition request_at (p : ptr) : SM rtsp_server_pending_request :=
  pending ← gets sv_pending; deref (find_obj pr_ptr p pending).

(** A media by its address alone. *)
Definition find_media (p : ptr) (l : list rtsp_server_session) : option rtsp_server_session_media :=
  find_obj sm_ptr p (concat (ss_medias <$> l)).
Definition media_at (p : ptr) : SM rtsp_server_session_media :=
  sessions ← gets sv_sessions; deref (find_media p sessions).

Definition upd_session (p : ptr) (f : rtsp_server_session → rtsp_server_session) : SM unit :=
  session_at p;; modify (fun s => set_sv_sessions (update_obj ss_ptr p f (sv_sessions s)) s).

Definition upd_request (p : ptr)
    (f : rtsp_server_pending_request → rtsp_server_pending_request) : SM unit :=
  request_at p;; modify (fun s => set_sv_pending (update_obj pr_ptr p f (sv_pending s)) s).

Definition upd_media (p : ptr)
    (f : rtsp_server_session_media → rtsp_server_session_media) : SM unit :=
  media_at p;;
  modify (fun s => set_sv_sessions
    (map (fun ss => set_ss_medias (update_obj sm_ptr p f (ss_medias ss)) ss) (sv_sessions s)) s).

Definition upd_response (p : ptr) (f : rtsp_response_header → rtsp_response_header) : SM unit :=
  upd_request p (fun r => set_pr_response (f (pr_response r)) r).

(** [calloc] *)
Definition alloc : SM ptr :=
  p ← gets sv_next_ptr; modify (set_sv_next_ptr (S p));; mret p.

Definition output_event (o : output) : SM unit := modify (fun s => set_sv_out (sv_out s ++ [o]) s).

(** [time_get_monotonic], in microseconds. *)
Definition time_get_monotonic : SM Z := gets sv_now.
