(* ===== verification/ServerSession.v ===== *)
(** * The sessions of a server ([rtsp_server_session.c]) *)

From S2P Require Import Prelude CString CNumber Writer Methods Transport TimeRange Request Response.
From S2P Require Import HeaderFields HeaderLine CFloat Message ObjList StateMonad ServerState.
From stdpp Require Import options.

Local Open Scope Z_scope.

Definition RTSP_SERVER_SESSION_ID_LENGTH : nat := 8.

Section session.
Context `{E : Env}.

(** ** Timer *)

(** The delay, in [unsigned int] arithmetic. *)
Definition session_delay (timeout_ms : Z) : Z := u32 (u32 (12 * timeout_ms) + 9) / 10.

(** The timer of [s] is set; a failed call leaves it as it was. *)
Definition set_session_timer (s : rtsp_server_session) : Z * rtsp_server_session :=
  let delay := session_delay (ss_timeout_ms s) in
  let ret := env_timer_set (ss_timer s) delay in
  (ret, match ss_timer s with
        | Some _ => if ret <? 0 then s else set_ss_timer (Some delay) s
        | None => s
        end).

Definition rtsp_server_session_reset_timeout (session : ptr) : SM Z :=
  s ← session_at session;
  upd_session session (fun s => snd (set_session_timer s));;
  mret (fst (set_session_timer s)).

(** ** Sessions *)

Definition same_id (id1 id2 : cstr) : bool := strneq RTSP_SERVER_SESSION_ID_LENGTH id1 id2.

(** ["%016" PRIx64] *)
Definition session_id_text (id64 : Z) : cstr := zero_pad 16 (to_base false 16 id64).

(** The [do ... while (found)] loop: numbers are drawn until one gives a new
    id.  At most [fuel] of them are drawn. *)
Fixpoint new_session_id (fuel : nat) : SM (res cstr) :=
  match fuel with
  | O => undefined
  | S fuel =>
      n ← gets sv_draws;
      modify (set_sv_draws (S n));;
      match env_random64 n with
      | Ok id64 =>
          let session_id := session_id_text id64 in
          sessions ← gets sv_sessions;
          if existsb (fun s => same_id (ss_id s) session_id) sessions
          then new_session_id fuel
          else mret (Ok session_id)
      | Err e => mret (Err e)
      | Undef => undefined
      end
  end.

(** The new session, [None] for a NULL. *)
Definition rtsp_server_session_add (timeout_ms : Z) (uri : option cstr) : SM (option ptr) :=
  session ← alloc;
  let timer := if 0 <? timeout_ms then Some 0 else None in
  let s := Session session [] None timeout_ms timer 0 0 range_zero (S754_zero false)
             RTSP_METHOD_TYPE_UNKNOWN 0 [] in
  let '(ret, s) := if 0 <? timeout_ms then set_session_timer s else (0, s) in
  if ret <? 0 then mret None
  else
    id ← new_session_id env_id_draws;
    match id with
    | Ok session_id =>
        modify (fun sv =>
          let s := Session session session_id uri timeout_ms (ss_timer s) 0 0 range_zero
                     (S754_zero false) RTSP_METHOD_TYPE_UNKNOWN 0 [] in
          set_sv_session_count (u32 (sv_session_count sv + 1))
            (set_sv_sessions (sv_sessions sv ++ [s]) sv));;
        mret (Some session)
    | _ => mret None
    end.

Definition rtsp_server_session_find (session_id : option cstr) : SM (option ptr) :=
  match session_id with
  | None => mret None
  | Some session_id =>
      sessions ← gets sv_sessions;
      mret (ss_ptr <$> List.find (fun s => same_id (ss_id s) session_id) sessions)
  end.

(** ** Medias *)

Definition rtsp_server_session_media_find (session : ptr) (path : option cstr)
    : SM (option ptr) :=
  match path with
  | None => mret None
  | Some path =>
      s ← session_at session;
      mret (sm_ptr <$> List.find (fun m => streq (sm_path m) path) (ss_medias s))
  end.

Definition rtsp_server_session_media_add (session : ptr) (uri : option cstr)
    (path : option cstr) : SM (option ptr) :=
  match path with
  | None => mret None
  | Some p =>
      found ← rtsp_server_session_media_find session path;
      match found with
      | Some _ => mret None
      | None =>
          media ← alloc;
          upd_session session (fun s =>
            set_ss_media_count (u32 (ss_media_count s + 1))
              (set_ss_medias (ss_medias s ++ [SessionMedia media session uri p 0 false]) s));;
          mret (Some media)
      end
  end.

Definition rtsp_server_session_media_remove (session media : ptr) : SM Z :=
  s ← session_at session;
  if bool_decide (media ∈ sm_ptr <$> ss_medias s) then
    upd_session session (fun s =>
      set_ss_media_count (u32 (ss_media_count s - 1))
        (set_ss_medias (delete_obj sm_ptr media (ss_medias s)) s));;
    mret 0
  else mret (- ENOENT).

(** The idle callbacks of the session are removed with it. *)
Definition rtsp_server_session_remove (session : ptr) : SM Z :=
  sessions ← gets sv_sessions;
  match find_obj ss_ptr session sessions with
  | None => mret (- ENOENT)
  | Some s =>
      for_each (fun media => ignore (rtsp_server_session_media_remove session media))
        (sm_ptr <$> ss_medias s);;
      modify (fun sv =>
        set_sv_session_count (u32 (sv_session_count sv - 1))
          (set_sv_sessions (delete_obj ss_ptr session (sv_sessions sv)) sv));;
      modify (fun sv => set_sv_idle (filter (fun p => p ≠ session) (sv_idle sv)) sv);;
      mret 0
  end.
End session.
