(* ===== verification/ServerRequest.v ===== *)
(** * The pending requests of a server ([rtsp_server_request.c]) *)

From S2P Require Import Prelude CString Methods Transport TimeRange Request Response.
From S2P Require Import HeaderFields Message ObjList StateMonad ServerState.
From stdpp Require Import options.

Local Open Scope Z_scope.

(** The deadline of a request that arrives at [now], in microseconds; 0 is none. *)
Definition request_deadline (now timeout : Z) : Z :=
  if 0 <? timeout then u64 (now + timeout * 1000) else 0.

Definition rtsp_server_pending_request_add (conn : Z) (timeout : Z) : SM ptr :=
  request ← alloc;
  now ← time_get_monotonic;
  modify (fun sv =>
    let r := PendingRequest request (Some conn) rtsp_request_header_clear
               rtsp_response_header_clear (request_deadline now timeout) 1 0 0 None 0 [] in
    set_sv_pending_count (u32 (sv_pending_count sv + 1))
      (set_sv_pending (sv_pending sv ++ [r]) sv));;
  mret request.

Definition rtsp_server_pending_request_find (request : ptr) : SM Z :=
  pending ← gets sv_pending;
  mret (if bool_decide (request ∈ pr_ptr <$> pending) then 0 else - ENOENT).

Definition rtsp_server_pending_request_media_add (request media : ptr) : SM ptr :=
  m ← alloc;
  upd_request request (fun r =>
    set_pr_media_count (u32 (pr_media_count r + 1))
      (set_pr_medias (pr_medias r ++ [PendingMedia m media 0]) r));;
  mret m.

Definition rtsp_server_pending_request_media_remove (request media : ptr) : SM Z :=
  r ← request_at request;
  if bool_decide (media ∈ pm_ptr <$> pr_medias r) then
    upd_request request (fun r =>
      set_pr_media_count (u32 (pr_media_count r - 1))
        (set_pr_medias (delete_obj pm_ptr media (pr_medias r)) r));;
    mret 0
  else mret (- ENOENT).

(** The object is unlinked before its medias are freed; nothing runs in between
    and nobody sees the difference. *)
Definition rtsp_server_pending_request_remove (request : ptr) : SM Z :=
  pending ← gets sv_pending;
  match find_obj pr_ptr request pending with
  | None => mret (- ENOENT)
  | Some r =>
      for_each (fun media => ignore (rtsp_server_pending_request_media_remove request media))
        (pm_ptr <$> pr_medias r);;
      modify (fun sv =>
        set_sv_pending_count (u32 (sv_pending_count sv - 1))
          (set_sv_pending (delete_obj pr_ptr request (sv_pending sv)) sv));;
      mret 0
  end.
