(* ===== verification/ServerReply.v ===== *)
(** * What the server sends, and the replies of the application
    ([error_response], [rtsp_server_reply_to_*], [rtsp_server_announce],
    [rtsp_server_send_*] of [rtsp_server.c])

    In the replies to requests on medias, [media_ctx] is dereferenced before
    anything is looked up: a pointer to a media that was removed with its session
    leaves the call without result. *)

From S2P Require Import Prelude CString CNumber Writer Methods Transport RtpInfo CFloat TimeRange.
From S2P Require Import Framing HeaderLine HeaderFields Request Response Message ObjList StateMonad.
From S2P Require Import ServerState ServerSession ServerRequest.
From stdpp Require Import options.

Local Open Scope Z_scope.

Definition RTSP_SESSION_DESCRIPTION_MAX_LEN : Z := UINT16_MAX.
Definition RTSP_CONTENT_TYPE_SDP : cstr := cs "application/sdp".
Definition RTSP_STATUS_CLASS_SUCCESS : Z := 2.
Definition RTSP_STATUS_CODE_INTERNAL_SERVER_ERROR : Z := 500.
Definition RTSP_STATUS_CODE_SESSION_NOT_FOUND : Z := 454.

(** [RTSP_STATUS_CLASS(status)], a division of [int]s *)
Definition status_class (status : Z) : Z := Z.quot status 100.
Definition is_error_status (status : Z) : bool :=
  (status <? 0) || (RTSP_STATUS_CLASS_SUCCESS <? status_class status).

Section reply.
Context `{T : LocalTime} `{E : Env}.

(** ** Sending *)

(** [w] in a string of [max_msg_size] bytes: the returned value and the text. *)
Definition write_message (w : writer unit) : SM (Z * bytes) :=
  max_len ← gets sv_max_msg_size;
  match w (RtspString [] max_len) with
  | (Ok _, r) => mret (0, rs_str r)
  | (Err e, r) => mret (- e, rs_str r)
  | (Undef, _) => undefined
  end.

(** [pomp_conn_send_raw_buf] of a text that is not empty. *)
Definition send_conn (conn : Z) (text : bytes) : SM Z :=
  if 0 <? Zlen text then
    out ← gets sv_out;
    let ret := env_send_conn out conn text in
    output_event (SendConn conn text ret);;
    mret ret
  else mret 0.

(** [pomp_ctx_send_raw_buf] of a text that is not empty. *)
Definition send_all (text : bytes) : SM Z :=
  if 0 <? Zlen text then
    out ← gets sv_out;
    let ret := env_send_all out text in
    output_event (SendAll text ret);;
    mret ret
  else mret 0.

(** The members that every response has. *)
Definition status_fields (code : Z) (string : cstr) (cseq : Z) (server : cstr) (now : Z)
    (h : rtsp_response_header) : rtsp_response_header :=
  set_rp_date (now / 1000000) (set_rp_server (Some server) (set_rp_cseq cseq
    (set_rp_status_string (Some string) (set_rp_status_code code h)))).

Definition fill_response (request : ptr) (code : Z) (string : cstr) : SM unit :=
  r ← request_at request;
  server ← gets sv_software_name;
  now ← time_get_monotonic;
  upd_response request (status_fields code string (rq_cseq (pr_header r)) server now).

Definition error_response (request : ptr) (status : Z) : SM Z :=
  if status =? 0 then mret (- EINVAL)
  else
    r ← request_at request;
    match pr_conn r with
    | None => mret (- ECONNRESET)
    | Some conn =>
        let '(status_code, status_string) := rtsp_status_get status in
        if status_code =? 0 then mret (- EINVAL)
        else
          fill_response request status_code status_string;;
          r ← request_at request;
          '(ret, text) ← write_message (rtsp_response_header_write (pr_response r));
          if ret <? 0 then mret ret else send_conn conn text
    end.

(** ** Steps common to the replies

    The body of a reply computes what its [out] label uses: the returned value
    and the status of the error to reply with, 0 for none. *)

(** [rtsp_response_header_copy_ext] to the response; its returned value. *)
Definition copy_response_ext (request : ptr) (ext : option (list rtsp_header_ext))
    (ext_count : Z) : SM Z :=
  r ← request_at request;
  match rtsp_response_header_copy_ext (pr_response r) ext ext_count with
  | Ok h => upd_response request (fun _ => h);; mret 0
  | Err e => mret (- e)
  | Undef => undefined
  end.

(** From the copy of the extensions to the sending of the response, with
    [body] after the header. *)
Definition finish_response (request : ptr) (conn : Z) (ext : option (list rtsp_header_ext))
    (ext_count : Z) (body : writer unit) : SM (Z * Z) :=
  ret ← copy_response_ext request ext ext_count;
  if ret <? 0 then mret (ret, RTSP_STATUS_CODE_INTERNAL_SERVER_ERROR)
  else
    r ← request_at request;
    '(ret, text) ← write_message (rtsp_response_header_write (pr_response r);; body);
    if ret <? 0 then mret (ret, RTSP_STATUS_CODE_INTERNAL_SERVER_ERROR)
    else
      ret ← send_conn conn text;
      mret (ret, 0).

Definition reply_error (request : ptr) (error_status : Z) : SM unit :=
  when (negb (error_status =? 0)) (ignore (error_response request error_status)).

(** The end of a reply: when the request is in the callback of its handler,
    the handler does the rest. *)
Definition request_replied (request : ptr) (rest : SM unit) : SM unit :=
  upd_request request (set_pr_replied 1);;
  r ← request_at request;
  when (pr_in_callback r =? 0) rest.

Definition op_done (session : ptr) : SM unit :=
  upd_session session (set_ss_op RTSP_METHOD_TYPE_UNKNOWN).

(** ** DESCRIBE *)

Definition describe_body (request : ptr) (status : Z) (ext : option (list rtsp_header_ext))
    (ext_count : Z) (session_description : option cstr) : SM (Z * Z) :=
  r ← request_at request;
  match pr_conn r with
  | None => mret (- ECONNRESET, 0)
  | Some conn =>
      if is_error_status status then mret (0, status)
      else
        match session_description with
        | None | Some [] => mret (- EINVAL, RTSP_STATUS_CODE_INTERNAL_SERVER_ERROR)
        | Some sd =>
            let len := strnlen sd RTSP_SESSION_DESCRIPTION_MAX_LEN in
            if RTSP_SESSION_DESCRIPTION_MAX_LEN <=? len
            then mret (- EINVAL, RTSP_STATUS_CODE_INTERNAL_SERVER_ERROR)
            else
              let '(status_code, status_string) := rtsp_status_get status in
              if status_code =? 0
              then mret (- EPROTO, RTSP_STATUS_CODE_INTERNAL_SERVER_ERROR)
              else
                fill_response request status_code status_string;;
                upd_response request (fun h =>
                  set_rp_content_base (rq_uri (pr_header r))
                    (set_rp_content_type (Some RTSP_CONTENT_TYPE_SDP)
                      (set_rp_content_length len h)));;
                finish_response request conn ext ext_count (rtsp_sprintf sd)
        end
  end.

Definition rtsp_server_reply_to_describe (request_ctx : option ptr) (status : Z)
    (ext : option (list rtsp_header_ext)) (ext_count : Z) (session_description : option cstr)
    : SM Z :=
  match request_ctx with
  | None => mret (- EINVAL)
  | Some request =>
      ret ← rtsp_server_pending_request_find request;
      if ret <? 0 then mret ret
      else
        '(ret, error_status) ← describe_body request status ext ext_count session_description;
        reply_error request error_status;;
        request_replied request (ignore (rtsp_server_pending_request_remove request));;
        mret ret
  end.

(** ** ANNOUNCE *)

Definition announce_body (request : ptr) (status : Z) (ext : option (list rtsp_header_ext))
    (ext_count : Z) : SM (Z * Z) :=
  r ← request_at request;
  match pr_conn r with
  | None => mret (- ECONNRESET, 0)
  | Some conn =>
      if is_error_status status then mret (0, status)
      else
        let '(status_code, status_string) := rtsp_status_get status in
        if status_code =? 0 then mret (- EPROTO, RTSP_STATUS_CODE_INTERNAL_SERVER_ERROR)
        else
          fill_response request status_code status_string;;
          finish_response request conn ext ext_count wskip
  end.

Definition rtsp_server_reply_to_announce (request_ctx : option ptr) (status : Z)
    (ext : option (list rtsp_header_ext)) (ext_count : Z) : SM Z :=
  match request_ctx with
  | None => mret (- EINVAL)
  | Some request =>
      ret ← rtsp_server_pending_request_find request;
      if ret <? 0 then mret ret
      else
        '(ret, error_status) ← announce_body request status ext ext_count;
        reply_error request error_status;;
        request_replied request (ignore (rtsp_server_pending_request_remove request));;
        mret ret
  end.

(** ** SETUP *)

(** The transport of the response to a request for [t]. *)
Definition setup_transport (t : rtsp_transport_header) (src_stream_port src_control_port : Z)
    (ssrc_valid : bool) (ssrc : Z) : rtsp_transport_header :=
  Transport (Some (cs "RTP")) (Some (cs "AVP")) (tr_lower_transport t)
    (if bool_decide (tr_lower_transport t = RTSP_LOWER_TRANSPORT_TCP)
     then tr_interleaved t else [])
    (tr_delivery t) None None 0 (tr_method t) false 0 src_stream_port src_control_port
    (tr_dst_stream_port t) (tr_dst_control_port t) ssrc_valid ssrc.

(** The two members of the response that name the session. *)
Definition session_fields (s : rtsp_server_session) (h : rtsp_response_header)
    : rtsp_response_header :=
  set_rp_session_timeout (ss_timeout_ms s / 1000) (set_rp_session_id (Some (ss_id s)) h).

(** The returned value, the error status and [failed]. *)
Definition setup_body (request session : ptr) (status src_stream_port src_control_port : Z)
    (ssrc_valid : bool) (ssrc : Z) (ext : option (list rtsp_header_ext)) (ext_count : Z)
    : SM (Z * Z * bool) :=
  r ← request_at request;
  match pr_conn r with
  | None => mret (- ECONNRESET, 0, true)
  | Some conn =>
      if is_error_status status then mret (0, status, true)
      else if (src_stream_port =? 0) || (src_control_port =? 0)
      then mret (- EINVAL, RTSP_STATUS_CODE_INTERNAL_SERVER_ERROR, true)
      else
        let '(status_code, status_string) := rtsp_status_get status in
        if status_code =? 0
        then mret (- EPROTO, RTSP_STATUS_CODE_INTERNAL_SERVER_ERROR, true)
        else
          fill_response request status_code status_string;;
          s ← session_at session;
          t ← deref (mjoin (head (rq_transport (pr_header r))));
          upd_response request (fun h =>
            set_rp_transport
              (Some (setup_transport t src_stream_port src_control_port ssrc_valid ssrc))
              (session_fields s h));;
          '(ret, error_status) ← finish_response request conn ext ext_count wskip;
          mret (ret, error_status, ret <? 0)
  end.

(** A session whose only media could not be set up is removed when the loop is
    idle. *)
Definition rtsp_server_reply_to_setup (request_ctx media_ctx : option ptr)
    (status src_stream_port src_control_port : Z) (ssrc_valid : bool) (ssrc : Z)
    (ext : option (list rtsp_header_ext)) (ext_count : Z) (stream_userdata : Z) : SM Z :=
  match request_ctx, media_ctx with
  | Some request, Some media_ctx =>
      media ← media_at media_ctx;
      let session := sm_session media in
      ret ← rtsp_server_pending_request_find request;
      if ret <? 0 then mret ret
      else
        upd_media media_ctx (set_sm_userdata stream_userdata);;
        '(ret, error_status, failed) ←
          setup_body request session status src_stream_port src_control_port ssrc_valid ssrc
            ext ext_count;
        reply_error request error_status;;
        s ← session_at session;
        when (failed && (ss_media_count s =? 1))
          (modify (fun sv => set_sv_idle (sv_idle sv ++ [session]) sv));;
        request_replied request
          (op_done session;; ignore (rtsp_server_pending_request_remove request));;
        mret ret
  | _, _ => mret (- EINVAL)
  end.

(** ** PLAY, PAUSE, TEARDOWN and RECORD

    The body of a reply computes the returned value, the status of the error to
    reply with, and [replied]: the request is answered when it is the number of
    its medias. *)

(** [replied = request->media_count], an [unsigned int] to an [int] *)
Definition all_replied (request : ptr) (ret error_status : Z) : SM (Z * Z * Z) :=
  r ← request_at request;
  mret (ret, error_status, s32 (pr_media_count r)).

(** The checks that the four replies start with; [range] is false for a NULL
    range. *)
Definition media_reply_checks (request media : ptr) (status : Z) (range : bool)
    (reply : Z → SM (Z * Z * Z)) : SM (Z * Z * Z) :=
  r ← request_at request;
  match pr_conn r with
  | None => all_replied request (- ECONNRESET) 0
  | Some conn =>
      if is_error_status status then all_replied request 0 status
      else if negb range
      then all_replied request (- EINVAL) RTSP_STATUS_CODE_INTERNAL_SERVER_ERROR
      else if negb (bool_decide (media ∈ pm_media <$> pr_medias r))
      then all_replied request (- ENOENT) RTSP_STATUS_CODE_INTERNAL_SERVER_ERROR
      else reply conn
  end.

Definition sum_replied (r : rtsp_server_pending_request) : Z :=
  fold_left (fun n m => n + pm_replied m) (pr_medias r) 0.

(** The media has its reply; [last] runs when it was the last one, after the
    session was updated with [upd]. *)
Definition media_replied (request media session : ptr)
    (upd : rtsp_server_session → rtsp_server_session) (last : SM (Z * Z)) : SM (Z * Z * Z) :=
  upd_request request (fun r =>
    set_pr_medias (update_obj pm_media media (set_pm_replied 1) (pr_medias r)) r);;
  r ← request_at request;
  let replied := sum_replied r in
  if replied =? s32 (pr_media_count r) then
    upd_session session upd;;
    '(ret, error_status) ← last;
    mret (ret, error_status, replied)
  else mret (0, 0, replied).

(** The response of the last reply; [fields] are those of the request's kind. *)
Definition last_response (request : ptr) (conn status : Z)
    (fields : rtsp_response_header → rtsp_response_header)
    (ext : option (list rtsp_header_ext)) (ext_count : Z) : SM (Z * Z) :=
  let '(status_code, status_string) := rtsp_status_get status in
  if status_code =? 0 then mret (- EPROTO, RTSP_STATUS_CODE_INTERNAL_SERVER_ERROR)
  else
    fill_response request status_code status_string;;
    upd_response request fields;;
    finish_response request conn ext ext_count wskip.

(** The first reply sets the range of the session, [upd]. *)
Definition first_reply (request session : ptr)
    (upd : rtsp_server_session → rtsp_server_session) : SM unit :=
  r ← request_at request;
  when (negb (pr_first_reply r =? 0))
    (upd_session session upd;; upd_request request (set_pr_first_reply 0)).

(** The end of the four replies; [rest] is what follows the removal. *)
Definition media_reply_end (request session : ptr) (replied : Z) (rest : SM unit) : SM unit :=
  r ← request_at request;
  when (replied =? s32 (pr_media_count r))
    (request_replied request
       (op_done session;; ignore (rtsp_server_pending_request_remove request);; rest)).

Definition play_body (request media_ctx session : ptr) (status : Z) (range : option rtsp_range)
    (scale : spec_float) (seq_valid : bool) (seq : Z) (rtptime_valid : bool) (rtptime : Z)
    (ext : option (list rtsp_header_ext)) (ext_count : Z) : SM (Z * Z * Z) :=
  media_reply_checks request media_ctx status (bool_decide (is_Some range)) (fun conn =>
    first_reply request session (fun s =>
      set_ss_scale scale (set_ss_range (default range_zero range) s));;
    s ← session_at session;
    if negb (rtsp_range_cmp range (Some (ss_range s)))
    then all_replied request (- EPROTO) RTSP_STATUS_CODE_INTERNAL_SERVER_ERROR
    else if negb (SFeqb scale (ss_scale s))
    then all_replied request (- EPROTO) RTSP_STATUS_CODE_INTERNAL_SERVER_ERROR
    else
      media ← media_at media_ctx;
      r ← request_at request;
      when ((seq_valid || rtptime_valid)
            && (Zlen (rp_rtp_info (pr_response r)) <? RTSP_RTP_INFO_MAX_COUNT))
        (upd_response request (fun h =>
           set_rp_rtp_info
             (rp_rtp_info h ++
              [Some (RtpInfo (Some (sm_path media)) seq_valid seq rtptime_valid rtptime)]) h));;
      media_replied request media_ctx session (set_ss_playing 1)
        (last_response request conn status
           (fun h => set_rp_scale (ss_scale s) (set_rp_range (ss_range s) (session_fields s h)))
           ext ext_count)).

Definition rtsp_server_reply_to_play (request_ctx media_ctx : option ptr) (status : Z)
    (range : option rtsp_range) (scale : spec_float) (seq_valid : bool) (seq : Z)
    (rtptime_valid : bool) (rtptime : Z) (ext : option (list rtsp_header_ext)) (ext_count : Z)
    : SM Z :=
  match request_ctx, media_ctx with
  | Some request, Some media_ctx =>
      media ← media_at media_ctx;
      let session := sm_session media in
      ret ← rtsp_server_pending_request_find request;
      if ret <? 0 then mret ret
      else
        '(ret, error_status, replied) ←
          play_body request media_ctx session status range scale seq_valid seq rtptime_valid
            rtptime ext ext_count;
        reply_error request error_status;;
        media_reply_end request session replied skip;;
        mret ret
  | _, _ => mret (- EINVAL)
  end.

Definition pause_body (request media_ctx session : ptr) (status : Z) (range : option rtsp_range)
    (ext : option (list rtsp_header_ext)) (ext_count : Z) : SM (Z * Z * Z) :=
  media_reply_checks request media_ctx status (bool_decide (is_Some range)) (fun conn =>
    first_reply request session (set_ss_range (default range_zero range));;
    s ← session_at session;
    if negb (rtsp_range_cmp range (Some (ss_range s)))
    then all_replied request (- EPROTO) RTSP_STATUS_CODE_INTERNAL_SERVER_ERROR
    else
      media_replied request media_ctx session
        (fun s => set_ss_recording 0 (set_ss_playing 0 s))
        (last_response request conn status
           (fun h => set_rp_range (ss_range s) (session_fields s h)) ext ext_count)).

Definition rtsp_server_reply_to_pause (request_ctx media_ctx : option ptr) (status : Z)
    (range : option rtsp_range) (ext : option (list rtsp_header_ext)) (ext_count : Z) : SM Z :=
  match request_ctx, media_ctx with
  | Some request, Some media_ctx =>
      media ← media_at media_ctx;
      let session := sm_session media in
      ret ← rtsp_server_pending_request_find request;
      if ret <? 0 then mret ret
      else
        '(ret, error_status, replied) ←
          pause_body request media_ctx session status range ext ext_count;
        reply_error request error_status;;
        media_reply_end request session replied skip;;
        mret ret
  | _, _ => mret (- EINVAL)
  end.

(** The medias that are torn down leave the session, which is removed with the
    last one. *)
Definition remove_torn_down (session : ptr) : SM unit :=
  s ← session_at session;
  for_each (fun media =>
    when (sm_is_tearing_down media)
      (ignore (rtsp_server_session_media_remove session (sm_ptr media)))) (ss_medias s);;
  when (forallb sm_is_tearing_down (ss_medias s)) (ignore (rtsp_server_session_remove session)).

(** The response carries the session id of the request, a [strdup] of it. *)
Definition teardown_body (request media_ctx session : ptr) (status : Z)
    (ext : option (list rtsp_header_ext)) (ext_count : Z) : SM (Z * Z * Z) :=
  media_reply_checks request media_ctx status true (fun conn =>
    media_replied request media_ctx session (fun s => s)
      (r ← request_at request;
       s ← session_at session;
       id ← deref (rq_session_id (pr_header r));
       last_response request conn status
         (fun h => set_rp_session_timeout (ss_timeout_ms s / 1000)
                     (set_rp_session_id (Some id) h)) ext ext_count)).

Definition rtsp_server_reply_to_teardown (request_ctx media_ctx : option ptr) (status : Z)
    (ext : option (list rtsp_header_ext)) (ext_count : Z) : SM Z :=
  match request_ctx, media_ctx with
  | Some request, Some media_ctx =>
      media ← media_at media_ctx;
      let session := sm_session media in
      ret ← rtsp_server_pending_request_find request;
      if ret <? 0 then mret ret
      else
        '(ret, error_status, replied) ←
          teardown_body request media_ctx session status ext ext_count;
        reply_error request error_status;;
        media_reply_end request session replied (remove_torn_down session);;
        mret ret
  | _, _ => mret (- EINVAL)
  end.

Definition record_body (request media_ctx session : ptr) (status : Z)
    (range : option rtsp_range) (ext : option (list rtsp_header_ext)) (ext_count : Z)
    : SM (Z * Z * Z) :=
  media_reply_checks request media_ctx status (bool_decide (is_Some range)) (fun conn =>
    first_reply request session (set_ss_range (default range_zero range));;
    s ← session_at session;
    if negb (rtsp_range_cmp range (Some (ss_range s)))
    then all_replied request (- EPROTO) RTSP_STATUS_CODE_INTERNAL_SERVER_ERROR
    else
      media_replied request media_ctx session (set_ss_recording 1)
        (last_response request conn status
           (fun h => set_rp_range (ss_range s) (session_fields s h)) ext ext_count)).

(** For a request that is not pending, [request] is NULL where its
    [media_count] is read. *)
Definition rtsp_server_reply_to_record (request_ctx media_ctx : option ptr) (status : Z)
    (range : option rtsp_range) (ext : option (list rtsp_header_ext)) (ext_count : Z) : SM Z :=
  match request_ctx, media_ctx with
  | Some request, Some media_ctx =>
      media ← media_at media_ctx;
      let session := sm_session media in
      ret ← rtsp_server_pending_request_find request;
      if ret <? 0 then undefined
      else
        '(ret, error_status, replied) ←
          record_body request media_ctx session status range ext ext_count;
        reply_error request error_status;;
        media_reply_end request session replied skip;;
        mret ret
  | _, _ => mret (- EINVAL)
  end.

(** ** Requests and packets to the clients *)

(** [server->cseq++], an [unsigned int], in the [int] of a header *)
Definition next_cseq : SM Z :=
  cseq ← gets sv_cseq;
  modify (set_sv_cseq (u32 (cseq + 1)));;
  mret (s32 cseq).

Definition send_request (header : rtsp_request_header) (body : writer unit) : SM Z :=
  '(ret, text) ← write_message (rtsp_request_header_write header;; body);
  if ret <? 0 then mret ret else send_all text.

Definition rtsp_server_send_teardown (uri session_id : option cstr)
    (ext : option (list rtsp_header_ext)) (ext_count : Z) : SM Z :=
  match uri, session_id with
  | None, _ | Some [], _ | _, None => mret (- EINVAL)
  | Some uri, Some id =>
      cseq ← next_cseq;
      let header := set_rq_session_id (Some id)
        (set_rq_cseq cseq (set_rq_method RTSP_METHOD_TYPE_TEARDOWN rtsp_request_header_clear)) in
      match rtsp_request_header_copy_ext header ext ext_count with
      | Ok header => send_request (set_rq_uri (Some uri) header) wskip
      | Err e => mret (- e)
      | Undef => undefined
      end
  end.

Definition rtsp_server_announce (uri : option cstr) (ext : option (list rtsp_header_ext))
    (ext_count : Z) (session_description : option cstr) : SM Z :=
  match uri, session_description with
  | None, _ | Some [], _ | _, None | _, Some [] => mret (- EINVAL)
  | Some uri, Some sd =>
      let len := strnlen sd RTSP_SESSION_DESCRIPTION_MAX_LEN in
      if RTSP_SESSION_DESCRIPTION_MAX_LEN <=? len then mret (- EINVAL)
      else
        cseq ← next_cseq;
        now ← time_get_monotonic;
        server ← gets sv_software_name;
        let header := set_rq_server (Some server) (set_rq_date (now / 1000000)
          (set_rq_content_type (Some RTSP_CONTENT_TYPE_SDP) (set_rq_content_length len
            (set_rq_cseq cseq
              (set_rq_method RTSP_METHOD_TYPE_ANNOUNCE rtsp_request_header_clear))))) in
        match rtsp_request_header_copy_ext header ext ext_count with
        | Ok header => send_request (set_rq_uri (Some ("/"%char :: uri)) header) (rtsp_sprintf sd)
        | Err e => mret (- e)
        | Undef => undefined
        end
  end.

Definition rtsp_server_send_interleaved (channel : Z) (data : option bytes) : SM Z :=
  match data with
  | None => mret (- EINVAL)
  | Some d =>
      if (Zlen d =? 0) || (UINT16_MAX <? Zlen d) then mret (- EINVAL)
      else
        match rtsp_build_interleaved (Some (channel, data, u16 (Zlen d))) with
        | Ok packet => send_all packet
        | Err e => mret (- e)
        | Undef => undefined
        end
  end.

(** ** Callbacks *)

Definition run_api_call (c : api_call) : SM Z :=
  match c with
  | ReplyToDescribe request status ext ext_count sd =>
      rtsp_server_reply_to_describe request status ext ext_count sd
  | ReplyToSetup request media status src_stream_port src_control_port ssrc_valid ssrc ext
      ext_count userdata =>
      rtsp_server_reply_to_setup request media status src_stream_port src_control_port
        ssrc_valid ssrc ext ext_count userdata
  | ReplyToPlay request media status range scale seq_valid seq rtptime_valid rtptime ext
      ext_count =>
      rtsp_server_reply_to_play request media status range scale seq_valid seq rtptime_valid
        rtptime ext ext_count
  | ReplyToPause request media status range ext ext_count =>
      rtsp_server_reply_to_pause request media status range ext ext_count
  | ReplyToTeardown request media status ext ext_count =>
      rtsp_server_reply_to_teardown request media status ext ext_count
  | ReplyToAnnounce request status ext ext_count =>
      rtsp_server_reply_to_announce request status ext ext_count
  | ReplyToRecord request media status range ext ext_count =>
      rtsp_server_reply_to_record request media status range ext ext_count
  | Announce uri ext ext_count sd => rtsp_server_announce uri ext ext_count sd
  | SendInterleaved channel data => rtsp_server_send_interleaved channel data
  end.

(** The callback is called, and calls back. *)
Definition callback (o : output) : SM unit :=
  output_event o;;
  out ← gets sv_out;
  for_each (fun c => ignore (run_api_call c)) (env_app out).
End reply.
