(* ===== verification/Server.v ===== *)
(** * The server ([rtsp_server.c]): requests, timers, connections

    A handler returns its [int] and, with [*status], the status of the error to
    reply with.  The application is called back in the middle of a handler and
    calls the functions of [ServerReply.v]. *)

From S2P Require Import Prelude CString CNumber Writer Url Methods Transport RtpInfo CFloat TimeRange.
From S2P Require Import Framing HeaderLine HeaderFields Request Response Message ObjList StateMonad.
From S2P Require Import ServerState ServerSession ServerRequest ServerReply.
From stdpp Require Import options.

Local Open Scope Z_scope.

Definition rtsp_server_teardown_reason_str (val : rtsp_server_teardown_reason) : cstr :=
  match val with
  | RTSP_SERVER_TEARDOWN_REASON_CLIENT_REQUEST => cs "CLIENT_REQUEST"
  | RTSP_SERVER_TEARDOWN_REASON_SESSION_TIMEOUT => cs "SESSION_TIMEOUT"
  | RTSP_SERVER_TEARDOWN_REASON_FORCED_TEARDOWN => cs "FORCED_TEARDOWN"
  end.

(** The methods of an OPTIONS response. *)
Definition server_public_methods : Z :=
  Z.lor RTSP_METHOD_FLAG_DESCRIBE (Z.lor RTSP_METHOD_FLAG_SETUP
    (Z.lor RTSP_METHOD_FLAG_TEARDOWN (Z.lor RTSP_METHOD_FLAG_PLAY
      (Z.lor RTSP_METHOD_FLAG_PAUSE (Z.lor RTSP_METHOD_FLAG_GET_PARAMETER
        (Z.lor RTSP_METHOD_FLAG_ANNOUNCE RTSP_METHOD_FLAG_RECORD)))))).

Section server.
Context `{T : LocalTime} `{E : Env}.

(** ** Handlers without a callback *)

(** The response is sent and the request removed, unless that fails. *)
Definition respond_now (request : ptr) (conn : Z) : SM Z :=
  r ← request_at request;
  '(ret, text) ← write_message (rtsp_response_header_write (pr_response r));
  if ret <? 0 then mret ret else send_conn conn text.

Definition remove_if_done (request : ptr) (ret : Z) : SM unit :=
  when (ret =? 0) (ignore (rtsp_server_pending_request_remove request)).

Definition rtsp_server_options (request : ptr) : SM Z :=
  r ← request_at request;
  ret ← match pr_conn r with
        | None => mret (- ECONNRESET)
        | Some conn =>
            fill_response request 200 (cs "OK");;
            upd_response request (set_rp_public_methods server_public_methods);;
            respond_now request conn
        end;
  remove_if_done request ret;;
  mret ret.

(** The session that a request is about, when it has medias. *)
Definition session_with_media (session_id : option cstr) : SM (option ptr) :=
  session ← rtsp_server_session_find session_id;
  match session with
  | None => mret None
  | Some p =>
      s ← session_at p;
      mret (if ss_media_count s =? 0 then None else Some p)
  end.

Definition get_parameter_steps (request : ptr) : SM (Z * Z) :=
  r ← request_at request;
  match pr_conn r with
  | None => mret (- ECONNRESET, 0)
  | Some conn =>
      match rtsp_url_parse_path (rq_uri (pr_header r)) with
      | Err e => mret (- e, 0)
      | Undef => undefined
      | Ok _ =>
          session ← session_with_media (rq_session_id (pr_header r));
          match session with
          | None => mret (- ENOENT, RTSP_STATUS_CODE_SESSION_NOT_FOUND)
          | Some session =>
              ignore (rtsp_server_session_reset_timeout session);;
              s ← session_at session;
              fill_response request 200 (cs "OK");;
              upd_response request (fun h =>
                set_rp_session_timeout (ss_timeout_ms s / 1000)
                  (set_rp_session_id (rq_session_id (pr_header r)) h));;
              ret ← respond_now request conn;
              mret (ret, 0)
          end
      end
  end.

Definition rtsp_server_get_parameter (request : ptr) : SM (Z * Z) :=
  r ← request_at request;
  match rq_session_id (pr_header r) with
  | None => mret (- EINVAL, 0)
  | Some _ =>
      '(ret, status) ← get_parameter_steps request;
      remove_if_done request ret;;
      mret (ret, status)
  end.

(** ** Handlers with a callback *)

(** The [out] label: a request that was replied to during the callback is
    removed, after [before]. *)
Definition callback_done (request : ptr) (ret : Z) (before : SM unit) : SM unit :=
  upd_request request (set_pr_in_callback 0);;
  r ← request_at request;
  when ((ret =? 0) && negb (pr_replied r =? 0))
    (before;; ignore (rtsp_server_pending_request_remove request)).

Definition rtsp_server_describe (request : ptr) : SM Z :=
  r ← request_at request;
  let h := pr_header r in
  ret ← match rtsp_url_parse_host_and_path (rq_uri h) with
        | Err e => mret (- e)
        | Undef => undefined
        | Ok (host, path) =>
            upd_request request (set_pr_in_callback 1);;
            callback (CbDescribe host path (rq_ext h) request);;
            mret 0
        end;
  callback_done request ret skip;;
  mret ret.

Definition rtsp_server_announce_req (request : ptr) : SM Z :=
  r ← request_at request;
  let h := pr_header r in
  ret ← match rtsp_url_parse_host_and_path (rq_uri h) with
        | Err e => mret (- e)
        | Undef => undefined
        | Ok (host, path) =>
            upd_request request (set_pr_in_callback 1);;
            (if env_has_announce
             then callback (CbAnnounce host path (pr_body r) (rq_ext h) request)
             else ignore (rtsp_server_reply_to_announce (Some request) (- ENOSYS) None 0));;
            mret 0
        end;
  callback_done request ret skip;;
  mret ret.

(** *** SETUP *)

(** The session, the status of the error, and whether the session is new. *)
Definition setup_session (session_id : option cstr) (content_base_uri : cstr)
    : SM (option ptr * Z * bool) :=
  match session_id with
  | None =>
      timeout ← gets sv_session_timeout_ms;
      session ← rtsp_server_session_add (u32 timeout) (Some content_base_uri);
      mret (session, 0, bool_decide (is_Some session))
  | Some id =>
      session ← rtsp_server_session_find (Some id);
      mret (session,
            match session with Some _ => 0 | None => RTSP_STATUS_CODE_SESSION_NOT_FOUND end,
            false)
  end.

(** Up to the label: the returned value, the status, the session and whether it
    is new. *)
Definition setup_steps (dst_address : cstr) (request : ptr) : SM (Z * Z * option ptr * bool) :=
  r ← request_at request;
  let h := pr_header r in
  if negb (Zlen (rq_transport h) =? 1) then mret (- ENOSYS, 0, None, false)
  else
    match rtsp_url_parse_host_and_path (rq_uri h) with
    | Err e => mret (- e, 0, None, false)
    | Undef => undefined
    | Ok (host, path) =>
        match strrchr "/" (default [] (rq_uri h)) with
        | None => mret (- EINVAL, 0, None, false)
        | Some (content_base_uri, _) =>
            '(session, status, created) ← setup_session (rq_session_id h) content_base_uri;
            match session with
            | None =>
                mret (match rq_session_id h with None => - ENOMEM | Some _ => - ENOENT end,
                      status, None, false)
            | Some session =>
                media ← rtsp_server_session_media_add session (rq_uri h) path;
                match media, path with
                | Some media, Some path =>
                    ignore (rtsp_server_session_reset_timeout session);;
                    upd_request request (set_pr_in_callback 1);;
                    upd_session session (set_ss_op (rq_method h));;
                    s ← session_at session;
                    t ← deref (mjoin (head (rq_transport h)));
                    callback (CbSetup path (ss_id s) (rq_ext h) request media (tr_delivery t)
                      (tr_lower_transport t) (cs "0.0.0.0") dst_address (tr_dst_stream_port t)
                      (tr_dst_control_port t));;
                    mret (0, 0, Some session, created)
                | _, _ => mret (- EPROTO, 0, Some session, created)
                end
            end
        end
    end.

Definition rtsp_server_setup (dst_address : cstr) (request : ptr) : SM (Z * Z) :=
  match dst_address with
  | [] => mret (- EINVAL, 0)
  | _ =>
      '(ret, status, session, created) ← setup_steps dst_address request;
      callback_done request ret (match session with Some p => op_done p | None => skip end);;
      match session with
      | Some p => when (negb (ret =? 0) && created) (ignore (rtsp_server_session_remove p))
      | None => skip
      end;;
      mret (ret, status)
  end.

(** *** PLAY, PAUSE and RECORD *)

(** The steps the three handlers share; [body] is called for each media of the
    request, which stays pending during the loop because it is in a callback. *)
Definition session_request (request : ptr)
    (body : rtsp_request_header → ptr → rtsp_server_pending_request_media → SM unit)
    : SM (Z * Z) :=
  r ← request_at request;
  let h := pr_header r in
  match rq_session_id h with
  | None => mret (- EINVAL, 0)
  | Some _ =>
      '(ret, status, session) ←
        match rtsp_url_parse_path (rq_uri h) with
        | Err e => mret (- e, 0, None)
        | Undef => undefined
        | Ok _ =>
            session ← session_with_media (rq_session_id h);
            match session with
            | None => mret (- ENOENT, RTSP_STATUS_CODE_SESSION_NOT_FOUND, None)
            | Some session =>
                ignore (rtsp_server_session_reset_timeout session);;
                upd_request request (set_pr_in_callback 1);;
                upd_session session (set_ss_op (rq_method h));;
                s ← session_at session;
                for_each (fun m => ignore (rtsp_server_pending_request_media_add request (sm_ptr m)))
                  (ss_medias s);;
                r ← request_at request;
                for_each (body h session) (pr_medias r);;
                upd_request request (set_pr_first_reply 1);;
                mret (0, 0, Some session)
            end
        end;
      callback_done request ret (match session with Some p => op_done p | None => skip end);;
      mret (ret, status)
  end.

Definition rtsp_server_play (request : ptr) : SM (Z * Z) :=
  session_request request (fun h session m =>
    s ← session_at session;
    media ← media_at (pm_media m);
    callback (CbPlay (ss_id s) (rq_ext h) request (pm_media m) (rq_range h) (rq_scale h)
                (sm_userdata media))).

Definition rtsp_server_pause (request : ptr) : SM (Z * Z) :=
  session_request request (fun h session m =>
    s ← session_at session;
    media ← media_at (pm_media m);
    callback (CbPause (ss_id s) (rq_ext h) request (pm_media m) (rq_range h)
                (sm_userdata media))).

Definition rtsp_server_record (request : ptr) : SM (Z * Z) :=
  session_request request (fun h session m =>
    if env_has_record then
      s ← session_at session;
      media ← media_at (pm_media m);
      callback (CbRecord (ss_id s) (rq_ext h) request (pm_media m) (rq_range h)
                  (sm_userdata media))
    else
      ignore (rtsp_server_reply_to_record (Some request) (Some (pm_media m)) (- ENOSYS)
                (Some (rq_range h)) None 0)).
(** *** TEARDOWN *)

(** Whether the media is one of those that the path stands for; [prefix_len] is
    [None] for a path that is not a prefix.  A NULL path is compared on no byte. *)
Definition teardown_matches (path : option cstr) (media_found : bool) (prefix_len : option nat)
    (m : rtsp_server_session_media) : bool :=
  if media_found then streq (default [] path) (sm_path m)
  else match prefix_len with
       | Some n => strneq n (default [] path) (sm_path m)
       | None => true
       end.

(** The length of a prefix, [-ENAMETOOLONG] for a path that is too long. *)
Definition teardown_prefix (path : option cstr) : res (option nat) :=
  match path with
  | None | Some [] => Ok (Some O)
  | Some p =>
      match strchr "/" p with
      | None =>
          if PATH_MAX <=? strnlen p PATH_MAX then Err ENAMETOOLONG else Ok (Some (length p))
      | Some _ => Ok None
      end
  end.

(** The media becomes one of the request's, and is marked. *)
Definition teardown_media (request media : ptr) : SM unit :=
  ignore (rtsp_server_pending_request_media_add request media);;
  upd_media media (set_sm_is_tearing_down true).

Definition teardown_steps (request : ptr) : SM (Z * Z * option ptr) :=
  r ← request_at request;
  let h := pr_header r in
  match path ← rtsp_url_parse_path (rq_uri h); n ← teardown_prefix path; Ok (path, n) with
  | Err e => mret (- e, 0, None)
  | Undef => undefined
  | Ok (path, prefix_len) =>
      session ← session_with_media (rq_session_id h);
      match session with
      | None => mret (- ENOENT, RTSP_STATUS_CODE_SESSION_NOT_FOUND, None)
      | Some session =>
          media ← rtsp_server_session_media_find session path;
          let media_found := bool_decide (is_Some media) in
          ignore (rtsp_server_session_reset_timeout session);;
          upd_request request (set_pr_in_callback 1);;
          upd_session session (set_ss_op (rq_method h));;
          s ← session_at session;
          for_each (fun m =>
            when (teardown_matches path media_found prefix_len m)
              (teardown_media request (sm_ptr m))) (ss_medias s);;
          r ← request_at request;
          match pr_medias r with
          | [] => mret (- ENOENT, 0, Some session)
          | medias =>
              for_each (fun m =>
                s ← session_at session;
                media ← media_at (pm_media m);
                callback (CbTeardown (sm_path media) (ss_id s)
                  RTSP_SERVER_TEARDOWN_REASON_CLIENT_REQUEST (rq_ext h) (Some request)
                  (pm_media m) (sm_userdata media))) medias;;
              mret (0, 0, Some session)
          end
      end
  end.

Definition rtsp_server_teardown (request : ptr) : SM (Z * Z) :=
  r ← request_at request;
  match rq_session_id (pr_header r) with
  | None => mret (- EINVAL, 0)
  | Some _ =>
      '(ret, status, session) ← teardown_steps request;
      upd_request request (set_pr_in_callback 0);;
      r ← request_at request;
      when ((ret =? 0) && negb (pr_replied r =? 0))
        (session ← deref session;
         op_done session;;
         ignore (rtsp_server_pending_request_remove request);;
         remove_torn_down session);;
      mret (ret, status)
  end.

(** ** The messages of the clients *)

Definition with_status (m : SM Z) : SM (Z * Z) := ret ← m; mret (ret, 0).

Definition dispatch (dst_address : cstr) (request : ptr) (method : rtsp_method_type)
    : SM (Z * Z) :=
  match method with
  | RTSP_METHOD_TYPE_OPTIONS => with_status (rtsp_server_options request)
  | RTSP_METHOD_TYPE_DESCRIBE => with_status (rtsp_server_describe request)
  | RTSP_METHOD_TYPE_ANNOUNCE => with_status (rtsp_server_announce_req request)
  | RTSP_METHOD_TYPE_SETUP => rtsp_server_setup dst_address request
  | RTSP_METHOD_TYPE_PLAY => rtsp_server_play request
  | RTSP_METHOD_TYPE_PAUSE => rtsp_server_pause request
  | RTSP_METHOD_TYPE_TEARDOWN => rtsp_server_teardown request
  | RTSP_METHOD_TYPE_GET_PARAMETER => rtsp_server_get_parameter request
  | RTSP_METHOD_TYPE_RECORD => rtsp_server_record request
  | RTSP_METHOD_TYPE_UNKNOWN | RTSP_METHOD_TYPE_SET_PARAMETER
  | RTSP_METHOD_TYPE_REDIRECT => mret (0, 0)
  end.

(** The header and the body copied to the request. *)
Definition store_request (request : ptr) (header : rtsp_request_header) (body : bytes) : SM unit :=
  match rtsp_request_header_copy (Some header) (Some rtsp_request_header_clear) with
  | Undef => undefined
  | Ok h => upd_request request (set_pr_header h)
  | Err _ => skip
  end;;
  when (0 <? Zlen body) (upd_request request (set_pr_body (Some body))).

(** The address is that of the peer, empty when it is not IPv4. *)
Definition rtsp_server_request_process (conn : Z) (header : rtsp_request_header) (body : bytes)
    : SM Z :=
  timeout ← gets sv_reply_timeout_ms;
  request ← rtsp_server_pending_request_add conn (u32 timeout);
  store_request request header body;;
  r ← request_at request;
  '(err, status) ← dispatch (default [] (env_peer_addr conn)) request (rq_method (pr_header r));
  when (err <? 0)
    (ignore (error_response request
       (if RTSP_STATUS_CLASS_SUCCESS <? status_class status then status else err));;
     ignore (rtsp_server_pending_request_remove request));;
  mret 0.

(** One message; a response is only logged. *)
Definition handle_message (conn : Z) (e : event) : SM unit :=
  match ev_type e, ev_header e, ev_interleaved e with
  | RTSP_MESSAGE_TYPE_REQUEST, HeaderReq h, _ =>
      ignore (rtsp_server_request_process conn h (ev_body e))
  | RTSP_MESSAGE_TYPE_INTERLEAVED, _, Some info =>
      when env_has_interleaved_data (callback (CbInterleavedData conn info))
  | _, _, _ => skip
  end.

(** The messages are found first and handled then: nothing the handlers do
    touches the receive buffer or the parser. *)
Definition rtsp_server_pomp_cb (conn : Z) (data : bytes) : SM unit :=
  buf ← gets sv_request_buf;
  ctx ← gets sv_parser_ctx;
  match data_cb buf ctx data with
  | None => undefined
  | Some (evs, _, buf', ctx') =>
      modify (fun sv => set_sv_parser_ctx ctx' (set_sv_request_buf buf' sv));;
      for_each (handle_message conn) evs
  end.

(** ** The other events *)

(** A closed connection is only taken from the requests. *)
Definition rtsp_server_disconnected (conn : Z) : SM unit :=
  modify (fun sv => set_sv_pending
    (map (fun r => if decide (pr_conn r = Some conn) then set_pr_conn None r else r)
       (sv_pending sv)) sv).

Definition pending_addrs : SM (list ptr) := pending ← gets sv_pending; mret (pr_ptr <$> pending).

(** [walk] over the pending requests, safe against the removal of the current one. *)
Definition walk_pending (body : ptr → SM unit) : SM unit :=
  l ← pending_addrs; list_walk_safe pending_addrs body l (head l).

Definition expired (now : Z) (r : rtsp_server_pending_request) : bool :=
  (0 <? pr_timeout r) && (pr_timeout r <? now).

Definition rtsp_server_timer_cb : SM unit :=
  cur_time ← time_get_monotonic;
  walk_pending (fun request =>
    r ← request_at request;
    when (expired cur_time r)
      (ignore (error_response request RTSP_STATUS_CODE_INTERNAL_SERVER_ERROR);;
       r ← request_at request;
       callback (CbRequestTimeout request (rq_method (pr_header r)));;
       ignore (rtsp_server_pending_request_remove request))).

Definition media_addrs (session : ptr) : SM (list ptr) :=
  s ← session_at session; mret (sm_ptr <$> ss_medias s).

(** [walk] over the medias of a session, the callback of one after the other. *)
Definition walk_medias (session : ptr) (body : ptr → SM unit) : SM unit :=
  l ← media_addrs session; list_walk (media_addrs session) body l.

Definition rtsp_server_session_timer_cb (session : ptr) : SM unit :=
  walk_medias session (fun media =>
    s ← session_at session;
    m ← media_at media;
    callback (CbTeardown (sm_path m) (ss_id s) RTSP_SERVER_TEARDOWN_REASON_SESSION_TIMEOUT
                [] None media (sm_userdata m)));;
  ignore (rtsp_server_session_remove session).

Definition rtsp_server_session_remove_idle (session : ptr) : SM unit :=
  ignore (rtsp_server_session_remove session).

(** ** Forced teardown *)

Definition force_teardown_medias (session : ptr) (media : option ptr)
    (ext : list rtsp_header_ext) : SM unit :=
  walk_medias session (fun p =>
    when (match media with None => true | Some m => bool_decide (m = p) end)
      (s ← session_at session;
       m ← media_at p;
       callback (CbTeardown (sm_path m) (ss_id s) RTSP_SERVER_TEARDOWN_REASON_FORCED_TEARDOWN
                   ext None p (sm_userdata m)))).

(** What follows the checks. *)
Definition force_teardown_now (session : ptr) (media : option ptr)
    (ext : option (list rtsp_header_ext)) (ext_count : Z) : SM Z :=
  force_teardown_medias session media (take (Z.to_nat ext_count) (default [] ext));;
  s ← session_at session;
  uri ← match media with Some p => m ← media_at p; mret (sm_uri m) | None => mret (ss_uri s) end;
  ignore (rtsp_server_send_teardown uri (Some (ss_id s)) ext ext_count);;
  match media with
  | Some p => rtsp_server_session_media_remove session p
  | None => rtsp_server_session_remove session
  end.

Definition rtsp_server_force_teardown (session_id path : option cstr)
    (ext : option (list rtsp_header_ext)) (ext_count : Z) : SM Z :=
  match session_id with
  | None => mret (- EINVAL)
  | Some _ =>
      session ← rtsp_server_session_find session_id;
      match session with
      | None => mret (- ENOENT)
      | Some session =>
          media ← rtsp_server_session_media_find session path;
          if bool_decide (is_Some path) && bool_decide (media = None) then mret (- ENOENT)
          else
            s ← session_at session;
            match ss_op s with
            | RTSP_METHOD_TYPE_UNKNOWN => force_teardown_now session media ext ext_count
            | RTSP_METHOD_TYPE_TEARDOWN => mret (- EALREADY)
            | _ => mret (- EBUSY)
            end
      end
  end.

(** ** Creation and destruction *)

Definition RTSP_SERVER_DEFAULT_SOFTWARE_NAME : cstr := cs "librtsp_server".
Definition RTSP_SERVER_DEFAULT_REPLY_TIMEOUT_MS : Z := 1000.
Definition RTSP_SERVER_DEFAULT_SESSION_TIMEOUT_MS : Z := 60000.
Definition PIPE_BUF : Z := 4096.

(** Which of the mandatory arguments are there: the loop and the callbacks. *)
Record new_args := NewArgs {
  na_loop : bool; na_cbs : bool; na_describe : bool; na_setup : bool; na_play : bool;
  na_pause : bool; na_teardown : bool; na_request_timeout : bool; na_ret_obj : bool
}.

(** [setup] holds the results of the calls that set up the context, the timer and
    the socket, in their order; the first failure is returned. *)
Definition rtsp_server_new (software_name : option cstr) (port : Z)
    (reply_timeout_ms session_timeout_ms : Z) (args : new_args) (setup : list Z) (now : Z)
    : res rtsp_server :=
  return_err_if (port =? 0) EINVAL;;
  return_err_if (negb (na_loop args)) EINVAL;;
  return_err_if (negb (na_cbs args)) EINVAL;;
  return_err_if (negb (na_describe args)) EINVAL;;
  return_err_if (negb (na_setup args)) EINVAL;;
  return_err_if (negb (na_play args)) EINVAL;;
  return_err_if (negb (na_pause args)) EINVAL;;
  return_err_if (negb (na_teardown args)) EINVAL;;
  return_err_if (negb (na_request_timeout args)) EINVAL;;
  return_err_if (negb (na_ret_obj args)) EINVAL;;
  match List.find (fun ret => ret <? 0) setup with
  | Some ret => Err (- ret)
  | None =>
      Ok (Server (default RTSP_SERVER_DEFAULT_SOFTWARE_NAME software_name)
            (2 * PIPE_BUF - 1)
            (if reply_timeout_ms =? 0 then RTSP_SERVER_DEFAULT_REPLY_TIMEOUT_MS
             else reply_timeout_ms)
            (if session_timeout_ms =? 0 then RTSP_SERVER_DEFAULT_SESSION_TIMEOUT_MS
             else session_timeout_ms)
            0 [] 0 [] 1 [] ctx_init now O O [] [])
  end.

(** [destroyed] holds the results of the destruction of the timer and of the
    context: while they are in use the server stays. *)
Definition rtsp_server_destroy (destroyed : list Z) : SM Z :=
  match List.find (fun ret => ret <? 0) destroyed with
  | Some ret => mret ret
  | None =>
      walk_pending (fun request =>
        r ← request_at request;
        callback (CbRequestTimeout request (rq_method (pr_header r)));;
        ignore (rtsp_server_pending_request_remove request));;
      sessions ← gets sv_sessions;
      for_each (fun s => ignore (rtsp_server_session_remove (ss_ptr s))) sessions;;
      mret 0
  end.

(** ** Runs of a server *)

(** What the event loop and the application do to a server. *)
Inductive server_event :=
| Received (conn : Z) (data : bytes)
| Disconnected (conn : Z)
| TimerFired
| SessionTimerFired (session : ptr)
| IdleFired (session : ptr)
| Called (c : api_call)
| ForcedTeardown (session_id path : option cstr) (ext : option (list rtsp_header_ext))
    (ext_count : Z)
| Elapsed (us : Z).

Definition handle (e : server_event) : SM unit :=
  match e with
  | Received conn data => rtsp_server_pomp_cb conn data
  | Disconnected conn => rtsp_server_disconnected conn
  | TimerFired => rtsp_server_timer_cb
  | SessionTimerFired session => rtsp_server_session_timer_cb session
  | IdleFired session =>
      modify (fun sv => set_sv_idle (filter (fun p => p ≠ session) (sv_idle sv)) sv);;
      rtsp_server_session_remove_idle session
  | Called c => ignore (run_api_call c)
  | ForcedTeardown session_id path ext ext_count =>
      ignore (rtsp_server_force_teardown session_id path ext ext_count)
  | Elapsed us => modify (fun sv => set_sv_now (sv_now sv + us) sv)
  end.

(** When the loop calls the callbacks of a session: its timer is set, or its
    removal was registered. *)
Definition enabled (s : rtsp_server) (e : server_event) : Prop :=
  match e with
  | SessionTimerFired p => ∃ ss, find_obj ss_ptr p (sv_sessions s) = Some ss ∧ is_Some (ss_timer ss)
  | IdleFired p => p ∈ sv_idle s
  | Elapsed us => 0 <= us
  | _ => True
  end.

Inductive step : rtsp_server → server_event → rtsp_server → Prop :=
| Step s e s' : enabled s e → handle e s = Some (tt, s') → step s e s'.

(** The servers that [rtsp_server_new] and any events lead to. *)
Inductive reachable : rtsp_server → Prop :=
| ReachNew software_name port reply_timeout_ms session_timeout_ms args setup now s :
    rtsp_server_new software_name port reply_timeout_ms session_timeout_ms args setup now = Ok s →
    reachable s
| ReachStep s e s' : reachable s → step s e s' → reachable s'.
End server.
