(* ===== verification/ServerSample.v ===== *)
(** * A concrete server

    An environment in which every call succeeds and an application that replies
    in its callbacks: the concrete inputs of the theorems on the server. *)

From S2P Require Import Prelude CString CNumber Writer Methods Transport CFloat TimeRange.
From S2P Require Import Framing HeaderLine Request Response Message ObjList StateMonad.
From S2P Require Import ServerState ServerSession ServerRequest ServerReply Server.
From stdpp Require Import options.

Local Open Scope Z_scope.

Definition sample_sdp : cstr := cs "v=0".

(** The reply to the last callback. *)
Definition reply_at_once (out : list output) : list api_call :=
  match last out with
  | Some (CbDescribe _ _ _ request) =>
      [ReplyToDescribe (Some request) 200 None 0 (Some sample_sdp)]
  | Some (CbSetup _ _ _ request media _ _ _ _ _ _) =>
      [ReplyToSetup (Some request) (Some media) 200 6000 6001 false 0 None 0 7]
  | Some (CbPlay _ _ request media range scale _) =>
      [ReplyToPlay (Some request) (Some media) 200 (Some range) scale true 1 true 0 None 0]
  | Some (CbPause _ _ request media range _) =>
      [ReplyToPause (Some request) (Some media) 200 (Some range) None 0]
  | Some (CbTeardown _ _ _ _ (Some request) media _) =>
      [ReplyToTeardown (Some request) (Some media) 200 None 0]
  | _ => []
  end.

Definition sample_env (app : list output → list api_call) : Env := {|
  env_random64 := fun n => Ok (2 ^ 60 + Z.of_nat n * 2 ^ 40);
  env_id_draws := 8%nat;
  env_timer_set := fun timer _ => match timer with Some _ => 0 | None => - EINVAL end;
  env_send_conn := fun _ _ _ => 0;
  env_send_all := fun _ _ => 0;
  env_peer_addr := fun _ => Some (cs "192.168.43.2");
  env_app := app;
  env_has_announce := false;
  env_has_record := false;
  env_has_interleaved_data := true
|}.

Definition all_args : new_args := NewArgs true true true true true true true true true.

Definition new_server : rtsp_server :=
  match rtsp_server_new None 554 0 0 all_args [] 5000000 with
  | Ok s => s
  | _ => Server [] 0 0 0 0 [] 0 [] 0 [] ctx_init 0 0 0 [] []
  end.

(** Events one after the other; the guards of the timers are not looked at. *)
Fixpoint run `{T : LocalTime} `{E : Env} (es : list server_event) (s : rtsp_server)
    : option rtsp_server :=
  match es with
  | [] => Some s
  | e :: es' => '(_, s') ← handle e s; run es' s'
  end.

Lemma run_reachable `{T : LocalTime} `{E : Env} es s s' :
  (∀ e s, e ∈ es → enabled s e) → reachable s → run es s = Some s' → reachable s'.
Proof.
  revert s. induction es as [|e es IH]; intros s Hen Hs; cbn; [by intros [= <-]|].
  destruct (handle e s) as [[[] s1]|] eqn:He; [|done]. cbn. apply IH.
  - intros e' s2 He'. apply Hen. by right.
  - eapply ReachStep; [exact Hs|]. constructor; [apply Hen; left|done].
Qed.

(** The text of a request. *)
Definition request_text (method uri : string) (headers : list string) : bytes :=
  cs method ++ cs " " ++ cs uri ++ cs " RTSP/1.0" ++ CRLF
  ++ concat (map (fun l => cs l ++ CRLF) headers) ++ CRLF.

Definition setup_text (uri : string) (session : list string) : bytes :=
  request_text "SETUP" uri
    ("CSeq: 2"%string :: "Transport: RTP/AVP;unicast;client_port=5004-5005"%string :: session).

Definition sample_id : cstr := cs "1000000000000000".
Definition video : string := "rtsp://192.168.42.1/live/video".
Definition audio : string := "rtsp://192.168.42.1/live/audio".
Definition session_line : string := "Session: 1000000000000000".

Definition transport_line : string := "Transport: RTP/AVP;unicast;client_port=5004-5005".

(** A session with two medias: one is set up, the other too, both are played; the
    request timer fires and the connection is closed. *)
Definition sample_events : list server_event :=
  [Received 1 (setup_text video []);
   Received 1 (setup_text audio [session_line]);
   Received 1 (request_text "PLAY" "rtsp://192.168.42.1/live" ["CSeq: 4"%string; session_line]);
   Elapsed 2000000; TimerFired; Disconnected 1].

(** The same with an application that never replies. *)
Definition pending_events : list server_event :=
  [Received 1 (request_text "DESCRIBE" "rtsp://192.168.42.1/live" ["CSeq: 1"%string]);
   Received 2 (setup_text video [])].

(** A run that ends in a server with [P]. *)
Definition ends_with `{T : LocalTime} `{E : Env} (es : list server_event) (s : rtsp_server)
    (P : rtsp_server → bool) : bool :=
  match run es s with Some s' => P s' | None => false end.

Lemma ends_with_run `{T : LocalTime} `{E : Env} es s P :
  ends_with es s P = true → ∃ s', run es s = Some s' ∧ P s' = true.
Proof. unfold ends_with. destruct (run es s) as [s'|]; [|done]. by exists s'. Qed.

(** Events without guards can always happen. *)
Definition unguarded (e : server_event) : bool :=
  match e with SessionTimerFired _ | IdleFired _ => false | Elapsed us => 0 <=? us | _ => true end.

Lemma run_new_reachable `{T : LocalTime} `{E : Env} es s :
  forallb unguarded es = true → run es new_server = Some s → reachable s.
Proof.
  intros Hes. apply run_reachable.
  - intros e s' He. rewrite forallb_forall in Hes. apply list_elem_of_In, Hes in He.
    destruct e; try done. cbn in *. lia.
  - by apply (ReachNew None 554 0 0 all_args [] 5000000).
Qed.

(** A request without a transport. *)
Definition sample_header (method : rtsp_method_type) (uri : string) (session_id : option cstr)
    : rtsp_request_header :=
  set_rq_session_id session_id (set_rq_uri (Some (cs uri)) (set_rq_cseq 7
    (set_rq_method method rtsp_request_header_clear))).
