(* ===== verification/ServerLogic.v ===== *)
(** * The invariant of a server, and the rules to prove it

    [wf_server] is the consistency of the structures, [waiting X]
    says that the requests outside [X] still wait for a reply; the lemmas on the
    accesses are what the proofs on the operations use. *)

From S2P Require Import Prelude CString Methods Transport Request Response Message ObjList StateMonad.
From S2P Require Import ServerState ServerSession ServerRequest ServerReply.
From stdpp Require Import options.

Local Open Scope Z_scope.

Section accesses.
Implicit Types (I : rtsp_server → Prop).

Lemma preserves_session_at I p : preserves I (session_at p).
Proof. apply preserves_bind; [apply preserves_gets|]. intros. apply preserves_deref. Qed.

Lemma preserves_request_at I p : preserves I (request_at p).
Proof. apply preserves_bind; [apply preserves_gets|]. intros. apply preserves_deref. Qed.

Lemma preserves_media_at I p : preserves I (media_at p).
Proof. apply preserves_bind; [apply preserves_gets|]. intros. apply preserves_deref. Qed.

Lemma preserves_time I : preserves I time_get_monotonic.
Proof. apply preserves_gets. Qed.
End accesses.

#[export] Hint Resolve preserves_session_at preserves_request_at preserves_media_at
  preserves_time : keeps.

Lemma session_at_inv p s a s' :
  session_at p s = Some (a, s') → find_obj ss_ptr p (sv_sessions s) = Some a ∧ s' = s.
Proof. apply deref_inv. Qed.

Lemma request_at_inv p s a s' :
  request_at p s = Some (a, s') → find_obj pr_ptr p (sv_pending s) = Some a ∧ s' = s.
Proof. apply deref_inv. Qed.

Lemma media_at_inv p s a s' :
  media_at p s = Some (a, s') → find_media p (sv_sessions s) = Some a ∧ s' = s.
Proof. apply deref_inv. Qed.

Lemma upd_session_inv p f s a s' :
  upd_session p f s = Some (a, s') →
  is_Some (find_obj ss_ptr p (sv_sessions s)) ∧
  s' = set_sv_sessions (update_obj ss_ptr p f (sv_sessions s)) s.
Proof. intros (x & s1 & (H & ->)%session_at_inv & [= _ <-])%bind_inv. by rewrite H. Qed.

Lemma upd_request_inv p f s a s' :
  upd_request p f s = Some (a, s') →
  is_Some (find_obj pr_ptr p (sv_pending s)) ∧
  s' = set_sv_pending (update_obj pr_ptr p f (sv_pending s)) s.
Proof. intros (x & s1 & (H & ->)%request_at_inv & [= _ <-])%bind_inv. by rewrite H. Qed.

(** ** The invariant *)

(** A session with the addresses below [n] in use. *)
Record wf_session (n : ptr) (s : rtsp_server_session) : Prop := WfSession {
  ws_addr : (ss_ptr s < n)%nat;
  ws_count : ss_media_count s = u32 (Zlen (ss_medias s));
  ws_paths : NoDup (sm_path <$> ss_medias s);
  ws_medias : Forall (fun m => sm_session m = ss_ptr s ∧ (sm_ptr m < n)%nat) (ss_medias s)
}.

Record wf_pending_request (n : ptr) (r : rtsp_server_pending_request) : Prop := WfPendingRequest {
  wr_addr : (pr_ptr r < n)%nat;
  wr_count : pr_media_count r = u32 (Zlen (pr_medias r));
  wr_replied : Forall (fun m => pm_replied m = 0 ∨ pm_replied m = 1) (pr_medias r)
}.

Definition id_key (s : rtsp_server_session) : cstr := take RTSP_SERVER_SESSION_ID_LENGTH (ss_id s).

(** Ids and addresses are unique, the counts are right, the medias point back to
    their session, and a registered removal is that of a session that is there. *)
Record wf_server (s : rtsp_server) : Prop := WfServer {
  wf_session_addrs : NoDup (ss_ptr <$> sv_sessions s);
  wf_media_addrs : NoDup (sm_ptr <$> concat (ss_medias <$> sv_sessions s));
  wf_ids : NoDup (id_key <$> sv_sessions s);
  wf_session_count : sv_session_count s = u32 (Zlen (sv_sessions s));
  wf_sessions : Forall (wf_session (sv_next_ptr s)) (sv_sessions s);
  wf_request_addrs : NoDup (pr_ptr <$> sv_pending s);
  wf_pending_count : sv_pending_count s = u32 (Zlen (sv_pending s));
  wf_requests : Forall (wf_pending_request (sv_next_ptr s)) (sv_pending s);
  wf_idle : Forall (fun p => p ∈ ss_ptr <$> sv_sessions s) (sv_idle s)
}.

(** The request is in no callback and has no reply. *)
Definition waits (r : rtsp_server_pending_request) : Prop :=
  pr_in_callback r = 0 ∧ pr_replied r = 0.

Definition waiting (X : list ptr) (s : rtsp_server) : Prop :=
  Forall (fun r => pr_ptr r ∈ X ∨ waits r) (sv_pending s).

Record inv (X : list ptr) (s : rtsp_server) : Prop := Inv {
  inv_wf : wf_server s;
  inv_waiting : waiting X s
}.

Lemma wf_session_le n n' s : (n <= n')%nat → wf_session n s → wf_session n' s.
Proof.
  intros Hn []. constructor; [lia|done|done|].
  eapply Forall_impl; [done|]. intros m []. split; [done|lia].
Qed.

Lemma wf_request_le n n' r : (n <= n')%nat → wf_pending_request n r → wf_pending_request n' r.
Proof. intros Hn []. constructor; [lia|done|done]. Qed.

Lemma u32_succ n : u32 (u32 n + 1) = u32 (n + 1).
Proof. unfold wrapu. by rewrite Zplus_mod_idemp_l. Qed.

Lemma u32_pred n : u32 (u32 n - 1) = u32 (n - 1).
Proof. unfold wrapu. by rewrite Zminus_mod_idemp_l. Qed.

(** ** Accesses that keep the invariant *)

(** Nothing that the invariant is about has changed. *)
Lemma inv_frame X s s' :
  sv_sessions s' = sv_sessions s → sv_session_count s' = sv_session_count s →
  sv_pending s' = sv_pending s → sv_pending_count s' = sv_pending_count s →
  sv_idle s' = sv_idle s → (sv_next_ptr s <= sv_next_ptr s')%nat →
  inv X s → inv X s'.
Proof.
  intros E1 E2 E3 E4 E5 Hle [[] Hw]. constructor; [|by unfold waiting; rewrite E3].
  constructor; rewrite ?E1, ?E2, ?E3, ?E4, ?E5; try done.
  - eapply Forall_impl; [exact wf_sessions0|]. intros. by eapply wf_session_le.
  - eapply Forall_impl; [exact wf_requests0|]. intros. by eapply wf_request_le.
Qed.

Lemma keeps_output_event X o : preserves (inv X) (output_event o).
Proof. apply preserves_modify. intros s. by apply inv_frame. Qed.

Lemma keeps_cseq X n : preserves (inv X) (modify (set_sv_cseq n)).
Proof. apply preserves_modify. intros s. by apply inv_frame. Qed.

Lemma keeps_draws X n : preserves (inv X) (modify (set_sv_draws n)).
Proof. apply preserves_modify. intros s. by apply inv_frame. Qed.

Lemma alloc_triple X : triple (inv X) alloc (fun p s => inv X s ∧ (p < sv_next_ptr s)%nat ∧
  (p ∉ ss_ptr <$> sv_sessions s) ∧ (p ∉ sm_ptr <$> concat (ss_medias <$> sv_sessions s)) ∧
  (p ∉ pr_ptr <$> sv_pending s)).
Proof.
  intros s p s' H. unfold alloc. cbn. intros [= <- <-].
  assert (∀ {A} (f : A → ptr) l, Forall (fun x => (f x < sv_next_ptr s)%nat) l →
                                 (sv_next_ptr s ∉ f <$> l)) as Hfresh.
  { intros A f l Hl (x & Hx & Hin)%list_elem_of_fmap.
    rewrite Forall_forall in Hl. specialize (Hl x Hin). lia. }
  split; [eapply inv_frame; [..|exact H]; try done; cbn; lia|]. destruct H as [[] _].
  split; [cbn; lia|]. cbn. split_and!; apply Hfresh.
  - eapply Forall_impl; [exact wf_sessions0|]. by intros ? [].
  - apply Forall_concat, Forall_fmap. eapply Forall_impl; [exact wf_sessions0|].
    intros ss []. cbn. eapply Forall_impl; [eassumption|]. by intros ? [].
  - eapply Forall_impl; [exact wf_requests0|]. by intros ? [].
Qed.

Lemma keeps_alloc X : preserves (inv X) alloc.
Proof. eapply triple_weaken; [apply alloc_triple|done|]. by intros p s []. Qed.

(** *** Sessions *)

(** Nothing changes that identifies the session, nor its medias. *)
Definition inert (f : rtsp_server_session → rtsp_server_session) : Prop :=
  ∀ s, ss_ptr (f s) = ss_ptr s ∧ ss_id (f s) = ss_id s ∧
       ss_media_count (f s) = ss_media_count s ∧ ss_medias (f s) = ss_medias s.

Lemma keeps_upd_session X p f : inert f → preserves (inv X) (upd_session p f).
Proof.
  intros Hf s [] s' [[] Hw] (_ & ->)%upd_session_inv. constructor; [|done]. constructor; cbn; try done.
  - rewrite update_obj_addr; [done|]. intros x. apply Hf.
  - by rewrite (update_obj_fmap ss_ptr ss_medias) by (intros x; apply Hf).
  - rewrite (update_obj_fmap ss_ptr id_key); [done|].
    intros x. unfold id_key. by destruct (Hf x) as (_ & -> & _).
  - unfold Zlen. by rewrite update_obj_length.
  - apply update_obj_Forall; [|done]. intros x _ _ []. destruct (Hf x) as (E1 & _ & E2 & E3).
    by constructor; rewrite ?E1, ?E2, ?E3.
  - rewrite update_obj_addr; [done|]. intros x. apply Hf.
Qed.

(** A media keeps its address, its session and its path. *)
Definition inert_media (f : rtsp_server_session_media → rtsp_server_session_media) : Prop :=
  ∀ m, sm_ptr (f m) = sm_ptr m ∧ sm_session (f m) = sm_session m ∧ sm_path (f m) = sm_path m.

Lemma fmap_concat (l : list rtsp_server_session) :
  sm_ptr <$> concat (ss_medias <$> l) = concat ((fun ss => sm_ptr <$> ss_medias ss) <$> l).
Proof. induction l; cbn; [done|]. by rewrite fmap_app, <- IHl. Qed.

Lemma keeps_upd_media X p f : inert_media f → preserves (inv X) (upd_media p f).
Proof.
  intros Hf s [] s' [[] Hw] (x & s1 & (_ & ->)%media_at_inv & [= <-])%bind_inv.
  assert (∀ l, sm_ptr <$> update_obj sm_ptr p f l = sm_ptr <$> l) as Haddr
    by (intros l; apply update_obj_addr; intros m; apply Hf).
  assert (∀ l, sm_path <$> update_obj sm_ptr p f l = sm_path <$> l) as Hpath
    by (intros l; apply update_obj_fmap; intros m; apply Hf).
  assert (∀ g : rtsp_server_session → rtsp_server_session, ∀ {B} (h : rtsp_server_session → B) l,
    (∀ ss, h (g ss) = h ss) → h <$> map g l = h <$> l) as Hmap.
  { intros g B h l Hh. induction l; cbn; [done|]. by rewrite Hh, IHl. }
  constructor; [|done]. constructor; cbn; try done.
  - by rewrite Hmap.
  - rewrite fmap_concat in *.
    by rewrite (Hmap _ _ (fun ss => sm_ptr <$> ss_medias ss)) by (intros ss; apply Haddr).
  - by rewrite Hmap.
  - unfold Zlen. by rewrite length_map.
  - apply Forall_map. eapply Forall_impl; [exact wf_sessions0|]. intros ss [].
    constructor; cbn; [done| |by rewrite Hpath|].
    + unfold Zlen. by rewrite update_obj_length.
    + apply update_obj_Forall; [|done]. intros m _ _ []. destruct (Hf m) as (-> & -> & _). done.
  - by rewrite Hmap.
Qed.

(** *** Requests *)

(** The request stays well formed, and waiting. *)
Definition quiet (f : rtsp_server_pending_request → rtsp_server_pending_request) : Prop :=
  ∀ r, pr_ptr (f r) = pr_ptr r ∧ (∀ n, wf_pending_request n r → wf_pending_request n (f r)) ∧
       (waits r → waits (f r)).

Lemma upd_request_wf p f s s' a :
  (∀ r, pr_ptr (f r) = pr_ptr r ∧ (∀ n, wf_pending_request n r → wf_pending_request n (f r))) →
  wf_server s → upd_request p f s = Some (a, s') → wf_server s'.
Proof.
  intros Hf [] (_ & ->)%upd_request_inv. constructor; cbn; try done.
  - rewrite update_obj_addr; [done|]. intros x. apply Hf.
  - unfold Zlen. by rewrite update_obj_length.
  - apply update_obj_Forall; [|done]. intros x _ _. apply Hf.
Qed.

Lemma keeps_upd_request X p f : quiet f → preserves (inv X) (upd_request p f).
Proof.
  intros Hf s a s' [Hwf Hw] H. constructor.
  - eapply upd_request_wf; [|done|done]. intros r. destruct (Hf r) as (? & ? & _). done.
  - apply upd_request_inv in H as (_ & ->). apply update_obj_Forall; [|done].
    intros r _ _. destruct (Hf r) as (-> & _ & Hq). intros [?|?]; [by left|right; auto].
Qed.

Lemma waiting_weaken X Y s : X ⊆ Y → waiting X s → waiting Y s.
Proof. intros H Hw. eapply Forall_impl; [done|]. intros r [?|?]; [left; by apply H|by right]. Qed.

Lemma inv_weaken X Y s : X ⊆ Y → inv X s → inv Y s.
Proof. intros H []. constructor; [done|by eapply waiting_weaken]. Qed.

(** An update of a request that leaves [X]. *)
Lemma upd_request_except X p f :
  (∀ r, pr_ptr (f r) = pr_ptr r ∧ (∀ n, wf_pending_request n r → wf_pending_request n (f r))) →
  triple (inv X) (upd_request p f) (fun _ => inv (p :: X)).
Proof.
  intros Hf s a s' [Hwf Hw] H. constructor; [by eapply upd_request_wf|].
  apply upd_request_inv in H as (_ & ->). apply update_obj_Forall.
  - intros r _ <- _. left. destruct (Hf r) as [-> _]. left.
  - eapply Forall_impl; [done|]. intros r [?|?]; [left; by right|by right].
Qed.

(** Closes the side conditions of the lemmas above for the setters. *)
Ltac by_setter := intros []; cbn; split_and!; try done; intros; auto.
