(* ===== verification/ServerInv.v ===== *)
(** * Every operation keeps the invariant of the server

    [inv X] is kept by the replies of the application whatever it calls, for
    every set [X] of requests that are in a callback; the handlers lead from
    [inv []] to [inv []]. *)

From S2P Require Import Prelude CString CNumber Writer Url Methods Transport RtpInfo CFloat TimeRange.
From S2P Require Import Framing HeaderLine HeaderFields Request Response Message ObjList StateMonad.
From S2P Require Import ServerState ServerSession ServerRequest ServerReply Server ServerSample ServerLogic.
From stdpp Require Import options.

Local Open Scope Z_scope.

#[export] Hint Resolve keeps_output_event keeps_cseq keeps_draws keeps_alloc : keeps.

(** ** Sessions *)

Section session.
Context `{E : Env}.

Lemma keeps_reset_timeout X p : preserves (inv X) (rtsp_server_session_reset_timeout p).
Proof.
  unfold rtsp_server_session_reset_timeout. keep. apply keeps_upd_session. intros s.
  unfold set_session_timer. destruct (ss_timer s); [destruct (_ <? _)|]; done.
Qed.

(** The id that the loop ends with is new. *)
Lemma new_session_id_triple X fuel :
  triple (inv X) (new_session_id fuel) (fun id s => inv X s ∧
    ∀ session_id, id = Ok session_id → Forall (fun ss => same_id (ss_id ss) session_id = false)
                                         (sv_sessions s)).
Proof.
  induction fuel as [|fuel IH]; cbn [new_session_id]; [apply triple_undefined|].
  eapply triple_bind; [apply preserves_gets|]. intros n.
  eapply triple_bind; [apply keeps_draws|]. intros ?. cbv beta zeta.
  destruct (env_random64 n) as [id64|e|].
  - apply triple_gets. intros s Hs. destruct (existsb _ _) eqn:Hx.
    { intros id s' Hk. by apply (IH s id s'). }
    intros id s' [= <- <-]. split; [done|]. intros ? [= <-].
    apply Forall_forall. intros ss Hss. rewrite <- not_true_iff_false. intros Heq.
    rewrite <- not_true_iff_false in Hx. apply Hx, existsb_exists.
    exists ss. split; [by apply list_elem_of_In|done].
  - apply triple_ret. intros s Hs. by split.
  - apply triple_undefined.
Qed.

(** A new session without medias. *)
Lemma inv_add_session X s ss :
  (ss_ptr ss < sv_next_ptr s)%nat → (ss_ptr ss ∉ ss_ptr <$> sv_sessions s) →
  Forall (fun ss' => same_id (ss_id ss') (ss_id ss) = false) (sv_sessions s) →
  ss_medias ss = [] → ss_media_count ss = 0 → inv X s →
  inv X (set_sv_session_count (u32 (sv_session_count s + 1))
           (set_sv_sessions (sv_sessions s ++ [ss]) s)).
Proof.
  intros Hlt Hnew Hid Hm Hc [[? ? ? Hcount ? ? ? ? Hidle] Hw]. constructor; [|done].
  constructor; cbn; try done.
  - rewrite fmap_app. by apply NoDup_snoc.
  - rewrite fmap_app, concat_app. cbn. by rewrite Hm, !app_nil_r.
  - rewrite fmap_app. apply NoDup_snoc; [done|]. intros (ss' & Heq & Hin)%list_elem_of_fmap.
    rewrite Forall_forall in Hid. specialize (Hid ss' Hin). unfold same_id, strneq, streq in Hid.
    rewrite bool_decide_eq_false in Hid. by apply Hid.
  - by rewrite Hcount, Zlen_app, u32_succ.
  - apply Forall_app. split; [done|]. apply Forall_singleton. constructor; [done| | |].
    + by rewrite Hm, Hc.
    + rewrite Hm. constructor.
    + by rewrite Hm.
  - eapply Forall_impl; [exact Hidle|]. intros p Hp. rewrite fmap_app. by apply elem_of_app; left.
Qed.

(** The draws of the loop change neither sessions nor addresses. *)
Lemma new_session_id_same fuel s id s' :
  new_session_id fuel s = Some (id, s') →
  sv_sessions s' = sv_sessions s ∧ sv_next_ptr s' = sv_next_ptr s.
Proof.
  revert s. induction fuel as [|fuel IH]; intros s; [done|]. cbn [new_session_id].
  unfold mbind, SM_bind. cbn -[session_id_text same_id]. destruct (env_random64 _); [|by intros [= _ <-]|done].
  destruct (existsb _ _); [|by intros [= _ <-]]. by intros (-> & ->)%IH.
Qed.

Lemma keeps_session_add X timeout uri : preserves (inv X) (rtsp_server_session_add timeout uri).
Proof.
  eapply triple_bind; [apply alloc_triple|]. intros p.
  cbv zeta. match goal with |- context [let '(_, _) := ?x in _] => destruct x as [ret ss] end.
  destruct (ret <? 0); [apply triple_ret; by intros s []|].
  intros s r s' (Hinv & Hlt & Hnew & _) (id & s1 & Hid & H)%bind_inv.
  destruct (new_session_id_triple X _ _ _ _ Hinv Hid) as [Hinv1 Hfresh].
  destruct (new_session_id_same _ _ _ _ Hid) as [Es En].
  destruct id as [session_id|e|]; [|by injection H as _ <-|by injection H as _ <-].
  injection H as _ <-. apply inv_add_session; try done; cbn.
  - by rewrite En.
  - by rewrite Es.
  - by apply Hfresh.
Qed.

Lemma keeps_session_find X id : preserves (inv X) (rtsp_server_session_find id).
Proof. unfold rtsp_server_session_find. keep. Qed.

Lemma keeps_media_find X p path : preserves (inv X) (rtsp_server_session_media_find p path).
Proof. unfold rtsp_server_session_media_find. keep. Qed.
(** The medias of one session change. *)
Lemma inv_upd_medias X p f s a s' :
  (∀ ss, ss_ptr (f ss) = ss_ptr ss ∧ ss_id (f ss) = ss_id ss) →
  (∀ ss, ss ∈ sv_sessions s → ss_ptr ss = p → wf_session (sv_next_ptr s) ss →
         wf_session (sv_next_ptr s) (f ss)) →
  NoDup (sm_ptr <$> concat (ss_medias <$> update_obj ss_ptr p f (sv_sessions s))) →
  inv X s → upd_session p f s = Some (a, s') → inv X s'.
Proof.
  intros Hf Hwf Hnd [[] Hw] (_ & ->)%upd_session_inv. constructor; [|done].
  constructor; cbn; try done.
  - rewrite update_obj_addr; [done|]. intros x. apply Hf.
  - rewrite (update_obj_fmap ss_ptr id_key); [done|].
    intros x. unfold id_key. by destruct (Hf x) as (_ & ->).
  - unfold Zlen. by rewrite update_obj_length.
  - apply update_obj_Forall; [|done]. auto.
  - rewrite update_obj_addr; [done|]. intros x. apply Hf.
Qed.

Definition add_media (m : rtsp_server_session_media) (ss : rtsp_server_session) :=
  set_ss_media_count (u32 (ss_media_count ss + 1)) (set_ss_medias (ss_medias ss ++ [m]) ss).

Definition del_media (p : ptr) (ss : rtsp_server_session) :=
  set_ss_media_count (u32 (ss_media_count ss - 1))
    (set_ss_medias (delete_obj sm_ptr p (ss_medias ss)) ss).

Lemma add_media_addrs p m l :
  is_Some (find_obj ss_ptr p l) →
  concat (ss_medias <$> update_obj ss_ptr p (add_media m) l) ≡ₚ m :: concat (ss_medias <$> l).
Proof.
  induction l as [|ss l IH]; cbn; [by intros []|]. case_decide; cbn; [intros _|intros H'].
  - rewrite <- app_assoc. cbn. by rewrite <- Permutation_middle.
  - rewrite IH by done. by rewrite <- Permutation_middle.
Qed.

Lemma del_media_addrs p q l :
  concat (ss_medias <$> update_obj ss_ptr p (del_media q) l) `sublist_of` concat (ss_medias <$> l).
Proof.
  induction l as [|ss l IH]; cbn; [done|]. case_decide; cbn.
  - apply sublist_app; [apply delete_obj_sublist|done].
  - by apply sublist_app.
Qed.

Lemma find_path_None (path : cstr) (l : list rtsp_server_session_media) :
  List.find (fun m => streq (sm_path m) path) l = None → path ∉ sm_path <$> l.
Proof.
  intros H (m & -> & Hm)%list_elem_of_fmap. eapply find_none in H; [|by apply list_elem_of_In].
  unfold streq in H. by rewrite bool_decide_eq_false in H.
Qed.

Lemma keeps_media_add X p uri path : preserves (inv X) (rtsp_server_session_media_add p uri path).
Proof.
  destruct path as [path|]; [|apply preserves_ret]. unfold rtsp_server_session_media_add.
  intros s r s' Hinv (found & s1 & Hfound & H)%bind_inv.
  unfold rtsp_server_session_media_find in Hfound.
  apply bind_inv in Hfound as (ss & s2 & (Hss & ->)%session_at_inv & [= <- ->]).
  destruct (List.find _ _) eqn:Hf; [by injection H as _ <-|]. cbn [fmap option_fmap option_map] in H.
  apply bind_inv in H as (m & s3 & Ha & H).
  destruct (alloc_triple X _ _ _ Hinv Ha) as (Hinv3 & Hlt & _ & Hnew & _).
  assert (sv_sessions s3 = sv_sessions s1) as Es.
  { revert Ha. unfold alloc. cbn. by intros [= _ <-]. }
  apply bind_inv in H as ([] & s4 & Hu & [= _ <-]).
  pose proof (proj1 (upd_session_inv _ _ _ _ _ Hu)) as Hsome.
  eapply (inv_upd_medias X p (add_media (SessionMedia m p uri path 0 false))); [..|exact Hu]; [done| | |done].
  - intros ss' Hin Hp Hwf. rewrite <- Es in Hss.
    assert (ss' = ss) as ->.
    { eapply (find_obj_unique ss_ptr); [|exact Hss|exact Hin|done]. by destruct Hinv3 as [[]]. }
    destruct Hwf as [? Hcount ? ?]. constructor; cbn; [done|by rewrite Hcount, Zlen_app, u32_succ| |].
    + rewrite fmap_app. apply NoDup_snoc; [done|]. by apply find_path_None.
    + apply Forall_app. split; [done|]. by apply Forall_singleton.
  - rewrite add_media_addrs by done. cbn. constructor; [done|]. by destruct Hinv3 as [[]].
Qed.

Lemma keeps_media_remove X p m : preserves (inv X) (rtsp_server_session_media_remove p m).
Proof.
  intros s r s' Hinv (ss & s1 & (Hss & ->)%session_at_inv & H)%bind_inv.
  case_bool_decide as Hm; [|by injection H as _ <-].
  apply bind_inv in H as ([] & s4 & Hu & [= _ <-]).
  eapply (inv_upd_medias X p (del_media m)); [..|exact Hu]; [done| | |done].
  - intros ss' Hin Hp Hwf. assert (ss' = ss) as ->.
    { eapply (find_obj_unique ss_ptr); [|exact Hss|exact Hin|done]. by destruct Hinv as [[]]. }
    destruct Hwf as [? Hcount ? ?].
    constructor; cbn; [done| |by apply delete_obj_NoDup|by apply delete_obj_Forall].
    by rewrite Hcount, (delete_obj_length sm_ptr), u32_pred.
  - eapply sublist_NoDup; [|apply fmap_sublist, del_media_addrs]. by destruct Hinv as [[]].
Qed.

(** The session itself, with what is left of its medias. *)
Lemma inv_del_session X p s :
  is_Some (find_obj ss_ptr p (sv_sessions s)) → inv X s →
  inv X (set_sv_idle (filter (fun q => q ≠ p) (sv_idle s))
           (set_sv_session_count (u32 (sv_session_count s - 1))
              (set_sv_sessions (delete_obj ss_ptr p (sv_sessions s)) s))).
Proof.
  intros [ss Hss] [[? Hm ? Hcount ? ? ? ? Hidle] Hw]. constructor; [|done]. constructor; cbn; try done.
  - by apply delete_obj_NoDup.
  - eapply sublist_NoDup; [exact Hm|]. apply fmap_sublist. clear.
    induction (sv_sessions s) as [|ss l IH]; cbn; [done|].
    case_decide; [by apply sublist_inserts_l|by apply sublist_app].
  - by apply delete_obj_NoDup.
  - rewrite Hcount, (delete_obj_length ss_ptr), u32_pred; [done|].
    apply find_obj_Some in Hss as [? <-]. by apply list_elem_of_fmap_2.
  - by apply delete_obj_Forall.
  - apply Forall_forall. intros q [Hq Hin]%list_elem_of_filter. rewrite Forall_forall in Hidle.
    apply Hidle in Hin as (ss' & -> & Hin')%list_elem_of_fmap.
    apply list_elem_of_fmap_2. by apply delete_obj_other.
Qed.
(** The removal of a media leaves the sessions where they are. *)
Lemma media_remove_addrs p m l :
  preserves (fun s => ss_ptr <$> sv_sessions s = l) (rtsp_server_session_media_remove p m).
Proof.
  unfold rtsp_server_session_media_remove. keep.
  intros s r s' <- (_ & ->)%upd_session_inv. cbn. by rewrite update_obj_addr.
Qed.

Lemma is_Some_find {A} (addr : A → ptr) p l : is_Some (find_obj addr p l) ↔ p ∈ addr <$> l.
Proof.
  rewrite <- not_eq_None_Some, find_obj_None. split; [|tauto].
  intros H. destruct (decide (p ∈ addr <$> l)); tauto.
Qed.

Lemma keeps_session_remove X p : preserves (inv X) (rtsp_server_session_remove p).
Proof.
  intros s r s' Hinv H. unfold rtsp_server_session_remove in H.
  apply bind_inv in H as (sessions & s1 & [= <- ->] & H).
  destruct (find_obj _ _ _) as [ss|] eqn:Hf; [|by injection H as _ <-].
  apply bind_inv in H as ([] & s2 & Hloop & [= _ <-]).
  apply inv_del_session.
  - apply is_Some_find. assert (p ∈ ss_ptr <$> sv_sessions s1) as Hp by (apply is_Some_find; eauto).
    revert Hp. enough (ss_ptr <$> sv_sessions s2 = ss_ptr <$> sv_sessions s1) as -> by done.
    eapply (preserves_for_each (fun s => ss_ptr <$> sv_sessions s = ss_ptr <$> sv_sessions s1));
      [|reflexivity|exact Hloop].
    intros m. apply preserves_ignore, media_remove_addrs.
  - eapply preserves_for_each; [|exact Hinv|exact Hloop].
    intros m. apply preserves_ignore, keeps_media_remove.
Qed.

End session.

#[export] Hint Resolve keeps_reset_timeout keeps_session_add keeps_session_find keeps_media_find
  keeps_media_add keeps_media_remove keeps_session_remove : keeps.

(** ** Pending requests *)

Lemma keeps_request_add X conn timeout : preserves (inv X) (rtsp_server_pending_request_add conn timeout).
Proof.
  eapply triple_bind; [apply alloc_triple|]. intros p.
  intros s r s' ([[] Hw] & Hlt & _ & _ & Hnew) H. revert H. cbn. intros [= _ <-].
  constructor.
  - constructor; cbn; try done.
    + rewrite fmap_app. by apply NoDup_snoc.
    + match goal with H : sv_pending_count s = _ |- _ => by rewrite H, Zlen_app, u32_succ end.
    + apply Forall_app. split; [done|]. apply Forall_singleton. by constructor.
  - apply Forall_app. split; [done|]. apply Forall_singleton. by right.
Qed.

Lemma keeps_request_find X p : preserves (inv X) (rtsp_server_pending_request_find p).
Proof. unfold rtsp_server_pending_request_find. keep. Qed.

Lemma keeps_request_media_add X p m : preserves (inv X) (rtsp_server_pending_request_media_add p m).
Proof.
  unfold rtsp_server_pending_request_media_add. keep. apply keeps_upd_request.
  intros r. split_and!; [done| |done]. intros n []. constructor; cbn; [done| |].
  - match goal with H : pr_media_count r = _ |- _ => by rewrite H, Zlen_app, u32_succ end.
  - apply Forall_app. split; [done|]. apply Forall_singleton. by left.
Qed.

Lemma keeps_request_media_remove X p m :
  preserves (inv X) (rtsp_server_pending_request_media_remove p m).
Proof.
  intros s a s' [Hwf Hw] (r & s1 & (Hr & ->)%request_at_inv & H)%bind_inv.
  case_bool_decide as Hm; [|by injection H as _ <-].
  apply bind_inv in H as ([] & s4 & (_ & ->)%upd_request_inv & [= _ <-]).
  constructor; [|apply update_obj_Forall; [|done]; auto].
  destruct Hwf as [? ? ? ? ? Hnd ? ? ?]. constructor; cbn; try done.
  - by rewrite update_obj_addr.
  - unfold Zlen. by rewrite update_obj_length.
  - apply update_obj_Forall; [|done]. intros x Hin Hp [].
    assert (x = r) as -> by (eapply (find_obj_unique pr_ptr); done).
    constructor; cbn; [done| |by apply delete_obj_Forall].
    match goal with H : pr_media_count r = _ |- _ => rewrite H end.
    by rewrite (delete_obj_length pm_ptr), u32_pred.
Qed.

Lemma request_media_remove_addrs p m l :
  preserves (fun s => pr_ptr <$> sv_pending s = l) (rtsp_server_pending_request_media_remove p m).
Proof.
  unfold rtsp_server_pending_request_media_remove. keep.
  intros s r s' <- (_ & ->)%upd_request_inv. cbn. by rewrite update_obj_addr.
Qed.

(** A removed request is not among the pending ones. *)
Lemma request_remove_triple X p :
  triple (inv (p :: X)) (rtsp_server_pending_request_remove p) (fun _ => inv X).
Proof.
  intros s a s' Hinv H. unfold rtsp_server_pending_request_remove in H.
  apply bind_inv in H as (pending & s1 & [= <- ->] & H).
  assert (∀ s, inv (p :: X) s → p ∉ pr_ptr <$> sv_pending s → inv X s) as Hgone.
  { intros s0 [Hwf Hw] Hp. constructor; [done|]. apply Forall_forall. intros r Hr.
    unfold waiting in Hw. rewrite Forall_forall in Hw.
    destruct (Hw r Hr) as [[Heq|?]%elem_of_cons|?]; [|by left|by right].
    exfalso. apply Hp. rewrite <- Heq. by apply list_elem_of_fmap_2. }
  destruct (find_obj _ _ _) as [r|] eqn:Hf.
  - apply bind_inv in H as ([] & s2 & Hloop & [= _ <-]).
    assert (inv (p :: X) s2) as Hinv2.
    { eapply preserves_for_each; [|exact Hinv|exact Hloop].
      intros m. apply preserves_ignore, keeps_request_media_remove. }
    assert (p ∈ pr_ptr <$> sv_pending s2) as Hp.
    { enough (pr_ptr <$> sv_pending s2 = pr_ptr <$> sv_pending s1) as ->
        by (apply is_Some_find; eauto).
      eapply (preserves_for_each (fun s => pr_ptr <$> sv_pending s = pr_ptr <$> sv_pending s1));
        [|reflexivity|exact Hloop].
      intros m. apply preserves_ignore, request_media_remove_addrs. }
    apply Hgone; [|cbn; apply delete_obj_gone; by destruct Hinv2 as [[]]].
    destruct Hinv2 as [[] Hw]. constructor; [|by apply delete_obj_Forall].
    constructor; cbn; try done; [by apply delete_obj_NoDup| |by apply delete_obj_Forall].
    match goal with H : sv_pending_count s2 = _ |- _ => rewrite H end.
    by rewrite (delete_obj_length pr_ptr), u32_pred.
  - injection H as _ <-. apply Hgone; [done|]. by apply find_obj_None.
Qed.

Lemma keeps_request_remove X p : preserves (inv X) (rtsp_server_pending_request_remove p).
Proof.
  eapply triple_weaken; [apply (request_remove_triple X)| |done].
  intros s. apply inv_weaken. intros q. by right.
Qed.

#[export] Hint Resolve keeps_request_add keeps_request_find keeps_request_media_add
  keeps_request_remove : keeps.

(** ** Replies *)

Lemma quiet_response f : quiet (fun r => set_pr_response (f (pr_response r)) r).
Proof. intros r. split_and!; [done| |done]. by intros n []. Qed.

Lemma quiet_first_reply n : quiet (set_pr_first_reply n).
Proof. intros r. split_and!; [done| |done]. by intros m []. Qed.

Lemma quiet_header h : quiet (set_pr_header h).
Proof. intros r. split_and!; [done| |done]. by intros m []. Qed.

Lemma quiet_body b : quiet (set_pr_body b).
Proof. intros r. split_and!; [done| |done]. by intros m []. Qed.

Lemma quiet_media_replied media :
  quiet (fun r => set_pr_medias (update_obj pm_media media (set_pm_replied 1) (pr_medias r)) r).
Proof.
  intros r. split_and!; [done| |done]. intros n []. constructor; cbn; [done| |].
  - unfold Zlen. by rewrite update_obj_length.
  - apply update_obj_Forall; [|done]. intros m _ _ _. by right.
Qed.

Lemma inert_op op : inert (set_ss_op op).
Proof. done. Qed.

Lemma keeps_op_done X p : preserves (inv X) (op_done p).
Proof. by apply keeps_upd_session. Qed.

#[export] Hint Resolve keeps_op_done : keeps.

(** Marking a request as replied: one that is in a callback is in [X] already,
    the others are removed. *)
Lemma keeps_request_replied X p rest :
  triple (inv (p :: X)) rest (fun _ => inv X) → preserves (inv X) (request_replied p rest).
Proof.
  intros Hrest s [] s' Hinv ([] & s1 & Hu & H)%bind_inv.
  assert (inv (p :: X) s1) as Hinv1.
  { eapply upd_request_except; [|exact Hinv|exact Hu]. intros r. split; [done|]. by intros n []. }
  apply upd_request_inv in Hu as ((r0 & Hr0) & ->).
  apply bind_inv in H as (r & s2 & (Hr & ->)%request_at_inv & H).
  cbn in Hr. rewrite find_update_obj, Hr0 in Hr by done. injection Hr as <-. cbn in H.
  destruct (pr_in_callback r0 =? 0) eqn:Hc; [by eapply Hrest|].
  injection H as <-. apply inv_weaken with (p :: X); [|done].
  intros q [->|?]%elem_of_cons; [|done].
  apply find_obj_Some in Hr0 as [Hin <-]. destruct Hinv as [_ Hw].
  unfold waiting in Hw. rewrite Forall_forall in Hw. destruct (Hw _ Hin) as [?|[Hz _]]; [done|].
  rewrite Hz in Hc. discriminate.
Qed.

Lemma triple_then {A B} P Q (m : SM A) (k : SM B) :
  triple P m (fun _ => Q) → preserves Q k → triple P (m;; k) (fun _ => Q).
Proof. intros Hm Hk. by eapply triple_bind. Qed.

Lemma triple_ignore {A} P Q (m : SM A) :
  triple P m (fun _ => Q) → triple P (ignore m) (fun _ => Q).
Proof. intros Hm. apply triple_then; [done|apply preserves_ret]. Qed.

Lemma keeps_remove_torn_down X p : preserves (inv X) (remove_torn_down p).
Proof. unfold remove_torn_down. keep. Qed.

#[export] Hint Resolve keeps_remove_torn_down : keeps.

Lemma keeps_replied_remove X p :
  preserves (inv X) (request_replied p (ignore (rtsp_server_pending_request_remove p))).
Proof. apply keeps_request_replied, triple_ignore, request_remove_triple. Qed.

Lemma keeps_replied_session X p session rest :
  preserves (inv X) rest →
  preserves (inv X) (request_replied p
    (op_done session;; ignore (rtsp_server_pending_request_remove p);; rest)).
Proof.
  intros Hrest. apply keeps_request_replied. eapply triple_bind; [apply keeps_op_done|]. intros ?.
  apply triple_then; [apply triple_ignore, request_remove_triple|done].
Qed.

Lemma keeps_replied_op X p session :
  preserves (inv X) (request_replied p
    (op_done session;; ignore (rtsp_server_pending_request_remove p))).
Proof.
  apply keeps_request_replied. eapply triple_bind; [apply keeps_op_done|]. intros ?.
  apply triple_ignore, request_remove_triple.
Qed.

#[export] Hint Resolve keeps_replied_remove keeps_replied_session keeps_replied_op : keeps.

Section reply.
Context `{T : LocalTime} `{E : Env}.

Lemma keeps_upd_response X p f : preserves (inv X) (upd_response p f).
Proof. apply keeps_upd_request, quiet_response. Qed.

Hint Resolve keeps_upd_response : keeps.

Lemma keeps_write_message X w : preserves (inv X) (write_message w).
Proof. unfold write_message. keep. Qed.

Lemma keeps_send_conn X conn text : preserves (inv X) (send_conn conn text).
Proof. unfold send_conn. keep. Qed.

Lemma keeps_send_all X text : preserves (inv X) (send_all text).
Proof. unfold send_all. keep. Qed.

Hint Resolve keeps_write_message keeps_send_conn keeps_send_all : keeps.

Lemma keeps_fill_response X p code string : preserves (inv X) (fill_response p code string).
Proof. unfold fill_response. keep. Qed.

Hint Resolve keeps_fill_response : keeps.

Lemma keeps_error_response X p status : preserves (inv X) (error_response p status).
Proof. unfold error_response. keep. Qed.

Lemma keeps_copy_response_ext X p ext n : preserves (inv X) (copy_response_ext p ext n).
Proof. unfold copy_response_ext. keep. Qed.

Hint Resolve keeps_error_response keeps_copy_response_ext : keeps.

Lemma keeps_finish_response X p conn ext n body :
  preserves (inv X) (finish_response p conn ext n body).
Proof. unfold finish_response. keep. Qed.

Lemma keeps_reply_error X p status : preserves (inv X) (reply_error p status).
Proof. unfold reply_error. keep. Qed.

Hint Resolve keeps_finish_response keeps_reply_error : keeps.

Lemma keeps_reply_to_describe X request status ext n sd :
  preserves (inv X) (rtsp_server_reply_to_describe request status ext n sd).
Proof. unfold rtsp_server_reply_to_describe, describe_body. keep. Qed.

Lemma keeps_reply_to_announce X request status ext n :
  preserves (inv X) (rtsp_server_reply_to_announce request status ext n).
Proof. unfold rtsp_server_reply_to_announce, announce_body. keep. Qed.

(** A removal is only registered for a session that is there. *)
Lemma keeps_idle_add {A} X p (b : rtsp_server_session → bool) (rest : SM A) :
  preserves (inv X) rest →
  preserves (inv X) (s ← session_at p;
                     when (b s) (modify (fun sv => set_sv_idle (sv_idle sv ++ [p]) sv));; rest).
Proof.
  intros Hrest s u s' Hinv (ss & s1 & (Hss & ->)%session_at_inv & H)%bind_inv.
  apply bind_inv in H as ([] & s2 & Hw & H). eapply Hrest; [|exact H].
  destruct (b ss); injection Hw as <-; [|done].
  destruct Hinv as [[? ? ? ? ? ? ? ? Hidle] Hwait]. constructor; [|done]. constructor; cbn; try done.
  apply Forall_app. split; [done|]. apply Forall_singleton, is_Some_find. by eexists.
Qed.

Lemma keeps_setup_body X request session status p1 p2 v ssrc ext n :
  preserves (inv X) (setup_body request session status p1 p2 v ssrc ext n).
Proof. unfold setup_body. keep. Qed.

Hint Resolve keeps_setup_body : keeps.

Lemma keeps_upd_userdata X p u : preserves (inv X) (upd_media p (set_sm_userdata u)).
Proof. by apply keeps_upd_media. Qed.

Hint Resolve keeps_upd_userdata : keeps.

Lemma keeps_reply_to_setup X request media status p1 p2 v ssrc ext n u :
  preserves (inv X) (rtsp_server_reply_to_setup request media status p1 p2 v ssrc ext n u).
Proof.
  unfold rtsp_server_reply_to_setup. destruct request as [request|], media as [media_ctx|]; try solve [keep].
  apply preserves_bind; [keep|]. intros media. cbv zeta. apply preserves_bind; [keep|]. intros ret.
  destruct (ret <? 0); [keep|]. apply preserves_bind; [keep|]. intros _.
  apply preserves_bind; [keep|]. intros [[ret' error_status] failed].
  apply preserves_bind; [keep|]. intros _.
  apply (keeps_idle_add X _ (fun s => failed && (ss_media_count s =? 1))).
  keep.
Qed.
Hint Resolve keeps_reply_to_describe keeps_reply_to_announce keeps_reply_to_setup : keeps.

Lemma keeps_all_replied X p ret es : preserves (inv X) (all_replied p ret es).
Proof. unfold all_replied. keep. Qed.

Hint Resolve keeps_all_replied : keeps.

Lemma keeps_media_reply_checks X p m status range reply :
  (∀ conn, preserves (inv X) (reply conn)) →
  preserves (inv X) (media_reply_checks p m status range reply).
Proof. intros H. unfold media_reply_checks. keep. Qed.

Lemma keeps_media_replied X p m session upd last :
  inert upd → preserves (inv X) last → preserves (inv X) (media_replied p m session upd last).
Proof.
  intros Hu Hl. pose proof (keeps_upd_session X session upd Hu). unfold media_replied. keep.
  apply keeps_upd_request, quiet_media_replied.
Qed.

Lemma keeps_last_response X p conn status fields ext n :
  preserves (inv X) (last_response p conn status fields ext n).
Proof. unfold last_response. keep. Qed.

Lemma keeps_first_reply X p session upd : inert upd → preserves (inv X) (first_reply p session upd).
Proof.
  intros Hu. pose proof (keeps_upd_session X session upd Hu). unfold first_reply. keep.
  apply keeps_upd_request, quiet_first_reply.
Qed.

Lemma keeps_media_reply_end X p session replied rest :
  preserves (inv X) rest → preserves (inv X) (media_reply_end p session replied rest).
Proof. intros H. unfold media_reply_end. keep. Qed.

Hint Resolve keeps_media_reply_checks keeps_media_replied keeps_last_response keeps_first_reply
  keeps_media_reply_end : keeps.

Lemma keeps_play_body X p m session status range scale sv sq rv rt ext n :
  preserves (inv X) (play_body p m session status range scale sv sq rv rt ext n).
Proof.
  unfold play_body. apply keeps_media_reply_checks. intros conn.
  apply preserves_bind; [by apply keeps_first_reply|]. keep. by apply keeps_media_replied; [|keep].
Qed.

Lemma keeps_pause_body X p m session status range ext n :
  preserves (inv X) (pause_body p m session status range ext n).
Proof.
  unfold pause_body. apply keeps_media_reply_checks. intros conn.
  apply preserves_bind; [by apply keeps_first_reply|]. keep. by apply keeps_media_replied; [|keep].
Qed.

Lemma keeps_record_body X p m session status range ext n :
  preserves (inv X) (record_body p m session status range ext n).
Proof.
  unfold record_body. apply keeps_media_reply_checks. intros conn.
  apply preserves_bind; [by apply keeps_first_reply|]. keep. by apply keeps_media_replied; [|keep].
Qed.

Lemma keeps_teardown_body X p m session status ext n :
  preserves (inv X) (teardown_body p m session status ext n).
Proof.
  unfold teardown_body. apply keeps_media_reply_checks. intros conn.
  by apply keeps_media_replied; [|keep].
Qed.

Hint Resolve keeps_play_body keeps_pause_body keeps_record_body keeps_teardown_body : keeps.

Lemma keeps_reply_to_record X request media status range ext n :
  preserves (inv X) (rtsp_server_reply_to_record request media status range ext n).
Proof. unfold rtsp_server_reply_to_record. keep. Qed.

Lemma keeps_next_cseq X : preserves (inv X) next_cseq.
Proof. unfold next_cseq. keep. Qed.

Hint Resolve keeps_reply_to_record keeps_next_cseq : keeps.

Lemma keeps_send_request X header body : preserves (inv X) (send_request header body).
Proof. unfold send_request. keep. Qed.

Hint Resolve keeps_send_request : keeps.

Lemma keeps_send_teardown X uri id ext n : preserves (inv X) (rtsp_server_send_teardown uri id ext n).
Proof. unfold rtsp_server_send_teardown. keep. Qed.

(** Whatever the application calls. *)
Lemma keeps_run_api_call X c : preserves (inv X) (run_api_call c).
Proof.
  destruct c; cbn [run_api_call]; try solve [auto with keeps nocore];
  unfold rtsp_server_reply_to_play, rtsp_server_reply_to_pause, rtsp_server_reply_to_teardown,
    rtsp_server_announce, rtsp_server_send_interleaved; keep.
Qed.

Hint Resolve keeps_run_api_call : keeps.

Lemma keeps_callback X o : preserves (inv X) (callback o).
Proof. unfold callback. keep. Qed.
End reply.

#[export] Hint Resolve keeps_upd_response keeps_write_message keeps_send_conn keeps_fill_response
  keeps_error_response keeps_reply_to_announce keeps_reply_to_record keeps_send_teardown
  keeps_run_api_call keeps_callback : keeps.

(** ** Errors of the parsers are positive error numbers *)

Definition pos_err {A} (r : res A) : Prop := ∀ e, r = Err e → 0 < e.

Lemma pos_err_ok {A} (a : A) : pos_err (Ok a).
Proof. by intros e [=]. Qed.

Lemma pos_err_err {A} e : 0 < e → pos_err (@Err A e).
Proof. by intros H e' [= <-]. Qed.

Lemma pos_err_bind {A B} (m : res A) (f : A → res B) :
  pos_err m → (∀ a, pos_err (f a)) → pos_err (mbind f m).
Proof.
  intros Hm Hf e H. destruct m as [a|e'|]; cbn in H.
  - by apply (Hf a).
  - injection H as <-. by apply Hm.
  - discriminate.
Qed.

Lemma pos_err_if b e : 0 < e → pos_err (return_err_if b e).
Proof. destruct b; cbn; intros; [by apply pos_err_err|apply pos_err_ok]. Qed.

Ltac pos :=
  repeat first
    [ apply pos_err_ok
    | apply pos_err_if; reflexivity
    | apply pos_err_err; reflexivity
    | apply pos_err_bind; [|intros ?]
    | progress cbv zeta
    | match goal with |- pos_err (match ?x with _ => _ end) => destruct x end ].

Lemma parse_internal_pos url : pos_err (rtsp_url_parse_internal url).
Proof.
  unfold rtsp_url_parse_internal, parse_authority, parse_host_and_port, split_host_and_port,
    parse_port, parse_path. pos.
Qed.

Lemma parse_host_and_path_pos url : pos_err (rtsp_url_parse_host_and_path url).
Proof. apply pos_err_bind; [apply parse_internal_pos|intros; apply pos_err_ok]. Qed.

Lemma parse_path_pos url : pos_err (rtsp_url_parse_path url).
Proof. apply pos_err_bind; [apply parse_internal_pos|intros; apply pos_err_ok]. Qed.

(** ** Handlers

    A handler starts on a waiting request, and ends with an error or with the
    invariant for all requests. *)

Definition handled (request : ptr) (ret : Z) (s : rtsp_server) : Prop :=
  inv [request] s ∧ (0 <= ret → inv [] s).

(** The values an operation may return. *)
Definition yields {A} (φ : A → Prop) (m : SM A) : Prop := triple (fun _ => True) m (fun a _ => φ a).

Lemma yields_ret {A} (φ : A → Prop) a : φ a → yields φ (mret a).
Proof. intros H. by apply triple_ret. Qed.

Lemma yields_undefined {A} (φ : A → Prop) : yields φ undefined.
Proof. apply triple_undefined. Qed.

Lemma yields_bind {A B} (φ : B → Prop) (m : SM A) (f : A → SM B) :
  (∀ a, yields φ (f a)) → yields φ (mbind f m).
Proof. intros Hf. apply triple_bind with (fun _ _ => True); [done|]. intros a. apply Hf. Qed.

Lemma triple_yields {A} I (φ : A → Prop) (m : SM A) :
  preserves I m → yields φ m → triple I m (fun a s => I s ∧ φ a).
Proof. intros H1 H2 s a s' Hs Hm. split; [by eapply H1|]. by eapply H2. Qed.

Lemma inv_nil_handled request ret s : inv [] s → handled request ret s.
Proof. intros H. split; [|done]. eapply inv_weaken; [|done]. intros ? Hx. inversion Hx. Qed.

Lemma preserves_handled {A} request (ret : A → Z) (m : SM A) :
  preserves (inv []) m → triple (inv []) m (fun a => handled request (ret a)).
Proof. intros H s a s' Hs Hm. apply inv_nil_handled. by eapply H. Qed.

(** An update of a request that is in [X]. *)
Lemma keeps_upd_member X p f :
  (∀ r, pr_ptr (f r) = pr_ptr r ∧ (∀ n, wf_pending_request n r → wf_pending_request n (f r))) → p ∈ X →
  preserves (inv X) (upd_request p f).
Proof.
  intros Hf Hp s a s' Hinv H. eapply inv_weaken; [|by eapply upd_request_except].
  by intros q [->|?]%elem_of_cons.
Qed.

Lemma keeps_in_callback p n : preserves (inv [p]) (upd_request p (set_pr_in_callback n)).
Proof. apply keeps_upd_member; [|left]. intros r. split; [done|]. by intros m []. Qed.

Lemma keeps_set_op X p op : preserves (inv X) (upd_session p (set_ss_op op)).
Proof. by apply keeps_upd_session. Qed.

#[export] Hint Resolve keeps_in_callback keeps_set_op : keeps.

(** The end of the handlers with a callback, on a request that was in it; [rest]
    is what is done for a request with a reply. *)
Lemma request_done_triple request ret rest :
  ret <= 0 → triple (inv [request]) rest (fun _ => inv []) →
  triple (inv [request])
    (upd_request request (set_pr_in_callback 0);;
     r ← request_at request;
     when ((ret =? 0) && negb (pr_replied r =? 0)) rest)
    (fun _ => handled request ret).
Proof.
  intros Hret Hrest s [] s' Hinv ([] & s1 & Hu & H)%bind_inv.
  assert (inv [request] s1) as Hinv1 by (by eapply keeps_in_callback).
  apply upd_request_inv in Hu as ((r0 & Hr0) & ->).
  apply bind_inv in H as (r & s2 & (Hr & ->)%request_at_inv & H).
  cbn in Hr. rewrite find_update_obj, Hr0 in Hr by done. injection Hr as <-.
  destruct (ret =? 0) eqn:Hz; bool_to_prop.
  - destruct (pr_replied _ =? 0) eqn:Hrep; cbn in H, Hrep.
    + injection H as <-. apply inv_nil_handled. destruct Hinv1 as [Hwf Hw].
      constructor; [done|]. apply Forall_forall. intros r Hr. right.
      unfold waiting in Hw. rewrite Forall_forall in Hw.
      destruct (Hw _ Hr) as [Hp%list_elem_of_singleton|?]; [|done].
      rewrite (find_obj_unique pr_ptr request _ (set_pr_in_callback 0 r0) r
                 (wf_request_addrs _ Hwf)); [| |done|done].
      * split; [done|]. by bool_to_prop.
      * cbn. by rewrite find_update_obj, Hr0.
    + apply inv_nil_handled. by eapply Hrest.
  - injection H as <-. split; [done|]. intros. lia.
Qed.

Section handlers.
Context `{T : LocalTime} `{E : Env}.

Lemma remove_after request (before : SM unit) :
  preserves (inv [request]) before →
  triple (inv [request]) (before;; ignore (rtsp_server_pending_request_remove request))
    (fun _ => inv []).
Proof.
  intros H. eapply triple_bind; [exact H|]. intros ?. apply triple_ignore, request_remove_triple.
Qed.

Lemma callback_done_triple request ret (before : SM unit) :
  ret <= 0 → preserves (inv [request]) before →
  triple (inv [request]) (callback_done request ret before) (fun _ => handled request ret).
Proof. intros Hret Hb. apply request_done_triple; [done|]. by apply remove_after. Qed.

(** A handler: its steps, its end, and the value it returns. *)
Lemma handler_triple {A B} request (steps : SM A) (ret : A → Z) (fin : A → SM unit)
    (value : A → B) (retB : B → Z) :
  preserves (inv [request]) steps → yields (fun a => ret a <= 0) steps →
  (∀ a, ret a <= 0 → triple (inv [request]) (fin a) (fun _ => handled request (ret a))) →
  (∀ a, retB (value a) = ret a) →
  triple (inv []) (a ← steps; fin a;; mret (value a)) (fun b => handled request (retB b)).
Proof.
  intros Hs Hy Hf Hv s b s' Hinv (a & s1 & H1 & H)%bind_inv.
  apply bind_inv in H as (u & s2 & H2 & [= <- <-]). rewrite Hv.
  eapply Hf; [|..|exact H2].
  - by eapply Hy.
  - eapply Hs; [|exact H1]. by apply (inv_nil_handled request (-1)).
Qed.

Ltac yield :=
  repeat first
    [ apply yields_ret; unfold ENOENT, ENOSYS, EPROTO, EINVAL, ENOMEM; cbn; repeat case_match; lia
    | apply yields_undefined
    | apply yields_bind; intros ?
    | progress cbv zeta
    | match goal with |- yields _ (match ?x with _ => _ end) => destruct x eqn:? end ].

Lemma options_handled request :
  triple (inv []) (rtsp_server_options request) (handled request).
Proof.
  apply (preserves_handled request (fun r => r)). unfold rtsp_server_options, respond_now, remove_if_done. keep.
Qed.

Lemma keeps_session_with_media X id : preserves (inv X) (session_with_media id).
Proof. unfold session_with_media. keep. Qed.

Hint Resolve keeps_session_with_media : keeps.

Lemma get_parameter_handled request :
  triple (inv []) (rtsp_server_get_parameter request) (fun r => handled request r.1).
Proof.
  apply (preserves_handled request fst).
  unfold rtsp_server_get_parameter, get_parameter_steps, respond_now, remove_if_done. keep.
Qed.

Lemma describe_handled request :
  triple (inv []) (rtsp_server_describe request) (handled request).
Proof.
  unfold rtsp_server_describe. eapply triple_bind; [apply preserves_request_at|]. intros r. cbv zeta.
  apply (handler_triple request _ (fun ret => ret) (fun ret => callback_done request ret skip)
           (fun ret => ret) (fun ret => ret)); [keep| | |done].
  - pose proof (parse_host_and_path_pos (rq_uri (pr_header r))) as Hpos.
    destruct (rtsp_url_parse_host_and_path _) eqn:Hu; yield.
    specialize (Hpos e eq_refl). apply yields_ret. lia.
  - intros ret Hret. by apply callback_done_triple; [|keep].
Qed.

Lemma announce_req_handled request :
  triple (inv []) (rtsp_server_announce_req request) (handled request).
Proof.
  unfold rtsp_server_announce_req. eapply triple_bind; [apply preserves_request_at|]. intros r. cbv zeta.
  apply (handler_triple request _ (fun ret => ret) (fun ret => callback_done request ret skip)
           (fun ret => ret) (fun ret => ret)); [keep| | |done].
  - pose proof (parse_host_and_path_pos (rq_uri (pr_header r))) as Hpos.
    destruct (rtsp_url_parse_host_and_path _) eqn:Hu; yield.
    specialize (Hpos e eq_refl). apply yields_ret. lia.
  - intros ret Hret. by apply callback_done_triple; [|keep].
Qed.

(** *** Requests on a session *)

Definition session_fin (request : ptr) (r : Z * Z * option ptr) : SM unit :=
  let '(ret, status, session) := r in
  callback_done request ret (match session with Some p => op_done p | None => skip end).

Lemma session_request_handled request body :
  (∀ h session m, preserves (inv [request]) (body h session m)) →
  triple (inv []) (session_request request body) (fun r => handled request r.1).
Proof.
  intros Hbody. unfold session_request. eapply triple_bind; [apply preserves_request_at|]. intros r.
  cbv zeta. destruct (rq_session_id (pr_header r)) as [id|]; [|apply (preserves_handled request fst); keep].
  set (steps := match rtsp_url_parse_path _ with Ok _ => _ | Err _ => _ | Undef => _ end).
  enough (triple (inv []) (a ← steps; session_fin request a;; mret (a.1.1, a.1.2))
            (fun r => handled request r.1)) as H.
  { intros s b s' Hs Hk. apply (H s b s' Hs). rewrite <- Hk. unfold mbind, SM_bind.
    destruct (steps s) as [[[[ret status] session] s1]|]; done. }
  apply (handler_triple request steps (fun a => a.1.1) (session_fin request)
           (fun a => (a.1.1, a.1.2)) fst); [| | |done].
  - unfold steps. keep. apply keeps_upd_request, quiet_first_reply.
  - unfold steps. pose proof (parse_path_pos (rq_uri (pr_header r))) as Hpos.
    destruct (rtsp_url_parse_path _) eqn:Hu; yield.
    specialize (Hpos e eq_refl). apply yields_ret. cbn. lia.
  - intros [[ret status] session] Hret. apply callback_done_triple; [done|]. keep.
Qed.

Lemma play_handled request :
  triple (inv []) (rtsp_server_play request) (fun r => handled request r.1).
Proof. apply session_request_handled. keep. Qed.

Lemma pause_handled request :
  triple (inv []) (rtsp_server_pause request) (fun r => handled request r.1).
Proof. apply session_request_handled. keep. Qed.

Lemma record_handled request :
  triple (inv []) (rtsp_server_record request) (fun r => handled request r.1).
Proof. apply session_request_handled. keep. Qed.
(** *** SETUP *)

Definition setup_fin (request : ptr) (r : Z * Z * option ptr * bool) : SM unit :=
  let '(ret, status, session, created) := r in
  callback_done request ret (match session with Some p => op_done p | None => skip end);;
  match session with
  | Some p => when (negb (ret =? 0) && created) (ignore (rtsp_server_session_remove p))
  | None => skip
  end.

Lemma handled_keeps request ret (m : SM unit) :
  (∀ X, preserves (inv X) m) → triple (handled request ret) m (fun _ => handled request ret).
Proof.
  intros H s a s' [H1 H2] Hm. split; [by eapply H|]. intros Hret. eapply H; [by apply H2|done].
Qed.

Lemma setup_handled dst request :
  triple (inv []) (rtsp_server_setup dst request) (fun r => handled request r.1).
Proof.
  unfold rtsp_server_setup. destruct dst as [|c dst]; [apply (preserves_handled request fst); keep|].
  set (steps := setup_steps _ _).
  enough (triple (inv []) (a ← steps; setup_fin request a;; mret (a.1.1.1, a.1.1.2))
            (fun r => handled request r.1)) as H.
  { intros s b s' Hs Hk. apply (H s b s' Hs). rewrite <- Hk. unfold mbind, SM_bind.
    destruct (steps s) as [[[[[ret status] session] created] s1]|]; [cbn|done].
    unfold mbind, SM_bind. by destruct (callback_done _ _ _ _) as [[[] ?]|]. }
  apply (handler_triple request steps (fun a => a.1.1.1) (setup_fin request)
           (fun a => (a.1.1.1, a.1.1.2)) fst); [| | |done].
  - unfold steps, setup_steps, setup_session. keep.
  - unfold steps, setup_steps. apply yields_bind. intros r. cbv zeta.
    pose proof (parse_host_and_path_pos (rq_uri (pr_header r))) as Hpos.
    destruct (rtsp_url_parse_host_and_path _) eqn:Hu; yield.
    specialize (Hpos e eq_refl). apply yields_ret. cbn. lia.
  - intros [[[ret status] session] created] Hret. cbn in Hret. unfold setup_fin.
    eapply triple_bind; [apply callback_done_triple; [exact Hret|keep]|]. intros ?.
    apply handled_keeps. intros X. keep.
Qed.

(** *** TEARDOWN *)

Lemma quiet_tearing_down b : inert_media (set_sm_is_tearing_down b).
Proof. done. Qed.

Lemma keeps_teardown_media X request media : preserves (inv X) (teardown_media request media).
Proof. unfold teardown_media. keep. by apply keeps_upd_media. Qed.

Hint Resolve keeps_teardown_media : keeps.

Definition teardown_fin (request : ptr) (r : Z * Z * option ptr) : SM unit :=
  let '(ret, status, session) := r in
  upd_request request (set_pr_in_callback 0);;
  r ← request_at request;
  when ((ret =? 0) && negb (pr_replied r =? 0))
    (session ← deref session;
     op_done session;;
     ignore (rtsp_server_pending_request_remove request);;
     remove_torn_down session).

Lemma teardown_prefix_pos path : pos_err (teardown_prefix path).
Proof. unfold teardown_prefix. pos. Qed.

Lemma teardown_handled request :
  triple (inv []) (rtsp_server_teardown request) (fun r => handled request r.1).
Proof.
  unfold rtsp_server_teardown. eapply triple_bind; [apply preserves_request_at|]. intros r.
  destruct (rq_session_id (pr_header r)) as [id|]; [|apply (preserves_handled request fst); keep].
  enough (triple (inv []) (a ← teardown_steps request; teardown_fin request a;; mret (a.1.1, a.1.2))
            (fun r => handled request r.1)) as H.
  { intros s b s' Hs Hk. apply (H s b s' Hs). rewrite <- Hk. unfold mbind at 1 3, SM_bind.
    destruct (teardown_steps request s) as [[[[ret status] session] s1]|]; [cbn [teardown_fin]|done].
    unfold mbind, SM_bind. destruct (upd_request _ _ _) as [[[] ?]|]; [|done].
    destruct (request_at _ _) as [[? ?]|]; [|done]. by destruct (when _ _ _) as [[[] ?]|]. }
  apply (handler_triple request (teardown_steps request) (fun a => a.1.1) (teardown_fin request)
           (fun a => (a.1.1, a.1.2)) fst); [| | |done].
  - unfold teardown_steps. keep.
  - unfold teardown_steps. apply yields_bind. intros r'. cbv zeta.
    assert (pos_err (path ← rtsp_url_parse_path (rq_uri (pr_header r')); n ← teardown_prefix path;
                     Ok (path, n))) as Hpos.
    { apply pos_err_bind; [apply parse_path_pos|]. intros path.
      apply pos_err_bind; [apply teardown_prefix_pos|]. intros; apply pos_err_ok. }
    destruct (mbind _ _) eqn:Hu; yield.
    specialize (Hpos e eq_refl). apply yields_ret. cbn. lia.
  - intros [[ret status] session] Hret. cbn in Hret. apply request_done_triple; [done|].
    eapply triple_bind; [apply preserves_deref|]. intros p.
    eapply triple_bind; [apply keeps_op_done|]. intros ?.
    apply triple_then; [apply triple_ignore, request_remove_triple|]. keep.
Qed.

(** ** Messages *)

Lemma with_status_handled request (m : SM Z) :
  triple (inv []) m (handled request) →
  triple (inv []) (with_status m) (fun r => handled request r.1).
Proof. intros H. eapply triple_bind; [exact H|]. intros ret. by apply triple_ret. Qed.

Lemma dispatch_handled dst request method :
  triple (inv []) (dispatch dst request method) (fun r => handled request r.1).
Proof.
  destruct method; cbn [dispatch];
    try solve [apply (preserves_handled request fst); keep].
  - apply with_status_handled, options_handled.
  - apply with_status_handled, describe_handled.
  - apply with_status_handled, announce_req_handled.
  - apply setup_handled.
  - apply play_handled.
  - apply pause_handled.
  - apply teardown_handled.
  - apply get_parameter_handled.
  - apply record_handled.
Qed.

Lemma keeps_store_request X request h body : preserves (inv X) (store_request request h body).
Proof.
  unfold store_request. keep; apply keeps_upd_request; [apply quiet_header|apply quiet_body].
Qed.

Hint Resolve keeps_store_request : keeps.

Lemma keeps_request_process conn h body :
  preserves (inv []) (rtsp_server_request_process conn h body).
Proof.
  unfold rtsp_server_request_process. apply preserves_bind; [keep|]. intros timeout.
  apply preserves_bind; [keep|]. intros request. apply preserves_bind; [keep|]. intros _.
  apply preserves_bind; [keep|]. intros r.
  eapply triple_bind; [apply dispatch_handled|]. intros [err status]. cbn [fst].
  apply triple_then; [|apply preserves_ret].
  destruct (err <? 0) eqn:Herr; bool_to_prop; cbn [when].
  - eapply triple_weaken; [|intros s [H _]; exact H|intros a s H; exact H].
    eapply triple_bind; [apply preserves_ignore, keeps_error_response|]. intros ?.
    apply triple_ignore, request_remove_triple.
  - apply triple_ret. intros s [_ H]. apply H. lia.
Qed.

Lemma keeps_handle_message conn e : preserves (inv []) (handle_message conn e).
Proof. unfold handle_message. keep. apply keeps_request_process. Qed.

(** ** Events *)

Lemma keeps_disconnected conn : preserves (inv []) (rtsp_server_disconnected conn).
Proof.
  apply preserves_modify. intros s [[] Hw].
  set (f := fun r => if decide (pr_conn r = Some conn) then set_pr_conn None r else r).
  assert (∀ r, pr_ptr (f r) = pr_ptr r) as Hptr by (intros r; unfold f; by case_decide).
  assert (∀ l, pr_ptr <$> map f l = pr_ptr <$> l) as Hmap.
  { intros l. induction l; cbn; [done|]. by rewrite Hptr, IHl. }
  constructor; [constructor|]; cbn; try done.
  - by rewrite Hmap.
  - unfold Zlen. by rewrite length_map.
  - apply Forall_map. eapply Forall_impl; [match goal with H : Forall (wf_pending_request _) _ |- _ => exact H end|].
    intros r []. unfold f. by case_decide.
  - unfold waiting. cbn. apply Forall_map. eapply Forall_impl; [exact Hw|].
    intros r [?|?]; [left; cbn; by rewrite Hptr|right]. cbn. unfold f. by case_decide.
Qed.

Lemma keeps_timer_cb X : preserves (inv X) rtsp_server_timer_cb.
Proof. unfold rtsp_server_timer_cb, walk_pending, pending_addrs. keep. Qed.

Lemma keeps_walk_medias X session body :
  (∀ p, preserves (inv X) (body p)) → preserves (inv X) (walk_medias session body).
Proof. intros H. unfold walk_medias, media_addrs. keep. Qed.

Lemma keeps_session_timer_cb X session : preserves (inv X) (rtsp_server_session_timer_cb session).
Proof.
  unfold rtsp_server_session_timer_cb. apply preserves_bind; [|keep].
  apply keeps_walk_medias. keep.
Qed.

Lemma keeps_force_teardown X id path ext n :
  preserves (inv X) (rtsp_server_force_teardown id path ext n).
Proof.
  assert (∀ session media ext, preserves (inv X) (force_teardown_medias session media ext)) as H
    by (intros; apply keeps_walk_medias; keep).
  unfold rtsp_server_force_teardown, force_teardown_now. keep.
Qed.

Lemma inv_idle_filter X (P : ptr → Prop) `{!∀ p, Decision (P p)} s :
  inv X s → inv X (set_sv_idle (filter P (sv_idle s)) s).
Proof.
  intros [[? ? ? ? ? ? ? ? Hidle] Hw]. constructor; [|done]. constructor; cbn; try done.
  rewrite Forall_forall in *. intros p [_ Hp]%list_elem_of_filter. by apply Hidle.
Qed.

Lemma keeps_handle e : preserves (inv []) (handle e).
Proof.
  destruct e; cbn [handle].
  - unfold rtsp_server_pomp_cb. keep; [|apply keeps_handle_message].
    apply preserves_modify. intros s. by apply inv_frame.
  - apply keeps_disconnected.
  - apply keeps_timer_cb.
  - apply keeps_session_timer_cb.
  - unfold rtsp_server_session_remove_idle. keep. apply preserves_modify. intros s. apply inv_idle_filter.
  - keep.
  - apply preserves_ignore, keeps_force_teardown.
  - apply preserves_modify. intros s. by apply inv_frame.
Qed.

Lemma inv_new name port reply_ms session_ms args setup now s :
  rtsp_server_new name port reply_ms session_ms args setup now = Ok s → inv [] s.
Proof.
  unfold rtsp_server_new. intros H. res_inv. destruct (List.find _ _); [done|]. injection H as <-.
  constructor; [|by constructor]. by constructor; cbn; try constructor.
Qed.

Lemma reachable_inv s : reachable s → inv [] s.
Proof.
  induction 1 as [? ? ? ? ? ? ? ? H|s e s' _ IH Hstep]; [by eapply inv_new|].
  inversion Hstep; subst. by eapply keeps_handle.
Qed.

(** C3: whatever clients send, whatever the application replies or calls, the
    structures of a server stay consistent: the addresses of sessions, medias and
    requests are distinct, session ids differ in the eight characters that are
    compared, the counters are the lengths of the lists, the medias of a session
    have distinct paths and point back to it, and the idle loop only holds
    sessions that exist. *)
Theorem reachable_wf (s : rtsp_server) : reachable s → wf_server s.
Proof. intros H. by apply (inv_wf [] s), reachable_inv. Qed.

(** C5: between two events every pending request still waits for its reply: none
    is left marked as replied or as being in a callback, so none that was answered
    stays until the timer reports it as timed out. *)
Theorem reachable_waiting (s : rtsp_server) : reachable s → Forall waits (sv_pending s).
Proof.
  intros H. pose proof (inv_waiting [] s (reachable_inv s H)) as Hw.
  eapply Forall_impl; [exact Hw|]. intros r [Hr|?]; [inversion Hr|done].
Qed.
End handlers.

Lemma reachable_wf_witness :
  ∃ s, run (T := stub_time) (E := sample_env reply_at_once) sample_events new_server = Some s ∧
    (length (sv_sessions s) =? 1)%nat && (sv_session_count s =? 1) = true ∧ wf_server s.
Proof.
  destruct (ends_with_run (T := stub_time) (E := sample_env reply_at_once) sample_events new_server
    (fun s => (length (sv_sessions s) =? 1)%nat && (sv_session_count s =? 1))) as (s & Hr & Hs);
    [vm_compute; reflexivity|].
  exists s. split; [exact Hr|]. split; [exact Hs|].
  exact (reachable_wf (T := stub_time) (E := sample_env reply_at_once) s
           (run_new_reachable sample_events s eq_refl Hr)).
Defined.

Lemma reachable_waiting_witness :
  ∃ s, run (T := stub_time) (E := sample_env (fun _ => [])) pending_events new_server = Some s ∧
    (length (sv_pending s) =? 2)%nat = true ∧ Forall waits (sv_pending s).
Proof.
  destruct (ends_with_run (T := stub_time) (E := sample_env (fun _ => [])) pending_events new_server
    (fun s => (length (sv_pending s) =? 2)%nat)) as (s & Hr & Hs); [vm_compute; reflexivity|].
  exists s. split; [exact Hr|]. split; [exact Hs|].
  exact (reachable_waiting (T := stub_time) (E := sample_env (fun _ => [])) s
           (run_new_reachable pending_events s eq_refl Hr)).
Defined.
