(* ===== verification/ServerTable.v ===== *)
(** * The table of the sessions

    The list of the sessions as a map from the characters of an id that are
    compared to the session; the search for a new id; the delay of the timers. *)

From S2P Require Import Prelude CString CNumber Methods Transport TimeRange HeaderFields Request Response CFloat.
From S2P Require Import Message ObjList StateMonad ServerState ServerSession ServerRequest ServerReply Server.
From S2P Require Import ServerSample ServerLogic ServerInv.
From stdpp Require Import gmap options.

Local Open Scope Z_scope.

(** ** Timers *)

(** For a session timeout of up to 357913940 ms (over four days), the timer of
    a session is set to 120 % of it rounded up, at least as long as what is
    advertised and without overflow of the [unsigned int]. *)
Theorem session_delay_bounds (timeout_ms : Z) :
  0 <= timeout_ms <= 357913940 →
  let delay := session_delay timeout_ms in
  12 * timeout_ms <= 10 * delay < 12 * timeout_ms + 10 ∧ timeout_ms <= delay <= UINT_MAX.
Proof.
  intros H. cbv zeta. unfold session_delay, UINT_MAX.
  rewrite (wrapu_small 32 (12 * timeout_ms)) by dlia. rewrite wrapu_small by dlia. dlia.
Qed.

Lemma session_delay_bounds_witness :
  session_delay 60000 = 72000 ∧
  12 * 60000 <= 10 * session_delay 60000 < 12 * 60000 + 10 ∧
  60000 <= session_delay 60000 <= UINT_MAX.
Proof. split; [reflexivity|]. exact (session_delay_bounds 60000 ltac:(lia)). Defined.

(** ** The search for a new id *)

Section new_id.
Context `{E : Env}.

Definition taken (s : rtsp_server) (id64 : Z) : bool :=
  existsb (fun ss => same_id (ss_id ss) (session_id_text id64)) (sv_sessions s).

(** The numbers drawn before the [k]th one are those of ids that are taken. *)
Lemma new_session_id_loop k fuel s (ids : nat → Z) :
  (k < fuel)%nat → (∀ i, (i <= k)%nat → env_random64 (sv_draws s + i) = Ok (ids i)) →
  (∀ i, (i < k)%nat → taken s (ids i) = true) → taken s (ids k) = false →
  new_session_id fuel s
  = Some (Ok (session_id_text (ids k)), set_sv_draws (S (sv_draws s + k)) s).
Proof.
  revert fuel s ids. induction k as [|k IH]; intros [|fuel] s ids Hf Hd Ht Hk; try lia;
    cbn [new_session_id]; unfold mbind, SM_bind; cbn -[session_id_text same_id new_session_id];
    pose proof (Hd O ltac:(lia)) as Hd0; rewrite Nat.add_0_r in Hd0; rewrite Hd0.
  - unfold taken in Hk. cbn -[session_id_text same_id]. by rewrite Hk, Nat.add_0_r.
  - pose proof (Ht O ltac:(lia)) as H0. unfold taken in H0.
    cbn -[session_id_text same_id new_session_id]. rewrite H0.
    rewrite (IH fuel _ (fun i => ids (S i))); [|lia| | |exact Hk].
    + by replace (sv_draws s + S k)%nat with (S (sv_draws s) + k)%nat by lia.
    + intros i Hi. cbn [sv_draws set_sv_draws]. rewrite <- (Hd (S i)) by lia. f_equal. lia.
    + intros i Hi. apply (Ht (S i)). lia.
Qed.

(** Among more candidates than there are keys one is not a key. *)
Lemma fresh_candidate {A} `{EqDecision A} (keys : list A) (c : nat → A) n :
  (length keys < n)%nat → NoDup (c <$> seq 0 n) →
  ∃ k, (k < n)%nat ∧ (c k ∉ keys) ∧ ∀ i, (i < k)%nat → c i ∈ keys.
Proof.
  intros Hlen Hnd.
  destruct (decide (Forall (fun i => c i ∈ keys) (seq 0 n))) as [Hall|Hnot].
  - exfalso. assert (c <$> seq 0 n ⊆+ keys) as Hsub.
    { apply NoDup_submseteq; [done|]. intros x (i & -> & Hi)%list_elem_of_fmap.
      rewrite Forall_forall in Hall. by apply Hall. }
    apply submseteq_length in Hsub. rewrite length_fmap, length_seq in Hsub. lia.
  - clear Hnd Hlen. induction n as [|n IH]; [by destruct Hnot|].
    destruct (decide (Forall (fun i => c i ∈ keys) (seq 0 n))) as [Hall|Hno].
    + exists n. split; [lia|]. split.
      * intros Hn. apply Hnot. rewrite seq_S, Forall_app. split; [done|]. by apply Forall_singleton.
      * intros i Hi. rewrite Forall_forall in Hall. apply Hall, elem_of_seq. lia.
    + destruct (IH Hno) as (k & Hk & H). exists k. split; [lia|done].
Qed.

Lemma taken_key s id64 :
  taken s id64 = true ↔ take RTSP_SERVER_SESSION_ID_LENGTH (session_id_text id64) ∈ id_key <$> sv_sessions s.
Proof.
  unfold taken, same_id, strneq, streq. rewrite existsb_exists, list_elem_of_fmap. split.
  - intros (ss & Hin & H). bool_to_prop. exists ss. split; [done|]. by apply list_elem_of_In.
  - intros (ss & H & Hin). exists ss. split; [by apply list_elem_of_In|]. by apply bool_decide_eq_true_2.
Qed.

(** C22: the search for a session id ends: when the random numbers that follow
    differ in the eight characters that are compared, one more number than there
    are sessions is always enough, and the id it ends with is that of no session. *)
Theorem new_session_id_terminates (s : rtsp_server) (fuel : nat) (ids : nat → Z) :
  let n := S (length (sv_sessions s)) in
  (n <= fuel)%nat →
  (∀ i, (i < n)%nat → env_random64 (sv_draws s + i) = Ok (ids i)) →
  NoDup ((fun i => take RTSP_SERVER_SESSION_ID_LENGTH (session_id_text (ids i))) <$> seq 0 n) →
  ∃ k, (k < n)%nat ∧
    new_session_id fuel s
    = Some (Ok (session_id_text (ids k)), set_sv_draws (S (sv_draws s + k)) s) ∧
    ∀ ss, ss ∈ sv_sessions s → same_id (ss_id ss) (session_id_text (ids k)) = false.
Proof.
  intros n Hfuel Hd Hnd.
  destruct (fresh_candidate (id_key <$> sv_sessions s) _ n ltac:(rewrite length_fmap; unfold n; lia) Hnd)
    as (k & Hk & Hfresh & Hbefore).
  assert (taken s (ids k) = false) as Hfalse.
  { apply not_true_iff_false. by rewrite taken_key. }
  exists k. split; [done|]. split.
  - apply new_session_id_loop; [lia| | |done].
    + intros i Hi. apply Hd. lia.
    + intros i Hi. apply taken_key. by apply Hbefore.
  - intros ss Hss. apply not_true_iff_false. intros Hs. unfold taken in Hfalse.
    rewrite <- not_true_iff_false in Hfalse. apply Hfalse, existsb_exists.
    exists ss. split; [by apply list_elem_of_In|done].
Qed.
End new_id.

(** A server with a session, at the time when the next number drawn gives its id
    again and the one after it a new one. *)
Definition drawn_again (n : nat) : Z := if (n <=? 1)%nat then 1 else 2 ^ 40 + 2 ^ 60.

Definition draws_env : Env := {|
  env_random64 := fun n => Ok (drawn_again n); env_id_draws := 4%nat; env_timer_set := fun _ _ => 0;
  env_send_conn := fun _ _ _ => 0; env_send_all := fun _ _ => 0; env_peer_addr := fun _ => None;
  env_app := fun _ => []; env_has_announce := false; env_has_record := false;
  env_has_interleaved_data := false
|}.

Definition one_session : rtsp_server :=
  set_sv_draws 1 (set_sv_session_count 1 (set_sv_sessions
    [Session 0%nat (session_id_text 1) None 60000 (Some 72000) 0 0 range_zero (S754_zero false)
       RTSP_METHOD_TYPE_UNKNOWN 0 []] new_server)).

Lemma new_session_id_terminates_witness :
  new_session_id (E := draws_env) 1 one_session = None ∧
  ∃ k, (k < 2)%nat ∧
    new_session_id (E := draws_env) 2 one_session
    = Some (Ok (session_id_text (drawn_again (S k))), set_sv_draws (S (1 + k)) one_session) ∧
    ∀ ss, ss ∈ sv_sessions one_session →
      same_id (ss_id ss) (session_id_text (drawn_again (S k))) = false.
Proof.
  split; [vm_compute; reflexivity|].
  exact (new_session_id_terminates (E := draws_env) one_session 2 (fun i => drawn_again (S i))
           ltac:(cbn; lia) ltac:(intros; reflexivity)
           ltac:(apply (bool_decide_unpack _); vm_compute; exact I)).
Defined.

(** ** The table *)

(** What clients can name: ids by the characters that are compared. *)
Definition table (s : rtsp_server) : gmap cstr ptr :=
  list_to_map ((fun ss => (id_key ss, ss_ptr ss)) <$> sv_sessions s).

Lemma table_keys (l : list rtsp_server_session) :
  ((fun ss => (id_key ss, ss_ptr ss)) <$> l).*1 = id_key <$> l.
Proof. induction l as [|ss l IH]; cbn; [done|]. by rewrite <- IH. Qed.

Lemma same_id_key ss id :
  same_id (ss_id ss) id = bool_decide (id_key ss = take RTSP_SERVER_SESSION_ID_LENGTH id).
Proof. done. Qed.

(** The first session with the id is the one the table has. *)
Lemma find_id_table (l : list rtsp_server_session) id :
  ss_ptr <$> List.find (fun ss => same_id (ss_id ss) id) l
  = list_to_map (M := gmap cstr ptr) ((fun ss => (id_key ss, ss_ptr ss)) <$> l)
      !! take RTSP_SERVER_SESSION_ID_LENGTH id.
Proof.
  induction l as [|ss l IH]; cbn [List.find fmap list_fmap list_to_map foldr fst snd].
  - by rewrite lookup_empty.
  - rewrite same_id_key. case_bool_decide as Hk.
    + by rewrite <- Hk, lookup_insert_eq.
    + rewrite lookup_insert_ne by done. apply IH.
Qed.

Lemma table_snoc (l : list rtsp_server_session) ss :
  id_key ss ∉ id_key <$> l →
  list_to_map (M := gmap cstr ptr) ((fun ss => (id_key ss, ss_ptr ss)) <$> (l ++ [ss]))
  = <[id_key ss := ss_ptr ss]> (list_to_map ((fun ss => (id_key ss, ss_ptr ss)) <$> l)).
Proof.
  intros Hnew. rewrite fmap_app, list_to_map_app. cbn [fmap list_fmap list_to_map foldr fst snd].
  rewrite insert_empty. symmetry. apply insert_union_singleton_r.
  apply not_elem_of_list_to_map_1. by rewrite table_keys.
Qed.

Lemma table_delete (l : list rtsp_server_session) ss :
  NoDup (id_key <$> l) → NoDup (ss_ptr <$> l) → ss ∈ l →
  list_to_map (M := gmap cstr ptr) ((fun ss => (id_key ss, ss_ptr ss)) <$> delete_obj ss_ptr (ss_ptr ss) l)
  = delete (id_key ss) (list_to_map ((fun ss => (id_key ss, ss_ptr ss)) <$> l)).
Proof.
  induction l as [|x l IH]; cbn [fmap list_fmap delete_obj list_to_map foldr fst snd];
    [intros _ _ H; inversion H|].
  rewrite !NoDup_cons. intros [Hk Hkl] [Hp Hpl] Hin. case_decide as Heq.
  - assert (x = ss) as ->.
    { apply elem_of_cons in Hin as [->|Hin]; [done|]. exfalso. apply Hp. rewrite Heq.
      by apply list_elem_of_fmap_2. }
    rewrite delete_insert_id; [done|]. apply not_elem_of_list_to_map_1. by rewrite table_keys.
  - apply elem_of_cons in Hin as [->|Hin]; [done|].
    cbn [fmap list_fmap list_to_map foldr fst snd]. rewrite IH by done.
    rewrite delete_insert_ne; [done|]. intros E. apply Hk. rewrite <- E. by apply list_elem_of_fmap_2.
Qed.

Section refine.
Context `{E : Env}.

(** What the removal of the medias keeps of the sessions. *)
Lemma media_remove_keys p m l :
  preserves (fun s => (fun ss => (id_key ss, ss_ptr ss)) <$> sv_sessions s = l)
    (rtsp_server_session_media_remove p m).
Proof.
  unfold rtsp_server_session_media_remove. keep.
  intros s r s' <- (_ & ->)%upd_session_inv. cbn. by apply update_obj_fmap.
Qed.

Lemma keys_ids (l k : list rtsp_server_session) :
  (fun ss => (id_key ss, ss_ptr ss)) <$> l = (fun ss => (id_key ss, ss_ptr ss)) <$> k →
  id_key <$> l = id_key <$> k ∧ ss_ptr <$> l = ss_ptr <$> k.
Proof.
  revert k. induction l as [|x l IH]; intros [|y k]; try done. cbn. intros [= -> -> H].
  by destruct (IH k H) as [-> ->].
Qed.

Lemma deleted_keys p (l k : list rtsp_server_session) :
  (fun ss => (id_key ss, ss_ptr ss)) <$> l = (fun ss => (id_key ss, ss_ptr ss)) <$> k →
  (fun ss => (id_key ss, ss_ptr ss)) <$> delete_obj ss_ptr p l
  = (fun ss => (id_key ss, ss_ptr ss)) <$> delete_obj ss_ptr p k.
Proof.
  revert k. induction l as [|x l IH]; intros [|y k]; try done.
  cbn [fmap list_fmap delete_obj]. intros [= H1 H2 H].
  rewrite H2. case_decide; [exact H|]. cbn [fmap list_fmap].
  f_equal; [by f_equal|by apply IH].
Qed.

(** C9: the list of the sessions implements a map whose keys are the first eight
    characters of the ids: a search is a lookup, a new session is inserted under a
    key that was free, and the removal of a session deletes its key. *)
Theorem session_table_refines (s : rtsp_server) (X : list ptr) :
  inv X s →
  (∀ id, rtsp_server_session_find (Some id) s
         = Some (table s !! take RTSP_SERVER_SESSION_ID_LENGTH id, s)) ∧
  (∀ timeout uri p s', rtsp_server_session_add timeout uri s = Some (Some p, s') →
     ∃ id, table s !! take RTSP_SERVER_SESSION_ID_LENGTH id = None ∧
           table s' = <[take RTSP_SERVER_SESSION_ID_LENGTH id := p]> (table s)) ∧
  (∀ ss r s', ss ∈ sv_sessions s → rtsp_server_session_remove (ss_ptr ss) s = Some (r, s') →
     r = 0 ∧ table s' = delete (id_key ss) (table s)).
Proof.
  intros Hinv. split_and!.
  - intros id. unfold rtsp_server_session_find, mbind, SM_bind, gets, mret, SM_ret.
    by rewrite find_id_table.
  - intros timeout uri p s' H.
    apply bind_inv in H as (q & s1 & Ha & H).
    destruct (alloc_triple X _ _ _ Hinv Ha) as (Hinv1 & _).
    assert (sv_sessions s1 = sv_sessions s) as Es by (revert Ha; unfold alloc; cbn; by intros [= _ <-]).
    revert H. cbv zeta. match goal with |- context [let '(_, _) := ?x in _] => destruct x as [ret ss0] end.
    destruct (ret <? 0); [done|]. intros (id & s2 & Hid & H)%bind_inv.
    destruct (new_session_id_triple X _ _ _ _ Hinv1 Hid) as [_ Hfresh].
    destruct (new_session_id_same _ _ _ _ Hid) as [Es2 _].
    destruct id as [id|e|]; [|done|done]. injection H as <- <-. exists id.
    assert (take RTSP_SERVER_SESSION_ID_LENGTH id ∉ id_key <$> sv_sessions s) as Hnew.
    { intros (ss & Heq & Hin)%list_elem_of_fmap. specialize (Hfresh id eq_refl).
      rewrite Forall_forall, Es2, Es in Hfresh. specialize (Hfresh ss Hin).
      rewrite same_id_key, bool_decide_eq_false in Hfresh. by apply Hfresh. }
    split; [apply not_elem_of_list_to_map_1; by rewrite table_keys|].
    unfold table. cbn [sv_sessions set_sv_session_count set_sv_sessions].
    rewrite Es2, Es. by rewrite table_snoc.
  - intros ss r s' Hin H. unfold rtsp_server_session_remove in H.
    destruct Hinv as [[Hptr _ Hids] _].
    apply bind_inv in H as (sessions & s1 & [= <- ->] & H).
    rewrite (find_obj_elem ss_ptr) in H by done.
    apply bind_inv in H as ([] & s2 & Hloop & [= <- <-]). split; [done|].
    unfold table. cbn [sv_sessions set_sv_session_count set_sv_sessions set_sv_idle].
    rewrite <- table_delete by done. f_equal. apply deleted_keys.
    eapply (preserves_for_each (fun s => (fun ss => (id_key ss, ss_ptr ss)) <$> sv_sessions s
              = (fun ss => (id_key ss, ss_ptr ss)) <$> sv_sessions s1)); [|reflexivity|exact Hloop].
    intros m. apply preserves_ignore, media_remove_keys.
Qed.
End refine.

Lemma session_table_refines_witness :
  ∃ s, run (T := stub_time) (E := sample_env reply_at_once) sample_events new_server = Some s ∧
    (length (sv_sessions s) =? 1)%nat = true ∧
    (∀ id, rtsp_server_session_find (Some id) s
           = Some (table s !! take RTSP_SERVER_SESSION_ID_LENGTH id, s)).
Proof.
  destruct (ends_with_run (T := stub_time) (E := sample_env reply_at_once) sample_events new_server
    (fun s => (length (sv_sessions s) =? 1)%nat)) as (s & Hr & Hs); [vm_compute; reflexivity|].
  exists s. split; [exact Hr|]. split; [exact Hs|].
  exact (proj1 (session_table_refines (E := sample_env reply_at_once) s []
           (reachable_inv s (run_new_reachable sample_events s eq_refl Hr)))).
Defined.
