(* ===== verification/ServerExec.v ===== *)
(** * Execution of the accesses of a server

    What the accesses compute on a state where the request is known: the
    equations that the theorems on the answers rewrite with. *)

From S2P Require Import Prelude CString CNumber Writer Methods Transport CFloat TimeRange.
From S2P Require Import Framing HeaderLine HeaderFields Request Response Message ObjList StateMonad.
From S2P Require Import ServerState ServerSession ServerRequest ServerReply Server ServerLogic.
From stdpp Require Import options.

Local Open Scope Z_scope.

(** ** Lists of objects around one of them *)

Section around.
Context {A : Type} (addr : A → ptr).
Implicit Types (p : ptr) (l k : list A).

Lemma find_around p l x k :
  addr x = p → p ∉ addr <$> l → find_obj addr p (l ++ x :: k) = Some x.
Proof.
  intros Hx Hl. rewrite find_obj_app. apply (find_obj_None addr) in Hl as ->. cbn.
  by rewrite decide_True.
Qed.

Lemma update_around p f l x k :
  addr x = p → p ∉ addr <$> l → update_obj addr p f (l ++ x :: k) = l ++ f x :: k.
Proof.
  intros Hx. induction l as [|y l IH]; cbn; [by rewrite decide_True|].
  rewrite not_elem_of_cons. intros [Hy Hl]. rewrite decide_False by congruence. by rewrite IH.
Qed.

Lemma delete_around p l x k :
  addr x = p → p ∉ addr <$> l → delete_obj addr p (l ++ x :: k) = l ++ k.
Proof.
  intros Hx. induction l as [|y l IH]; cbn; [by rewrite decide_True|].
  rewrite not_elem_of_cons. intros [Hy Hl]. rewrite decide_False by congruence. by rewrite IH.
Qed.

Lemma find_split p l x :
  find_obj addr p l = Some x → ∃ l1 l2, l = l1 ++ x :: l2 ∧ addr x = p ∧ (p ∉ addr <$> l1).
Proof.
  induction l as [|y l IH]; cbn; [done|]. case_decide as Hy.
  - intros [= ->]. exists [], l. split_and!; [done..|]. cbn. intros H. inversion H.
  - intros (l1 & l2 & -> & Hp & Hn)%IH. exists (y :: l1), l2. split_and!; [done..|].
    cbn. rewrite not_elem_of_cons. split; [congruence|done].
Qed.
End around.

(** ** A known request *)

(** The request [r] is pending between [l1] and [l2]. *)
Record pends (s : rtsp_server) (l1 : list rtsp_server_pending_request)
    (r : rtsp_server_pending_request) (l2 : list rtsp_server_pending_request) : Prop := Pends {
  pends_pending : sv_pending s = l1 ++ r :: l2;
  pends_addr : pr_ptr r ∉ pr_ptr <$> l1
}.

(** [s] with other requests. *)
Definition with_pending (l : list rtsp_server_pending_request) (s : rtsp_server) : rtsp_server :=
  set_sv_pending l s.

Section known.
Context {s : rtsp_server} {l1 r l2} (P : pends s l1 r l2).

Lemma request_at_eq p : pr_ptr r = p → request_at p s = Some (r, s).
Proof using P.
  intros <-. destruct P as [Hp Ha]. unfold request_at, mbind, SM_bind, gets.
  by rewrite Hp, find_around.
Qed.

Lemma upd_request_eq p f :
  pr_ptr r = p → upd_request p f s = Some (tt, set_sv_pending (l1 ++ f r :: l2) s).
Proof using P.
  intros Hr. unfold upd_request. rewrite (bind_eq _ _ _ _ _ (request_at_eq p Hr)).
  destruct P as [Hp Ha]. unfold modify. rewrite Hp, update_around; [done|done|by rewrite <- Hr].
Qed.

Lemma upd_response_eq p f :
  pr_ptr r = p →
  upd_response p f s
  = Some (tt, set_sv_pending (l1 ++ set_pr_response (f (pr_response r)) r :: l2) s).
Proof using P. exact (upd_request_eq p (fun r => set_pr_response (f (pr_response r)) r)). Qed.

Lemma pends_upd f :
  pr_ptr (f r) = pr_ptr r → pends (set_sv_pending (l1 ++ f r :: l2) s) l1 (f r) l2.
Proof using P. intros Hf. destruct P as [Hp Ha]. by constructor; [|rewrite Hf]. Qed.

Lemma request_find_eq p :
  pr_ptr r = p → rtsp_server_pending_request_find p s = Some (0, s).
Proof using P.
  intros <-. destruct P as [Hp Ha].
  unfold rtsp_server_pending_request_find, mbind, SM_bind, gets, mret, SM_ret.
  rewrite bool_decide_eq_true_2; [done|]. rewrite Hp, fmap_app. apply elem_of_app. right. left.
Qed.
End known.

(** The medias of a request go one by one. *)
Lemma remove_medias_eq ms s l1 r l2 :
  pends s l1 r l2 →
  ∃ r', pr_ptr r' = pr_ptr r ∧
    for_each (fun media => ignore (rtsp_server_pending_request_media_remove (pr_ptr r) media)) ms s
    = Some (tt, set_sv_pending (l1 ++ r' :: l2) s).
Proof.
  revert s r. induction ms as [|m ms IH]; intros s r P.
  - exists r. split; [done|]. cbn. destruct P as [Hp _]. by rewrite <- Hp; destruct s.
  - cbn [for_each].
    assert (∃ r1 x, pr_ptr r1 = pr_ptr r ∧
      rtsp_server_pending_request_media_remove (pr_ptr r) m s
      = Some (x, set_sv_pending (l1 ++ r1 :: l2) s)) as (r1 & x & Hr1 & H1).
    { unfold rtsp_server_pending_request_media_remove.
      rewrite (bind_eq _ _ _ _ _ (request_at_eq P _ eq_refl)). case_bool_decide.
      - eexists _, _. split; [|by rewrite (bind_eq _ _ _ _ _ (upd_request_eq P _ _ eq_refl))]. done.
      - exists r. eexists. split; [done|]. destruct P as [Hp _]. by rewrite <- Hp; destruct s. }
    assert (pends (set_sv_pending (l1 ++ r1 :: l2) s) l1 r1 l2) as P1.
    { destruct P as [Hp Ha]. by constructor; [|rewrite Hr1]. }
    destruct (IH _ _ P1) as (r' & Hr' & H'). exists r'. rewrite Hr1 in H'. split; [congruence|].
    by rewrite (bind_eq _ _ _ _ _ (ignore_eq _ _ _ _ H1)).
Qed.

Lemma request_remove_eq s l1 r l2 p :
  pends s l1 r l2 → pr_ptr r = p →
  rtsp_server_pending_request_remove p s
  = Some (0, set_sv_pending_count (u32 (sv_pending_count s - 1)) (set_sv_pending (l1 ++ l2) s)).
Proof.
  intros P <-. unfold rtsp_server_pending_request_remove.
  rewrite (bind_eq (gets sv_pending) _ s _ s eq_refl).
  pose proof P as [Hp Ha]. rewrite Hp, find_around by done.
  destruct (remove_medias_eq (pm_ptr <$> pr_medias r) s l1 r l2 P) as (r' & Hr' & Hloop).
  rewrite (bind_eq _ _ _ _ _ Hloop), <- Hr'. unfold mbind, SM_bind, modify. cbn. rewrite delete_around; [done|done|by rewrite Hr'].
Qed.

(** The request that arrived: the last one. *)
Definition new_request (s : rtsp_server) (conn timeout : Z) : rtsp_server_pending_request :=
  PendingRequest (sv_next_ptr s) (Some conn) rtsp_request_header_clear rtsp_response_header_clear
    (request_deadline (sv_now s) timeout) 1 0 0 None 0 [].

Definition arrived (s : rtsp_server) (r : rtsp_server_pending_request) : rtsp_server :=
  set_sv_pending_count (u32 (sv_pending_count s + 1))
    (set_sv_pending (sv_pending s ++ [r]) (set_sv_next_ptr (S (sv_next_ptr s)) s)).

Lemma request_add_eq s conn timeout :
  rtsp_server_pending_request_add conn timeout s
  = Some (sv_next_ptr s, arrived s (new_request s conn timeout)).
Proof. done. Qed.

Lemma arrived_pends s r : wf_server s → pr_ptr r = sv_next_ptr s → pends (arrived s r) (sv_pending s) r [].
Proof.
  intros Hwf Hr. constructor; [done|]. rewrite Hr. intros (x & Hx & Hin)%list_elem_of_fmap.
  pose proof (wf_requests s Hwf) as H. rewrite Forall_forall in H. destruct (H x Hin) as [Hlt]. lia.
Qed.

(** ** Sending *)

Section send.
Context `{L : LocalTimeLaws} `{E : Env}.

(** The text of a header that fits. *)
Lemma write_header_eq h k s :
  response_ok h k → Zlen (text_of_response h) < sv_max_msg_size s <= INT_MAX →
  write_message (rtsp_response_header_write h) s = Some ((0, text_of_response h), s).
Proof using L.
  intros Hok Hlen. unfold write_message. rewrite (bind_eq (gets sv_max_msg_size) _ s _ s eq_refl).
  destruct (rtsp_response_header_write_emits h k Hok (RtspString [] (sv_max_msg_size s)))
    as [[_ ->]|[Hn _]].
  - unfold wf_string, rs_len. cbn [rs_str rs_max_len]. rewrite Zlen_nil.
    pose proof (Zlen_nonneg (text_of_response h)). lia.
  - done.
  - exfalso. apply Hn. unfold fits, rs_len. cbn [rs_str rs_max_len]. rewrite Zlen_nil. lia.
Qed.

Lemma text_of_response_pos h : 0 < Zlen (text_of_response h).
Proof using Type.
  clear L. unfold text_of_response. rewrite Zlen_app. pose proof (Zlen_nonneg (lines_text (response_all_lines h))).
  change (Zlen CRLF) with 2. lia.
Qed.

(** The state after a text was sent. *)
Definition sent (conn : Z) (text : bytes) (s : rtsp_server) : rtsp_server :=
  set_sv_out (sv_out s ++ [SendConn conn text (env_send_conn (sv_out s) conn text)]) s.

Lemma send_conn_eq conn text s :
  0 < Zlen text → send_conn conn text s = Some (env_send_conn (sv_out s) conn text, sent conn text s).
Proof using Type. clear L. intros H. unfold send_conn. by rewrite (proj2 (Z.ltb_lt _ _) H). Qed.

(** The response header that a status is sent with. *)
Definition status_response (s : rtsp_server) (r : rtsp_server_pending_request) (code : Z)
    (string : cstr) : rtsp_response_header :=
  status_fields code string (rq_cseq (pr_header r)) (sv_software_name s) (sv_now s) (pr_response r).

Lemma fill_response_eq s l1 r l2 p code string :
  pends s l1 r l2 → pr_ptr r = p →
  fill_response p code string s
  = Some (tt, set_sv_pending (l1 ++ set_pr_response (status_response s r code string) r :: l2) s).
Proof using Type.
  clear L. intros P Hp. unfold fill_response. rewrite (bind_eq _ _ _ _ _ (request_at_eq P p Hp)).
  rewrite (bind_eq (gets sv_software_name) _ s _ s eq_refl).
  rewrite (bind_eq time_get_monotonic _ s _ s eq_refl).
  exact (upd_response_eq P p _ Hp).
Qed.
End send.
