(* ===== verification/ServerAnswers.v ===== *)
(** * The answers of the server

    What is sent for a request, exactly: the text of the response, on which
    connection, how often, and what is left of the request. *)

From S2P Require Import Prelude CString CNumber Writer Url Methods Transport CFloat TimeRange.
From S2P Require Import Framing HeaderLine HeaderFields Request Response Message ObjList StateMonad.
From S2P Require Import ServerState ServerSession ServerRequest ServerReply Server ServerSample.
From S2P Require Import ServerLogic ServerInv ServerExec.
From stdpp Require Import options.

Local Open Scope Z_scope.

(** A header the server can send: without a scale, and shorter than a message. *)
Definition sendable `{T : LocalTime} (s : rtsp_server) (h : rtsp_response_header) : bool :=
  wf_response h && bool_decide (rp_scale h = S754_zero false)
  && (Zlen (text_of_response h) <? sv_max_msg_size s) && (sv_max_msg_size s <=? INT_MAX).

Section answers.
Context `{L : LocalTimeLaws} `{E : Env}.

Lemma sendable_ok s h :
  sendable s h = true →
  response_ok h 0 ∧ Zlen (text_of_response h) < sv_max_msg_size s <= INT_MAX.
Proof using Type.
  clear L. unfold sendable. intros H. bool_to_prop. split; [|lia]. by apply wf_response_ok.
Qed.

Lemma sendable_same s s' h :
  sv_max_msg_size s' = sv_max_msg_size s → sendable s' h = sendable s h.
Proof using Type. clear L. unfold sendable. by intros ->. Qed.

(** ** Arrival of a request *)

(** The pending request that [h] and [body] make. *)
Definition received (s : rtsp_server) (conn : Z) (h : rtsp_request_header) (body : bytes)
    : rtsp_server_pending_request :=
  let r := set_pr_header h (new_request s conn (u32 (sv_reply_timeout_ms s))) in
  if 0 <? Zlen body then set_pr_body (Some body) r else r.

Lemma received_fields s conn h body :
  let r := received s conn h body in
  pr_ptr r = sv_next_ptr s ∧ pr_conn r = Some conn ∧ pr_header r = h ∧
  pr_response r = rtsp_response_header_clear ∧ set_pr_in_callback 0 r = r ∧ pr_replied r = 0.
Proof using Type. clear L. unfold received. by destruct (0 <? Zlen body). Qed.

(** What follows the handler. *)
Definition after_dispatch (request : ptr) (r : Z * Z) : SM Z :=
  let '(err, status) := r in
  when (err <? 0)
    (ignore (error_response request
       (if RTSP_STATUS_CLASS_SUCCESS <? status_class status then status else err));;
     ignore (rtsp_server_pending_request_remove request));;
  mret 0.

Lemma request_process_eq conn h body ts s :
  wf_server s → rq_transport h = Some <$> ts →
  rtsp_server_request_process conn h body s
  = (r ← dispatch (default [] (env_peer_addr conn)) (sv_next_ptr s) (rq_method h);
     after_dispatch (sv_next_ptr s) r) (arrived s (received s conn h body)).
Proof using Type.
  clear L. intros Hwf Hts. unfold rtsp_server_request_process.
  rewrite (bind_eq (gets sv_reply_timeout_ms) _ s _ s eq_refl).
  rewrite (bind_eq _ _ _ _ _ (request_add_eq s conn _)).
  set (r0 := new_request s conn _). set (p := sv_next_ptr s).
  pose proof (arrived_pends s r0 Hwf eq_refl) as P0.
  assert (store_request p h body (arrived s r0)
          = Some (tt, arrived s (received s conn h body))) as Hstore.
  { unfold store_request. rewrite (rtsp_request_header_copy_clear h ts Hts).
    rewrite (bind_eq _ _ _ _ _ (upd_request_eq P0 p (set_pr_header h) eq_refl)).
    pose proof (arrived_pends s (set_pr_header h r0) Hwf eq_refl) as P1.
    unfold received. destruct (0 <? Zlen body); cbn [when]; [|done].
    exact (upd_request_eq P1 p (set_pr_body (Some body)) eq_refl). }
  rewrite (bind_eq _ _ _ _ _ Hstore).
  destruct (received_fields s conn h body) as (Hp & _ & Hh & _).
  pose proof (arrived_pends s _ Hwf Hp) as P.
  rewrite (bind_eq _ _ _ _ _ (request_at_eq P p Hp)), Hh. unfold mbind, SM_bind.
  by destruct (dispatch _ _ _ _) as [[[err status] s2]|].
Qed.

(** ** Error responses *)

Lemma error_response_eq s l1 r l2 conn status :
  pends s l1 r l2 → pr_conn r = Some conn → status ≠ 0 →
  let h := status_response s r (fst (rtsp_status_get status)) (snd (rtsp_status_get status)) in
  sendable s h = true →
  error_response (pr_ptr r) status s
  = Some (env_send_conn (sv_out s) conn (text_of_response h),
          sent conn (text_of_response h)
            (set_sv_pending (l1 ++ set_pr_response h r :: l2) s)).
Proof using L.
  intros P Hc Hst h Hsend. destruct (sendable_ok _ _ Hsend) as [Hok Hlen]. unfold error_response.
  rewrite (proj2 (Z.eqb_neq _ _) Hst). rewrite (bind_eq _ _ _ _ _ (request_at_eq P _ eq_refl)), Hc.
  pose proof (proj1 (rpok_status _ _ Hok)) as Hcode. change (rp_status_code h) with (rtsp_status_get status).1 in Hcode.
  subst h. destruct (rtsp_status_get status) as [code string]. cbn [fst snd] in *.
  rewrite (proj2 (Z.eqb_neq _ _) Hcode).
  rewrite (bind_eq _ _ _ _ _ (fill_response_eq s l1 r l2 _ code string P eq_refl)).
  set (h := status_response s r code string) in *.
  pose proof (pends_upd P (set_pr_response h) eq_refl) as P1.
  rewrite (bind_eq _ _ _ _ _ (request_at_eq P1 _ eq_refl)).
  assert (write_message (rtsp_response_header_write (pr_response (set_pr_response h r)))
            (set_sv_pending (l1 ++ set_pr_response h r :: l2) s)
          = Some ((0, text_of_response h), set_sv_pending (l1 ++ set_pr_response h r :: l2) s)) as Hw
    by (by apply (write_header_eq h 0)).
  rewrite (bind_eq _ _ _ _ _ Hw). change (0 <? 0) with false. cbv iota.
  by rewrite send_conn_eq by apply text_of_response_pos.
Qed.

(** What a request leaves behind that was answered and removed. *)
Definition answered (s : rtsp_server) (conn : Z) (text : bytes) (s' : rtsp_server) : Prop :=
  sv_out s' = sv_out s ++ [SendConn conn text (env_send_conn (sv_out s) conn text)] ∧
  sv_pending s' = sv_pending s ∧ sv_pending_count s' = sv_pending_count s ∧
  sv_sessions s' = sv_sessions s ∧ sv_session_count s' = sv_session_count s ∧
  sv_idle s' = sv_idle s.

Lemma u32_back s : wf_server s → u32 (u32 (sv_pending_count s + 1) - 1) = sv_pending_count s.
Proof using Type.
  clear L. intros Hwf. rewrite u32_pred, (wf_pending_count s Hwf), Z.add_simpl_r.
  unfold wrapu. apply Zmod_mod.
Qed.

Lemma failed_answered s r conn err status code string :
  wf_server s → pr_ptr r = sv_next_ptr s → pr_conn r = Some conn → err < 0 →
  rtsp_status_get (if RTSP_STATUS_CLASS_SUCCESS <? status_class status then status else err)
  = (code, string) →
  let h := status_response s r code string in
  sendable s h = true →
  ∃ s', after_dispatch (sv_next_ptr s) (err, status) (arrived s r) = Some (0, s') ∧
        answered s conn (text_of_response h) s'.
Proof using L.
  intros Hwf Hp Hc Herr Hget h Hsend. unfold after_dispatch.
  rewrite (proj2 (Z.ltb_lt _ _) Herr). cbn [when].
  set (st := if _ <? _ then status else err) in *.
  assert (st ≠ 0) as Hst.
  { subst st. destruct (_ <? _) eqn:Hs; [|lia]. intros ->. discriminate. }
  pose proof (arrived_pends s r Hwf Hp) as P.
  pose proof (error_response_eq (arrived s r) _ r _ conn st P Hc Hst) as He.
  rewrite Hget, Hp in He. cbn [fst snd] in He.
  change (status_response (arrived s r) r code string) with h in He.
  rewrite (sendable_same s (arrived s r) h eq_refl) in He. specialize (He Hsend).
  clearbody h. generalize dependent (text_of_response h). intros text He.
  set (s1 := sent conn text
               (set_sv_pending (sv_pending s ++ [set_pr_response h r]) (arrived s r))).
  assert (pends s1 (sv_pending s) (set_pr_response h r) []) as P1
    by (constructor; [done|]; by destruct P).
  pose proof (request_remove_eq s1 _ _ _ (sv_next_ptr s) P1 Hp) as Hrem.
  eexists. split.
  { eapply bind_intro; [|reflexivity].
    eapply bind_intro; [exact (ignore_eq _ _ _ _ He)|exact (ignore_eq _ _ _ _ Hrem)]. }
  unfold answered. cbn. rewrite u32_back by done. split_and!; try done. by rewrite app_nil_r.
Qed.
(** ** Requests on an unknown session *)

Definition on_session (m : rtsp_method_type) : bool :=
  match m with
  | RTSP_METHOD_TYPE_PLAY | RTSP_METHOD_TYPE_PAUSE | RTSP_METHOD_TYPE_TEARDOWN
  | RTSP_METHOD_TYPE_GET_PARAMETER | RTSP_METHOD_TYPE_RECORD => true
  | _ => false
  end.

(** The path of the URL is one that the handlers accept. *)
Definition good_path (uri : option cstr) : bool :=
  match path ← rtsp_url_parse_path uri; teardown_prefix path with Ok _ => true | _ => false end.

Lemma session_with_media_none s id :
  (∀ ss, ss ∈ sv_sessions s → same_id (ss_id ss) id = false) →
  session_with_media (Some id) s = Some (None, s).
Proof using Type.
  clear L. intros Hno. unfold session_with_media, rtsp_server_session_find.
  assert (List.find (fun ss => same_id (ss_id ss) id) (sv_sessions s) = None) as Hf.
  { destruct (List.find _ _) as [ss|] eqn:Hf; [|done]. apply find_some in Hf as [Hin Hss].
    rewrite Hno in Hss; [done|]. by apply list_elem_of_In. }
  unfold mbind, SM_bind, gets, mret, SM_ret. by rewrite Hf.
Qed.

Lemma callback_done_failed s r ret :
  wf_server s → pr_ptr r = sv_next_ptr s → set_pr_in_callback 0 r = r → ret ≠ 0 →
  callback_done (sv_next_ptr s) ret skip (arrived s r) = Some (tt, arrived s r).
Proof using Type.
  clear L. intros Hwf Hp Hcb Hret. pose proof (arrived_pends s r Hwf Hp) as P. unfold callback_done.
  eapply bind_intro; [exact (upd_request_eq P _ (set_pr_in_callback 0) Hp)|]. rewrite Hcb.
  eapply bind_intro; [exact (request_at_eq P _ Hp)|]. by rewrite (proj2 (Z.eqb_neq _ _) Hret).
Qed.

Lemma unknown_session_dispatch s r dst id :
  wf_server s → pr_ptr r = sv_next_ptr s → set_pr_in_callback 0 r = r →
  on_session (rq_method (pr_header r)) = true → rq_session_id (pr_header r) = Some id →
  good_path (rq_uri (pr_header r)) = true → is_Some (pr_conn r) →
  (∀ ss, ss ∈ sv_sessions s → same_id (ss_id ss) id = false) →
  dispatch dst (sv_next_ptr s) (rq_method (pr_header r)) (arrived s r)
  = Some ((- ENOENT, RTSP_STATUS_CODE_SESSION_NOT_FOUND), arrived s r).
Proof using Type.
  clear L. intros Hwf Hp Hcb Hm Hid Hpath [conn Hc] Hno. pose proof (arrived_pends s r Hwf Hp) as P.
  pose proof (request_at_eq P _ Hp) as Hat.
  pose proof (session_with_media_none (arrived s r) id Hno) as Hnone.
  unfold good_path in Hpath.
  assert (∀ body, session_request (sv_next_ptr s) body (arrived s r)
     = Some ((- ENOENT, RTSP_STATUS_CODE_SESSION_NOT_FOUND), arrived s r)) as Hreq.
  { intros body. unfold session_request. eapply bind_intro; [exact Hat|]. cbv zeta. rewrite Hid.
    destruct (rtsp_url_parse_path _) as [path| |]; [|done|done].
    eapply bind_intro; [eapply bind_intro; [exact Hnone|reflexivity]|]. cbv beta iota.
    by eapply bind_intro; [by apply callback_done_failed|]. }
  destruct (rq_method (pr_header r)); try done; cbn [dispatch].
  - apply Hreq.
  - apply Hreq.
  - unfold rtsp_server_teardown. eapply bind_intro; [exact Hat|]. rewrite Hid.
    eapply bind_intro.
    { unfold teardown_steps. eapply bind_intro; [exact Hat|]. cbv zeta.
      destruct (rtsp_url_parse_path _) as [path| |]; [|done|done]. cbn [mbind res_bind] in *.
      destruct (teardown_prefix path) as [n| |]; [|done|done]. cbn [mbind res_bind].
      rewrite Hid. eapply bind_intro; [exact Hnone|reflexivity]. }
    cbv beta iota. eapply bind_intro; [exact (upd_request_eq P _ (set_pr_in_callback 0) Hp)|].
    rewrite Hcb. eapply bind_intro; [exact Hat|]. done.
  - unfold rtsp_server_get_parameter. eapply bind_intro; [exact Hat|]. rewrite Hid.
    eapply bind_intro.
    { unfold get_parameter_steps. eapply bind_intro; [exact Hat|]. rewrite Hc.
      destruct (rtsp_url_parse_path _) as [path| |]; [|done|done]. rewrite Hid.
      eapply bind_intro; [exact Hnone|reflexivity]. }
    done.
  - apply Hreq.
Qed.

(** C20: a PLAY, PAUSE, RECORD, TEARDOWN or GET_PARAMETER request whose session id is
    that of no session is answered at once with exactly one response 454 that
    carries the CSeq of the request, on the connection it came from; no session is
    touched, and the request does not stay pending. *)
Theorem unknown_session_answered (conn : Z) (h : rtsp_request_header) (body : bytes)
    (s : rtsp_server) (id : cstr) (ts : list rtsp_transport_header) :
  wf_server s → rq_transport h = Some <$> ts →
  on_session (rq_method h) = true → rq_session_id h = Some id → good_path (rq_uri h) = true →
  (∀ ss, ss ∈ sv_sessions s → same_id (ss_id ss) id = false) →
  let resp := status_fields 454 (cs "Session Not Found") (rq_cseq h) (sv_software_name s)
                (sv_now s) rtsp_response_header_clear in
  sendable s resp = true →
  ∃ s', rtsp_server_request_process conn h body s = Some (0, s') ∧
        answered s conn (text_of_response resp) s'.
Proof using L.
  intros Hwf Hts Hm Hid Hpath Hno resp Hsend.
  rewrite (request_process_eq conn h body ts s Hwf Hts).
  destruct (received_fields s conn h body) as (Hp & Hc & Hh & Hr & Hcb & _).
  pose proof (unknown_session_dispatch s _ (default [] (env_peer_addr conn)) id Hwf Hp Hcb) as Hd.
  rewrite Hh, Hc in Hd. specialize (Hd Hm Hid Hpath ltac:(by eexists) Hno).
  edestruct (failed_answered s (received s conn h body) conn (- ENOENT)
    RTSP_STATUS_CODE_SESSION_NOT_FOUND 454 (cs "Session Not Found")) as (s' & Hs' & Ha); try done.
  - unfold status_response. by rewrite Hh, Hr.
  - exists s'. split; [by eapply bind_intro|]. unfold status_response in Ha. by rewrite Hh, Hr in Ha.
Qed.

(** ** OPTIONS *)

(** An OPTIONS request is answered at once, without a callback, with exactly one
    response 200 that carries its CSeq and the eight methods the server handles, and
    it does not stay pending. *)
Theorem options_answered (conn : Z) (h : rtsp_request_header) (body : bytes) (s : rtsp_server)
    (ts : list rtsp_transport_header) :
  wf_server s → rq_transport h = Some <$> ts → rq_method h = RTSP_METHOD_TYPE_OPTIONS →
  let resp := set_rp_public_methods server_public_methods
                (status_fields 200 (cs "OK") (rq_cseq h) (sv_software_name s) (sv_now s)
                   rtsp_response_header_clear) in
  sendable s resp = true → env_send_conn (sv_out s) conn (text_of_response resp) = 0 →
  ∃ s', rtsp_server_request_process conn h body s = Some (0, s') ∧
        answered s conn (text_of_response resp) s'.
Proof using L.
  intros Hwf Hts Hm resp Hsend Hret. destruct (sendable_ok _ _ Hsend) as [Hok Hlen].
  rewrite (request_process_eq conn h body ts s Hwf Hts), Hm. cbn [dispatch].
  destruct (received_fields s conn h body) as (Hp & Hc & Hh & Hr & _ & _).
  set (r := received s conn h body) in *. set (p := sv_next_ptr s) in *.
  pose proof (arrived_pends s r Hwf Hp) as P.
  pose proof (fill_response_eq (arrived s r) _ r _ p 200 (cs "OK") P Hp) as Hfill.
  set (r1 := set_pr_response (status_response (arrived s r) r 200 (cs "OK")) r) in *.
  assert (pends (arrived s r1) (sv_pending s) r1 []) as P1 by (by apply arrived_pends).
  pose proof (upd_response_eq P1 p (set_rp_public_methods server_public_methods) Hp) as Hupd.
  set (r2 := set_pr_response (set_rp_public_methods server_public_methods (pr_response r1)) r1) in *.
  assert (pends (arrived s r2) (sv_pending s) r2 []) as P2 by (by apply arrived_pends).
  assert (pr_response r2 = resp) as Hresp.
  { unfold r2, r1, status_response, resp. cbn [pr_response set_pr_response]. by rewrite Hh, Hr. }
  assert (write_message (rtsp_response_header_write (pr_response r2)) (arrived s r2)
          = Some ((0, text_of_response resp), arrived s r2)) as Hw.
  { rewrite Hresp. by apply (write_header_eq resp 0). }
  set (s3 := sent conn (text_of_response resp) (arrived s r2)).
  assert (pends s3 (sv_pending s) r2 []) as P3 by (destruct P2; by constructor).
  pose proof (request_remove_eq s3 _ _ _ p P3 Hp) as Hrem.
  eexists. split.
  - eapply bind_intro.
    { unfold with_status, rtsp_server_options. eapply bind_intro.
      - eapply bind_intro; [exact (request_at_eq P p Hp)|]. rewrite Hc. eapply bind_intro.
        + eapply bind_intro; [exact Hfill|]. eapply bind_intro; [exact Hupd|].
          unfold respond_now. eapply bind_intro; [exact (request_at_eq P2 p Hp)|].
          eapply bind_intro; [exact Hw|]. change (0 <? 0) with false. cbv beta iota.
          apply send_conn_eq, text_of_response_pos.
        + cbn [sv_out arrived set_sv_pending_count set_sv_pending set_sv_next_ptr]. rewrite Hret.
          eapply bind_intro; [exact (ignore_eq _ _ _ _ Hrem)|]. reflexivity.
      - reflexivity. }
    reflexivity.
  - unfold answered. cbn. rewrite u32_back by done. split_and!; try done. by rewrite app_nil_r.
Qed.
(** ** The reply to DESCRIBE *)

Definition describe_response (s : rtsp_server) (r : rtsp_server_pending_request) (sd : cstr)
    : rtsp_response_header :=
  set_rp_content_base (rq_uri (pr_header r))
    (set_rp_content_type (Some RTSP_CONTENT_TYPE_SDP)
      (set_rp_content_length (Zlen sd) (status_response s r 200 (cs "OK")))).

(** A text [sd] after the header: both are sent, or the call fails. *)
Lemma write_body_eq h k sd s :
  response_ok h k → 0 < sv_max_msg_size s <= INT_MAX →
  let fit := Zlen (text_of_response h) + Zlen sd <? sv_max_msg_size s in
  ∃ t, write_message (rtsp_response_header_write h;; rtsp_sprintf sd) s
       = Some ((if fit then 0 else - ENOBUFS, t), s) ∧
       (fit = true → t = text_of_response h ++ sd).
Proof using L.
  intros Hok Hmax. cbv zeta. unfold write_message.
  pose proof (emits_seq _ _ _ _ (rtsp_response_header_write_emits h k Hok) (emits_sprintf sd)
                (RtspString [] (sv_max_msg_size s))) as Hem.
  unfold fits, wf_string, rs_len in Hem. cbn [rs_str rs_max_len] in Hem.
  rewrite Zlen_nil, Zlen_app in Hem.
  rewrite (bind_eq (gets sv_max_msg_size) _ s _ s eq_refl).
  destruct Hem as [[Hf Hw]|(Hn & p & _ & _ & Hw)]; [lia|..]; rewrite Hw.
  - rewrite (proj2 (Z.ltb_lt _ _)) by lia. by eexists.
  - rewrite (proj2 (Z.ltb_ge _ _)) by lia. by eexists.
Qed.

(** The part of the reply up to the extensions: the response is filled in. *)
Lemma describe_body_eq s l1 r l2 conn sd :
  pends s l1 r l2 → pr_conn r = Some conn → sd ≠ [] → Zlen sd < RTSP_SESSION_DESCRIPTION_MAX_LEN →
  describe_body (pr_ptr r) 200 None 0 (Some sd) s
  = finish_response (pr_ptr r) conn None 0 (rtsp_sprintf sd)
      (set_sv_pending (l1 ++ set_pr_response (describe_response s r sd) r :: l2) s).
Proof using Type.
  clear L. intros P Hc Hne Hlen. unfold describe_body.
  eapply bind_intro; [exact (request_at_eq P _ eq_refl)|]. rewrite Hc.
  change (is_error_status 200) with false. cbv iota. destruct sd as [|c sd']; [done|].
  set (sd := c :: sd') in *. cbv zeta.
  assert (strnlen sd RTSP_SESSION_DESCRIPTION_MAX_LEN = Zlen sd) as -> by (unfold strnlen; lia).
  rewrite (proj2 (Z.leb_gt _ _)) by lia. cbn [rtsp_status_get]. unfold rtsp_status_get. cbn [find_status status_table Z.eqb Pos.eqb].
  eapply bind_intro; [exact (fill_response_eq s l1 r l2 _ 200 (cs "OK") P eq_refl)|].
  pose proof (pends_upd P (set_pr_response (status_response s r 200 (cs "OK"))) eq_refl) as P1.
  eapply bind_intro; [|reflexivity].
  exact (upd_response_eq P1 (pr_ptr r) _ eq_refl).
Qed.
(** No extensions: the response is what it was. *)
Lemma copy_no_ext s l1 r l2 :
  pends s l1 r l2 → copy_response_ext (pr_ptr r) None 0 s = Some (0, s).
Proof using Type.
  clear L. intros P. unfold copy_response_ext. eapply bind_intro; [exact (request_at_eq P _ eq_refl)|].
  unfold rtsp_response_header_copy_ext, copy_exts. cbn [Z.eqb mbind res_bind].
  assert (set_rp_ext (rp_ext (pr_response r)) (pr_response r) = pr_response r) as ->
    by (by destruct (pr_response r)).
  eapply bind_intro; [exact (upd_response_eq P _ (fun _ => pr_response r) eq_refl)|].
  cbv beta. assert (set_pr_response (pr_response r) r = r) as -> by (by destruct r).
  destruct P as [Hp _]. rewrite <- Hp. by destruct s.
Qed.

(** What is left when a reply outside a callback is done. *)
Definition replied_state (l : list rtsp_server_pending_request) (s : rtsp_server) : rtsp_server :=
  set_sv_pending_count (u32 (sv_pending_count s - 1)) (set_sv_pending l s).

Lemma request_replied_eq s l1 r l2 :
  pends s l1 r l2 → pr_in_callback r = 0 →
  request_replied (pr_ptr r) (ignore (rtsp_server_pending_request_remove (pr_ptr r))) s
  = Some (tt, replied_state (l1 ++ l2) s).
Proof using Type.
  clear L. intros P Hcb. unfold request_replied.
  eapply bind_intro; [exact (upd_request_eq P _ (set_pr_replied 1) eq_refl)|].
  pose proof (pends_upd P (set_pr_replied 1) eq_refl) as P1.
  eapply bind_intro; [exact (request_at_eq P1 _ eq_refl)|].
  cbn [pr_in_callback set_pr_replied]. rewrite Hcb. cbn [Z.eqb when].
  exact (ignore_eq _ _ _ _ (request_remove_eq _ _ _ _ _ P1 eq_refl)).
Qed.

(** A successful reply to a DESCRIBE request, outside of a callback, with a
    description that fits: exactly one message is sent, on the connection of the
    request: a response 200 with its CSeq and the length of the description,
    followed by the description; the request is removed. *)
Theorem reply_to_describe_answered (s : rtsp_server) (l1 l2 : list rtsp_server_pending_request)
    (r : rtsp_server_pending_request) (conn : Z) (sd : cstr) :
  pends s l1 r l2 → pr_conn r = Some conn → pr_in_callback r = 0 →
  sd ≠ [] → Zlen sd < RTSP_SESSION_DESCRIPTION_MAX_LEN →
  let resp := describe_response s r sd in
  sendable s resp = true →
  Zlen (text_of_response resp) + Zlen sd < sv_max_msg_size s →
  let text := text_of_response resp ++ sd in
  rtsp_server_reply_to_describe (Some (pr_ptr r)) 200 None 0 (Some sd) s
  = Some (env_send_conn (sv_out s) conn text, replied_state (l1 ++ l2) (sent conn text s)).
Proof using L.
  intros P Hc Hcb Hne Hlen resp Hsend Hfit text. destruct (sendable_ok _ _ Hsend) as [Hok Hmax].
  pose proof (pends_upd P (set_pr_response resp) eq_refl) as P1.
  set (s1 := set_sv_pending (l1 ++ set_pr_response resp r :: l2) s) in *.
  destruct (write_body_eq resp 0 sd s1 Hok) as (t & Hw & Ht); [cbn; pose proof (Zlen_nonneg (text_of_response resp)); lia|].
  change (sv_max_msg_size s1) with (sv_max_msg_size s) in Hw, Ht.
  rewrite (proj2 (Z.ltb_lt _ _) Hfit) in Hw, Ht. rewrite (Ht eq_refl) in Hw. fold text in Hw.
  unfold rtsp_server_reply_to_describe. eapply bind_intro; [exact (request_find_eq P _ eq_refl)|].
  change (0 <? 0) with false. cbv iota. eapply bind_intro.
  { rewrite (describe_body_eq s l1 r l2 conn sd P Hc Hne Hlen). fold resp s1.
    unfold finish_response. eapply bind_intro; [exact (copy_no_ext _ _ _ _ P1)|].
    change (0 <? 0) with false. cbv iota.
    eapply bind_intro; [exact (request_at_eq P1 _ eq_refl)|].
    eapply bind_intro; [exact Hw|]. change (0 <? 0) with false. cbv beta iota.
    eapply bind_intro; [|reflexivity]. apply send_conn_eq.
    unfold text. rewrite Zlen_app. pose proof (text_of_response_pos resp). pose proof (Zlen_nonneg sd). lia. }
  cbv beta iota. eapply bind_intro; [reflexivity|]. eapply bind_intro; [|reflexivity].
  exact (request_replied_eq (sent conn text s1) l1 (set_pr_response resp r) l2
           ltac:(destruct P; by constructor) Hcb).
Qed.

(** The error that follows a filled in response only changes its status. *)
Lemma describe_error_response s s1 r sd :
  sv_software_name s1 = sv_software_name s → sv_now s1 = sv_now s →
  status_response s1 (set_pr_response (describe_response s r sd) r) 500 (cs "Internal Server Error")
  = set_rp_status_string (Some (cs "Internal Server Error"))
      (set_rp_status_code 500 (describe_response s r sd)).
Proof using Type.
  clear L. intros Hn Ht. unfold describe_response, status_response. rewrite Hn, Ht.
  cbn [pr_header pr_response set_pr_response].
  destruct (pr_response r) as [a b c d e f g i j k l m n o p q t u v w x].
  cbv [status_fields set_rp_status_code set_rp_status_string set_rp_cseq set_rp_server set_rp_date
    set_rp_content_length set_rp_content_type set_rp_content_base rp_status_code rp_status_string
    rp_cseq rp_date rp_session_id rp_session_timeout rp_transport rp_authenticate rp_content_type
    rp_scale rp_public_methods rp_allowed_methods rp_rtp_info rp_server rp_range rp_content_length
    rp_content_encoding rp_content_language rp_content_base rp_content_location rp_ext].
  reflexivity.
Qed.

(** C39: a description that does not fit after the header is not sent, but the error
    response that is sent instead keeps the header of the failed one: it announces
    the length and the type of a body that never follows, which makes the client
    take that much of the next messages for it. *)
Theorem describe_too_long_announces_body (s : rtsp_server)
    (l1 l2 : list rtsp_server_pending_request) (r : rtsp_server_pending_request) (conn : Z)
    (sd : cstr) :
  pends s l1 r l2 → pr_conn r = Some conn → pr_in_callback r = 0 →
  sd ≠ [] → Zlen sd < RTSP_SESSION_DESCRIPTION_MAX_LEN →
  let resp := describe_response s r sd in
  let err := set_rp_status_string (Some (cs "Internal Server Error"))
               (set_rp_status_code 500 resp) in
  sendable s resp = true → sendable s err = true →
  sv_max_msg_size s <= Zlen (text_of_response resp) + Zlen sd →
  rp_content_length err = Zlen sd ∧ 0 < rp_content_length err ∧
  rtsp_server_reply_to_describe (Some (pr_ptr r)) 200 None 0 (Some sd) s
  = Some (- ENOBUFS, replied_state (l1 ++ l2) (sent conn (text_of_response err) s)).
Proof using L.
  intros P Hc Hcb Hne Hlen resp err Hsend Herr Hfit. destruct (sendable_ok _ _ Hsend) as [Hok Hmax].
  split; [done|]. split.
  { change (0 < Zlen sd). destruct sd; [done|]. rewrite Zlen_cons. pose proof (Zlen_nonneg sd). lia. }
  pose proof (pends_upd P (set_pr_response resp) eq_refl) as P1.
  set (s1 := set_sv_pending (l1 ++ set_pr_response resp r :: l2) s) in *.
  destruct (write_body_eq resp 0 sd s1 Hok) as (t & Hw & _); [cbn; pose proof (Zlen_nonneg (text_of_response resp)); lia|].
  change (sv_max_msg_size s1) with (sv_max_msg_size s) in Hw.
  rewrite (proj2 (Z.ltb_ge _ _) Hfit) in Hw.
  unfold rtsp_server_reply_to_describe. eapply bind_intro; [exact (request_find_eq P _ eq_refl)|].
  change (0 <? 0) with false. cbv iota. eapply bind_intro.
  { rewrite (describe_body_eq s l1 r l2 conn sd P Hc Hne Hlen). fold resp s1.
    unfold finish_response. eapply bind_intro; [exact (copy_no_ext _ _ _ _ P1)|].
    change (0 <? 0) with false. cbv iota.
    eapply bind_intro; [exact (request_at_eq P1 _ eq_refl)|].
    eapply bind_intro; [exact Hw|]. reflexivity. }
  cbv beta iota.
  pose proof (error_response_eq s1 l1 (set_pr_response resp r) l2 conn 500 P1 Hc ltac:(done)) as He.
  change (rtsp_status_get 500) with (500, cs "Internal Server Error") in He. cbn [fst snd] in He.
  pose proof (describe_error_response s s1 r sd eq_refl eq_refl) as Eerr. fold resp err in Eerr.
  cbv zeta in He. rewrite Eerr, (sendable_same s s1 err eq_refl) in He. specialize (He Herr).
  clear Eerr Herr.
  clearbody err. generalize dependent (text_of_response err). intros text He.
  eapply bind_intro; [exact (ignore_eq _ _ _ _ He)|]. clear He Hw.
  set (r2 := set_pr_response err (set_pr_response resp r)).
  pose proof (request_replied_eq (sent conn text (set_sv_pending (l1 ++ r2 :: l2) s1)) l1 r2 l2
           ltac:(destruct P; by constructor) Hcb) as Hend.
  eapply bind_intro; [exact Hend|]. reflexivity.
Qed.
End answers.

(** ** Concrete inputs *)

Lemma new_server_wf : wf_server new_server.
Proof.
  exact (inv_wf [] new_server (inv_new
           None 554 0 0 all_args [] 5000000 new_server eq_refl)).
Qed.

Definition sample_play : rtsp_request_header :=
  sample_header RTSP_METHOD_TYPE_PLAY "rtsp://192.168.42.1/live" (Some (cs "0123456789abcdef")).

Definition not_found_response : rtsp_response_header :=
  status_fields 454 (cs "Session Not Found") 7 (cs "librtsp_server") 5000000
    rtsp_response_header_clear.

Lemma unknown_session_answered_witness :
  ∃ s', rtsp_server_request_process (T := stub_time) (E := sample_env reply_at_once) 1 sample_play
          [] new_server = Some (0, s') ∧
        answered (E := sample_env reply_at_once) new_server 1
          (text_of_response (T := stub_time) not_found_response) s'.
Proof.
  exact (unknown_session_answered (L := stub_time_laws) (E := sample_env reply_at_once) 1
           sample_play [] new_server (cs "0123456789abcdef") []
           new_server_wf eq_refl eq_refl eq_refl ltac:(vm_compute; reflexivity)
           ltac:(intros ss Hss; inversion Hss) ltac:(vm_compute; reflexivity)).
Defined.

Definition options_response : rtsp_response_header :=
  set_rp_public_methods server_public_methods
    (status_fields 200 (cs "OK") 7 (cs "librtsp_server") 5000000 rtsp_response_header_clear).

Lemma options_answered_witness :
  ∃ s', rtsp_server_request_process (T := stub_time) (E := sample_env reply_at_once) 1
          (sample_header RTSP_METHOD_TYPE_OPTIONS "*" None) [] new_server = Some (0, s') ∧
        answered (E := sample_env reply_at_once) new_server 1
          (text_of_response (T := stub_time) options_response) s'.
Proof.
  exact (options_answered (L := stub_time_laws) (E := sample_env reply_at_once) 1
           (sample_header RTSP_METHOD_TYPE_OPTIONS "*" None) [] new_server []
           new_server_wf eq_refl eq_refl ltac:(vm_compute; reflexivity) eq_refl).
Defined.

(** A DESCRIBE request that is pending. *)
Definition pending_describe : rtsp_server_pending_request :=
  received new_server 1 (sample_header RTSP_METHOD_TYPE_DESCRIBE "rtsp://192.168.42.1/live" None) [].

Definition describing : rtsp_server := arrived new_server pending_describe.

Lemma describing_pends : pends describing [] pending_describe [].
Proof. exact (arrived_pends new_server pending_describe new_server_wf eq_refl). Qed.

Lemma reply_to_describe_answered_witness :
  let text := text_of_response (T := stub_time)
                (describe_response describing pending_describe sample_sdp) ++ sample_sdp in
  rtsp_server_reply_to_describe (T := stub_time) (E := sample_env reply_at_once)
    (Some O) 200 None 0 (Some sample_sdp) describing
  = Some (0, replied_state [] (sent (E := sample_env reply_at_once) 1 text describing)).
Proof.
  exact (reply_to_describe_answered (L := stub_time_laws) (E := sample_env reply_at_once)
           describing [] [] pending_describe 1 sample_sdp describing_pends eq_refl eq_refl
           ltac:(discriminate) eq_refl ltac:(vm_compute; reflexivity) ltac:(vm_compute; reflexivity)).
Defined.

(** A description that fits in no message. *)
Definition long_sdp : cstr := repeat "a"%char (Z.to_nat 8100).

Lemma describe_too_long_announces_body_witness :
  let err := set_rp_status_string (Some (cs "Internal Server Error"))
               (set_rp_status_code 500 (describe_response describing pending_describe long_sdp)) in
  rp_content_length err = Zlen long_sdp ∧ 0 < rp_content_length err ∧
  rtsp_server_reply_to_describe (T := stub_time) (E := sample_env reply_at_once)
    (Some O) 200 None 0 (Some long_sdp) describing
  = Some (- ENOBUFS, replied_state []
      (sent (E := sample_env reply_at_once) 1 (text_of_response (T := stub_time) err) describing)).
Proof.
  exact (describe_too_long_announces_body (L := stub_time_laws) (E := sample_env reply_at_once)
           describing [] [] pending_describe 1 long_sdp describing_pends eq_refl eq_refl
           ltac:(vm_compute; discriminate) ltac:(vm_compute; reflexivity)
           ltac:(vm_compute; reflexivity) ltac:(vm_compute; reflexivity)
           ltac:(vm_compute; discriminate)).
Defined.
