(* ===== verification/ServerEvents.v ===== *)
(** * Timers, connections and forced teardown *)

From S2P Require Import Prelude CString CNumber Writer Url Methods Transport CFloat TimeRange.
From S2P Require Import Framing HeaderLine HeaderFields Request Response Message ObjList StateMonad.
From S2P Require Import ServerState ServerSession ServerRequest ServerReply Server ServerSample.
From S2P Require Import ServerLogic ServerInv ServerExec ServerAnswers.
From stdpp Require Import options.

Local Open Scope Z_scope.

Section events.
Context `{L : LocalTimeLaws} `{E : Env}.

(** ** Closed connections *)

Lemma disconnect_pends s l1 r l2 conn :
  pends s l1 r l2 → pr_conn r = Some conn →
  let f := fun r => if decide (pr_conn r = Some conn) then set_pr_conn None r else r in
  rtsp_server_disconnected conn s = Some (tt, set_sv_pending (map f l1 ++ set_pr_conn None r :: map f l2) s) ∧
  pends (set_sv_pending (map f l1 ++ set_pr_conn None r :: map f l2) s)
    (map f l1) (set_pr_conn None r) (map f l2).
Proof using Type.
  clear L. intros [Hp Ha] Hc f. split.
  - unfold rtsp_server_disconnected, modify. rewrite Hp, map_app. cbn [map]. by rewrite decide_True.
  - constructor; [done|]. cbn [pr_ptr set_pr_conn].
    assert (pr_ptr <$> map f l1 = pr_ptr <$> l1) as ->; [|done].
    clear. induction l1 as [|x l IH]; [done|]. cbn. rewrite IH. f_equal. unfold f. by case_decide.
Qed.

(** ** Replies to requests that are not pending *)

Lemma request_find_none p s :
  p ∉ pr_ptr <$> sv_pending s → rtsp_server_pending_request_find p s = Some (- ENOENT, s).
Proof using Type.
  clear L. intros Hp. unfold rtsp_server_pending_request_find, mbind, SM_bind, gets, mret, SM_ret.
  by rewrite bool_decide_eq_false_2.
Qed.

Lemma media_at_eq p s m :
  find_media p (sv_sessions s) = Some m → media_at p s = Some (m, s).
Proof using Type.
  clear L. intros H. unfold media_at. eapply bind_intro; [reflexivity|]. by rewrite H.
Qed.

(** A reply to a request that is not pending any more, for example because it
    timed out, changes nothing and returns [-ENOENT]; except for the reply to
    RECORD, which reads through the NULL pointer that it has just stored: the
    execution is undefined. *)
Theorem late_reply (s : rtsp_server) (p m : ptr) (media : rtsp_server_session_media)
    (status : Z) (range : option rtsp_range) (ext : option (list rtsp_header_ext)) (n : Z) :
  p ∉ pr_ptr <$> sv_pending s → find_media m (sv_sessions s) = Some media →
  (∀ sd, rtsp_server_reply_to_describe (Some p) status ext n sd s = Some (- ENOENT, s)) ∧
  (∀ p1 p2 v ssrc u,
     rtsp_server_reply_to_setup (Some p) (Some m) status p1 p2 v ssrc ext n u s
     = Some (- ENOENT, s)) ∧
  (∀ scale sv sq rv rt,
     rtsp_server_reply_to_play (Some p) (Some m) status range scale sv sq rv rt ext n s
     = Some (- ENOENT, s)) ∧
  rtsp_server_reply_to_pause (Some p) (Some m) status range ext n s = Some (- ENOENT, s) ∧
  rtsp_server_reply_to_teardown (Some p) (Some m) status ext n s = Some (- ENOENT, s) ∧
  rtsp_server_reply_to_announce (Some p) status ext n s = Some (- ENOENT, s) ∧
  rtsp_server_reply_to_record (Some p) (Some m) status range ext n s = None.
Proof using Type.
  clear L. intros Hp Hm. pose proof (request_find_none p s Hp) as Hf.
  pose proof (media_at_eq m s media Hm) as Hat.
  split_and!; intros;
    unfold rtsp_server_reply_to_describe, rtsp_server_reply_to_setup, rtsp_server_reply_to_play,
      rtsp_server_reply_to_pause, rtsp_server_reply_to_teardown, rtsp_server_reply_to_announce,
      rtsp_server_reply_to_record;
    repeat (eapply bind_intro; [first [exact Hat|exact Hf]|]; cbv zeta); reflexivity.
Qed.

(** ** Forced teardown *)

Lemma session_find_eq id s :
  rtsp_server_session_find (Some id) s
  = Some (ss_ptr <$> List.find (fun ss => same_id (ss_id ss) id) (sv_sessions s), s).
Proof using Type. clear L. done. Qed.

(** A forced teardown of a session that does not exist, or of a path that is not
    one of its medias, returns [-ENOENT]; while a request on the session is being
    handled it returns [-EALREADY] for a TEARDOWN and [-EBUSY] for any other; in all
    these cases nothing changes, nothing is sent and no callback is called. *)
Theorem force_teardown_refused (s : rtsp_server) (id : cstr) (path : option cstr)
    (ext : option (list rtsp_header_ext)) (n : Z) :
  wf_server s →
  match List.find (fun ss => same_id (ss_id ss) id) (sv_sessions s) with
  | None => rtsp_server_force_teardown (Some id) path ext n s = Some (- ENOENT, s)
  | Some ss =>
      if match path with
         | Some p => negb (existsb (fun m => streq (sm_path m) p) (ss_medias ss))
         | None => false
         end
      then rtsp_server_force_teardown (Some id) path ext n s = Some (- ENOENT, s)
      else ss_op ss ≠ RTSP_METHOD_TYPE_UNKNOWN →
           rtsp_server_force_teardown (Some id) path ext n s
           = Some (if bool_decide (ss_op ss = RTSP_METHOD_TYPE_TEARDOWN) then - EALREADY
                   else - EBUSY, s)
  end.
Proof using Type.
  clear L. intros Hwf. unfold rtsp_server_force_teardown.
  destruct (List.find _ _) as [ss|] eqn:Hf.
  2: { eapply bind_intro; [apply session_find_eq|]. by rewrite Hf. }
  apply find_some in Hf as Hin. destruct Hin as [Hin _].
  assert (session_at (ss_ptr ss) s = Some (ss, s)) as Hat.
  { unfold session_at. eapply bind_intro; [reflexivity|].
    rewrite (find_obj_elem ss_ptr); [done|apply wf_session_addrs, Hwf|by apply list_elem_of_In]. }
  set (found := match path with Some p => sm_ptr <$> List.find (fun m => streq (sm_path m) p) (ss_medias ss)
                | None => None end).
  assert (rtsp_server_session_media_find (ss_ptr ss) path s = Some (found, s)) as Hmf.
  { destruct path as [p|]; [|done]. unfold rtsp_server_session_media_find.
    by eapply bind_intro; [exact Hat|]. }
  assert (match path with Some p => negb (existsb (fun m => streq (sm_path m) p) (ss_medias ss))
          | None => false end = bool_decide (is_Some path) && bool_decide (found = None)) as ->.
  { destruct path as [p|]; [|done]. cbn. unfold found.
    destruct (List.find (fun m => streq (sm_path m) p) (ss_medias ss)) as [m|] eqn:Hm.
    - apply find_some in Hm as [Hm1 Hm2]. cbn. apply negb_false_iff, existsb_exists. by exists m.
    - cbn. apply negb_true_iff. apply not_true_iff_false. intros (m & H1 & H2)%existsb_exists.
      by rewrite (find_none _ _ Hm m H1) in H2. }
  destruct (_ && _) eqn:Hcond.
  - eapply bind_intro; [apply session_find_eq|]. rewrite Hf. cbn [fmap option_fmap option_map].
    eapply bind_intro; [exact Hmf|]. by rewrite Hcond.
  - intros Hop. eapply bind_intro; [apply session_find_eq|]. rewrite Hf.
    cbn [fmap option_fmap option_map]. eapply bind_intro; [exact Hmf|]. rewrite Hcond.
    eapply bind_intro; [exact Hat|]. by destruct (ss_op ss).
Qed.
(** ** The timer of the requests *)

(** The requests that the application was told of. *)
Definition timeouts (o : list output) : list ptr :=
  omap (fun x => match x with CbRequestTimeout p _ => Some p | _ => None end) o.

(** What the timer leaves as it is. *)
Record same_server (s s' : rtsp_server) : Prop := SameServer {
  same_now : sv_now s' = sv_now s;
  same_name : sv_software_name s' = sv_software_name s;
  same_max : sv_max_msg_size s' = sv_max_msg_size s;
  same_sessions : sv_sessions s' = sv_sessions s
}.

Definition timeout_response (s : rtsp_server) (r : rtsp_server_pending_request)
    : rtsp_response_header :=
  status_response s r 500 (cs "Internal Server Error").

(** The error response of a request that has expired, if it can be sent. *)
Definition timeout_ok (s : rtsp_server) (r : rtsp_server_pending_request) : Prop :=
  pr_conn r = None ∨ sendable s (timeout_response s r) = true.

Lemma timeout_ok_same s s' r : same_server s s' → timeout_ok s r → timeout_ok s' r.
Proof using Type.
  clear L. intros [Hn Hm Hx _] [H|H]; [by left|right]. rewrite (sendable_same s s') by done.
  unfold timeout_response, status_response in *. by rewrite Hn, Hm.
Qed.

Lemma callback_silent o s :
  env_app (sv_out s ++ [o]) = [] → callback o s = Some (tt, set_sv_out (sv_out s ++ [o]) s).
Proof using Type.
  clear L. intros Happ. unfold callback. eapply bind_intro; [reflexivity|].
  eapply bind_intro; [reflexivity|]. cbn [sv_out set_sv_out]. by rewrite Happ.
Qed.

Definition timer_body (now : Z) (request : ptr) : SM unit :=
  r ← request_at request;
  when (expired now r)
    (ignore (error_response request RTSP_STATUS_CODE_INTERNAL_SERVER_ERROR);;
     r ← request_at request;
     callback (CbRequestTimeout request (rq_method (pr_header r)));;
     ignore (rtsp_server_pending_request_remove request)).

Lemma timer_body_expired s l1 r l2 now :
  (∀ out p m, env_app (out ++ [CbRequestTimeout p m]) = []) →
  pends s l1 r l2 → expired now r = true → timeout_ok s r →
  ∃ s' o, timer_body now (pr_ptr r) s = Some (tt, s') ∧ sv_pending s' = l1 ++ l2 ∧
    sv_out s' = sv_out s ++ o ∧ timeouts o = [pr_ptr r] ∧ same_server s s'.
Proof using L.
  intros Happ P Hexp Hok.
  assert (∃ s1 o1 r1 x, error_response (pr_ptr r) 500 s = Some (x, s1) ∧ pends s1 l1 r1 l2 ∧
            pr_ptr r1 = pr_ptr r ∧ sv_out s1 = sv_out s ++ o1 ∧ timeouts o1 = [] ∧ same_server s s1)
    as (s1 & o1 & r1 & x & He & P1 & Hr1 & Ho1 & Ht1 & Hs1).
  { destruct (pr_conn r) as [conn|] eqn:Hc.
    - destruct Hok as [Hno|Hsend]; [congruence|].
      pose proof (error_response_eq s l1 r l2 conn 500 P Hc ltac:(done)) as He.
      change (rtsp_status_get 500) with (500, cs "Internal Server Error") in He.
      cbn [fst snd] in He. fold (timeout_response s r) in He. specialize (He Hsend).
      eexists _, [_], (set_pr_response (timeout_response s r) r), _. split; [exact He|]. split; [|by split_and!].
      destruct P. by constructor.
    - exists s, [], r, (- ECONNRESET). split; [|by split_and!; rewrite ?app_nil_r].
      unfold error_response. eapply bind_intro; [exact (request_at_eq P _ eq_refl)|]. by rewrite Hc. }
  set (s2 := set_sv_out (sv_out s1 ++ [CbRequestTimeout (pr_ptr r) (rq_method (pr_header r1))]) s1).
  assert (pends s2 l1 r1 l2) as P2 by (destruct P1; by constructor).
  exists (replied_state (l1 ++ l2) s2), (o1 ++ [CbRequestTimeout (pr_ptr r) (rq_method (pr_header r1))]).
  split_and!.
  - unfold timer_body. eapply bind_intro; [exact (request_at_eq P _ eq_refl)|]. rewrite Hexp. cbn [when].
    eapply bind_intro; [exact (ignore_eq _ _ _ _ He)|].
    eapply bind_intro; [exact (request_at_eq P1 _ Hr1)|].
    eapply bind_intro; [exact (callback_silent _ s1 (Happ _ _ _))|].
    exact (ignore_eq _ _ _ _ (request_remove_eq s2 l1 r1 l2 _ P2 Hr1)).
  - done.
  - cbn. rewrite Ho1. by rewrite <- app_assoc.
  - unfold timeouts in *. rewrite omap_app, Ht1. done.
  - destruct Hs1. by constructor.
Qed.

Lemma first_of_all (l here : list ptr) : l ⊆ here → first_of l here = head l.
Proof using Type.
  clear L. destruct l as [|p l]; [done|]. intros H. unfold first_of. cbn.
  by rewrite decide_True by (apply H; left).
Qed.

Lemma timer_walk now todo : ∀ passed s s0,
  (∀ out p m, env_app (out ++ [CbRequestTimeout p m]) = []) →
  sv_pending s = passed ++ todo → NoDup (pr_ptr <$> sv_pending s) →
  same_server s0 s → (∀ r, r ∈ todo → expired now r = true → timeout_ok s0 r) →
  ∃ s' o, list_walk_safe pending_addrs (timer_body now) (pr_ptr <$> todo) (head (pr_ptr <$> todo)) s
          = Some (tt, s') ∧
    sv_pending s' = passed ++ filter (fun r => expired now r = false) todo ∧
    sv_out s' = sv_out s ++ o ∧ same_server s0 s' ∧
    timeouts o = pr_ptr <$> filter (fun r => expired now r = true) todo.
Proof using L.
  induction todo as [|r todo IH]; intros passed s s0 Happ Hp Hnd Hs Hok.
  - exists s, []. cbn. by rewrite !app_nil_r in *.
  - assert (pends s passed r todo) as P.
    { constructor; [done|]. rewrite Hp, fmap_app in Hnd. apply NoDup_app in Hnd as (_ & H & _).
      intros Hin. apply (H _ Hin). left. }
    assert (∃ s1 o1 passed1, timer_body now (pr_ptr r) s = Some (tt, s1) ∧
      sv_pending s1 = passed1 ++ todo ∧ passed1 = passed ++ filter (fun r => expired now r = false) [r] ∧
      sv_out s1 = sv_out s ++ o1 ∧ same_server s0 s1 ∧
      timeouts o1 = pr_ptr <$> filter (fun r => expired now r = true) [r])
      as (s1 & o1 & passed1 & Hb & Hp1 & Hpass & Ho1 & Hs1 & Ht1).
    { destruct (expired now r) eqn:Hexp.
      - destruct (timer_body_expired s passed r todo now Happ P Hexp) as (s1 & o & Hb & Hp1 & Ho & Ht & Hs1).
        + eapply timeout_ok_same; [exact Hs|]. apply Hok; [left|done].
        + exists s1, o, passed. rewrite !filter_cons, !filter_nil, Hexp. cbn. rewrite app_nil_r.
          split_and!; try done. destruct Hs, Hs1. constructor; congruence.
      - exists s, [], (passed ++ [r]). rewrite !filter_cons, !filter_nil, Hexp. cbn.
        rewrite !app_nil_r, <- app_assoc. split_and!; try done.
        unfold timer_body. eapply bind_intro; [exact (request_at_eq P _ eq_refl)|]. by rewrite Hexp. }
    destruct (IH passed1 s1 s0 Happ Hp1) as (s2 & o2 & Hw & Hp2 & Ho2 & Hs2 & Ht2); [|done|..].
    { rewrite Hp1, Hpass. rewrite Hp in Hnd. eapply sublist_NoDup; [exact Hnd|]. apply fmap_sublist.
      rewrite <- app_assoc. apply sublist_app; [done|]. change (r :: todo) with ([r] ++ todo).
      apply sublist_app; [apply sublist_filter|done]. }
    { intros r' Hr'. apply Hok. by right. }
    exists s2, (o1 ++ o2). split_and!; [|rewrite Hp2, Hpass, <- app_assoc, <- filter_app; done
                                        |by rewrite Ho2, Ho1, app_assoc|done|].
    + cbn [fmap list_fmap list_walk_safe head]. rewrite decide_True by done.
      eapply bind_intro; [reflexivity|].
      rewrite bool_decide_eq_true_2 by (rewrite Hp, fmap_app; apply elem_of_app; right; left).
      eapply bind_intro; [exact Hb|]. rewrite first_of_all; [exact Hw|].
      intros p Hin. rewrite Hp, fmap_app. apply elem_of_app. right. by right.
    + unfold timeouts in *. rewrite omap_app, Ht1, Ht2, <- fmap_app, <- filter_app. done.
Qed.

(** C21: with an application that calls nothing from its timeout callback, the timer
    removes exactly the requests whose deadline has passed, keeps the others in
    their order, tells the application of each removed request once and in order,
    and touches no session. *)
Theorem timer_removes_expired (s : rtsp_server) :
  wf_server s → (∀ out p m, env_app (out ++ [CbRequestTimeout p m]) = []) →
  (∀ r, r ∈ sv_pending s → expired (sv_now s) r = true → timeout_ok s r) →
  ∃ s' o, rtsp_server_timer_cb s = Some (tt, s') ∧
    sv_pending s' = filter (fun r => expired (sv_now s) r = false) (sv_pending s) ∧
    sv_out s' = sv_out s ++ o ∧
    timeouts o = pr_ptr <$> filter (fun r => expired (sv_now s) r = true) (sv_pending s) ∧
    sv_sessions s' = sv_sessions s.
Proof using L.
  intros Hwf Happ Hok.
  destruct (timer_walk (sv_now s) (sv_pending s) [] s s Happ eq_refl (wf_request_addrs s Hwf)
              (SameServer s s eq_refl eq_refl eq_refl eq_refl) Hok)
    as (s' & o & Hw & Hp & Ho & Hs & Ht).
  exists s', o. split_and!; [|exact Hp|exact Ho|exact Ht|exact (same_sessions _ _ Hs)].
  unfold rtsp_server_timer_cb. eapply bind_intro; [reflexivity|].
  unfold walk_pending. eapply bind_intro; [reflexivity|]. exact Hw.
Qed.
End events.

(** ** Concrete inputs *)

(** A server with one session, which is handling a PLAY request. *)
Definition busy : rtsp_server :=
  set_sv_next_ptr 2 (set_sv_session_count 1 (set_sv_sessions
    [Session O sample_id None 60000 (Some 72000) 0 0 range_zero (S754_zero false)
       RTSP_METHOD_TYPE_PLAY 1 [SessionMedia 1%nat O None (cs "live/video") 0 false]] new_server)).

Lemma busy_wf : wf_server busy.
Proof.
  constructor; try solve [apply (bool_decide_unpack _); vm_compute; exact I|reflexivity|constructor].
  - apply Forall_singleton. constructor; [cbn; lia|reflexivity| |].
    + apply (bool_decide_unpack _). vm_compute. exact I.
    + apply Forall_singleton. split; [done|cbn; lia].
Qed.

Lemma late_reply_witness :
  (∀ sd, rtsp_server_reply_to_describe (T := stub_time) (E := sample_env reply_at_once)
           (Some 5%nat) 200 None 0 sd busy = Some (- ENOENT, busy)) ∧
  rtsp_server_reply_to_record (T := stub_time) (E := sample_env reply_at_once)
    (Some 5%nat) (Some 1%nat) 200 (Some range_zero) None 0 busy = None.
Proof.
  pose proof (late_reply (T := stub_time) (E := sample_env reply_at_once) busy 5 1
    (SessionMedia 1%nat O None (cs "live/video") 0 false) 200 (Some range_zero) None 0
    ltac:(intros H; inversion H) eq_refl) as (H1 & _ & _ & _ & _ & _ & H2).
  exact (conj H1 H2).
Defined.

Lemma force_teardown_refused_witness :
  rtsp_server_force_teardown (T := stub_time) (E := sample_env reply_at_once)
    (Some sample_id) (Some (cs "live/video")) None 0 busy = Some (- EBUSY, busy).
Proof.
  exact (force_teardown_refused (T := stub_time) (E := sample_env reply_at_once) busy sample_id
           (Some (cs "live/video")) None 0 busy_wf ltac:(discriminate)).
Defined.

(** Two requests of which the first has expired. *)
Definition waited : rtsp_server :=
  set_sv_pending_count 2 (set_sv_pending
    [set_pr_conn None (PendingRequest O None sample_play rtsp_response_header_clear 4000000 1 0 0
       None 0 []);
     PendingRequest 1%nat (Some 1) sample_play rtsp_response_header_clear 6000000 1 0 0 None 0 []]
    (set_sv_next_ptr 2 new_server)).

Lemma waited_wf : wf_server waited.
Proof.
  constructor; try solve [apply (bool_decide_unpack _); vm_compute; exact I|reflexivity|constructor].
  - repeat (apply Forall_cons_2; [constructor; [cbn; lia|reflexivity|constructor]|]). constructor.
Qed.

Lemma timer_removes_expired_witness :
  ∃ s' o, rtsp_server_timer_cb (T := stub_time) (E := sample_env reply_at_once) waited
          = Some (tt, s') ∧
    pr_ptr <$> sv_pending s' = [1%nat] ∧ sv_out s' = o ∧ timeouts o = [O].
Proof.
  destruct (timer_removes_expired (L := stub_time_laws) (E := sample_env reply_at_once) waited
    waited_wf) as (s' & o & H1 & H2 & H3 & H4 & _).
  - intros out p m. unfold sample_env, reply_at_once, env_app. by rewrite last_snoc.
  - intros r Hr Hexp. left. apply elem_of_cons in Hr as [->|Hr]; [reflexivity|].
    apply list_elem_of_singleton in Hr as ->. discriminate.
  - exists s', o. split; [exact H1|]. split; [by rewrite H2|]. split; [exact H3|exact H4].
Defined.
