(* ===== verification/ServerDisconnect.v ===== *)
(** * Replies on a connection that is closed

    The requests that came on a connection stay pending when it is closed, without
    a connection: the application can still reply to them, with any of the seven
    reply functions. *)

From S2P Require Import Prelude CString CNumber Writer Url Methods Transport CFloat TimeRange.
From S2P Require Import Framing HeaderLine HeaderFields Request Response Message ObjList StateMonad.
From S2P Require Import ServerState ServerSession ServerRequest ServerReply Server ServerSample.
From S2P Require Import ServerLogic ServerInv ServerExec ServerAnswers ServerEvents.
From stdpp Require Import options.

Local Open Scope Z_scope.

Section calm.
Context `{T : LocalTime} `{E : Env}.

(** ** What is not sent

    Nothing was output since [out], the requests are [pending], and the session
    [p] is there. *)
Record calm (out : list output) (pending : list rtsp_server_pending_request) (p : ptr)
    (s : rtsp_server) : Prop := Calm {
  calm_out : sv_out s = out;
  calm_pending : sv_pending s = pending;
  calm_session : is_Some (find_obj ss_ptr p (sv_sessions s))
}.

Section session.
Context (out : list output) (pending : list rtsp_server_pending_request) (p : ptr).
Local Abbreviation calm := (calm out pending p).

Lemma calm_session_at s : calm s → runs (session_at p) s (fun ss s' => s' = s ∧ calm s).
Proof.
  intros H. destruct (calm_session _ _ _ _ H) as [ss Hss]. exists ss, s. split; [|done].
  unfold session_at. eapply bind_intro; [reflexivity|]. by rewrite Hss.
Qed.

Lemma calm_upd_session f s :
  (∀ ss, ss_ptr (f ss) = ss_ptr ss) → calm s → runs (upd_session p f) s (fun _ => calm).
Proof.
  intros Hf Hs. unfold upd_session. eapply runs_bind; [by apply calm_session_at|].
  intros ss s' [-> _]. eapply runs_eq; [reflexivity|]. destruct Hs as [Ho Hp [x Hx]].
  constructor; [done..|]. cbn. rewrite find_update_obj, Hx by done. by eexists.
Qed.

Lemma calm_media_remove m s :
  calm s → runs (rtsp_server_session_media_remove p m) s (fun _ => calm).
Proof.
  intros Hs. unfold rtsp_server_session_media_remove. eapply runs_bind; [by apply calm_session_at|].
  intros ss s' [-> _]. case_bool_decide; [|by apply runs_ret].
  eapply runs_bind; [by apply calm_upd_session|]. intros [] s' Hs'. by apply runs_ret.
Qed.

Lemma calm_remove_medias l s :
  calm s → runs (for_each (fun m => ignore (rtsp_server_session_media_remove p m)) l) s (fun _ => calm).
Proof.
  apply runs_for_each. intros m s' Hs'. eapply runs_ignore; [by apply calm_media_remove|done].
Qed.

(** The session may be gone. *)
Definition calm_end (s : rtsp_server) : Prop := sv_out s = out ∧ sv_pending s = pending.

Lemma calm_session_remove s : calm s → runs (rtsp_server_session_remove p) s (fun _ => calm_end).
Proof.
  intros Hs. unfold rtsp_server_session_remove. eapply runs_step; [reflexivity|].
  destruct (calm_session _ _ _ _ Hs) as [ss Hss]. rewrite Hss.
  eapply runs_bind; [by apply calm_remove_medias|]. intros [] s' [Ho Hp _].
  by eapply runs_eq.
Qed.

Lemma calm_remove_torn_down s : calm s → runs (remove_torn_down p) s (fun _ => calm_end).
Proof.
  intros Hs. unfold remove_torn_down. eapply runs_bind; [by apply calm_session_at|].
  intros ss s' [-> _]. eapply runs_bind.
  { apply (runs_for_each calm); [|done]. intros m s' Hs'. destruct (sm_is_tearing_down m); [|by apply runs_ret].
    eapply runs_ignore; [by apply calm_media_remove|done]. }
  intros [] s' Hs'. destruct (forallb _ _); cbn [when].
  - eapply runs_ignore; [by apply calm_session_remove|done].
  - apply runs_ret. by destruct Hs'.
Qed.
End session.

(** ** The end of a reply

    The request [r], between [l1] and [l2], has no connection. *)

Section reply.
Context (out : list output) (l1 : list rtsp_server_pending_request) (r : rtsp_server_pending_request)
  (l2 : list rtsp_server_pending_request).
Context (Haddr : pr_ptr r ∉ pr_ptr <$> l1) (Hconn : pr_conn r = None).

(** What is left of the request. *)
Definition left_over : list rtsp_server_pending_request :=
  if pr_in_callback r =? 0 then [] else [set_pr_replied 1 r].

Definition reply_done (s : rtsp_server) : Prop := calm_end out (l1 ++ left_over ++ l2) s.

Lemma removes s r' :
  sv_pending s = l1 ++ r' :: l2 → pr_ptr r' = pr_ptr r →
  runs (ignore (rtsp_server_pending_request_remove (pr_ptr r))) s (fun _ s' =>
    sv_out s' = sv_out s ∧ sv_pending s' = l1 ++ l2 ∧ sv_sessions s' = sv_sessions s).
Proof using Haddr.
  intros Hp Hr. assert (pends s l1 r' l2) as P by (constructor; [done|by rewrite Hr]).
  eapply runs_ignore; [eapply runs_eq; [exact (request_remove_eq _ _ _ _ _ P Hr)|]|].
  { instantiate (1 := fun _ s' =>
      sv_out s' = sv_out s ∧ sv_pending s' = l1 ++ l2 ∧ sv_sessions s' = sv_sessions s). done. }
  done.
Qed.

Lemma replied_runs rest s :
  calm_end out (l1 ++ r :: l2) s →
  (pr_in_callback r = 0 →
   runs rest (set_sv_pending (l1 ++ set_pr_replied 1 r :: l2) s) (fun _ => calm_end out (l1 ++ l2))) →
  runs (request_replied (pr_ptr r) rest) s (fun _ => reply_done).
Proof using Haddr.
  intros [Ho Hp] Hrest. assert (pends s l1 r l2) as P by done. unfold request_replied.
  eapply runs_step; [exact (upd_request_eq P _ (set_pr_replied 1) eq_refl)|].
  pose proof (pends_upd P (set_pr_replied 1) eq_refl) as P1.
  eapply runs_step; [exact (request_at_eq P1 _ eq_refl)|].
  unfold reply_done, left_over. cbn [pr_in_callback set_pr_replied].
  destruct (pr_in_callback r =? 0) eqn:Hcb; cbn [when]; [apply Hrest; lia|by apply runs_ret].
Qed.

(** The ends of the replies with a session; [rest] comes last. *)
Lemma session_end_runs p rest s :
  calm out (l1 ++ r :: l2) p s →
  (∀ s', calm out (l1 ++ l2) p s' → runs rest s' (fun _ => calm_end out (l1 ++ l2))) →
  runs (request_replied (pr_ptr r)
    (op_done p;; ignore (rtsp_server_pending_request_remove (pr_ptr r));; rest)) s (fun _ => reply_done).
Proof using Haddr.
  intros [Ho Hp Hs] Hrest. apply replied_runs; [done|]. intros _.
  eapply runs_bind; [apply (calm_upd_session out (l1 ++ set_pr_replied 1 r :: l2)); [done|by constructor]|].
  intros [] s1 [Ho1 Hp1 Hs1]. eapply runs_bind; [by eapply removes|].
  intros [] s2 (Ho2 & Hp2 & Hs2). apply Hrest. constructor; [by rewrite Ho2|done|by rewrite Hs2].
Qed.

Lemma media_reply_end_runs p rest s :
  calm out (l1 ++ r :: l2) p s →
  (∀ s', calm out (l1 ++ l2) p s' → runs rest s' (fun _ => calm_end out (l1 ++ l2))) →
  runs (media_reply_end (pr_ptr r) p (s32 (pr_media_count r)) rest) s (fun _ => reply_done).
Proof using Haddr.
  intros Hs Hrest. assert (pends s l1 r l2) as P by (destruct Hs; by constructor).
  unfold media_reply_end. eapply runs_step; [exact (request_at_eq P _ eq_refl)|].
  rewrite Z.eqb_refl. by apply session_end_runs.
Qed.

(** The checks of the four replies to medias. *)
Lemma media_reply_checks_eq media status range reply s :
  sv_pending s = l1 ++ r :: l2 →
  media_reply_checks (pr_ptr r) media status range reply s
  = Some ((- ECONNRESET, 0, s32 (pr_media_count r)), s).
Proof using Haddr Hconn.
  intros Hp. assert (pends s l1 r l2) as P by done. unfold media_reply_checks.
  eapply bind_intro; [exact (request_at_eq P _ eq_refl)|]. rewrite Hconn. unfold all_replied.
  eapply bind_intro; [exact (request_at_eq P _ eq_refl)|]. done.
Qed.

(** ** The replies *)

(** [c] is a reply to the request [p], with one of its medias where it has one. *)
Definition replies_to (p : ptr) (s : rtsp_server) (c : api_call) : Prop :=
  match c with
  | ReplyToDescribe q _ _ _ _ | ReplyToAnnounce q _ _ _ => q = Some p
  | ReplyToSetup q m _ _ _ _ _ _ _ _ | ReplyToPlay q m _ _ _ _ _ _ _ _ _ | ReplyToPause q m _ _ _ _
  | ReplyToTeardown q m _ _ _ | ReplyToRecord q m _ _ _ _ =>
      q = Some p ∧ ∃ media, m = Some media ∧ is_Some (find_media media (sv_sessions s))
  | Announce _ _ _ _ | SendInterleaved _ _ => False
  end.

(** A media that is found belongs to a session that is there. *)
Definition linked (s : rtsp_server) : Prop :=
  ∀ m media, find_media m (sv_sessions s) = Some media →
    is_Some (find_obj ss_ptr (sm_session media) (sv_sessions s)).

Lemma wf_linked s : wf_server s → linked s.
Proof using Type.
  intros Hwf m media [Hm _]%find_obj_Some. apply list_elem_of_In, in_concat in Hm as (l & Hl & Hm).
  apply list_elem_of_In, list_elem_of_fmap in Hl as (ss & -> & Hss).
  pose proof (wf_sessions s Hwf) as H. rewrite Forall_forall in H. destruct (H ss Hss) as [_ _ _ Hms].
  rewrite Forall_forall in Hms. destruct (Hms media) as [-> _]; [by apply list_elem_of_In|].
  apply is_Some_find. by apply list_elem_of_fmap_2.
Qed.

Lemma upd_media_runs p m f s :
  is_Some (find_media m (sv_sessions s)) → calm out (l1 ++ r :: l2) p s →
  runs (upd_media m f) s (fun _ => calm out (l1 ++ r :: l2) p).
Proof using Type.
  intros [media Hm] [Ho Hp Hs]. eapply runs_step; [by apply media_at_eq|].
  eapply runs_eq; [reflexivity|]. constructor; [done..|].
  rewrite is_Some_find in *. cbn [sv_sessions set_sv_sessions].
  replace (ss_ptr <$> map _ (sv_sessions s)) with (ss_ptr <$> sv_sessions s); [done|].
  clear. induction (sv_sessions s) as [|x l IH]; [done|]. cbn. by rewrite IH.
Qed.

(** What the five replies to a media start with. *)
Lemma media_steps m media s (none : Z → SM Z) (f : rtsp_server_session_media → SM Z) Q :
  linked s → calm_end out (l1 ++ r :: l2) s → find_media m (sv_sessions s) = Some media →
  (calm out (l1 ++ r :: l2) (sm_session media) s → runs (f media) s Q) →
  runs (media ← media_at m;
        ret ← rtsp_server_pending_request_find (pr_ptr r);
        if ret <? 0 then none ret else f media) s Q.
Proof using Haddr.
  intros Hwf [Ho Hp] Hm Hf. assert (pends s l1 r l2) as P by done.
  eapply runs_step; [by apply media_at_eq|].
  eapply runs_step; [exact (request_find_eq P _ eq_refl)|]. apply Hf.
  constructor; [done..|by eapply Hwf].
Qed.

Lemma body_end_runs p rest s (body : SM (Z * Z * Z)) :
  calm out (l1 ++ r :: l2) p s →
  body s = Some ((- ECONNRESET, 0, s32 (pr_media_count r)), s) →
  (∀ s', calm out (l1 ++ l2) p s' → runs rest s' (fun _ => calm_end out (l1 ++ l2))) →
  runs ('(ret, error_status, replied) ← body;
        reply_error (pr_ptr r) error_status;;
        media_reply_end (pr_ptr r) p replied rest;;
        mret ret) s (fun ret s' => ret = - ECONNRESET ∧ reply_done s').
Proof using Haddr.
  intros Hs Hb Hrest. eapply runs_step; [exact Hb|]. cbv beta iota.
  eapply runs_step; [reflexivity|]. eapply runs_bind; [by apply media_reply_end_runs|].
  intros [] s' Hs'. by apply runs_ret.
Qed.

(** The two replies without a media. *)
Lemma plain_reply_runs (body : SM (Z * Z)) s :
  calm_end out (l1 ++ r :: l2) s → body s = Some ((- ECONNRESET, 0), s) →
  runs (ret ← rtsp_server_pending_request_find (pr_ptr r);
        if ret <? 0 then mret ret
        else
          '(ret, error_status) ← body;
          reply_error (pr_ptr r) error_status;;
          request_replied (pr_ptr r) (ignore (rtsp_server_pending_request_remove (pr_ptr r)));;
          mret ret) s (fun ret s' => ret = - ECONNRESET ∧ reply_done s').
Proof using Haddr.
  intros Hs Hb. pose proof Hs as [Ho Hp]. assert (pends s l1 r l2) as P by done.
  eapply runs_step; [exact (request_find_eq P _ eq_refl)|]. change (0 <? 0) with false. cbv iota.
  eapply runs_step; [exact Hb|]. cbv beta iota. eapply runs_step; [reflexivity|].
  eapply runs_bind; [apply replied_runs; [done|]|].
  - intros _. eapply runs_weaken; [by eapply removes|]. intros [] s' (H1 & H2 & _). by split; [rewrite H1|].
  - intros [] s' Hs'. by apply runs_ret.
Qed.

(** The reply to SETUP may register the removal of the session. *)
Lemma setup_reply_runs m media s st p1 p2 v ssrc ext n u :
  linked s → calm_end out (l1 ++ r :: l2) s → find_media m (sv_sessions s) = Some media →
  runs (rtsp_server_reply_to_setup (Some (pr_ptr r)) (Some m) st p1 p2 v ssrc ext n u) s
    (fun ret s' => ret = - ECONNRESET ∧ reply_done s').
Proof using Haddr Hconn.
  intros Hwf Hs Hm. unfold rtsp_server_reply_to_setup. apply (media_steps m media s); [done..|].
  intros Hs0. eapply runs_bind; [by apply (upd_media_runs (sm_session media)); [eexists|]|].
  intros [] s1 Hs1. assert (pends s1 l1 r l2) as P1 by (destruct Hs1; by constructor).
  eapply runs_step; [unfold setup_body; eapply bind_intro; [exact (request_at_eq P1 _ eq_refl)|];
    by rewrite Hconn|]. cbv beta iota. eapply runs_step; [reflexivity|].
  eapply runs_bind; [exact (calm_session_at _ _ _ _ Hs1)|]. intros ss s2 [-> _]. cbn [andb].
  eapply (runs_bind _ _ _ (fun _ => calm out (l1 ++ r :: l2) (sm_session media))).
  { destruct (ss_media_count ss =? 1); cbn [when]; [|by apply runs_ret].
    eapply runs_eq; [reflexivity|]. destruct Hs1. by constructor. }
  intros [] s3 Hs3. eapply (runs_bind _ _ _ (fun _ => reply_done)); [|intros [] s4 Hs4; by apply runs_ret].
  destruct Hs3 as [Ho3 Hp3 Hse3]. apply replied_runs; [done|]. intros _.
  eapply runs_bind; [apply (calm_upd_session out (l1 ++ set_pr_replied 1 r :: l2)); [done|by constructor]|].
  intros [] s4 [Ho4 Hp4 _]. eapply runs_weaken; [by eapply removes|].
  intros [] s5 (H1 & H2 & _). by split; [rewrite H1|].
Qed.

Lemma reply_runs s c :
  linked s → calm_end out (l1 ++ r :: l2) s → replies_to (pr_ptr r) s c →
  runs (run_api_call c) s (fun ret s' => ret = - ECONNRESET ∧ reply_done s').
Proof using Haddr Hconn.
  intros Hwf Hs Hc. pose proof Hs as [Ho Hp]. assert (pends s l1 r l2) as P by done.
  assert (∀ p s', calm out (l1 ++ l2) p s' → runs skip s' (fun _ => calm_end out (l1 ++ l2))) as Hskip
    by (intros p s' []; by apply runs_ret).
  destruct c; cbn [replies_to] in Hc; try done; cbn [run_api_call];
    try (destruct Hc as (-> & m & -> & media & Hm)).
  - subst. apply plain_reply_runs; [done|]. unfold describe_body.
    eapply bind_intro; [exact (request_at_eq P _ eq_refl)|]. by rewrite Hconn.
  - by eapply setup_reply_runs.
  - apply (media_steps m media s); [done..|]. intros Hs0.
    apply body_end_runs; [done|by apply media_reply_checks_eq|apply Hskip].
  - apply (media_steps m media s); [done..|]. intros Hs0.
    apply body_end_runs; [done|by apply media_reply_checks_eq|apply Hskip].
  - apply (media_steps m media s); [done..|]. intros Hs0.
    apply body_end_runs; [done|by apply media_reply_checks_eq|apply calm_remove_torn_down].
  - subst. apply plain_reply_runs; [done|]. unfold announce_body.
    eapply bind_intro; [exact (request_at_eq P _ eq_refl)|]. by rewrite Hconn.
  - apply (media_steps m media s); [done..|]. intros Hs0.
    apply body_end_runs; [done|by apply media_reply_checks_eq|apply Hskip].
Qed.
End reply.

(** C35: A connection is closed: the requests that came on it have no connection
    any more, and stay pending.  Whatever the application replies to such a request
    then, with any of the seven reply functions and any status and arguments, with a
    media that is there where the reply is for a media, in the callback of the
    request or outside: the reply returns [-ECONNRESET] and nothing is sent, nor is
    the application called.  The request is removed, or, in a callback, marked as
    replied to, so that its handler removes it; the other requests stay. *)
Theorem reply_after_disconnect s l1 r l2 conn c :
  wf_server s → pends s l1 r l2 → pr_conn r = Some conn → replies_to (pr_ptr r) s c →
  let closed r := if decide (pr_conn r = Some conn) then set_pr_conn None r else r in
  ∃ s1 s2, rtsp_server_disconnected conn s = Some (tt, s1) ∧
    sv_pending s1 = closed <$> sv_pending s ∧ sv_out s1 = sv_out s ∧
    run_api_call c s1 = Some (- ECONNRESET, s2) ∧ sv_out s2 = sv_out s ∧
    sv_pending s2 = (closed <$> l1) ++
      (if pr_in_callback r =? 0 then [] else [set_pr_replied 1 (set_pr_conn None r)]) ++
      (closed <$> l2).
Proof.
  intros Hwf P Hc Hr closed. destruct (disconnect_pends s l1 r l2 conn P Hc) as [Hd P1].
  set (s1 := set_sv_pending _ s) in *. fold closed in s1, Hd, P1.
  assert (linked s1) as Hwf1 by exact (wf_linked s Hwf).
  destruct (reply_runs (sv_out s) (map closed l1) (set_pr_conn None r) (map closed l2) (pends_addr _ _ _ _ P1)
    eq_refl s1 c Hwf1) as (ret & s2 & H2 & -> & Ho & Hp); [by split|done|].
  exists s1, s2. split_and!; try done. unfold s1. cbn. destruct P as [-> _].
  assert (closed r = set_pr_conn None r) as Hr' by (unfold closed; by rewrite decide_True).
  by rewrite fmap_app, fmap_cons, Hr'.
Qed.
End calm.

(** ** Concrete inputs *)

(** A request for the media of the session of [busy], and a reply to tear it down. *)
Definition busy_request : rtsp_server_pending_request := new_request busy 1 10000.
Definition busy_waiting : rtsp_server := arrived busy busy_request.

Lemma busy_waiting_wf : wf_server busy_waiting.
Proof.
  constructor; try solve [apply (bool_decide_unpack _); vm_compute; exact I|reflexivity|constructor].
  - apply Forall_singleton. constructor; [cbn; lia|reflexivity| |].
    + apply (bool_decide_unpack _). vm_compute. exact I.
    + apply Forall_singleton. split; [done|cbn; lia].
  - apply Forall_singleton. constructor; [cbn; lia|reflexivity|constructor].
Qed.

Definition busy_reply : api_call := ReplyToTeardown (Some 2%nat) (Some 1%nat) 200 None 0.

Lemma reply_after_disconnect_witness :
  let closed r := if decide (pr_conn r = Some 1) then set_pr_conn None r else r in
  ∃ s1 s2, rtsp_server_disconnected 1 busy_waiting = Some (tt, s1) ∧
    sv_pending s1 = closed <$> sv_pending busy_waiting ∧ sv_out s1 = sv_out busy_waiting ∧
    run_api_call (T := stub_time) (E := sample_env reply_at_once) busy_reply s1
      = Some (- ECONNRESET, s2) ∧ sv_out s2 = sv_out busy_waiting ∧
    sv_pending s2 = (closed <$> []) ++ [] ++ (closed <$> []).
Proof.
  assert (pends busy_waiting [] busy_request []) as P
    by exact (arrived_pends busy busy_request busy_wf eq_refl).
  exact (reply_after_disconnect (T := stub_time) (E := sample_env reply_at_once) busy_waiting []
           busy_request [] 1 busy_reply busy_waiting_wf P eq_refl
           (conj eq_refl (ex_intro _ 1%nat (conj eq_refl (ex_intro _ _ eq_refl))))).
Defined.
