(* ===== verification/ServerStream.v ===== *)
(** * The server on a stream

    Nothing the handlers do reads or changes the receive buffer and the parser;
    with the framing theorem of [Message.v] a server behaves, for whatever chunks
    the transport delivers, as on the sequence of the messages. *)

From S2P Require Import Prelude CString CNumber Writer Url Methods Transport CFloat TimeRange.
From S2P Require Import Framing HeaderLine HeaderFields Request Response Message ObjList StateMonad Receiver.
From S2P Require Import ServerState ServerSession ServerRequest ServerReply Server ServerSample.
From S2P Require Import ServerLogic ServerExec.
From stdpp Require Import options.

Local Open Scope Z_scope.

(** Another receive buffer and another parser. *)
Definition set_rx (buf : bytes) (ctx : rtsp_message_parser_ctx) (s : rtsp_server) : rtsp_server :=
  set_sv_parser_ctx ctx (set_sv_request_buf buf s).

(** No handler reads or changes them. *)
Section oblivious.
Context (buf : bytes) (ctx : rtsp_message_parser_ctx).
Local Abbreviation oblivious := (commutes (set_rx buf ctx)).

(** ** Accesses and sessions *)

Lemma obl_session_at p : oblivious (session_at p).
Proof. unfold session_at. obl. Qed.
Lemma obl_request_at p : oblivious (request_at p).
Proof. unfold request_at. obl. Qed.
Lemma obl_media_at p : oblivious (media_at p).
Proof. unfold media_at. obl. Qed.
Hint Resolve obl_session_at obl_request_at obl_media_at : obl.

Lemma obl_upd_session p f : oblivious (upd_session p f).
Proof. unfold upd_session. obl. Qed.
Lemma obl_upd_request p f : oblivious (upd_request p f).
Proof. unfold upd_request. obl. Qed.
Lemma obl_upd_media p f : oblivious (upd_media p f).
Proof. unfold upd_media. obl. Qed.
Lemma obl_alloc : oblivious alloc.
Proof. unfold alloc. obl. Qed.
Hint Resolve obl_upd_session obl_upd_request obl_upd_media obl_alloc : obl.

Context `{T : LocalTime} `{E : Env}.

Lemma obl_new_session_id fuel : oblivious (new_session_id fuel).
Proof. induction fuel as [|fuel IH]; cbn [new_session_id]; obl. Qed.
Hint Resolve obl_new_session_id : obl.

Lemma obl_reset_timeout p : oblivious (rtsp_server_session_reset_timeout p).
Proof. unfold rtsp_server_session_reset_timeout. obl. Qed.
Lemma obl_session_add timeout uri : oblivious (rtsp_server_session_add timeout uri).
Proof. unfold rtsp_server_session_add. obl. Qed.
Lemma obl_session_find id : oblivious (rtsp_server_session_find id).
Proof. unfold rtsp_server_session_find. obl. Qed.
Lemma obl_media_find p path : oblivious (rtsp_server_session_media_find p path).
Proof. unfold rtsp_server_session_media_find. obl. Qed.
Lemma obl_media_remove p m : oblivious (rtsp_server_session_media_remove p m).
Proof. unfold rtsp_server_session_media_remove. obl. Qed.
Hint Resolve obl_reset_timeout obl_session_add obl_session_find obl_media_find obl_media_remove : obl.
Lemma obl_media_add p uri path : oblivious (rtsp_server_session_media_add p uri path).
Proof. unfold rtsp_server_session_media_add. obl. Qed.
Lemma obl_session_remove p : oblivious (rtsp_server_session_remove p).
Proof. unfold rtsp_server_session_remove. obl. Qed.
Hint Resolve obl_media_add obl_session_remove : obl.

(** ** Requests and replies *)

Lemma obl_request_add conn timeout : oblivious (rtsp_server_pending_request_add conn timeout).
Proof. unfold rtsp_server_pending_request_add, time_get_monotonic. obl. Qed.
Lemma obl_request_find p : oblivious (rtsp_server_pending_request_find p).
Proof. unfold rtsp_server_pending_request_find. obl. Qed.
Lemma obl_request_remove p : oblivious (rtsp_server_pending_request_remove p).
Proof. unfold rtsp_server_pending_request_remove, rtsp_server_pending_request_media_remove. obl. Qed.
Lemma obl_request_media_add p m : oblivious (rtsp_server_pending_request_media_add p m).
Proof. unfold rtsp_server_pending_request_media_add. obl. Qed.
Hint Resolve obl_request_add obl_request_find obl_request_remove obl_request_media_add : obl.

Lemma obl_send_conn conn text : oblivious (send_conn conn text).
Proof. unfold send_conn, output_event. obl. Qed.
Lemma obl_send_all text : oblivious (send_all text).
Proof. unfold send_all, output_event. obl. Qed.
Lemma obl_write_message w : oblivious (write_message w).
Proof. unfold write_message. obl. Qed.
Lemma obl_fill_response p code string : oblivious (fill_response p code string).
Proof. unfold fill_response, upd_response, time_get_monotonic. obl. Qed.
Hint Resolve obl_send_conn obl_send_all obl_write_message obl_fill_response : obl.

Lemma obl_error_response p status : oblivious (error_response p status).
Proof. unfold error_response. obl. Qed.
Lemma obl_finish_response p conn ext n body : oblivious (finish_response p conn ext n body).
Proof. unfold finish_response, copy_response_ext, upd_response. obl. Qed.
Hint Resolve obl_error_response obl_finish_response : obl.

Lemma obl_reply_error p status : oblivious (reply_error p status).
Proof. unfold reply_error. obl. Qed.
Lemma obl_request_replied p rest : oblivious rest → oblivious (request_replied p rest).
Proof. intros H. unfold request_replied. obl. Qed.
Lemma obl_op_done p : oblivious (op_done p).
Proof. unfold op_done. obl. Qed.
Lemma obl_remove_torn_down p : oblivious (remove_torn_down p).
Proof. unfold remove_torn_down. obl. Qed.
Hint Resolve obl_reply_error obl_request_replied obl_op_done obl_remove_torn_down : obl.

Lemma obl_run_api_call c : oblivious (run_api_call c).
Proof.
  destruct c; cbn [run_api_call].
  - unfold rtsp_server_reply_to_describe, describe_body, upd_response. obl; apply obl_request_replied; obl.
  - unfold rtsp_server_reply_to_setup, setup_body, upd_response. obl; apply obl_request_replied; obl.
  - unfold rtsp_server_reply_to_play, play_body, media_reply_checks, all_replied, first_reply,
      media_replied, last_response, media_reply_end, upd_response.
    obl; apply obl_request_replied; obl.
  - unfold rtsp_server_reply_to_pause, pause_body, media_reply_checks, all_replied, first_reply,
      media_replied, last_response, media_reply_end, upd_response.
    obl; apply obl_request_replied; obl.
  - unfold rtsp_server_reply_to_teardown, teardown_body, media_reply_checks, all_replied,
      media_replied, last_response, media_reply_end, upd_response.
    obl; apply obl_request_replied; obl.
  - unfold rtsp_server_reply_to_announce, announce_body, upd_response. obl; apply obl_request_replied; obl.
  - unfold rtsp_server_reply_to_record, record_body, media_reply_checks, all_replied, first_reply,
      media_replied, last_response, media_reply_end, upd_response.
    obl; apply obl_request_replied; obl.
  - unfold rtsp_server_announce, next_cseq, send_request, time_get_monotonic. obl.
  - unfold rtsp_server_send_interleaved. obl.
Qed.
Hint Resolve obl_run_api_call : obl.

Lemma obl_callback o : oblivious (callback o).
Proof. unfold callback, output_event. obl. Qed.
Hint Resolve obl_callback : obl.

(** ** Handlers *)

Lemma obl_reply_to_announce p status ext n : oblivious (rtsp_server_reply_to_announce p status ext n).
Proof. exact (obl_run_api_call (ReplyToAnnounce p status ext n)). Qed.
Lemma obl_reply_to_record p m status range ext n :
  oblivious (rtsp_server_reply_to_record p m status range ext n).
Proof. exact (obl_run_api_call (ReplyToRecord p m status range ext n)). Qed.
Hint Resolve obl_reply_to_announce obl_reply_to_record : obl.

Lemma obl_respond_now p conn : oblivious (respond_now p conn).
Proof. unfold respond_now. obl. Qed.
Lemma obl_remove_if_done p ret : oblivious (remove_if_done p ret).
Proof. unfold remove_if_done. obl. Qed.
Lemma obl_session_with_media id : oblivious (session_with_media id).
Proof. unfold session_with_media. obl. Qed.
Lemma obl_callback_done p ret before : oblivious before → oblivious (callback_done p ret before).
Proof. intros H. unfold callback_done. obl. Qed.
Hint Resolve obl_respond_now obl_remove_if_done obl_session_with_media obl_callback_done : obl.

Lemma obl_options p : oblivious (rtsp_server_options p).
Proof. unfold rtsp_server_options, upd_response. obl. Qed.
Lemma obl_get_parameter p : oblivious (rtsp_server_get_parameter p).
Proof. unfold rtsp_server_get_parameter, get_parameter_steps, upd_response. obl. Qed.
Lemma obl_describe p : oblivious (rtsp_server_describe p).
Proof. unfold rtsp_server_describe. obl; apply obl_callback_done; obl. Qed.
Lemma obl_announce_req p : oblivious (rtsp_server_announce_req p).
Proof. unfold rtsp_server_announce_req. obl; apply obl_callback_done; obl. Qed.
Lemma obl_setup dst p : oblivious (rtsp_server_setup dst p).
Proof.
  unfold rtsp_server_setup, setup_steps, setup_session. obl; apply obl_callback_done; obl.
Qed.
Lemma obl_session_request p body :
  (∀ h s m, oblivious (body h s m)) → oblivious (session_request p body).
Proof. intros H. unfold session_request. obl; try apply obl_callback_done; obl. Qed.
Lemma obl_teardown p : oblivious (rtsp_server_teardown p).
Proof. unfold rtsp_server_teardown, teardown_steps, teardown_media. obl. Qed.
Hint Resolve obl_options obl_get_parameter obl_describe obl_announce_req obl_setup obl_teardown : obl.

Lemma obl_play p : oblivious (rtsp_server_play p).
Proof. apply obl_session_request. obl. Qed.
Lemma obl_pause p : oblivious (rtsp_server_pause p).
Proof. apply obl_session_request. obl. Qed.
Lemma obl_record p : oblivious (rtsp_server_record p).
Proof. apply obl_session_request. obl. Qed.
Hint Resolve obl_play obl_pause obl_record : obl.

Lemma obl_dispatch dst p method : oblivious (dispatch dst p method).
Proof. destruct method; cbn [dispatch]; unfold with_status; obl. Qed.
Lemma obl_store_request p h body : oblivious (store_request p h body).
Proof. unfold store_request. obl. Qed.
Hint Resolve obl_dispatch obl_store_request : obl.

Lemma obl_handle_message conn e : oblivious (handle_message conn e).
Proof. unfold handle_message, rtsp_server_request_process. obl. Qed.

End oblivious.

(** ** Any chunks *)

Section stream.
Context `{T : LocalTime} {L : LocalTimeLaws T} `{E : Env}.

(** The server on the connection [conn]. *)
#[local] Instance server_receiver (conn : Z) : Receiver rtsp_server := {
  rx_buf := sv_request_buf;
  rx_ctx := sv_parser_ctx;
  put_rx := set_rx;
  on_data := rtsp_server_pomp_cb conn;
  on_message := handle_message conn
}.

#[local] Instance server_receiver_laws conn : ReceiverLaws (server_receiver conn).
Proof using Type.
  clear L. split; try done.
  - by intros [].
  - intros buf ctx e. apply obl_handle_message.
  - intros data evs ret buf ctx s H.
    change (data_cb (sv_request_buf s) (sv_parser_ctx s) data = Some (evs, ret, buf, ctx)) in H.
    change (rtsp_server_pomp_cb conn data s = for_each (handle_message conn) evs (set_rx buf ctx s)).
    unfold rtsp_server_pomp_cb.
    change (match data_cb (sv_request_buf s) (sv_parser_ctx s) data with
            | Some (evs, _, buf', ctx') =>
                modify (fun sv => set_sv_parser_ctx ctx' (set_sv_request_buf buf' sv));;
                for_each (handle_message conn) evs
            | None => undefined
            end s = for_each (handle_message conn) evs (set_rx buf ctx s)).
    by rewrite H.
Qed.

(** One packet is handled once it is complete. *)
Lemma server_gets conn m chunks s :
  sv_request_buf s = [] → sv_parser_ctx s = ctx_init → wf_packet m →
  concat chunks = wire m → Zlen (wire m) <= INT64_MAX →
  ∃ ctx, idle ctx ∧
    for_each (rtsp_server_pomp_cb conn) chunks s
    = map_state (set_rx [] ctx) (handle_message conn (delivered m) s).
Proof using L. exact (stream_message (server_receiver conn) m chunks s). Qed.

(** C14: whatever chunks a connection's stream is cut into, the server ends as if
    it had handled the sequence of the messages of the stream, one by one; its
    receive buffer is empty and its parser idle again. *)
Theorem server_any_chunks conn ms chunks s :
  sv_request_buf s = [] → sv_parser_ctx s = ctx_init →
  Forall wf_packet ms → concat chunks = concat (map wire ms) →
  Zlen (concat chunks) <= INT64_MAX →
  ∃ ctx, idle ctx ∧
    for_each (rtsp_server_pomp_cb conn) chunks s
    = map_state (set_rx [] ctx) (for_each (handle_message conn) (map delivered ms) s).
Proof using L. apply (stream_messages (server_receiver conn)). Qed.
End stream.

(** ** Concrete inputs *)

(** An OPTIONS request and an interleaved packet, in three chunks. *)
Definition stream_packets : list packet :=
  [PktRequest (sample_header RTSP_METHOD_TYPE_OPTIONS "*" None) [];
   PktInterleaved 2 (cs "$data")].

Definition stream_text : bytes := concat (map (wire (T := stub_time)) stream_packets).

Definition stream_chunks : list bytes :=
  [take 5 stream_text; take 20 (drop 5 stream_text); drop 25 stream_text].

Lemma server_any_chunks_witness :
  ∃ ctx, idle ctx ∧
    for_each (rtsp_server_pomp_cb (T := stub_time) (E := sample_env reply_at_once) 1) stream_chunks
      new_server
    = map_state (set_rx [] ctx)
        (for_each (handle_message (T := stub_time) (E := sample_env reply_at_once) 1)
           (map delivered stream_packets) new_server).
Proof.
  assert (Forall (wf_packet (T := stub_time)) stream_packets) as Hwf.
  { assert (wf_request (T := stub_time) (sample_header RTSP_METHOD_TYPE_OPTIONS "*" None) = true)
      as H by (vm_compute; reflexivity).
    apply Forall_cons_2; [split_and!; [exact H|exact (scale_ok_hundredths 0 ltac:(lia))|reflexivity]|].
    apply Forall_cons_2; [cbn [wf_packet]; split_and!; by_decide|apply Forall_nil_2]. }
  exact (server_any_chunks (L := stub_time_laws) (E := sample_env reply_at_once) 1 stream_packets
           stream_chunks new_server eq_refl eq_refl Hwf ltac:(vm_compute; reflexivity)
           ltac:(by_decide)).
Defined.
