(* ===== verification/ServerScenarios.v ===== *)
(** * Whole sessions, executed

    Runs of a server on the texts of the requests of one client, evaluated: the
    life of a session, and runs that end otherwise than the client would expect. *)

From S2P Require Import Prelude CString CNumber Writer Url Methods Transport CFloat TimeRange.
From S2P Require Import Framing HeaderLine HeaderFields Request Response Message ObjList StateMonad.
From S2P Require Import ServerState ServerSession ServerRequest ServerReply Server ServerSample.
From stdpp Require Import options.

Local Open Scope Z_scope.

#[local] Existing Instance stub_time.

(** The status codes of the responses, in their order: what follows ["RTSP/1.0 "]. *)
Definition sent_codes (s : rtsp_server) : list string :=
  omap (fun o => match o with
                 | SendConn _ text _ => Some (string_of_list_ascii (take 3 (drop 9 text)))
                 | _ => None
                 end) (sv_out s).

(** The callbacks on medias, in their order: which, and for which media. *)
Definition media_callbacks (s : rtsp_server) : list (string * ptr) :=
  omap (fun o => match o with
                 | CbSetup _ _ _ _ m _ _ _ _ _ _ => Some ("setup"%string, m)
                 | CbPlay _ _ _ m _ _ _ => Some ("play"%string, m)
                 | CbPause _ _ _ m _ _ => Some ("pause"%string, m)
                 | CbTeardown _ _ _ _ _ m _ => Some ("teardown"%string, m)
                 | _ => None
                 end) (sv_out s).

(** The observation of a run with an application [app]. *)
Definition observe {A} (app : list output → list api_call) (es : list server_event)
    (f : rtsp_server → A) : option A :=
  f <$> run (E := sample_env app) es new_server.

Definition live (method : string) (cseq : string) (uri : string) : server_event :=
  Received 1 (request_text method uri [String.append "CSeq: " cseq; session_line]).

(** Two medias are set up in one session. *)
Definition two_medias : list server_event :=
  [Received 1 (setup_text video []); Received 1 (setup_text audio [session_line])].

Definition session_uri : string := "rtsp://192.168.42.1/live".

(** The application answers PLAY with an error, the rest at once. *)
Definition play_fails (out : list output) : list api_call :=
  match last out with
  | Some (CbPlay _ _ request media range scale _) =>
      [ReplyToPlay (Some request) (Some media) 500 (Some range) scale true 1 true 0 None 0]
  | _ => reply_at_once out
  end.

(** The life of a session: two SETUP requests, PLAY, PAUSE and TEARDOWN of their
    common path are each answered with one response 200, once the application
    replied for both medias; the callbacks come in the order of the requests and of
    the medias, and nothing of the session or of the requests is left. *)
Theorem session_life :
  observe reply_at_once
    (two_medias ++ [live "PLAY" "3" session_uri; live "PAUSE" "4" session_uri;
                    live "TEARDOWN" "5" session_uri])
    (fun s => (sent_codes s, media_callbacks s, sv_sessions s, sv_session_count s, sv_pending s))
  = Some (["200"; "200"; "200"; "200"; "200"]%string,
          [("setup", 2); ("setup", 4); ("play", 2); ("play", 4); ("pause", 2); ("pause", 4);
           ("teardown", 2); ("teardown", 4)]%string%nat, [], 0, []).
Proof. vm_compute. reflexivity. Qed.

(** An application that replies to PLAY with an error for each of the two medias
    of a session makes the server send two responses 500 for the one request. *)
Theorem play_errors_answered_twice :
  observe play_fails (two_medias ++ [live "PLAY" "3" session_uri])
    (fun s => (sent_codes s, sv_pending_count s))
  = Some (["200"; "200"; "500"; "500"]%string, 0).
Proof. vm_compute. reflexivity. Qed.

(** A TEARDOWN request for a path of two segments that no media has tears down
    every media and removes the session; for a path of one segment that no media
    starts with it is answered 404, the session stays, and the operation that was
    marked in progress is never ended: every later forced teardown of the session
    is refused with [-EALREADY]. *)
Theorem teardown_unknown_path :
  observe reply_at_once (two_medias ++ [live "TEARDOWN" "3" "rtsp://192.168.42.1/no/such"])
    (fun s => (sent_codes s, sv_session_count s)) = Some (["200"; "200"; "200"]%string, 0) ∧
  observe reply_at_once (two_medias ++ [live "TEARDOWN" "3" "rtsp://192.168.42.1/none"])
    (fun s => (sent_codes s, sv_session_count s,
               fst <$> rtsp_server_force_teardown (E := sample_env reply_at_once)
                         (Some sample_id) None None 0 s))
  = Some (["200"; "200"; "404"]%string, 1, Some (- EALREADY)).
Proof. split; vm_compute; reflexivity. Qed.
