(* ===== verification/ClientState.v ===== *)
(** * The state of the client ([rtsp_client_priv.h])

    The records are the structures of [rtsp_client_priv.h]; [rtsp_client] has the
    members of its [remote], [resolv], [request] and [response] parts, whether it
    has a socket and whether TLS is set up, and what the code finds around it: the
    clock, the next free address, the number of client nonces drawn and everything
    that was sent, asked for or handed to the application.  A timer is [Some] delay
    while it is set. *)

From S2P Require Import Prelude CString CNumber Writer Url Methods Transport AuthHeader RtpInfo.
From S2P Require Import CFloat TimeRange HeaderLine HeaderFields Request Response Framing.
From S2P Require Import Message ObjList StateMonad.
From stdpp Require Import options.

Local Open Scope Z_scope.

(** ** Data *)

Record rtsp_client_session_media := ClientMedia {
  cm_ptr : ptr;
  cm_path : cstr;
  cm_channel_pair : rtsp_channel_pair
}.

Record rtsp_client_session := ClientSession {
  cs_ptr : ptr;
  cs_id : cstr;
  cs_timer : option Z;
  cs_content_base : option cstr;
  cs_timeout_ms : Z;
  cs_failed_keep_alive : Z;
  cs_keep_alive_in_progress : bool;
  cs_internal_teardown : bool;
  cs_media_count : Z;
  cs_medias : list rtsp_client_session_media
}.

(** What leaves the client: the calls that use the network, with their result,
    and the calls of the application's callbacks. *)
Inductive client_output :=
| Sent (data : bytes) (ret : Z)
| Connect (host : option cstr) (port ret : Z)
| Stop (ret : Z)
| Resolve (host : option cstr) (ret : Z)
| ResolveCancel
| OnConnectionState (state : rtsp_client_conn_state)
| OnReadyToSend
| OnInterleavedData (info : rtsp_interleaved_info)
| OnSessionRemoved (session_id : cstr) (status : Z)
| OnOptionsResp (req_status : rtsp_client_req_status) (status methods : Z)
    (ext : list rtsp_header_ext) (req_userdata : Z)
| OnDescribeResp (req_status : rtsp_client_req_status) (status : Z) (content_base : option cstr)
    (ext : list rtsp_header_ext) (sdp : bytes) (req_userdata : Z)
| OnAnnounceResp (req_status : rtsp_client_req_status) (status : Z)
    (ext : list rtsp_header_ext) (req_userdata : Z)
| OnSetupResp (session_id : option cstr) (req_status : rtsp_client_req_status)
    (status src_stream_port src_control_port : Z) (ssrc_valid : bool) (ssrc : Z)
    (ext : list rtsp_header_ext) (req_userdata : Z)
| OnPlayResp (session_id : option cstr) (req_status : rtsp_client_req_status) (status : Z)
    (range : option rtsp_range) (scale : spec_float) (seq_valid : bool) (seq : Z)
    (rtptime_valid : bool) (rtptime : Z) (ext : list rtsp_header_ext) (req_userdata : Z)
| OnPauseResp (session_id : option cstr) (req_status : rtsp_client_req_status) (status : Z)
    (range : option rtsp_range) (ext : list rtsp_header_ext) (req_userdata : Z)
| OnRecordResp (session_id : option cstr) (req_status : rtsp_client_req_status) (status : Z)
    (ext : list rtsp_header_ext) (req_userdata : Z)
| OnTeardownResp (session_id : option cstr) (req_status : rtsp_client_req_status) (status : Z)
    (ext : list rtsp_header_ext) (req_userdata : Z)
| OnAnnounce (content_base : option cstr) (ext : list rtsp_header_ext) (sdp : bytes)
| OnTeardown (path : cstr) (session_id : option cstr) (ext : list rtsp_header_ext).

(** [ttls_init], and whether there is an [ssl_ctx] *)
Record tls_state := TlsState { ttls_initialised : bool; has_ssl_ctx : bool }.

Record rtsp_client := Client {
  cl_software_name : cstr;
  cl_sock : bool;
  cl_auth : option rtsp_authorization_header;
  cl_server_auth : option rtsp_authorization_header;
  cl_channel_used : list bool;
  cl_url : option rtsp_url;
  cl_url_str : option cstr;
  cl_resolv_timer : option Z;
  cl_tls : tls_state;
  cl_conn_state : rtsp_client_conn_state;
  cl_cseq : Z;
  cl_methods_allowed : Z;
  cl_sessions : list rtsp_client_session;
  cl_failed_requests : Z;
  cl_header : rtsp_request_header;
  cl_is_pending : bool;
  cl_is_internal : bool;
  cl_uri : option cstr;
  cl_content_base : option cstr;
  cl_userdata : Z;
  cl_timer : option Z;
  cl_response_buf : bytes;
  cl_parser_ctx : rtsp_message_parser_ctx;
  cl_now : Z;
  cl_next_ptr : ptr;
  cl_draws : nat;
  cl_out : list client_output
}.

Definition set_cs_timer (x : option Z) (r : rtsp_client_session) : rtsp_client_session :=
  ClientSession (cs_ptr r) (cs_id r) x (cs_content_base r) (cs_timeout_ms r)
    (cs_failed_keep_alive r) (cs_keep_alive_in_progress r) (cs_internal_teardown r)
    (cs_media_count r) (cs_medias r).
Definition set_cs_content_base (x : option cstr) (r : rtsp_client_session) : rtsp_client_session :=
  ClientSession (cs_ptr r) (cs_id r) (cs_timer r) x (cs_timeout_ms r) (cs_failed_keep_alive r)
    (cs_keep_alive_in_progress r) (cs_internal_teardown r) (cs_media_count r) (cs_medias r).
Definition set_cs_timeout_ms (x : Z) (r : rtsp_client_session) : rtsp_client_session :=
  ClientSession (cs_ptr r) (cs_id r) (cs_timer r) (cs_content_base r) x
    (cs_failed_keep_alive r) (cs_keep_alive_in_progress r) (cs_internal_teardown r)
    (cs_media_count r) (cs_medias r).
Definition set_cs_failed_keep_alive (x : Z) (r : rtsp_client_session) : rtsp_client_session :=
  ClientSession (cs_ptr r) (cs_id r) (cs_timer r) (cs_content_base r) (cs_timeout_ms r) x
    (cs_keep_alive_in_progress r) (cs_internal_teardown r) (cs_media_count r) (cs_medias r).
Definition set_cs_keep_alive_in_progress (x : bool) (r : rtsp_client_session) : rtsp_client_session :=
  ClientSession (cs_ptr r) (cs_id r) (cs_timer r) (cs_content_base r) (cs_timeout_ms r)
    (cs_failed_keep_alive r) x (cs_internal_teardown r) (cs_media_count r) (cs_medias r).
Definition set_cs_internal_teardown (x : bool) (r : rtsp_client_session) : rtsp_client_session :=
  ClientSession (cs_ptr r) (cs_id r) (cs_timer r) (cs_content_base r) (cs_timeout_ms r)
    (cs_failed_keep_alive r) (cs_keep_alive_in_progress r) x (cs_media_count r) (cs_medias r).
Definition set_cs_media_count (x : Z) (r : rtsp_client_session) : rtsp_client_session :=
  ClientSession (cs_ptr r) (cs_id r) (cs_timer r) (cs_content_base r) (cs_timeout_ms r)
    (cs_failed_keep_alive r) (cs_keep_alive_in_progress r) (cs_internal_teardown r) x
    (cs_medias r).
Definition set_cs_medias (x : list rtsp_client_session_media) (r : rtsp_client_session) : rtsp_client_session :=
  ClientSession (cs_ptr r) (cs_id r) (cs_timer r) (cs_content_base r) (cs_timeout_ms r)
    (cs_failed_keep_alive r) (cs_keep_alive_in_progress r) (cs_internal_teardown r)
    (cs_media_count r) x.
Definition set_cl_sock (x : bool) (r : rtsp_client) : rtsp_client :=
  Client (cl_software_name r) x (cl_auth r) (cl_server_auth r) (cl_channel_used r) (cl_url r)
    (cl_url_str r) (cl_resolv_timer r) (cl_tls r) (cl_conn_state r) (cl_cseq r)
    (cl_methods_allowed r) (cl_sessions r) (cl_failed_requests r) (cl_header r)
    (cl_is_pending r) (cl_is_internal r) (cl_uri r) (cl_content_base r) (cl_userdata r)
    (cl_timer r) (cl_response_buf r) (cl_parser_ctx r) (cl_now r) (cl_next_ptr r) (cl_draws r)
    (cl_out r).
Definition set_cl_auth (x : option rtsp_authorization_header) (r : rtsp_client) : rtsp_client :=
  Client (cl_software_name r) (cl_sock r) x (cl_server_auth r) (cl_channel_used r) (cl_url r)
    (cl_url_str r) (cl_resolv_timer r) (cl_tls r) (cl_conn_state r) (cl_cseq r)
    (cl_methods_allowed r) (cl_sessions r) (cl_failed_requests r) (cl_header r)
    (cl_is_pending r) (cl_is_internal r) (cl_uri r) (cl_content_base r) (cl_userdata r)
    (cl_timer r) (cl_response_buf r) (cl_parser_ctx r) (cl_now r) (cl_next_ptr r) (cl_draws r)
    (cl_out r).
Definition set_cl_server_auth (x : option rtsp_authorization_header) (r : rtsp_client) : rtsp_client :=
  Client (cl_software_name r) (cl_sock r) (cl_auth r) x (cl_channel_used r) (cl_url r)
    (cl_url_str r) (cl_resolv_timer r) (cl_tls r) (cl_conn_state r) (cl_cseq r)
    (cl_methods_allowed r) (cl_sessions r) (cl_failed_requests r) (cl_header r)
    (cl_is_pending r) (cl_is_internal r) (cl_uri r) (cl_content_base r) (cl_userdata r)
    (cl_timer r) (cl_response_buf r) (cl_parser_ctx r) (cl_now r) (cl_next_ptr r) (cl_draws r)
    (cl_out r).
Definition set_cl_channel_used (x : list bool) (r : rtsp_client) : rtsp_client :=
  Client (cl_software_name r) (cl_sock r) (cl_auth r) (cl_server_auth r) x (cl_url r)
    (cl_url_str r) (cl_resolv_timer r) (cl_tls r) (cl_conn_state r) (cl_cseq r)
    (cl_methods_allowed r) (cl_sessions r) (cl_failed_requests r) (cl_header r)
    (cl_is_pending r) (cl_is_internal r) (cl_uri r) (cl_content_base r) (cl_userdata r)
    (cl_timer r) (cl_response_buf r) (cl_parser_ctx r) (cl_now r) (cl_next_ptr r) (cl_draws r)
    (cl_out r).
Definition set_cl_url (x : option rtsp_url) (r : rtsp_client) : rtsp_client :=
  Client (cl_software_name r) (cl_sock r) (cl_auth r) (cl_server_auth r) (cl_channel_used r) x
    (cl_url_str r) (cl_resolv_timer r) (cl_tls r) (cl_conn_state r) (cl_cseq r)
    (cl_methods_allowed r) (cl_sessions r) (cl_failed_requests r) (cl_header r)
    (cl_is_pending r) (cl_is_internal r) (cl_uri r) (cl_content_base r) (cl_userdata r)
    (cl_timer r) (cl_response_buf r) (cl_parser_ctx r) (cl_now r) (cl_next_ptr r) (cl_draws r)
    (cl_out r).
Definition set_cl_url_str (x : option cstr) (r : rtsp_client) : rtsp_client :=
  Client (cl_software_name r) (cl_sock r) (cl_auth r) (cl_server_auth r) (cl_channel_used r)
    (cl_url r) x (cl_resolv_timer r) (cl_tls r) (cl_conn_state r) (cl_cseq r)
    (cl_methods_allowed r) (cl_sessions r) (cl_failed_requests r) (cl_header r)
    (cl_is_pending r) (cl_is_internal r) (cl_uri r) (cl_content_base r) (cl_userdata r)
    (cl_timer r) (cl_response_buf r) (cl_parser_ctx r) (cl_now r) (cl_next_ptr r) (cl_draws r)
    (cl_out r).
Definition set_cl_resolv_timer (x : option Z) (r : rtsp_client) : rtsp_client :=
  Client (cl_software_name r) (cl_sock r) (cl_auth r) (cl_server_auth r) (cl_channel_used r)
    (cl_url r) (cl_url_str r) x (cl_tls r) (cl_conn_state r) (cl_cseq r)
    (cl_methods_allowed r) (cl_sessions r) (cl_failed_requests r) (cl_header r)
    (cl_is_pending r) (cl_is_internal r) (cl_uri r) (cl_content_base r) (cl_userdata r)
    (cl_timer r) (cl_response_buf r) (cl_parser_ctx r) (cl_now r) (cl_next_ptr r) (cl_draws r)
    (cl_out r).
Definition set_cl_tls (x : tls_state) (r : rtsp_client) : rtsp_client :=
  Client (cl_software_name r) (cl_sock r) (cl_auth r) (cl_server_auth r) (cl_channel_used r)
    (cl_url r) (cl_url_str r) (cl_resolv_timer r) x (cl_conn_state r) (cl_cseq r)
    (cl_methods_allowed r) (cl_sessions r) (cl_failed_requests r) (cl_header r)
    (cl_is_pending r) (cl_is_internal r) (cl_uri r) (cl_content_base r) (cl_userdata r)
    (cl_timer r) (cl_response_buf r) (cl_parser_ctx r) (cl_now r) (cl_next_ptr r) (cl_draws r)
    (cl_out r).
Definition set_cl_conn_state (x : rtsp_client_conn_state) (r : rtsp_client) : rtsp_client :=
  Client (cl_software_name r) (cl_sock r) (cl_auth r) (cl_server_auth r) (cl_channel_used r)
    (cl_url r) (cl_url_str r) (cl_resolv_timer r) (cl_tls r) x (cl_cseq r)
    (cl_methods_allowed r) (cl_sessions r) (cl_failed_requests r) (cl_header r)
    (cl_is_pending r) (cl_is_internal r) (cl_uri r) (cl_content_base r) (cl_userdata r)
    (cl_timer r) (cl_response_buf r) (cl_parser_ctx r) (cl_now r) (cl_next_ptr r) (cl_draws r)
    (cl_out r).
Definition set_cl_cseq (x : Z) (r : rtsp_client) : rtsp_client :=
  Client (cl_software_name r) (cl_sock r) (cl_auth r) (cl_server_auth r) (cl_channel_used r)
    (cl_url r) (cl_url_str r) (cl_resolv_timer r) (cl_tls r) (cl_conn_state r) x
    (cl_methods_allowed r) (cl_sessions r) (cl_failed_requests r) (cl_header r)
    (cl_is_pending r) (cl_is_internal r) (cl_uri r) (cl_content_base r) (cl_userdata r)
    (cl_timer r) (cl_response_buf r) (cl_parser_ctx r) (cl_now r) (cl_next_ptr r) (cl_draws r)
    (cl_out r).
Definition set_cl_methods_allowed (x : Z) (r : rtsp_client) : rtsp_client :=
  Client (cl_software_name r) (cl_sock r) (cl_auth r) (cl_server_auth r) (cl_channel_used r)
    (cl_url r) (cl_url_str r) (cl_resolv_timer r) (cl_tls r) (cl_conn_state r) (cl_cseq r) x
    (cl_sessions r) (cl_failed_requests r) (cl_header r) (cl_is_pending r) (cl_is_internal r)
    (cl_uri r) (cl_content_base r) (cl_userdata r) (cl_timer r) (cl_response_buf r)
    (cl_parser_ctx r) (cl_now r) (cl_next_ptr r) (cl_draws r) (cl_out r).
Definition set_cl_sessions (x : list rtsp_client_session) (r : rtsp_client) : rtsp_client :=
  Client (cl_software_name r) (cl_sock r) (cl_auth r) (cl_server_auth r) (cl_channel_used r)
    (cl_url r) (cl_url_str r) (cl_resolv_timer r) (cl_tls r) (cl_conn_state r) (cl_cseq r)
    (cl_methods_allowed r) x (cl_failed_requests r) (cl_header r) (cl_is_pending r)
    (cl_is_internal r) (cl_uri r) (cl_content_base r) (cl_userdata r) (cl_timer r)
    (cl_response_buf r) (cl_parser_ctx r) (cl_now r) (cl_next_ptr r) (cl_draws r) (cl_out r).
Definition set_cl_failed_requests (x : Z) (r : rtsp_client) : rtsp_client :=
  Client (cl_software_name r) (cl_sock r) (cl_auth r) (cl_server_auth r) (cl_channel_used r)
    (cl_url r) (cl_url_str r) (cl_resolv_timer r) (cl_tls r) (cl_conn_state r) (cl_cseq r)
    (cl_methods_allowed r) (cl_sessions r) x (cl_header r) (cl_is_pending r)
    (cl_is_internal r) (cl_uri r) (cl_content_base r) (cl_userdata r) (cl_timer r)
    (cl_response_buf r) (cl_parser_ctx r) (cl_now r) (cl_next_ptr r) (cl_draws r) (cl_out r).
Definition set_cl_header (x : rtsp_request_header) (r : rtsp_client) : rtsp_client :=
  Client (cl_software_name r) (cl_sock r) (cl_auth r) (cl_server_auth r) (cl_channel_used r)
    (cl_url r) (cl_url_str r) (cl_resolv_timer r) (cl_tls r) (cl_conn_state r) (cl_cseq r)
    (cl_methods_allowed r) (cl_sessions r) (cl_failed_requests r) x (cl_is_pending r)
    (cl_is_internal r) (cl_uri r) (cl_content_base r) (cl_userdata r) (cl_timer r)
    (cl_response_buf r) (cl_parser_ctx r) (cl_now r) (cl_next_ptr r) (cl_draws r) (cl_out r).
Definition set_cl_is_pending (x : bool) (r : rtsp_client) : rtsp_client :=
  Client (cl_software_name r) (cl_sock r) (cl_auth r) (cl_server_auth r) (cl_channel_used r)
    (cl_url r) (cl_url_str r) (cl_resolv_timer r) (cl_tls r) (cl_conn_state r) (cl_cseq r)
    (cl_methods_allowed r) (cl_sessions r) (cl_failed_requests r) (cl_header r) x
    (cl_is_internal r) (cl_uri r) (cl_content_base r) (cl_userdata r) (cl_timer r)
    (cl_response_buf r) (cl_parser_ctx r) (cl_now r) (cl_next_ptr r) (cl_draws r) (cl_out r).
Definition set_cl_is_internal (x : bool) (r : rtsp_client) : rtsp_client :=
  Client (cl_software_name r) (cl_sock r) (cl_auth r) (cl_server_auth r) (cl_channel_used r)
    (cl_url r) (cl_url_str r) (cl_resolv_timer r) (cl_tls r) (cl_conn_state r) (cl_cseq r)
    (cl_methods_allowed r) (cl_sessions r) (cl_failed_requests r) (cl_header r)
    (cl_is_pending r) x (cl_uri r) (cl_content_base r) (cl_userdata r) (cl_timer r)
    (cl_response_buf r) (cl_parser_ctx r) (cl_now r) (cl_next_ptr r) (cl_draws r) (cl_out r).
Definition set_cl_uri (x : option cstr) (r : rtsp_client) : rtsp_client :=
  Client (cl_software_name r) (cl_sock r) (cl_auth r) (cl_server_auth r) (cl_channel_used r)
    (cl_url r) (cl_url_str r) (cl_resolv_timer r) (cl_tls r) (cl_conn_state r) (cl_cseq r)
    (cl_methods_allowed r) (cl_sessions r) (cl_failed_requests r) (cl_header r)
    (cl_is_pending r) (cl_is_internal r) x (cl_content_base r) (cl_userdata r) (cl_timer r)
    (cl_response_buf r) (cl_parser_ctx r) (cl_now r) (cl_next_ptr r) (cl_draws r) (cl_out r).
Definition set_cl_content_base (x : option cstr) (r : rtsp_client) : rtsp_client :=
  Client (cl_software_name r) (cl_sock r) (cl_auth r) (cl_server_auth r) (cl_channel_used r)
    (cl_url r) (cl_url_str r) (cl_resolv_timer r) (cl_tls r) (cl_conn_state r) (cl_cseq r)
    (cl_methods_allowed r) (cl_sessions r) (cl_failed_requests r) (cl_header r)
    (cl_is_pending r) (cl_is_internal r) (cl_uri r) x (cl_userdata r) (cl_timer r)
    (cl_response_buf r) (cl_parser_ctx r) (cl_now r) (cl_next_ptr r) (cl_draws r) (cl_out r).
Definition set_cl_userdata (x : Z) (r : rtsp_client) : rtsp_client :=
  Client (cl_software_name r) (cl_sock r) (cl_auth r) (cl_server_auth r) (cl_channel_used r)
    (cl_url r) (cl_url_str r) (cl_resolv_timer r) (cl_tls r) (cl_conn_state r) (cl_cseq r)
    (cl_methods_allowed r) (cl_sessions r) (cl_failed_requests r) (cl_header r)
    (cl_is_pending r) (cl_is_internal r) (cl_uri r) (cl_content_base r) x (cl_timer r)
    (cl_response_buf r) (cl_parser_ctx r) (cl_now r) (cl_next_ptr r) (cl_draws r) (cl_out r).
Definition set_cl_timer (x : option Z) (r : rtsp_client) : rtsp_client :=
  Client (cl_software_name r) (cl_sock r) (cl_auth r) (cl_server_auth r) (cl_channel_used r)
    (cl_url r) (cl_url_str r) (cl_resolv_timer r) (cl_tls r) (cl_conn_state r) (cl_cseq r)
    (cl_methods_allowed r) (cl_sessions r) (cl_failed_requests r) (cl_header r)
    (cl_is_pending r) (cl_is_internal r) (cl_uri r) (cl_content_base r) (cl_userdata r) x
    (cl_response_buf r) (cl_parser_ctx r) (cl_now r) (cl_next_ptr r) (cl_draws r) (cl_out r).
Definition set_cl_response_buf (x : bytes) (r : rtsp_client) : rtsp_client :=
  Client (cl_software_name r) (cl_sock r) (cl_auth r) (cl_server_auth r) (cl_channel_used r)
    (cl_url r) (cl_url_str r) (cl_resolv_timer r) (cl_tls r) (cl_conn_state r) (cl_cseq r)
    (cl_methods_allowed r) (cl_sessions r) (cl_failed_requests r) (cl_header r)
    (cl_is_pending r) (cl_is_internal r) (cl_uri r) (cl_content_base r) (cl_userdata r)
    (cl_timer r) x (cl_parser_ctx r) (cl_now r) (cl_next_ptr r) (cl_draws r) (cl_out r).
Definition set_cl_parser_ctx (x : rtsp_message_parser_ctx) (r : rtsp_client) : rtsp_client :=
  Client (cl_software_name r) (cl_sock r) (cl_auth r) (cl_server_auth r) (cl_channel_used r)
    (cl_url r) (cl_url_str r) (cl_resolv_timer r) (cl_tls r) (cl_conn_state r) (cl_cseq r)
    (cl_methods_allowed r) (cl_sessions r) (cl_failed_requests r) (cl_header r)
    (cl_is_pending r) (cl_is_internal r) (cl_uri r) (cl_content_base r) (cl_userdata r)
    (cl_timer r) (cl_response_buf r) x (cl_now r) (cl_next_ptr r) (cl_draws r) (cl_out r).
Definition set_cl_now (x : Z) (r : rtsp_client) : rtsp_client :=
  Client (cl_software_name r) (cl_sock r) (cl_auth r) (cl_server_auth r) (cl_channel_used r)
    (cl_url r) (cl_url_str r) (cl_resolv_timer r) (cl_tls r) (cl_conn_state r) (cl_cseq r)
    (cl_methods_allowed r) (cl_sessions r) (cl_failed_requests r) (cl_header r)
    (cl_is_pending r) (cl_is_internal r) (cl_uri r) (cl_content_base r) (cl_userdata r)
    (cl_timer r) (cl_response_buf r) (cl_parser_ctx r) x (cl_next_ptr r) (cl_draws r)
    (cl_out r).
Definition set_cl_next_ptr (x : ptr) (r : rtsp_client) : rtsp_client :=
  Client (cl_software_name r) (cl_sock r) (cl_auth r) (cl_server_auth r) (cl_channel_used r)
    (cl_url r) (cl_url_str r) (cl_resolv_timer r) (cl_tls r) (cl_conn_state r) (cl_cseq r)
    (cl_methods_allowed r) (cl_sessions r) (cl_failed_requests r) (cl_header r)
    (cl_is_pending r) (cl_is_internal r) (cl_uri r) (cl_content_base r) (cl_userdata r)
    (cl_timer r) (cl_response_buf r) (cl_parser_ctx r) (cl_now r) x (cl_draws r) (cl_out r).
Definition set_cl_draws (x : nat) (r : rtsp_client) : rtsp_client :=
  Client (cl_software_name r) (cl_sock r) (cl_auth r) (cl_server_auth r) (cl_channel_used r)
    (cl_url r) (cl_url_str r) (cl_resolv_timer r) (cl_tls r) (cl_conn_state r) (cl_cseq r)
    (cl_methods_allowed r) (cl_sessions r) (cl_failed_requests r) (cl_header r)
    (cl_is_pending r) (cl_is_internal r) (cl_uri r) (cl_content_base r) (cl_userdata r)
    (cl_timer r) (cl_response_buf r) (cl_parser_ctx r) (cl_now r) (cl_next_ptr r) x (cl_out r).
Definition set_cl_out (x : list client_output) (r : rtsp_client) : rtsp_client :=
  Client (cl_software_name r) (cl_sock r) (cl_auth r) (cl_server_auth r) (cl_channel_used r)
    (cl_url r) (cl_url_str r) (cl_resolv_timer r) (cl_tls r) (cl_conn_state r) (cl_cseq r)
    (cl_methods_allowed r) (cl_sessions r) (cl_failed_requests r) (cl_header r)
    (cl_is_pending r) (cl_is_internal r) (cl_uri r) (cl_content_base r) (cl_userdata r)
    (cl_timer r) (cl_response_buf r) (cl_parser_ctx r) (cl_now r) (cl_next_ptr r) (cl_draws r)
    x.

(** ** Around the client *)

(** The requests that the application makes, with their arguments. *)
Inductive client_call :=
| CallOptions (ext : option (list rtsp_header_ext)) (ext_count req_userdata timeout_ms : Z)
| CallDescribe (path : option cstr) (ext : option (list rtsp_header_ext))
    (ext_count req_userdata timeout_ms : Z)
| CallAnnounce (path session_description : option cstr) (ext : option (list rtsp_header_ext))
    (ext_count req_userdata timeout_ms : Z)
| CallSetup (content_base resource_url session_id : option cstr) (delivery : rtsp_delivery)
    (lower_transport : rtsp_lower_transport) (client_stream_port client_control_port : Z)
    (method : rtsp_transport_method) (ext : option (list rtsp_header_ext))
    (ext_count req_userdata timeout_ms : Z)
| CallPlay (session_id : option cstr) (range : option rtsp_range) (scale : spec_float)
    (ext : option (list rtsp_header_ext)) (ext_count req_userdata timeout_ms : Z)
| CallPause (session_id : option cstr) (range : option rtsp_range)
    (ext : option (list rtsp_header_ext)) (ext_count req_userdata timeout_ms : Z)
| CallRecord (session_id : option cstr) (range : option rtsp_range)
    (ext : option (list rtsp_header_ext)) (ext_count req_userdata timeout_ms : Z)
| CallTeardown (resource_url session_id : option cstr) (ext : option (list rtsp_header_ext))
    (ext_count req_userdata timeout_ms : Z)
| CallSendInterleaved (channel : Z) (data : option bytes).

(** The code outside the repository: MD5 and the random client nonces of the
    Digest authentication (and the content of fresh memory, see [Auth.v]),
    [inet_pton], the timers and the connection, and the application.
    [client_stop] says whether [tskt_client_stop] raises the event of the
    disconnection before it returns; [client_ttls_init] is the result of
    [ttls_init], [client_ssl_ctx] whether [SSL_CTX_new] gives a context;
    [client_has_teardown] whether the application has a [teardown] callback, which
    [rtsp_client_new] does not require. *)
Class ClientEnv := {
  client_md5 : bytes → option bytes;
  client_nonce : nat → res cstr;
  client_uninit : cstr;
  client_inet4 : cstr → bool;
  client_inet6 : cstr → bool;
  client_timer_set : Z → Z;
  client_send : list client_output → bytes → Z;
  client_connect : list client_output → Z;
  client_stop : list client_output → Z * bool;
  client_resolve : list client_output → Z;
  client_ttls_init : Z;
  client_ssl_ctx : bool;
  client_app : list client_output → list client_call;
  client_has : rtsp_method_type → bool;
  client_has_interleaved : bool;
  client_has_ready_to_send : bool;
  client_has_teardown : bool
}.

(** ** Accesses *)

(** Operations on a client. *)
Abbreviation CM := (ST rtsp_client).

Definition csession_at (p : ptr) : CM rtsp_client_session :=
  sessions ← gets cl_sessions; deref (find_obj cs_ptr p sessions).

Definition upd_csession (p : ptr) (f : rtsp_client_session → rtsp_client_session) : CM unit :=
  csession_at p;; modify (fun s => set_cl_sessions (update_obj cs_ptr p f (cl_sessions s)) s).

(** [calloc] *)
Definition calloc : CM ptr :=
  p ← gets cl_next_ptr; modify (set_cl_next_ptr (S p));; mret p.

Definition client_event (o : client_output) : CM unit :=
  modify (fun s => set_cl_out (cl_out s ++ [o]) s).

Definition set_header (f : rtsp_request_header → rtsp_request_header) : CM unit :=
  modify (fun s => set_cl_header (f (cl_header s)) s).
