(* ===== verification/ClientSession.v ===== *)
(** * The sessions of a client and the interleaved channels
    ([rtsp_client_session.c], [rtsp_client_priv.h], [rtsp_client.c])

    The removal of a session, which calls the application, is in [Client.v]. *)

From S2P Require Import Prelude CString CNumber Methods Transport HeaderFields Message ObjList StateMonad.
From S2P Require Import ClientState.
From stdpp Require Import options.

Local Open Scope Z_scope.

Definition RTSP_CLIENT_SESSION_ID_LENGTH : nat := 8.

(** ** Sessions *)

Definition same_client_id (id1 id2 : cstr) : bool := strneq RTSP_CLIENT_SESSION_ID_LENGTH id1 id2.

Definition rtsp_client_session_find (session_id : option cstr) : CM (option ptr) :=
  match session_id with
  | None => mret None
  | Some session_id =>
      sessions ← gets cl_sessions;
      mret (cs_ptr <$> List.find (fun s => same_client_id (cs_id s) session_id) sessions)
  end.

(** With [add], a session that is not there is created. *)
Definition rtsp_client_get_session (session_id : option cstr) (add : bool) : CM (option ptr) :=
  match session_id with
  | None => mret None
  | Some id =>
      found ← rtsp_client_session_find (Some id);
      match found with
      | Some p => mret (Some p)
      | None =>
          if add then
            p ← calloc;
            modify (fun cl => set_cl_sessions
              (cl_sessions cl ++ [ClientSession p id None None 0 0 false false 0 []]) cl);;
            mret (Some p)
          else mret None
      end
  end.

(** ** Medias *)

Definition rtsp_client_session_media_find (session : ptr) (path : option cstr)
    : CM (option rtsp_client_session_media) :=
  match path with
  | None => mret None
  | Some path =>
      s ← csession_at session;
      mret (List.find (fun m => streq (cm_path m) path) (cs_medias s))
  end.

(** The new media, [None] for a NULL. *)
Definition rtsp_client_session_media_add (session : option ptr) (path : option cstr)
    (channel_pair : option rtsp_channel_pair) : CM (option ptr) :=
  match session, path with
  | Some session, Some path =>
      found ← rtsp_client_session_media_find session (Some path);
      match found with
      | Some _ => mret None
      | None =>
          media ← calloc;
          upd_csession session (fun s =>
            set_cs_media_count (u32 (cs_media_count s + 1))
              (set_cs_medias
                 (cs_medias s ++
                  [ClientMedia media path (default (ChannelPair 0 0) channel_pair)]) s));;
          mret (Some media)
      end
  | _, _ => mret None
  end.

Definition rtsp_client_session_media_remove (session media : ptr) : CM Z :=
  s ← csession_at session;
  if bool_decide (media ∈ cm_ptr <$> cs_medias s) then
    upd_csession session (fun s =>
      set_cs_media_count (u32 (cs_media_count s - 1))
        (set_cs_medias (delete_obj cm_ptr media (cs_medias s)) s));;
    mret 0
  else mret (- ENOENT).

(** ** Interleaved channels

    [channel_used] has one flag for each of the 256 channels. *)

Definition CHANNELS : Z := 256.

Definition is_channel_pair_valid (pair : rtsp_channel_pair) : bool :=
  negb (ch_rtp pair =? ch_rtcp pair).

Definition used (channel_used : list bool) (channel : Z) : bool :=
  nth (Z.to_nat channel) channel_used false.

Definition set_used (used : bool) (channel : Z) (channel_used : list bool) : list bool :=
  <[Z.to_nat channel := used]> channel_used.

Definition set_channel_pair_used (channel_used : list bool) (pair : rtsp_channel_pair)
    (used : bool) : list bool :=
  if is_channel_pair_valid pair
  then set_used used (ch_rtcp pair) (set_used used (ch_rtp pair) channel_used)
  else channel_used.

Definition count_channel_unused (channel_used : list bool) : Z :=
  Zlen (filter (fun b => b = false) channel_used).

Definition check_channel_unused (channel_used : list bool) (channel : Z) : Z :=
  if used channel_used channel then - EEXIST else 0.

(** The [for] loop on an [uint8_t], in at most [fuel] steps: its index when it
    breaks.  Its condition [i < 255] holds for every even index. *)
Fixpoint next_channel_pair (fuel : nat) (channel_used : list bool) (i : Z) : option Z :=
  match fuel with
  | O => None
  | S fuel =>
      if negb (used channel_used i) && negb (used channel_used (i + 1)) then Some i
      else next_channel_pair fuel channel_used (u8 (i + 2))
  end.

(** The fuel is one step for each even index; a loop that has not ended then
    starts again with the same channels.  The pair, or the error. *)
Definition allocate_interleaved_channels (pair : rtsp_channel_pair)
    : CM (res rtsp_channel_pair) :=
  channel_used ← gets cl_channel_used;
  let use pair :=
    modify (fun cl => set_cl_channel_used (set_channel_pair_used channel_used pair true) cl);;
    mret (Ok pair) in
  if is_channel_pair_valid pair then
    if check_channel_unused channel_used (ch_rtp pair) <? 0 then mret (Err EEXIST)
    else if check_channel_unused channel_used (ch_rtcp pair) <? 0 then mret (Err EEXIST)
    else use pair
  else
    i ← deref (next_channel_pair 128 channel_used 0);
    use (ChannelPair i (i + 1)).

Definition channel_pair_cmp (a b : rtsp_channel_pair) : bool :=
  (ch_rtp a =? ch_rtp b) && (ch_rtcp a =? ch_rtcp b).

Definition update_interleaved_channels (requested returned : rtsp_channel_pair) : CM unit :=
  when (negb (channel_pair_cmp requested returned))
    (modify (fun cl => set_cl_channel_used
       (set_channel_pair_used (cl_channel_used cl) requested false) cl));;
  modify (fun cl => set_cl_channel_used
    (set_channel_pair_used (cl_channel_used cl) returned true) cl).

(** The channels of a media are free again. *)
Definition release_channels (pair : rtsp_channel_pair) : CM unit :=
  when (is_channel_pair_valid pair)
    (modify (fun cl => set_cl_channel_used
       (set_channel_pair_used (cl_channel_used cl) pair false) cl)).
