(* ===== verification/ClientRequest.v ===== *)
(** * The requests of a client ([rtsp_client.c])

    A request is put in the header of the client, written in its buffer and sent;
    only one is pending at a time.  A request that fails on the way leaves the
    header as far as it was filled in. *)

From S2P Require Import Prelude CString CNumber Writer Url Methods Transport AuthHeader Auth CFloat TimeRange.
From S2P Require Import Framing HeaderLine HeaderFields Request Response Message ObjList StateMonad.
From S2P Require Import ClientState ClientSession.
From stdpp Require Import options.

Local Open Scope Z_scope.

Definition RTSP_CLIENT_DEFAULT_RESP_TIMEOUT_MS : Z := 4000.

(** The capacity of the buffers, [PIPE_BUF - 1]. *)
Definition CLIENT_BUF_SIZE : Z := 4095.

(** ** URIs *)

(** A NULL string printed with ["%s"]. *)
Definition printed (s : option cstr) : cstr := default (cs "(null)") s.

Definition get_last_char (str : cstr) (max_len : Z) : ascii :=
  let len := strnlen str max_len in
  if (len =? 0) || (max_len <=? len) then NUL else nth (Z.to_nat (len - 1)) str NUL.

Definition make_uri (path : option cstr) : CM (option cstr) :=
  url_str ← gets cl_url_str;
  mret (match path with
        | None => url_str
        | Some path => Some (printed url_str ++ cs "/" ++ path)
        end).

Definition is_rtsp_uri (uri : cstr) : bool := strneq 7 uri (cs "rtsp://").

Definition ends_with_slash (s : cstr) : bool :=
  bool_decide (get_last_char s PATH_MAX = "/"%char).

(** [base] and [uri] with one slash in between. *)
Definition join_uri (base uri : cstr) : cstr :=
  base ++ (if ends_with_slash base then [] else cs "/") ++ uri.

Definition format_request_uri (content_base control_url : option cstr) : res cstr :=
  match control_url with
  | None => Err EINVAL
  | Some url =>
      if is_rtsp_uri url then Ok url
      else match content_base with
           | None => Err EINVAL
           | Some base => Ok (join_uri base url)
           end
  end.

Definition client_uri_to_content_base (uri : option cstr) : CM (option cstr) :=
  match uri with
  | None => mret None
  | Some uri =>
      url_str ← gets cl_url_str;
      url_str ← deref url_str;
      let url_len := strnlen url_str PATH_MAX in
      if (url_len =? 0) || (PATH_MAX <=? url_len) then mret None
      else if is_rtsp_uri uri then mret (Some uri)
      else
        mret (Some (join_uri url_str
          match uri with c :: uri' => if bool_decide (c = "/"%char) then uri' else uri | [] => [] end))
  end.

Section request.
Context `{T : LocalTime} `{E : ClientEnv}.

(** ** Sending *)

(** [pomp_timer_set] of the timer of the requests. *)
Definition set_request_timer (timeout_ms : Z) : CM Z :=
  let ret := client_timer_set timeout_ms in
  when (negb (ret <? 0)) (modify (set_cl_timer (Some timeout_ms)));;
  mret ret.

Definition send_raw_buf (text : bytes) : CM Z :=
  sock ← gets cl_sock;
  if negb sock then mret (- EPROTO)
  else
    out ← gets cl_out;
    let ret := client_send out text in
    client_event (Sent text ret);;
    mret (if ret <? 0 then ret else 0).

(** [w] in a buffer: the returned value and the text. *)
Definition write_in_buffer (w : writer unit) : CM (Z * bytes) :=
  match w (RtspString [] CLIENT_BUF_SIZE) with
  | (Ok _, r) => mret (0, rs_str r)
  | (Err e, r) => mret (- e, rs_str r)
  | (Undef, _) => undefined
  end.

Definition send_client_request (content : option cstr) (timeout_ms : Z) : CM Z :=
  header ← gets cl_header;
  '(res, text) ← write_in_buffer
    (rtsp_request_header_write header;;
     match content with Some c => rtsp_sprintf c | None => wskip end);
  if res <? 0 then mret res
  else
    res ← send_raw_buf text;
    if res <? 0 then mret res
    else if 0 <? timeout_ms then
      res ← set_request_timer timeout_ms;
      mret (if res <? 0 then res else 0)
    else mret 0.

(** The timer of the pending keep alive is cleared; whether there was one. *)
Definition clear_pending_keep_alive_timer : CM bool :=
  sessions ← gets cl_sessions;
  if existsb cs_keep_alive_in_progress sessions then
    modify (set_cl_timer None);;
    mret true
  else mret false.

Definition reset_keep_alive_timer (session : ptr) (timer_msec : Z) : CM Z :=
  if timer_msec =? 0 then mret 0
  else if 0 <? timer_msec then
    let res := client_timer_set timer_msec in
    when (negb (res <? 0)) (upd_csession session (set_cs_timer (Some timer_msec)));;
    mret res
  else
    upd_csession session (set_cs_timer None);;
    mret 0.

(** ** Authorization *)

Definition with_uri (uri : option cstr) (a : rtsp_authorization_header) :=
  Auth (au_type a) (au_algorithm a) (au_username a) uri (au_response a) (au_cnonce a) (au_nc a)
    (au_credentials a) (au_realm a) (au_nonce a) (au_opaque a) (au_qop a).

(** The authorization of the request in the header, from the state [auth]; [n]
    numbers the client nonces. *)
Definition authorization_for (auth : rtsp_authorization_header) (header : rtsp_request_header)
    (pass : option cstr) (n : nat) : res unit * option rtsp_authorization_header :=
  match au_type auth with
  | RTSP_AUTH_TYPE_BASIC =>
      match au_credentials auth with
      | None => rtsp_auth_generate_basic_response (Some auth) pass
      | Some _ => (Ok tt, Some auth)
      end
  | RTSP_AUTH_TYPE_DIGEST =>
      rtsp_auth_generate_digest_response client_md5 (client_nonce n) client_uninit
        (Some (with_uri (rq_uri header) auth)) pass (rq_method header)
  | RTSP_AUTH_TYPE_UNKNOWN => (Err EINVAL, Some auth)
  end.

Definition generate_authorization_header : CM Z :=
  auth ← gets cl_auth;
  header ← gets cl_header;
  match auth with
  | None => mret 0
  | Some auth =>
      if bool_decide (au_type auth = RTSP_AUTH_TYPE_DIGEST) && bool_decide (au_nonce auth = None)
      then mret (- EAGAIN)
      else if bool_decide (is_Some (rq_authorization header)) then mret (- EEXIST)
      else
        url ← gets cl_url;
        match rtsp_url_get_pass url with
        | None => mret (- EINVAL)
        | Some pass =>
            n ← gets cl_draws;
            modify (set_cl_draws (S n));;
            match authorization_for auth header (Some pass) n with
            | (Ok _, Some new) =>
                match rtsp_authorization_header_copy_client_fields (Some new) (Some auth) with
                | Ok auth => modify (set_cl_auth (Some auth))
                | _ => undefined
                end;;
                set_header (set_rq_authorization (Some new));;
                mret 0
            | (Err e, _) => mret (- e)
            | _ => undefined
            end
        end
  end.

(** ** Steps common to the requests *)

(** The method is one that the server has. *)
Definition method_allowed (flag : Z) : CM bool :=
  methods ← gets cl_methods_allowed;
  mret ((methods =? 0) || negb (Z.land methods flag =? 0)).

(** The state of the connection and of the request that is pending. *)
Definition may_request : CM Z :=
  state ← gets cl_conn_state;
  if negb (bool_decide (state = RTSP_CLIENT_CONN_STATE_CONNECTED)) then mret (- EPIPE)
  else
    keep_alive_in_progress ← clear_pending_keep_alive_timer;
    is_pending ← gets cl_is_pending;
    mret (if is_pending && negb keep_alive_in_progress then - EBUSY else 0).

(** The cleared header, the user data and the method. *)
Definition new_header (method : rtsp_method_type) (req_userdata : Z) : CM unit :=
  set_header (fun _ => rtsp_request_header_clear);;
  modify (set_cl_userdata req_userdata);;
  set_header (set_rq_method method).

(** The number of the request, [cseq] as an [int]. *)
Definition number_header : CM unit :=
  cseq ← gets cl_cseq;
  set_header (set_rq_cseq (s32 cseq)).

Definition sign_header : CM unit :=
  name ← gets cl_software_name;
  set_header (set_rq_user_agent (Some name)).

Definition request_sent : CM unit :=
  modify (set_cl_is_pending true);;
  cseq ← gets cl_cseq;
  modify (set_cl_cseq (u32 (cseq + 1))).

(** From the extensions on. *)
Definition submit_request (ext : option (list rtsp_header_ext)) (ext_count : Z)
    (content : option cstr) (timeout_ms : Z) : CM Z :=
  header ← gets cl_header;
  match rtsp_request_header_copy_ext header ext ext_count with
  | Err e => mret (- e)
  | Undef => undefined
  | Ok header =>
      set_header (fun _ => header);;
      res ← send_client_request content timeout_ms;
      if res <? 0 then mret res else request_sent;; mret 0
  end.

(** The number, the authorization and the name of the client, then [rest];
    [optional] when the request may go without an authorization. *)
Definition authorize (optional : bool) (rest : CM Z) : CM Z :=
  number_header;;
  res ← generate_authorization_header;
  if (res <? 0) && negb (optional && (res =? - EAGAIN)) then mret res
  else sign_header;; rest.

(** The checks on the method, whose callback the application may not have. *)
Definition check_method (method : rtsp_method_type) (flag : Z) (rest : CM Z) : CM Z :=
  if negb (client_has method) then mret (- ENOSYS)
  else
    allowed ← method_allowed flag;
    if negb allowed then mret (- ENOSYS) else rest.

(** ** Requests *)

Definition rtsp_client_options (ext : option (list rtsp_header_ext))
    (ext_count req_userdata timeout_ms : Z) : CM Z :=
  if negb (client_has RTSP_METHOD_TYPE_OPTIONS) then mret (- ENOSYS)
  else
    res ← may_request;
    if res <? 0 then mret res
    else
      new_header RTSP_METHOD_TYPE_OPTIONS req_userdata;;
      set_header (set_rq_uri (Some (cs "*")));;
      number_header;;
      sign_header;;
      submit_request ext ext_count None timeout_ms.

Definition rtsp_client_describe (path : option cstr) (ext : option (list rtsp_header_ext))
    (ext_count req_userdata timeout_ms : Z) : CM Z :=
  check_method RTSP_METHOD_TYPE_DESCRIBE RTSP_METHOD_FLAG_DESCRIBE
    (res ← may_request;
     if res <? 0 then mret res
     else
       new_header RTSP_METHOD_TYPE_DESCRIBE req_userdata;;
       uri ← make_uri path;
       set_header (set_rq_uri uri);;
       authorize true
         (set_header (set_rq_accept (Some (cs "application/sdp")));;
          submit_request ext ext_count None timeout_ms)).

Definition rtsp_client_announce (path session_description : option cstr)
    (ext : option (list rtsp_header_ext)) (ext_count req_userdata timeout_ms : Z) : CM Z :=
  match session_description with
  | None | Some [] => mret (- EINVAL)
  | Some sd =>
      check_method RTSP_METHOD_TYPE_ANNOUNCE RTSP_METHOD_FLAG_ANNOUNCE
        (let len := strnlen sd UINT16_MAX in
         if UINT16_MAX <=? len then mret (- EINVAL)
         else
           res ← may_request;
           if res <? 0 then mret res
           else
             new_header RTSP_METHOD_TYPE_ANNOUNCE req_userdata;;
             uri ← make_uri path;
             set_header (set_rq_uri uri);;
             authorize true
               (set_header (fun h => set_rq_content_length len
                  (set_rq_content_type (Some (cs "application/sdp")) h));;
                submit_request ext ext_count (Some sd) timeout_ms))
  end.

(** A request on the session that [session_id] names: [fill] completes the
    header after the session id. *)
Definition request_on_session (method : rtsp_method_type) (session_id : cstr)
    (uri : rtsp_client_session → res (option cstr)) (fill : rtsp_request_header → rtsp_request_header)
    (ext : option (list rtsp_header_ext)) (ext_count req_userdata timeout_ms : Z) : CM Z :=
  res ← may_request;
  if res <? 0 then mret res
  else
    session ← rtsp_client_get_session (Some session_id) false;
    match session with
    | None => mret (- ENOENT)
    | Some session =>
        new_header method req_userdata;;
        s ← csession_at session;
        match uri s with
        | Err e => mret (- e)
        | Undef => undefined
        | Ok uri =>
            set_header (set_rq_uri uri);;
            authorize false
              (set_header (fun h => fill (set_rq_session_id (Some session_id) h));;
               submit_request ext ext_count None timeout_ms)
        end
    end.

Definition rtsp_client_play (session_id : option cstr) (range : option rtsp_range)
    (scale : spec_float) (ext : option (list rtsp_header_ext))
    (ext_count req_userdata timeout_ms : Z) : CM Z :=
  match session_id, range with
  | Some ((_ :: _) as id), Some range =>
      check_method RTSP_METHOD_TYPE_PLAY RTSP_METHOD_FLAG_PLAY
        (request_on_session RTSP_METHOD_TYPE_PLAY id (fun s => Ok (cs_content_base s))
           (fun h => set_rq_scale scale (set_rq_range range h)) ext ext_count req_userdata
           timeout_ms)
  | _, _ => mret (- EINVAL)
  end.

Definition rtsp_client_pause (session_id : option cstr) (range : option rtsp_range)
    (ext : option (list rtsp_header_ext)) (ext_count req_userdata timeout_ms : Z) : CM Z :=
  match session_id, range with
  | Some ((_ :: _) as id), Some range =>
      check_method RTSP_METHOD_TYPE_PAUSE RTSP_METHOD_FLAG_PAUSE
        (request_on_session RTSP_METHOD_TYPE_PAUSE id (fun s => Ok (cs_content_base s))
           (set_rq_range range) ext ext_count req_userdata timeout_ms)
  | _, _ => mret (- EINVAL)
  end.

Definition rtsp_client_record (session_id : option cstr) (range : option rtsp_range)
    (ext : option (list rtsp_header_ext)) (ext_count req_userdata timeout_ms : Z) : CM Z :=
  match session_id, range with
  | Some ((_ :: _) as id), Some range =>
      check_method RTSP_METHOD_TYPE_RECORD RTSP_METHOD_FLAG_RECORD
        (request_on_session RTSP_METHOD_TYPE_RECORD id (fun s => Ok (cs_content_base s))
           (set_rq_range range) ext ext_count req_userdata timeout_ms)
  | _, _ => mret (- EINVAL)
  end.

(** The URI of a TEARDOWN request: that of the resource, or of the session. *)
Definition teardown_uri (resource_url : option cstr) (s : rtsp_client_session)
    : res (option cstr) :=
  match resource_url with
  | Some ((_ :: _) as url) =>
      uri ← format_request_uri (cs_content_base s) (Some url); Ok (Some uri)
  | _ => Ok (cs_content_base s)
  end.

Definition send_teardown (resource_url session_id : option cstr)
    (ext : option (list rtsp_header_ext)) (ext_count req_userdata timeout_ms : Z)
    (internal : bool) : CM Z :=
  match session_id with
  | Some ((_ :: _) as id) =>
      check_method RTSP_METHOD_TYPE_TEARDOWN RTSP_METHOD_FLAG_TEARDOWN
        (res ← request_on_session RTSP_METHOD_TYPE_TEARDOWN id (teardown_uri resource_url)
                 (fun h => h) ext ext_count req_userdata timeout_ms;
         if res <? 0 then mret res
         else
           session ← rtsp_client_get_session (Some id) false;
           session ← deref session;
           upd_csession session (set_cs_internal_teardown internal);;
           modify (set_cl_is_internal internal);;
           mret 0)
  | _ => mret (- EINVAL)
  end.

Definition rtsp_client_teardown (resource_url session_id : option cstr)
    (ext : option (list rtsp_header_ext)) (ext_count req_userdata timeout_ms : Z) : CM Z :=
  send_teardown resource_url session_id ext ext_count req_userdata timeout_ms false.

(** *** SETUP *)

Definition setup_ports_ok (lower_transport : rtsp_lower_transport) (stream_port control_port : Z)
    : bool :=
  if bool_decide (lower_transport = RTSP_LOWER_TRANSPORT_TCP) then
    negb (negb (stream_port =? 0) && negb (control_port =? 0) && (stream_port =? control_port))
    && (stream_port <=? 255) && (control_port <=? 255)
  else negb (stream_port =? 0) && negb (control_port =? 0).

(** A session that is named must be known and have the content base; the two
    strings are compared with [strcmp]. *)
Definition check_setup_session (session_id : option cstr) (content_base : cstr) : CM Z :=
  match session_id with
  | Some ((_ :: _) as id) =>
      session ← rtsp_client_get_session (Some id) false;
      match session with
      | None => mret (- ENOENT)
      | Some session =>
          s ← csession_at session;
          base ← deref (cs_content_base s);
          mret (if streq base content_base then 0 else - EINVAL)
      end
  | _ => mret 0
  end.

(** The transport of the request, without its ports or channels. *)
Definition request_transport (lower_transport : rtsp_lower_transport) (delivery : rtsp_delivery)
    (method : rtsp_transport_method) : rtsp_transport_header :=
  Transport (Some (cs "RTP")) (Some (cs "AVP")) lower_transport [] delivery None None 0 method
    false 0 0 0 0 0 false 0.

Definition with_channels (pair : rtsp_channel_pair) (t : rtsp_transport_header) :=
  Transport (tr_transport_protocol t) (tr_transport_profile t) (tr_lower_transport t) [pair]
    (tr_delivery t) (tr_destination t) (tr_source t) (tr_layers t) (tr_method t) (tr_append t)
    (tr_ttl t) (tr_src_stream_port t) (tr_src_control_port t) (tr_dst_stream_port t)
    (tr_dst_control_port t) (tr_ssrc_valid t) (tr_ssrc t).

Definition with_dst_ports (stream_port control_port : Z) (t : rtsp_transport_header) :=
  Transport (tr_transport_protocol t) (tr_transport_profile t) (tr_lower_transport t)
    (tr_interleaved t) (tr_delivery t) (tr_destination t) (tr_source t) (tr_layers t)
    (tr_method t) (tr_append t) (tr_ttl t) (tr_src_stream_port t) (tr_src_control_port t)
    stream_port control_port (tr_ssrc_valid t) (tr_ssrc t).

Definition set_transport (t : rtsp_transport_header) : CM unit :=
  set_header (set_rq_transport [Some t]).

(** The transport of the header, with the channels or the ports; 0 or the error. *)
Definition fill_transport (lower_transport : rtsp_lower_transport) (delivery : rtsp_delivery)
    (method : rtsp_transport_method) (stream_port control_port : Z) : CM Z :=
  let t := request_transport lower_transport delivery method in
  set_transport t;;
  if bool_decide (lower_transport = RTSP_LOWER_TRANSPORT_TCP) then
    channel_used ← gets cl_channel_used;
    if count_channel_unused channel_used <? 2 then mret (- E2BIG)
    else
      channels ← allocate_interleaved_channels (ChannelPair (u8 stream_port) (u8 control_port));
      match channels with
      | Ok channels => set_transport (with_channels channels t);; mret 0
      | Err e => mret (- e)
      | Undef => undefined
      end
  else set_transport (with_dst_ports stream_port control_port t);; mret 0.

(** From the header on, with the content base without its credentials. *)
Definition setup_request (content_base : cstr) (resource_url session_id : option cstr)
    (delivery : rtsp_delivery) (lower_transport : rtsp_lower_transport)
    (client_stream_port client_control_port : Z) (method : rtsp_transport_method)
    (ext : option (list rtsp_header_ext)) (ext_count req_userdata timeout_ms : Z) : CM Z :=
  new_header RTSP_METHOD_TYPE_SETUP req_userdata;;
  match format_request_uri (Some content_base) resource_url with
  | Err e => mret (- e)
  | Undef => undefined
  | Ok uri =>
      modify (set_cl_uri (Some uri));;
      modify (set_cl_content_base (Some content_base));;
      set_header (set_rq_uri (Some uri));;
      authorize false
        (res ← fill_transport lower_transport delivery method client_stream_port
                 client_control_port;
         if res <? 0 then mret res
         else
           set_header (set_rq_session_id session_id);;
           submit_request ext ext_count None timeout_ms)
  end.

Definition rtsp_client_setup (content_base resource_url session_id : option cstr)
    (delivery : rtsp_delivery) (lower_transport : rtsp_lower_transport)
    (client_stream_port client_control_port : Z) (method : rtsp_transport_method)
    (ext : option (list rtsp_header_ext)) (ext_count req_userdata timeout_ms : Z) : CM Z :=
  match content_base, resource_url with
  | None, _ | Some [], _ | _, None | _, Some [] => mret (- EINVAL)
  | Some content_base, Some _ =>
      if negb (setup_ports_ok lower_transport client_stream_port client_control_port)
      then mret (- EINVAL)
      else
        check_method RTSP_METHOD_TYPE_SETUP RTSP_METHOD_FLAG_SETUP
          (res ← may_request;
           if res <? 0 then mret res
           else
             match rtsp_url_strip_credentials client_inet4 client_inet6 (Some content_base) with
             | Err e => mret (- e)
             | Undef => undefined
             | Ok base =>
                 res ← check_setup_session session_id base;
                 if res <? 0 then mret res
                 else setup_request base resource_url session_id delivery lower_transport
                        client_stream_port client_control_port method ext ext_count
                        req_userdata timeout_ms
             end)
  end.

Definition rtsp_client_send_interleaved (channel : Z) (data : option bytes) : CM Z :=
  match data with
  | None => mret (- EINVAL)
  | Some d =>
      if (Zlen d =? 0) || (UINT16_MAX <? Zlen d) then mret (- EINVAL)
      else
        state ← gets cl_conn_state;
        channel_used ← gets cl_channel_used;
        if negb (bool_decide (state = RTSP_CLIENT_CONN_STATE_CONNECTED)) then mret (- EPIPE)
        else if negb (used channel_used channel) then mret (- ENOENT)
        else
          match rtsp_build_interleaved (Some (channel, data, u16 (Zlen d))) with
          | Ok packet => send_raw_buf packet
          | Err e => mret (- e)
          | Undef => undefined
          end
  end.

(** ** Callbacks *)

Definition run_client_call (c : client_call) : CM Z :=
  match c with
  | CallOptions ext n u t => rtsp_client_options ext n u t
  | CallDescribe path ext n u t => rtsp_client_describe path ext n u t
  | CallAnnounce path sd ext n u t => rtsp_client_announce path sd ext n u t
  | CallSetup base url id delivery lower p1 p2 method ext n u t =>
      rtsp_client_setup base url id delivery lower p1 p2 method ext n u t
  | CallPlay id range scale ext n u t => rtsp_client_play id range scale ext n u t
  | CallPause id range ext n u t => rtsp_client_pause id range ext n u t
  | CallRecord id range ext n u t => rtsp_client_record id range ext n u t
  | CallTeardown url id ext n u t => rtsp_client_teardown url id ext n u t
  | CallSendInterleaved channel data => rtsp_client_send_interleaved channel data
  end.

(** The callback is called, and makes requests. *)
Definition ccallback (o : client_output) : CM unit :=
  client_event o;;
  out ← gets cl_out;
  for_each (fun c => ignore (run_client_call c)) (client_app out).
End request.
