(* ===== verification/Client.v ===== *)
(** * The client ([rtsp_client.c], [rtsp_client_session.c]): completion of the
    requests, sessions, connection

    The application is called back in the middle of these functions and makes the
    requests of [ClientRequest.v]. *)

From S2P Require Import Prelude CString CNumber Writer Url Methods Transport AuthHeader RtpInfo CFloat.
From S2P Require Import TimeRange Framing HeaderLine HeaderFields Request Response Message.
From S2P Require Import ObjList StateMonad ClientState ClientSession ClientRequest.
From stdpp Require Import options.

Local Open Scope Z_scope.

Definition RTSP_CLIENT_MAX_FAILED_REQUESTS : Z := 5.
Definition RTSP_CLIENT_MAX_FAILED_KEEP_ALIVE : Z := 3.
Definition RTSP_CLIENT_RESOLV_TIMEOUT_MS : Z := 5000.

(** [RTSP_STATUS_CLASS(status)], a division of [int]s *)
Definition status_class_of (status : Z) : Z := Z.quot status 100.

Section client.
Context `{T : LocalTime} `{E : ClientEnv}.

(** ** Sessions and state of the connection *)

Definition set_connection_state (new_state : rtsp_client_conn_state) : CM unit :=
  state ← gets cl_conn_state;
  when (negb (bool_decide (state = new_state)))
    (modify (set_cl_conn_state new_state);; ccallback (OnConnectionState new_state)).

Definition clear_remote_info : CM unit :=
  modify (fun cl => set_cl_server_auth None (set_cl_auth None
    (set_cl_url_str None (set_cl_url None cl)))).

Definition rtsp_client_remove_session_internal (session_id : option cstr) (status_code : Z)
    (nexist_ok : bool) : CM Z :=
  match session_id with
  | None => mret (- EINVAL)
  | Some _ =>
      session ← rtsp_client_session_find session_id;
      match session with
      | None => mret (if nexist_ok then 0 else - ENOENT)
      | Some session =>
          s ← csession_at session;
          for_each (fun m =>
            release_channels (cm_channel_pair m);;
            ignore (rtsp_client_session_media_remove session (cm_ptr m))) (cs_medias s);;
          ccallback (OnSessionRemoved (cs_id s) (rtsp_status_to_errno status_code));;
          modify (fun cl => set_cl_sessions (delete_obj cs_ptr session (cl_sessions cl)) cl);;
          mret 0
      end
  end.

Definition csession_addrs : CM (list ptr) := sessions ← gets cl_sessions; mret (cs_ptr <$> sessions).

Definition rtsp_client_remove_all_sessions : CM unit :=
  l ← csession_addrs;
  list_walk_safe csession_addrs (fun p =>
    s ← csession_at p;
    ignore (rtsp_client_remove_session_internal (Some (cs_id s)) 0 false)) l (head l).

(** ** Keep alive *)

(** The GET_PARAMETER request; the timer is set even if it has to be sent again. *)
Definition keep_alive_request (session : ptr) (timeout_ms : Z) : CM Z :=
  s ← csession_at session;
  set_header (fun _ => rtsp_request_header_clear);;
  set_header (fun h => set_rq_uri (cs_content_base s) (set_rq_method RTSP_METHOD_TYPE_GET_PARAMETER h));;
  authorize false
    (set_header (set_rq_session_id (Some (cs_id s)));;
     res ← send_client_request None timeout_ms;
     res ← (if res =? - EAGAIN then set_request_timer timeout_ms else mret res);
     if res <? 0 then mret res
     else
       upd_csession session (set_cs_keep_alive_in_progress true);;
       request_sent;;
       mret 0).

(** Without a connection: the session is removed after three attempts. *)
Definition keep_alive_failed (session : ptr) : CM Z :=
  upd_csession session (fun s => set_cs_failed_keep_alive (u32 (cs_failed_keep_alive s + 1)) s);;
  s ← csession_at session;
  if RTSP_CLIENT_MAX_FAILED_KEEP_ALIVE <=? cs_failed_keep_alive s then
    ignore (rtsp_client_remove_session_internal (Some (cs_id s)) (- EPIPE) false);;
    mret (- EPIPE)
  else
    ignore (reset_keep_alive_timer session
              (s32 (cs_timeout_ms s / RTSP_CLIENT_MAX_FAILED_KEEP_ALIVE)));;
    mret (- EAGAIN).

Definition send_keep_alive (session : ptr) (timeout_ms : Z) : CM Z :=
  allowed ← method_allowed RTSP_METHOD_FLAG_GET_PARAMETER;
  if negb allowed then mret (- ENOSYS)
  else
    state ← gets cl_conn_state;
    if negb (bool_decide (state = RTSP_CLIENT_CONN_STATE_CONNECTED)) then keep_alive_failed session
    else
      s ← csession_at session;
      if cs_keep_alive_in_progress s then mret (- EBUSY)
      else
        is_pending ← gets cl_is_pending;
        if (is_pending : bool) then
          ignore (reset_keep_alive_timer session (s32 (cs_timeout_ms s / 2)));;
          mret (- EBUSY)
        else keep_alive_request session timeout_ms.

(** ** Completion of the requests by method *)

(** [SETUP] *)
Definition setup_request_complete (session : option ptr) (session_id req_uri : option cstr)
    (req_channels : rtsp_channel_pair) (status : rtsp_client_req_status)
    (resp_h : rtsp_response_header) (req_userdata : Z) : CM unit :=
  if bool_decide (status = RTSP_CLIENT_REQ_STATUS_OK) then
    t ← deref (rp_transport resp_h);
    let is_tcp := bool_decide (tr_lower_transport t = RTSP_LOWER_TRANSPORT_TCP) in
    let first := default (ChannelPair 0 0) (head (tr_interleaved t)) in
    let stream_port := if is_tcp then ch_rtp first else tr_src_stream_port t in
    let control_port := if is_tcp then ch_rtcp first else tr_src_control_port t in
    let ret_channels := ChannelPair (u8 stream_port) (u8 control_port) in
    when is_tcp (update_interleaved_channels req_channels ret_channels);;
    ccallback (OnSetupResp session_id status (rtsp_status_to_errno (rp_status_code resp_h))
      stream_port control_port (tr_ssrc_valid t) (tr_ssrc t) (rp_ext resp_h) req_userdata);;
    match rtsp_url_parse_path req_uri with
    | Ok path =>
        ignore (rtsp_client_session_media_add session path
                  (if is_tcp then Some ret_channels else None))
    | Err _ => skip
    | Undef => undefined
    end
  else
    release_channels req_channels;;
    ccallback (OnSetupResp session_id status (rtsp_status_to_errno (rp_status_code resp_h))
      0 0 false 0 [] req_userdata).

Definition play_request_complete (session_id : option cstr) (status : rtsp_client_req_status)
    (resp_h : rtsp_response_header) (req_userdata : Z) : CM unit :=
  let err := rtsp_status_to_errno (rp_status_code resp_h) in
  if negb (bool_decide (status = RTSP_CLIENT_REQ_STATUS_OK)) then
    ccallback (OnPlayResp session_id status err None (S754_zero false) false 0 false 0 []
                 req_userdata)
  else
    rtp_info ← match rp_rtp_info resp_h with
               | [] => mret (RtpInfo None false 0 false 0)
               | info :: _ => deref info
               end;
    ccallback (OnPlayResp session_id status err (Some (rp_range resp_h)) (rp_scale resp_h)
      (ri_seq_valid rtp_info) (ri_seq rtp_info) (ri_rtptime_valid rtp_info)
      (ri_rtptime rtp_info) (rp_ext resp_h) req_userdata).

Definition pause_request_complete (session_id : option cstr) (status : rtsp_client_req_status)
    (resp_h : rtsp_response_header) (req_userdata : Z) : CM unit :=
  ccallback (OnPauseResp session_id status (rtsp_status_to_errno (rp_status_code resp_h))
    (if bool_decide (status = RTSP_CLIENT_REQ_STATUS_OK) then Some (rp_range resp_h) else None)
    (rp_ext resp_h) req_userdata).

(** [TEARDOWN]: whether the session is to be removed. *)
Definition teardown_request_complete (session : option ptr) (session_id req_uri : option cstr)
    (status : rtsp_client_req_status) (resp_h : rtsp_response_header) (req_userdata : Z)
    (session_removed : bool) : CM bool :=
  let err := rtsp_status_to_errno (rp_status_code resp_h) in
  match session with
  | None =>
      is_internal ← gets cl_is_internal;
      when (negb is_internal)
        (ccallback (OnTeardownResp session_id status err (rp_ext resp_h) req_userdata);;
         modify (set_cl_is_internal false));;
      mret session_removed
  | Some session =>
      s ← csession_at session;
      match path ← rtsp_url_parse_path req_uri;
            base_path ← rtsp_url_parse_path (cs_content_base s);
            Ok (path, base_path) with
      | Err _ => mret session_removed
      | Undef => undefined
      | Ok (path, base_path) =>
          media ← rtsp_client_session_media_find session path;
          if bool_decide (media = None) && negb (streq (default [] path) (default [] base_path))
          then mret session_removed
          else
            when (negb (cs_internal_teardown s))
              (ccallback (OnTeardownResp (Some (cs_id s)) status err (rp_ext resp_h) req_userdata);;
               upd_csession session (set_cs_internal_teardown false);;
               modify (set_cl_is_internal false));;
            match media with
            | Some m =>
                release_channels (cm_channel_pair m);;
                ignore (rtsp_client_session_media_remove session (cm_ptr m));;
                s ← csession_at session;
                mret (cs_media_count s =? 0)
            | None => mret true
            end
      end
  end.

(** [GET_PARAMETER]: whether a TEARDOWN has to be sent. *)
Definition keep_alive_complete (session : option ptr) (status : rtsp_client_req_status)
    : CM bool :=
  match session with
  | None => mret false
  | Some session =>
      if bool_decide (status = RTSP_CLIENT_REQ_STATUS_TIMEOUT) then
        upd_csession session (fun s =>
          set_cs_failed_keep_alive (u32 (cs_failed_keep_alive s + 1)) s);;
        s ← csession_at session;
        if RTSP_CLIENT_MAX_FAILED_KEEP_ALIVE <=? cs_failed_keep_alive s then
          ignore (reset_keep_alive_timer session (- 1));;
          mret true
        else
          ignore (send_keep_alive session RTSP_CLIENT_DEFAULT_RESP_TIMEOUT_MS);;
          mret false
      else
        upd_csession session (set_cs_failed_keep_alive 0);;
        mret false
  end.

(** The content base of a description. *)
Definition description_base (resp_h : rtsp_response_header) (req_uri : option cstr)
    : option cstr :=
  match rp_content_base resp_h, rp_content_location resp_h with
  | Some base, _ => Some base
  | None, Some location => Some location
  | None, None => req_uri
  end.

(** The switch: whether a TEARDOWN has to be sent and whether the session is to
    be removed. *)
Definition method_complete (method : rtsp_method_type) (session : option ptr)
    (session_id req_uri : option cstr) (req_pair : rtsp_channel_pair)
    (status : rtsp_client_req_status) (resp_h : rtsp_response_header) (body : bytes)
    (req_userdata : Z) (session_removed : bool) : CM (bool * bool) :=
  let err := rtsp_status_to_errno (rp_status_code resp_h) in
  match method with
  | RTSP_METHOD_TYPE_OPTIONS =>
      modify (set_cl_methods_allowed (rp_public_methods resp_h));;
      ccallback (OnOptionsResp status err (rp_public_methods resp_h) (rp_ext resp_h) req_userdata);;
      mret (false, session_removed)
  | RTSP_METHOD_TYPE_DESCRIBE =>
      ccallback (OnDescribeResp status err (description_base resp_h req_uri) (rp_ext resp_h) body
                   req_userdata);;
      mret (false, session_removed)
  | RTSP_METHOD_TYPE_ANNOUNCE =>
      ccallback (OnAnnounceResp status err (rp_ext resp_h) req_userdata);;
      mret (false, session_removed)
  | RTSP_METHOD_TYPE_SETUP =>
      setup_request_complete session session_id req_uri req_pair status resp_h req_userdata;;
      mret (false, session_removed)
  | RTSP_METHOD_TYPE_PLAY =>
      play_request_complete session_id status resp_h req_userdata;;
      mret (false, session_removed)
  | RTSP_METHOD_TYPE_PAUSE =>
      pause_request_complete session_id status resp_h req_userdata;;
      mret (false, session_removed)
  | RTSP_METHOD_TYPE_RECORD =>
      ccallback (OnRecordResp session_id status err (rp_ext resp_h) req_userdata);;
      mret (false, session_removed)
  | RTSP_METHOD_TYPE_TEARDOWN =>
      removed ← teardown_request_complete session session_id req_uri status resp_h req_userdata
                  session_removed;
      mret (false, removed)
  | RTSP_METHOD_TYPE_GET_PARAMETER =>
      internal_teardown ← keep_alive_complete session status;
      mret (internal_teardown, session_removed)
  | RTSP_METHOD_TYPE_UNKNOWN | RTSP_METHOD_TYPE_SET_PARAMETER | RTSP_METHOD_TYPE_REDIRECT =>
      mret (false, session_removed)
  end.

(** ** Completion of a request *)

Definition with_username (username : option cstr) (a : rtsp_authorization_header) :=
  Auth (au_type a) (au_algorithm a) username (au_uri a) (au_response a) (au_cnonce a) (au_nc a)
    (au_credentials a) (au_realm a) (au_nonce a) (au_opaque a) (au_qop a).

(** What the server asks for becomes part of the state of the authentication. *)
Definition update_auth_from_server (server : option rtsp_authorization_header) : CM unit :=
  match server with
  | None => skip
  | Some server =>
      modify (set_cl_server_auth (Some server));;
      auth ← gets cl_auth;
      url ← gets cl_url;
      match auth with
      | None => modify (set_cl_auth (Some (with_username (rtsp_url_get_user url) server)))
      | Some auth =>
          match rtsp_authorization_header_copy_server_fields (Some server) (Some auth) with
          | Ok auth => modify (set_cl_auth (Some auth))
          | _ => undefined
          end
      end
  end.

(** The response that stands for one that did not come. *)
Definition dummy_response (session_id : option cstr) (status : rtsp_client_req_status)
    : rtsp_response_header :=
  set_rp_status_code (if bool_decide (status = RTSP_CLIENT_REQ_STATUS_TIMEOUT) then 408 else 0)
    (set_rp_session_id session_id rtsp_response_header_clear).

(** The channels that a SETUP request asked for. *)
Definition requested_channels (h : rtsp_request_header) : CM rtsp_channel_pair :=
  if bool_decide (rq_method h = RTSP_METHOD_TYPE_SETUP) then
    match rq_transport h with
    | [] => mret (ChannelPair 0 0)
    | t :: _ =>
        t ← deref t;
        mret (if bool_decide (tr_lower_transport t = RTSP_LOWER_TRANSPORT_TCP)
              then default (ChannelPair 0 0) (head (tr_interleaved t))
              else ChannelPair 0 0)
    end
  else mret (ChannelPair 0 0).

Definition response_status (status : rtsp_client_req_status) (resp_h : rtsp_response_header)
    : rtsp_client_req_status :=
  if bool_decide (status = RTSP_CLIENT_REQ_STATUS_OK)
     && negb (status_class_of (rp_status_code resp_h) =? 2)
  then RTSP_CLIENT_REQ_STATUS_FAILED else status.

(** The timeout of the keep alive: 40 % of that of the server, in ms. *)
Definition keep_alive_timeout (session_timeout : Z) : Z :=
  (if 0 <? session_timeout then u32 (800 * session_timeout)
   else RTSP_CLIENT_DEFAULT_RESP_TIMEOUT_MS) / 2.

(** The content base of the SETUP request, for a session that has none. *)
Definition take_base (base : option cstr) (s : rtsp_client_session) : rtsp_client_session :=
  match base, cs_content_base s with
  | Some _, None => set_cs_content_base base s
  | _, _ => s
  end.

(** The session of the response: the returned value and the session. *)
Definition complete_session (method : rtsp_method_type) (session_id : option cstr)
    (resp_h : rtsp_response_header) : CM (Z * option ptr) :=
  match session_id with
  | None => mret (0, None)
  | Some _ =>
      session ← rtsp_client_get_session session_id
                  (bool_decide (method = RTSP_METHOD_TYPE_SETUP));
      match session with
      | None =>
          mret (match method with
                | RTSP_METHOD_TYPE_SETUP => - ENOMEM
                | RTSP_METHOD_TYPE_OPTIONS | RTSP_METHOD_TYPE_ANNOUNCE
                | RTSP_METHOD_TYPE_DESCRIBE => 0
                | _ => - ENOENT
                end, None)
      | Some session =>
          let timeout := keep_alive_timeout (rp_session_timeout resp_h) in
          upd_csession session (fun s =>
            set_cs_timeout_ms timeout (set_cs_keep_alive_in_progress false s));;
          ignore (reset_keep_alive_timer session (s32 timeout));;
          base ← gets cl_content_base;
          upd_csession session (take_base base);;
          modify (set_cl_content_base None);;
          mret (0, Some session)
      end
  end.

(** The request is not pending any more. *)
Definition reset_request : CM unit :=
  set_header (fun _ => rtsp_request_header_clear);;
  modify (fun cl => set_cl_timer None (set_cl_userdata 0 (set_cl_uri None
    (set_cl_is_pending false cl)))).

(** A 401 without a challenge: the state of the authentication is forgotten. *)
Definition forget_auth (resp_h : rtsp_response_header) : CM unit :=
  server_auth ← gets cl_server_auth;
  when ((rp_status_code resp_h =? 401) && bool_decide (rp_authenticate resp_h = None)
        && bool_decide (is_Some server_auth))
    (modify (fun cl => set_cl_auth None (set_cl_server_auth None cl))).

(** The request with the header [h] is complete: from the channels it asked for
    to the removal of its session; the returned value. *)
Definition complete_request (h : rtsp_request_header) (resp_h : option rtsp_response_header)
    (body : bytes) (status : rtsp_client_req_status) : CM Z :=
  let req_session_id := rq_session_id h in
  let resp_h := default (dummy_response req_session_id status) resp_h in
  req_pair ← requested_channels h;
  update_auth_from_server (rp_authenticate resp_h);;
  req_userdata ← gets cl_userdata;
  reset_request;;
  let status := response_status status resp_h in
  forget_auth resp_h;;
  let session_id := match rp_session_id resp_h with
                    | Some id => Some id | None => req_session_id end in
  '(res, session) ← complete_session (rq_method h) session_id resp_h;
  '(internal_teardown, session_removed) ←
    method_complete (rq_method h) session session_id (rq_uri h) req_pair status resp_h body
      req_userdata (rp_status_code resp_h =? 454);
  session_removed ←
    (if (internal_teardown : bool) then
       err ← send_teardown None session_id None 0 0 RTSP_CLIENT_DEFAULT_RESP_TIMEOUT_MS true;
       mret (if err <? 0 then true else session_removed)
     else mret session_removed);
  when session_removed
    (ignore (rtsp_client_remove_session_internal session_id
       (if bool_decide (status = RTSP_CLIENT_REQ_STATUS_TIMEOUT) then - ETIMEDOUT
        else rp_status_code resp_h) false));;
  mret res.

(** [request_complete] up to the count of the failed requests; [None] when no
    request was pending. *)
Definition complete_pending (resp_h : option rtsp_response_header) (body : bytes)
    (status : rtsp_client_req_status) : CM (option Z) :=
  is_pending ← gets cl_is_pending;
  if negb is_pending then mret None
  else
    h ← gets cl_header;
    res ← complete_request h resp_h body status;
    mret (Some res).

(** For the statuses other than [TIMEOUT]. *)
Definition request_complete_now (resp_h : option rtsp_response_header) (body : bytes)
    (status : rtsp_client_req_status) : CM Z :=
  done ← complete_pending resp_h body status;
  match done with
  | None => mret 0
  | Some res => modify (set_cl_failed_requests 0);; mret res
  end.

(** ** Connection *)

Definition client_connected : CM unit :=
  modify (set_cl_sock true);;
  set_connection_state RTSP_CLIENT_CONN_STATE_CONNECTED;;
  l ← csession_addrs;
  for_each (fun p => ignore (send_keep_alive p RTSP_CLIENT_DEFAULT_RESP_TIMEOUT_MS)) l.

Definition client_disconnected : CM unit :=
  modify (set_cl_sock false);;
  state ← gets cl_conn_state;
  match state with
  | RTSP_CLIENT_CONN_STATE_DISCONNECTING =>
      clear_remote_info;;
      ignore (request_complete_now None [] RTSP_CLIENT_REQ_STATUS_ABORTED);;
      set_connection_state RTSP_CLIENT_CONN_STATE_DISCONNECTED
  | RTSP_CLIENT_CONN_STATE_CONNECTED =>
      ignore (request_complete_now None [] RTSP_CLIENT_REQ_STATUS_ABORTED);;
      set_connection_state RTSP_CLIENT_CONN_STATE_CONNECTING
  | _ => skip
  end.

Definition client_ready_to_send : CM unit :=
  when client_has_ready_to_send (ccallback OnReadyToSend).

Definition tskt_client_stop : CM Z :=
  out ← gets cl_out;
  let '(ret, event) := client_stop out in
  client_event (Stop ret);;
  when event client_disconnected;;
  mret ret.

(** To the resolved host of the URL. *)
Definition tskt_client_connect : CM Z :=
  url ← gets cl_url;
  out ← gets cl_out;
  let ret := client_connect out in
  client_event (Connect (rtsp_url_get_resolved_host url) (rtsp_url_get_port url) ret);;
  mret ret.

(** A request that timed out; after five of them in a row, a new connection. *)
Definition count_failed_request : CM unit :=
  modify (fun cl => set_cl_failed_requests (u32 (cl_failed_requests cl + 1)) cl);;
  failed ← gets cl_failed_requests;
  when (RTSP_CLIENT_MAX_FAILED_REQUESTS <=? failed)
    (ignore tskt_client_stop;;
     set_connection_state RTSP_CLIENT_CONN_STATE_CONNECTING;;
     ignore tskt_client_connect).

Definition request_complete (resp_h : option rtsp_response_header) (body : bytes)
    (status : rtsp_client_req_status) : CM Z :=
  if bool_decide (status = RTSP_CLIENT_REQ_STATUS_TIMEOUT) then
    done ← complete_pending resp_h body status;
    match done with
    | None => mret 0
    | Some res => count_failed_request;; mret res
    end
  else request_complete_now resp_h body status.

Definition rtsp_client_cancel : CM Z := request_complete None [] RTSP_CLIENT_REQ_STATUS_CANCELED.

Definition rtsp_client_remove_session (session_id : option cstr) : CM Z :=
  rtsp_client_remove_session_internal session_id 408 false.

Definition rtsp_client_disconnect : CM Z :=
  state ← gets cl_conn_state;
  match state with
  | RTSP_CLIENT_CONN_STATE_DISCONNECTED => mret (- EPROTO)
  | RTSP_CLIENT_CONN_STATE_DISCONNECTING => mret 0
  | _ =>
      set_connection_state RTSP_CLIENT_CONN_STATE_DISCONNECTING;;
      res ← tskt_client_stop;
      if res <? 0 then mret res
      else
        when (bool_decide (state = RTSP_CLIENT_CONN_STATE_CONNECTING))
          (clear_remote_info;;
           ignore (request_complete None [] RTSP_CLIENT_REQ_STATUS_ABORTED);;
           set_connection_state RTSP_CLIENT_CONN_STATE_DISCONNECTED);;
        rtsp_client_remove_all_sessions;;
        mret 0
  end.

(** The TLS library and the context, each initialised once. *)
Definition setup_tls (url : rtsp_url) : CM Z :=
  if bool_decide (url_scheme url = RTSP_URL_SCHEME_TCP_TLS) then
    tls ← gets cl_tls;
    res ← (if ttls_initialised tls then mret 0
           else if client_ttls_init <? 0 then mret client_ttls_init
           else modify (set_cl_tls (TlsState true (has_ssl_ctx tls)));; mret 0);
    if res <? 0 then mret res
    else
      tls ← gets cl_tls;
      if has_ssl_ctx tls then mret 0
      else if negb client_ssl_ctx then mret (- EPROTO)
      else modify (set_cl_tls (TlsState (ttls_initialised tls) true));; mret 0
  else mret 0.

(** The timer of the resolution and the request for it. *)
Definition resolve_host (url : rtsp_url) : CM Z :=
  let ret := client_timer_set RTSP_CLIENT_RESOLV_TIMEOUT_MS in
  if ret <? 0 then mret ret
  else
    modify (set_cl_resolv_timer (Some RTSP_CLIENT_RESOLV_TIMEOUT_MS));;
    out ← gets cl_out;
    let ret := client_resolve out in
    client_event (Resolve (url_host url) ret);;
    mret ret.

Definition connect_failed (res : Z) : CM Z :=
  set_connection_state RTSP_CLIENT_CONN_STATE_DISCONNECTED;;
  clear_remote_info;;
  mret res.

Definition rtsp_client_connect (addr : option cstr) : CM Z :=
  match addr with
  | None => mret (- EINVAL)
  | Some _ =>
      state ← gets cl_conn_state;
      if negb (bool_decide (state = RTSP_CLIENT_CONN_STATE_DISCONNECTED)) then mret (- EBUSY)
      else
        clear_remote_info;;
        match rtsp_url_parse client_inet4 client_inet6 addr with
        | Undef => undefined
        | Err e => connect_failed (- e)
        | Ok url =>
            modify (set_cl_url (Some url));;
            modify (set_cl_url_str
              match rtsp_url_strip_credentials client_inet4 client_inet6 addr with
              | Ok s => Some s | _ => None end);;
            set_connection_state RTSP_CLIENT_CONN_STATE_CONNECTING;;
            res ← setup_tls url;
            if res <? 0 then connect_failed res
            else
              res ← resolve_host url;
              if res <? 0 then connect_failed res else mret 0
        end
  end.

(** The answer of the resolution: the address, or an error. *)
Definition tskt_resolv_cb (addr : option cstr) : CM unit :=
  modify (set_cl_resolv_timer None);;
  url ← gets cl_url;
  match addr with
  | None => set_connection_state RTSP_CLIENT_CONN_STATE_DISCONNECTED
  | Some addr =>
      match rtsp_url_set_resolved_host url (Some addr) with
      | Err _ => set_connection_state RTSP_CLIENT_CONN_STATE_DISCONNECTED
      | Undef => undefined
      | Ok url =>
          modify (set_cl_url (Some url));;
          res ← tskt_client_connect;
          when (res <? 0) (set_connection_state RTSP_CLIENT_CONN_STATE_DISCONNECTED)
      end
  end.

Definition resolv_timer_cb : CM unit :=
  client_event ResolveCancel;;
  ignore rtsp_client_disconnect.
End client.
