(* ===== verification/ClientRun.v ===== *)
(** * The events of a client ([rtsp_client.c]): messages, timers, calls *)

From S2P Require Import Prelude CString CNumber Writer Url Methods Transport AuthHeader CFloat.
From S2P Require Import TimeRange Framing HeaderLine HeaderFields Request Response Message.
From S2P Require Import ObjList StateMonad ClientState ClientSession ClientRequest Client.
From stdpp Require Import options.

Local Open Scope Z_scope.

Section run.
Context `{T : LocalTime} `{E : ClientEnv}.

(** ** Requests of the server *)

(** The session and its media are removed: the session if the media is its last
    one, or if the path is that of no media. *)
Definition remove_torn_down_media (session : ptr) (session_id : option cstr)
    (media : option rtsp_client_session_media) : CM unit :=
  session_removed ←
    match media with
    | None => mret true
    | Some m =>
        release_channels (cm_channel_pair m);;
        ignore (rtsp_client_session_media_remove session (cm_ptr m));;
        s ← csession_at session;
        mret (cs_media_count s =? 0)
    end;
  when session_removed
    (ignore (rtsp_client_remove_session_internal session_id 200 false)).

(** The returned value. *)
Definition teardown_request_process (h : rtsp_request_header) : CM Z :=
  session ← rtsp_client_get_session (rq_session_id h) false;
  match session with
  | None => mret (- ENOENT)
  | Some session =>
      match rtsp_url_parse_path (rq_uri h) with
      | Err e => mret (- e)
      | Undef => undefined
      | Ok None => mret (- EINVAL)
      | Ok (Some path) =>
          s ← csession_at session;
          base ← deref (cs_content_base s);
          media ← (if streq (default [] (rq_uri h)) base then mret None
                   else rtsp_client_session_media_find session (Some path));
          (if client_has_teardown then
             ccallback (OnTeardown (match media with Some m => cm_path m | None => path end)
                          (rq_session_id h) (rq_ext h))
           else undefined);;
          remove_torn_down_media session (rq_session_id h) media;;
          mret 0
      end
  end.

(** The status of the answer and whether the method is handled, or the error. *)
Definition request_status (h : rtsp_request_header) (body : bytes)
    : CM (Z + Z * cstr * bool) :=
  let ok := inr (200, cs "OK", true) in
  let not_implemented handled := inr (501, cs "Not Implemented", handled) in
  match rq_method h with
  | RTSP_METHOD_TYPE_ANNOUNCE =>
      content_base ← client_uri_to_content_base (rq_uri h);
      ccallback (OnAnnounce content_base (rq_ext h) body);;
      mret ok
  | RTSP_METHOD_TYPE_GET_PARAMETER =>
      mret (if Zlen body =? 0 then ok else not_implemented true)
  | RTSP_METHOD_TYPE_TEARDOWN =>
      ret ← teardown_request_process h;
      mret (if ret <? 0 then inl ret else ok)
  | _ => mret (not_implemented false)
  end.

Definition rtsp_client_request_process (h : rtsp_request_header) (body : bytes) : CM Z :=
  status ← request_status h body;
  match status with
  | inl ret => mret ret
  | inr (status_code, status_string, handled) =>
      now ← gets cl_now;
      let resp := set_rp_date (now / 1000000) (set_rp_status_string (Some status_string)
        (set_rp_status_code status_code (set_rp_cseq (rq_cseq h) rtsp_response_header_clear))) in
      '(ret, text) ← write_in_buffer (rtsp_response_header_write resp);
      if ret <? 0 then mret ret
      else
        ignore (send_raw_buf text);;
        mret (if (handled : bool) then 0 else - ENOSYS)
  end.

(** ** Responses *)

(** The keep alive whose response this may be; it is sent again later. *)
Definition drop_keep_alive (session : ptr) : CM Z :=
  upd_csession session (set_cs_keep_alive_in_progress false);;
  s ← csession_at session;
  ignore (reset_keep_alive_timer session (s32 (cs_timeout_ms s / 2)));;
  mret 0.

Definition rtsp_client_response_process (h : rtsp_response_header) (body : bytes) : CM Z :=
  header ← gets cl_header;
  if negb (rp_cseq h =? rq_cseq header) then
    sessions ← gets cl_sessions;
    match List.find cs_keep_alive_in_progress sessions with
    | Some s => drop_keep_alive (cs_ptr s)
    | None => mret (- EPROTO)
    end
  else request_complete (Some h) body RTSP_CLIENT_REQ_STATUS_OK.

(** ** The messages of the server *)

Definition client_message (e : event) : CM unit :=
  match ev_type e, ev_header e, ev_interleaved e with
  | RTSP_MESSAGE_TYPE_INTERLEAVED, _, Some info =>
      when client_has_interleaved (ccallback (OnInterleavedData info))
  | RTSP_MESSAGE_TYPE_REQUEST, HeaderReq h, _ =>
      ignore (rtsp_client_request_process h (ev_body e))
  | RTSP_MESSAGE_TYPE_RESPONSE, HeaderResp h, _ =>
      ignore (rtsp_client_response_process h (ev_body e))
  | _, _, _ => skip
  end.

(** As in [Server.rtsp_server_pomp_cb], the messages are found first. *)
Definition tskt_client_data_cb (data : bytes) : CM unit :=
  buf ← gets cl_response_buf;
  ctx ← gets cl_parser_ctx;
  match data_cb buf ctx data with
  | None => undefined
  | Some (evs, _, buf', ctx') =>
      modify (fun cl => set_cl_parser_ctx ctx' (set_cl_response_buf buf' cl));;
      for_each client_message evs
  end.

(** ** Timers *)

(** The timers fire once: they are not set any more when their callback runs. *)
Definition rtsp_client_resp_timeout_cb : CM unit :=
  modify (set_cl_timer None);;
  ignore (request_complete None [] RTSP_CLIENT_REQ_STATUS_TIMEOUT).

Definition rtsp_client_pomp_timer_cb (session : ptr) : CM unit :=
  upd_csession session (set_cs_timer None);;
  ignore (send_keep_alive session RTSP_CLIENT_DEFAULT_RESP_TIMEOUT_MS).

(** ** Creation and destruction *)

Record client_args := ClientArgs {
  ca_loop : bool; ca_cbs : bool; ca_connection_state : bool; ca_session_removed : bool;
  ca_announce : bool; ca_ret_obj : bool
}.

(** [setup] holds the results of the calls that create the timers, the connection,
    the resolver and the buffers, in their order. *)
Definition rtsp_client_new (software_name : option cstr) (args : client_args) (setup : list Z)
    (now : Z) : res rtsp_client :=
  return_err_if (negb (ca_loop args)) EINVAL;;
  return_err_if (negb (ca_cbs args)) EINVAL;;
  return_err_if (negb (ca_connection_state args)) EINVAL;;
  return_err_if (negb (ca_session_removed args)) EINVAL;;
  return_err_if (negb (ca_announce args)) EINVAL;;
  return_err_if (negb (ca_ret_obj args)) EINVAL;;
  match List.find (fun ret => ret <? 0) setup with
  | Some ret => Err (- ret)
  | None =>
      Ok (Client (default (cs "librtsp_client") software_name) false None None
            (replicate (Z.to_nat CHANNELS) false) None None None (TlsState false false)
            RTSP_CLIENT_CONN_STATE_DISCONNECTED 1 0 [] 0 rtsp_request_header_clear false false
            None None 0 None [] ctx_init now O O [])
  end.

(** What the destruction does before the memory is freed. *)
Definition rtsp_client_destroy : CM unit :=
  modify (set_cl_timer None);;
  ignore tskt_client_stop;;
  rtsp_client_remove_all_sessions.

(** ** Runs of a client *)

Inductive client_step_event :=
| SocketConnected
| SocketDisconnected
| SocketReady
| SocketData (data : bytes)
| RequestTimer
| KeepAliveTimer (session : ptr)
| ResolvTimer
| Resolved (addr : option cstr)
| DoConnect (addr : option cstr)
| DoDisconnect
| DoRequest (c : client_call)
| DoCancel
| DoRemoveSession (session_id : option cstr)
| TimePasses (us : Z).

Definition client_handle (e : client_step_event) : CM unit :=
  match e with
  | SocketConnected => client_connected
  | SocketDisconnected => client_disconnected
  | SocketReady => client_ready_to_send
  | SocketData data => tskt_client_data_cb data
  | RequestTimer => rtsp_client_resp_timeout_cb
  | KeepAliveTimer session => rtsp_client_pomp_timer_cb session
  | ResolvTimer => modify (set_cl_resolv_timer None);; resolv_timer_cb
  | Resolved addr => tskt_resolv_cb addr
  | DoConnect addr => ignore (rtsp_client_connect addr)
  | DoDisconnect => ignore rtsp_client_disconnect
  | DoRequest c => ignore (run_client_call c)
  | DoCancel => ignore rtsp_client_cancel
  | DoRemoveSession session_id => ignore (rtsp_client_remove_session session_id)
  | TimePasses us => modify (fun cl => set_cl_now (cl_now cl + us) cl)
  end.

(** A timer fires when it is set; the connection event is raised while the client
    has no socket and its connection is being made. *)
Definition client_enabled (s : rtsp_client) (e : client_step_event) : Prop :=
  match e with
  | SocketConnected => cl_sock s = false
  | RequestTimer => is_Some (cl_timer s)
  | KeepAliveTimer p => is_Some (c ← find_obj cs_ptr p (cl_sessions s); cs_timer c)
  | ResolvTimer => is_Some (cl_resolv_timer s)
  | TimePasses us => 0 <= us
  | _ => True
  end.

#[export] Instance client_enabled_dec s e : Decision (client_enabled s e).
Proof. destruct e; cbn; apply _. Defined.

Inductive client_step : rtsp_client → client_step_event → rtsp_client → Prop :=
| ClientStep s e s' : client_enabled s e → client_handle e s = Some (tt, s') → client_step s e s'.

(** The clients that [rtsp_client_new] and any events lead to. *)
Inductive client_reachable : rtsp_client → Prop :=
| ClientReachNew software_name args setup now s :
    rtsp_client_new software_name args setup now = Ok s → client_reachable s
| ClientReachStep s e s' : client_reachable s → client_step s e s' → client_reachable s'.
End run.
