(* ===== verification/ClientSocket.v ===== *)
(** * The sockets of a client ([rtsp_client.c])

    The options that the application chooses for the socket of a client, and the
    callbacks of the transport that apply them to every socket that it creates. *)

From S2P Require Import Prelude CString CNumber Url ObjList StateMonad ClientState.
From stdpp Require Import options.

Local Open Scope Z_scope.

Definition UINT32_MAX : Z := 2 ^ 32 - 1.

(** What is called on a socket, and [socket_cb]. *)
Inductive socket_call :=
| SetRxbufSize (size : Z)
| GetRxbufSize
| SetTxbufSize (size : Z)
| GetTxbufSize
| SetClassSelector (class_selector : Z)
| SocketCb (fd : Z).

(** A client with its [sock_params] and the calls so far. *)
Record socket_client := SocketClient {
  so_client : rtsp_client;
  so_txbuf_size : Z;
  so_rxbuf_size : Z;
  so_class_selector : Z;
  so_calls : list socket_call
}.

(** [sock_params] of a new client: the memory is cleared, and the class selector
    set by [rtsp_client_new]. *)
Definition new_socket_client (client : rtsp_client) : socket_client :=
  SocketClient client 0 0 UINT32_MAX [].

Definition set_so_txbuf_size (x : Z) (s : socket_client) : socket_client :=
  SocketClient (so_client s) x (so_rxbuf_size s) (so_class_selector s) (so_calls s).
Definition set_so_rxbuf_size (x : Z) (s : socket_client) : socket_client :=
  SocketClient (so_client s) (so_txbuf_size s) x (so_class_selector s) (so_calls s).
Definition set_so_class_selector (x : Z) (s : socket_client) : socket_client :=
  SocketClient (so_client s) (so_txbuf_size s) (so_rxbuf_size s) x (so_calls s).
Definition set_so_calls (x : list socket_call) (s : socket_client) : socket_client :=
  SocketClient (so_client s) (so_txbuf_size s) (so_rxbuf_size s) (so_class_selector s) x.

(** The socket of libtransport-socket, by what was called before; the TLS socket
    that [ttls_socket_new_with_ctx] makes around it; whether the application has a
    [socket_cb]. *)
Class SocketEnv := {
  socket_result : list socket_call → Z;
  tls_socket : ptr → Z + ptr;
  has_socket_cb : bool
}.

Abbreviation KM := (ST socket_client).

Section socket.
Context `{SocketEnv}.

Definition socket_do (c : socket_call) : KM Z :=
  calls ← gets so_calls;
  modify (set_so_calls (calls ++ [c]));;
  mret (socket_result calls).

Definition set_socket_rxbuf_size : KM Z :=
  size ← gets so_rxbuf_size;
  if size =? 0 then mret 0
  else
    ret ← socket_do (SetRxbufSize size);
    if ret <? 0 then mret ret
    else
      ret ← socket_do GetRxbufSize;
      mret (if ret <? 0 then ret else if negb (ret =? u64 (2 * size)) then - ENOSYS else 0).

Definition set_socket_txbuf_size : KM Z :=
  size ← gets so_txbuf_size;
  if size =? 0 then mret 0
  else
    ret ← socket_do (SetTxbufSize size);
    if ret <? 0 then mret ret
    else
      ret ← socket_do GetTxbufSize;
      mret (if ret <? 0 then ret else if negb (ret =? u64 (2 * size)) then - ENOSYS else 0).

Definition set_socket_class_selector : KM Z :=
  class_selector ← gets so_class_selector;
  if class_selector =? UINT32_MAX then mret 0
  else
    ret ← socket_do (SetClassSelector class_selector);
    mret (if ret <? 0 then ret else 0).

Definition tskt_client_socket_created_cb (fd : Z) : KM unit :=
  ignore set_socket_rxbuf_size;;
  ignore set_socket_txbuf_size;;
  ignore set_socket_class_selector;;
  when has_socket_cb (calls ← gets so_calls; modify (set_so_calls (calls ++ [SocketCb fd]))).

(** The socket to use, [None] for a NULL. *)
Definition tskt_client_socket_upgrade_cb (sock : ptr) (client : rtsp_client) : option ptr :=
  match rtsp_url_get_scheme (cl_url client) with
  | RTSP_URL_SCHEME_TCP_TLS =>
      match tls_socket sock with
      | inl _ => None
      | inr tmp_sock => Some tmp_sock
      end
  | _ => Some sock
  end.

(** ** What the application calls *)

(** [apply] at once when there is a socket. *)
Definition when_socket (apply : KM Z) : KM Z :=
  client ← gets so_client;
  if negb (cl_sock client) then mret 0 else apply.

Definition rtsp_client_set_socket_txbuf_size (size : Z) : KM Z :=
  modify (set_so_txbuf_size size);; when_socket set_socket_txbuf_size.

Definition rtsp_client_set_socket_rxbuf_size (size : Z) : KM Z :=
  modify (set_so_rxbuf_size size);; when_socket set_socket_rxbuf_size.

Definition rtsp_client_set_socket_class_selector (class_selector : Z) : KM Z :=
  modify (set_so_class_selector class_selector);; when_socket set_socket_class_selector.

Definition rtsp_client_get_remote_url (client : option rtsp_client) : option rtsp_url :=
  client ≫= cl_url.
End socket.

(** ** Properties *)

Section properties.
Context `{SocketEnv}.

(** The options that [s] sets on a new socket, in their order. *)
Definition chosen_options (s : socket_client) : list socket_call :=
  (if so_rxbuf_size s =? 0 then [] else [SetRxbufSize (so_rxbuf_size s)]) ++
  (if so_txbuf_size s =? 0 then [] else [SetTxbufSize (so_txbuf_size s)]) ++
  (if so_class_selector s =? UINT32_MAX then [] else [SetClassSelector (so_class_selector s)]).

(** Those of the calls that set an option or call the application. *)
Definition effects (calls : list socket_call) : list socket_call :=
  omap (fun c => match c with GetRxbufSize | GetTxbufSize => None | _ => Some c end) calls.

(** [m] returns and has the effects [l], which [chosen] gives. *)
Definition applies (m : KM Z) (chosen : socket_client → list socket_call) : Prop :=
  ∀ s, ∃ r l, m s = Some (r, set_so_calls (so_calls s ++ l) s) ∧ effects l = chosen s.

Lemma same_calls s : set_so_calls (so_calls s ++ []) s = s.
Proof. rewrite app_nil_r. by destruct s. Qed.

Lemma rxbuf_applies :
  applies set_socket_rxbuf_size
    (fun s => if so_rxbuf_size s =? 0 then [] else [SetRxbufSize (so_rxbuf_size s)]).
Proof.
  intros s. unfold set_socket_rxbuf_size, socket_do, mbind, SM_bind, gets, modify, mret, SM_ret. destruct (_ =? 0).
  - exists 0, []. by rewrite same_calls.
  - destruct (socket_result _ <? 0); [by do 2 eexists|]. eexists. exists [SetRxbufSize (so_rxbuf_size s); GetRxbufSize].
    cbn. by rewrite <- app_assoc.
Qed.

Lemma txbuf_applies :
  applies set_socket_txbuf_size
    (fun s => if so_txbuf_size s =? 0 then [] else [SetTxbufSize (so_txbuf_size s)]).
Proof.
  intros s. unfold set_socket_txbuf_size, socket_do, mbind, SM_bind, gets, modify, mret, SM_ret. destruct (_ =? 0).
  - exists 0, []. by rewrite same_calls.
  - destruct (socket_result _ <? 0); [by do 2 eexists|]. eexists. exists [SetTxbufSize (so_txbuf_size s); GetTxbufSize].
    cbn. by rewrite <- app_assoc.
Qed.

Lemma class_selector_applies :
  applies set_socket_class_selector
    (fun s => if so_class_selector s =? UINT32_MAX then [] else [SetClassSelector (so_class_selector s)]).
Proof.
  intros s. unfold set_socket_class_selector, socket_do, mbind, SM_bind, gets, modify, mret, SM_ret. destruct (_ =? UINT32_MAX).
  - exists 0, []. by rewrite same_calls.
  - by do 2 eexists.
Qed.

(** Every socket that the transport creates gets each option that the application
    chose, once, with its value, and no other one, whatever becomes of the options
    before it; the application is then handed the socket, once; the client is the
    same, so that the next socket gets the same options. *)
Theorem socket_gets_options fd s :
  ∃ l, tskt_client_socket_created_cb fd s = Some (tt, set_so_calls (so_calls s ++ l) s) ∧
    effects l = chosen_options s ++ (if has_socket_cb then [SocketCb fd] else []).
Proof.
  unfold tskt_client_socket_created_cb.
  destruct (rxbuf_applies s) as (r1 & l1 & H1 & E1).
  set (s1 := set_so_calls (so_calls s ++ l1) s) in *.
  destruct (txbuf_applies s1) as (r2 & l2 & H2 & E2).
  set (s2 := set_so_calls (so_calls s1 ++ l2) s1) in *.
  destruct (class_selector_applies s2) as (r3 & l3 & H3 & E3).
  exists (l1 ++ l2 ++ l3 ++ if has_socket_cb then [SocketCb fd] else []). split.
  - eapply bind_intro; [exact (ignore_eq _ _ _ _ H1)|].
    eapply bind_intro; [exact (ignore_eq _ _ _ _ H2)|].
    eapply bind_intro; [exact (ignore_eq _ _ _ _ H3)|].
    unfold s2, s1, when, mbind, SM_bind, gets, modify. destruct has_socket_cb; cbn;
      rewrite ?app_nil_r, <- ?app_assoc; done.
  - unfold effects in *. rewrite !omap_app, E1, E2, E3. unfold chosen_options.
    rewrite <- !app_assoc. by destruct has_socket_cb.
Qed.
End properties.
