(* ===== verification/ClientSample.v ===== *)
(** * A concrete client

    An environment in which every call succeeds and an application that does what
    a function of the outputs says: the concrete inputs of the theorems on the
    client. *)

From S2P Require Import Prelude CString CNumber Writer Url Methods Transport AuthHeader Auth CFloat.
From S2P Require Import TimeRange Framing HeaderLine HeaderFields Request Response Message.
From S2P Require Import ObjList StateMonad ClientState ClientSession ClientRequest Client ClientRun.
From stdpp Require Import options.

Local Open Scope Z_scope.

Definition client_env (app : list client_output → list client_call) (sync : bool) : ClientEnv := {|
  client_md5 := md5_stub;
  client_nonce := fun _ => Ok (cs "0a4f113b0a4f113b");
  client_uninit := [];
  client_inet4 := fun _ => false;
  client_inet6 := fun _ => false;
  client_timer_set := fun _ => 0;
  client_send := fun _ _ => 0;
  client_connect := fun _ => 0;
  client_stop := fun _ => (0, sync);
  client_resolve := fun _ => 0;
  client_ttls_init := 0;
  client_ssl_ctx := true;
  client_app := app;
  client_has := fun _ => true;
  client_has_interleaved := true;
  client_has_ready_to_send := true;
  client_has_teardown := true
|}.

Definition idle_app (out : list client_output) : list client_call := [].

Definition client_all_args : client_args := ClientArgs true true true true true true.

Definition new_client : rtsp_client :=
  match rtsp_client_new None client_all_args [] 5000000 with
  | Ok s => s
  | _ => Client [] false None None [] None None None (TlsState false false) RTSP_CLIENT_CONN_STATE_DISCONNECTED
           0 0 [] 0 rtsp_request_header_clear false false None None 0 None [] ctx_init 0 0 0 []
  end.

(** Events one after the other, as long as they can happen. *)
Fixpoint client_run `{T : LocalTime} `{E : ClientEnv} (es : list client_step_event)
    (s : rtsp_client) : option rtsp_client :=
  match es with
  | [] => Some s
  | e :: es' =>
      if decide (client_enabled s e) then '(_, s') ← client_handle e s; client_run es' s'
      else None
  end.

Lemma client_run_reachable `{T : LocalTime} `{E : ClientEnv} es s s' :
  client_reachable s → client_run es s = Some s' → client_reachable s'.
Proof.
  revert s. induction es as [|e es IH]; intros s Hs; cbn; [by intros [= <-]|].
  destruct (decide _) as [He|]; [|done].
  destruct (client_handle e s) as [[[] s1]|] eqn:Hh; [|done]. cbn. apply IH.
  by eapply ClientReachStep; [exact Hs|].
Qed.

Lemma new_client_reachable `{T : LocalTime} `{E : ClientEnv} : client_reachable new_client.
Proof. apply (ClientReachNew None client_all_args [] 5000000). reflexivity. Qed.

(** The text of a response. *)
Definition response_text (status : string) (headers : list string) (body : string) : bytes :=
  cs "RTSP/1.0 " ++ cs status ++ CRLF
  ++ concat (map (fun l => cs l ++ CRLF) headers) ++ CRLF ++ cs body.

(** The client is connected to [url]. *)
Definition connected_to (url : string) : list client_step_event :=
  [DoConnect (Some (cs url)); Resolved (Some (cs "192.168.42.1")); SocketConnected].

(** The texts sent, in their order. *)
Definition client_texts (s : rtsp_client) : list string :=
  omap (fun o => match o with Sent text _ => Some (string_of_list_ascii text) | _ => None end)
    (cl_out s).

(** A run that ends in a client with [P]. *)
Definition client_ends_with `{T : LocalTime} `{E : ClientEnv} (es : list client_step_event)
    (s : rtsp_client) (P : rtsp_client → bool) : bool :=
  match client_run es s with Some s' => P s' | None => false end.

Lemma client_ends_with_run `{T : LocalTime} `{E : ClientEnv} es s P :
  client_ends_with es s P = true → ∃ s', client_run es s = Some s' ∧ P s' = true.
Proof. unfold client_ends_with. destruct (client_run es s) as [s'|]; [|done]. by exists s'. Qed.

Definition client_sample_url : string := "rtsp://192.168.42.1:554/live".

(** A SETUP request for the media [path] with interleaved channels that the client
    chooses, and the answer of a server that takes them. *)
Definition do_setup (path : string) (session_id : option cstr) : client_step_event :=
  DoRequest (CallSetup (Some (cs client_sample_url)) (Some (cs path)) session_id RTSP_DELIVERY_UNICAST
    RTSP_LOWER_TRANSPORT_TCP 0 0 RTSP_TRANSPORT_METHOD_PLAY None 0 0 4000).

Definition client_session_id : cstr := cs "12345678".

Definition setup_answer (cseq channels : string) : client_step_event :=
  SocketData (response_text "200 OK"
    [("CSeq: " ++ cseq)%string; "Session: 12345678;timeout=60"%string;
     ("Transport: RTP/AVP/TCP;unicast;interleaved=" ++ channels)%string] "").

(** Two medias are set up. *)
Definition setup_events : list client_step_event :=
  connected_to client_sample_url ++
  [do_setup "video" None; setup_answer "1" "0-1";
   do_setup "audio" (Some client_session_id); setup_answer "2" "2-3"].

