(* ===== verification/ClientLogic.v ===== *)
(** * The invariant of a client, and the rules to prove it

    [wf_client] is the consistency of the structures, [based X] says that the
    sessions outside [X] have a content base, [timed] that only a pending request
    has a timer, [told] that the application knows the state of the connection. *)

From S2P Require Import Prelude CString Methods Transport AuthHeader Request Response Message.
From S2P Require Import ObjList StateMonad ClientState ClientSession ClientRequest Client.
From stdpp Require Import options.

Local Open Scope Z_scope.

(** ** Accesses *)

Lemma preserves_csession_at (I : rtsp_client → Prop) p : preserves I (csession_at p).
Proof. apply preserves_bind; [apply preserves_gets|]. intros. apply preserves_deref. Qed.

#[export] Hint Resolve preserves_csession_at : keeps.

Lemma csession_at_inv p s a s' :
  csession_at p s = Some (a, s') → find_obj cs_ptr p (cl_sessions s) = Some a ∧ s' = s.
Proof. apply deref_inv. Qed.

Lemma upd_csession_inv p f s a s' :
  upd_csession p f s = Some (a, s') →
  is_Some (find_obj cs_ptr p (cl_sessions s)) ∧
  s' = set_cl_sessions (update_obj cs_ptr p f (cl_sessions s)) s.
Proof. intros (x & s1 & (H & ->)%csession_at_inv & [= _ <-])%bind_inv. by rewrite H. Qed.

(** ** The invariant *)

Definition client_id_key (s : rtsp_client_session) : cstr :=
  take RTSP_CLIENT_SESSION_ID_LENGTH (cs_id s).

(** A session with the addresses below [n] in use. *)
Record wf_csession (n : ptr) (s : rtsp_client_session) : Prop := WfCsession {
  wcs_addr : (cs_ptr s < n)%nat;
  wcs_count : cs_media_count s = u32 (Zlen (cs_medias s));
  wcs_medias : Forall (fun m => (cm_ptr m < n)%nat) (cs_medias s);
  wcs_media_addrs : NoDup (cm_ptr <$> cs_medias s);
  wcs_paths : NoDup (cm_path <$> cs_medias s)
}.

(** Ids and addresses are unique, the counts are right and there is a flag for
    each channel. *)
Record wf_client (s : rtsp_client) : Prop := WfClient {
  wcl_addrs : NoDup (cs_ptr <$> cl_sessions s);
  wcl_ids : NoDup (client_id_key <$> cl_sessions s);
  wcl_sessions : Forall (wf_csession (cl_next_ptr s)) (cl_sessions s);
  wcl_channels : length (cl_channel_used s) = 256%nat
}.

(** A challenge of the server has an authentication state. *)
Definition authed (s : rtsp_client) : Prop :=
  is_Some (cl_server_auth s) → is_Some (cl_auth s).

(** The sessions outside [X] have a content base, and so has a SETUP request. *)
Definition based (X : list ptr) (s : rtsp_client) : Prop :=
  Forall (fun c => cs_ptr c ∈ X ∨ is_Some (cs_content_base c)) (cl_sessions s).
Definition setup_based (s : rtsp_client) : Prop :=
  rq_method (cl_header s) = RTSP_METHOD_TYPE_SETUP → is_Some (cl_content_base s).

(** The timer is set only while a request is pending; [busy] when the request is
    being sent. *)
Definition timed (busy : bool) (s : rtsp_client) : Prop :=
  is_Some (cl_timer s) → busy || cl_is_pending s = true.

(** The states of the connection that the application was told, the first one
    being that of a new client. *)
Definition states_told (out : list client_output) : list rtsp_client_conn_state :=
  RTSP_CLIENT_CONN_STATE_DISCONNECTED
  :: omap (fun o => match o with OnConnectionState c => Some c | _ => None end) out.

(** No two neighbours are equal. *)
Definition changing (l : list rtsp_client_conn_state) : Prop :=
  ∀ i c c', l !! i = Some c → l !! S i = Some c' → c ≠ c'.

(** The last one is the state, and each was a change. *)
Record told (s : rtsp_client) : Prop := Told {
  told_state : last (states_told (cl_out s)) = Some (cl_conn_state s);
  told_changes : changing (states_told (cl_out s))
}.

Record cinv (X : list ptr) (busy : bool) (s : rtsp_client) : Prop := Cinv {
  cinv_wf : wf_client s;
  cinv_authed : authed s;
  cinv_based : based X s;
  cinv_setup : setup_based s;
  cinv_timed : timed busy s;
  cinv_told : told s
}.

Abbreviation client_inv := (cinv [] false).

(** ** Changes that keep it *)

Lemma wf_csession_le n n' s : (n <= n')%nat → wf_csession n s → wf_csession n' s.
Proof.
  intros Hn []. constructor; [lia|done| |done|done].
  eapply Forall_impl; [done|]. cbn. lia.
Qed.

(** The structures and the notifications have not changed. *)
Lemma cinv_frame X b b' s s' :
  cl_sessions s' = cl_sessions s → (cl_next_ptr s <= cl_next_ptr s')%nat →
  length (cl_channel_used s') = length (cl_channel_used s) →
  cl_conn_state s' = cl_conn_state s → states_told (cl_out s') = states_told (cl_out s) →
  (authed s → authed s') → (setup_based s → setup_based s') → (timed b s → timed b' s') →
  cinv X b s → cinv X b' s'.
Proof.
  intros E1 Hle E2 E3 E4 Ha Hb Ht [[? ? Hw ?] ? Hx ? ? []]. split; auto.
  - split; rewrite ?E1, ?E2; try done.
    eapply Forall_impl; [exact Hw|]. intros. by eapply wf_csession_le.
  - unfold based. by rewrite E1.
  - split; rewrite E4, ?E3; done.
Qed.

Lemma preserves_frame X b f :
  (∀ s, cl_sessions (f s) = cl_sessions s ∧ (cl_next_ptr s <= cl_next_ptr (f s))%nat ∧
    length (cl_channel_used (f s)) = length (cl_channel_used s) ∧
    cl_conn_state (f s) = cl_conn_state s ∧ states_told (cl_out (f s)) = states_told (cl_out s) ∧
    (authed s → authed (f s)) ∧ (setup_based s → setup_based (f s)) ∧
    (timed b s → timed b (f s))) →
  preserves (cinv X b) (modify f).
Proof.
  intros H. apply preserves_modify. intros s. destruct (H s) as (?&?&?&?&?&?&?&?).
  by apply cinv_frame.
Qed.

(** Closes the conditions of [preserves_frame] for the setters. *)
Ltac by_frame :=
  apply preserves_frame; intros [];
  unfold authed, setup_based, timed; cbn; split_and!; try done; try lia; eauto.

Lemma states_told_snoc out o :
  states_told (out ++ [o]) =
  states_told out ++ match o with OnConnectionState c => [c] | _ => [] end.
Proof. unfold states_told. rewrite omap_app. cbn. by destruct o. Qed.

Lemma changing_snoc l c d : last l = Some d → d ≠ c → changing l → changing (l ++ [c]).
Proof.
  intros Hl Hd Hc i c1 c2 H1 [H2|[Hi H2]]%lookup_app_Some.
  - rewrite lookup_app_l in H1; [by eapply Hc|]. apply lookup_lt_Some in H2. lia.
  - apply list_lookup_singleton_Some in H2 as [H2 <-].
    rewrite lookup_app_l in H1 by lia. rewrite last_lookup in Hl.
    replace (pred (length l)) with i in Hl by lia. congruence.
Qed.

Definition no_state_change (o : client_output) : Prop :=
  ∀ c, o ≠ OnConnectionState c.

Lemma keeps_client_event X b o : no_state_change o → preserves (cinv X b) (client_event o).
Proof.
  intros Ho. apply preserves_frame. intros s. cbn. split_and!; try done.
  rewrite states_told_snoc. destruct o; try apply app_nil_r. by destruct (Ho state).
Qed.

(** The new address is none of those in use. *)
Lemma calloc_triple X b : triple (cinv X b) calloc (fun p s => cinv X b s ∧
  (p < cl_next_ptr s)%nat ∧ Forall (wf_csession p) (cl_sessions s)).
Proof.
  intros s p s' H. unfold calloc. cbn. intros [= <- <-].
  split; [eapply cinv_frame; [..|exact H]; first [done|cbn; lia]|]. cbn.
  destruct H as [[]]. split; [lia|done].
Qed.

Lemma keeps_calloc X b : preserves (cinv X b) calloc.
Proof. eapply triple_weaken; [apply calloc_triple|done|]. by intros p s []. Qed.

Lemma keeps_set_header X b f :
  (∀ h, rq_method (f h) = RTSP_METHOD_TYPE_SETUP → rq_method h = RTSP_METHOD_TYPE_SETUP) →
  preserves (cinv X b) (set_header f).
Proof.
  intros Hf. apply preserves_frame. intros s. cbn. split_and!; try done.
  unfold setup_based. cbn. auto.
Qed.

(** *** Sessions *)

(** Nothing changes that identifies the session, nor its medias; a content base
    stays. *)
Definition cinert (f : rtsp_client_session → rtsp_client_session) : Prop :=
  ∀ s, cs_ptr (f s) = cs_ptr s ∧ cs_id (f s) = cs_id s ∧
       cs_media_count (f s) = cs_media_count s ∧ cs_medias (f s) = cs_medias s ∧
       (is_Some (cs_content_base s) → is_Some (cs_content_base (f s))).

(** An update of the medias of a session. *)
Lemma cinv_upd_medias X b p f s a s' :
  (∀ c, cs_ptr (f c) = cs_ptr c ∧ cs_id (f c) = cs_id c ∧ cs_content_base (f c) = cs_content_base c) →
  (∀ c, c ∈ cl_sessions s → cs_ptr c = p → wf_csession (cl_next_ptr s) (f c)) →
  cinv X b s → upd_csession p f s = Some (a, s') → cinv X b s'.
Proof.
  intros Hf Hwf [[] ? ? ? ? []] (_ & ->)%upd_csession_inv.
  constructor; try done; [constructor|]; cbn; try done.
  - rewrite update_obj_addr; [done|]. apply Hf.
  - rewrite (update_obj_fmap cs_ptr client_id_key); [done|].
    intros x. unfold client_id_key. by destruct (Hf x) as (_ & -> & _).
  - apply update_obj_Forall; [|done]. intros x Hx Hp _. by apply Hwf.
  - apply update_obj_Forall; [|done]. intros x _ _. by destruct (Hf x) as (-> & _ & ->).
Qed.

Lemma keeps_upd_csession X b p f : cinert f → preserves (cinv X b) (upd_csession p f).
Proof.
  intros Hf s a s' [[] ? ? ? ? []] (_ & ->)%upd_csession_inv.
  constructor; try done; [constructor|]; cbn; try done.
  - rewrite update_obj_addr; [done|]. intros x. apply Hf.
  - rewrite (update_obj_fmap cs_ptr client_id_key); [done|].
    intros x. unfold client_id_key. by destruct (Hf x) as (_ & -> & _).
  - apply update_obj_Forall; [|done]. intros x _ _ []. destruct (Hf x) as (E1 & _ & E2 & E3 & _).
    by constructor; rewrite ?E1, ?E2, ?E3.
  - apply update_obj_Forall; [|done]. intros x _ _ [H|H]; destruct (Hf x) as (E1 & _ & _ & _ & E2);
      rewrite E1; auto.
Qed.

(** Closes the condition of [keeps_upd_csession] for the setters. *)
Ltac by_csetter := apply keeps_upd_csession; intros []; cbn; split_and!; try done; auto.

#[export] Hint Resolve keeps_calloc : keeps.
