(* ===== verification/ClientInv.v ===== *)
(** * Every operation keeps the invariant of the client

    The functions called while a request is sent or completed keep
    [cinv X b] for any [X] and [b]; the calls of the application and the handlers
    of the events keep [client_inv]. *)

From S2P Require Import Prelude CString CNumber Writer Url Methods Transport AuthHeader Auth CFloat.
From S2P Require Import TimeRange Framing HeaderLine HeaderFields Request Response Message.
From S2P Require Import ObjList StateMonad ClientState ClientSession ClientRequest Client ClientRun.
From S2P Require Import ClientSample ClientLogic.
From stdpp Require Import options.

Local Open Scope Z_scope.

(** ** Sessions *)

Lemma keeps_client_session_find X b id : preserves (cinv X b) (rtsp_client_session_find id).
Proof. unfold rtsp_client_session_find. keep. Qed.

Lemma keeps_client_media_find X b p path : preserves (cinv X b) (rtsp_client_session_media_find p path).
Proof. unfold rtsp_client_session_media_find. keep. Qed.

#[export] Hint Resolve keeps_client_session_find keeps_client_media_find : keeps.

Lemma client_session_find_inv id s p s' :
  rtsp_client_session_find (Some id) s = Some (p, s') →
  s' = s ∧ match p with
           | Some p => ∃ c, c ∈ cl_sessions s ∧ cs_ptr c = p ∧ same_client_id (cs_id c) id = true
           | None => Forall (fun c => same_client_id (cs_id c) id = false) (cl_sessions s)
           end.
Proof.
  intros [= <- <-]. split; [done|].
  destruct (List.find _ _) as [c|] eqn:Hc; cbn.
  - apply find_some in Hc as [Hin Hid]. exists c. by rewrite list_elem_of_In.
  - apply Forall_forall. intros c Hin. apply (find_none _ _ Hc). by apply list_elem_of_In.
Qed.

(** A session without medias, which is not one of those that have a base. *)
Lemma cinv_add_session X b s c :
  (cs_ptr c < cl_next_ptr s)%nat → Forall (wf_csession (cs_ptr c)) (cl_sessions s) →
  Forall (fun c' => same_client_id (cs_id c') (cs_id c) = false) (cl_sessions s) →
  cs_medias c = [] → cs_media_count c = 0 → cinv X b s →
  cinv (cs_ptr c :: X) b (set_cl_sessions (cl_sessions s ++ [c]) s).
Proof.
  intros Hlt Hnew Hid Hm Hc [[Ha Hi Hw ?] ? Hx ? ? []]. split; try done.
  - split; cbn; try done.
    + rewrite fmap_app. apply NoDup_snoc; [done|]. intros (c' & Hp & Hin)%list_elem_of_fmap.
      rewrite Forall_forall in Hnew. destruct (Hnew c' Hin). lia.
    + rewrite fmap_app. apply NoDup_snoc; [done|]. intros (c' & Hk & Hin)%list_elem_of_fmap.
      rewrite Forall_forall in Hid. specialize (Hid c' Hin).
      by apply bool_decide_eq_false in Hid.
    + apply Forall_app. split; [done|]. apply Forall_singleton.
      split; rewrite ?Hm, ?Hc; try done; constructor.
  - unfold based. cbn. apply Forall_app. split.
    + eapply Forall_impl; [exact Hx|]. intros c' [?|?]; [left; by right|by right].
    + apply Forall_singleton. left. left.
Qed.

Lemma cinv_weaken X p b s : cinv X b s → cinv (p :: X) b s.
Proof.
  intros [? ? Hx ? ? ?]. split; try done. eapply Forall_impl; [exact Hx|].
  intros c' [?|?]; [left; by right|by right].
Qed.

(** The session that is found or created is the only one that may have no base. *)
Lemma get_session_triple b id add :
  triple (cinv [] b) (rtsp_client_get_session id add)
    (fun p s => cinv (match p with Some p => [p] | None => [] end) b s ∧
                (add = false → cinv [] b s)).
Proof.
  unfold rtsp_client_get_session. destruct id as [id|]; [|by apply triple_ret].
  intros s p s' Hs (found & s1 & [-> Hf]%client_session_find_inv & H)%bind_inv.
  destruct found as [p1|]; [injection H as <- <-; split; [by apply cinv_weaken|done]|].
  destruct add; [|injection H as <- <-; by split].
  apply bind_inv in H as (p1 & s2 & Hp & H).
  assert (cl_sessions s2 = cl_sessions s) as E by by injection Hp as _ <-.
  destruct (calloc_triple _ _ _ _ _ Hs Hp) as (Hs2 & Hlt & Hnew).
  injection H as <- <-. split; [|done].
  apply (cinv_add_session [] b s2 (ClientSession p1 id None None 0 0 false false 0 []));
    cbn; rewrite ?E in *; done.
Qed.

Lemma keeps_get_session b id : preserves (cinv [] b) (rtsp_client_get_session id false).
Proof. eapply triple_weaken; [apply get_session_triple|done|]. intros p s []. auto. Qed.

#[export] Hint Resolve keeps_get_session : keeps.

(** One media more, one less. *)
Lemma wf_add_media n m c :
  wf_csession (cm_ptr m) c → (cm_ptr m < n)%nat → cm_path m ∉ cm_path <$> cs_medias c →
  wf_csession n (set_cs_media_count (u32 (cs_media_count c + 1))
                   (set_cs_medias (cs_medias c ++ [m]) c)).
Proof.
  intros [Ha Hc Hm Hn Hp] Hlt Hpath. split; cbn.
  - lia.
  - rewrite Hc, Zlen_app. unfold wrapu. by rewrite Zplus_mod_idemp_l.
  - apply Forall_app. split; [|by apply Forall_singleton].
    eapply Forall_impl; [exact Hm|]. cbn. lia.
  - rewrite fmap_app. apply NoDup_snoc; [done|]. intros (m' & Heq & Hin)%list_elem_of_fmap.
    eapply Forall_forall in Hm; [|exact Hin]. cbn in Hm. lia.
  - rewrite fmap_app. by apply NoDup_snoc.
Qed.

Lemma wf_del_media n p c :
  wf_csession n c → p ∈ cm_ptr <$> cs_medias c →
  wf_csession n (set_cs_media_count (u32 (cs_media_count c - 1))
                   (set_cs_medias (delete_obj cm_ptr p (cs_medias c)) c)).
Proof.
  intros [Ha Hc Hm Hn Hp] Hin. split; cbn; [done| |by apply delete_obj_Forall|..].
  - rewrite Hc, delete_obj_length by done. unfold wrapu. by rewrite Zminus_mod_idemp_l.
  - by apply delete_obj_NoDup.
  - by apply delete_obj_NoDup.
Qed.

Lemma keeps_client_media_add X b session path pair :
  preserves (cinv X b) (rtsp_client_session_media_add session path pair).
Proof.
  unfold rtsp_client_session_media_add. destruct session as [p|], path as [path|]; try by keep.
  intros s r s' Hs (found & s1 & (c & s2 & (Hc & ->)%csession_at_inv & Hr)%bind_inv & H)%bind_inv.
  injection Hr as <- <-. destruct (List.find _ _) eqn:Hfind; [by injection H as _ <-|].
  apply bind_inv in H as (m & s2 & Hm & H).
  assert (cl_sessions s2 = cl_sessions s) as E by by injection Hm as _ <-.
  destruct (calloc_triple _ _ _ _ _ Hs Hm) as (Hs2 & Hlt & Hnew).
  apply bind_inv in H as (u & s3 & Hu & [= _ <-]).
  eapply cinv_upd_medias; [..|exact Hs2|exact Hu]; [done|]. intros c' Hc' Hp. rewrite E in Hc'.
  assert (c' = c) as -> by (eapply find_obj_unique; [apply Hs|..]; done).
  apply (wf_add_media _ (ClientMedia m path (default (ChannelPair 0 0) pair)));
    [rewrite Forall_forall in Hnew; apply Hnew; by rewrite E|done|].
  intros (m' & Heq & Hm')%list_elem_of_fmap. apply list_elem_of_In in Hm'.
  apply (find_none _ _ Hfind) in Hm'. by apply bool_decide_eq_false in Hm'.
Qed.

Lemma keeps_client_media_remove X b p m : preserves (cinv X b) (rtsp_client_session_media_remove p m).
Proof.
  intros s r s' Hs (c & s1 & (Hc & ->)%csession_at_inv & H)%bind_inv.
  case_bool_decide as Hm; [|by injection H as _ <-].
  apply bind_inv in H as (u & s2 & Hu & [= _ <-]).
  eapply cinv_upd_medias; [..|exact Hs|exact Hu]; [done|]. intros c' Hc' Hp.
  assert (c' = c) as -> by (eapply find_obj_unique; [apply Hs|..]; done).
  apply wf_del_media; [|done]. destruct Hs as [[? ? Hw ?] _ _ _ _ _].
  by eapply Forall_forall in Hw.
Qed.

#[export] Hint Resolve keeps_client_media_add keeps_client_media_remove : keeps.

(** ** Channels *)

Lemma set_channel_pair_used_length l pair b : length (set_channel_pair_used l pair b) = length l.
Proof.
  unfold set_channel_pair_used, set_used. case_match; [|done]. by rewrite !length_insert.
Qed.

Lemma keeps_channels X b f :
  (∀ s, length (f s) = length (cl_channel_used s)) →
  preserves (cinv X b) (modify (fun s => set_cl_channel_used (f s) s)).
Proof. intros Hf. apply preserves_frame. intros s. cbn. by rewrite Hf. Qed.

Lemma keeps_allocate X b pair : preserves (cinv X b) (allocate_interleaved_channels pair).
Proof.
  assert (∀ (p : rtsp_channel_pair) (r : res rtsp_channel_pair) s used,
    used = cl_channel_used s → ∀ a s',
    (modify (fun cl => set_cl_channel_used (set_channel_pair_used used p true) cl);; mret r) s
      = Some (a, s') → cinv X b s → cinv X b s') as Huse.
  { intros p r s used -> a s' [= <- <-] Hs. eapply cinv_frame; [..|exact Hs]; try done.
    apply set_channel_pair_used_length. }
  unfold allocate_interleaved_channels. apply triple_gets. intros s Hs a s'. cbv zeta.
  repeat case_match; try by intros [= <- <-].
  - intros Hk. by eapply Huse.
  - intros (i & s1 & [_ ->]%deref_inv & Hk)%bind_inv. by eapply Huse.
Qed.

Lemma keeps_release X b pair : preserves (cinv X b) (release_channels pair).
Proof.
  unfold release_channels. keep. apply keeps_channels. intros. apply set_channel_pair_used_length.
Qed.

Lemma keeps_update_channels X b requested returned :
  preserves (cinv X b) (update_interleaved_channels requested returned).
Proof.
  unfold update_interleaved_channels.
  keep; apply keeps_channels; intros; apply set_channel_pair_used_length.
Qed.

#[export] Hint Resolve keeps_allocate keeps_release keeps_update_channels : keeps.

(** ** Requests *)

Section request.
Context `{T : LocalTime} `{E : ClientEnv}.

Lemma keeps_send_raw_buf X b text : preserves (cinv X b) (send_raw_buf text).
Proof. unfold send_raw_buf. keep. by apply keeps_client_event. Qed.

Lemma keeps_write_in_buffer X b w : preserves (cinv X b) (write_in_buffer w).
Proof. unfold write_in_buffer. keep. Qed.


Lemma keeps_clear_pending X b : preserves (cinv X b) clear_pending_keep_alive_timer.
Proof. unfold clear_pending_keep_alive_timer. keep. by_frame. Qed.

Lemma keeps_reset_timer X b p ms : preserves (cinv X b) (reset_keep_alive_timer p ms).
Proof. unfold reset_keep_alive_timer. keep; by_csetter. Qed.

Lemma keeps_generate X b : preserves (cinv X b) generate_authorization_header.
Proof.
  unfold generate_authorization_header. keep; by_frame.
Qed.

Hint Resolve keeps_send_raw_buf keeps_write_in_buffer keeps_clear_pending keeps_reset_timer
  keeps_generate : keeps.

Lemma keeps_may_request X b : preserves (cinv X b) may_request.
Proof. unfold may_request. keep. Qed.

Lemma keeps_method_allowed X b flag : preserves (cinv X b) (method_allowed flag).
Proof. unfold method_allowed. keep. Qed.

Hint Resolve keeps_may_request keeps_method_allowed : keeps.

Lemma cinv_busy X b s : cinv X b s → cinv X true s.
Proof. intros []. by split. Qed.

(** A timer that was set is that of a request that is being sent. *)
Lemma set_request_timer_triple X ms :
  triple (cinv X false) (set_request_timer ms)
    (fun r s => cinv X true s ∧ (r < 0 → cinv X false s)).
Proof.
  intros s r s' Hs (u & s1 & Hu & [= <- <-])%bind_inv.
  destruct (client_timer_set ms <? 0) eqn:Hr; injection Hu as _ <-.
  - split; [by eapply cinv_busy|done].
  - split; [|lia]. by eapply cinv_frame; [..|exact Hs].
Qed.

Lemma send_client_request_triple X content ms :
  triple (cinv X false) (send_client_request content ms)
    (fun r s => cinv X true s ∧ (r < 0 → cinv X false s)).
Proof.
  intros s r s' Hs (header & s1 & [= <- <-] & H)%bind_inv.
  apply bind_inv in H as ([res text] & s2 & Hw & H).
  pose proof (preserves_run _ _ _ _ _ (keeps_write_in_buffer _ _ _) Hs Hw) as Hs2.
  destruct (res <? 0); [injection H as <- <-; split; [by eapply cinv_busy|done]|].
  apply bind_inv in H as (res' & s3 & Hsend & H).
  pose proof (preserves_run _ _ _ _ _ (keeps_send_raw_buf _ _ _) Hs2 Hsend) as Hs3.
  destruct (res' <? 0); [injection H as <- <-; split; [by eapply cinv_busy|done]|].
  destruct (0 <? ms); [|injection H as <- <-; split; [by eapply cinv_busy|done]].
  apply bind_inv in H as (ret & s4 & Ht & [= <- <-]).
  destruct (set_request_timer_triple _ _ _ _ _ Hs3 Ht) as [? Hf]. split; [done|].
  intros Hr. apply Hf. by destruct (ret <? 0) eqn:?; [lia|].
Qed.

Lemma request_sent_triple X : triple (cinv X true) request_sent (fun _ => cinv X false).
Proof. intros s [] s' Hs [= <-]. by eapply cinv_frame; [..|exact Hs]. Qed.

Lemma keeps_copy_ext h ext n h' :
  rtsp_request_header_copy_ext h ext n = Ok h' → rq_method h' = rq_method h.
Proof. unfold rtsp_request_header_copy_ext. destruct (copy_exts _ _ _); [by intros [= <-]|done..]. Qed.

Lemma keeps_submit X ext n content ms : preserves (cinv X false) (submit_request ext n content ms).
Proof.
  unfold submit_request. apply triple_gets. intros s Hs.
  destruct (rtsp_request_header_copy_ext _ _ _) as [h|e|] eqn:Hc;
    [|by intros ? ? [= _ <-]|done].
  intros r s' (u & s1 & [= _ <-] & H)%bind_inv. apply bind_inv in H as (res & s2 & Hsend & H).
  assert (cinv X false (set_cl_header h s)) as Hs1.
  { eapply cinv_frame; [..|exact Hs]; try done. unfold setup_based. cbn.
    by rewrite (keeps_copy_ext _ _ _ _ Hc). }
  destruct (send_client_request_triple X _ _ _ _ _ Hs1 Hsend) as [Hb Hf].
  destruct (res <? 0) eqn:Hr; [injection H as <- <-; auto with lia|].
  apply bind_inv in H as (u' & s3 & Hu & [= <- <-]). by eapply request_sent_triple.
Qed.

Hint Resolve keeps_submit : keeps.

Lemma keeps_new_header X b method userdata :
  method ≠ RTSP_METHOD_TYPE_SETUP → preserves (cinv X b) (new_header method userdata).
Proof. intros Hm. unfold new_header. keep; [by apply keeps_set_header|by_frame|by apply keeps_set_header]. Qed.

Lemma keeps_authorize X b optional rest :
  preserves (cinv X b) rest → preserves (cinv X b) (authorize optional rest).
Proof.
  intros H. unfold authorize, number_header, sign_header. keep; by apply keeps_set_header.
Qed.

Lemma keeps_check_method X b method flag rest :
  preserves (cinv X b) rest → preserves (cinv X b) (check_method method flag rest).
Proof. intros H. unfold check_method. keep. Qed.

Hint Extern 1 (preserves (cinv _ _) (set_header _)) => by apply keeps_set_header : keeps.
Hint Extern 1 (preserves (cinv _ _) (new_header _ _)) => by apply keeps_new_header : keeps.

(** Through the steps that all requests have. *)
Ltac request_keep :=
  repeat first [apply keeps_check_method | apply keeps_authorize | keep_step].

Lemma keeps_make_uri X b path : preserves (cinv X b) (make_uri path).
Proof. unfold make_uri. keep. Qed.

Hint Resolve keeps_make_uri : keeps.

Lemma keeps_options ext n u t : preserves client_inv (rtsp_client_options ext n u t).
Proof. unfold rtsp_client_options, number_header, sign_header. request_keep. Qed.

Lemma keeps_describe path ext n u t : preserves client_inv (rtsp_client_describe path ext n u t).
Proof. unfold rtsp_client_describe. request_keep. Qed.

Lemma keeps_announce path sd ext n u t :
  preserves client_inv (rtsp_client_announce path sd ext n u t).
Proof. unfold rtsp_client_announce. request_keep. Qed.

Lemma keeps_request_on_session method id uri fill ext n u t :
  method ≠ RTSP_METHOD_TYPE_SETUP → (∀ h, rq_method (fill h) = rq_method h) →
  preserves client_inv (request_on_session method id uri fill ext n u t).
Proof.
  intros Hm Hf. unfold request_on_session. request_keep.
  apply keeps_set_header. intros h. by rewrite Hf.
Qed.

Hint Extern 1 (preserves (cinv _ _) (request_on_session _ _ _ _ _ _ _ _)) =>
  by apply keeps_request_on_session : keeps.

Lemma keeps_client_send_teardown url id ext n u t internal :
  preserves client_inv (send_teardown url id ext n u t internal).
Proof. unfold send_teardown. request_keep; [by_csetter|by_frame]. Qed.

(** *** SETUP *)

Lemma keeps_fill_transport X b lower delivery method p1 p2 :
  preserves (cinv X b) (fill_transport lower delivery method p1 p2).
Proof. unfold fill_transport, set_transport. keep. Qed.

Hint Resolve keeps_fill_transport : keeps.

Lemma keeps_setup_request base url id delivery lower p1 p2 method ext n u t :
  preserves client_inv
    (setup_request base (Some url) id delivery lower p1 p2 method ext n u t).
Proof.
  unfold setup_request.
  assert (format_request_uri (Some base) (Some url) =
          Ok (if is_rtsp_uri url then url else join_uri base url)) as ->
    by (unfold format_request_uri; by case_match).
  intros s r s' Hs (u1 & s1 & [= _ <-] & (u2 & s2 & [= _ <-] & (u3 & s3 & [= _ <-] & H)%bind_inv)%bind_inv)%bind_inv.
  revert H. apply (preserves_bind client_inv); [|intros _; request_keep|]; [keep|].
  eapply cinv_frame; [..|exact Hs]; try done. unfold setup_based. by cbn.
Qed.

Lemma keeps_setup base url id delivery lower p1 p2 method ext n u t :
  preserves client_inv (rtsp_client_setup base url id delivery lower p1 p2 method ext n u t).
Proof.
  unfold rtsp_client_setup, check_setup_session.
  destruct base as [[|? ?]|]; try by keep. destruct url as [[|? ?]|]; try by keep.
  request_keep. apply keeps_setup_request.
Qed.

Lemma keeps_run_client_call c : preserves client_inv (run_client_call c).
Proof.
  destruct c; cbn [run_client_call].
  - apply keeps_options.
  - apply keeps_describe.
  - apply keeps_announce.
  - apply keeps_setup.
  - unfold rtsp_client_play. request_keep.
  - unfold rtsp_client_pause. request_keep.
  - unfold rtsp_client_record. request_keep.
  - apply keeps_client_send_teardown.
  - unfold rtsp_client_send_interleaved. keep.
Qed.

Lemma keeps_ccallback o : no_state_change o → preserves client_inv (ccallback o).
Proof.
  intros Ho. unfold ccallback. apply preserves_bind; [by apply keeps_client_event|]. keep.
  apply keeps_run_client_call.
Qed.
End request.

#[export] Hint Resolve keeps_send_raw_buf keeps_write_in_buffer keeps_clear_pending keeps_reset_timer
  keeps_generate keeps_may_request keeps_method_allowed keeps_submit keeps_make_uri
  keeps_client_send_teardown keeps_run_client_call : keeps.
#[export] Hint Extern 1 (preserves (cinv _ _) (ccallback _)) => by apply keeps_ccallback : keeps.

(** ** Completion of the requests and connection *)

Section client.
Context `{T : LocalTime} `{E : ClientEnv}.

(** The state changes and the application is told. *)
Lemma cinv_new_state s c :
  cl_conn_state s ≠ c → client_inv s →
  client_inv (set_cl_out (cl_out s ++ [OnConnectionState c]) (set_cl_conn_state c s)).
Proof.
  intros Hc [[] ? ? ? ? [Hlast Hchg]]. split; try done; split; try done;
    cbn [cl_out set_cl_out]; rewrite states_told_snoc.
  - apply last_snoc.
  - by eapply changing_snoc.
Qed.

Lemma keeps_set_connection_state c : preserves client_inv (set_connection_state c).
Proof.
  unfold set_connection_state. apply triple_gets. intros s Hs b s'. cbv beta.
  case_bool_decide as Hc; cbn [negb when]; [by intros [= _ <-]|].
  intros (u & s1 & [= _ <-] & (u2 & s2 & [= _ <-] & H)%bind_inv)%bind_inv. revert H.
  apply (preserves_bind client_inv); [apply preserves_gets| |by apply cinv_new_state].
  intros out. keep.
Qed.

Lemma keeps_clear_remote_info : preserves client_inv clear_remote_info.
Proof. unfold clear_remote_info. by_frame. Qed.

Hint Resolve keeps_set_connection_state keeps_clear_remote_info : keeps.

Lemma cinv_delete_session b p s :
  cinv [] b s → cinv [] b (set_cl_sessions (delete_obj cs_ptr p (cl_sessions s)) s).
Proof.
  intros [[? ? Hw ?] ? Hx ? ? []]. split; try done; [|by apply delete_obj_Forall].
  split; cbn; try done; try by apply delete_obj_NoDup. by apply delete_obj_Forall.
Qed.

Lemma keeps_remove_session id status ok :
  preserves client_inv (rtsp_client_remove_session_internal id status ok).
Proof.
  unfold rtsp_client_remove_session_internal. keep.
  apply preserves_modify. intros s. apply cinv_delete_session.
Qed.

Hint Resolve keeps_remove_session : keeps.

Lemma keeps_addrs : preserves client_inv csession_addrs.
Proof. unfold csession_addrs. keep. Qed.

Hint Resolve keeps_addrs : keeps.

Lemma keeps_remove_all : preserves client_inv rtsp_client_remove_all_sessions.
Proof. unfold rtsp_client_remove_all_sessions. keep. Qed.

Hint Resolve keeps_remove_all : keeps.

(** *** Keep alive *)

Lemma keeps_keep_alive_request p ms : preserves client_inv (keep_alive_request p ms).
Proof.
  unfold keep_alive_request. apply preserves_bind; [keep|]. intros c.
  apply preserves_bind; [keep; by apply keeps_set_header|]. intros _.
  apply preserves_bind; [by apply keeps_set_header|]. intros _.
  apply keeps_authorize. apply preserves_bind; [by apply keeps_set_header|]. intros _.
  intros s r s' Hs (res & s1 & Hsend & H)%bind_inv.
  destruct (send_client_request_triple _ _ _ _ _ _ Hs Hsend) as [Hb Hf].
  apply bind_inv in H as (res' & s2 & Hres & H).
  assert (cinv [] true s2 ∧ (res' < 0 → client_inv s2)) as [Hb2 Hf2].
  { destruct (res =? - EAGAIN) eqn:Hr; [|by injection Hres as <- <-].
    eapply set_request_timer_triple; [|exact Hres]. apply Hf. unfold EAGAIN in Hr. lia. }
  destruct (res' <? 0) eqn:Hr; [injection H as <- <-; auto with lia|].
  apply bind_inv in H as (u & s3 & Hu & H). apply bind_inv in H as (u' & s4 & Hu' & [= <- <-]).
  eapply request_sent_triple; [|exact Hu']. eapply preserves_run; [|exact Hb2|exact Hu]. by_csetter.
Qed.

Lemma keeps_keep_alive_failed p : preserves client_inv (keep_alive_failed p).
Proof. unfold keep_alive_failed. keep. by_csetter. Qed.

Hint Resolve keeps_keep_alive_request keeps_keep_alive_failed : keeps.

Lemma keeps_send_keep_alive p ms : preserves client_inv (send_keep_alive p ms).
Proof. unfold send_keep_alive. keep. Qed.

Hint Resolve keeps_send_keep_alive : keeps.

(** *** Completion *)

Lemma keeps_setup_complete session id uri pair status h u :
  preserves client_inv (setup_request_complete session id uri pair status h u).
Proof. unfold setup_request_complete. keep. Qed.

Lemma keeps_teardown_complete session id uri status h u removed :
  preserves client_inv (teardown_request_complete session id uri status h u removed).
Proof. unfold teardown_request_complete. keep; first [by_frame|by_csetter]. Qed.

Lemma keeps_keep_alive_complete session status :
  preserves client_inv (keep_alive_complete session status).
Proof. unfold keep_alive_complete. keep; by_csetter. Qed.

Hint Resolve keeps_setup_complete keeps_teardown_complete keeps_keep_alive_complete : keeps.

Lemma keeps_method_complete method session id uri pair status h body u removed :
  preserves client_inv
    (method_complete method session id uri pair status h body u removed).
Proof.
  unfold method_complete, play_request_complete, pause_request_complete. keep. by_frame.
Qed.

Hint Resolve keeps_method_complete : keeps.

Lemma keeps_update_auth server : preserves client_inv (update_auth_from_server server).
Proof.
  unfold update_auth_from_server. destruct server as [server|]; [|keep].
  intros s r s' Hs (u & s1 & [= _ <-] & (auth & s2 & [= <- <-] & (url & s3 & [= <- <-] & H)%bind_inv)%bind_inv)%bind_inv.
  cbn in H. repeat case_match; try done; injection H as _ <-;
    (eapply cinv_frame; [..|exact Hs]; try done; unfold authed; cbn; eauto).
Qed.

(** With [busy] for the time that the request is not pending any more. *)
Lemma keeps_reset_request : preserves client_inv reset_request.
Proof.
  intros s r s' Hs [= _ <-]. eapply cinv_frame; [..|exact Hs]; try done.
  unfold timed. cbn. by intros _ [].
Qed.

Lemma keeps_forget_auth h : preserves client_inv (forget_auth h).
Proof. unfold forget_auth. keep. by_frame. Qed.

Lemma keeps_requested_channels h : preserves client_inv (requested_channels h).
Proof. unfold requested_channels. keep. Qed.

Hint Resolve keeps_update_auth keeps_reset_request keeps_forget_auth keeps_requested_channels : keeps.
(** What the request that is completed has left: its method, and the content
    base [base]. *)
Definition completing (base : option cstr) (s : rtsp_client) : Prop :=
  rq_method (cl_header s) = RTSP_METHOD_TYPE_UNKNOWN ∧ cl_content_base s = base.

Lemma completing_modify base f :
  (∀ s, rq_method (cl_header (f s)) = rq_method (cl_header s) ∧
        cl_content_base (f s) = cl_content_base s) →
  preserves (completing base) (modify f).
Proof. intros H. apply preserves_modify. intros s. unfold completing. by destruct (H s) as [-> ->]. Qed.

Lemma completing_upd_csession base p f : preserves (completing base) (upd_csession p f).
Proof. unfold upd_csession. keep. by apply completing_modify. Qed.

Hint Resolve completing_upd_csession : keeps.

Lemma completing_reset_timer base p ms : preserves (completing base) (reset_keep_alive_timer p ms).
Proof. unfold reset_keep_alive_timer. keep. Qed.

Lemma completing_get_session base id add :
  preserves (completing base) (rtsp_client_get_session id add).
Proof. unfold rtsp_client_get_session, rtsp_client_session_find, calloc. keep; by apply completing_modify. Qed.

(** The content base is that of the session now. *)
Lemma take_base_triple p base :
  triple (fun s => (cinv [p] false s ∧ (base = None → client_inv s)) ∧ completing base s)
    (upd_csession p (take_base base);; modify (set_cl_content_base None))
    (fun _ => client_inv).
Proof.
  intros s r s' [[Hp Hnone] [Hm _]] (u & s1 & Hu & [= <- <-])%bind_inv.
  assert (client_inv s1 ∧ cl_header s1 = cl_header s) as [Hs1 Hh].
  { pose proof Hu as (_ & E1)%upd_csession_inv. split; [|by rewrite E1].
    destruct base as [base|].
    - assert (cinv [p] false s1) as [? ? ? ? ? ?].
      { eapply preserves_run; [|exact Hp|exact Hu]. apply keeps_upd_csession. intros [? ? ? [] ? ? ? ? ? ?]; cbn; eauto 6. }
      split; try done. subst s1. unfold based. cbn. destruct Hp as [[] _ Hx _ _ _].
      apply update_obj_Forall_at; [done|..]; intros c Hc Hcp; right.
      + unfold take_base. destruct (cs_content_base c) eqn:Hb; [by rewrite Hb|done].
      + unfold based in Hx. rewrite Forall_forall in Hx. by destruct (Hx c Hc) as [?%list_elem_of_singleton|?].
    - eapply preserves_run; [|by apply Hnone|exact Hu]. apply keeps_upd_csession. by intros []. }
  eapply cinv_frame; [..|exact Hs1]; try done. unfold setup_based. cbn. by rewrite Hh, Hm.
Qed.

Lemma keeps_complete_session base method id h :
  (method = RTSP_METHOD_TYPE_SETUP → is_Some base) →
  triple (fun s => client_inv s ∧ completing base s) (complete_session method id h)
    (fun _ => client_inv).
Proof.
  intros Hbase. unfold complete_session. destruct id as [id|]; [|apply triple_ret; by intros s []].
  eapply triple_bind with (Q := fun p s => (cinv (match p with Some p => [p] | None => [] end) false s ∧
    (base = None → client_inv s)) ∧ completing base s).
  { intros s p s' [Hs Hc] H. split; [|by eapply completing_get_session].
    destruct (get_session_triple _ _ _ _ _ _ Hs H) as [? Hadd]. split; [done|].
    intros ->. apply Hadd. apply bool_decide_eq_false. intros Hm. by destruct (Hbase Hm). }
  intros [p|]; [|apply triple_ret; by intros s [[] _]]. cbv zeta.
  assert (∀ A (m : CM A), (∀ X, preserves (cinv X false) m) → preserves (completing base) m →
    preserves (fun s => (cinv [p] false s ∧ (base = None → client_inv s)) ∧ completing base s) m)
    as Hkeep by (intros A m H1 H2; by apply preserves_and; [apply preserves_and; [|apply preserves_impl]|]).
  eapply triple_bind; [apply Hkeep; [intros X; by_csetter|keep]|]. intros [].
  eapply triple_bind; [apply Hkeep; [intros X; keep|apply preserves_ignore, completing_reset_timer]|].
  intros []. apply triple_gets. intros s Hs. pose proof Hs as [_ [_ Hb]]. rewrite Hb.
  intros r s' (u & s1 & Hu & (u2 & s2 & H2 & [= _ <-])%bind_inv)%bind_inv.
  eapply (take_base_triple p base); [exact Hs|]. erewrite bind_eq; [exact H2|exact Hu].
Qed.

Lemma keeps_complete_request h base resp_h body status :
  (rq_method h = RTSP_METHOD_TYPE_SETUP → is_Some base) →
  triple (fun s => client_inv s ∧ cl_content_base s = base)
    (complete_request h resp_h body status) (fun _ => client_inv).
Proof.
  intros Hbase. unfold complete_request. cbv zeta.
  assert (∀ A (m : CM A), preserves client_inv m → preserves (fun s => cl_content_base s = base) m →
    preserves (fun s => client_inv s ∧ cl_content_base s = base) m) as Hkeep
    by (intros; by apply preserves_and).
  eapply triple_bind; [apply Hkeep; [keep|unfold requested_channels; keep]|]. intros pair.
  eapply triple_bind; [apply Hkeep; [keep|unfold update_auth_from_server; keep; by apply preserves_modify]|].
  intros []. eapply triple_bind; [apply Hkeep; keep|]. intros u.
  eapply triple_bind with (Q := fun _ s => client_inv s ∧ completing base s).
  { intros s [] s' [Hs Hb] Hr. split; [by eapply keeps_reset_request|].
    injection Hr as <-. by split. }
  intros []. eapply triple_bind; [apply preserves_and; [keep|unfold forget_auth; keep; by apply completing_modify]|].
  intros []. eapply triple_bind; [by apply keeps_complete_session|]. intros [res session].
  eapply triple_bind; [apply keeps_method_complete|]. intros [teardown removed]. cbv beta iota.
  match goal with |- triple _ ?m _ => change (preserves client_inv m) end. keep.
Qed.

Lemma keeps_complete_pending resp_h body status :
  preserves client_inv (complete_pending resp_h body status).
Proof.
  unfold complete_pending. apply preserves_bind; [keep|]. intros is_pending.
  destruct is_pending; cbn [negb]; [|keep]. apply triple_gets. intros s Hs r s' (res & s1 & H & [= _ <-])%bind_inv.
  eapply keeps_complete_request; [|split; [exact Hs|done]|exact H]. apply Hs.
Qed.
Hint Resolve keeps_complete_pending : keeps.

Lemma keeps_request_complete_now resp_h body status :
  preserves client_inv (request_complete_now resp_h body status).
Proof. unfold request_complete_now. keep. by_frame. Qed.

Hint Resolve keeps_request_complete_now : keeps.

(** *** Connection *)

Lemma keeps_client_connected : preserves client_inv client_connected.
Proof. unfold client_connected. keep. by_frame. Qed.

Lemma keeps_client_disconnected : preserves client_inv client_disconnected.
Proof. unfold client_disconnected. keep. by_frame. Qed.

Hint Resolve keeps_client_connected keeps_client_disconnected : keeps.

Hint Extern 1 (preserves (cinv _ _) (client_event _)) => by apply keeps_client_event : keeps.

Lemma keeps_stop : preserves client_inv tskt_client_stop.
Proof. unfold tskt_client_stop. keep. Qed.

Lemma keeps_connect_socket : preserves client_inv tskt_client_connect.
Proof. unfold tskt_client_connect. keep. Qed.

Hint Resolve keeps_stop keeps_connect_socket : keeps.

Lemma keeps_request_complete resp_h body status :
  preserves client_inv (request_complete resp_h body status).
Proof. unfold request_complete, count_failed_request. keep. by_frame. Qed.

Hint Resolve keeps_request_complete : keeps.

Lemma keeps_disconnect : preserves client_inv rtsp_client_disconnect.
Proof. unfold rtsp_client_disconnect. keep. Qed.

Lemma keeps_connect addr : preserves client_inv (rtsp_client_connect addr).
Proof. unfold rtsp_client_connect, setup_tls, resolve_host, connect_failed. keep; by_frame. Qed.

Lemma keeps_resolv_cb addr : preserves client_inv (tskt_resolv_cb addr).
Proof. unfold tskt_resolv_cb. keep; by_frame. Qed.

Hint Resolve keeps_disconnect keeps_connect keeps_resolv_cb : keeps.

(** ** Events *)

Lemma keeps_teardown_process h : preserves client_inv (teardown_request_process h).
Proof. unfold teardown_request_process, remove_torn_down_media. keep. Qed.

Lemma keeps_uri_to_content_base X b uri : preserves (cinv X b) (client_uri_to_content_base uri).
Proof. unfold client_uri_to_content_base. keep. Qed.

Hint Resolve keeps_teardown_process keeps_uri_to_content_base : keeps.

Lemma keeps_client_message e : preserves client_inv (client_message e).
Proof.
  unfold client_message, rtsp_client_request_process, request_status,
    rtsp_client_response_process, drop_keep_alive.
  keep; by_csetter.
Qed.

Hint Resolve keeps_client_message : keeps.

Lemma keeps_client_handle e : preserves client_inv (client_handle e).
Proof.
  unfold client_handle, client_ready_to_send, tskt_client_data_cb, rtsp_client_resp_timeout_cb,
    rtsp_client_pomp_timer_cb, resolv_timer_cb, rtsp_client_cancel, rtsp_client_remove_session.
  keep; first [by_frame|by_csetter].
Qed.

Lemma new_client_inv software_name args setup now s :
  rtsp_client_new software_name args setup now = Ok s → client_inv s.
Proof.
  unfold rtsp_client_new. intros H. repeat res_step. destruct (List.find _ _); [done|].
  injection H as <-. split; try by intros [? [=]].
  - split; try done; apply NoDup_nil_2 || by apply Forall_nil.
  - by apply Forall_nil.
  - intros [=].
  - split; [done|]. intros [|i] c c' H1 [=].
Qed.
End client.

(** ** The invariant of the runs *)

Section reachable.
Context `{T : LocalTime} `{E : ClientEnv}.

Lemma client_reachable_inv s : client_reachable s → client_inv s.
Proof.
  induction 1 as [|s e s' _ IH Hstep]; [by eapply new_client_inv|].
  inversion Hstep; subst. by eapply preserves_run; [apply keeps_client_handle|..].
Qed.

(** C4: In every state that a client gets into, whatever the application, the
    network, the timers and the server do: the sessions have distinct addresses
    and ids (by their first eight characters), their medias distinct addresses and
    paths and the right count; every session has the content base that the code
    calls [strcmp] on; there is a flag for each of the 256 channels; a challenge of
    the server comes with an authentication state; the timer of the requests is
    set only while a request is pending. *)
Theorem client_sessions_wf s :
  client_reachable s →
  wf_client s ∧ Forall (fun c => is_Some (cs_content_base c)) (cl_sessions s) ∧
  (is_Some (cl_server_auth s) → is_Some (cl_auth s)) ∧
  (is_Some (cl_timer s) → cl_is_pending s = true).
Proof.
  intros [Hwf Ha Hb _ Ht _]%client_reachable_inv. split_and!; try done.
  eapply Forall_impl; [exact Hb|]. intros c [Hc|Hc]; [inversion Hc|done].
Qed.

(** C6: The application is told every change of the state of the connection, in
    order, and nothing else: the last state that [connection_state] was called
    with is the state, and no call repeats the state of the one before, the first
    one that of a new client. *)
Theorem client_states_told s :
  client_reachable s →
  last (states_told (cl_out s)) = Some (cl_conn_state s) ∧ changing (states_told (cl_out s)).
Proof. by intros [_ _ _ _ _ []]%client_reachable_inv. Qed.
End reachable.

Lemma client_sessions_wf_witness :
  ∃ s, client_run (T := stub_time) (E := client_env idle_app true) setup_events new_client = Some s ∧
    bool_decide (cm_channel_pair <$> concat (cs_medias <$> cl_sessions s)
                 = [ChannelPair 0 1; ChannelPair 2 3]) = true ∧
    wf_client s ∧ Forall (fun c => is_Some (cs_content_base c)) (cl_sessions s) ∧
    (is_Some (cl_server_auth s) → is_Some (cl_auth s)) ∧
    (is_Some (cl_timer s) → cl_is_pending s = true).
Proof.
  destruct (client_ends_with_run (T := stub_time) (E := client_env idle_app true) setup_events
    new_client (fun s => bool_decide (cm_channel_pair <$> concat (cs_medias <$> cl_sessions s)
                 = [ChannelPair 0 1; ChannelPair 2 3]))) as (s & Hr & Hs); [vm_compute; reflexivity|].
  exists s. split; [exact Hr|]. split; [exact Hs|].
  exact (client_sessions_wf (T := stub_time) (E := client_env idle_app true) s
           (client_run_reachable _ _ _ new_client_reachable Hr)).
Defined.

(** The connection is lost and made again, then the client disconnects. *)
Definition reconnect_events : list client_step_event :=
  setup_events ++ [SocketDisconnected; SocketConnected; DoDisconnect].

Lemma client_states_told_witness :
  ∃ s, client_run (T := stub_time) (E := client_env idle_app true) reconnect_events new_client = Some s ∧
    bool_decide (states_told (cl_out s)
      = [RTSP_CLIENT_CONN_STATE_DISCONNECTED; RTSP_CLIENT_CONN_STATE_CONNECTING;
         RTSP_CLIENT_CONN_STATE_CONNECTED; RTSP_CLIENT_CONN_STATE_CONNECTING;
         RTSP_CLIENT_CONN_STATE_CONNECTED; RTSP_CLIENT_CONN_STATE_DISCONNECTING;
         RTSP_CLIENT_CONN_STATE_DISCONNECTED]) = true ∧
    last (states_told (cl_out s)) = Some (cl_conn_state s) ∧ changing (states_told (cl_out s)).
Proof.
  destruct (client_ends_with_run (T := stub_time) (E := client_env idle_app true) reconnect_events
    new_client (fun s => bool_decide (states_told (cl_out s)
      = [RTSP_CLIENT_CONN_STATE_DISCONNECTED; RTSP_CLIENT_CONN_STATE_CONNECTING;
         RTSP_CLIENT_CONN_STATE_CONNECTED; RTSP_CLIENT_CONN_STATE_CONNECTING;
         RTSP_CLIENT_CONN_STATE_CONNECTED; RTSP_CLIENT_CONN_STATE_DISCONNECTING;
         RTSP_CLIENT_CONN_STATE_DISCONNECTED]))) as (s & Hr & Hs); [vm_compute; reflexivity|].
  exists s. split; [exact Hr|]. split; [exact Hs|].
  exact (client_states_told (T := stub_time) (E := client_env idle_app true) s
           (client_run_reachable _ _ _ new_client_reachable Hr)).
Defined.
