(* ===== verification/ClientChannels.v ===== *)
(** * The choice of the interleaved channels

    The loop that looks for two free channels ends exactly when there is a pair of
    them, with the first one; the channels of a SETUP request were free and are the
    only ones that it takes. *)

From S2P Require Import Prelude CString CNumber Methods Transport Message ObjList StateMonad.
From S2P Require Import ClientState ClientSession ClientSample.
From stdpp Require Import options.

Local Open Scope Z_scope.

(** ** The flags *)

Definition pair_free (channel_used : list bool) (i : Z) : bool :=
  negb (used channel_used i) && negb (used channel_used (i + 1)).

Lemma used_lookup l c : used l c = default false (l !! Z.to_nat c).
Proof. unfold used. by rewrite nth_lookup. Qed.

Lemma used_set_used l b c c' :
  0 <= c < Zlen l → 0 <= c' → used (set_used b c l) c' = if c' =? c then b else used l c'.
Proof.
  unfold Zlen. intros Hc Hc'. rewrite !used_lookup. unfold set_used.
  destruct (c' =? c) eqn:E; bool_to_prop.
  - subst. by rewrite list_lookup_insert_eq by lia.
  - by rewrite list_lookup_insert_ne by lia.
Qed.

Lemma set_used_length b c l : length (set_used b c l) = length l.
Proof. apply length_insert. Qed.

(** The channels of a pair are two bytes. *)
Definition byte_pair (pair : rtsp_channel_pair) : Prop :=
  0 <= ch_rtp pair < CHANNELS ∧ 0 <= ch_rtcp pair < CHANNELS.

Definition in_pair (pair : rtsp_channel_pair) (c : Z) : bool :=
  (c =? ch_rtp pair) || (c =? ch_rtcp pair).

(** The flags of a valid pair, and no other, change. *)
Lemma used_set_pair l pair b c :
  Zlen l = CHANNELS → byte_pair pair → is_channel_pair_valid pair = true → 0 <= c →
  used (set_channel_pair_used l pair b) c = if in_pair pair c then b else used l c.
Proof.
  intros Hl [H1 H2] Hv Hc. unfold set_channel_pair_used, in_pair. rewrite Hv.
  rewrite used_set_used by (unfold Zlen in *; rewrite ?set_used_length; lia).
  rewrite used_set_used by lia. by destruct (c =? ch_rtp pair), (c =? ch_rtcp pair).
Qed.

(** ** The loop *)

Section loop.
Context (channel_used : list bool).

Lemma next_channel_pair_step fuel k :
  (k < 128)%nat →
  next_channel_pair (S fuel) channel_used (2 * Z.of_nat k) =
  if pair_free channel_used (2 * Z.of_nat k) then Some (2 * Z.of_nat k)
  else next_channel_pair fuel channel_used (2 * Z.of_nat (S k mod 128)).
Proof.
  intros Hk. cbn [next_channel_pair]. unfold pair_free. case_match; [done|]. f_equal.
  unfold wrapu. destruct (decide (k = 127)%nat) as [->|]; [done|].
  rewrite Nat.mod_small by lia. rewrite Z.mod_small; lia.
Qed.

(** From the pair [k] to the first one that is free. *)
Lemma next_channel_pair_finds d fuel k :
  (k + d < 128)%nat → (d < fuel)%nat →
  (∀ j, (k <= j < k + d)%nat → pair_free channel_used (2 * Z.of_nat j) = false) →
  pair_free channel_used (2 * Z.of_nat (k + d)) = true →
  next_channel_pair fuel channel_used (2 * Z.of_nat k) = Some (2 * Z.of_nat (k + d)).
Proof.
  revert k fuel. induction d as [|d IH]; intros k [|fuel] Hk Hf Hno Hyes; try lia;
    rewrite next_channel_pair_step by lia.
  - rewrite Nat.add_0_r in *. by rewrite Hyes.
  - rewrite Hno by lia. rewrite Nat.mod_small by lia.
    replace (k + S d)%nat with (S k + d)%nat in * by lia. apply IH; try lia; [|done].
    intros j Hj. apply Hno. lia.
Qed.

Lemma next_channel_pair_none fuel k :
  (k < 128)%nat → (∀ j, (j < 128)%nat → pair_free channel_used (2 * Z.of_nat j) = false) →
  next_channel_pair fuel channel_used (2 * Z.of_nat k) = None.
Proof.
  intros Hk Hno. revert k Hk. induction fuel as [|fuel IH]; intros k Hk; [done|].
  rewrite next_channel_pair_step, Hno by done. apply IH. by apply Nat.mod_upper_bound.
Qed.

(** The first one with a property, below a bound. *)
Lemma first_below (P : nat → bool) n :
  (∃ k, (k < n)%nat ∧ P k = true ∧ ∀ j, (j < k)%nat → P j = false) ∨ (∀ j, (j < n)%nat → P j = false).
Proof.
  induction n as [|n [IH|IH]]; [right; lia| |].
  - destruct IH as (k & ? & ? & ?). left. exists k. split; [lia|done].
  - destruct (P n) eqn:Hn; [left; exists n; split_and!; [lia|done..]|right]. intros j Hj.
    destruct (decide (j = n)) as [->|]; [done|apply IH; lia].
Qed.

(** C24: The loop of [allocate_interleaved_channels], whose index is an [uint8_t],
    ends if and only if there is a pair of free channels [2k] and [2k+1]; it has
    then found the first one, within the 128 steps of the model; otherwise it goes
    on for ever, whatever the fuel (its condition never fails). *)
Theorem next_channel_pair_terminates :
  (∃ k, (k < 128)%nat ∧ next_channel_pair 128 channel_used 0 = Some (2 * Z.of_nat k) ∧
        pair_free channel_used (2 * Z.of_nat k) = true ∧
        ∀ j, (j < k)%nat → pair_free channel_used (2 * Z.of_nat j) = false) ∨
  ((∀ j, (j < 128)%nat → pair_free channel_used (2 * Z.of_nat j) = false) ∧
   ∀ fuel, next_channel_pair fuel channel_used 0 = None).
Proof.
  destruct (first_below (fun j => pair_free channel_used (2 * Z.of_nat j)) 128)
    as [(k & Hk & Hf & Hno)|Hno].
  - left. exists k. split; [done|]. split; [|done].
    apply (next_channel_pair_finds k 128 0); try lia; [|done]. intros j Hj. apply Hno. lia.
  - right. split; [done|]. intros fuel. by apply (next_channel_pair_none fuel 0); [lia|].
Qed.
End loop.

(** ** The channels of a SETUP request *)

Lemma pair_free_inv l i : pair_free l i = true → used l i = false ∧ used l (i + 1) = false.
Proof. unfold pair_free. intros H. by bool_to_prop. Qed.

(** C23: [allocate_interleaved_channels] takes the two channels asked for when they
    differ, or else the first free pair of an even channel and the next one; the
    channels that it takes were free, their flags are set and no other flag
    changes.  It fails, with [EEXIST] and without any change, when a channel asked
    for is used; it never returns when it has to choose and no such pair is free. *)
Theorem allocate_channels pair s :
  Zlen (cl_channel_used s) = CHANNELS → byte_pair pair →
  match allocate_interleaved_channels pair s with
  | Some (Ok p, s') =>
      used (cl_channel_used s) (ch_rtp p) = false ∧ used (cl_channel_used s) (ch_rtcp p) = false ∧
      (if is_channel_pair_valid pair then p = pair
       else ∃ k, 0 <= k < 128 ∧ p = ChannelPair (2 * k) (2 * k + 1) ∧
                 ∀ j, 0 <= j < k → pair_free (cl_channel_used s) (2 * j) = false) ∧
      s' = set_cl_channel_used (cl_channel_used s') s ∧
      ∀ c, 0 <= c < CHANNELS →
           used (cl_channel_used s') c = in_pair p c || used (cl_channel_used s) c
  | Some (Err e, s') =>
      e = EEXIST ∧ s' = s ∧ is_channel_pair_valid pair = true ∧
      used (cl_channel_used s) (ch_rtp pair) || used (cl_channel_used s) (ch_rtcp pair) = true
  | Some (Undef, _) => False
  | None =>
      is_channel_pair_valid pair = false ∧
      ∀ j, 0 <= j < 128 → pair_free (cl_channel_used s) (2 * j) = false
  end.
Proof.
  intros Hl Hp. set (l := cl_channel_used s) in *.
  assert (∀ p, byte_pair p → is_channel_pair_valid p = true → ∀ c, 0 <= c < CHANNELS →
    used (set_channel_pair_used l p true) c = in_pair p c || used l c) as Hset.
  { intros p Hb Hv c Hc. rewrite used_set_pair by (done || lia). by destruct (in_pair p c). }
  unfold allocate_interleaved_channels, gets, modify, mbind, SM_bind, mret, SM_ret,
    check_channel_unused. fold l.
  destruct (is_channel_pair_valid pair) eqn:Hv.
  - destruct (used l (ch_rtp pair)) eqn:H1; [done|]. destruct (used l (ch_rtcp pair)) eqn:H2; [done|].
    cbn. split_and!; try done. intros c Hc. by apply Hset.
  - destruct (next_channel_pair_terminates l) as [(k & Hk & Hn & Hf & Hno)|[Hno Hn]].
    + rewrite Hn. cbn -[Z.mul]. apply pair_free_inv in Hf as [H1 H2].
      assert (byte_pair (ChannelPair (2 * Z.of_nat k) (2 * Z.of_nat k + 1))) as Hb
        by (unfold byte_pair, CHANNELS; cbn -[Z.mul]; lia).
      split_and!; try done.
      * exists (Z.of_nat k). split_and!; try lia; [done|]. intros j Hj.
        rewrite <- (Z2Nat.id j) by lia. apply Hno. lia.
      * intros c Hc. apply Hset; [done| |done]. unfold is_channel_pair_valid. cbn -[Z.mul]. lia.
    + rewrite Hn. cbn -[Z.mul]. split; [done|]. intros j Hj.
      rewrite <- (Z2Nat.id j) by lia. apply Hno. lia.
Qed.

(** The first pair is taken, then the second one. *)
Lemma allocate_channels_witness :
  let s := set_cl_channel_used (set_used true 1 (cl_channel_used new_client)) new_client in
  fst <$> allocate_interleaved_channels (ChannelPair 0 0) s = Some (Ok (ChannelPair 2 3)) ∧
  match allocate_interleaved_channels (ChannelPair 0 0) s with
  | Some (Ok p, s') =>
      used (cl_channel_used s) (ch_rtp p) = false ∧ used (cl_channel_used s) (ch_rtcp p) = false ∧
      (if is_channel_pair_valid (ChannelPair 0 0) then p = ChannelPair 0 0
       else ∃ k, 0 <= k < 128 ∧ p = ChannelPair (2 * k) (2 * k + 1) ∧
                 ∀ j, 0 <= j < k → pair_free (cl_channel_used s) (2 * j) = false) ∧
      s' = set_cl_channel_used (cl_channel_used s') s ∧
      ∀ c, 0 <= c < CHANNELS →
           used (cl_channel_used s') c = in_pair p c || used (cl_channel_used s) c
  | Some (Err e, s') =>
      e = EEXIST ∧ s' = s ∧ is_channel_pair_valid (ChannelPair 0 0) = true ∧
      used (cl_channel_used s) 0 || used (cl_channel_used s) 0 = true
  | Some (Undef, _) => False
  | None =>
      is_channel_pair_valid (ChannelPair 0 0) = false ∧
      ∀ j, 0 <= j < 128 → pair_free (cl_channel_used s) (2 * j) = false
  end.
Proof.
  intros s. split; [vm_compute; reflexivity|].
  exact (allocate_channels (ChannelPair 0 0) s eq_refl
           (conj (conj (Z.le_refl 0) eq_refl) (conj (Z.le_refl 0) eq_refl))).
Defined.
