(* ===== verification/ClientStream.v ===== *)
(** * The client on a stream

    Nothing that the client does with a message reads or changes its receive buffer
    and its parser: it is a receiver, as the server. *)

From S2P Require Import Prelude CString CNumber Writer Url Methods Transport AuthHeader Auth CFloat TimeRange.
From S2P Require Import Framing HeaderLine HeaderFields Request Response Message ObjList StateMonad Receiver.
From S2P Require Import ClientState ClientSession ClientRequest Client ClientRun ClientSample.
From stdpp Require Import options.

Local Open Scope Z_scope.

(** Another receive buffer and another parser. *)
Definition set_client_rx (buf : bytes) (ctx : rtsp_message_parser_ctx) (s : rtsp_client)
    : rtsp_client :=
  set_cl_parser_ctx ctx (set_cl_response_buf buf s).

Section oblivious.
Context (buf : bytes) (ctx : rtsp_message_parser_ctx).
Local Abbreviation oblivious := (commutes (set_client_rx buf ctx)).

(** ** Accesses and sessions *)

Lemma obl_csession_at p : oblivious (csession_at p).
Proof. unfold csession_at. obl. Qed.
Lemma obl_client_event o : oblivious (client_event o).
Proof. unfold client_event. obl. Qed.
Lemma obl_set_header f : oblivious (set_header f).
Proof. unfold set_header. obl. Qed.
Hint Resolve obl_csession_at obl_client_event obl_set_header : obl.
Lemma obl_upd_csession p f : oblivious (upd_csession p f).
Proof. unfold upd_csession. obl. Qed.
Hint Resolve obl_upd_csession : obl.

Lemma obl_client_session_find id : oblivious (rtsp_client_session_find id).
Proof. unfold rtsp_client_session_find. obl. Qed.
Hint Resolve obl_client_session_find : obl.
Lemma obl_get_session id add : oblivious (rtsp_client_get_session id add).
Proof. unfold rtsp_client_get_session, calloc. obl. Qed.
Lemma obl_client_media_find p path : oblivious (rtsp_client_session_media_find p path).
Proof. unfold rtsp_client_session_media_find. obl. Qed.
Lemma obl_client_media_remove p m : oblivious (rtsp_client_session_media_remove p m).
Proof. unfold rtsp_client_session_media_remove. obl. Qed.
Hint Resolve obl_get_session obl_client_media_find obl_client_media_remove : obl.
Lemma obl_client_media_add p path pair : oblivious (rtsp_client_session_media_add p path pair).
Proof. unfold rtsp_client_session_media_add, calloc. obl. Qed.
Lemma obl_allocate pair : oblivious (allocate_interleaved_channels pair).
Proof. unfold allocate_interleaved_channels. obl. Qed.
Lemma obl_release pair : oblivious (release_channels pair).
Proof. unfold release_channels. obl. Qed.
Lemma obl_update_channels a b : oblivious (update_interleaved_channels a b).
Proof. unfold update_interleaved_channels. obl. Qed.
Hint Resolve obl_client_media_add obl_allocate obl_release obl_update_channels : obl.

(** ** Requests *)

Context `{T : LocalTime} `{E : ClientEnv}.

Lemma obl_send_raw_buf text : oblivious (send_raw_buf text).
Proof. unfold send_raw_buf. obl. Qed.
Lemma obl_write_in_buffer w : oblivious (write_in_buffer w).
Proof. unfold write_in_buffer. obl. Qed.
Lemma obl_set_request_timer ms : oblivious (set_request_timer ms).
Proof. unfold set_request_timer. obl. Qed.
Lemma obl_reset_keep_alive p ms : oblivious (reset_keep_alive_timer p ms).
Proof. unfold reset_keep_alive_timer. obl. Qed.
Lemma obl_may_request : oblivious may_request.
Proof. unfold may_request, clear_pending_keep_alive_timer. obl. Qed.
Lemma obl_generate : oblivious generate_authorization_header.
Proof. unfold generate_authorization_header. obl. Qed.
Lemma obl_method_allowed flag : oblivious (method_allowed flag).
Proof. unfold method_allowed. obl. Qed.
Hint Resolve obl_send_raw_buf obl_write_in_buffer obl_set_request_timer obl_reset_keep_alive
  obl_may_request obl_generate obl_method_allowed : obl.

Lemma obl_send_client_request content ms : oblivious (send_client_request content ms).
Proof. unfold send_client_request. obl. Qed.
Lemma obl_request_sent : oblivious request_sent.
Proof. unfold request_sent. obl. Qed.
Lemma obl_new_header method u : oblivious (new_header method u).
Proof. unfold new_header. obl. Qed.
Lemma obl_make_uri path : oblivious (make_uri path).
Proof. unfold make_uri. obl. Qed.
Lemma obl_check_method method flag rest : oblivious rest → oblivious (check_method method flag rest).
Proof. intros H. unfold check_method. obl. Qed.
Lemma obl_authorize optional rest : oblivious rest → oblivious (authorize optional rest).
Proof. intros H. unfold authorize, number_header, sign_header. obl. Qed.
Hint Resolve obl_send_client_request obl_request_sent obl_new_header obl_make_uri : obl.
Lemma obl_submit ext n content ms : oblivious (submit_request ext n content ms).
Proof. unfold submit_request. obl. Qed.
Hint Resolve obl_submit : obl.

(** Through the steps that all requests have. *)
Local Ltac request_obl := repeat first [apply obl_check_method | apply obl_authorize | obl_step].

Lemma obl_request_on_session method id uri fill ext n u t :
  oblivious (request_on_session method id uri fill ext n u t).
Proof. unfold request_on_session. request_obl. Qed.
Hint Resolve obl_request_on_session : obl.
Lemma obl_send_teardown url id ext n u t internal :
  oblivious (send_teardown url id ext n u t internal).
Proof. unfold send_teardown. request_obl. Qed.
Hint Resolve obl_send_teardown : obl.
Lemma obl_fill_transport lower delivery method p1 p2 :
  oblivious (fill_transport lower delivery method p1 p2).
Proof. unfold fill_transport, set_transport. obl. Qed.
Hint Resolve obl_fill_transport : obl.

Lemma obl_run_client_call c : oblivious (run_client_call c).
Proof.
  destruct c; cbn [run_client_call];
    unfold rtsp_client_options, rtsp_client_describe, rtsp_client_announce, rtsp_client_setup,
      setup_request, check_setup_session, rtsp_client_play, rtsp_client_pause, rtsp_client_record,
      rtsp_client_teardown, rtsp_client_send_interleaved, number_header, sign_header; request_obl.
Qed.
Hint Resolve obl_run_client_call : obl.
Lemma obl_ccallback o : oblivious (ccallback o).
Proof. unfold ccallback. obl. Qed.
Hint Resolve obl_ccallback : obl.

(** ** Completion *)

Lemma obl_remove_session_internal id status ok :
  oblivious (rtsp_client_remove_session_internal id status ok).
Proof. unfold rtsp_client_remove_session_internal. obl. Qed.
Hint Resolve obl_remove_session_internal : obl.
Lemma obl_keep_alive_request p ms : oblivious (keep_alive_request p ms).
Proof. unfold keep_alive_request. request_obl. Qed.
Lemma obl_keep_alive_failed p : oblivious (keep_alive_failed p).
Proof. unfold keep_alive_failed. obl. Qed.
Hint Resolve obl_keep_alive_request obl_keep_alive_failed : obl.
Lemma obl_send_keep_alive p ms : oblivious (send_keep_alive p ms).
Proof. unfold send_keep_alive. obl. Qed.
Hint Resolve obl_send_keep_alive : obl.

Lemma obl_method_complete method session id uri pair status h body u removed :
  oblivious (method_complete method session id uri pair status h body u removed).
Proof.
  unfold method_complete, setup_request_complete, play_request_complete, pause_request_complete,
    teardown_request_complete, keep_alive_complete. obl.
Qed.
Lemma obl_complete_session method id h : oblivious (complete_session method id h).
Proof. unfold complete_session. obl. Qed.
Lemma obl_update_auth server : oblivious (update_auth_from_server server).
Proof. unfold update_auth_from_server. obl. Qed.
Hint Resolve obl_method_complete obl_complete_session obl_update_auth : obl.
Lemma obl_complete_pending h body status : oblivious (complete_pending h body status).
Proof.
  unfold complete_pending, complete_request, requested_channels, reset_request, forget_auth. obl.
Qed.
Hint Resolve obl_complete_pending : obl.
Lemma obl_request_complete_now h body status : oblivious (request_complete_now h body status).
Proof. unfold request_complete_now. obl. Qed.
Hint Resolve obl_request_complete_now : obl.
Lemma obl_set_connection_state c : oblivious (set_connection_state c).
Proof. unfold set_connection_state. obl. Qed.
Lemma obl_clear_remote_info : oblivious clear_remote_info.
Proof. unfold clear_remote_info. obl. Qed.
Hint Resolve obl_set_connection_state obl_clear_remote_info : obl.
Lemma obl_client_disconnected : oblivious client_disconnected.
Proof. unfold client_disconnected. obl. Qed.
Hint Resolve obl_client_disconnected : obl.
Lemma obl_request_complete h body status : oblivious (request_complete h body status).
Proof.
  unfold request_complete, count_failed_request, tskt_client_stop, tskt_client_connect. obl.
Qed.
Hint Resolve obl_request_complete : obl.

(** ** Messages *)

Lemma obl_teardown_process h : oblivious (teardown_request_process h).
Proof. unfold teardown_request_process, remove_torn_down_media. obl. Qed.
Hint Resolve obl_teardown_process : obl.
Lemma obl_client_message e : oblivious (client_message e).
Proof.
  unfold client_message, rtsp_client_request_process, request_status, client_uri_to_content_base,
    rtsp_client_response_process, drop_keep_alive. obl.
Qed.
End oblivious.

(** ** Any chunks *)

Section stream.
Context `{T : LocalTime} {L : LocalTimeLaws T} `{E : ClientEnv}.

#[local] Instance client_receiver : Receiver rtsp_client := {
  rx_buf := cl_response_buf;
  rx_ctx := cl_parser_ctx;
  put_rx := set_client_rx;
  on_data := tskt_client_data_cb;
  on_message := client_message
}.

#[local] Instance client_receiver_laws : ReceiverLaws client_receiver.
Proof using Type.
  clear L. split; try done.
  - by intros [].
  - intros buf ctx e. apply obl_client_message.
  - intros data evs ret buf ctx s H.
    change (data_cb (cl_response_buf s) (cl_parser_ctx s) data = Some (evs, ret, buf, ctx)) in H.
    change (tskt_client_data_cb data s = for_each client_message evs (set_client_rx buf ctx s)).
    unfold tskt_client_data_cb.
    change (match data_cb (cl_response_buf s) (cl_parser_ctx s) data with
            | Some (evs, _, buf', ctx') =>
                modify (fun cl => set_cl_parser_ctx ctx' (set_cl_response_buf buf' cl));;
                for_each client_message evs
            | None => undefined
            end s = for_each client_message evs (set_client_rx buf ctx s)).
    by rewrite H.
Qed.

(** One packet is handled once it is complete. *)
Lemma client_gets m chunks s :
  cl_response_buf s = [] → cl_parser_ctx s = ctx_init → wf_packet m →
  concat chunks = wire m → Zlen (wire m) <= INT64_MAX →
  ∃ ctx, idle ctx ∧
    for_each tskt_client_data_cb chunks s
    = map_state (set_client_rx [] ctx) (client_message (delivered m) s).
Proof using L. exact (stream_message client_receiver m chunks s). Qed.

(** C15: Whatever chunks the stream of the server is cut into, the client ends as
    if it had handled the sequence of the messages of the stream, one by one, with
    the same calls of the application and the same requests; its receive buffer is
    empty and its parser idle again. *)
Theorem client_any_chunks ms chunks s :
  cl_response_buf s = [] → cl_parser_ctx s = ctx_init →
  Forall wf_packet ms → concat chunks = concat (map wire ms) →
  Zlen (concat chunks) <= INT64_MAX →
  ∃ ctx, idle ctx ∧
    for_each tskt_client_data_cb chunks s
    = map_state (set_client_rx [] ctx) (for_each client_message (map delivered ms) s).
Proof using L. apply (stream_messages client_receiver). Qed.
End stream.

(** ** Concrete inputs *)

(** The answer to a DESCRIBE request and an interleaved packet, in three chunks. *)
Definition client_packets : list packet :=
  [PktResponse (set_rp_status_string (Some (cs "OK")) (set_rp_status_code 200
     (set_rp_content_length 3 (set_rp_cseq 1 rtsp_response_header_clear)))) (cs "v=0");
   PktInterleaved 2 (cs "$data")].

Definition client_stream_text : bytes := concat (map (wire (T := stub_time)) client_packets).

Definition client_chunks : list bytes :=
  [take 5 client_stream_text; take 20 (drop 5 client_stream_text); drop 25 client_stream_text].

Definition describing_client : rtsp_client :=
  default new_client (client_run (T := stub_time) (E := client_env idle_app true)
    (connected_to client_sample_url ++ [DoRequest (CallDescribe None None 0 0 4000)]) new_client).

(** The description is handed to the application. *)
Lemma client_any_chunks_witness :
  existsb (fun o => match o with OnDescribeResp _ _ _ _ _ _ => true | _ => false end)
    (cl_out (match for_each (client_message (T := stub_time) (E := client_env idle_app true))
                     (map delivered client_packets) describing_client with
             | Some (_, s) => s | None => new_client end)) = true ∧
  ∃ ctx, idle ctx ∧
    for_each (tskt_client_data_cb (T := stub_time) (E := client_env idle_app true)) client_chunks
      describing_client
    = map_state (set_client_rx [] ctx)
        (for_each (client_message (T := stub_time) (E := client_env idle_app true))
           (map delivered client_packets) describing_client).
Proof.
  assert (Forall (wf_packet (T := stub_time)) client_packets) as Hwf.
  { assert (wf_response (T := stub_time) (set_rp_status_string (Some (cs "OK")) (set_rp_status_code 200
      (set_rp_content_length 3 (set_rp_cseq 1 rtsp_response_header_clear)))) = true) as H
      by (vm_compute; reflexivity).
    apply Forall_cons_2; [exact (conj H (conj (scale_ok_hundredths 0 ltac:(lia)) eq_refl))|].
    apply Forall_cons_2; [cbn [wf_packet]; split_and!; by_decide|apply Forall_nil_2]. }
  split; [vm_compute; reflexivity|].
  exact (client_any_chunks (L := stub_time_laws) (E := client_env idle_app true) client_packets
           client_chunks describing_client ltac:(by vm_compute) ltac:(by vm_compute) Hwf
           ltac:(by vm_compute) ltac:(by_decide)).
Defined.
