(* ===== verification/ClientCalls.v ===== *)
(** * The requests of the application

    At most one request is pending; a request that is accepted is sent once, with
    the next number, and the parser of a server reads back the header that the
    client has written; a request that fails leaves the pending request alone. *)

From S2P Require Import Prelude CString CNumber Writer Url Methods SessionHeader Transport AuthHeader Auth CFloat.
From S2P Require Import TimeRange Framing HeaderLine HeaderFields Request Response Message.
From S2P Require Import ObjList StateMonad ClientState ClientSession ClientRequest Client ClientRun.
From S2P Require Import ClientSample ClientLogic.
From stdpp Require Import options.

Local Open Scope Z_scope.

(** The calls that are requests. *)
Definition is_request (c : client_call) : bool :=
  match c with CallSendInterleaved _ _ => false | _ => true end.

(** ** One request at a time *)

Section request_busy.
Context `{T : LocalTime} `{E : ClientEnv}.

(** A request is pending, and no keep alive. *)
Definition request_busy (s : rtsp_client) : Prop :=
  cl_is_pending s = true ∧ existsb cs_keep_alive_in_progress (cl_sessions s) = false.

(** The operation fails, without any effect. *)
Definition refused (m : CM Z) (s : rtsp_client) : Prop := ∃ r, r < 0 ∧ m s = Some (r, s).

Lemma fails_with (s : rtsp_client) e : 0 < e → refused (mret (- e)) s.
Proof. intros He. exists (- e). split; [lia|done]. Qed.

Lemma no_keep_alive s :
  existsb cs_keep_alive_in_progress (cl_sessions s) = false →
  clear_pending_keep_alive_timer s = Some (false, s).
Proof.
  intros H. unfold clear_pending_keep_alive_timer. erewrite bind_eq; [|reflexivity]. by rewrite H.
Qed.

Lemma may_request_busy s : request_busy s → refused may_request s.
Proof.
  intros [Hp Hk]. unfold may_request, refused. erewrite bind_eq; [|reflexivity].
  case_bool_decide; cbn [negb]; [|by apply fails_with].
  erewrite bind_eq; [|by apply no_keep_alive]. erewrite bind_eq; [|reflexivity].
  rewrite Hp. by apply fails_with.
Qed.

Lemma may_request_offline s : cl_conn_state s ≠ RTSP_CLIENT_CONN_STATE_CONNECTED → refused may_request s.
Proof.
  intros H. unfold may_request, refused. erewrite bind_eq; [|reflexivity].
  rewrite bool_decide_false by done. by apply fails_with.
Qed.

(** What follows is not done. *)
Lemma refused_first m rest s :
  refused m s → refused (res ← m; if res <? 0 then mret res else rest) s.
Proof.
  intros (r & Hr & Hm). exists r. split; [done|]. erewrite bind_eq; [|exact Hm].
  by assert ((r <? 0) = true) as -> by lia.
Qed.

Lemma check_method_refused s method flag rest :
  refused rest s → refused (check_method method flag rest) s.
Proof.
  intros H. unfold check_method. destruct (client_has method); cbn [negb]; [|by apply fails_with].
  unfold refused in *. erewrite bind_eq; [|reflexivity]. case_match; [by apply fails_with|done].
Qed.

Local Ltac refuse :=
  repeat case_match; try (by apply fails_with);
    repeat first [apply check_method_refused|apply refused_first]; first [done|by apply fails_with].

Lemma request_refused c s :
  is_request c = true → refused may_request s → refused (run_client_call c) s.
Proof.
  intros Hc Hs. destruct c; try done; cbn [run_client_call];
    unfold rtsp_client_options, rtsp_client_describe, rtsp_client_announce, rtsp_client_setup,
      rtsp_client_play, rtsp_client_pause, rtsp_client_record, rtsp_client_teardown, send_teardown,
      request_on_session; refuse.
Qed.

(** The check that every request makes lets it through: the client is connected, and no
    request is pending or a session has the flag of a keep alive in progress (which
    need not be what is pending). *)
Definition can_request (s : rtsp_client) : bool :=
  bool_decide (cl_conn_state s = RTSP_CLIENT_CONN_STATE_CONNECTED) &&
  (negb (cl_is_pending s) || existsb cs_keep_alive_in_progress (cl_sessions s)).

Lemma cannot_request s : can_request s = false → refused may_request s.
Proof.
  unfold can_request. case_bool_decide as Hc; cbn [andb]; [|by intros _; apply may_request_offline].
  intros H. bool_to_prop. apply may_request_busy. split; [by destruct (cl_is_pending s)|done].
Qed.

(** C11: The application can make a request exactly when the client is connected and
    no request is pending, or a session has its keep alive in progress: then the
    check that every request makes first succeeds, and does no more than to stop the
    timer of the pending request if there is a keep alive.  Otherwise every request
    of the application fails at once, with a negative value, whatever its arguments:
    nothing is sent and the state of the client is the same as before.  So there is
    one request at a time as long as no session has the flag of a keep alive. *)
Theorem one_request_at_a_time s :
  if can_request s then
    may_request s = Some (0, if existsb cs_keep_alive_in_progress (cl_sessions s)
                             then set_cl_timer None s else s)
  else ∀ c, is_request c = true → ∃ r, r < 0 ∧ run_client_call c s = Some (r, s).
Proof.
  destruct (can_request s) eqn:H; [|intros c Hc; by apply request_refused, cannot_request].
  unfold can_request in H. apply andb_true_iff in H as [Hc Hp]. unfold may_request.
  eapply bind_intro; [reflexivity|]. rewrite Hc. cbn [negb].
  unfold clear_pending_keep_alive_timer. destruct (existsb _ _) eqn:Hk.
  - eapply bind_intro; [eapply bind_intro; [reflexivity|]; rewrite Hk; reflexivity|].
    eapply bind_intro; [reflexivity|]. by rewrite andb_false_r.
  - eapply bind_intro; [eapply bind_intro; [reflexivity|]; rewrite Hk; reflexivity|].
    eapply bind_intro; [reflexivity|]. by destruct (cl_is_pending s).
Qed.
End request_busy.

(** ** Errors are positive numbers *)

Definition errs {A} (r : res A) : Prop := ∀ e, r = Err e → 0 < e.

Lemma errs_bind {A B} (m : res A) (f : A → res B) : errs m → (∀ a, errs (f a)) → errs (mbind f m).
Proof.
  intros Hm Hf e H. destruct m as [a|e'|]; [by eapply Hf|injection H as <-; by apply Hm|done].
Qed.

Lemma errs_Ok {A} (a : A) : errs (Ok a).
Proof. by intros e. Qed.

Lemma errs_Err {A} e : 0 < e → errs (A := A) (Err e).
Proof. by intros He ? [= <-]. Qed.

Lemma errs_Undef {A} : errs (A := A) Undef.
Proof. by intros e. Qed.

Create HintDb errs discriminated.
#[export] Hint Resolve errs_Ok errs_Undef : errs.
#[export] Hint Extern 1 (errs (Err _)) => apply errs_Err; reflexivity : errs.

Ltac errs_step :=
  first
    [ solve [auto with errs nocore]
    | match goal with
      | |- ∀ _, _ => intros ?
      | |- errs (mbind _ _) => apply errs_bind
      | |- errs (return_err_if _ _) => unfold return_err_if
      | |- errs (let x := _ in _) => cbv zeta
      | |- errs (match ?x with _ => _ end) => destruct x
      end ].
Ltac errs := repeat errs_step.

Lemma errs_parse_internal url : errs (rtsp_url_parse_internal url).
Proof.
  unfold rtsp_url_parse_internal, parse_authority, parse_host_and_port, split_host_and_port,
    parse_port, parse_path. errs.
Qed.

#[export] Hint Resolve errs_parse_internal : errs.

Lemma errs_strip_credentials inet4 inet6 url : errs (rtsp_url_strip_credentials inet4 inet6 url).
Proof.
  unfold rtsp_url_strip_credentials, rtsp_url_parse, rtsp_url_to_str, rtsp_url_to_str_internal. errs.
Qed.

Lemma errs_teardown_uri url s : errs (teardown_uri url s).
Proof. unfold teardown_uri, format_request_uri. errs. Qed.

Lemma errs_copy_ext h ext n : errs (rtsp_request_header_copy_ext h ext n).
Proof. unfold rtsp_request_header_copy_ext, copy_exts. errs. Qed.

(** The writers of the request header. *)
Definition werrs {A} (w : writer A) : Prop := ∀ s e s', w s = (Err e, s') → 0 < e.

Lemma werrs_bind {A B} (w : writer A) (f : A → writer B) :
  werrs w → (∀ a, werrs (f a)) → werrs (mbind f w).
Proof.
  intros Hw Hf s e s'. unfold mbind, writer_bind. destruct (w s) as [[a|e1|] s1] eqn:H.
  - apply Hf.
  - intros [= <- <-]. by eapply Hw.
  - done.
Qed.

Lemma werrs_lift {A} (r : res A) : errs r → werrs (wlift r).
Proof. intros H s e s' [= -> _]. by apply H. Qed.

Lemma werrs_sprintf t : werrs (rtsp_sprintf t).
Proof. intros s e s'. unfold rtsp_sprintf. by repeat case_match; intros [= <- _]. Qed.

Lemma werrs_skip : werrs wskip.
Proof. by intros s e s'. Qed.

Lemma werrs_err {A} e : 0 < e → werrs (A := A) (werr e).
Proof. intros H. by apply werrs_lift, errs_Err. Qed.

Lemma werrs_check b e : 0 < e → werrs (wreturn_err_if b e).
Proof. intros H. apply werrs_lift. unfold return_err_if. destruct b; [by apply errs_Err|apply errs_Ok]. Qed.

Create HintDb werrs discriminated.
#[export] Hint Resolve werrs_sprintf werrs_skip : werrs.
#[export] Hint Extern 1 (werrs (werr _)) => apply werrs_err; reflexivity : werrs.
#[export] Hint Extern 1 (werrs (wreturn_err_if _ _)) => apply werrs_check; reflexivity : werrs.
#[export] Hint Extern 1 (werrs (wlift Undef)) => apply werrs_lift, errs_Undef : werrs.

Ltac werrs_step :=
  first
    [ solve [auto with werrs nocore]
    | match goal with
      | |- ∀ _, _ => intros ?
      | |- werrs (mbind _ _) => apply werrs_bind
      | |- werrs (wwhen ?b _) => destruct b eqn:?; cbn [wwhen]
      | |- werrs (let x := _ in _) => cbv zeta
      | |- werrs (match ?x with _ => _ end) => destruct x eqn:?
      end ].
Ltac werrs := repeat werrs_step.

Lemma werrs_exts l : werrs (write_exts l).
Proof. induction l; cbn [write_exts]; werrs. Qed.

Lemma werrs_pairs l first : werrs (write_pairs l first).
Proof. revert first. induction l; intros first; cbn [write_pairs]; werrs. Qed.

Lemma werrs_fields l first : werrs (append_fields l first).
Proof. revert first. induction l; intros first; cbn [append_fields]; werrs. Qed.

#[export] Hint Resolve werrs_exts werrs_pairs werrs_fields : werrs.

Lemma werrs_transports l : werrs (transport_write_loop l).
Proof.
  induction l; cbn [transport_write_loop];
    unfold transport_write_one, transport_write_params, write_ports, write_opt; werrs.
Qed.

#[export] Hint Resolve werrs_transports : werrs.

(** ** What a request does *)

Section sends.
Context `{T : LocalTime} `{E : ClientEnv}.

(** libfutils returns a negative [errno]. *)
Context (time_errs : ∀ f t n, errs (time_local_format f t n)).

Lemma werrs_request_header h : werrs (rtsp_request_header_write h).
Proof using time_errs.
  assert (∀ f t n, werrs (wlift (time_local_format f t n))) as Htime
    by (intros; by apply werrs_lift).
  unfold rtsp_request_header_write, write_line, write_str_line, rtsp_session_header_write,
    rtsp_transport_header_write, rtsp_authorization_header_write, rtsp_range_header_write,
    rtsp_time_write, write_line. werrs.
Qed.

(** The text of a request with the header [h], with the content behind it. *)
Definition written (h : rtsp_request_header) (text : bytes) : Prop :=
  ∃ content r, rq_content_length h = Zlen (default [] content) ∧
    (rtsp_request_header_write h;;
     match content with Some c => rtsp_sprintf c | None => wskip end) (RtspString [] CLIENT_BUF_SIZE)
    = (Ok tt, r) ∧ text = rs_str r.

(** From [s0], a request that returns [r] in [s]: it was sent, and is pending; or
    it failed, and no other request is pending than before. *)
Definition accepted (s0 s : rtsp_client) : Prop :=
  cl_is_pending s = true ∧ cl_cseq s = u32 (cl_cseq s0 + 1) ∧
  rq_cseq (cl_header s) = s32 (cl_cseq s0) ∧
  ∃ text ret, 0 <= ret ∧ cl_out s = cl_out s0 ++ [Sent text ret] ∧ written (cl_header s) text.

Definition failed (s0 s : rtsp_client) : Prop :=
  cl_is_pending s = cl_is_pending s0 ∧ cl_cseq s = cl_cseq s0 ∧
  (cl_out s = cl_out s0 ∨ ∃ text ret, cl_out s = cl_out s0 ++ [Sent text ret]).

Definition outcome (s0 : rtsp_client) (r : Z) (s : rtsp_client) : Prop :=
  r = 0 ∧ accepted s0 s ∨ r < 0 ∧ failed s0 s.

(** Nothing was done yet; the header is a new one; it has its number, for a
    content of [len] bytes. *)
Definition prepared (s0 s : rtsp_client) : Prop :=
  cl_out s = cl_out s0 ∧ cl_cseq s = cl_cseq s0 ∧ cl_is_pending s = cl_is_pending s0.
Definition fresh (s0 s : rtsp_client) : Prop :=
  prepared s0 s ∧ rq_content_length (cl_header s) = 0.
Definition numbered (len : Z) (s0 s : rtsp_client) : Prop :=
  prepared s0 s ∧ rq_content_length (cl_header s) = len ∧
  rq_cseq (cl_header s) = s32 (cl_cseq s0).

Lemma prepared_failed s0 s : prepared s0 s → failed s0 s.
Proof. intros (? & ? & ?). split_and!; auto. Qed.

Lemma prepared_fails s0 r : r < 0 → triple (prepared s0) (mret r) (outcome s0).
Proof. intros Hr. apply triple_ret. intros s H. right. split; [done|by apply prepared_failed]. Qed.

Lemma fresh_fails s0 r : r < 0 → triple (fresh s0) (mret r) (outcome s0).
Proof. intros Hr. eapply triple_weaken; [by apply prepared_fails| |done]. by intros s []. Qed.

Lemma numbered_fails len s0 r : r < 0 → triple (numbered len s0) (mret r) (outcome s0).
Proof. intros Hr. eapply triple_weaken; [by apply prepared_fails| |done]. by intros s []. Qed.

(** The text is written without an error when the value is not negative. *)
Lemma write_in_buffer_inv w s res text s' :
  werrs w → write_in_buffer w s = Some ((res, text), s') →
  s' = s ∧ (res < 0 ∨ ∃ r, w (RtspString [] CLIENT_BUF_SIZE) = (Ok tt, r) ∧ text = rs_str r).
Proof.
  intros Hw. unfold write_in_buffer. destruct (w _) as [[[]|e|] r] eqn:H; [| |done].
  - intros [= _ <- <-]. split; [done|]. right. eauto.
  - intros [= <- _ <-]. split; [done|]. left. apply Hw in H. lia.
Qed.

Lemma copy_ext_cseq h ext n h' :
  rtsp_request_header_copy_ext h ext n = Ok h' →
  rq_cseq h' = rq_cseq h ∧ rq_content_length h' = rq_content_length h.
Proof. unfold rtsp_request_header_copy_ext. destruct (copy_exts _ _ _); [by intros [= <-]|done..]. Qed.

Lemma send_raw_buf_inv text s r s' :
  send_raw_buf text s = Some (r, s') →
  s' = s ∧ r < 0 ∨ ∃ ret, s' = set_cl_out (cl_out s ++ [Sent text ret]) s ∧ r <= 0 ∧ (0 <= r → 0 <= ret).
Proof.
  intros (sock & s1 & [= <- <-] & H)%bind_inv. destruct (cl_sock s); cbn [negb] in H;
    [|injection H as <- <-; left; split; [done|by unfold EPROTO]].
  apply bind_inv in H as (out & s1 & [= <- <-] & (u & s2 & [= _ <-] & [= <- <-])%bind_inv).
  right. eexists. split; [done|]. case_match; lia.
Qed.

Lemma set_request_timer_inv ms s r s' :
  set_request_timer ms s = Some (r, s') → s' = s ∨ s' = set_cl_timer (Some ms) s.
Proof.
  intros (u & s1 & Hu & [= _ <-])%bind_inv. destruct (client_timer_set ms <? 0);
    injection Hu as _ <-; auto.
Qed.

Lemma send_request_triple s0 content ms :
  triple (numbered (Zlen (default [] content)) s0) (send_client_request content ms) (fun r s =>
    r < 0 ∧ failed s0 s ∨
    r = 0 ∧ cl_cseq s = cl_cseq s0 ∧ rq_cseq (cl_header s) = s32 (cl_cseq s0) ∧
    ∃ text ret, 0 <= ret ∧ cl_out s = cl_out s0 ++ [Sent text ret] ∧ written (cl_header s) text).
Proof using time_errs.
  intros s r s' (Hp & Hlen & Hn) (h & s1 & [= <- <-] & ([res text] & s2 & Hw & H)%bind_inv)%bind_inv.
  apply write_in_buffer_inv in Hw as [-> Hw];
    [|apply werrs_bind; [apply werrs_request_header|intros; destruct content; auto with werrs]].
  destruct (res <? 0) eqn:Hres; [injection H as <- <-; left; split; [lia|by apply prepared_failed]|].
  destruct Hw as [?|(x & Hw & Hx)]; [lia|]. destruct Hp as (Ho & Hc & Hpe).
  apply bind_inv in H as (res' & s3 & [(-> & Hneg)|(ret & -> & Hle & Hret)]%send_raw_buf_inv & H).
  { assert ((res' <? 0) = true) as E1 by lia. rewrite E1 in H. injection H as <- <-.
    left. split; [lia|]. by apply prepared_failed. }
  destruct (res' <? 0) eqn:Hr'.
  { injection H as <- <-. left. split; [lia|]. split_and!; [done|done|]. right. cbn. rewrite Ho. eauto. }
  assert (written (cl_header s) text) as Hwr by by exists content, x.
  destruct (0 <? ms); [|injection H as <- <-; right; cbn; rewrite Ho; split_and!; eauto 8 with lia].
  apply bind_inv in H as (t & s4 & Ht & [= <- <-]).
  apply set_request_timer_inv in Ht. destruct (t <? 0) eqn:Et.
  - left. split; [lia|]. destruct Ht as [->| ->]; (split_and!; [done..|]); right; cbn; rewrite Ho; eauto.
  - right. destruct Ht as [->| ->]; cbn; rewrite Ho; split_and!; eauto 8 with lia.
Qed.

Lemma submit_outcome s0 ext n content ms :
  triple (numbered (Zlen (default [] content)) s0) (submit_request ext n content ms) (outcome s0).
Proof using time_errs.
  intros s r s' Hn (h & s1 & [= <- <-] & H)%bind_inv.
  destruct (rtsp_request_header_copy_ext _ _ _) as [h|e|] eqn:Hx; [|injection H as <- <-|done].
  2: { right. apply errs_copy_ext in Hx. split; [lia|]. apply prepared_failed, Hn. }
  apply bind_inv in H as (u & s1 & [= _ <-] & (res & s2 & Hs & H)%bind_inv).
  apply (send_request_triple s0) in Hs.
  2: { apply copy_ext_cseq in Hx as [E1 E2]. destruct Hn as (? & Hlen & Hn).
       split_and!; [done|by cbn; rewrite E2|by cbn; rewrite E1]. }
  destruct Hs as [[Hneg Hf]|(-> & Hc & Hnum & text & ret & Hret & Ho & Hwr)].
  - assert ((res <? 0) = true) as E1 by lia. rewrite E1 in H. injection H as <- <-. by right.
  - injection H as <- <-. left. split; [done|]. split_and!; cbn; [done|by rewrite Hc|done|eauto 8].
Qed.
(** *** The steps before *)

Section prepared.
Context (s0 : rtsp_client).

Lemma prepared_modify f :
  (∀ s, cl_out (f s) = cl_out s ∧ cl_cseq (f s) = cl_cseq s ∧ cl_is_pending (f s) = cl_is_pending s) →
  preserves (prepared s0) (modify f).
Proof. intros H. apply preserves_modify. intros s. unfold prepared. by destruct (H s) as (-> & -> & ->). Qed.

Lemma fresh_modify f :
  (∀ s, cl_out (f s) = cl_out s ∧ cl_cseq (f s) = cl_cseq s ∧ cl_is_pending (f s) = cl_is_pending s ∧
        rq_content_length (cl_header (f s)) = rq_content_length (cl_header s)) →
  preserves (fresh s0) (modify f).
Proof.
  intros H. apply preserves_modify. intros s. unfold fresh, prepared.
  by destruct (H s) as (-> & -> & -> & ->).
Qed.

Lemma numbered_modify len f :
  (∀ s, cl_out (f s) = cl_out s ∧ cl_cseq (f s) = cl_cseq s ∧ cl_is_pending (f s) = cl_is_pending s ∧
        rq_content_length (cl_header (f s)) = rq_content_length (cl_header s) ∧
        rq_cseq (cl_header (f s)) = rq_cseq (cl_header s)) →
  preserves (numbered len s0) (modify f).
Proof.
  intros H. apply preserves_modify. intros s. unfold numbered, prepared.
  by destruct (H s) as (-> & -> & -> & -> & ->).
Qed.

Hint Extern 1 (preserves (prepared _) (modify _)) => by apply prepared_modify : keeps.
Hint Extern 1 (preserves (numbered _ _) (modify _)) => by apply numbered_modify : keeps.
Hint Extern 1 (preserves (prepared _) (set_header _)) => by apply prepared_modify : keeps.
Hint Extern 1 (preserves (numbered _ _) (set_header _)) => by apply numbered_modify : keeps.
Hint Resolve preserves_csession_at : keeps.

Lemma prepared_may_request : preserves (prepared s0) may_request.
Proof. unfold may_request, clear_pending_keep_alive_timer. keep. Qed.

Lemma new_header_triple method u : triple (prepared s0) (new_header method u) (fun _ => fresh s0).
Proof. intros s r s' H [= _ <-]. by split. Qed.

Lemma prepared_get_session id : preserves (prepared s0) (rtsp_client_get_session id false).
Proof. unfold rtsp_client_get_session, rtsp_client_session_find. keep. Qed.

Lemma fresh_make_uri path : preserves (fresh s0) (make_uri path).
Proof. unfold make_uri. keep. Qed.

Lemma numbered_generate len : preserves (numbered len s0) generate_authorization_header.
Proof. unfold generate_authorization_header. keep. Qed.

Lemma numbered_fill_transport len lower delivery method p1 p2 :
  preserves (numbered len s0) (fill_transport lower delivery method p1 p2).
Proof. unfold fill_transport, set_transport, allocate_interleaved_channels. keep. Qed.

Lemma number_header_triple : triple (fresh s0) number_header (fun _ => numbered 0 s0).
Proof.
  intros s [] s' [(Ho & Hc & Hp) Hlen] (c & s1 & [= <- <-] & [= <-])%bind_inv.
  split_and!; [done..|]. cbn. by rewrite Hc.
Qed.

Lemma authorize_outcome optional rest :
  triple (numbered 0 s0) rest (outcome s0) → triple (fresh s0) (authorize optional rest) (outcome s0).
Proof.
  intros H. unfold authorize. eapply triple_bind; [apply number_header_triple|]. intros [].
  eapply triple_bind; [apply numbered_generate|]. intros res. cbv beta.
  destruct (_ && _) eqn:Hr; [apply numbered_fails; bool_to_prop; lia|].
  eapply triple_bind with (Q := fun _ => numbered 0 s0); [|by intros []].
  unfold sign_header. change (preserves (numbered 0 s0) (name ← gets cl_software_name;
    set_header (set_rq_user_agent (Some name)))). keep.
Qed.

Lemma check_method_outcome method flag rest :
  triple (prepared s0) rest (outcome s0) →
  triple (prepared s0) (check_method method flag rest) (outcome s0).
Proof.
  intros H. unfold check_method, method_allowed. case_match; [by apply prepared_fails|].
  eapply triple_bind with (Q := fun _ => prepared s0); [|intros a; case_match; [by apply prepared_fails|done]].
  match goal with |- triple _ ?m _ => change (preserves (prepared s0) m) end. keep.
Qed.

(** A step that fails or goes on. *)
Lemma step_outcome m rest :
  preserves (prepared s0) m → triple (prepared s0) rest (outcome s0) →
  triple (prepared s0) (res ← m; if res <? 0 then mret res else rest) (outcome s0).
Proof.
  intros Hm H. eapply triple_bind; [apply Hm|]. intros res. cbv beta.
  destruct (res <? 0) eqn:Hr; [apply prepared_fails; lia|done].
Qed.

Lemma prefix_outcome {A} I (m : CM A) (f : A → CM Z) :
  preserves I m → (∀ a, triple I (f a) (outcome s0)) → triple I (mbind f m) (outcome s0).
Proof. intros Hm Hf. by eapply triple_bind. Qed.
End prepared.

Lemma request_on_session_outcome s0 method id uri fill ext n u t :
  (∀ s, errs (uri s)) → (∀ h, rq_cseq (fill h) = rq_cseq h ∧ rq_content_length (fill h) = rq_content_length h) →
  triple (prepared s0) (request_on_session method id uri fill ext n u t) (outcome s0).
Proof using time_errs.
  intros Huri Hfill. unfold request_on_session. apply step_outcome; [apply prepared_may_request|].
  apply prefix_outcome; [apply prepared_get_session|]. intros [p|]; [|by apply prepared_fails].
  eapply triple_bind; [apply new_header_triple|]. intros [].
  apply prefix_outcome; [apply preserves_csession_at|]. intros c.
  destruct (uri c) as [x|e|] eqn:Hx; [|apply fresh_fails; apply Huri in Hx; lia|done].
  apply prefix_outcome; [by apply fresh_modify|]. intros _. apply authorize_outcome.
  apply prefix_outcome; [|intros _; by apply (submit_outcome s0 _ _ None)].
  apply numbered_modify. intros s. cbn. destruct (Hfill (set_rq_session_id (Some id) (cl_header s))) as [-> ->]. done.
Qed.
Lemma setup_outcome s0 base url id delivery lower p1 p2 method ext n u t :
  triple (prepared s0) (rtsp_client_setup base url id delivery lower p1 p2 method ext n u t)
    (outcome s0).
Proof using time_errs.
  unfold rtsp_client_setup. destruct base as [[|c base]|], url as [[|c' url]|];
    try (by apply prepared_fails).
  destruct (setup_ports_ok _ _ _); cbn [negb]; [|by apply prepared_fails].
  apply check_method_outcome, step_outcome; [apply prepared_may_request|].
  destruct (rtsp_url_strip_credentials _ _ _) as [b|e|] eqn:Hb;
    [|apply prepared_fails; apply errs_strip_credentials in Hb; lia|done].
  apply step_outcome.
  { unfold check_setup_session. repeat case_match; keep; try apply prepared_get_session;
      try apply preserves_csession_at. }
  unfold setup_request. eapply triple_bind; [apply new_header_triple|]. intros [].
  assert (∃ uri, format_request_uri (Some b) (Some (c' :: url)) = Ok uri) as [uri ->]
    by (unfold format_request_uri; case_match; eauto).
  do 3 (apply prefix_outcome; [by apply fresh_modify|]; intros _).
  apply authorize_outcome. eapply triple_bind; [apply numbered_fill_transport|].
  intros res. cbv beta. destruct (res <? 0) eqn:Hr; [apply numbered_fails; lia|].
  apply prefix_outcome; [by apply numbered_modify|]. intros _. by apply (submit_outcome s0 _ _ None).
Qed.

(** [keep] for a goal that is a [triple]. *)
Local Ltac keep_from I :=
  match goal with |- triple _ ?m _ => change (preserves I m) end;
  unfold upd_csession; keep; try apply preserves_csession_at; apply preserves_modify.

Lemma call_outcome c s0 : is_request c = true → triple (prepared s0) (run_client_call c) (outcome s0).
Proof using time_errs.
  intros Hc. destruct c; try done; cbn [run_client_call].
  - unfold rtsp_client_options. destruct (client_has _); cbn [negb]; [|by apply prepared_fails].
    apply step_outcome; [apply prepared_may_request|].
    eapply triple_bind; [apply new_header_triple|]. intros [].
    apply prefix_outcome; [by apply fresh_modify|]. intros _.
    eapply triple_bind; [apply number_header_triple|]. intros [].
    apply prefix_outcome; [|intros _; by apply (submit_outcome s0 _ _ None)].
    unfold sign_header. keep. by apply numbered_modify.
  - apply check_method_outcome, step_outcome; [apply prepared_may_request|].
    eapply triple_bind; [apply new_header_triple|]. intros [].
    apply prefix_outcome; [apply fresh_make_uri|]. intros uri.
    apply prefix_outcome; [by apply fresh_modify|]. intros _. apply authorize_outcome.
    apply prefix_outcome; [by apply numbered_modify|]. intros _. by apply (submit_outcome s0 _ _ None).
  - unfold rtsp_client_announce. destruct session_description as [[|ch sd]|]; try by apply prepared_fails.
    apply check_method_outcome. cbv zeta. destruct (_ <=? _) eqn:Hl; [by apply prepared_fails|].
    apply step_outcome; [apply prepared_may_request|].
    eapply triple_bind; [apply new_header_triple|]. intros [].
    apply prefix_outcome; [apply fresh_make_uri|]. intros uri.
    apply prefix_outcome; [by apply fresh_modify|]. intros _. apply authorize_outcome.
    eapply triple_bind with (Q := fun _ => numbered (Zlen (ch :: sd)) s0);
      [|intros []; by apply (submit_outcome s0 _ _ (Some (ch :: sd)))].
    apply triple_modify. intros s (Hp & _ & Hn). split_and!; [done| |done].
    cbn [cl_header set_cl_header rq_content_length set_rq_content_length default].
    unfold strnlen in *. lia.
  - apply setup_outcome.
  - unfold rtsp_client_play. destruct session_id as [[|ch id]|], range; try (by apply prepared_fails).
    apply check_method_outcome. by apply request_on_session_outcome; [intros; apply errs_Ok|].
  - unfold rtsp_client_pause. destruct session_id as [[|ch id]|], range; try (by apply prepared_fails).
    apply check_method_outcome. by apply request_on_session_outcome; [intros; apply errs_Ok|].
  - unfold rtsp_client_record. destruct session_id as [[|ch id]|], range; try (by apply prepared_fails).
    apply check_method_outcome. by apply request_on_session_outcome; [intros; apply errs_Ok|].
  - unfold rtsp_client_teardown, send_teardown. destruct session_id as [[|ch id]|];
      try (by apply prepared_fails).
    apply check_method_outcome. eapply triple_bind.
    { apply (request_on_session_outcome s0); [intros; apply errs_teardown_uri|done]. }
    intros res. cbv beta. destruct (res <? 0) eqn:Hr; [by apply triple_ret|].
    apply triple_weaken with (P := accepted s0) (Q := fun r s => r = 0 ∧ accepted s0 s).
    { eapply triple_bind with (Q := fun _ => accepted s0);
        [unfold rtsp_client_get_session, rtsp_client_session_find; by keep_from (accepted s0)|].
      intros p.
      repeat (eapply triple_bind with (Q := fun _ => accepted s0); [by keep_from (accepted s0)|intros ?]).
      by apply triple_ret. }
    { intros s [[_ H]|[H _]]; [done|lia]. }
    { intros r s H. by left. }
Qed.
Lemma request_outcome_of c s r s' :
  is_request c = true → run_client_call c s = Some (r, s') → outcome s r s'.
Proof using time_errs. intros Hc. by apply call_outcome. Qed.

(** C8: A request of the application that returns is accepted or fails.  Accepted,
    it returns 0 and is pending, its [CSeq] is the number of the client, which is
    incremented modulo 2^32, and it was sent exactly once: one text, that the
    writer of the headers makes of the request header, followed by the content that
    the header announces.  Failed, it returns a negative value; a request is
    pending if and only if there was one, the number is the same, and at most one
    text was sent, whatever the application asked for. *)
Theorem request_outcome c s r s' :
  is_request c = true → run_client_call c s = Some (r, s') →
  (r = 0 ∧ accepted s s') ∨ (r < 0 ∧ failed s s').
Proof using time_errs. apply request_outcome_of. Qed.
(** The written text is that of the packet. *)
Lemma written_wire `{L : !LocalTimeLaws T} h text :
  wf_request h = true → scale_ok (rq_scale h) → written h text →
  ∃ body, rq_content_length h = Zlen body ∧ text = wire (PktRequest h body) ∧ Zlen text <= CLIENT_BUF_SIZE.
Proof.
  intros Hwf (k & Hk & Hrange) (content & r & Hlen & Hw & ->).
  pose proof (rtsp_request_header_write_emits h k (wf_request_ok h k Hwf Hk Hrange)) as He.
  assert (emits (match content with Some c => rtsp_sprintf c | None => wskip end)
            (default [] content) tt) as Hc
    by (destruct content; [apply emits_sprintf|apply emits_ret]).
  apply (emits_only_ok _ _ _ _ _ _ (emits_seq _ _ _ _ He Hc)) in Hw as (_ & -> & Hf);
    [|by unfold wf_string].
  exists (default [] content). split_and!; [done|done|].
  unfold fits, append, rs_len in *. cbn in *. rewrite Zlen_nil in Hf. lia.
Qed.

End sends.

(** ** Concrete inputs *)

Lemma stub_time_errs f t n : errs (time_local_format (LocalTime := stub_time) f t n).
Proof. destruct f; apply errs_Ok. Qed.

(** The client is connected. *)
Definition connected_client : rtsp_client :=
  default new_client (client_run (T := stub_time) (E := client_env idle_app true)
    (connected_to client_sample_url) new_client).

Definition sample_describe : client_call := CallDescribe (Some (cs "track1")) None 0 0 4000.

(** A PAUSE while a DESCRIBE is pending. *)
Lemma one_request_at_a_time_witness :
  let s := match run_client_call (T := stub_time) (E := client_env idle_app true) sample_describe
             connected_client with Some (_, s) => s | None => connected_client end in
  can_request connected_client = true ∧ can_request s = false ∧ ∃ r, r < 0 ∧
    run_client_call (T := stub_time) (E := client_env idle_app true)
      (CallPause (Some client_session_id) (Some range_zero) None 0 0 4000) s = Some (r, s).
Proof.
  intros s. split; [vm_compute; reflexivity|].
  assert (can_request s = false) as Hs by (vm_compute; reflexivity). split; [exact Hs|].
  pose proof (one_request_at_a_time (T := stub_time) (E := client_env idle_app true) s) as H.
  rewrite Hs in H.
  exact (H (CallPause (Some client_session_id) (Some range_zero) None 0 0 4000) eq_refl).
Defined.

Lemma request_outcome_witness :
  ∃ s, run_client_call (T := stub_time) (E := client_env idle_app true) sample_describe
         connected_client = Some (0, s) ∧
    ((0 = 0 ∧ accepted (T := stub_time) connected_client s) ∨
     (0 < 0 ∧ failed connected_client s)).
Proof.
  assert (∃ s, run_client_call (T := stub_time) (E := client_env idle_app true) sample_describe
         connected_client = Some (0, s)) as (s & Hs) by (eexists; vm_compute; reflexivity).
  exists s. split; [exact Hs|].
  exact (request_outcome (T := stub_time) (E := client_env idle_app true) stub_time_errs
           sample_describe connected_client 0 s eq_refl Hs).
Defined.

Definition describe_sent : rtsp_client :=
  match run_client_call (T := stub_time) (E := client_env idle_app true) sample_describe
    connected_client with Some (_, s) => s | None => connected_client end.

