(* ===== verification/ClientDisconnect.v ===== *)
(** * Disconnection and removal of the sessions

    The requests that the application makes in a callback change neither the state
    of the connection nor which sessions there are; a completed disconnection
    leaves a client without sessions, that can be connected again. *)

From S2P Require Import Prelude CString CNumber Writer Url Methods Transport AuthHeader Auth CFloat.
From S2P Require Import TimeRange Framing HeaderLine HeaderFields Request Response Message.
From S2P Require Import ObjList StateMonad ClientState ClientSession ClientRequest Client ClientRun.
From S2P Require Import ClientSample ClientLogic ClientInv.
From stdpp Require Import options.

Local Open Scope Z_scope.

(** ** What the requests leave as it is *)

Definition addresses (s : rtsp_client) : list ptr := cs_ptr <$> cl_sessions s.

Definition same_sessions (L : list ptr) (s : rtsp_client) : Prop := addresses s = L.
Definition in_state (c : rtsp_client_conn_state) (s : rtsp_client) : Prop := cl_conn_state s = c.

Section frame.
Context `{T : LocalTime} `{E : ClientEnv}.
Context (I : rtsp_client → Prop).

(** Nothing of what [I] is about is a matter of a request. *)
Class Unrelated : Prop := {
  un_modify f :
    (∀ s, cl_sessions (f s) = cl_sessions s ∧ cl_conn_state (f s) = cl_conn_state s) →
    preserves I (modify f);
  un_upd p f : (∀ c, cs_ptr (f c) = cs_ptr c) → preserves I (upd_csession p f)
}.

Context {U : Unrelated}.

Hint Extern 1 (preserves I (modify _)) => by apply un_modify : keeps.
Hint Extern 1 (preserves I (set_header _)) => by apply un_modify : keeps.
Hint Extern 1 (preserves I (client_event _)) => by apply un_modify : keeps.
Hint Extern 1 (preserves I (upd_csession _ _)) => by apply un_upd : keeps.

Lemma un_submit ext n content ms : preserves I (submit_request ext n content ms).
Proof using U.
  unfold submit_request, send_client_request, write_in_buffer, send_raw_buf, set_request_timer,
    request_sent. keep.
Qed.

Lemma un_may_request : preserves I may_request.
Proof using U. unfold may_request, clear_pending_keep_alive_timer. keep. Qed.

Lemma un_new_header method u : preserves I (new_header method u).
Proof using U. unfold new_header. keep. Qed.

Lemma un_generate : preserves I generate_authorization_header.
Proof using U. unfold generate_authorization_header. keep. Qed.

Lemma un_get_session id : preserves I (rtsp_client_get_session id false).
Proof using U. unfold rtsp_client_get_session, rtsp_client_session_find. keep. Qed.

Lemma un_allocate pair : preserves I (allocate_interleaved_channels pair).
Proof using U. unfold allocate_interleaved_channels. keep. Qed.

Hint Resolve un_submit un_may_request un_new_header un_generate un_get_session un_allocate : keeps.

Lemma un_request_on_session method id uri fill ext n u t :
  preserves I (request_on_session method id uri fill ext n u t).
Proof using U. unfold request_on_session, authorize, number_header, sign_header. keep. Qed.

Hint Resolve un_request_on_session : keeps.

Lemma un_send_teardown url id ext n u t internal : preserves I (send_teardown url id ext n u t internal).
Proof using U. unfold send_teardown, check_method, method_allowed. keep. Qed.

Hint Resolve un_send_teardown : keeps.

Lemma un_run_client_call c : preserves I (run_client_call c).
Proof using U.
  destruct c; cbn [run_client_call];
    unfold rtsp_client_options, rtsp_client_describe, rtsp_client_announce, rtsp_client_setup,
      setup_request, check_setup_session, rtsp_client_play, rtsp_client_pause, rtsp_client_record,
      rtsp_client_teardown, rtsp_client_send_interleaved, check_method, method_allowed, authorize,
      number_header, sign_header, fill_transport, set_transport, make_uri, send_raw_buf; keep.
Qed.

Hint Resolve un_run_client_call : keeps.

Lemma un_ccallback o : preserves I (ccallback o).
Proof using U. unfold ccallback. keep. Qed.
End frame.

#[export] Instance same_sessions_unrelated L : Unrelated (same_sessions L).
Proof.
  split.
  - intros f Hf. apply preserves_modify. intros s. unfold same_sessions, addresses.
    by destruct (Hf s) as [-> _].
  - intros p f Hf s a s' Hs (_ & ->)%upd_csession_inv. unfold same_sessions, addresses. cbn.
    by rewrite update_obj_addr.
Qed.

#[export] Instance in_state_unrelated c : Unrelated (in_state c).
Proof.
  split.
  - intros f Hf. apply preserves_modify. intros s. unfold in_state. by destruct (Hf s) as [_ ->].
  - intros p f Hf s a s' Hs (_ & ->)%upd_csession_inv. done.
Qed.

Section disconnect.
Context `{T : LocalTime} `{E : ClientEnv}.

(** ** The state of the connection *)

Section state.
Context (c : rtsp_client_conn_state).

Hint Extern 1 (preserves (in_state _) (modify _)) => by apply preserves_modify : keeps.
Hint Extern 1 (preserves (in_state _) (client_event _)) => by apply preserves_modify : keeps.
Hint Extern 1 (preserves (in_state _) (set_header _)) => by apply preserves_modify : keeps.
Hint Extern 1 (preserves (in_state _) (ccallback _)) => apply un_ccallback; apply _ : keeps.
Hint Extern 1 (preserves (in_state _) (run_client_call _)) => apply un_run_client_call; apply _ : keeps.
Hint Extern 1 (preserves (in_state _) (send_teardown _ _ _ _ _ _ _)) =>
  apply un_send_teardown; apply _ : keeps.
Hint Extern 1 (preserves (in_state _) generate_authorization_header) =>
  apply un_generate; apply _ : keeps.

Lemma state_upd p f : preserves (in_state c) (upd_csession p f).
Proof. unfold upd_csession. keep. Qed.

Hint Resolve state_upd : keeps.

Lemma state_get_session id add : preserves (in_state c) (rtsp_client_get_session id add).
Proof. unfold rtsp_client_get_session, rtsp_client_session_find, calloc. keep. Qed.

Lemma state_reset_timer p ms : preserves (in_state c) (reset_keep_alive_timer p ms).
Proof. unfold reset_keep_alive_timer. keep. Qed.

Lemma state_remove_session id status ok :
  preserves (in_state c) (rtsp_client_remove_session_internal id status ok).
Proof.
  unfold rtsp_client_remove_session_internal, rtsp_client_session_find,
    rtsp_client_session_media_remove, release_channels. keep.
Qed.

Hint Resolve state_get_session state_reset_timer state_remove_session : keeps.

Lemma state_send_keep_alive p ms : preserves (in_state c) (send_keep_alive p ms).
Proof.
  unfold send_keep_alive, method_allowed, keep_alive_failed, keep_alive_request, authorize,
    number_header, sign_header, send_client_request, write_in_buffer, send_raw_buf,
    set_request_timer, request_sent. keep.
Qed.

Hint Resolve state_send_keep_alive : keeps.

Lemma state_method_complete method session id uri pair status h body u removed :
  preserves (in_state c) (method_complete method session id uri pair status h body u removed).
Proof.
  unfold method_complete, setup_request_complete, play_request_complete, pause_request_complete,
    teardown_request_complete, keep_alive_complete, update_interleaved_channels,
    rtsp_client_session_media_add, rtsp_client_session_media_find,
    rtsp_client_session_media_remove, release_channels, calloc. keep.
Qed.

Hint Resolve state_method_complete : keeps.

Lemma state_complete_now h body status : preserves (in_state c) (request_complete_now h body status).
Proof.
  unfold request_complete_now, complete_pending, complete_request, requested_channels,
    update_auth_from_server, reset_request, forget_auth, complete_session. keep.
Qed.

Hint Resolve state_complete_now : keeps.

Lemma state_remove_all : preserves (in_state c) rtsp_client_remove_all_sessions.
Proof. unfold rtsp_client_remove_all_sessions, csession_addrs. keep. Qed.

Lemma state_clear : preserves (in_state c) clear_remote_info.
Proof. unfold clear_remote_info. keep. Qed.
End state.

(** The state is the new one, whatever the application does when it is told. *)
Lemma set_connection_state_triple P c :
  triple P (set_connection_state c) (fun _ => in_state c).
Proof.
  intros s r s' _ (x & s1 & [= <- <-] & H)%bind_inv. case_bool_decide as Hc; cbn [negb when] in H.
  - injection H as _ <-. done.
  - apply bind_inv in H as (u & s1 & [= _ <-] & H). eapply preserves_run; [| |exact H]; [|done].
    apply un_ccallback, _.
Qed.

(** ** The sessions *)

Lemma find_same_id s c :
  wf_client s → c ∈ cl_sessions s →
  List.find (fun c' => same_client_id (cs_id c') (cs_id c)) (cl_sessions s) = Some c.
Proof.
  intros [_ Hids _ _] Hc. induction (cl_sessions s) as [|x l IH]; [inversion Hc|].
  rewrite fmap_cons in Hids. apply NoDup_cons in Hids as [Hx Hids]. cbn [List.find]. apply elem_of_cons in Hc as [->|Hc].
  - unfold same_client_id, strneq, streq. by rewrite bool_decide_true.
  - unfold same_client_id, strneq, streq. rewrite bool_decide_false; [by apply IH|].
    intros Heq. apply Hx. assert (client_id_key x = client_id_key c) as -> by exact Heq.
    by apply list_elem_of_fmap_2.
Qed.

Lemma release_keeps L c : preserves (same_sessions L) (release_channels c).
Proof. unfold release_channels. keep. apply un_modify; [apply _|done]. Qed.

Lemma media_remove_keeps L p m : preserves (same_sessions L) (rtsp_client_session_media_remove p m).
Proof. unfold rtsp_client_session_media_remove. keep. apply un_upd; [apply _|done]. Qed.

Lemma delete_same_addresses p (l k : list rtsp_client_session) :
  cs_ptr <$> l = cs_ptr <$> k → cs_ptr <$> delete_obj cs_ptr p l = cs_ptr <$> delete_obj cs_ptr p k.
Proof.
  revert k. induction l as [|x l IH]; intros [|y k] H; try discriminate H; [done|].
  injection H as E1 E2. cbn. rewrite E1. case_decide; [done|]. rewrite !fmap_cons. by rewrite E1, (IH k).
Qed.

(** The session of the id, and no other, is removed. *)
Lemma remove_session_addresses s c status r s' :
  client_inv s → c ∈ cl_sessions s →
  rtsp_client_remove_session_internal (Some (cs_id c)) status false s = Some (r, s') →
  addresses s' = cs_ptr <$> delete_obj cs_ptr (cs_ptr c) (cl_sessions s).
Proof.
  intros Hs Hc (found & s1 & Hf & H)%bind_inv.
  injection Hf as <- <-. rewrite find_same_id in H by (done || apply Hs). cbn [fmap option_fmap option_map] in H.
  apply bind_inv in H as (c' & s1 & (_ & ->)%csession_at_inv & H).
  apply bind_inv in H as (u & s1 & Hm & H). apply bind_inv in H as (u2 & s2 & Hcb & H).
  apply bind_inv in H as (u3 & s3 & [= _ <-] & [= _ <-]).
  assert (same_sessions (addresses s) s2) as Hs2.
  { eapply preserves_run; [| |exact Hcb]; [apply un_ccallback, _|].
    eapply preserves_run; [| |exact Hm]; [|done]. apply preserves_for_each. intros m.
    apply preserves_bind; [apply release_keeps|]. intros _. apply preserves_ignore, media_remove_keeps. }
  by apply delete_same_addresses.
Qed.

Lemma filter_all (l here : list ptr) : Forall (fun q => q ∈ here) l → filter (fun q => q ∈ here) l = l.
Proof. intros H. induction H; [done|]. rewrite filter_cons_True by done. by f_equal. Qed.

Lemma remove_all_loop l s r s' :
  client_inv s → addresses s = l →
  list_walk_safe csession_addrs (fun p =>
    s ← csession_at p;
    ignore (rtsp_client_remove_session_internal (Some (cs_id s)) 0 false)) l (head l) s = Some (r, s') →
  addresses s' = [].
Proof.
  revert s. induction l as [|p l IH]; intros s Hs Hl; [by intros [= _ <-]|].
  cbn [list_walk_safe head]. rewrite decide_True by done. intros (here & s1 & Hh & H)%bind_inv.
  apply bind_inv in Hh as (x & s2 & [= <- <-] & [= <- <-]).
  fold (addresses s) in H. rewrite Hl in H. rewrite bool_decide_true in H by left.
  apply bind_inv in H as (u & s1 & (c & s2 & [Hc ->]%csession_at_inv & Hrm)%bind_inv & H).
  apply bind_inv in Hrm as (res & s2 & Hrm & [= _ <-]).
  apply find_obj_Some in Hc as [Hc <-].
  unfold first_of in H. rewrite filter_all in H by (apply Forall_forall; intros; by right).
  eapply IH; [| |exact H].
  - eapply preserves_run; [apply keeps_remove_session|exact Hs|exact Hrm].
  - rewrite (remove_session_addresses _ _ _ _ _ Hs Hc Hrm).
    unfold addresses in Hl. destruct (cl_sessions s) as [|y k]; [done|].
    injection Hl as E1 E2. cbn. by rewrite decide_True.
Qed.

Lemma remove_all_triple : triple client_inv rtsp_client_remove_all_sessions (fun _ s => cl_sessions s = []).
Proof.
  intros s r s' Hs (l & s1 & (x & s2 & [= <- <-] & [= <- <-])%bind_inv & H)%bind_inv.
  apply remove_all_loop in H; [|done|done]. unfold addresses in H. by apply fmap_nil_inv in H.
Qed.
(** ** Disconnection *)

(** The event of the disconnection that the client asked for. *)
Lemma disconnected_triple :
  triple (in_state RTSP_CLIENT_CONN_STATE_DISCONNECTING) client_disconnected
    (fun _ => in_state RTSP_CLIENT_CONN_STATE_DISCONNECTED).
Proof.
  intros s r s' Hs (u & s1 & [= _ <-] & (c & s2 & [= <- <-] & H)%bind_inv)%bind_inv.
  cbn [cl_conn_state set_cl_sock] in H. rewrite Hs in H.
  apply bind_inv in H as (u1 & s2 & _ & (u2 & s3 & _ & H)%bind_inv).
  by apply (set_connection_state_triple (fun _ => True)) in H.
Qed.

(** Without the event the state stays. *)
Lemma stop_triple :
  triple (in_state RTSP_CLIENT_CONN_STATE_DISCONNECTING) tskt_client_stop
    (fun _ s => in_state RTSP_CLIENT_CONN_STATE_DISCONNECTED s ∨
       in_state RTSP_CLIENT_CONN_STATE_DISCONNECTING s ∧ ∃ out, snd (client_stop out) = false).
Proof.
  intros s r s' Hs (out & s1 & [= <- <-] & H)%bind_inv.
  destruct (client_stop (cl_out s)) as [ret event] eqn:Hst.
  apply bind_inv in H as (u & s1 & [= _ <-] & (u2 & s2 & Hd & [= _ <-])%bind_inv).
  destruct event; cbn [when] in Hd.
  - left. by apply disconnected_triple in Hd.
  - injection Hd as _ <-. right. split; [done|]. exists (cl_out s). by rewrite Hst.
Qed.

End disconnect.

