(* ===== verification/ClientReplies.v ===== *)
(** * The messages of the server

    What the client does with a response that is not the one it waits for, with the
    response to a DESCRIBE request, and with requests. *)

From S2P Require Import Prelude CString CNumber Writer Url Methods Transport AuthHeader Auth CFloat.
From S2P Require Import TimeRange Framing HeaderLine HeaderFields Request Response Message.
From S2P Require Import ObjList StateMonad ClientState ClientSession ClientRequest Client ClientRun.
From S2P Require Import ClientSample ClientLogic ClientInv.
From stdpp Require Import options.

Local Open Scope Z_scope.

(** ** The timeout of the keep alive *)

(** C37: The period of the keep alive: 2 s without a timeout of the server, and 40 %
    of a timeout of up to 5368709 s; it fits the [int] that it is passed as.  The
    product wraps around beyond: for a timeout of 2^27 s the period is 0, and the
    timer is not set at all. *)
Theorem keep_alive_timeout_bounds t :
  0 <= t <= UINT_MAX →
  0 <= keep_alive_timeout t <= INT_MAX ∧
  (t = 0 → keep_alive_timeout t = 2000) ∧
  (0 < t <= 5368709 → keep_alive_timeout t = 400 * t) ∧
  (t = 2 ^ 27 → keep_alive_timeout t = 0).
Proof.
  intros Ht. unfold keep_alive_timeout, RTSP_CLIENT_DEFAULT_RESP_TIMEOUT_MS, wrapu, INT_MAX,
    UINT_MAX in *. split_and!.
  - case_match; dlia.
  - case_match; dlia.
  - by intros ->.
  - intros Ht'. case_match; [|lia]. rewrite Z.mod_small by (cbn; lia). dlia.
  - by intros ->.
Qed.

Lemma keep_alive_timeout_bounds_witness :
  0 <= 60 <= UINT_MAX ∧
  (0 <= keep_alive_timeout 60 <= INT_MAX ∧
   (60 = 0 → keep_alive_timeout 60 = 2000) ∧
   (0 < 60 <= 5368709 → keep_alive_timeout 60 = 400 * 60) ∧
   (60 = 2 ^ 27 → keep_alive_timeout 60 = 0)).
Proof.
  assert (0 <= 60 <= UINT_MAX) as H by (unfold UINT_MAX; lia).
  split; [exact H|exact (keep_alive_timeout_bounds 60 H)].
Defined.

Section replies.
Context `{T : LocalTime} `{E : ClientEnv}.

(** ** Responses with another number *)

(** The sessions whose keep alive waits for a response. *)
Definition keeping_alive (s : rtsp_client) : list rtsp_client_session :=
  filter (fun c => cs_keep_alive_in_progress c = true) (cl_sessions s).

Lemma find_keeping (l : list rtsp_client_session) c :
  List.find cs_keep_alive_in_progress l = Some c → c ∈ l ∧ cs_keep_alive_in_progress c = true.
Proof. intros [H1 H2]%find_some. split; [by apply list_elem_of_In|done]. Qed.

Lemma drop_one (l : list rtsp_client_session) p f :
  (∀ c, cs_ptr (f c) = cs_ptr c ∧ cs_keep_alive_in_progress (f c) = false) →
  NoDup (cs_ptr <$> l) →
  (∃ c, c ∈ l ∧ cs_ptr c = p ∧ cs_keep_alive_in_progress c = true) →
  length (filter (fun c => cs_keep_alive_in_progress c = true) l) =
  S (length (filter (fun c => cs_keep_alive_in_progress c = true) (update_obj cs_ptr p f l))).
Proof.
  intros Hf. induction l as [|x l IH]; [intros _ (c & H & _); inversion H|].
  rewrite fmap_cons, NoDup_cons. intros [Hx Hnd] (c & [->|Hc]%elem_of_cons & Hp & Hk); cbn [update_obj].
  - rewrite decide_True by done. rewrite filter_cons_True by done.
    rewrite filter_cons_False by (destruct (Hf x) as [_ ->]; done). done.
  - rewrite decide_False by (intros Hxp; apply Hx; rewrite Hxp, <- Hp; by apply list_elem_of_fmap_2).
    specialize (IH Hnd (ex_intro _ c (conj Hc (conj Hp Hk)))). rewrite !filter_cons.
    case_decide; cbn; by rewrite IH.
Qed.

Lemma reset_timer_inv p ms s r s' :
  reset_keep_alive_timer p ms s = Some (r, s') →
  s' = s ∨ ∃ t, s' = set_cl_sessions (update_obj cs_ptr p (set_cs_timer t) (cl_sessions s)) s.
Proof.
  unfold reset_keep_alive_timer. destruct (ms =? 0); [intros [= _ <-]; by left|].
  destruct (0 <? ms); cbv zeta.
  - intros (u & s1 & Hu & [= _ <-])%bind_inv. destruct (client_timer_set ms <? 0); cbn [negb when] in Hu.
    + injection Hu as _ <-. by left.
    + apply upd_csession_inv in Hu as (_ & ->). eauto.
  - intros (u & s1 & (_ & ->)%upd_csession_inv & [= _ <-])%bind_inv. eauto.
Qed.

Lemma keeping_set_timer p t (l : list rtsp_client_session) :
  length (filter (fun c => cs_keep_alive_in_progress c = true) (update_obj cs_ptr p (set_cs_timer t) l))
  = length (filter (fun c => cs_keep_alive_in_progress c = true) l).
Proof.
  induction l as [|x l IH]; [done|]. cbn [update_obj]. case_decide; rewrite !filter_cons; cbn; [by case_decide|].
  case_decide; cbn; by rewrite IH.
Qed.

(** C17: A response with another [CSeq] than that of the last request never completes
    a request: nothing is sent, no callback is called and nothing but the sessions
    changes.  If no keep alive is waiting it is refused with [EPROTO], and the
    sessions are the same; otherwise it is taken for the response to one of them,
    which alone stops waiting. *)
Theorem other_cseq_ignored h body s r s' :
  client_reachable s → rp_cseq h ≠ rq_cseq (cl_header s) →
  rtsp_client_response_process h body s = Some (r, s') →
  s' = set_cl_sessions (cl_sessions s') s ∧
  (keeping_alive s = [] → r = - EPROTO ∧ s' = s) ∧
  (keeping_alive s ≠ [] → r = 0 ∧ length (keeping_alive s) = S (length (keeping_alive s'))).
Proof.
  intros [[Hnd _ _ _] _ _ _ _ _]%client_reachable_inv Hcseq (hd & s1 & [= <- <-] & H)%bind_inv.
  assert ((rp_cseq h =? rq_cseq (cl_header s)) = false) as Hne by lia.
  rewrite Hne in H. cbn [negb] in H. apply bind_inv in H as (l & s1 & [= <- <-] & H).
  destruct (List.find _ _) as [c|] eqn:Hf.
  - apply find_keeping in Hf as [Hc Hk].
    apply bind_inv in H as (u & s1 & (_ & ->)%upd_csession_inv & H).
    apply bind_inv in H as (c' & s1 & (_ & ->)%csession_at_inv & H).
    apply bind_inv in H as (u' & s1 & (x & s2 & Ht & [= _ <-])%bind_inv & [= <- <-]).
    assert (length (keeping_alive s) = S (length (keeping_alive s2)) ∧
            s2 = set_cl_sessions (cl_sessions s2) s) as [Hl Hs2].
    { unfold keeping_alive.
      rewrite (drop_one (cl_sessions s) (cs_ptr c) (set_cs_keep_alive_in_progress false)) by eauto.
      apply reset_timer_inv in Ht as [->|[t ->]]; cbn; [done|]. by rewrite keeping_set_timer. }
    split; [done|]. split; [|done]. intros Hnil. exfalso. rewrite Hnil in Hl. done.
  - injection H as <- <-. split; [by destruct s|]. split; [done|]. intros Hk. exfalso. apply Hk.
    destruct (keeping_alive s) as [|c l] eqn:Hl; [done|].
    assert (c ∈ keeping_alive s) as [Hkc Hc]%list_elem_of_filter by (rewrite Hl; left).
    apply list_elem_of_In, (find_none _ _ Hf) in Hc. congruence.
Qed.

(** ** The response to a DESCRIBE request *)

(** The challenge of the server, for the user of the URL. *)
Definition challenged (h : rtsp_response_header) (s : rtsp_client) : rtsp_client :=
  match rp_authenticate h with
  | Some a =>
      set_cl_auth (Some (with_username (rtsp_url_get_user (cl_url s)) a))
        (set_cl_server_auth (Some a) s)
  | None => s
  end.

(** No request is pending any more. *)
Definition completed (s : rtsp_client) : rtsp_client :=
  set_cl_timer None (set_cl_userdata 0 (set_cl_uri None (set_cl_is_pending false
    (set_cl_header rtsp_request_header_clear s)))).

(** A 401 without a challenge is the end of the authentication there was. *)
Definition unauthorized (h : rtsp_response_header) (s : rtsp_client) : rtsp_client :=
  if (rp_status_code h =? 401) && bool_decide (rp_authenticate h = None)
     && bool_decide (is_Some (cl_server_auth s))
  then set_cl_auth None (set_cl_server_auth None s) else s.

Lemma update_auth_eq h s :
  (is_Some (rp_authenticate h) → cl_auth s = None) →
  update_auth_from_server (rp_authenticate h) s = Some (tt, challenged h s).
Proof.
  intros Ha. unfold challenged. destruct (rp_authenticate h) as [a|]; [|done].
  do 3 (eapply bind_intro; [reflexivity|]). cbn [cl_auth set_cl_server_auth].
  by rewrite Ha by done.
Qed.

Lemma forget_auth_eq h s : forget_auth h s = Some (tt, unauthorized h s).
Proof.
  unfold forget_auth, unauthorized. eapply bind_intro; [reflexivity|]. by destruct (_ && _).
Qed.

(** The client after a response, before its application is called. *)
Definition settled (h : rtsp_response_header) (s : rtsp_client) : rtsp_client :=
  unauthorized h (completed (challenged h s)).

Lemma userdata_challenged h s : cl_userdata (challenged h s) = cl_userdata s.
Proof. unfold challenged. by destruct (rp_authenticate h). Qed.

(** The status of the request that a response makes. *)
Definition answer_status (h : rtsp_response_header) : rtsp_client_req_status :=
  if status_class_of (rp_status_code h) =? 2 then RTSP_CLIENT_REQ_STATUS_OK
  else RTSP_CLIENT_REQ_STATUS_FAILED.

Lemma response_status_ok h : response_status RTSP_CLIENT_REQ_STATUS_OK h = answer_status h.
Proof.
  unfold response_status, answer_status.
  change (bool_decide (RTSP_CLIENT_REQ_STATUS_OK = RTSP_CLIENT_REQ_STATUS_OK)) with true.
  by destruct (status_class_of _ =? 2).
Qed.

(** A request without a session and without channels is completed by its method. *)
Lemma sessionless_completes hd h body s :
  rq_method hd ≠ RTSP_METHOD_TYPE_SETUP → rq_session_id hd = None → rp_session_id h = None →
  rp_status_code h ≠ 454 → (is_Some (rp_authenticate h) → cl_auth s = None) →
  complete_request hd (Some h) body RTSP_CLIENT_REQ_STATUS_OK s =
  ('(internal_teardown, session_removed) ←
     method_complete (rq_method hd) None None (rq_uri hd) (ChannelPair 0 0) (answer_status h) h
       body (cl_userdata s) false;
   session_removed ←
     (if (internal_teardown : bool) then
        err ← send_teardown None None None 0 0 RTSP_CLIENT_DEFAULT_RESP_TIMEOUT_MS true;
        mret (if err <? 0 then true else session_removed)
      else mret session_removed);
   when session_removed
     (ignore (rtsp_client_remove_session_internal None (rp_status_code h) false));;
   mret 0) (settled h s).
Proof.
  intros Hm Hreq Hresp Hst Ha. unfold complete_request. cbv zeta.
  change (default (dummy_response (rq_session_id hd) RTSP_CLIENT_REQ_STATUS_OK) (Some h)) with h.
  rewrite Hreq, Hresp.
  assert ((rp_status_code h =? 454) = false) as -> by lia.
  rewrite response_status_ok.
  eapply bind_intro; [unfold requested_channels; rewrite bool_decide_false by done; reflexivity|].
  eapply bind_intro; [by apply update_auth_eq|]. eapply bind_intro; [reflexivity|].
  eapply bind_intro; [reflexivity|]. fold (completed (challenged h s)).
  eapply bind_intro; [apply forget_auth_eq|]. eapply bind_intro; [reflexivity|].
  fold (settled h s). rewrite userdata_challenged.
  assert (bool_decide (answer_status h = RTSP_CLIENT_REQ_STATUS_TIMEOUT) = false) as ->
    by (unfold answer_status; by destruct (_ =? 2)).
  done.
Qed.

Lemma describe_completes hd h body s :
  rq_method hd = RTSP_METHOD_TYPE_DESCRIBE → rq_session_id hd = None → rp_session_id h = None →
  rp_status_code h ≠ 454 → (is_Some (rp_authenticate h) → cl_auth s = None) →
  complete_request hd (Some h) body RTSP_CLIENT_REQ_STATUS_OK s =
  (ccallback (OnDescribeResp (answer_status h) (rtsp_status_to_errno (rp_status_code h))
     (description_base h (rq_uri hd)) (rp_ext h) body (cl_userdata s));; mret 0) (settled h s).
Proof.
  intros Hm ????. rewrite sessionless_completes by congruence || done. rewrite Hm.
  cbn [method_complete]. unfold mbind, SM_bind. by destruct (ccallback _ _) as [[[] s2]|].
Qed.

Lemma options_completes hd h body s :
  rq_method hd = RTSP_METHOD_TYPE_OPTIONS → rq_session_id hd = None → rp_session_id h = None →
  rp_status_code h ≠ 454 → (is_Some (rp_authenticate h) → cl_auth s = None) →
  complete_request hd (Some h) body RTSP_CLIENT_REQ_STATUS_OK s =
  (ccallback (OnOptionsResp (answer_status h) (rtsp_status_to_errno (rp_status_code h))
     (rp_public_methods h) (rp_ext h) (cl_userdata s));; mret 0)
    (set_cl_methods_allowed (rp_public_methods h) (settled h s)).
Proof.
  intros Hm ????. rewrite sessionless_completes by congruence || done. rewrite Hm.
  cbn [method_complete]. unfold mbind, SM_bind, modify.
  by destruct (ccallback _ _) as [[[] s2]|].
Qed.

(** A response with the number of the pending request completes it. *)
Lemma pending_response h body s :
  cl_is_pending s = true → rp_cseq h = rq_cseq (cl_header s) →
  rtsp_client_response_process h body s =
  (res ← complete_request (cl_header s) (Some h) body RTSP_CLIENT_REQ_STATUS_OK;
   modify (set_cl_failed_requests 0);; mret res) s.
Proof.
  intros Hp Hcseq. unfold rtsp_client_response_process.
  eapply bind_intro; [reflexivity|]. rewrite Hcseq, Z.eqb_refl. cbn [negb].
  unfold request_complete. rewrite bool_decide_false by done.
  unfold request_complete_now, complete_pending, mbind, SM_bind, gets. rewrite Hp. cbn [negb].
  by destruct (complete_request _ _ _ _ s) as [[res s1]|].
Qed.

(** C16: The response to a pending DESCRIBE request, of any status, completes it:
    the application is called once, with the status of the request, the errno and
    the extensions of the response, its body, and the content base that the
    response names or else the URI of the request; and it is called in a client
    with no pending request, no timer and a cleared header, that has taken the
    challenge of a 401, or forgotten its authentication after one without a
    challenge: the application can make the next request in the callback. *)
Theorem describe_answered h body s :
  cl_is_pending s = true → rq_method (cl_header s) = RTSP_METHOD_TYPE_DESCRIBE →
  rp_cseq h = rq_cseq (cl_header s) → rq_session_id (cl_header s) = None →
  rp_session_id h = None → rp_status_code h ≠ 454 →
  (is_Some (rp_authenticate h) → cl_auth s = None) →
  rtsp_client_response_process h body s =
  (ccallback (OnDescribeResp (answer_status h) (rtsp_status_to_errno (rp_status_code h))
     (description_base h (rq_uri (cl_header s))) (rp_ext h) body (cl_userdata s));;
   modify (set_cl_failed_requests 0);; mret 0) (settled h s).
Proof.
  intros Hp Hm Hcseq Hreq Hresp Hst Ha. rewrite pending_response by done.
  unfold mbind, SM_bind. rewrite describe_completes by done. unfold mbind, SM_bind.
  by destruct (ccallback _ _) as [[[] s2]|].
Qed.

(** C38: A request of the server to tear down a session that the client does not
    know is not answered: the client sends nothing, does not call the application
    and is the same as before. *)
Theorem unknown_teardown_unanswered h body s :
  rq_method h = RTSP_METHOD_TYPE_TEARDOWN →
  (∀ id, rq_session_id h = Some id →
         Forall (fun c => same_client_id (cs_id c) id = false) (cl_sessions s)) →
  rtsp_client_request_process h body s = Some (- ENOENT, s).
Proof.
  intros Hm Hid. unfold rtsp_client_request_process.
  assert (rtsp_client_get_session (rq_session_id h) false s = Some (None, s)) as Hget.
  { unfold rtsp_client_get_session. destruct (rq_session_id h) as [id|]; [|done].
    specialize (Hid id eq_refl). eapply bind_intro with (a := None); [|done].
    eapply bind_intro; [reflexivity|]. destruct (List.find _ _) as [c|] eqn:Hf; [|done].
    apply find_some in Hf as [Hc%list_elem_of_In Hs]. rewrite Forall_forall in Hid.
    rewrite (Hid c Hc) in Hs. done. }
  eapply bind_intro with (a := inl (- ENOENT)) (s1 := s); [|done].
  unfold request_status. rewrite Hm. eapply bind_intro with (a := - ENOENT) (s1 := s); [|done].
  unfold teardown_request_process. eapply bind_intro; [exact Hget|]. done.
Qed.
End replies.

(** ** Concrete inputs *)

(** The response to a keep alive comes with another number. *)
Lemma other_cseq_ignored_witness :
  ∃ s s', client_run (T := stub_time) (E := client_env idle_app true)
            (setup_events ++ [KeepAliveTimer 0]) new_client = Some s ∧
    let h := set_rp_status_code 200 (set_rp_cseq 99 rtsp_response_header_clear) in
    rtsp_client_response_process (T := stub_time) (E := client_env idle_app true) h [] s
      = Some (0, s') ∧
    (s' = set_cl_sessions (cl_sessions s') s ∧
     (keeping_alive s = [] → 0 = - EPROTO ∧ s' = s) ∧
     (keeping_alive s ≠ [] → 0 = 0 ∧ length (keeping_alive s) = S (length (keeping_alive s')))).
Proof.
  destruct (client_ends_with_run (T := stub_time) (E := client_env idle_app true)
    (setup_events ++ [KeepAliveTimer 0]) new_client
    (fun s => (rq_cseq (cl_header s) =? 3) &&
       match rtsp_client_response_process (T := stub_time) (E := client_env idle_app true)
               (set_rp_status_code 200 (set_rp_cseq 99 rtsp_response_header_clear)) [] s with
       | Some (0, _) => true | _ => false end)) as (s & Hr & Hs); [vm_compute; reflexivity|].
  apply andb_true_iff in Hs as [Hc%Z.eqb_eq Hp].
  destruct (rtsp_client_response_process (T := stub_time) (E := client_env idle_app true)
    (set_rp_status_code 200 (set_rp_cseq 99 rtsp_response_header_clear)) [] s)
    as [[[| |] s']|] eqn:Hrun; try discriminate Hp.
  exists s, s'. split; [exact Hr|]. split; [exact Hrun|].
  assert (99 ≠ rq_cseq (cl_header s)) as Hne by (rewrite Hc; discriminate).
  exact (other_cseq_ignored (T := stub_time) (E := client_env idle_app true)
           (set_rp_status_code 200 (set_rp_cseq 99 rtsp_response_header_clear)) [] s 0 s'
           (client_run_reachable _ _ _ new_client_reachable Hr) Hne Hrun).
Defined.

(** A 401 with a challenge. *)
Definition challenge : rtsp_authorization_header :=
  Auth RTSP_AUTH_TYPE_BASIC RTSP_AUTH_ALGORITHM_MD5 None None None None 0 None
    (Some (cs "live")) None None RTSP_AUTH_QOP_UNKNOWN.

Definition challenged_describe : rtsp_response_header :=
  set_rp_authenticate (Some challenge)
    (set_rp_status_code 401 (set_rp_cseq 1 rtsp_response_header_clear)).

Definition waiting_for_description : rtsp_client :=
  default new_client (client_run (T := stub_time) (E := client_env idle_app true)
    (connected_to client_sample_url ++ [DoRequest (CallDescribe None None 0 7 4000)]) new_client).

Lemma describe_answered_witness :
  cl_is_pending waiting_for_description = true ∧
  rtsp_client_response_process (T := stub_time) (E := client_env idle_app true)
    challenged_describe [] waiting_for_description =
  (ccallback (T := stub_time) (E := client_env idle_app true)
     (OnDescribeResp (answer_status challenged_describe) (rtsp_status_to_errno 401)
       (description_base challenged_describe (rq_uri (cl_header waiting_for_description)))
       (rp_ext challenged_describe) [] (cl_userdata waiting_for_description));;
   modify (set_cl_failed_requests 0);; mret 0)
    (settled challenged_describe waiting_for_description).
Proof.
  split; [vm_compute; reflexivity|].
  assert (401 ≠ 454) as H454 by discriminate.
  exact (describe_answered (T := stub_time) (E := client_env idle_app true) challenged_describe []
           waiting_for_description ltac:(by vm_compute) ltac:(by vm_compute) ltac:(by vm_compute)
           ltac:(by vm_compute) eq_refl H454 (fun _ => ltac:(by vm_compute))).
Defined.

Definition teardown_of_server : rtsp_request_header :=
  set_rq_session_id (Some (cs "87654321")) (set_rq_uri (Some (cs "rtsp://192.168.42.1/live"))
    (set_rq_method RTSP_METHOD_TYPE_TEARDOWN rtsp_request_header_clear)).

Lemma unknown_teardown_unanswered_witness :
  ∃ s, client_run (T := stub_time) (E := client_env idle_app true) setup_events new_client = Some s ∧
    map cs_id (cl_sessions s) = [client_session_id] ∧
    rtsp_client_request_process (T := stub_time) (E := client_env idle_app true)
      teardown_of_server [] s = Some (- ENOENT, s).
Proof.
  destruct (client_ends_with_run (T := stub_time) (E := client_env idle_app true) setup_events
    new_client (fun s => bool_decide (map cs_id (cl_sessions s) = [client_session_id])))
    as (s & Hr & Hs); [vm_compute; reflexivity|].
  apply bool_decide_eq_true_1 in Hs.
  assert (∀ id, rq_session_id teardown_of_server = Some id →
    Forall (fun c => same_client_id (cs_id c) id = false) (cl_sessions s)) as Hid.
  { intros id [= <-]. destruct (cl_sessions s) as [|c [|c' l]]; try discriminate Hs.
    injection Hs as Hs. repeat constructor. by rewrite Hs. }
  exists s. split; [exact Hr|]. split; [exact Hs|].
  exact (unknown_teardown_unanswered (T := stub_time) (E := client_env idle_app true)
           teardown_of_server [] s eq_refl Hid).
Defined.
