(* ===== verification/ClientKeepAlive.v ===== *)
(** * Keep alive without a connection

    What the keep alive timer of a session does while the client is not connected:
    it tries three times, and then gives the session up. *)

From S2P Require Import Prelude CString CNumber Writer Url Methods Transport AuthHeader Auth CFloat.
From S2P Require Import TimeRange Framing HeaderLine HeaderFields Request Response Message.
From S2P Require Import ObjList StateMonad ClientState ClientSession ClientRequest Client ClientRun.
From S2P Require Import ClientSample ClientLogic ClientInv ClientCalls ClientDisconnect.
From stdpp Require Import options.

Local Open Scope Z_scope.

Section offline.
Context `{T : LocalTime} `{E : ClientEnv}.

Definition offline (s : rtsp_client) : Prop := cl_conn_state s ≠ RTSP_CLIENT_CONN_STATE_CONNECTED.

(** ** Callbacks *)

Lemma call_offline c s : offline s → ignore (run_client_call c) s = Some (tt, s).
Proof.
  intros Hs. destruct (decide (is_request c = true)) as [Hc|Hc].
  - destruct (request_refused c s Hc (may_request_offline s Hs)) as (r & _ & H).
    by apply (ignore_eq _ _ _ _ H).
  - destruct c as [| | | | | | | |channel data]; try done. cbn [run_client_call].
    assert (∃ r, rtsp_client_send_interleaved channel data s = Some (r, s)) as (r & H);
      [|by apply (ignore_eq _ _ _ _ H)].
    unfold rtsp_client_send_interleaved. destruct data as [d|]; [|by eexists]. case_match; [by eexists|].
    do 2 (erewrite bind_eq; [|reflexivity]). rewrite bool_decide_false by done. by eexists.
Qed.

(** Whatever the application does when it is called, it is only told. *)
Lemma ccallback_offline o s :
  offline s → ccallback o s = Some (tt, set_cl_out (cl_out s ++ [o]) s).
Proof.
  intros Hs. unfold ccallback, client_event. do 2 (erewrite bind_eq; [|reflexivity]).
  set (s1 := set_cl_out _ _). assert (offline s1) as Hs1 by done.
  induction (client_app (cl_out s1)) as [|c l IH]; [done|]. cbn [for_each].
  by rewrite (bind_eq _ _ _ _ _ (call_offline c s1 Hs1)).
Qed.

(** ** The end of a session *)

(** The flags when the medias [l] are removed. *)
Definition free_channels (channel_used : list bool) (l : list rtsp_client_session_media) : list bool :=
  foldl (fun used m => set_channel_pair_used used (cm_channel_pair m) false) channel_used l.

(** The client without the session [c], of which the application was told. *)
Definition forgotten (c : rtsp_client_session) (status : Z) (s : rtsp_client) : rtsp_client :=
  set_cl_out (cl_out s ++ [OnSessionRemoved (cs_id c) (rtsp_status_to_errno status)])
    (set_cl_channel_used (free_channels (cl_channel_used s) (cs_medias c))
      (set_cl_sessions (delete_obj cs_ptr (cs_ptr c) (cl_sessions s)) s)).

Lemma csession_at_eq p c s : find_obj cs_ptr p (cl_sessions s) = Some c → csession_at p s = Some (c, s).
Proof. intros H. unfold csession_at. erewrite bind_eq; [|reflexivity]. by rewrite H. Qed.

Lemma upd_csession_eq p c f s :
  find_obj cs_ptr p (cl_sessions s) = Some c →
  upd_csession p f s = Some (tt, set_cl_sessions (update_obj cs_ptr p f (cl_sessions s)) s).
Proof. intros H. unfold upd_csession. by rewrite (bind_eq _ _ _ _ _ (csession_at_eq _ _ _ H)). Qed.

Lemma release_channels_eq pair s :
  release_channels pair s = Some (tt, set_cl_channel_used
    (set_channel_pair_used (cl_channel_used s) pair false) s).
Proof.
  unfold release_channels, set_channel_pair_used. destruct (is_channel_pair_valid _); [done|].
  by destruct s.
Qed.

Lemma media_release p c m s :
  find_obj cs_ptr p (cl_sessions s) = Some c →
  ∃ f, (∀ x, cs_ptr (f x) = cs_ptr x) ∧
    (release_channels (cm_channel_pair m);; ignore (rtsp_client_session_media_remove p (cm_ptr m))) s
    = Some (tt, set_cl_channel_used (set_channel_pair_used (cl_channel_used s) (cm_channel_pair m) false)
                  (set_cl_sessions (update_obj cs_ptr p f (cl_sessions s)) s)).
Proof.
  intros Hc. set (s1 := set_cl_channel_used
    (set_channel_pair_used (cl_channel_used s) (cm_channel_pair m) false) s).
  assert (release_channels (cm_channel_pair m) s = Some (tt, s1)) as H1 by apply release_channels_eq.
  rewrite (bind_eq _ _ _ _ _ H1).
  assert (find_obj cs_ptr p (cl_sessions s1) = Some c) as Hc1 by done.
  unfold ignore, rtsp_client_session_media_remove.
  destruct (decide (cm_ptr m ∈ cm_ptr <$> cs_medias c)) as [Hm|Hm].
  - eexists. split; [|erewrite bind_eq; [reflexivity|]];
      [|erewrite bind_eq; [|exact (csession_at_eq _ _ _ Hc1)]; rewrite bool_decide_true by done;
        by erewrite bind_eq; [|exact (upd_csession_eq _ _ _ _ Hc1)]].
    done.
  - exists id. split; [done|]. erewrite bind_eq;
      [|erewrite bind_eq; [|exact (csession_at_eq _ _ _ Hc1)]; by rewrite bool_decide_false by done].
    rewrite update_obj_id. unfold s1. by destruct s.
Qed.

Lemma medias_released p l s :
  is_Some (find_obj cs_ptr p (cl_sessions s)) →
  ∃ k, for_each (fun m =>
         release_channels (cm_channel_pair m);;
         ignore (rtsp_client_session_media_remove p (cm_ptr m))) l s
       = Some (tt, set_cl_channel_used (free_channels (cl_channel_used s) l) (set_cl_sessions k s)) ∧
    delete_obj cs_ptr p k = delete_obj cs_ptr p (cl_sessions s).
Proof.
  revert s. induction l as [|m l IH]; intros s [c Hc].
  - exists (cl_sessions s). split; [|done]. by destruct s.
  - destruct (media_release p c m s Hc) as (f & Hf & Hm). set (s1 := set_cl_channel_used _ _) in Hm.
    destruct (IH s1) as (k & Hk & Hd); [unfold s1; cbn; rewrite find_update_obj, Hc by done; by eexists|].
    exists k. cbn [for_each]. rewrite (bind_eq _ _ _ _ _ Hm), Hk. split; [by destruct s|].
    rewrite Hd. unfold s1. cbn. by apply delete_update_obj.
Qed.

(** Without a connection a session is removed with its channels, and nothing else
    happens, whatever the application does when it is told. *)
Lemma remove_session_offline c status s :
  wf_client s → c ∈ cl_sessions s → offline s →
  rtsp_client_remove_session_internal (Some (cs_id c)) status false s
  = Some (0, forgotten c status s).
Proof.
  intros Hwf Hc Hs. unfold rtsp_client_remove_session_internal, rtsp_client_session_find.
  eapply bind_intro; [erewrite bind_eq; [|reflexivity]; by rewrite find_same_id|].
  cbn [fmap option_fmap option_map].
  assert (find_obj cs_ptr (cs_ptr c) (cl_sessions s) = Some c) as Hf by (apply find_obj_elem; [apply Hwf|done]).
  eapply bind_intro; [exact (csession_at_eq _ _ _ Hf)|].
  destruct (medias_released (cs_ptr c) (cs_medias c) s) as (k & Hk & Hd); [by eexists|].
  eapply bind_intro; [exact Hk|]. eapply bind_intro; [by apply ccallback_offline|].
  cbn. unfold modify, mbind, SM_bind, mret, SM_ret, forgotten. cbn. by rewrite Hd.
Qed.

(** ** The timer *)

(** The server has GET_PARAMETER, as far as the client knows. *)
Definition keeps_alive (s : rtsp_client) : Prop :=
  ((cl_methods_allowed s =? 0)
   || negb (Z.land (cl_methods_allowed s) RTSP_METHOD_FLAG_GET_PARAMETER =? 0)) = true.

(** The period of the attempts, and the timer when it could be set. *)
Definition retry_ms (c : rtsp_client_session) : Z :=
  s32 (cs_timeout_ms c / RTSP_CLIENT_MAX_FAILED_KEEP_ALIVE).
Definition retry_timer (c : rtsp_client_session) : option Z :=
  if (0 <? retry_ms c) && negb (client_timer_set (retry_ms c) <? 0) then Some (retry_ms c) else None.

(** The session after [k] attempts. *)
Definition after_attempts (k : Z) (c : rtsp_client_session) : rtsp_client_session :=
  set_cs_failed_keep_alive k (set_cs_timer (retry_timer c) c).

Lemma reset_timer_eq p c ms s :
  find_obj cs_ptr p (cl_sessions s) = Some c → cs_timer c = None →
  ∃ r, reset_keep_alive_timer p ms s
    = Some (r, set_cl_sessions (update_obj cs_ptr p
        (set_cs_timer (if (0 <? ms) && negb (client_timer_set ms <? 0) then Some ms else None))
        (cl_sessions s)) s).
Proof.
  intros Hc Ht. assert (set_cl_sessions (update_obj cs_ptr p (set_cs_timer None) (cl_sessions s)) s = s) as Hid.
  { rewrite (update_obj_ext cs_ptr p (set_cs_timer None) id (cl_sessions s) c); [|done|by destruct c; cbn in *; subst].
    rewrite update_obj_id. by destruct s. }
  unfold reset_keep_alive_timer. destruct (ms =? 0) eqn:H0.
  - assert ((0 <? ms) = false) as -> by lia. cbn [andb]. rewrite Hid. eauto.
  - destruct (0 <? ms); cbn [andb]; cbv zeta.
    + destruct (client_timer_set ms <? 0); cbn [negb when].
      * rewrite Hid. eexists. by erewrite bind_eq; [|reflexivity].
      * eexists. by erewrite bind_eq; [|exact (upd_csession_eq _ _ _ _ Hc)].
    + eexists. by erewrite bind_eq; [|exact (upd_csession_eq _ _ _ _ Hc)].
Qed.

(** The session [c] is changed by [f], and found again. *)
Lemma update_session p c f s :
  client_inv s → find_obj cs_ptr p (cl_sessions s) = Some c → cinert f →
  let s' := set_cl_sessions (update_obj cs_ptr p f (cl_sessions s)) s in
  upd_csession p f s = Some (tt, s') ∧ client_inv s' ∧ find_obj cs_ptr p (cl_sessions s') = Some (f c).
Proof.
  intros Hinv Hc Hf s'. pose proof (upd_csession_eq _ _ f _ Hc) as Hu. split_and!; [done| |].
  - eapply preserves_run; [|exact Hinv|exact Hu]. by apply keeps_upd_csession.
  - cbn. rewrite find_update_obj, Hc; [done|]. intros x. by destruct (Hf x).
Qed.

(** The changes of [c] are forgotten with it. *)
Lemma forgotten_update p c f status s :
  cs_ptr c = p → (∀ x, cs_ptr (f x) = cs_ptr x ∧ cs_id (f x) = cs_id x ∧ cs_medias (f x) = cs_medias x) →
  forgotten (f c) status (set_cl_sessions (update_obj cs_ptr p f (cl_sessions s)) s)
  = forgotten c status s.
Proof.
  intros Hp Hf. destruct (Hf c) as (H1 & H2 & H3). unfold forgotten. cbn.
  rewrite H1, H2, H3, Hp, delete_update_obj; [done|]. intros x. by destruct (Hf x).
Qed.

Lemma keep_alive_failed_offline p c s :
  client_inv s → find_obj cs_ptr p (cl_sessions s) = Some c → cs_timer c = None → offline s →
  let k := u32 (cs_failed_keep_alive c + 1) in
  ignore (keep_alive_failed p) s = Some (tt,
    if k <? RTSP_CLIENT_MAX_FAILED_KEEP_ALIVE
    then set_cl_sessions (update_obj cs_ptr p (after_attempts k) (cl_sessions s)) s
    else forgotten c (- EPIPE) s).
Proof.
  intros Hinv Hc Ht Hs k.
  set (f := fun c => set_cs_failed_keep_alive (u32 (cs_failed_keep_alive c + 1)) c).
  destruct (update_session p c f s Hinv Hc) as (Hu & Hi & Hf); [by intros []|].
  set (s1 := set_cl_sessions _ _) in *. apply find_obj_Some in Hc as Hcp.
  unfold ignore, keep_alive_failed. fold f.
  rewrite (bind_eq _ _ _ (- if k <? RTSP_CLIENT_MAX_FAILED_KEEP_ALIVE then EAGAIN else EPIPE)
    (if k <? RTSP_CLIENT_MAX_FAILED_KEEP_ALIVE
    then set_cl_sessions (update_obj cs_ptr p (after_attempts k) (cl_sessions s)) s
    else forgotten c (- EPIPE) s)); [done|].
  eapply bind_intro; [exact Hu|]. eapply bind_intro; [exact (csession_at_eq _ _ _ Hf)|].
  assert (cs_failed_keep_alive (f c) = k) as -> by done.
  rewrite Z.leb_antisym. destruct (k <? RTSP_CLIENT_MAX_FAILED_KEEP_ALIVE); cbn [negb].
  - destruct (reset_timer_eq p (f c) (retry_ms c) s1 Hf Ht) as (r & Hr).
    eapply bind_intro; [exact (ignore_eq _ _ _ _ Hr)|].
    unfold mret, SM_ret, s1. cbn. rewrite update_obj_twice by done.
    by rewrite (update_obj_ext cs_ptr p _ (after_attempts k) _ c).
  - assert (rtsp_client_remove_session_internal (Some (cs_id (f c))) (- EPIPE) false s1
      = Some (0, forgotten c (- EPIPE) s)) as Hr.
    { rewrite (remove_session_offline (f c)); [|apply Hi|by apply find_obj_Some in Hf as []|done].
      do 2 f_equal. apply forgotten_update; [by destruct Hcp|done]. }
    by eapply bind_intro; [exact (ignore_eq _ _ _ _ Hr)|].
Qed.

Lemma send_keep_alive_offline p ms s :
  offline s → keeps_alive s → send_keep_alive p ms s = keep_alive_failed p s.
Proof.
  intros Hs Hk. unfold send_keep_alive, method_allowed.
  eapply bind_intro; [erewrite bind_eq; [|reflexivity]; reflexivity|]. rewrite Hk. cbn [negb].
  eapply bind_intro; [reflexivity|]. by rewrite bool_decide_false.
Qed.

(** One attempt. *)
Lemma keep_alive_offline p c s :
  client_inv s → find_obj cs_ptr p (cl_sessions s) = Some c → offline s → keeps_alive s →
  let k := u32 (cs_failed_keep_alive c + 1) in
  rtsp_client_pomp_timer_cb p s = Some (tt,
    if k <? RTSP_CLIENT_MAX_FAILED_KEEP_ALIVE
    then set_cl_sessions (update_obj cs_ptr p (after_attempts k) (cl_sessions s)) s
    else forgotten c (- EPIPE) s).
Proof.
  intros Hinv Hc Hs Hk k.
  destruct (update_session p c (set_cs_timer None) s Hinv Hc) as (Hu & Hi & Hf); [by intros []|].
  apply find_obj_Some in Hc as Hcp.
  unfold rtsp_client_pomp_timer_cb. eapply bind_intro; [exact Hu|].
  assert (∀ m s', send_keep_alive p m s' = keep_alive_failed p s' →
    ignore (send_keep_alive p m) s' = ignore (keep_alive_failed p) s') as Hig
    by (intros m s' H; unfold ignore, mbind, SM_bind; by rewrite H).
  rewrite Hig, (keep_alive_failed_offline p _ _ Hi Hf eq_refl Hs) by by apply send_keep_alive_offline.
  cbn [cs_failed_keep_alive set_cs_timer]. fold k. case_match.
  - cbn. rewrite update_obj_twice by done. by rewrite (update_obj_ext cs_ptr p _ (after_attempts k) _ c).
  - rewrite forgotten_update; [done|by destruct Hcp|done].
Qed.

(** The timer of the session expires [n] times. *)
Fixpoint expiries (n : nat) (p : ptr) : CM unit :=
  match n with
  | O => skip
  | S n => rtsp_client_pomp_timer_cb p;; expiries n p
  end.

(** The client after [n > 0] of them. *)
Definition after_expiries (n : nat) (c : rtsp_client_session) (s : rtsp_client) : rtsp_client :=
  let k := cs_failed_keep_alive c + Z.of_nat n in
  if k <? RTSP_CLIENT_MAX_FAILED_KEEP_ALIVE
  then set_cl_sessions (update_obj cs_ptr (cs_ptr c) (after_attempts k) (cl_sessions s)) s
  else forgotten c (- EPIPE) s.

Lemma expiries_offline n c s :
  client_inv s → find_obj cs_ptr (cs_ptr c) (cl_sessions s) = Some c → offline s → keeps_alive s →
  0 <= cs_failed_keep_alive c →
  cs_failed_keep_alive c + Z.of_nat (S n) <= RTSP_CLIENT_MAX_FAILED_KEEP_ALIVE →
  expiries (S n) (cs_ptr c) s = Some (tt, after_expiries (S n) c s).
Proof.
  revert c s. induction n as [|n IH]; intros c s Hinv Hc Hs Hk H0 Hn;
    pose proof (keep_alive_offline _ c s Hinv Hc Hs Hk) as H1; cbv zeta in H1;
    unfold RTSP_CLIENT_MAX_FAILED_KEEP_ALIVE in Hn; rewrite wrapu_small in H1 by (cbn; lia);
    change (expiries (S ?n) (cs_ptr c)) with (rtsp_client_pomp_timer_cb (cs_ptr c);; expiries n (cs_ptr c));
    (eapply bind_intro; [exact H1|]).
  - done.
  - assert ((cs_failed_keep_alive c + 1 <? RTSP_CLIENT_MAX_FAILED_KEEP_ALIVE) = true) as ->
      by (unfold RTSP_CLIENT_MAX_FAILED_KEEP_ALIVE; lia).
    set (f := after_attempts (cs_failed_keep_alive c + 1)).
    destruct (update_session _ c f s Hinv Hc) as (_ & Hi & Hf); [by intros []|].
    set (s1 := set_cl_sessions _ _) in *.
    etrans; [apply (IH (f c) s1 Hi Hf Hs Hk); cbn;
      unfold RTSP_CLIENT_MAX_FAILED_KEEP_ALIVE; lia|]. do 2 f_equal. unfold after_expiries. replace (cs_failed_keep_alive (f c) + Z.of_nat (S n))
      with (cs_failed_keep_alive c + Z.of_nat (S (S n))) by (cbn; lia).
    clear H1. case_match; unfold s1; [|by apply forgotten_update].
    cbn. by rewrite update_obj_twice.
Qed.

(** C36: While the client is not connected, a session whose keep alive timer expires is
    given up at the third attempt, and not before: the first two only count, and set
    the timer again, to a third of the period of the session; nothing is sent, no
    callback is called and nothing else of the client changes.  The third one removes
    the session, and no other: its channels, and no others, are free, and the
    application is told that session, once, with [EPIPE].  This holds whatever the
    application does when it is told. *)
Theorem keep_alive_gives_up c s :
  client_reachable s → find_obj cs_ptr (cs_ptr c) (cl_sessions s) = Some c →
  offline s → keeps_alive s → cs_failed_keep_alive c = 0 →
  (∀ n, 1 <= Z.of_nat n <= 2 → expiries n (cs_ptr c) s = Some (tt, set_cl_sessions
    (update_obj cs_ptr (cs_ptr c) (after_attempts (Z.of_nat n)) (cl_sessions s)) s)) ∧
  ∃ s', expiries 3 (cs_ptr c) s = Some (tt, s') ∧
    cl_sessions s' = delete_obj cs_ptr (cs_ptr c) (cl_sessions s) ∧
    find_obj cs_ptr (cs_ptr c) (cl_sessions s') = None ∧
    cl_channel_used s' = free_channels (cl_channel_used s) (cs_medias c) ∧
    cl_out s' = cl_out s ++ [OnSessionRemoved (cs_id c) (- EPIPE)].
Proof.
  intros Hinv%client_reachable_inv Hc Hs Hk H0.
  assert (∀ n, (n < 3)%nat → expiries (S n) (cs_ptr c) s = Some (tt, after_expiries (S n) c s)) as Hn
    by (intros n Hn; apply expiries_offline; try done; rewrite H0;
        unfold RTSP_CLIENT_MAX_FAILED_KEEP_ALIVE; lia).
  unfold after_expiries in Hn. rewrite H0 in Hn. split.
  - intros [|n] H; [lia|]. rewrite Hn by lia. cbv zeta.
    rewrite Z.add_0_l, (proj2 (Z.ltb_lt _ RTSP_CLIENT_MAX_FAILED_KEEP_ALIVE)); [done|].
    unfold RTSP_CLIENT_MAX_FAILED_KEEP_ALIVE. lia.
  - eexists. split; [by apply Hn; lia|]. split_and!; [done| |done..]. cbn.
    apply find_obj_None, delete_obj_gone, Hinv.
Qed.
End offline.

(** Two medias are set up, and the server goes away. *)
Definition lost_events : list client_step_event := setup_events ++ [SocketDisconnected].

Definition lost_client : rtsp_client :=
  default new_client (client_run (T := stub_time) (E := client_env idle_app true) lost_events new_client).

Definition lost_session : rtsp_client_session :=
  default (ClientSession 0 [] None None 0 0 false false 0 []) (head (cl_sessions lost_client)).

Lemma keep_alive_gives_up_witness :
  cl_channel_used lost_client = map (fun i => (i <? 4)%nat) (seq 0 256) ∧
  cs_medias lost_session ≠ [] ∧
  (∀ n, 1 <= Z.of_nat n <= 2 →
    expiries (T := stub_time) (E := client_env idle_app true) n (cs_ptr lost_session) lost_client
    = Some (tt, set_cl_sessions (update_obj cs_ptr (cs_ptr lost_session)
        (after_attempts (E := client_env idle_app true) (Z.of_nat n)) (cl_sessions lost_client)) lost_client)) ∧
  ∃ s', expiries (T := stub_time) (E := client_env idle_app true) 3 (cs_ptr lost_session) lost_client
      = Some (tt, s') ∧
    cl_sessions s' = delete_obj cs_ptr (cs_ptr lost_session) (cl_sessions lost_client) ∧
    find_obj cs_ptr (cs_ptr lost_session) (cl_sessions s') = None ∧
    cl_channel_used s' = free_channels (cl_channel_used lost_client) (cs_medias lost_session) ∧
    cl_out s' = cl_out lost_client ++ [OnSessionRemoved (cs_id lost_session) (- EPIPE)].
Proof.
  split; [vm_compute; reflexivity|]. split; [vm_compute; discriminate|].
  assert (client_run (T := stub_time) (E := client_env idle_app true) lost_events new_client
          = Some lost_client) as Hr by (vm_compute; reflexivity).
  apply (keep_alive_gives_up (T := stub_time) (E := client_env idle_app true) lost_session lost_client).
  - exact (client_run_reachable _ _ _ new_client_reachable Hr).
  - vm_compute. reflexivity.
  - vm_compute. discriminate.
  - vm_compute. reflexivity.
  - vm_compute. reflexivity.
Defined.
