(* ===== verification/ClientTimeouts.v ===== *)
(** * Requests without a response

    A request that times out, that the application cancels, or that is pending when
    the connection ends is completed: the application is told, once. *)

From S2P Require Import Prelude CString CNumber Writer Url Methods Transport AuthHeader Auth CFloat.
From S2P Require Import TimeRange Framing HeaderLine HeaderFields Request Response Message.
From S2P Require Import ObjList StateMonad ClientState ClientSession ClientRequest Client ClientRun.
From S2P Require Import ClientSample ClientLogic ClientReplies ClientKeepAlive.
From stdpp Require Import options.

Local Open Scope Z_scope.

(** What the application is told of the end of a request: the method, the status,
    the errno and its user data. *)
Definition answer_of (o : client_output)
    : option (rtsp_method_type * rtsp_client_req_status * Z * Z) :=
  match o with
  | OnOptionsResp status err _ _ u => Some (RTSP_METHOD_TYPE_OPTIONS, status, err, u)
  | OnDescribeResp status err _ _ _ u => Some (RTSP_METHOD_TYPE_DESCRIBE, status, err, u)
  | OnAnnounceResp status err _ u => Some (RTSP_METHOD_TYPE_ANNOUNCE, status, err, u)
  | OnSetupResp _ status err _ _ _ _ _ u => Some (RTSP_METHOD_TYPE_SETUP, status, err, u)
  | OnPlayResp _ status err _ _ _ _ _ _ _ u => Some (RTSP_METHOD_TYPE_PLAY, status, err, u)
  | OnPauseResp _ status err _ _ u => Some (RTSP_METHOD_TYPE_PAUSE, status, err, u)
  | OnRecordResp _ status err _ u => Some (RTSP_METHOD_TYPE_RECORD, status, err, u)
  | OnTeardownResp _ status err _ u => Some (RTSP_METHOD_TYPE_TEARDOWN, status, err, u)
  | _ => None
  end.

Section unanswered.
Context `{T : LocalTime} `{E : ClientEnv}.

(** ** The session of the request *)

(** Some sessions, the content base of the request and new addresses: what the
    completion of the session changes. *)
Definition with_sessions (n : ptr) (b : option cstr) (l : list rtsp_client_session) (s : rtsp_client)
    : rtsp_client :=
  set_cl_next_ptr n (set_cl_content_base b (set_cl_sessions l s)).

Lemma with_sessions_same s : s = with_sessions (cl_next_ptr s) (cl_content_base s) (cl_sessions s) s.
Proof. by destruct s. Qed.

(** A session that is there. *)
Definition present (p : ptr) (s : rtsp_client) : Prop := is_Some (find_obj cs_ptr p (cl_sessions s)).

Lemma upd_present p f s :
  present p s → (∀ x, cs_ptr (f x) = cs_ptr x) →
  ∃ l, upd_csession p f s = Some (tt, set_cl_sessions l s) ∧ present p (set_cl_sessions l s).
Proof.
  intros [c Hc] Hf. eexists. split; [exact (upd_csession_eq _ _ _ _ Hc)|].
  unfold present. cbn. rewrite find_update_obj, Hc by done. by eexists.
Qed.

Lemma reset_timer_present p ms s :
  present p s → ∃ r l, reset_keep_alive_timer p ms s = Some (r, set_cl_sessions l s) ∧
    present p (set_cl_sessions l s).
Proof.
  intros Hp. assert (s = set_cl_sessions (cl_sessions s) s) as Hid by (by destruct s).
  unfold reset_keep_alive_timer.
  destruct (ms =? 0); [exists 0, (cl_sessions s); by rewrite <- Hid|].
  destruct (0 <? ms); cbv zeta.
  - destruct (client_timer_set ms <? 0); cbn [negb when].
    + exists (client_timer_set ms), (cl_sessions s). by rewrite <- Hid.
    + destruct (upd_present p (set_cs_timer (Some ms)) s Hp) as (l & Hl & Hl'); [done|].
      do 2 eexists. split; [by eapply bind_intro; [exact Hl|]|done].
  - destruct (upd_present p (set_cs_timer None) s Hp) as (l & Hl & Hl'); [done|].
    do 2 eexists. split; [by eapply bind_intro; [exact Hl|]|done].
Qed.

(** The session is found, or made for SETUP, or there is none. *)
Lemma get_session_total id add s :
  ∃ o n l, rtsp_client_get_session (Some id) add s
    = Some (o, with_sessions n (cl_content_base s) l s) ∧
    (∀ p, o = Some p → present p (with_sessions n (cl_content_base s) l s)).
Proof.
  unfold rtsp_client_get_session, rtsp_client_session_find.
  destruct (List.find (fun c => same_client_id (cs_id c) id) (cl_sessions s)) as [c|] eqn:Hf.
  - exists (Some (cs_ptr c)), (cl_next_ptr s), (cl_sessions s). rewrite <- with_sessions_same. split.
    + eapply bind_intro; [eapply bind_intro; [reflexivity|]; by rewrite Hf|]. done.
    + intros p [= <-]. apply find_some in Hf as [Hin%list_elem_of_In _].
      unfold present. destruct (find_obj cs_ptr (cs_ptr c) (cl_sessions s)) eqn:Hn; [by eexists|].
      apply find_obj_None in Hn. destruct Hn. by apply list_elem_of_fmap_2.
  - destruct add.
    + exists (Some (cl_next_ptr s)), (S (cl_next_ptr s)),
        (cl_sessions s ++ [ClientSession (cl_next_ptr s) id None None 0 0 false false 0 []]). split.
      * eapply bind_intro; [eapply bind_intro; [reflexivity|]; by rewrite Hf|].
        eapply bind_intro; [eapply bind_intro; [reflexivity|]; eapply bind_intro; reflexivity|].
        eapply bind_intro; [reflexivity|]. by destruct s.
      * intros p [= <-]. unfold present.
        cbn [with_sessions cl_sessions set_cl_next_ptr set_cl_content_base set_cl_sessions].
        rewrite find_obj_app. case_match; [by eexists|]. cbn. rewrite decide_True by done. by eexists.
    + exists None, (cl_next_ptr s), (cl_sessions s). rewrite <- with_sessions_same. split; [|done].
      eapply bind_intro; [eapply bind_intro; [reflexivity|]; by rewrite Hf|]. done.
Qed.

Lemma complete_session_total m id h s :
  ∃ r se n b l, complete_session m id h s = Some ((r, se), with_sessions n b l s).
Proof.
  destruct id as [id|];
    [|exists 0, None, (cl_next_ptr s), (cl_content_base s), (cl_sessions s); by rewrite <- with_sessions_same].
  destruct (get_session_total id (bool_decide (m = RTSP_METHOD_TYPE_SETUP)) s) as (o & n & l & Hg & Hp).
  unfold complete_session. destruct o as [p|].
  - specialize (Hp p eq_refl).
    set (f := fun s => set_cs_timeout_ms (keep_alive_timeout (rp_session_timeout h))
                (set_cs_keep_alive_in_progress false s)).
    destruct (upd_present p f _ Hp) as (l1 & H1 & P1); [done|].
    destruct (reset_timer_present p (s32 (keep_alive_timeout (rp_session_timeout h))) _ P1)
      as (r & l2 & H2 & P2).
    destruct (upd_present p (take_base (cl_content_base s)) _ P2) as (l3 & H3 & P3);
      [by intros x; unfold take_base; repeat case_match|].
    exists 0, (Some p), n, None, l3.
    eapply bind_intro; [exact Hg|]. cbv beta iota zeta. fold f.
    eapply bind_intro; [exact H1|]. eapply bind_intro; [exact (ignore_eq _ _ _ _ H2)|].
    eapply bind_intro; [reflexivity|]. eapply bind_intro; [exact H3|].
    eapply bind_intro; [reflexivity|]. unfold with_sessions. by destruct s.
  - do 2 eexists. exists n, (cl_content_base s), l. by eapply bind_intro; [exact Hg|].
Qed.

(** ** The request *)

(** The channels of a SETUP request. *)
Definition asked_channels (h : rtsp_request_header) : rtsp_channel_pair :=
  match rq_method h, rq_transport h with
  | RTSP_METHOD_TYPE_SETUP, Some t :: _ =>
      if bool_decide (tr_lower_transport t = RTSP_LOWER_TRANSPORT_TCP)
      then default (ChannelPair 0 0) (head (tr_interleaved t)) else ChannelPair 0 0
  | _, _ => ChannelPair 0 0
  end.

Lemma requested_channels_eq h s :
  Forall is_Some (rq_transport h) → requested_channels h s = Some (asked_channels h, s).
Proof.
  intros Ht. unfold requested_channels, asked_channels. case_bool_decide as Hm.
  - rewrite Hm. destruct (rq_transport h) as [|t l]; [done|].
    apply Forall_cons in Ht as [[x ->] _]. done.
  - by destruct (rq_method h).
Qed.

(** The requests of the application of which every end is told. *)
Definition is_told (m : rtsp_method_type) : bool :=
  match m with
  | RTSP_METHOD_TYPE_OPTIONS | RTSP_METHOD_TYPE_DESCRIBE | RTSP_METHOD_TYPE_ANNOUNCE
  | RTSP_METHOD_TYPE_SETUP | RTSP_METHOD_TYPE_PLAY | RTSP_METHOD_TYPE_PAUSE
  | RTSP_METHOD_TYPE_RECORD => true
  | _ => false
  end.

(** The errno that stands for a response that did not come. *)
Definition errno_of (status : rtsp_client_req_status) : Z :=
  if bool_decide (status = RTSP_CLIENT_REQ_STATUS_TIMEOUT) then - ETIMEDOUT else - EPROTO.

(** [s1] is [s] without its request: the next one can be made, and the channels
    that this one asked for are free. *)
Record request_over (s s1 : rtsp_client) : Prop := RequestOver {
  over_pending : cl_is_pending s1 = false;
  over_timer : cl_timer s1 = None;
  over_header : cl_header s1 = rtsp_request_header_clear;
  over_state : cl_conn_state s1 = cl_conn_state s;
  over_channels : cl_channel_used s1 =
    set_channel_pair_used (cl_channel_used s) (asked_channels (cl_header s)) false;
  over_out : cl_out s1 = cl_out s
}.

Lemma conj_swap (P Q : Prop) : Q → P → P ∧ Q.
Proof. by split. Qed.

Lemma same_allowed y s :
  set_cl_methods_allowed (cl_methods_allowed s) (set_cl_channel_used y s) = set_cl_channel_used y s.
Proof. by destruct s. Qed.

Lemma same_channels s : set_cl_channel_used (cl_channel_used s) s = s.
Proof. by destruct s. Qed.

(** Only the methods that are allowed and the channels change before. *)
Lemma method_complete_told m se id uri pair status h u removed s :
  is_told m = true → status ≠ RTSP_CLIENT_REQ_STATUS_OK →
  (m ≠ RTSP_METHOD_TYPE_SETUP → is_channel_pair_valid pair = false) →
  ∃ o x, answer_of o = Some (m, status, rtsp_status_to_errno (rp_status_code h), u) ∧
    method_complete m se id uri pair status h [] u removed s
    = (ccallback o;; mret (false, removed))
        (set_cl_methods_allowed x (set_cl_channel_used
          (set_channel_pair_used (cl_channel_used s) pair false) s)).
Proof.
  intros Hm Hst Hpair.
  assert (m ≠ RTSP_METHOD_TYPE_SETUP → set_channel_pair_used (cl_channel_used s) pair false = cl_channel_used s)
    as Hy by (intros Hn; unfold set_channel_pair_used; by rewrite Hpair).
  destruct m; try discriminate Hm; cbn [method_complete];
    unfold setup_request_complete, play_request_complete, pause_request_complete;
    rewrite ?bool_decide_false by done; cbn [negb]; rewrite ?Hy by done.
  1: eexists; exists (rp_public_methods h).
  2-7: eexists; exists (cl_methods_allowed s).
  all: apply conj_swap;
    [rewrite ?same_allowed, ?same_channels; unfold mbind, SM_bind; try rewrite release_channels_eq; reflexivity
    |reflexivity].
Qed.

Lemma unanswered_completes status s :
  is_told (rq_method (cl_header s)) = true → Forall is_Some (rq_transport (cl_header s)) →
  status ≠ RTSP_CLIENT_REQ_STATUS_OK →
  ∃ r o s1, complete_request (cl_header s) None [] status s = (ccallback o;; mret r) s1 ∧
    answer_of o = Some (rq_method (cl_header s), status, errno_of status, cl_userdata s) ∧
    request_over s s1.
Proof.
  intros Hm Ht Hst. set (hd := cl_header s).
  set (h := dummy_response (rq_session_id hd) status).
  assert (rp_status_code h = if bool_decide (status = RTSP_CLIENT_REQ_STATUS_TIMEOUT) then 408 else 0)
    as Hcode by done.
  assert (response_status status h = status) as Hrs by (unfold response_status; by rewrite bool_decide_false).
  assert ((rp_status_code h =? 454) = false) as H454 by (rewrite Hcode; by case_bool_decide).
  assert ((rp_status_code h =? 401) = false) as H401 by (rewrite Hcode; by case_bool_decide).
  assert (rtsp_status_to_errno (rp_status_code h) = errno_of status) as Herr
    by (rewrite Hcode; unfold errno_of; by case_bool_decide).
  destruct (complete_session_total (rq_method hd) (rq_session_id hd) h (completed s)) as (r & se & n & b & l & Hse).
  destruct (method_complete_told (rq_method hd) se (rq_session_id hd) (rq_uri hd) (asked_channels hd) status h
    (cl_userdata s) false (with_sessions n b l (completed s)) Hm Hst) as (o & x & Ho & Hmc).
  { intros Hn. unfold asked_channels. by destruct (rq_method hd). }
  set (s1 := set_cl_methods_allowed _ _) in Hmc.
  exists r, o, s1. split; [|split; [by rewrite <- Herr|]].
  - unfold complete_request. cbv zeta. change (default _ None) with h.
    eapply bind_intro; [by apply requested_channels_eq|].
    eapply bind_intro; [reflexivity|]. eapply bind_intro; [reflexivity|].
    eapply bind_intro; [reflexivity|]. fold (completed s). rewrite Hrs.
    eapply bind_intro with (s1 := completed s).
    { unfold forget_auth. eapply bind_intro; [reflexivity|]. by rewrite H401. }
    change (rp_session_id h) with (rq_session_id hd).
    replace (match rq_session_id hd with Some id => Some id | None => rq_session_id hd end)
      with (rq_session_id hd) by (by destruct (rq_session_id hd)).
    eapply bind_intro; [exact Hse|]. cbv beta iota zeta. rewrite H454.
    unfold mbind at 1, SM_bind at 1. rewrite Hmc. unfold mbind, SM_bind.
    by destruct (ccallback o s1) as [[[] s2]|].
  - done.
Qed.

(** A request of which the end is told. *)
Definition awaited (s : rtsp_client) : Prop :=
  cl_is_pending s = true ∧ is_told (rq_method (cl_header s)) = true ∧
  Forall is_Some (rq_transport (cl_header s)).

Lemma complete_pending_eq status s :
  awaited s → complete_pending None [] status s
              = (res ← complete_request (cl_header s) None [] status; mret (Some res)) s.
Proof.
  intros (Hp & _). unfold complete_pending. eapply bind_intro; [reflexivity|]. rewrite Hp. cbn [negb].
  by eapply bind_intro.
Qed.

Lemma completes_now status s :
  awaited s → status ≠ RTSP_CLIENT_REQ_STATUS_OK →
  ∃ r o s1, request_complete_now None [] status s
    = (ccallback o;; modify (set_cl_failed_requests 0);; mret r) s1 ∧
    answer_of o = Some (rq_method (cl_header s), status, errno_of status, cl_userdata s) ∧
    request_over s s1.
Proof.
  intros Ha Hst. pose proof Ha as (Hp & Hm & Ht).
  destruct (unanswered_completes status s Hm Ht Hst) as (r & o & s1 & H & Ho & Hs).
  exists r, o, s1. split; [|done]. unfold request_complete_now, mbind at 1, SM_bind at 1.
  rewrite complete_pending_eq by done. unfold mbind, SM_bind. rewrite H. unfold mbind, SM_bind.
  by destruct (ccallback o s1) as [[[] s2]|].
Qed.

(** The execution [run] from [s] tells the application that its request has ended
    with [status], once it is over, and goes on with [rest]. *)
Definition tells_end (s : rtsp_client) (status : rtsp_client_req_status) (rest : CM unit)
    (run : option (unit * rtsp_client)) : Prop :=
  ∃ o s1, run = (ccallback o;; rest) s1 ∧ request_over s s1 ∧
    answer_of o = Some (rq_method (cl_header s), status, errno_of status, cl_userdata s).

(** C12: Without a response every request of the application but TEARDOWN is still
    completed, once, however it ends: when its timer expires, when the application
    cancels it, and when the connection is lost.  The application is called, with
    the method, the user data and the status of this end ([TIMEOUT], [CANCELED] or
    [ABORTED]), in a client that can make the next request, where nothing was sent
    or told before and the channels that a SETUP had taken are free again; only then
    is the connection dealt with. *)
Theorem unanswered_request_told s :
  awaited s →
  tells_end s RTSP_CLIENT_REQ_STATUS_TIMEOUT count_failed_request (rtsp_client_resp_timeout_cb s) ∧
  tells_end s RTSP_CLIENT_REQ_STATUS_CANCELED (modify (set_cl_failed_requests 0)) (ignore rtsp_client_cancel s) ∧
  (cl_conn_state s = RTSP_CLIENT_CONN_STATE_CONNECTED →
   tells_end s RTSP_CLIENT_REQ_STATUS_ABORTED
     (modify (set_cl_failed_requests 0);; set_connection_state RTSP_CLIENT_CONN_STATE_CONNECTING)
     (client_disconnected s)).
Proof.
  intros Ha. split_and!.
  - set (s0 := set_cl_timer None s). assert (awaited s0) as Ha0 by done. pose proof Ha0 as (Hp & Hm & Ht).
    destruct (unanswered_completes RTSP_CLIENT_REQ_STATUS_TIMEOUT s0 Hm Ht) as (r & o & s1 & H & Ho & [Hs]); [done|].
    exists o, s1. split; [|by split].
    unfold rtsp_client_resp_timeout_cb. eapply bind_intro; [reflexivity|]. fold s0.
    unfold request_complete. rewrite bool_decide_true by done. unfold ignore, mbind, SM_bind.
    rewrite complete_pending_eq by done. unfold mbind, SM_bind. rewrite H. unfold mbind, SM_bind.
    destruct (ccallback o s1) as [[[] s2]|]; [|done]. cbn. by destruct (count_failed_request s2) as [[[] s3]|].
  - destruct (completes_now RTSP_CLIENT_REQ_STATUS_CANCELED s Ha) as (r & o & s1 & H & Ho & Hs); [done|].
    exists o, s1. split; [|by split]. unfold rtsp_client_cancel, request_complete.
    rewrite bool_decide_false by done. unfold ignore, mbind, SM_bind. rewrite H. unfold mbind, SM_bind.
    by destruct (ccallback o s1) as [[[] s2]|].
  - intros Hc. set (s0 := set_cl_sock false s). assert (awaited s0) as Ha0 by done.
    destruct (completes_now RTSP_CLIENT_REQ_STATUS_ABORTED s0 Ha0) as (r & o & s1 & H & Ho & [Hs]); [done|].
    exists o, s1. split; [|by split]. unfold client_disconnected. eapply bind_intro; [reflexivity|].
    eapply bind_intro; [reflexivity|]. fold s0. change (cl_conn_state s0) with (cl_conn_state s). rewrite Hc.
    unfold ignore, mbind, SM_bind. rewrite H. unfold mbind, SM_bind.
    by destruct (ccallback o s1) as [[[] s2]|].
Qed.
End unanswered.

(** A SETUP over TCP waits for its response. *)
Definition waiting_for_setup : rtsp_client :=
  default new_client (client_run (T := stub_time) (E := client_env idle_app true)
    (connected_to client_sample_url ++ [do_setup "video" None]) new_client).

Lemma unanswered_request_told_witness :
  asked_channels (cl_header waiting_for_setup) = ChannelPair 0 1 ∧
  (tells_end (T := stub_time) (E := client_env idle_app true) waiting_for_setup
     RTSP_CLIENT_REQ_STATUS_TIMEOUT
     (count_failed_request (T := stub_time) (E := client_env idle_app true))
     (rtsp_client_resp_timeout_cb (T := stub_time) (E := client_env idle_app true) waiting_for_setup) ∧
   tells_end (T := stub_time) (E := client_env idle_app true) waiting_for_setup
     RTSP_CLIENT_REQ_STATUS_CANCELED (modify (set_cl_failed_requests 0))
     (ignore (rtsp_client_cancel (T := stub_time) (E := client_env idle_app true)) waiting_for_setup) ∧
   (cl_conn_state waiting_for_setup = RTSP_CLIENT_CONN_STATE_CONNECTED →
    tells_end (T := stub_time) (E := client_env idle_app true) waiting_for_setup
      RTSP_CLIENT_REQ_STATUS_ABORTED
      (modify (set_cl_failed_requests 0);;
       set_connection_state (T := stub_time) (E := client_env idle_app true)
         RTSP_CLIENT_CONN_STATE_CONNECTING)
      (client_disconnected (T := stub_time) (E := client_env idle_app true) waiting_for_setup))).
Proof.
  split; [vm_compute; reflexivity|].
  assert (awaited waiting_for_setup) as Ha.
  { split; [vm_compute; reflexivity|]. split; [vm_compute; reflexivity|].
    apply (bool_decide_unpack _). vm_compute. exact I. }
  exact (unanswered_request_told (T := stub_time) (E := client_env idle_app true) waiting_for_setup Ha).
Defined.
