(* ===== verification/ClientScenarios.v ===== *)
(** * Runs of a client, executed

    Runs on the answers of a server, evaluated, that end otherwise than the
    application would expect. *)

From S2P Require Import Prelude CString CNumber Writer Url Methods Transport AuthHeader Auth CFloat.
From S2P Require Import TimeRange Framing HeaderLine HeaderFields Request Response Message.
From S2P Require Import ObjList StateMonad ClientState ClientSession ClientRequest Client ClientRun.
From S2P Require Import ClientSample.
From stdpp Require Import options.

Local Open Scope Z_scope.

#[local] Existing Instance stub_time.

(** The observation of a run. *)
Definition observed {A} (E : ClientEnv) (es : list client_step_event) (f : rtsp_client → A) : option A :=
  f <$> client_run (E := E) es new_client.

Definition calm_env : ClientEnv := client_env idle_app true.

(** The answers that the application got, in their order, with its user data. *)
Definition answers (s : rtsp_client) : list (string * Z) :=
  omap (fun o => match o with
    | OnOptionsResp _ _ _ _ u => Some ("options"%string, u)
    | OnDescribeResp _ _ _ _ _ u => Some ("describe"%string, u)
    | OnAnnounceResp _ _ _ u => Some ("announce"%string, u)
    | OnSetupResp _ _ _ _ _ _ _ _ u => Some ("setup"%string, u)
    | OnPlayResp _ _ _ _ _ _ _ _ _ _ u => Some ("play"%string, u)
    | OnPauseResp _ _ _ _ _ u => Some ("pause"%string, u)
    | OnRecordResp _ _ _ _ u => Some ("record"%string, u)
    | OnTeardownResp _ _ _ _ u => Some ("teardown"%string, u)
    | _ => None end) (cl_out s).

(** The first words of the requests sent. *)
Definition sent_methods (s : rtsp_client) : list string :=
  map (fun t => match String.index 0 " " t with Some n => String.substring 0 n t | None => t end)
    (client_texts s).

Definition bare_answer (cseq : string) : client_step_event :=
  SocketData (response_text "200 OK" [("CSeq: " ++ cseq)%string; "Session: 12345678"%string] "").

Definition do_play (session_id : cstr) : client_step_event :=
  DoRequest (CallPlay (Some session_id) (Some range_zero) (S754_zero false) None 0 5 4000).
Definition do_pause (session_id : cstr) : client_step_event :=
  DoRequest (CallPause (Some session_id) (Some range_zero) None 0 6 4000).
Definition do_teardown (url : option cstr) (session_id : cstr) : client_step_event :=
  DoRequest (CallTeardown url (Some session_id) None 0 7 4000).

(** While a keep alive is pending the application may make a request, and then
    another one although the first one has no response yet: both are accepted, and
    the response to the first one is taken for that of the keep alive or refused.
    The application of this run makes a PLAY and a PAUSE request behind a keep
    alive; all three are answered 200, and the answer to PLAY is never told. *)
Theorem play_lost_behind_keep_alive :
  observed calm_env
    (setup_events ++ [KeepAliveTimer 0; do_play client_session_id; do_pause client_session_id;
                      bare_answer "3"; bare_answer "4"; bare_answer "5"])
    (fun s => (sent_methods s, answers s, cl_is_pending s))
  = Some (["SETUP"; "SETUP"; "GET_PARAMETER"; "PLAY"; "PAUSE"]%string,
          [("setup", 0); ("setup", 0); ("pause", 6)]%string, false).
Proof. vm_compute. reflexivity. Qed.

(** A request that fails at once, here for a session that is not known, stops the
    timer of a pending keep alive: the keep alive can neither time out nor be
    repeated, for neither of the two timers is set. *)
Theorem keep_alive_stopped_by_failure :
  observed calm_env (setup_events ++ [KeepAliveTimer 0])
    (fun s => (cs_keep_alive_in_progress <$> cl_sessions s, cs_timer <$> cl_sessions s, cl_timer s))
  = Some ([true], [None], Some 4000) ∧
  observed calm_env (setup_events ++ [KeepAliveTimer 0; do_play (cs "unknown")])
    (fun s => (cs_keep_alive_in_progress <$> cl_sessions s, cs_timer <$> cl_sessions s, cl_timer s,
               sent_methods s))
  = Some ([true], [None], None, ["SETUP"; "SETUP"; "GET_PARAMETER"]%string).
Proof. split; vm_compute; reflexivity. Qed.

(** The transport raises the event of a disconnection after [tskt_client_stop] has
    returned. *)
Definition late_env : ClientEnv := client_env idle_app false.

(** A SETUP request for a session that is pending when the application disconnects
    is aborted by the late event, after the sessions were removed: its completion
    makes the session again, and a timer for it, in a client that is disconnected. *)
Theorem aborted_setup_leaves_session :
  observed late_env
    (setup_events ++ [do_setup "text" (Some client_session_id); DoDisconnect; SocketDisconnected])
    (fun s => (cl_conn_state s, cs_id <$> cl_sessions s, cs_timer <$> cl_sessions s))
  = Some (RTSP_CLIENT_CONN_STATE_DISCONNECTED, [client_session_id], [Some 2000]).
Proof. vm_compute. reflexivity. Qed.

Definition unanswered_describe : list client_step_event :=
  [DoRequest (CallDescribe (Some (cs "track1")) None 0 0 4000); RequestTimer].

(** The fifth request in a row that times out while the client is disconnecting
    connects it again, and the event of the disconnection leaves it connecting. *)
Theorem timeout_connects_while_disconnecting :
  observed late_env
    (connected_to client_sample_url ++ concat (replicate 4 unanswered_describe) ++
     [DoRequest (CallDescribe (Some (cs "track1")) None 0 0 4000); DoDisconnect; RequestTimer;
      SocketDisconnected])
    (fun s => (cl_conn_state s, drop 16 (cl_out s)))
  = Some (RTSP_CLIENT_CONN_STATE_CONNECTING,
          [Stop 0; OnConnectionState RTSP_CLIENT_CONN_STATE_CONNECTING;
           Connect (Some (cs "192.168.42.1")) 554 0]).
Proof. vm_compute. reflexivity. Qed.

(** The transport takes nothing for now. *)
Definition full_env : ClientEnv := {|
  client_md5 := client_md5 (ClientEnv := calm_env);
  client_nonce := client_nonce (ClientEnv := calm_env);
  client_uninit := [];
  client_inet4 := fun _ => false;
  client_inet6 := fun _ => false;
  client_timer_set := fun _ => 0;
  client_send := fun _ _ => - EAGAIN;
  client_connect := fun _ => 0;
  client_stop := fun _ => (0, true);
  client_resolve := fun _ => 0;
  client_ttls_init := 0;
  client_ssl_ctx := true;
  client_app := idle_app;
  client_has := fun _ => true;
  client_has_interleaved := true;
  client_has_ready_to_send := true;
  client_has_teardown := true
|}.

Definition setup_call : client_call :=
  CallSetup (Some (cs client_sample_url)) (Some (cs "video")) None RTSP_DELIVERY_UNICAST
    RTSP_LOWER_TRANSPORT_TCP 0 0 RTSP_TRANSPORT_METHOD_PLAY None 0 0 4000.

(** A SETUP request over TCP that cannot be sent keeps its channels: after 128 of
    them none is left, and every later one fails with [E2BIG], although the client
    has no session. *)
Theorem failed_setup_keeps_channels :
  observed full_env (connected_to client_sample_url ++ replicate 128 (DoRequest setup_call))
    (fun s => (count_channel_unused (cl_channel_used s), cl_sessions s,
               fst <$> run_client_call (E := calm_env) setup_call s))
  = Some (0, [], Some (- E2BIG)).
Proof. vm_compute. reflexivity. Qed.

(** The client does not cancel the resolution of a host when it is disconnected:
    the answer, when it comes, is taken for the host of the URL of the next
    connection, which is made to the wrong address. *)
Theorem stale_resolution_connects :
  observed calm_env
    [DoConnect (Some (cs "rtsp://first/live")); DoDisconnect;
     DoConnect (Some (cs "rtsp://second:8554/live")); Resolved (Some (cs "10.0.0.1"))]
    (fun s => (last (cl_out s), rtsp_url_get_host (cl_url s)))
  = Some (Some (Connect (Some (cs "10.0.0.1")) 8554 0), Some (cs "second")).
Proof. vm_compute. reflexivity. Qed.

(** A 200 to SETUP without a Transport header is undefined behaviour; a 200 to a
    TEARDOWN request of a media that the client does not know completes it without
    a call of the application, which waits for ever. *)
Theorem unexpected_answers :
  observed calm_env (connected_to client_sample_url ++ [do_setup "video" None])
    (client_handle (E := calm_env) (bare_answer "1")) = Some None ∧
  observed calm_env
    (setup_events ++ [do_teardown (Some (cs "rtsp://192.168.42.1:554/live/none")) client_session_id;
                      bare_answer "3"])
    (fun s => (answers s, cl_is_pending s, length (cl_sessions s)))
  = Some ([("setup", 0); ("setup", 0)]%string, false, 1%nat).
Proof. split; vm_compute; reflexivity. Qed.
