(* ===== verification/Network.v ===== *)
(** * A client and a server

    The two ends of a connection, each in any environment: what the client sends
    reaches the server in any chunks, and what the server answers reaches the client
    in any chunks.  The results for the two ends compose to what an application of
    the client can rely on. *)

From S2P Require Import Prelude CString CNumber Writer Url Methods Transport AuthHeader CFloat TimeRange.
From S2P Require Import Framing HeaderLine HeaderFields Request Response Message ObjList StateMonad Receiver.
From S2P Require Import ServerState ServerSession ServerRequest ServerReply Server ServerSample.
From S2P Require Import ServerLogic ServerInv ServerExec ServerAnswers ServerStream.
From S2P Require Import ClientState ClientSession ClientRequest Client ClientRun ClientSample.
From S2P Require Import ClientLogic ClientInv ClientStream ClientCalls ClientReplies.
From stdpp Require Import options.

Local Open Scope Z_scope.

Section network.
Context `{T : LocalTime} {L : LocalTimeLaws T} `{SE : Env} `{CE : ClientEnv}.
Hypothesis time_errs : ∀ f t n, errs (time_local_format f t n).

(** Nothing was received that is not handled yet. *)
Definition server_ready (s : rtsp_server) : Prop :=
  wf_server s ∧ sv_request_buf s = [] ∧ sv_parser_ctx s = ctx_init.
Definition client_ready (c : rtsp_client) : Prop :=
  cl_response_buf c = [] ∧ cl_parser_ctx c = ctx_init.

(** The client [c] made a request and became [c'], with [text] as what it sent. *)
Definition requested (c : rtsp_client) (text : bytes) (c' : rtsp_client) : Prop :=
  cl_is_pending c' = true ∧ (∃ ret, cl_out c' = cl_out c ++ [Sent text ret]) ∧
  ∃ body, wf_packet (PktRequest (cl_header c') body) ∧ text = wire (PktRequest (cl_header c') body) ∧
    Zlen text <= INT64_MAX.

Lemma call_requested c call c' :
  is_request call = true → run_client_call call c = Some (0, c') →
  wf_request (cl_header c') = true → scale_ok (rq_scale (cl_header c')) →
  ∃ text, requested c text c'.
Proof using L time_errs.
  intros Hc Hr Hwf Hscale.
  destruct (request_outcome_of time_errs _ _ _ _ Hc Hr)
    as [[_ (Hp & _ & _ & text & ret & _ & Ho & Hw)]|[? _]]; [|lia].
  destruct (written_wire _ _ Hwf Hscale Hw) as (body & Hlen & -> & Hsize).
  eexists. split; [done|]. split; [by eexists|]. exists body. split_and!; [done..|].
  unfold CLIENT_BUF_SIZE in Hsize. assert (4095 <= INT64_MAX) by done. lia.
Qed.

(** The request arrives. *)
Lemma request_arrives c text c' s conn chunks :
  requested c text c' → server_ready s → concat chunks = text →
  ∃ body ctx, idle ctx ∧
    for_each (rtsp_server_pomp_cb conn) chunks s
    = map_state (set_rx [] ctx)
        (ignore (rtsp_server_request_process conn (request_on_wire (cl_header c')) body) s).
Proof using L.
  intros (_ & _ & body & Hwf & -> & Hlen) (_ & Hb & Hx) Hch.
  destruct (server_gets conn _ chunks s Hb Hx Hwf Hch Hlen) as (ctx & Hi & H).
  exists body, ctx. by split.
Qed.

(** The response arrives. *)
Lemma response_arrives h body c chunks :
  client_ready c → wf_packet (PktResponse h body) →
  concat chunks = text_of_response h ++ body → Zlen (text_of_response h ++ body) <= INT64_MAX →
  ∃ ctx, idle ctx ∧
    for_each tskt_client_data_cb chunks c
    = map_state (set_client_rx [] ctx)
        (ignore (rtsp_client_response_process (response_on_wire h) body) c).
Proof using L.
  intros (Hb & Hx) Hwf Hch Hlen.
  exact (client_gets (PktResponse h body) chunks c Hb Hx Hwf Hch Hlen).
Qed.

(** ** Requests without a session *)

(** The header of the request that is being made. *)
Definition sessionless (method : rtsp_method_type) (u : Z) (c : rtsp_client) : Prop :=
  client_ready c ∧ cl_userdata c = u ∧ rq_method (cl_header c) = method ∧
  rq_session_id (cl_header c) = None ∧ rq_transport (cl_header c) = [] ∧
  rq_scale (cl_header c) = S754_zero false ∧ rq_ext (cl_header c) = [].

Lemma sessionless_modify method u f :
  (∀ s, cl_response_buf (f s) = cl_response_buf s ∧ cl_parser_ctx (f s) = cl_parser_ctx s ∧
        cl_userdata (f s) = cl_userdata s ∧ rq_method (cl_header (f s)) = rq_method (cl_header s) ∧
        rq_session_id (cl_header (f s)) = rq_session_id (cl_header s) ∧
        rq_transport (cl_header (f s)) = rq_transport (cl_header s) ∧
        rq_scale (cl_header (f s)) = rq_scale (cl_header s) ∧
        rq_ext (cl_header (f s)) = rq_ext (cl_header s)) →
  preserves (sessionless method u) (modify f).
Proof using Type.
  clear L. intros H. apply preserves_modify. intros s. unfold sessionless, client_ready.
  by destruct (H s) as (-> & -> & -> & -> & -> & -> & -> & ->).
Qed.

Lemma ready_modify f :
  (∀ s, cl_response_buf (f s) = cl_response_buf s ∧ cl_parser_ctx (f s) = cl_parser_ctx s) →
  preserves client_ready (modify f).
Proof using Type.
  clear L. intros H. apply preserves_modify. intros s. unfold client_ready. by destruct (H s) as [-> ->].
Qed.

Hint Extern 1 (preserves (sessionless _ _) (modify _)) => by apply sessionless_modify : keeps.
Hint Extern 1 (preserves (sessionless _ _) (set_header _)) => by apply sessionless_modify : keeps.
Hint Extern 1 (preserves client_ready (modify _)) => by apply ready_modify : keeps.

Lemma ready_may_request : preserves client_ready may_request.
Proof using Type. clear L. unfold may_request, clear_pending_keep_alive_timer. keep. Qed.

Lemma new_header_sessionless method u : triple client_ready (new_header method u) (fun _ => sessionless method u).
Proof using Type. clear L. by intros s [] s' H [= <-]. Qed.

Lemma sessionless_authorize method u optional rest :
  preserves (sessionless method u) rest → preserves (sessionless method u) (authorize optional rest).
Proof using Type.
  clear L. intros H. unfold authorize, number_header, sign_header, generate_authorization_header. keep.
Qed.

Lemma sessionless_submit method u content ms :
  preserves (sessionless method u) (submit_request None 0 content ms).
Proof using Type.
  clear L. unfold submit_request. apply triple_gets. intros s Hs r s' H.
  assert (rtsp_request_header_copy_ext (cl_header s) None 0 = Ok (cl_header s)) as Hx
    by (unfold rtsp_request_header_copy_ext; cbn; by destruct (cl_header s)).
  rewrite Hx in H. apply bind_inv in H as (x & s1 & [= _ <-] & H).
  assert (sessionless method u (set_cl_header (cl_header s) s)) as Hs1 by exact Hs.
  eapply (preserves_run (sessionless method u)); [|exact Hs1|exact H].
  unfold send_client_request, write_in_buffer, send_raw_buf, client_event, set_request_timer,
    request_sent. keep.
Qed.

(** An accepted request has the header of its method. *)
Lemma step_sessionless P method u (m : CM Z) rest :
  preserves P m → triple P rest (fun r s => r = 0 → sessionless method u s) →
  triple P (res ← m; if res <? 0 then mret res else rest) (fun r s => r = 0 → sessionless method u s).
Proof using Type.
  clear L. intros Hm H. eapply triple_bind; [apply Hm|]. intros res. cbv beta.
  destruct (res <? 0) eqn:Hr; [|done]. apply triple_ret. intros s _ ->. done.
Qed.
Lemma options_sessionless u ms :
  triple client_ready (run_client_call (CallOptions None 0 u ms))
    (fun r s => r = 0 → sessionless RTSP_METHOD_TYPE_OPTIONS u s).
Proof using Type.
  clear L. cbn [run_client_call]. unfold rtsp_client_options. case_match; [by apply triple_ret|].
  apply step_sessionless; [apply ready_may_request|]. eapply triple_bind; [apply new_header_sessionless|].
  intros []. eapply triple_weaken with (Q := fun _ => sessionless RTSP_METHOD_TYPE_OPTIONS u); [|done|done].
  unfold number_header, sign_header. repeat apply preserves_bind; intros; keep; apply sessionless_submit.
Qed.

Lemma check_method_sessionless P method u m flag rest :
  triple P rest (fun r s => r = 0 → sessionless method u s) →
  triple P (check_method m flag rest) (fun r s => r = 0 → sessionless method u s).
Proof using Type.
  clear L. intros Hrest. unfold check_method, method_allowed. case_match; [by apply triple_ret|].
  intros s r s' Hs (b & s1 & [= <- <-] & Hr)%bind_inv. revert Hr.
  case_match; [by intros [= <- <-]|]. by apply Hrest.
Qed.

Lemma describe_sessionless path u ms :
  triple client_ready (run_client_call (CallDescribe path None 0 u ms))
    (fun r s => r = 0 → sessionless RTSP_METHOD_TYPE_DESCRIBE u s).
Proof using Type.
  clear L. apply check_method_sessionless, step_sessionless; [apply ready_may_request|].
  eapply triple_bind; [apply new_header_sessionless|]. intros [].
  eapply triple_weaken with (Q := fun _ => sessionless RTSP_METHOD_TYPE_DESCRIBE u); [|done|done].
  unfold make_uri. repeat apply preserves_bind; intros; keep. apply sessionless_authorize.
  apply preserves_bind; [keep|intros; apply sessionless_submit].
Qed.

(** ** OPTIONS *)

Definition options_answer (s : rtsp_server) (cseq : Z) : rtsp_response_header :=
  set_rp_public_methods server_public_methods
    (status_fields 200 (cs "OK") cseq (sv_software_name s) (sv_now s) rtsp_response_header_clear).

Lemma int64_text s (text : bytes) :
  Zlen text < sv_max_msg_size s → sv_max_msg_size s <= INT_MAX → Zlen text <= INT64_MAX.
Proof using Type. clear L. assert (INT_MAX <= INT64_MAX) by done. lia. Qed.

(** A request that reaches the server keeps its number and its URI. *)
Lemma sessionless_on_wire method u c :
  sessionless method u c → rq_transport (request_on_wire (cl_header c)) = Some <$> [] ∧
  rq_method (request_on_wire (cl_header c)) = method ∧
  rq_ext (request_on_wire (cl_header c)) = [].
Proof using Type.
  clear L. intros (_ & _ & Hm & _ & Ht & _ & He). unfold request_on_wire. cbn. by rewrite Ht.
Qed.

(** C10: OPTIONS, from the application of the client to the server and back: the
    request that was accepted, cut into any chunks, makes the server send exactly
    one response on the connection, and no matter how this one is cut the
    application is called back with the status OK and the eight methods of the
    server, with its user data; the client may make the next request in the
    callback, and will only use these methods. *)
Theorem options_end_to_end conn u ms c c' s :
  client_ready c → run_client_call (CallOptions None 0 u ms) c = Some (0, c') →
  wf_request (cl_header c') = true → 0 <= rq_cseq (cl_header c') → server_ready s →
  let resp := options_answer s (rq_cseq (cl_header c')) in
  sendable s resp = true → env_send_conn (sv_out s) conn (text_of_response resp) = 0 →
  ∃ text, requested c text c' ∧ ∀ chunks, concat chunks = text → ∃ s',
    for_each (rtsp_server_pomp_cb conn) chunks s = Some (tt, s') ∧
    answered s conn (text_of_response resp) s' ∧
    ∀ chunks', concat chunks' = text_of_response resp → ∃ ctx, idle ctx ∧
      for_each tskt_client_data_cb chunks' c' = map_state (set_client_rx [] ctx)
        ((ccallback (OnOptionsResp RTSP_CLIENT_REQ_STATUS_OK 0 server_public_methods [] u);;
          modify (set_cl_failed_requests 0))
           (set_cl_methods_allowed server_public_methods (completed c'))).
Proof using L time_errs.
  intros Hready Hr Hwf Hseq Hs resp Hsend Hret.
  pose proof (options_sessionless u ms c 0 c' Hready Hr eq_refl) as Hless.
  destruct (sessionless_on_wire _ _ _ Hless) as (Hts & Hm & _).
  destruct Hless as (Hready' & Hu & Hm' & Hsess & _ & Hscale & _).
  destruct (call_requested c (CallOptions None 0 u ms) c' eq_refl Hr Hwf) as (text & Hreq);
    [rewrite Hscale; exact (scale_ok_hundredths 0 ltac:(lia))|].
  exists text. split; [done|]. intros chunks Hch.
  destruct (request_arrives c text c' s conn chunks Hreq Hs Hch) as (body & ctx & _ & ->).
  assert (rq_cseq (request_on_wire (cl_header c')) = rq_cseq (cl_header c')) as Hn
    by (cbn; by rewrite (proj2 (Z.leb_le _ _) Hseq)).
  destruct (options_answered conn (request_on_wire (cl_header c')) body s [] (proj1 Hs) Hts Hm)
    as (s1 & H1 & Ha); [by rewrite Hn|by rewrite Hn|]. rewrite Hn in Ha. fold resp in Ha.
  exists (set_rx [] ctx s1). rewrite (ignore_eq _ _ _ _ H1). split; [done|]. split; [exact Ha|].
  intros chunks' Hch'. destruct (sendable_ok _ _ Hsend) as [_ [Hl1 Hl2]].
  pose proof (int64_text s _ Hl1 Hl2) as Hl.
  destruct (response_arrives resp [] c' chunks' Hready') as (ctx' & Hi & ->).
  - split_and!; [|exact (scale_ok_hundredths 0 ltac:(lia))|done].
    unfold sendable in Hsend. by bool_to_prop.
  - by rewrite app_nil_r.
  - by rewrite app_nil_r.
  - exists ctx'. split; [done|]. f_equal. unfold ignore, mbind, SM_bind.
    rewrite pending_response; [|by destruct Hreq|cbn; by rewrite (proj2 (Z.leb_le _ _) Hseq)].
    unfold mbind, SM_bind. rewrite options_completes; [|done..|by intros [? [=]]]. rewrite Hu. unfold mbind, SM_bind.
    by destruct (ccallback _ _) as [[[] c2]|].
Qed.

(** ** DESCRIBE *)

(** The request is handed to the application, which does not answer it at once. *)
Lemma describe_arrives conn h body s host path :
  wf_server s → rq_transport h = Some <$> [] → rq_method h = RTSP_METHOD_TYPE_DESCRIBE →
  rtsp_url_parse_host_and_path (rq_uri h) = Ok (host, path) →
  let asked := CbDescribe host path (rq_ext h) (sv_next_ptr s) in
  env_app (sv_out s ++ [asked]) = [] →
  rtsp_server_request_process conn h body s
  = Some (0, set_sv_out (sv_out s ++ [asked]) (arrived s (received s conn h body))).
Proof using Type.
  clear L. intros Hwf Hts Hm Hurl asked Happ.
  rewrite (request_process_eq conn h body [] s Hwf Hts), Hm. cbn [dispatch].
  destruct (received_fields s conn h body) as (Hp & _ & Hh & _ & Hcb & Hrep).
  set (r := received s conn h body) in *. set (p := sv_next_ptr s) in *.
  pose proof (arrived_pends s r Hwf Hp) as P.
  assert (pends (arrived s (set_pr_in_callback 1 r)) (sv_pending s) (set_pr_in_callback 1 r) []) as P1
    by (by apply arrived_pends).
  set (s1 := set_sv_out (sv_out s ++ [asked]) (arrived s (set_pr_in_callback 1 r))).
  assert (pends s1 (sv_pending s) (set_pr_in_callback 1 r) []) as P2 by (destruct P1; by constructor).
  assert (set_pr_in_callback 0 (set_pr_in_callback 1 r) = r) as Hr by (rewrite <- Hcb; by destruct r).
  set (s2 := set_sv_out (sv_out s ++ [asked]) (arrived s r)).
  assert (pends s2 (sv_pending s) r []) as P3 by (destruct P; by constructor).
  eapply bind_intro with (a := (0, 0)) (s1 := s2); [|reflexivity].
  unfold with_status. eapply bind_intro with (a := 0) (s1 := s2); [|reflexivity].
  unfold rtsp_server_describe. eapply bind_intro; [exact (request_at_eq P p Hp)|].
  cbv zeta. rewrite Hh, Hurl. eapply bind_intro with (a := 0) (s1 := s1).
  - eapply bind_intro; [exact (upd_request_eq P p (set_pr_in_callback 1) Hp)|].
    eapply bind_intro with (a := tt) (s1 := s1); [|reflexivity].
    unfold callback. eapply bind_intro; [reflexivity|]. eapply bind_intro; [reflexivity|].
    change (for_each (fun c => ignore (run_api_call c)) (env_app (sv_out s ++ [asked])) s1
            = Some (tt, s1)). by rewrite Happ.
  - eapply bind_intro with (a := tt) (s1 := s2); [|reflexivity]. unfold callback_done.
    eapply bind_intro; [exact (upd_request_eq P2 p (set_pr_in_callback 0) Hp)|].
    rewrite Hr. eapply bind_intro; [exact (request_at_eq P3 p Hp)|]. by rewrite Hrep.
Qed.

(** The response to the DESCRIBE request [h], with the description [sd]. *)
Definition description (s : rtsp_server) (h : rtsp_request_header) (sd : cstr)
    : rtsp_response_header :=
  set_rp_content_base (rq_uri h) (set_rp_content_type (Some RTSP_CONTENT_TYPE_SDP)
    (set_rp_content_length (Zlen sd)
      (status_fields 200 (cs "OK") (rq_cseq h) (sv_software_name s) (sv_now s)
         rtsp_response_header_clear))).

(** The description reaches the client that asked for it. *)
Lemma description_arrives s c' u sd chunks :
  sessionless RTSP_METHOD_TYPE_DESCRIBE u c' → cl_is_pending c' = true → 0 <= rq_cseq (cl_header c') →
  let resp := description s (cl_header c') sd in
  sendable s resp = true → Zlen (text_of_response resp) + Zlen sd < sv_max_msg_size s →
  concat chunks = text_of_response resp ++ sd → ∃ ctx, idle ctx ∧
    for_each tskt_client_data_cb chunks c' = map_state (set_client_rx [] ctx)
      ((ccallback (OnDescribeResp RTSP_CLIENT_REQ_STATUS_OK 0 (rq_uri (cl_header c')) [] sd u);;
        modify (set_cl_failed_requests 0)) (completed c')).
Proof using L.
  intros (Hready & Hu & Hm & Hsess & _) Hp Hseq resp Hsend Hfit Hch.
  destruct (sendable_ok _ _ Hsend) as [_ [_ Hmax]].
  destruct (response_arrives resp sd c' chunks Hready) as (ctx & Hi & ->).
  - split_and!; [|exact (scale_ok_hundredths 0 ltac:(lia))|done].
    unfold sendable in Hsend. by bool_to_prop.
  - done.
  - apply (int64_text s); [by rewrite Zlen_app|done].
  - exists ctx. split; [done|]. f_equal. unfold ignore, mbind, SM_bind.
    rewrite pending_response; [|done|cbn; by rewrite (proj2 (Z.leb_le _ _) Hseq)].
    unfold mbind, SM_bind. rewrite describe_completes; [|done..|by intros [? [=]]].
    rewrite Hu. unfold mbind, SM_bind.
    assert (description_base (response_on_wire resp) (rq_uri (cl_header c')) = rq_uri (cl_header c'))
      as -> by (unfold description_base; cbn; by destruct (rq_uri _) as [[|? ?]|]).
    by destruct (ccallback _ _) as [[[] c2]|].
Qed.

(** C2: DESCRIBE, from the application of the client to that of the server and back:
    the request that was accepted, cut into any chunks, calls the application of
    the server once; when this one replies with a description, exactly one message
    is sent on the connection and the request is removed; and no matter how the
    message is cut the application of the client is called back with the status OK,
    the description, the URI of the request as its base and its user data. *)
Theorem describe_end_to_end conn path u ms c c' s host p sd :
  client_ready c → run_client_call (CallDescribe path None 0 u ms) c = Some (0, c') →
  wf_request (cl_header c') = true → 0 <= rq_cseq (cl_header c') → server_ready s →
  rtsp_url_parse_host_and_path (rq_uri (cl_header c')) = Ok (host, p) →
  let asked := CbDescribe host p [] (sv_next_ptr s) in
  env_app (sv_out s ++ [asked]) = [] →
  sd ≠ [] → Zlen sd < RTSP_SESSION_DESCRIPTION_MAX_LEN →
  let resp := description s (cl_header c') sd in
  sendable s resp = true → Zlen (text_of_response resp) + Zlen sd < sv_max_msg_size s →
  let answer := text_of_response resp ++ sd in
  env_send_conn (sv_out s ++ [asked]) conn answer = 0 →
  ∃ text, requested c text c' ∧ ∀ chunks, concat chunks = text → ∃ s1 s2,
    for_each (rtsp_server_pomp_cb conn) chunks s = Some (tt, s1) ∧
    sv_out s1 = sv_out s ++ [asked] ∧
    rtsp_server_reply_to_describe (Some (sv_next_ptr s)) 200 None 0 (Some sd) s1 = Some (0, s2) ∧
    sv_out s2 = sv_out s1 ++ [SendConn conn answer 0] ∧ sv_pending s2 = sv_pending s ∧
    ∀ chunks', concat chunks' = answer → ∃ ctx, idle ctx ∧
      for_each tskt_client_data_cb chunks' c' = map_state (set_client_rx [] ctx)
        ((ccallback (OnDescribeResp RTSP_CLIENT_REQ_STATUS_OK 0 (rq_uri (cl_header c')) [] sd u);;
          modify (set_cl_failed_requests 0)) (completed c')).
Proof using L time_errs.
  intros Hready Hr Hwf Hseq Hs Hurl asked Happ Hne Hlen resp Hsend Hfit answer Hret.
  pose proof (describe_sessionless path u ms c 0 c' Hready Hr eq_refl) as Hless.
  destruct (sessionless_on_wire _ _ _ Hless) as (Hts & Hm & Hext).
  pose proof Hless as (_ & _ & _ & _ & _ & Hscale & _).
  destruct (call_requested c (CallDescribe path None 0 u ms) c' eq_refl Hr Hwf) as (text & Hreq);
    [rewrite Hscale; exact (scale_ok_hundredths 0 ltac:(lia))|].
  exists text. split; [done|]. intros chunks Hch.
  destruct (request_arrives c text c' s conn chunks Hreq Hs Hch) as (body & ctx & _ & ->).
  set (h := request_on_wire (cl_header c')) in *.
  assert (rq_cseq h = rq_cseq (cl_header c')) as Hn
    by (cbn; by rewrite (proj2 (Z.leb_le _ _) Hseq)).
  pose proof (describe_arrives conn h body s host p (proj1 Hs) Hts Hm Hurl) as Harr.
  rewrite Hext in Harr. fold asked in Harr. rewrite (ignore_eq _ _ _ _ (Harr Happ)).
  destruct (received_fields s conn h body) as (Hp & Hc & Hh & Hclear & Hcb & _).
  set (r := received s conn h body) in *.
  set (s1 := set_rx [] ctx (set_sv_out (sv_out s ++ [asked]) (arrived s r))).
  assert (pends s1 (sv_pending s) r []) as P
    by (destruct (arrived_pends s r (proj1 Hs) Hp) as [? ?]; by constructor).
  assert (describe_response s1 r sd = resp) as Hresp.
  { unfold describe_response, status_response, resp, description. by rewrite Hh, Hclear, Hn. }
  assert (pr_in_callback r = 0) as Hcb0 by by rewrite <- Hcb.
  pose proof (reply_to_describe_answered s1 (sv_pending s) [] r conn sd P Hc Hcb0 Hne Hlen) as Hrep.
  cbv zeta in Hrep. rewrite Hresp in Hrep. specialize (Hrep Hsend Hfit).
  fold answer in Hrep. change (sv_out s1) with (sv_out s ++ [asked]) in Hrep.
  rewrite Hret, Hp, app_nil_r in Hrep.
  exists s1, (replied_state (sv_pending s) (sent conn answer s1)).
  split_and!; [done|done|exact Hrep| |done|].
  - unfold sent. cbn [sv_out replied_state set_sv_pending_count set_sv_pending set_sv_out].
    change (sv_out s1) with (sv_out s ++ [asked]). by rewrite Hret.
  - intros chunks' Hch'. by eapply description_arrives; [|destruct Hreq| |..].
Qed.
End network.

(** ** Concrete inputs *)

#[local] Existing Instance stub_time.

Definition sample_server_env : Env := sample_env (fun _ => []).
Definition sample_client_env : ClientEnv := client_env idle_app true.

Definition after_call (call : client_call) : rtsp_client :=
  match run_client_call (E := sample_client_env) call connected_client with
  | Some (_, c) => c
  | None => connected_client
  end.

Lemma new_server_ready : server_ready new_server.
Proof. split; [exact new_server_wf|done]. Qed.

Lemma options_end_to_end_witness :
  let call := CallOptions None 0 7 4000 in
  let resp := options_answer new_server (rq_cseq (cl_header (after_call call))) in
  ∃ text, requested connected_client text (after_call call) ∧
    ∀ chunks, concat chunks = text → ∃ s',
      for_each (rtsp_server_pomp_cb (E := sample_server_env) 1) chunks new_server = Some (tt, s') ∧
      answered (E := sample_server_env) new_server 1 (text_of_response resp) s' ∧
      ∀ chunks', concat chunks' = text_of_response resp → ∃ ctx, idle ctx ∧
        for_each (tskt_client_data_cb (E := sample_client_env)) chunks' (after_call call)
        = map_state (set_client_rx [] ctx)
            ((ccallback (E := sample_client_env)
                (OnOptionsResp RTSP_CLIENT_REQ_STATUS_OK 0 server_public_methods [] 7);;
              modify (set_cl_failed_requests 0))
               (set_cl_methods_allowed server_public_methods (completed (after_call call)))).
Proof.
  exact (options_end_to_end (L := stub_time_laws) (SE := sample_server_env) (CE := sample_client_env)
           stub_time_errs 1 7 4000 connected_client (after_call (CallOptions None 0 7 4000)) new_server
           ltac:(by split; vm_compute) ltac:(by vm_compute) ltac:(by vm_compute) ltac:(by vm_compute)
           new_server_ready ltac:(by vm_compute) ltac:(by vm_compute)).
Defined.

Lemma describe_end_to_end_witness :
  let call := CallDescribe (Some (cs "track1")) None 0 7 4000 in
  let uri := Some (cs "rtsp://192.168.42.1:554/live/track1") in
  let asked := CbDescribe (cs "192.168.42.1") (Some (cs "live/track1")) [] 0 in
  let resp := description new_server (cl_header (after_call call)) sample_sdp in
  let answer := text_of_response resp ++ sample_sdp in
  ∃ text, requested connected_client text (after_call call) ∧
    ∀ chunks, concat chunks = text → ∃ s1 s2,
      for_each (rtsp_server_pomp_cb (E := sample_server_env) 1) chunks new_server = Some (tt, s1) ∧
      sv_out s1 = sv_out new_server ++ [asked] ∧
      rtsp_server_reply_to_describe (E := sample_server_env) (Some 0%nat) 200 None 0
        (Some sample_sdp) s1 = Some (0, s2) ∧
      sv_out s2 = sv_out s1 ++ [SendConn 1 answer 0] ∧ sv_pending s2 = sv_pending new_server ∧
      ∀ chunks', concat chunks' = answer → ∃ ctx, idle ctx ∧
        for_each (tskt_client_data_cb (E := sample_client_env)) chunks' (after_call call)
        = map_state (set_client_rx [] ctx)
            ((ccallback (E := sample_client_env)
                (OnDescribeResp RTSP_CLIENT_REQ_STATUS_OK 0 (rq_uri (cl_header (after_call call)))
                   [] sample_sdp 7);;
              modify (set_cl_failed_requests 0)) (completed (after_call call))).
Proof.
  exact (describe_end_to_end (L := stub_time_laws) (SE := sample_server_env) (CE := sample_client_env)
           stub_time_errs 1 (Some (cs "track1")) 7 4000 connected_client
           (after_call (CallDescribe (Some (cs "track1")) None 0 7 4000)) new_server
           (cs "192.168.42.1") (Some (cs "live/track1")) sample_sdp
           ltac:(by split; vm_compute) ltac:(by vm_compute) ltac:(by vm_compute) ltac:(by vm_compute)
           new_server_ready ltac:(by vm_compute) ltac:(by vm_compute) ltac:(by_decide)
           ltac:(by vm_compute) ltac:(by vm_compute) ltac:(by vm_compute) ltac:(by vm_compute)).
Defined.
