(* ===== verification/NetworkLife.v ===== *)
(** * Whole sessions of a client and a server, executed

    What one end sends is handed to the other one until nothing is on its way. *)

From S2P Require Import Prelude CString CNumber Writer Url Methods Transport AuthHeader CFloat TimeRange.
From S2P Require Import Framing HeaderLine HeaderFields Request Response Message ObjList StateMonad.
From S2P Require Import ServerState ServerSession ServerRequest ServerReply Server ServerSample.
From S2P Require Import ClientState ClientSession ClientRequest Client ClientRun ClientSample.
From stdpp Require Import options.

Local Open Scope Z_scope.

#[local] Existing Instance stub_time.
#[local] Instance life_server : Env := sample_env reply_at_once.
#[local] Instance life_client : ClientEnv := client_env idle_app true.

(** What the ends sent to each other, successfully. *)
Definition client_wire (out : list client_output) : list bytes :=
  omap (fun o => match o with Sent text ret => if 0 <=? ret then Some text else None | _ => None end) out.

Definition server_wire (conn : Z) (out : list output) : list bytes :=
  omap (fun o => match o with
                 | SendConn c text ret => if (c =? conn) && (0 <=? ret) then Some text else None
                 | _ => None
                 end) out.

(** The two ends, with what was carried already. *)
Record network := Net { n_client : rtsp_client; n_server : rtsp_server; n_up : nat; n_down : nat }.

Definition deliver_up (n : network) : option network :=
  let texts := client_wire (cl_out (n_client n)) in
  '(_, s) ← for_each (rtsp_server_pomp_cb 1) (drop (n_up n) texts) (n_server n);
  Some (Net (n_client n) s (length texts) (n_down n)).

Definition deliver_down (n : network) : option network :=
  let texts := server_wire 1 (sv_out (n_server n)) in
  '(_, c) ← for_each tskt_client_data_cb (drop (n_down n) texts) (n_client n);
  Some (Net c (n_server n) (n_up n) (length texts)).

(** An event of the client, and all that follows; [rounds] bounds the turns. *)
Fixpoint settle (rounds : nat) (n : network) : option network :=
  match rounds with
  | O => Some n
  | S rounds => n ← deliver_up n; n ← deliver_down n; settle rounds n
  end.

Definition on_client (n : network) (e : client_step_event) : option network :=
  '(_, c) ← client_handle e (n_client n);
  settle 4 (Net c (n_server n) (n_up n) (n_down n)).

Fixpoint on_clients (es : list client_step_event) (n : network) : option network :=
  match es with
  | [] => Some n
  | e :: es' => n ← on_client n e; on_clients es' n
  end.

Definition both_new : network := Net new_client new_server 0 0.

(** The id that the server draws first. *)
Definition first_id : cstr := cs "1000000000000000".

(** Two medias are set up, played and paused, with a keep alive in between, and
    torn down. *)
Definition life_of_a_session : list client_step_event :=
  connected_to client_sample_url ++
  [do_setup "video" None; do_setup "audio" (Some first_id);
   DoRequest (CallPlay (Some first_id) (Some range_zero) (S754_zero false) None 0 5 4000);
   KeepAliveTimer 0;
   DoRequest (CallPause (Some first_id) (Some range_zero) None 0 6 4000);
   DoRequest (CallTeardown None (Some first_id) None 0 7 4000)].

(** The calls of the application of the client about its requests and sessions,
    with their status, and of that of the server about its medias. *)
Definition told_client (c : rtsp_client) : list (string * Z) :=
  omap (fun o => match o with
    | OnSetupResp _ _ status _ _ _ _ _ _ => Some ("setup"%string, status)
    | OnPlayResp _ _ status _ _ _ _ _ _ _ _ => Some ("play"%string, status)
    | OnPauseResp _ _ status _ _ _ => Some ("pause"%string, status)
    | OnTeardownResp _ _ status _ _ => Some ("teardown"%string, status)
    | OnSessionRemoved _ status => Some ("removed"%string, status)
    | _ => None end) (cl_out c).

Definition told_server (s : rtsp_server) : list (string * ptr) :=
  omap (fun o => match o with
    | CbSetup _ _ _ _ m _ _ _ _ _ _ => Some ("setup"%string, m)
    | CbPlay _ _ _ m _ _ _ => Some ("play"%string, m)
    | CbPause _ _ _ m _ _ => Some ("pause"%string, m)
    | CbTeardown _ _ _ _ _ m _ => Some ("teardown"%string, m)
    | _ => None end) (sv_out s).

(** The two ends together: each request of the application of the client ends with
    one call of it, with success, in the order of the requests; the server hands
    each request to its application for each media; and in the end neither has a
    session, a request that waits or a channel that is used. *)
Example life_end_to_end :
  match on_clients life_of_a_session both_new with
  | Some (Net c s _ _) =>
      told_client c = [("setup", 0); ("setup", 0); ("play", 0); ("pause", 0); ("teardown", 0);
                       ("removed", 0)]%string ∧
      told_server s = [("setup", 2); ("setup", 4); ("play", 2); ("play", 4); ("pause", 2);
                       ("pause", 4); ("teardown", 2); ("teardown", 4)]%string%nat ∧
      cl_sessions c = [] ∧ cl_is_pending c = false ∧ cl_timer c = None ∧
      count_channel_unused (cl_channel_used c) = CHANNELS ∧
      sv_sessions s = [] ∧ sv_session_count s = 0 ∧ sv_pending s = []
  | None => False
  end.
Proof. vm_compute. by split_and!. Qed.
